(* ===== verification/_CoqProject ===== *)
-Q . S2P
Prelude.v
RoscaTypes.v
RoscaRounds.v
RoscaCalls.v
RoscaSample.v
RoscaLogic.v
RoscaFrame.v
RoscaSchedule.v
RoscaTyping.v
RoscaInvariant.v
RoscaPreservation.v
RoscaMembership.v
RoscaLifecycle.v
RoscaSafety.v
RoscaMoney.v
RoscaLiveness.v
RoscaFairness.v
RoscaScenarios.v
RoscaTheorems.v
RoscaTests.v
MockRuntime.v
Indexer.v
IndexerTables.v
IndexerFollows.v
IndexerRounds.v
IndexerSteps.v
IndexerTheorems.v
Weights.v
WeightsMonetary.v
WeightsGovernance.v
WeightsSystem.v
WeightsRuntime.v
RuntimeConstants.v
RuntimeGovernance.v
RuntimeFilters.v
RuntimeXcm.v
RuntimeXcmExecutor.v
RuntimePrivileges.v
RuntimeBlocks.v
RuntimeFees.v
RuntimeAssets.v
RuntimePallets.v
RuntimeGenesis.v
RuntimeDeposits.v
Effects.v
RuntimeBenchmarks.v
RuntimeApis.v
NodeService.v
NodeCommand.v
NodeCli.v
Fuzzer.v
