(* ===== verification/Prelude.v ===== *)
(** * DotCircles: a verification of the ROSCA pallet, its runtime, node and indexer

    DotCircles runs rotating savings and credit associations (ROSCAs) on a Substrate
    parachain.  Its core is the pallet [generic-template/pallets/rosca]; the rest of
    the repository is the runtime that hosts the pallet ([generic-template/runtime]),
    the node ([generic-template/node]), a fuzzer, an indexer and a front end.

    ** The pallet

    A ROSCA is created with a list of invited accounts, joined and left while it is
    pending, and started by a participant.  From then on each round has a claimant,
    whom every other participant pays before the pay-by time of the round; missed
    contributions are settled from the security deposits of the defaulters.  After the
    last round the ROSCA is completed and what is left of the deposits can be claimed.

    - [RoscaTypes] has the types of [types.rs] and, from [lib.rs], the [Config] trait,
      the events, the errors, the storage items (the record [State], one field per
      item) and their getters, and the monad [M] of the functions: a state transition
      with an error, a panic or an exhausted loop bound.  Integers are [Z] with the width
      of their type written out ([u32], [u64], [u128]; [usize] is 32 bits, as in Wasm).
    - [RoscaRounds] has the helper functions: [rosca_account_id],
      [shuffle_participants], [process_defaulters], [advance_rosca_round],
      [check_and_complete_rosca] and [generate_rounds].
    - [RoscaCalls] has the eight dispatchable calls, statement by statement, the type
      [Call] and [dispatch].
    - What the pallet calls and the repository does not contain is a field of the class
      [Config]: accounts and their order, the sub-account derivation, the [fungibles]
      ledger with its [transfer], [blake2_128] and [clear_prefix].  What is relied on is
      stated in [ConfigLaws] and, for the ledger, in [LedgerLaws] ([RoscaMoney]).
      [RoscaSample] is a concrete instance, and shows that the laws can hold.

    The loops of [contribute_to_rosca] and [manually_end_rosca] run on [loop_fuel], which is
    one more than [MaxParticipants]: each iteration settles one round, and a ROSCA has
    at most [MaxParticipants] of them.  Theorem C1 shows that the bound is never
    exhausted.  The shuffle runs on the number of participants, one draw for each.

    The proofs are layered:

    - [RoscaLogic]: weakest preconditions with an error postcondition, the view of the
      storage under one [RoscaId], the frame relation and the effects of a run, its
      transfers and events in order; [RoscaFrame]: every function writes under one [RoscaId] only.
    - [RoscaSchedule]: the shuffle as a function of one byte, and the schedule that
      [generate_rounds] announces.
    - [RoscaInvariant]: the phases of a ROSCA (pending, running round [k] of its
      schedule, completed) and the storage invariant [Inv]; what the settlement of a
      round does.  [RoscaPreservation] and [RoscaMembership]: the catch-up loops, and
      joining, leaving, starting and creating.
    - [RoscaLifecycle]: the abstract specification [rosca_step], a relation between the
      views of one ROSCA before and after a call with the effects of the call.
      [RoscaSafety]: each call refines it, keeps [Inv], reports only the errors listed
      for it, and never panics or loops; executions of the chain ([reachable]).
    - [RoscaMoney]: the deposits recorded for a ROSCA are covered by its account.
      [RoscaLiveness]: while the ledger moves the payment asset, a running ROSCA can be
      ended and every deposit claimed.  [RoscaFairness]: rounds in which everybody pays,
      and what an account is owed after each of them.
    - [RoscaTyping]: the integers and lists of the model stay within the widths and bounds
      of the types they stand for.
    - [RoscaScenarios]: executions written as lists of calls and clock settings, and those
      of the sample pallet that serve as instances.
      [RoscaTests]: all tests of [tests.rs], replayed on the model; they pass.
      [MockRuntime]: the mock runtime of [mock.rs] that the tests run on, and that the
      sample pallet is configured as in it.
    - [RoscaTheorems]: the results, C1 to C11, C13 to C21, C33 and C35.  C1 is safety, C2
      refinement; C3 to C11 and C13 the behaviour of the operations; C14 and C15 hold along
      executions; C16 and C17 read the invariant off the storage; C18 is the backing of the
      deposits and C19 their payment; C20 and C21 are two defects of the code, proved; C33
      is the fairness of a ROSCA in which all contributions are made: nobody gains or loses,
      and the position of every account after each round is exact; C35 is the recovery of
      the deposits.

    Executions consist of admissible calls and of steps of the environment, in which
    time does not go back and the storage of the pallet does not change.  A call is
    admissible when its arguments can be decoded and, for [create_rosca], the next
    identifier does not overflow and the position is below the number of participants:
    C20 shows the panic otherwise.  C18, C33 and C35 need a minimum balance of at most one
    unit for the payment assets, which [testnet_genesis] does not give (it sets 70000);
    [RuntimeDeposits] configures the pallet as the runtime does, over a ledger with that
    minimum, and has an execution after which a deposit is covered by nothing.

    ** The indexer

    The indexer keeps a database of the ROSCAs for the front end, by handling the events of
    the pallet one after the other.

    - [Indexer] has the tables of [indexer/schema.graphql], the eleven handlers of
      [indexer/src/mappings/mappingHandlers.ts] as functions on them, and the assignment
      of handlers to events of [indexer/project.ts].  A handler that throws has no result; a
      save throws when a number does not fit its 32-bit column (the store may delay the
      failure until it flushes its cache).  The query [getByFields] of the store is a parameter ([Store], [StoreLaws]).
    - [IndexerTables]: a handler writes only for the ROSCA its event is about; runs of the
      indexer over the events of a call, whatever the timestamps of the blocks.
    - [IndexerFollows] says what the tables hold of a ROSCA in each phase ([follows]),
      and shows it for joining, leaving and the deposits; [IndexerRounds] for the rounds,
      [IndexerSteps] for every step of [rosca_step] and so for every execution.
    - [IndexerTheorems]: C12, as long as the numbers fit the columns, the indexer never
      throws and agrees with the storage on everything but the deposits of defaulters and
      the cutoff of the current round; C22, that cutoff is wrong in every round but the
      first; C36, which deposit is the first that does not fit.

    The proofs compose with those of the pallet: the events of a call are those of the
    step of the specification that it refines (C2).

    ** The runtime

    - [Weights] states the interface of [sp_weights] as a class with laws, and has the
      weight constants; [WeightsMonetary], [WeightsGovernance] and [WeightsSystem] have the
      weight functions of [runtime/src/weights], and [WeightsRuntime] bounds each of them
      by the weight of a block on the range of its components (C23).
    - [RuntimeConstants]: [constants.rs], the amounts and periods of [configs/mod.rs] and
      [configs/governance/mod.rs], and the fee polynomial.  [RuntimeBlocks]: the limits of
      a block, the weights reserved in it and the other numeric parameters.
      [RuntimeFees]: what a transaction costs (C27).
    - [RuntimeGovernance]: the custom origins, the treasury spenders and the referenda
      tracks (C28, C29).
    - [RuntimeFilters]: the pallets with their indices, the base call filter and the
      proxy filter (C30).  [RuntimePallets]: the configuration of every pallet, a module
      for each, and how they agree.
    - [RuntimeXcm]: the foreign assets, the reserve and location filters and the barrier
      for HRMP notifications of [xcm_config.rs].  [RuntimeXcmExecutor]: the whole
      [Barrier], and which messages it lets through (C39).  [RuntimeAssets]: the asset
      transactors, the trader, the router and the configurations of the executor and of
      [pallet_xcm]; C24 relates the assets that are accepted to those that are kept, C25
      is the price of a message.
    - [RuntimePrivileges]: the origins that the pallets' configurations require, the
      origin a cross-chain message is dispatched with, and who may do what (C26, C40).
    - [RuntimeApis]: the functions of [apis.rs], the transaction extensions and the
      consensus hook of [types.rs].  [RuntimeBenchmarks]: [benchmark.rs] and the
      benchmarks of [apis.rs] (C32).  Both are programs of [Effects], below.

    The types of FRAME, XCM and [sp_core] that this configuration is written against are
    classes with the laws that their documentation states; each class that a theorem
    relies on has a concrete instance.

    ** The node and the fuzzer

    Most of what these do is to call libraries in a certain order.  [Effects] has the
    programs they are written as (and the runtime APIs, too): trees whose nodes are
    library calls, with any result that the call may have; the theorems are about all
    runs.

    - [RuntimeGenesis]: the genesis configurations of [node/src/chain_spec.rs] (C34).
    - [NodeService]: [node/src/service.rs] and [node/src/rpc.rs]; C37 is the order in
      which a node is started.
    - [NodeCommand]: [node/src/cli.rs] and [node/src/command.rs]; C31 says when
      [main] joins a network, and that it does so for the parachain that the chain
      specification names.  [NodeCli]: the interfaces that the two command lines
      implement.
    - [Fuzzer]: [template-fuzzer/src/main.rs]; C38 bounds the weight of the calls it
      dispatches in a block.  Its loops are structural on the decoded input.

    ** Not modelled

    Library code behind the interfaces: FRAME's pallets and [Executive], XCM's builders
    and executor, the client and the relay chain's command line; what the theorems need of
    it is stated as laws.  The type aliases of [types.rs] and the associated types of the
    configurations that only name a type of the runtime, which carry no behaviour.  The
    tests under [runtime/tests], which compare constants and exercise the libraries.  The
    texts of the help of the command line and the log messages of the indexer.  The front
    end (TypeScript), which shows the tables of the indexer and submits the calls. *)

From stdpp Require Export base tactics numbers option list gmap sorting strings.
From Stdlib Require Export ZArith Lia.
#[global] Open Scope Z_scope.

(** * Machine integers

    A [uN] value of the source is a [Z] in the range [0 .. 2^N - 1]; the
    arithmetic the source performs on it is written out with its width. *)

Definition u8_MAX : Z := 2 ^ 8 - 1.
Definition u32_MAX : Z := 2 ^ 32 - 1.
Definition u64_MAX : Z := 2 ^ 64 - 1.
Definition u128_MAX : Z := 2 ^ 128 - 1.

(** [x] is a value of the unsigned type whose largest value is [max]. *)
Definition in_width (max x : Z) : Prop := 0 ≤ x ≤ max.

(** Rust's [checked_add], [checked_sub], [saturating_add], [saturating_mul] and the
    wrapping addition a release build performs. *)
Definition checked_add (max a b : Z) : option Z :=
  if a + b <=? max then Some (a + b) else None.
Definition checked_sub (a b : Z) : option Z :=
  if b <=? a then Some (a - b) else None.
Definition saturating_add (max a b : Z) : Z := Z.min max (a + b).
Definition saturating_mul (max a b : Z) : Z := Z.min max (a * b).
Definition wrapping_add (max a b : Z) : Z := (a + b) mod (max + 1).
Definition wrapping_sub (max a b : Z) : Z := (a - b) mod (max + 1).

Lemma checked_add_Some max a b c :
  checked_add max a b = Some c ↔ c = a + b ∧ a + b ≤ max.
Proof. unfold checked_add. case_match; naive_solver lia. Qed.

Lemma checked_add_in max a b : a + b ≤ max → checked_add max a b = Some (a + b).
Proof. intros ?. by apply checked_add_Some. Qed.

Lemma checked_add_None max a b : checked_add max a b = None ↔ max < a + b.
Proof. unfold checked_add. case_match; naive_solver lia. Qed.

Lemma checked_sub_Some a b c : checked_sub a b = Some c ↔ c = a - b ∧ b ≤ a.
Proof. unfold checked_sub. case_match; naive_solver lia. Qed.

Lemma checked_sub_in a b : b ≤ a → checked_sub a b = Some (a - b).
Proof. intros ?. by apply checked_sub_Some. Qed.

Lemma wrapping_sub_in max a b : 0 ≤ b → b ≤ a → a ≤ max → wrapping_sub max a b = a - b.
Proof. intros. apply Z.mod_small. lia. Qed.

Lemma wrapping_add_in max a b : 0 ≤ a → 0 ≤ b → a + b ≤ max → wrapping_add max a b = a + b.
Proof. intros. apply Z.mod_small. lia. Qed.

(** * Outcomes

    What a computation of the runtime can end in: a value, an error that the
    dispatcher reports (and on which it rolls the storage back), a panic, or, for
    a loop run on a bounded number of iterations, the exhaustion of that bound. *)

Inductive outcome (E A : Type) : Type :=
  | Ok (a : A)
  | Err (e : E)
  | Panic
  | Diverge.
Arguments Ok {E A} a.
Arguments Err {E A} e.
Arguments Panic {E A}.
Arguments Diverge {E A}.

(** * Double maps

    A [StorageDoubleMap] is a map from its first key to the map of the entries
    under that prefix; a prefix without entries and an absent prefix are the same. *)

Section double_map.
Context {K1 K2 : Type} `{Countable K1} `{Countable K2} {V : Type}.
Implicit Types (m : gmap K1 (gmap K2 V)) (a : K1) (b : K2) (v : V).

Definition prefix m a : gmap K2 V := default ∅ (m !! a).
Definition dlookup m a b : option V := prefix m a !! b.
Definition dset a (p : gmap K2 V) m : gmap K1 (gmap K2 V) := <[a := p]> m.
Definition dinsert a b v m : gmap K1 (gmap K2 V) := dset a (<[b := v]> (prefix m a)) m.
Definition dremove a b m : gmap K1 (gmap K2 V) := dset a (delete b (prefix m a)) m.

Lemma prefix_dset_eq a p m : prefix (dset a p m) a = p.
Proof. unfold prefix, dset. by rewrite lookup_insert_eq. Qed.
Lemma prefix_dset_ne a a' p m : a ≠ a' → prefix (dset a p m) a' = prefix m a'.
Proof. intros. unfold prefix, dset. by rewrite lookup_insert_ne. Qed.
Lemma prefix_dinsert_eq a b v m : prefix (dinsert a b v m) a = <[b := v]> (prefix m a).
Proof. apply prefix_dset_eq. Qed.
Lemma prefix_dinsert_ne a a' b v m : a ≠ a' → prefix (dinsert a b v m) a' = prefix m a'.
Proof. apply prefix_dset_ne. Qed.
Lemma prefix_dremove_eq a b m : prefix (dremove a b m) a = delete b (prefix m a).
Proof. apply prefix_dset_eq. Qed.
Lemma prefix_dremove_ne a a' b m : a ≠ a' → prefix (dremove a b m) a' = prefix m a'.
Proof. apply prefix_dset_ne. Qed.
End double_map.

(** The lookup lemmas of [fin_maps] at [gmap], where rewriting finds its instances. *)
Section gmap_storage.
Context {K : Type} `{Countable K} {V : Type}.
Implicit Types (m : gmap K V) (i j : K) (v : V).
Lemma gmap_insert_eq m i v : <[i := v]> m !! i = Some v.
Proof. apply lookup_insert_eq. Qed.
Lemma gmap_insert_ne m i j v : i ≠ j → <[i := v]> m !! j = m !! j.
Proof. apply lookup_insert_ne. Qed.
Lemma gmap_delete_eq m i : delete i m !! i = None.
Proof. apply lookup_delete_eq. Qed.
Lemma gmap_delete_ne m i j : i ≠ j → delete i m !! j = m !! j.
Proof. apply lookup_delete_ne. Qed.
End gmap_storage.

Create Rewrite HintDb storage.
#[export] Hint Rewrite @prefix_dset_eq @prefix_dinsert_eq @prefix_dremove_eq
  @gmap_insert_eq @gmap_delete_eq : storage.
#[export] Hint Rewrite @prefix_dset_ne @prefix_dinsert_ne @prefix_dremove_ne
  @gmap_insert_ne @gmap_delete_ne using done : storage.

(** * Lists *)

Section lists.
Context {A : Type} `{EqDecision A}.
Implicit Types (l : list A) (a : A).

Lemma filter_ne_id l a : a ∉ l → filter (λ x, x ≠ a) l = l.
Proof.
  induction l as [|x l IH]; intros Ha; [done|].
  rewrite not_elem_of_cons in Ha. rewrite filter_cons_True, IH by naive_solver. done.
Qed.

Lemma filter_ne_length l a : NoDup l → a ∈ l → S (length (filter (λ x, x ≠ a) l)) = length l.
Proof.
  induction 1 as [|x l Hx Hnd IH]; intros Ha; [by apply elem_of_nil in Ha|].
  destruct (decide (x = a)) as [->|Hne].
  - rewrite filter_cons_False, filter_ne_id by naive_solver. done.
  - rewrite filter_cons_True by done. cbn. rewrite IH; [done|]. by apply elem_of_cons in Ha as [].
Qed.
End lists.

(** Case analysis on the membership [H] of an element in a list of known elements. *)
Ltac case_elem H :=
  repeat (apply elem_of_cons in H as [H|H]; [simplify_eq|]); [.. | by apply elem_of_nil in H].

(** [l] read in a ring from position [S k] on, backwards: the order in which a
    ROSCA keeps its participants while the one at position [k] is the claimant. *)
Definition ring_order {A} (l : list A) (k : nat) : list A := reverse (drop (S k) l ++ take (S k) l).

Section ring.
Context {A : Type}.
Implicit Types (l : list A).

Lemma ring_order_Permutation l k : ring_order l k ≡ₚ l.
Proof.
  unfold ring_order. rewrite reverse_Permutation, Permutation_app_comm. by rewrite take_drop.
Qed.

Lemma length_ring_order l k : length (ring_order l k) = length l.
Proof. by rewrite ring_order_Permutation. Qed.

Lemma ring_order_inj l l' k : length l = length l' → ring_order l k = ring_order l' k → l = l'.
Proof.
  intros Hlen Heq. apply (inj reverse) in Heq. apply app_inj_1 in Heq as [Hd Ht].
  - by rewrite <- (take_drop (S k) l), Hd, Ht, take_drop.
  - rewrite !length_drop. lia.
Qed.

(** The claimant is the first of the order. *)
Lemma head_ring_order l k : (k < length l)%nat → head (ring_order l k) = l !! k.
Proof.
  intros Hk. destruct (lookup_lt_is_Some_2 l k Hk) as [x Hx]. unfold ring_order.
  by rewrite (take_S_r _ _ _ Hx), app_assoc, reverse_snoc, Hx.
Qed.

(** Rotating the order right by one makes the next participant the claimant. *)
Lemma ring_order_next l k :
  (k < length l)%nat →
  ∃ x o, l !! (S k mod length l)%nat = Some x ∧ ring_order l k = o ++ [x] ∧
         ring_order l (S k mod length l) = x :: o.
Proof.
  intros Hk. unfold ring_order. destruct (decide (S k = length l)) as [Heq|Hne].
  - rewrite Heq, Nat.Div0.mod_same, drop_all, take_ge, app_nil_l by lia.
    destruct l as [|x l]; [cbn in Hk; lia|]. exists x, (reverse l).
    split_and!; [done | by rewrite reverse_cons |].
    cbn [drop take]. by rewrite drop_0, take_0, reverse_snoc.
  - rewrite Nat.mod_small by lia.
    destruct (lookup_lt_is_Some_2 l (S k)) as [x Hx]; [lia|].
    exists x, (reverse (drop (S (S k)) l ++ take (S k) l)). split_and!; [done| |].
    + by rewrite (drop_S _ _ _ Hx), <- app_comm_cons, reverse_cons.
    + by rewrite (take_S_r _ _ _ Hx), app_assoc, reverse_snoc.
Qed.
End ring.

(** * Slots

    A vector of optional occupants, each of whom is in one slot. *)
Section slots.
Context {A : Type}.
Implicit Types (o : list (option A)) (a : A) (x y : option A).

Lemma omap_id_insert o i x y :
  o !! i = Some x →
  omap id (<[i := y]> o) = omap id (take i o) ++ option_list y ++ omap id (drop (S i) o).
Proof.
  intros Hx. rewrite insert_take_drop by by eapply lookup_lt_Some.
  rewrite omap_app. by destruct y.
Qed.

Lemma omap_id_split o i x :
  o !! i = Some x → omap id o = omap id (take i o) ++ option_list x ++ omap id (drop (S i) o).
Proof. intros Hx. rewrite <- (omap_id_insert o i x x Hx). by rewrite list_insert_id. Qed.

Lemma length_omap_insert o i x y :
  o !! i = Some x →
  (length (omap id (<[i := y]> o)) + length (option_list x) = length (omap id o) + length (option_list y))%nat.
Proof.
  intros Hx. rewrite (omap_id_insert _ _ _ y Hx), (omap_id_split _ _ _ Hx), !length_app. lia.
Qed.

Lemma length_omap_id o : (length (omap id o) ≤ length o)%nat.
Proof. induction o as [|[a|] o IH]; cbn; [done | by apply le_n_S | by apply le_S]. Qed.

Lemma elem_of_omap_id o a : a ∈ omap id o ↔ ∃ i, o !! i = Some (Some a).
Proof.
  rewrite list_elem_of_omap. setoid_rewrite list_elem_of_lookup. naive_solver.
Qed.

(** When nobody is in two slots, the occupants are distinct. *)
Lemma NoDup_omap_id o :
  (∀ i j a, o !! i = Some (Some a) → o !! j = Some (Some a) → i = j) → NoDup (omap id o).
Proof.
  induction o as [|[a|] o IH]; intros Hinj; [constructor | |].
  - change (NoDup (a :: omap id o)). constructor.
    + intros [i Hi]%elem_of_omap_id. by specialize (Hinj 0%nat (S i) a eq_refl Hi).
    + apply IH. intros i j b Hi Hj. by specialize (Hinj (S i) (S j) b Hi Hj) as [=].
  - apply IH. intros i j b Hi Hj. by specialize (Hinj (S i) (S j) b Hi Hj) as [=].
Qed.
End slots.
