(* ===== verification/RoscaTypes.v ===== *)
(** The data of the ROSCA pallet: the types of [pallets/rosca/src/types.rs], the
    [Config] trait, the events, the errors and the storage items declared in
    [pallets/rosca/src/lib.rs], and the monad in which its functions are written. *)

From S2P Require Import Prelude.

(** [pub enum PaymentAssets] and [PaymentAssets::id]. *)
Inductive PaymentAssets : Type := USDT | USDC.

Definition PaymentAssets_id (a : PaymentAssets) : Z :=
  match a with
  | USDT => 1984
  | USDC => 1337
  end.

#[export] Instance PaymentAssets_eq_dec : EqDecision PaymentAssets.
Proof. solve_decision. Defined.

(** [pub type RoscaId = u32]; [Moment] is [pallet_timestamp]'s [u64] in both
    runtimes of the repository; [pub type Balance = u128]. *)
Abbreviation RoscaId := Z.
Abbreviation Moment := Z.
Abbreviation Balance := Z.

(** * [pallet::Config]

    The associated types and constants of the pallet's [Config] trait, together
    with the code outside this repository that the pallet calls: the [fungibles]
    implementation behind [ForeignCurrency], the sub-account derivation of
    [PalletId], the [blake2_128] host function and the prefix removal of the
    storage backend.  They are parameters of the model. *)
Class Config : Type := {
  AccountId : Type;
  AccountId_eq_dec :: EqDecision AccountId;
  AccountId_countable :: Countable AccountId;
  (** [Ord] on accounts, used by [sort]. *)
  AccountId_le : relation AccountId;
  AccountId_le_dec :: RelDecision AccountId_le;
  MaxParticipants : Z;
  MaxInvitedParticipants : Z;
  StringLimit : Z;
  (** [PalletId::into_sub_account_truncating]. *)
  into_sub_account_truncating : Z → AccountId;
  (** The ledger behind [ForeignCurrency], its [Mutate::transfer] with
      [Expendable] preservation, and the [Inspect] functions that specify it. *)
  Assets : Type;
  TransferError : Type;
  asset_transfer : Z → AccountId → AccountId → Balance → Assets → Assets + TransferError;
  asset_balance : Assets → Z → AccountId → Balance;
  asset_minimum_balance : Assets → Z → Balance;
  (** [sp_core::blake2_128]. *)
  blake2_128 : list Z → list Z;
  (** The entries left under a prefix by [clear_prefix(prefix, limit, None)]. *)
  clear_prefix : Z → gmap AccountId unit → gmap AccountId unit;
}.

(** Documented behaviour of what the pallet calls, as far as it relies on it. *)
Class ConfigLaws (T : Config) : Prop := {
  AccountId_le_refl :: Reflexive AccountId_le;
  AccountId_le_trans :: Transitive AccountId_le;
  AccountId_le_antisymm :: AntiSymm (=) AccountId_le;
  AccountId_le_total :: Total AccountId_le;
  MaxParticipants_u32 : in_width u32_MAX MaxParticipants;
  MaxInvitedParticipants_u32 : in_width u32_MAX MaxInvitedParticipants;
  (** [blake2_128] returns a [[u8; 16]]. *)
  blake2_128_length x : length (blake2_128 x) = 16%nat;
  blake2_128_bytes x : Forall (in_width u8_MAX) (blake2_128 x);
  (** At most [limit] entries are removed, all of them when there are no more. *)
  clear_prefix_subseteq limit m : clear_prefix limit m ⊆ m;
  clear_prefix_all limit m : Z.of_nat (size m) ≤ limit → clear_prefix limit m = ∅;
}.

(** [pub struct RoscaDetails]. *)
Record RoscaDetails : Type := mkRoscaDetails {
  random_order : bool;
  number_of_participants : Z;
  minimum_participant_threshold : Z;
  contribution_amount : Z;
  payment_asset : PaymentAssets;
  contribution_frequency : Moment;
  start_by_timestamp : Moment;
  name : list Z;
}.

(** [pub enum Error]. *)
Inductive Error : Type :=
  | ConversionError
  | ArithmeticOverflow
  | ArithmeticUnderflow
  | MultiplyError
  | DivisionError
  | ArithmeticError
  | ContributionAmountMustBePositive
  | FrequencyMustBePositive
  | StartByTimestampMustBeFuture
  | TooManyProposedParticipants
  | PositionTooLarge
  | RoscaNotFound
  | PositionAlreadyFilled
  | AlreadyJoined
  | RoscaAlreadyActive
  | SecurityDepositNotFound
  | SecurityDepositIsZero
  | AllPositionsFilled
  | RoscaParticipantsNotFound
  | NotAParticipant
  | ParticipantThresholdNotMet
  | RoscaParticipantCountNotFound
  | RoscaNotActive
  | CantContributeToSelf
  | NoEligbleClaimant
  | AlreadyContributed
  | NoNextPayByTimestamp
  | FinalPayByTimestampNotFound
  | FinalPayByTimestampMustBePast
  | RoscaNotCompleted
  | CantContributeBeyondFinalPayBy
  | RoscaAlreadyCompleted
  | NotInvited
  | CantInviteSelf
  | ThresholdTooHigh
  | RoscaStillActive
  | TooManyRounds.

#[export] Instance Error_eq_dec : EqDecision Error.
Proof. solve_decision. Defined.

Section types.
Context {T : Config}.

(** [pub struct RoundInfo]; [RoscaRounds] is a [BoundedVec] of them. *)
Record RoundInfo : Type := mkRoundInfo {
  round_number : Z;
  payment_cutoff : Moment;
  expected_contributors : list AccountId;
  recipient : AccountId;
}.

(** [pub enum Event]. *)
Inductive Event : Type :=
  | RoscaCreated (rosca_id : RoscaId) (contribution_amount : Balance)
      (payment_asset : PaymentAssets) (contribution_frequency : Moment)
      (random_order : bool) (name : list Z) (number_of_participants : Z)
      (minimum_participant_threshold : Z) (start_by_timestamp : Moment)
      (eligible_participants : list AccountId) (creator : AccountId)
  | ParticipantDefaulted (rosca_id : RoscaId) (unpaid_recipient defaulter : AccountId)
  | ContributionMade (rosca_id : RoscaId) (contributor recipient : AccountId) (amount : Balance)
  | DepositDeducted (rosca_id : RoscaId) (contributor recipient : AccountId)
      (amount : Balance) (sufficient : bool)
  | JoinedRosca (rosca_id : RoscaId) (contributor : AccountId)
  | LeftRosca (rosca_id : RoscaId) (contributor : AccountId)
  | RoscaStarted (rosca_id : RoscaId) (started_by : AccountId) (rounds : list RoundInfo)
      (first_eligible_claimant : AccountId) (first_payment_cutoff : Moment)
  | RoscaComplete (rosca_id : RoscaId)
  | SecurityDepositContribution (rosca_id : RoscaId) (depositor : AccountId) (amount : Balance)
  | SecurityDepositClaimed (rosca_id : RoscaId) (depositor : AccountId) (amount : Balance)
  | RoscaManuallyEnded (rosca_id : RoscaId)
  | NewRoundStarted (rosca_id : RoscaId) (new_eligible_recipient : AccountId)
      (payment_cutoff : Moment).

(** [RawOrigin] as [ensure_signed] sees it. *)
Inductive Origin : Type :=
  | Signed (who : AccountId)
  | Root
  | Unsigned.

(** The part of [DispatchError] that the pallet produces or passes on. *)
Inductive DispatchError : Type :=
  | BadOrigin
  | ModuleError (e : Error)
  | Currency (e : TransferError).

(** * Storage

    One field per [#[pallet::storage]] item, then what the pallet reads and
    writes of its environment: the ledger of [ForeignCurrency], the timestamp,
    the block number and the block hashes of [frame_system], and the log of
    deposited events, the newest last. *)
Record State : Type := mkState {
  NextRoscaId : RoscaId;
  ActiveRoscas : gmap RoscaId RoscaDetails;
  CompletedRoscas : gmap RoscaId unit;
  RoscaParticipants : gmap RoscaId (gmap AccountId Z);
  RoscaInvitedPreverifiedParticipants : gmap RoscaId (gmap AccountId unit);
  RoscaParticipantsCount : gmap RoscaId Z;
  RoscaSecurityDeposits : gmap RoscaId (gmap AccountId Z);
  PendingRoscaParticipantsOrder : gmap RoscaId (list (option AccountId));
  ActiveRoscaParticipantsOrder : gmap RoscaId (list AccountId);
  PendingRoscaDetails : gmap RoscaId RoscaDetails;
  NextPayByTimestamp : gmap RoscaId Moment;
  FinalPayByTimestamp : gmap RoscaId Moment;
  EligibleClaimant : gmap RoscaId AccountId;
  RoscaAccounts : gmap RoscaId AccountId;
  CurrentContributors : gmap RoscaId (gmap AccountId unit);
  CurrentContributionCount : gmap RoscaId Z;
  DefaultCount : gmap RoscaId (gmap AccountId Z);
  Ledger : Assets;
  Now : Moment;
  BlockNumber : Z;
  BlockHash : Z → list Z;
  Events : list Event
}.

Definition set_NextRoscaId (v : RoscaId) (s : State) : State :=
  mkState v (ActiveRoscas s) (CompletedRoscas s) (RoscaParticipants s)
    (RoscaInvitedPreverifiedParticipants s) (RoscaParticipantsCount s)
    (RoscaSecurityDeposits s) (PendingRoscaParticipantsOrder s)
    (ActiveRoscaParticipantsOrder s) (PendingRoscaDetails s) (NextPayByTimestamp s)
    (FinalPayByTimestamp s) (EligibleClaimant s) (RoscaAccounts s) (CurrentContributors
    s) (CurrentContributionCount s) (DefaultCount s) (Ledger s) (Now s) (BlockNumber s)
    (BlockHash s) (Events s).
Definition set_ActiveRoscas (v : gmap RoscaId RoscaDetails) (s : State) : State :=
  mkState (NextRoscaId s) v (CompletedRoscas s) (RoscaParticipants s)
    (RoscaInvitedPreverifiedParticipants s) (RoscaParticipantsCount s)
    (RoscaSecurityDeposits s) (PendingRoscaParticipantsOrder s)
    (ActiveRoscaParticipantsOrder s) (PendingRoscaDetails s) (NextPayByTimestamp s)
    (FinalPayByTimestamp s) (EligibleClaimant s) (RoscaAccounts s) (CurrentContributors
    s) (CurrentContributionCount s) (DefaultCount s) (Ledger s) (Now s) (BlockNumber s)
    (BlockHash s) (Events s).
Definition set_CompletedRoscas (v : gmap RoscaId unit) (s : State) : State :=
  mkState (NextRoscaId s) (ActiveRoscas s) v (RoscaParticipants s)
    (RoscaInvitedPreverifiedParticipants s) (RoscaParticipantsCount s)
    (RoscaSecurityDeposits s) (PendingRoscaParticipantsOrder s)
    (ActiveRoscaParticipantsOrder s) (PendingRoscaDetails s) (NextPayByTimestamp s)
    (FinalPayByTimestamp s) (EligibleClaimant s) (RoscaAccounts s) (CurrentContributors
    s) (CurrentContributionCount s) (DefaultCount s) (Ledger s) (Now s) (BlockNumber s)
    (BlockHash s) (Events s).
Definition set_RoscaParticipants (v : gmap RoscaId (gmap AccountId Z)) (s : State) : State :=
  mkState (NextRoscaId s) (ActiveRoscas s) (CompletedRoscas s) v
    (RoscaInvitedPreverifiedParticipants s) (RoscaParticipantsCount s)
    (RoscaSecurityDeposits s) (PendingRoscaParticipantsOrder s)
    (ActiveRoscaParticipantsOrder s) (PendingRoscaDetails s) (NextPayByTimestamp s)
    (FinalPayByTimestamp s) (EligibleClaimant s) (RoscaAccounts s) (CurrentContributors
    s) (CurrentContributionCount s) (DefaultCount s) (Ledger s) (Now s) (BlockNumber s)
    (BlockHash s) (Events s).
Definition set_RoscaInvitedPreverifiedParticipants (v : gmap RoscaId (gmap AccountId unit)) (s : State) : State :=
  mkState (NextRoscaId s) (ActiveRoscas s) (CompletedRoscas s) (RoscaParticipants s) v
    (RoscaParticipantsCount s) (RoscaSecurityDeposits s) (PendingRoscaParticipantsOrder
    s) (ActiveRoscaParticipantsOrder s) (PendingRoscaDetails s) (NextPayByTimestamp s)
    (FinalPayByTimestamp s) (EligibleClaimant s) (RoscaAccounts s) (CurrentContributors
    s) (CurrentContributionCount s) (DefaultCount s) (Ledger s) (Now s) (BlockNumber s)
    (BlockHash s) (Events s).
Definition set_RoscaParticipantsCount (v : gmap RoscaId Z) (s : State) : State :=
  mkState (NextRoscaId s) (ActiveRoscas s) (CompletedRoscas s) (RoscaParticipants s)
    (RoscaInvitedPreverifiedParticipants s) v (RoscaSecurityDeposits s)
    (PendingRoscaParticipantsOrder s) (ActiveRoscaParticipantsOrder s)
    (PendingRoscaDetails s) (NextPayByTimestamp s) (FinalPayByTimestamp s)
    (EligibleClaimant s) (RoscaAccounts s) (CurrentContributors s)
    (CurrentContributionCount s) (DefaultCount s) (Ledger s) (Now s) (BlockNumber s)
    (BlockHash s) (Events s).
Definition set_RoscaSecurityDeposits (v : gmap RoscaId (gmap AccountId Z)) (s : State) : State :=
  mkState (NextRoscaId s) (ActiveRoscas s) (CompletedRoscas s) (RoscaParticipants s)
    (RoscaInvitedPreverifiedParticipants s) (RoscaParticipantsCount s) v
    (PendingRoscaParticipantsOrder s) (ActiveRoscaParticipantsOrder s)
    (PendingRoscaDetails s) (NextPayByTimestamp s) (FinalPayByTimestamp s)
    (EligibleClaimant s) (RoscaAccounts s) (CurrentContributors s)
    (CurrentContributionCount s) (DefaultCount s) (Ledger s) (Now s) (BlockNumber s)
    (BlockHash s) (Events s).
Definition set_PendingRoscaParticipantsOrder (v : gmap RoscaId (list (option AccountId))) (s : State) : State :=
  mkState (NextRoscaId s) (ActiveRoscas s) (CompletedRoscas s) (RoscaParticipants s)
    (RoscaInvitedPreverifiedParticipants s) (RoscaParticipantsCount s)
    (RoscaSecurityDeposits s) v (ActiveRoscaParticipantsOrder s) (PendingRoscaDetails s)
    (NextPayByTimestamp s) (FinalPayByTimestamp s) (EligibleClaimant s) (RoscaAccounts
    s) (CurrentContributors s) (CurrentContributionCount s) (DefaultCount s) (Ledger s)
    (Now s) (BlockNumber s) (BlockHash s) (Events s).
Definition set_ActiveRoscaParticipantsOrder (v : gmap RoscaId (list AccountId)) (s : State) : State :=
  mkState (NextRoscaId s) (ActiveRoscas s) (CompletedRoscas s) (RoscaParticipants s)
    (RoscaInvitedPreverifiedParticipants s) (RoscaParticipantsCount s)
    (RoscaSecurityDeposits s) (PendingRoscaParticipantsOrder s) v (PendingRoscaDetails
    s) (NextPayByTimestamp s) (FinalPayByTimestamp s) (EligibleClaimant s)
    (RoscaAccounts s) (CurrentContributors s) (CurrentContributionCount s) (DefaultCount
    s) (Ledger s) (Now s) (BlockNumber s) (BlockHash s) (Events s).
Definition set_PendingRoscaDetails (v : gmap RoscaId RoscaDetails) (s : State) : State :=
  mkState (NextRoscaId s) (ActiveRoscas s) (CompletedRoscas s) (RoscaParticipants s)
    (RoscaInvitedPreverifiedParticipants s) (RoscaParticipantsCount s)
    (RoscaSecurityDeposits s) (PendingRoscaParticipantsOrder s)
    (ActiveRoscaParticipantsOrder s) v (NextPayByTimestamp s) (FinalPayByTimestamp s)
    (EligibleClaimant s) (RoscaAccounts s) (CurrentContributors s)
    (CurrentContributionCount s) (DefaultCount s) (Ledger s) (Now s) (BlockNumber s)
    (BlockHash s) (Events s).
Definition set_NextPayByTimestamp (v : gmap RoscaId Moment) (s : State) : State :=
  mkState (NextRoscaId s) (ActiveRoscas s) (CompletedRoscas s) (RoscaParticipants s)
    (RoscaInvitedPreverifiedParticipants s) (RoscaParticipantsCount s)
    (RoscaSecurityDeposits s) (PendingRoscaParticipantsOrder s)
    (ActiveRoscaParticipantsOrder s) (PendingRoscaDetails s) v (FinalPayByTimestamp s)
    (EligibleClaimant s) (RoscaAccounts s) (CurrentContributors s)
    (CurrentContributionCount s) (DefaultCount s) (Ledger s) (Now s) (BlockNumber s)
    (BlockHash s) (Events s).
Definition set_FinalPayByTimestamp (v : gmap RoscaId Moment) (s : State) : State :=
  mkState (NextRoscaId s) (ActiveRoscas s) (CompletedRoscas s) (RoscaParticipants s)
    (RoscaInvitedPreverifiedParticipants s) (RoscaParticipantsCount s)
    (RoscaSecurityDeposits s) (PendingRoscaParticipantsOrder s)
    (ActiveRoscaParticipantsOrder s) (PendingRoscaDetails s) (NextPayByTimestamp s) v
    (EligibleClaimant s) (RoscaAccounts s) (CurrentContributors s)
    (CurrentContributionCount s) (DefaultCount s) (Ledger s) (Now s) (BlockNumber s)
    (BlockHash s) (Events s).
Definition set_EligibleClaimant (v : gmap RoscaId AccountId) (s : State) : State :=
  mkState (NextRoscaId s) (ActiveRoscas s) (CompletedRoscas s) (RoscaParticipants s)
    (RoscaInvitedPreverifiedParticipants s) (RoscaParticipantsCount s)
    (RoscaSecurityDeposits s) (PendingRoscaParticipantsOrder s)
    (ActiveRoscaParticipantsOrder s) (PendingRoscaDetails s) (NextPayByTimestamp s)
    (FinalPayByTimestamp s) v (RoscaAccounts s) (CurrentContributors s)
    (CurrentContributionCount s) (DefaultCount s) (Ledger s) (Now s) (BlockNumber s)
    (BlockHash s) (Events s).
Definition set_RoscaAccounts (v : gmap RoscaId AccountId) (s : State) : State :=
  mkState (NextRoscaId s) (ActiveRoscas s) (CompletedRoscas s) (RoscaParticipants s)
    (RoscaInvitedPreverifiedParticipants s) (RoscaParticipantsCount s)
    (RoscaSecurityDeposits s) (PendingRoscaParticipantsOrder s)
    (ActiveRoscaParticipantsOrder s) (PendingRoscaDetails s) (NextPayByTimestamp s)
    (FinalPayByTimestamp s) (EligibleClaimant s) v (CurrentContributors s)
    (CurrentContributionCount s) (DefaultCount s) (Ledger s) (Now s) (BlockNumber s)
    (BlockHash s) (Events s).
Definition set_CurrentContributors (v : gmap RoscaId (gmap AccountId unit)) (s : State) : State :=
  mkState (NextRoscaId s) (ActiveRoscas s) (CompletedRoscas s) (RoscaParticipants s)
    (RoscaInvitedPreverifiedParticipants s) (RoscaParticipantsCount s)
    (RoscaSecurityDeposits s) (PendingRoscaParticipantsOrder s)
    (ActiveRoscaParticipantsOrder s) (PendingRoscaDetails s) (NextPayByTimestamp s)
    (FinalPayByTimestamp s) (EligibleClaimant s) (RoscaAccounts s) v
    (CurrentContributionCount s) (DefaultCount s) (Ledger s) (Now s) (BlockNumber s)
    (BlockHash s) (Events s).
Definition set_CurrentContributionCount (v : gmap RoscaId Z) (s : State) : State :=
  mkState (NextRoscaId s) (ActiveRoscas s) (CompletedRoscas s) (RoscaParticipants s)
    (RoscaInvitedPreverifiedParticipants s) (RoscaParticipantsCount s)
    (RoscaSecurityDeposits s) (PendingRoscaParticipantsOrder s)
    (ActiveRoscaParticipantsOrder s) (PendingRoscaDetails s) (NextPayByTimestamp s)
    (FinalPayByTimestamp s) (EligibleClaimant s) (RoscaAccounts s) (CurrentContributors
    s) v (DefaultCount s) (Ledger s) (Now s) (BlockNumber s) (BlockHash s) (Events s).
Definition set_DefaultCount (v : gmap RoscaId (gmap AccountId Z)) (s : State) : State :=
  mkState (NextRoscaId s) (ActiveRoscas s) (CompletedRoscas s) (RoscaParticipants s)
    (RoscaInvitedPreverifiedParticipants s) (RoscaParticipantsCount s)
    (RoscaSecurityDeposits s) (PendingRoscaParticipantsOrder s)
    (ActiveRoscaParticipantsOrder s) (PendingRoscaDetails s) (NextPayByTimestamp s)
    (FinalPayByTimestamp s) (EligibleClaimant s) (RoscaAccounts s) (CurrentContributors
    s) (CurrentContributionCount s) v (Ledger s) (Now s) (BlockNumber s) (BlockHash s)
    (Events s).
Definition set_Ledger (v : Assets) (s : State) : State :=
  mkState (NextRoscaId s) (ActiveRoscas s) (CompletedRoscas s) (RoscaParticipants s)
    (RoscaInvitedPreverifiedParticipants s) (RoscaParticipantsCount s)
    (RoscaSecurityDeposits s) (PendingRoscaParticipantsOrder s)
    (ActiveRoscaParticipantsOrder s) (PendingRoscaDetails s) (NextPayByTimestamp s)
    (FinalPayByTimestamp s) (EligibleClaimant s) (RoscaAccounts s) (CurrentContributors
    s) (CurrentContributionCount s) (DefaultCount s) v (Now s) (BlockNumber s)
    (BlockHash s) (Events s).
Definition set_Now (v : Moment) (s : State) : State :=
  mkState (NextRoscaId s) (ActiveRoscas s) (CompletedRoscas s) (RoscaParticipants s)
    (RoscaInvitedPreverifiedParticipants s) (RoscaParticipantsCount s)
    (RoscaSecurityDeposits s) (PendingRoscaParticipantsOrder s)
    (ActiveRoscaParticipantsOrder s) (PendingRoscaDetails s) (NextPayByTimestamp s)
    (FinalPayByTimestamp s) (EligibleClaimant s) (RoscaAccounts s) (CurrentContributors
    s) (CurrentContributionCount s) (DefaultCount s) (Ledger s) v (BlockNumber s)
    (BlockHash s) (Events s).
Definition set_BlockNumber (v : Z) (s : State) : State :=
  mkState (NextRoscaId s) (ActiveRoscas s) (CompletedRoscas s) (RoscaParticipants s)
    (RoscaInvitedPreverifiedParticipants s) (RoscaParticipantsCount s)
    (RoscaSecurityDeposits s) (PendingRoscaParticipantsOrder s)
    (ActiveRoscaParticipantsOrder s) (PendingRoscaDetails s) (NextPayByTimestamp s)
    (FinalPayByTimestamp s) (EligibleClaimant s) (RoscaAccounts s) (CurrentContributors
    s) (CurrentContributionCount s) (DefaultCount s) (Ledger s) (Now s) v (BlockHash s)
    (Events s).
Definition set_BlockHash (v : Z → list Z) (s : State) : State :=
  mkState (NextRoscaId s) (ActiveRoscas s) (CompletedRoscas s) (RoscaParticipants s)
    (RoscaInvitedPreverifiedParticipants s) (RoscaParticipantsCount s)
    (RoscaSecurityDeposits s) (PendingRoscaParticipantsOrder s)
    (ActiveRoscaParticipantsOrder s) (PendingRoscaDetails s) (NextPayByTimestamp s)
    (FinalPayByTimestamp s) (EligibleClaimant s) (RoscaAccounts s) (CurrentContributors
    s) (CurrentContributionCount s) (DefaultCount s) (Ledger s) (Now s) (BlockNumber s)
    v (Events s).
Definition set_Events (v : list Event) (s : State) : State :=
  mkState (NextRoscaId s) (ActiveRoscas s) (CompletedRoscas s) (RoscaParticipants s)
    (RoscaInvitedPreverifiedParticipants s) (RoscaParticipantsCount s)
    (RoscaSecurityDeposits s) (PendingRoscaParticipantsOrder s)
    (ActiveRoscaParticipantsOrder s) (PendingRoscaDetails s) (NextPayByTimestamp s)
    (FinalPayByTimestamp s) (EligibleClaimant s) (RoscaAccounts s) (CurrentContributors
    s) (CurrentContributionCount s) (DefaultCount s) (Ledger s) (Now s) (BlockNumber s)
    (BlockHash s) v.

(** The [#[pallet::getter]] functions.  A getter of an [OptionQuery] item is the
    lookup; a [ValueQuery] item answers its default when absent. *)
Definition next_rosca_id (s : State) : RoscaId := NextRoscaId s.
Definition active_roscas (r : RoscaId) (s : State) : option RoscaDetails := ActiveRoscas s !! r.
Definition completed_roscas (r : RoscaId) (s : State) : option unit := CompletedRoscas s !! r.
Definition participants (r : RoscaId) (a : AccountId) (s : State) : option Z :=
  dlookup (RoscaParticipants s) r a.
Definition invited_preverified_participants (r : RoscaId) (a : AccountId) (s : State) : option unit :=
  dlookup (RoscaInvitedPreverifiedParticipants s) r a.
Definition participants_count (r : RoscaId) (s : State) : option Z := RoscaParticipantsCount s !! r.
Definition security_deposit (r : RoscaId) (a : AccountId) (s : State) : option Z :=
  dlookup (RoscaSecurityDeposits s) r a.
Definition pending_rosca_participants_order (r : RoscaId) (s : State) : option (list (option AccountId)) :=
  PendingRoscaParticipantsOrder s !! r.
Definition active_rosca_participants_order (r : RoscaId) (s : State) : option (list AccountId) :=
  ActiveRoscaParticipantsOrder s !! r.
Definition rosca_details (r : RoscaId) (s : State) : option RoscaDetails := PendingRoscaDetails s !! r.
Definition next_pay_by_timestamp (r : RoscaId) (s : State) : option Moment := NextPayByTimestamp s !! r.
Definition final_pay_by_timestamp (r : RoscaId) (s : State) : option Moment := FinalPayByTimestamp s !! r.
Definition eligible_claimant (r : RoscaId) (s : State) : option AccountId := EligibleClaimant s !! r.
Definition current_contributors (r : RoscaId) (a : AccountId) (s : State) : option unit :=
  dlookup (CurrentContributors s) r a.
Definition current_contribution_count (r : RoscaId) (s : State) : Z :=
  default 0 (CurrentContributionCount s !! r).
Definition default_count (r : RoscaId) (a : AccountId) (s : State) : Z :=
  default 0 (dlookup (DefaultCount s) r a).

(** * The dispatch monad

    A function of the pallet reads and writes the storage and may return an
    error or panic.  An outcome other than [Ok] carries no storage: FRAME runs
    every call in a storage layer that is dropped then. *)
Definition M (A : Type) : Type := State → outcome DispatchError (A * State).

#[global] Instance M_ret : MRet M := λ A a s, Ok (a, s).
#[global] Instance M_bind : MBind M := λ A B k m s,
  match m s with
  | Ok (a, s') => k a s'
  | Err e => Err e
  | Panic => Panic
  | Diverge => Diverge
  end.

Definition gets {A} (f : State → A) : M A := λ s, Ok (f s, s).
Definition modify (f : State → State) : M unit := λ s, Ok (tt, f s).
Definition throw {A} (e : Error) : M A := λ _, Err (ModuleError e).
Definition panic {A} : M A := λ _, Panic.
Definition diverge {A} : M A := λ _, Diverge.

(** [ensure!(b, e)], [o.ok_or(e)?] and [ensure_signed(origin)?]. *)
Definition ensure (b : bool) (e : Error) : M unit := if b then mret tt else throw e.
Definition ok_or {A} (o : option A) (e : Error) : M A :=
  match o with Some a => mret a | None => throw e end.
Definition ensure_signed (o : Origin) : M AccountId :=
  match o with Signed a => mret a | _ => λ _, Err BadOrigin end.

(** [v[i]] and [v[i] = x] on a [Vec]: out of range they panic. *)
Definition vec_get {A} (v : list A) (i : Z) : M A :=
  if i <? 0 then panic else match v !! Z.to_nat i with Some a => mret a | None => panic end.
Definition vec_set {A} (v : list A) (i : Z) (x : A) : M (list A) :=
  if (i <? 0) || (Z.of_nat (length v) <=? i) then panic else mret (<[Z.to_nat i := x]> v).

(** [for x in l { body }]. *)
Fixpoint for_each {A} (l : list A) (body : A → M unit) : M unit :=
  match l with
  | [] => mret tt
  | x :: l => _ ← body x; for_each l body
  end.

(** [Self::deposit_event(e)]. *)
Definition deposit_event (e : Event) : M unit := modify (λ s, set_Events (Events s ++ [e]) s).

(** [T::ForeignCurrency::transfer(asset, &from, &to, amount, Expendable)?]. *)
Definition transfer (asset : Z) (from to : AccountId) (amount : Balance) : M unit := λ s,
  match asset_transfer asset from to amount (Ledger s) with
  | inl l => Ok (tt, set_Ledger l s)
  | inr e => Err (Currency e)
  end.

(** [usize] is 32 bits wide in the Wasm runtime. *)
Definition len {A} (l : list A) : Z := Z.of_nat (length l).
Definition usize_sub (a b : Z) : Z := wrapping_sub u32_MAX a b.

(** [BoundedVec::<_, bound>::try_from(v)]. *)
Definition bounded_try_from {A} (bound : Z) (v : list A) : option (list A) :=
  if len v <=? bound then Some v else None.

(** [try_push] on a [BoundedVec]: the new vector, or [None] when it is full. *)
Definition try_push {A} (bound : Z) (v : list A) (x : A) : option (list A) :=
  if len v <? bound then Some (v ++ [x]) else None.

(** [try_rotate_right(mid)]: an error when [mid] exceeds the length. *)
Definition try_rotate_right {A} (v : list A) (mid : Z) : option (list A) :=
  if mid <=? len v
  then Some (drop (length v - Z.to_nat mid) v ++ take (length v - Z.to_nat mid) v)
  else None.
End types.
