(* ===== verification/RoscaRounds.v ===== *)
(** The helper functions of the ROSCA pallet: the two [impl<T: Config> Pallet<T>]
    blocks at the end of [pallets/rosca/src/lib.rs]. *)

From S2P Require Import Prelude RoscaTypes.

Section rounds.
Context {T : Config}.

(** [Pallet::rosca_account_id]. *)
Definition rosca_account_id (rosca_id : RoscaId) : AccountId :=
  into_sub_account_truncating rosca_id.

(** The [while !available_indices.is_empty()] loop of [shuffle_participants].  The
    [rng_seed] the body reads is the outer one: the [let mut rng_seed] of the
    body declares a new variable. *)
Fixpoint shuffle_loop (fuel : nat) (rng_seed : list Z) (available_indices shuffled_indices : list Z)
    : M (list Z) :=
  match available_indices with
  | [] => mret shuffled_indices
  | _ =>
    match fuel with
    | O => diverge
    | S fuel =>
      let inner_seed := blake2_128 rng_seed in
      byte ← vec_get inner_seed 0;
      let random_index := byte mod len available_indices in
      selected_index ← vec_get available_indices random_index;
      shuffle_loop fuel rng_seed (delete (Z.to_nat random_index) available_indices)
        (shuffled_indices ++ [selected_index])
    end
  end.

(** The [for (i, &new_idx) in shuffled_indices.iter().enumerate()] loop. *)
Fixpoint shuffle_apply (parts : list AccountId) (i : Z) (shuffled_indices : list Z)
    (shuffled_participants : list AccountId) : M (list AccountId) :=
  match shuffled_indices with
  | [] => mret shuffled_participants
  | new_idx :: rest =>
    p ← vec_get parts new_idx;
    shuffled ← vec_set shuffled_participants i p;
    shuffle_apply parts (i + 1) rest shuffled
  end.

(** [Pallet::shuffle_participants]: the new value of [*participants]. *)
Definition shuffle_participants (parts : list AccountId) : M (list AccountId) :=
  current_block ← gets BlockNumber;
  block_hash ← gets (λ s, BlockHash s current_block);
  let rng_seed := blake2_128 block_hash in
  let available_indices := seqZ 0 (len parts) in
  shuffled_indices ← shuffle_loop (length parts) rng_seed available_indices [];
  shuffle_apply parts 0 shuffled_indices parts.

(** One iteration of the [for participant in active_order.iter()] loop of
    [process_defaulters]. *)
Definition process_defaulter (rosca_id : RoscaId) (rosca : RoscaDetails)
    (claimant rosca_account : AccountId) (participant : AccountId) : M unit :=
  if decide (participant = claimant) then mret tt
  else
    contributed ← gets (current_contributors rosca_id participant);
    match contributed with
    | Some _ => mret tt
    | None =>
      deposit ← gets (security_deposit rosca_id participant);
      let participant_deposit := default 0 deposit in
      let defaulter := participant_deposit <? contribution_amount rosca in
      _ ← (if defaulter then
             if 0 <? participant_deposit then
               _ ← transfer (PaymentAssets_id (payment_asset rosca)) rosca_account claimant participant_deposit;
               _ ← modify (λ s, set_RoscaSecurityDeposits
                     (dinsert rosca_id participant 0 (RoscaSecurityDeposits s)) s);
               deposit_event (DepositDeducted rosca_id participant claimant participant_deposit false)
             else mret tt
           else
             _ ← transfer (PaymentAssets_id (payment_asset rosca)) rosca_account claimant
                   (contribution_amount rosca);
             let remaining := default 0 (checked_sub participant_deposit (contribution_amount rosca)) in
             _ ← modify (λ s, set_RoscaSecurityDeposits
                   (dinsert rosca_id participant remaining (RoscaSecurityDeposits s)) s);
             deposit_event (DepositDeducted rosca_id participant claimant (contribution_amount rosca) true));
      if defaulter then
        _ ← modify (λ s, set_DefaultCount
              (dinsert rosca_id participant
                 (saturating_add u32_MAX (default_count rosca_id participant s) 1) (DefaultCount s)) s);
        deposit_event (ParticipantDefaulted rosca_id claimant participant)
      else mret tt
    end.

(** [Pallet::process_defaulters]. *)
Definition process_defaulters (rosca_id : RoscaId) : M unit :=
  active ← gets (active_roscas rosca_id);
  rosca ← ok_or active RoscaNotActive;
  claimant ← gets (eligible_claimant rosca_id);
  claimant ← ok_or claimant NoEligbleClaimant;
  order ← gets (active_rosca_participants_order rosca_id);
  active_order ← ok_or order RoscaParticipantsNotFound;
  let rosca_account := rosca_account_id rosca_id in
  for_each active_order (process_defaulter rosca_id rosca claimant rosca_account).

(** [Pallet::advance_rosca_round]. *)
Definition advance_rosca_round (rosca_id : RoscaId) : M unit :=
  active ← gets (active_roscas rosca_id);
  rosca ← ok_or active RoscaNotActive;
  next ← gets (next_pay_by_timestamp rosca_id);
  next ← ok_or next NoNextPayByTimestamp;
  next ← ok_or (checked_add u64_MAX next (contribution_frequency rosca)) ArithmeticOverflow;
  _ ← modify (λ s, set_NextPayByTimestamp (<[rosca_id := next]> (NextPayByTimestamp s)) s);
  order ← gets (active_rosca_participants_order rosca_id);
  active_order ← ok_or order RoscaParticipantsNotFound;
  new_eligible ← vec_get active_order (usize_sub (len active_order) 1);
  _ ← modify (λ s, set_EligibleClaimant (<[rosca_id := new_eligible]> (EligibleClaimant s)) s);
  active_order ← ok_or (try_rotate_right active_order 1) ArithmeticError;
  _ ← modify (λ s, set_ActiveRoscaParticipantsOrder
        (<[rosca_id := active_order]> (ActiveRoscaParticipantsOrder s)) s);
  let count_to_clear := usize_sub (len active_order) 1 in
  _ ← modify (λ s, set_CurrentContributors
        (dset rosca_id (clear_prefix count_to_clear (prefix (CurrentContributors s) rosca_id))
           (CurrentContributors s)) s);
  _ ← modify (λ s, set_CurrentContributionCount (<[rosca_id := 0]> (CurrentContributionCount s)) s);
  deposit_event (NewRoundStarted rosca_id new_eligible next).

(** [Pallet::check_and_complete_rosca]. *)
Definition check_and_complete_rosca (rosca_id : RoscaId) : M bool :=
  active ← gets (active_roscas rosca_id);
  _ ← ok_or active RoscaNotActive;
  final ← gets (final_pay_by_timestamp rosca_id);
  final ← ok_or final FinalPayByTimestampNotFound;
  next ← gets (next_pay_by_timestamp rosca_id);
  next ← ok_or next NoNextPayByTimestamp;
  if final <? next then
    _ ← modify (λ s, set_CompletedRoscas (<[rosca_id := tt]> (CompletedRoscas s)) s);
    _ ← modify (λ s, set_ActiveRoscas (delete rosca_id (ActiveRoscas s)) s);
    _ ← deposit_event (RoscaComplete rosca_id);
    mret true
  else mret false.

(** The [for (i, recipient) in participants.iter().rev().enumerate()] loop of
    [generate_rounds]: [recipients] is what is left of the iterator. *)
Fixpoint generate_rounds_loop (parts : list AccountId) (frequency : Moment) (i : Z)
    (recipients : list AccountId) (rounds : list RoundInfo) (round_payment_cutoff : Moment)
    : M (list RoundInfo) :=
  match recipients with
  | [] => mret rounds
  | rcpt :: rest =>
    let others := filter (λ x, x ≠ rcpt) parts in
    contributors ← ok_or (bounded_try_from MaxInvitedParticipants others) TooManyProposedParticipants;
    let round := mkRoundInfo ((i + 1) mod 2 ^ 32) round_payment_cutoff contributors rcpt in
    rounds ← ok_or (try_push MaxParticipants rounds round) TooManyRounds;
    cutoff ← ok_or (checked_add u64_MAX round_payment_cutoff frequency) ArithmeticOverflow;
    generate_rounds_loop parts frequency (i + 1) rest rounds cutoff
  end.

(** [Pallet::generate_rounds]. *)
Definition generate_rounds (parts : list AccountId) (current_time frequency : Moment)
    : M (list RoundInfo) :=
  cutoff ← ok_or (checked_add u64_MAX current_time frequency) ArithmeticOverflow;
  generate_rounds_loop parts frequency 0 (reverse parts) [] cutoff.
End rounds.
