(* ===== verification/RoscaCalls.v ===== *)
(** The dispatchable functions of the ROSCA pallet: [#[pallet::call]] in
    [pallets/rosca/src/lib.rs], the calls themselves and their dispatch. *)

From S2P Require Import Prelude RoscaTypes RoscaRounds.

Section calls.
Context {T : Config}.

(** [Vec::dedup]: of equal consecutive elements the first is kept. *)
Fixpoint dedup_from (x : AccountId) (l : list AccountId) : list AccountId :=
  match l with
  | [] => [x]
  | y :: l => if decide (x = y) then dedup_from x l else x :: dedup_from y l
  end.
Definition dedup (l : list AccountId) : list AccountId :=
  match l with [] => [] | x :: l => dedup_from x l end.

(** A [try_push] whose result is discarded. *)
Definition push_ignoring_error (bound : Z) (v : list AccountId) (x : AccountId) : list AccountId :=
  default v (try_push bound v x).

(** [create_rosca], call index 0. *)
Definition create_rosca (origin : Origin) (random : bool) (invited : list AccountId)
    (minimum_threshold : Z) (amount : Z) (asset : PaymentAssets) (frequency : Moment)
    (start_by : Moment) (position : option Z) (rosca_name : list Z) : M unit :=
  signer ← ensure_signed origin;
  _ ← ensure (0 <? amount) ContributionAmountMustBePositive;
  _ ← ensure (0 <? frequency) FrequencyMustBePositive;
  _ ← ensure (MaxInvitedParticipants <? MaxParticipants) ArithmeticError;
  _ ← ensure (negb (bool_decide (signer ∈ invited))) CantInviteSelf;
  let invited := dedup (merge_sort AccountId_le invited) in
  current_timestamp ← gets Now;
  let position := default 0 position in
  number ← ok_or (checked_add u32_MAX (len invited) 1) ArithmeticOverflow;
  _ ← ensure (minimum_threshold <=? number) ThresholdTooHigh;
  _ ← ensure (position <? MaxParticipants) PositionTooLarge;
  _ ← ensure (current_timestamp <? start_by) StartByTimestampMustBeFuture;
  new_rosca_id ← gets next_rosca_id;
  rosca_participants ← vec_set (replicate (Z.to_nat number) None) position (Some signer);
  _ ← modify (λ s, set_RoscaInvitedPreverifiedParticipants
        (dinsert new_rosca_id signer tt (RoscaInvitedPreverifiedParticipants s)) s);
  let including_creator := push_ignoring_error MaxParticipants [] signer in
  _ ← for_each invited (λ a, modify (λ s, set_RoscaInvitedPreverifiedParticipants
        (dinsert new_rosca_id a tt (RoscaInvitedPreverifiedParticipants s)) s));
  let including_creator := foldl (push_ignoring_error MaxParticipants) including_creator invited in
  rosca_participants ← ok_or (bounded_try_from MaxParticipants rosca_participants)
                         TooManyProposedParticipants;
  _ ← modify (λ s, set_PendingRoscaParticipantsOrder
        (<[new_rosca_id := rosca_participants]> (PendingRoscaParticipantsOrder s)) s);
  _ ← modify (λ s, set_RoscaParticipants
        (dinsert new_rosca_id signer position (RoscaParticipants s)) s);
  _ ← modify (λ s, set_RoscaParticipantsCount (<[new_rosca_id := 1]> (RoscaParticipantsCount s)) s);
  _ ← modify (λ s, set_PendingRoscaDetails
        (<[new_rosca_id := mkRoscaDetails random number minimum_threshold amount asset
                             frequency start_by rosca_name]> (PendingRoscaDetails s)) s);
  _ ← modify (set_NextRoscaId (wrapping_add u32_MAX new_rosca_id 1));
  deposit_event (RoscaCreated new_rosca_id amount asset frequency random rosca_name number
                   minimum_threshold start_by including_creator signer).

(** [iter().position(|participant| participant.is_none())]. *)
Fixpoint first_none (l : list (option AccountId)) : option nat :=
  match l with
  | [] => None
  | None :: _ => Some 0%nat
  | Some _ :: l => S <$> first_none l
  end.

(** [join_rosca], call index 1. *)
Definition join_rosca (origin : Origin) (rosca_id : RoscaId) (position : option Z) : M unit :=
  signer ← ensure_signed origin;
  active ← gets (active_roscas rosca_id);
  _ ← ensure (bool_decide (active = None)) RoscaAlreadyActive;
  joined ← gets (participants rosca_id signer);
  _ ← ensure (bool_decide (joined = None)) AlreadyJoined;
  invitation ← gets (invited_preverified_participants rosca_id signer);
  _ ← ensure (bool_decide (is_Some invitation)) NotInvited;
  pending ← gets (rosca_details rosca_id);
  pending_rosca ← ok_or pending RoscaNotFound;
  current_timestamp ← gets Now;
  _ ← ensure (current_timestamp <? start_by_timestamp pending_rosca) StartByTimestampMustBeFuture;
  order ← gets (pending_rosca_participants_order rosca_id);
  pending_rosca_order ← ok_or order RoscaNotFound;
  '(pending_rosca_order, participant_position) ←
    (match position with
     | Some position_index =>
       current_position ← ok_or (pending_rosca_order !! Z.to_nat position_index) PositionTooLarge;
       _ ← ensure (bool_decide (current_position = None)) PositionAlreadyFilled;
       mret (<[Z.to_nat position_index := Some signer]> pending_rosca_order, position_index)
     | None =>
       position_index ← ok_or (first_none pending_rosca_order) AllPositionsFilled;
       v ← vec_set pending_rosca_order (Z.of_nat position_index) (Some signer);
       mret (v, Z.of_nat position_index mod 2 ^ 32)
     end : M (list (option AccountId) * Z));
  _ ← modify (λ s, set_PendingRoscaParticipantsOrder
        (<[rosca_id := pending_rosca_order]> (PendingRoscaParticipantsOrder s)) s);
  _ ← modify (λ s, set_RoscaParticipants
        (dinsert rosca_id signer participant_position (RoscaParticipants s)) s);
  count ← gets (participants_count rosca_id);
  count ← ok_or count RoscaParticipantCountNotFound;
  count ← ok_or (checked_add u32_MAX count 1) ArithmeticOverflow;
  _ ← modify (λ s, set_RoscaParticipantsCount (<[rosca_id := count]> (RoscaParticipantsCount s)) s);
  deposit_event (JoinedRosca rosca_id signer).

(** [leave_rosca], call index 2. *)
Definition leave_rosca (origin : Origin) (rosca_id : RoscaId) : M unit :=
  signer ← ensure_signed origin;
  active ← gets (active_roscas rosca_id);
  _ ← ensure (bool_decide (active = None)) RoscaAlreadyActive;
  index ← gets (participants rosca_id signer);
  participant_index ← ok_or index NotAParticipant;
  pending ← gets (rosca_details rosca_id);
  pending_rosca ← ok_or pending RoscaNotFound;
  order ← gets (pending_rosca_participants_order rosca_id);
  participants_order ← ok_or order RoscaParticipantsNotFound;
  participants_order ← vec_set participants_order participant_index None;
  _ ← modify (λ s, set_RoscaParticipants (dremove rosca_id signer (RoscaParticipants s)) s);
  _ ← modify (λ s, set_PendingRoscaParticipantsOrder
        (<[rosca_id := participants_order]> (PendingRoscaParticipantsOrder s)) s);
  count ← gets (participants_count rosca_id);
  count ← ok_or count RoscaParticipantCountNotFound;
  count ← ok_or (checked_sub count 1) ArithmeticUnderflow;
  _ ← modify (λ s, set_RoscaParticipantsCount (<[rosca_id := count]> (RoscaParticipantsCount s)) s);
  deposit ← gets (security_deposit rosca_id signer);
  let participant_deposit := default 0 deposit in
  _ ← (if 0 <? participant_deposit then
         _ ← transfer (PaymentAssets_id (payment_asset pending_rosca))
               (rosca_account_id rosca_id) signer participant_deposit;
         _ ← modify (λ s, set_RoscaSecurityDeposits
               (dremove rosca_id signer (RoscaSecurityDeposits s)) s);
         deposit_event (SecurityDepositClaimed rosca_id signer participant_deposit)
       else mret tt);
  deposit_event (LeftRosca rosca_id signer).

(** [for _ in 1..count { final = final.checked_add(&frequency)?; }]. *)
Fixpoint add_frequency (n : nat) (final frequency : Moment) : M Moment :=
  match n with
  | O => mret final
  | S n =>
    final ← ok_or (checked_add u64_MAX final frequency) ArithmeticOverflow;
    add_frequency n final frequency
  end.

(** [start_rosca], call index 3. *)
Definition start_rosca (origin : Origin) (rosca_id : RoscaId) : M unit :=
  signer ← ensure_signed origin;
  active ← gets (active_roscas rosca_id);
  _ ← ensure (bool_decide (active = None)) RoscaAlreadyActive;
  index ← gets (participants rosca_id signer);
  _ ← ok_or index NotAParticipant;
  pending ← gets (rosca_details rosca_id);
  pending_rosca ← ok_or pending RoscaNotFound;
  order ← gets (pending_rosca_participants_order rosca_id);
  pending_rosca_order ← ok_or order RoscaParticipantsNotFound;
  current_timestamp ← gets Now;
  _ ← ensure (current_timestamp <? start_by_timestamp pending_rosca) StartByTimestampMustBeFuture;
  count ← gets (participants_count rosca_id);
  count ← ok_or count RoscaParticipantCountNotFound;
  _ ← ensure (minimum_participant_threshold pending_rosca <=? count) ParticipantThresholdNotMet;
  let filtered_order := omap id (reverse pending_rosca_order) in
  active_rosca_order ← ok_or (bounded_try_from MaxParticipants filtered_order)
                         TooManyProposedParticipants;
  active_rosca_order ← (if random_order pending_rosca
                        then shuffle_participants active_rosca_order
                        else mret active_rosca_order);
  rosca_rounds ← generate_rounds active_rosca_order current_timestamp
                   (contribution_frequency pending_rosca);
  first_eligible_claimant ← vec_get active_rosca_order (usize_sub (len active_rosca_order) 1);
  _ ← modify (λ s, set_EligibleClaimant
        (<[rosca_id := first_eligible_claimant]> (EligibleClaimant s)) s);
  active_rosca_order ← ok_or (try_rotate_right active_rosca_order 1) ArithmeticError;
  _ ← modify (λ s, set_ActiveRoscaParticipantsOrder
        (<[rosca_id := active_rosca_order]> (ActiveRoscaParticipantsOrder s)) s);
  next ← ok_or (checked_add u64_MAX current_timestamp (contribution_frequency pending_rosca))
           ArithmeticOverflow;
  final ← add_frequency (Z.to_nat (count - 1)) next (contribution_frequency pending_rosca);
  _ ← modify (λ s, set_NextPayByTimestamp (<[rosca_id := next]> (NextPayByTimestamp s)) s);
  _ ← modify (λ s, set_FinalPayByTimestamp (<[rosca_id := final]> (FinalPayByTimestamp s)) s);
  _ ← modify (λ s, set_ActiveRoscas (<[rosca_id := pending_rosca]> (ActiveRoscas s)) s);
  _ ← modify (λ s, set_PendingRoscaDetails (delete rosca_id (PendingRoscaDetails s)) s);
  deposit_event (RoscaStarted rosca_id signer rosca_rounds first_eligible_claimant next).

(** The number of iterations the two loops below may take: a ROSCA has at most
    [MaxParticipants] rounds. *)
Definition loop_fuel : nat := S (Z.to_nat MaxParticipants).

(** The [while current_timestamp >= next_pay_by_timestamp] loop of
    [contribute_to_rosca].  It ends with the values of the local variables, or
    with [None] when the body has returned from the function. *)
Fixpoint catch_up (fuel : nat) (rosca_id : RoscaId) (current_timestamp next : Moment)
    (order : list AccountId) (claimant : AccountId)
    : M (option (Moment * list AccountId * AccountId)) :=
  if next <=? current_timestamp then
    match fuel with
    | O => diverge
    | S fuel =>
      _ ← process_defaulters rosca_id;
      _ ← advance_rosca_round rosca_id;
      completed ← check_and_complete_rosca rosca_id;
      if (completed : bool) then mret None
      else
        next ← gets (next_pay_by_timestamp rosca_id);
        next ← ok_or next NoNextPayByTimestamp;
        order ← gets (active_rosca_participants_order rosca_id);
        order ← ok_or order RoscaParticipantsNotFound;
        claimant ← gets (eligible_claimant rosca_id);
        claimant ← ok_or claimant NoEligbleClaimant;
        catch_up fuel rosca_id current_timestamp next order claimant
    end
  else mret (Some (next, order, claimant)).

(** The part of [contribute_to_rosca] after that loop. *)
Definition settle_contribution (signer : AccountId) (rosca_id : RoscaId) (rosca : RoscaDetails)
    (final next : Moment) (order : list AccountId) (claimant : AccountId) : M unit :=
  _ ← transfer (PaymentAssets_id (payment_asset rosca)) signer claimant (contribution_amount rosca);
  _ ← modify (λ s, set_CurrentContributors
        (dinsert rosca_id signer tt (CurrentContributors s)) s);
  count ← gets (current_contribution_count rosca_id);
  count ← ok_or (checked_add u32_MAX count 1) ArithmeticOverflow;
  _ ← modify (λ s, set_CurrentContributionCount (<[rosca_id := count]> (CurrentContributionCount s)) s);
  _ ← deposit_event (ContributionMade rosca_id signer claimant (contribution_amount rosca));
  if count =? usize_sub (len order) 1 then
    next ← ok_or (checked_add u64_MAX next (contribution_frequency rosca)) ArithmeticOverflow;
    if final <? next then
      _ ← modify (λ s, set_CompletedRoscas (<[rosca_id := tt]> (CompletedRoscas s)) s);
      _ ← modify (λ s, set_ActiveRoscas (delete rosca_id (ActiveRoscas s)) s);
      deposit_event (RoscaComplete rosca_id)
    else
      _ ← modify (λ s, set_NextPayByTimestamp (<[rosca_id := next]> (NextPayByTimestamp s)) s);
      claimant ← vec_get order (usize_sub (len order) 1);
      _ ← modify (λ s, set_EligibleClaimant (<[rosca_id := claimant]> (EligibleClaimant s)) s);
      order ← ok_or (try_rotate_right order 1) ArithmeticError;
      _ ← modify (λ s, set_ActiveRoscaParticipantsOrder
            (<[rosca_id := order]> (ActiveRoscaParticipantsOrder s)) s);
      _ ← modify (λ s, set_CurrentContributors
            (dset rosca_id (clear_prefix (usize_sub (len order) 1)
                              (prefix (CurrentContributors s) rosca_id)) (CurrentContributors s)) s);
      _ ← modify (λ s, set_CurrentContributionCount (<[rosca_id := 0]> (CurrentContributionCount s)) s);
      deposit_event (NewRoundStarted rosca_id claimant next)
  else mret tt.

(** [contribute_to_rosca], call index 4. *)
Definition contribute_to_rosca (origin : Origin) (rosca_id : RoscaId) : M unit :=
  signer ← ensure_signed origin;
  member ← gets (participants rosca_id signer);
  _ ← ensure (bool_decide (is_Some member)) NotAParticipant;
  completed ← gets (completed_roscas rosca_id);
  _ ← ensure (bool_decide (completed = None)) RoscaAlreadyCompleted;
  active ← gets (active_roscas rosca_id);
  rosca ← ok_or active RoscaNotActive;
  claimant ← gets (eligible_claimant rosca_id);
  claimant ← ok_or claimant NoEligbleClaimant;
  _ ← ensure (bool_decide (claimant ≠ signer)) CantContributeToSelf;
  contributed ← gets (current_contributors rosca_id signer);
  _ ← ensure (bool_decide (contributed = None)) AlreadyContributed;
  current_timestamp ← gets Now;
  final ← gets (final_pay_by_timestamp rosca_id);
  final ← ok_or final FinalPayByTimestampNotFound;
  next ← gets (next_pay_by_timestamp rosca_id);
  next ← ok_or next NoNextPayByTimestamp;
  order ← gets (active_rosca_participants_order rosca_id);
  order ← ok_or order RoscaParticipantsNotFound;
  caught_up ← catch_up loop_fuel rosca_id current_timestamp next order claimant;
  match caught_up with
  | None => mret tt
  | Some (next, order, claimant) =>
    settle_contribution signer rosca_id rosca final next order claimant
  end.

(** The [while let Some(next_pay_by) = ...] loop of [manually_end_rosca]. *)
Fixpoint process_remaining_rounds (fuel : nat) (rosca_id : RoscaId) (final : Moment) : M unit :=
  next ← gets (next_pay_by_timestamp rosca_id);
  match next with
  | None => mret tt
  | Some next_pay_by =>
    if next_pay_by <=? final then
      match fuel with
      | O => diverge
      | S fuel =>
        _ ← process_defaulters rosca_id;
        _ ← advance_rosca_round rosca_id;
        process_remaining_rounds fuel rosca_id final
      end
    else mret tt
  end.

(** [manually_end_rosca], call index 5. *)
Definition manually_end_rosca (origin : Origin) (rosca_id : RoscaId) : M unit :=
  _ ← ensure_signed origin;
  active ← gets (active_roscas rosca_id);
  rosca ← ok_or active RoscaNotActive;
  current_timestamp ← gets Now;
  final ← gets (final_pay_by_timestamp rosca_id);
  final ← ok_or final FinalPayByTimestampNotFound;
  _ ← ensure (final <? current_timestamp) FinalPayByTimestampMustBePast;
  _ ← process_remaining_rounds loop_fuel rosca_id final;
  next ← gets (next_pay_by_timestamp rosca_id);
  next_pay_by ← ok_or next NoNextPayByTimestamp;
  expected ← ok_or (checked_add u64_MAX final (contribution_frequency rosca)) ArithmeticOverflow;
  _ ← ensure (next_pay_by =? expected) ArithmeticError;
  _ ← modify (λ s, set_CompletedRoscas (<[rosca_id := tt]> (CompletedRoscas s)) s);
  _ ← modify (λ s, set_ActiveRoscas (delete rosca_id (ActiveRoscas s)) s);
  deposit_event (RoscaComplete rosca_id).

(** [claim_security_deposit], call index 6. *)
Definition claim_security_deposit (origin : Origin) (rosca_id : RoscaId) (asset : PaymentAssets)
    : M unit :=
  signer ← ensure_signed origin;
  current_timestamp ← gets Now;
  final ← gets (final_pay_by_timestamp rosca_id);
  final ← ok_or final FinalPayByTimestampNotFound;
  _ ← ensure (final <? current_timestamp) FinalPayByTimestampMustBePast;
  pending ← gets (rosca_details rosca_id);
  completed ← gets (completed_roscas rosca_id);
  _ ← ensure (bool_decide (is_Some pending) || bool_decide (is_Some completed)) RoscaStillActive;
  deposit ← gets (security_deposit rosca_id signer);
  participant_deposit ← ok_or deposit SecurityDepositNotFound;
  _ ← ensure (0 <? participant_deposit) SecurityDepositIsZero;
  _ ← transfer (PaymentAssets_id asset) (rosca_account_id rosca_id) signer participant_deposit;
  _ ← modify (λ s, set_RoscaSecurityDeposits (dremove rosca_id signer (RoscaSecurityDeposits s)) s);
  deposit_event (SecurityDepositClaimed rosca_id signer participant_deposit).

(** [add_to_security_deposit], call index 7. *)
Definition add_to_security_deposit (origin : Origin) (rosca_id : RoscaId) (amount : Z) : M unit :=
  signer ← ensure_signed origin;
  member ← gets (participants rosca_id signer);
  _ ← ensure (bool_decide (is_Some member)) NotAParticipant;
  completed ← gets (completed_roscas rosca_id);
  _ ← ensure (bool_decide (completed = None)) RoscaAlreadyCompleted;
  active ← gets (active_roscas rosca_id);
  pending ← gets (rosca_details rosca_id);
  rosca ← ok_or (match active with Some d => Some d | None => pending end) RoscaNotFound;
  _ ← transfer (PaymentAssets_id (payment_asset rosca)) signer (rosca_account_id rosca_id) amount;
  deposit ← gets (security_deposit rosca_id signer);
  let participant_deposit := default 0 deposit in
  new_deposit_balance ← ok_or (checked_add u32_MAX participant_deposit amount) ArithmeticOverflow;
  _ ← modify (λ s, set_RoscaSecurityDeposits
        (dinsert rosca_id signer new_deposit_balance (RoscaSecurityDeposits s)) s);
  deposit_event (SecurityDepositContribution rosca_id signer amount).

(** * [pallet::Call] *)

Inductive Call : Type :=
  | Call_create_rosca (random : bool) (invited : list AccountId) (minimum_threshold amount : Z)
      (asset : PaymentAssets) (frequency start_by : Moment) (position : option Z) (rosca_name : list Z)
  | Call_join_rosca (rosca_id : RoscaId) (position : option Z)
  | Call_leave_rosca (rosca_id : RoscaId)
  | Call_start_rosca (rosca_id : RoscaId)
  | Call_contribute_to_rosca (rosca_id : RoscaId)
  | Call_manually_end_rosca (rosca_id : RoscaId)
  | Call_claim_security_deposit (rosca_id : RoscaId) (asset : PaymentAssets)
  | Call_add_to_security_deposit (rosca_id : RoscaId) (amount : Z).

Definition dispatch (origin : Origin) (c : Call) : M unit :=
  match c with
  | Call_create_rosca random invited threshold amount asset frequency start_by position rosca_name =>
    create_rosca origin random invited threshold amount asset frequency start_by position rosca_name
  | Call_join_rosca r position => join_rosca origin r position
  | Call_leave_rosca r => leave_rosca origin r
  | Call_start_rosca r => start_rosca origin r
  | Call_contribute_to_rosca r => contribute_to_rosca origin r
  | Call_manually_end_rosca r => manually_end_rosca origin r
  | Call_claim_security_deposit r asset => claim_security_deposit origin r asset
  | Call_add_to_security_deposit r amount => add_to_security_deposit origin r amount
  end.

(** The arguments a decoded call can have: integers in the range of their type,
    bounded vectors within their bound. *)
Definition call_decodable (c : Call) : Prop :=
  match c with
  | Call_create_rosca _ invited threshold amount _ frequency start_by position rosca_name =>
    len invited ≤ MaxInvitedParticipants ∧ in_width u32_MAX threshold ∧ in_width u32_MAX amount ∧
    in_width u64_MAX frequency ∧ in_width u64_MAX start_by ∧
    in_width u32_MAX (default 0 position) ∧ len rosca_name ≤ StringLimit
  | Call_join_rosca r position => in_width u32_MAX r ∧ in_width u32_MAX (default 0 position)
  | Call_add_to_security_deposit r amount => in_width u32_MAX r ∧ in_width u32_MAX amount
  | Call_leave_rosca r | Call_start_rosca r | Call_contribute_to_rosca r
  | Call_manually_end_rosca r | Call_claim_security_deposit r _ => in_width u32_MAX r
  end.
End calls.
