(* ===== verification/RoscaSample.v ===== *)
(** A concrete instance of the pallet's [Config], for the witnesses and for replaying
    the scenarios of [pallets/rosca/src/tests.rs]: integer accounts as in
    [pallets/rosca/src/mock.rs], its constants, and a two-asset ledger that satisfies
    the documented behaviour of [fungibles::Mutate::transfer]. *)

From S2P Require Import Prelude RoscaTypes RoscaRounds RoscaCalls.

(** The error of a transfer without funds ([TokenError::FundsUnavailable]). *)
Inductive TokenError : Type := FundsUnavailable.

Definition ledger_balance (l : gmap (Z * Z) N) (asset who : Z) : Z :=
  Z.of_N (default 0%N (l !! (asset, who))).

Definition ledger_transfer (asset from to amount : Z) (l : gmap (Z * Z) N)
    : gmap (Z * Z) N + TokenError :=
  if ledger_balance l asset from <? amount then inr FundsUnavailable
  else if decide (from = to) then inl l
  else inl (<[(asset, to) := Z.to_N (ledger_balance l asset to + amount)]>
              (<[(asset, from) := Z.to_N (ledger_balance l asset from - amount)]> l)).

#[export] Instance Sample : Config := {|
  AccountId := Z;
  AccountId_le := Z.le;
  MaxParticipants := 150;
  MaxInvitedParticipants := 149;
  StringLimit := 50;
  into_sub_account_truncating := λ r, 2 ^ 40 + r;
  Assets := gmap (Z * Z) N;
  TransferError := TokenError;
  asset_transfer := ledger_transfer;
  asset_balance := ledger_balance;
  asset_minimum_balance := λ _ _, 1;
  blake2_128 := λ bs, replicate 16 ((foldl Z.add 7 bs) mod 256);
  clear_prefix := λ limit m, if Z.of_nat (size m) <=? limit then ∅ else m;
|}.

#[export] Instance Sample_laws : ConfigLaws Sample.
Proof.
  split; try apply _.
  - done.
  - done.
  - intros x. apply length_replicate.
  - intros x. apply Forall_replicate. unfold in_width, u8_MAX.
    pose proof (Z.mod_pos_bound (foldl Z.add 7 x) 256). lia.
  - intros limit m. cbn. case_match; [apply map_empty_subseteq | done].
  - intros limit m H%Z.leb_le. change ((if Z.of_nat (size m) <=? limit then ∅ else m) = ∅).
    destruct (Z.of_nat _ <=? _); [done | discriminate].
Qed.

(** The genesis of the mock runtime: accounts 0 to 3 hold 10000 of each asset and
    account 4 holds 50. *)
Definition genesis_ledger : gmap (Z * Z) N :=
  list_to_map [((1984, 0), 10000%N); ((1984, 1), 10000%N); ((1984, 2), 10000%N); ((1984, 3), 10000%N);
               ((1984, 4), 50%N);
               ((1337, 0), 10000%N); ((1337, 1), 10000%N); ((1337, 2), 10000%N); ((1337, 3), 10000%N);
               ((1337, 4), 50%N)].

Definition genesis (now : Moment) : State (T := Sample) :=
  mkState 0 ∅ ∅ ∅ ∅ ∅ ∅ ∅ ∅ ∅ ∅ ∅ ∅ ∅ ∅ ∅ ∅ genesis_ledger now 1 (λ _, []) [].
