(* ===== verification/RoscaLogic.v ===== *)
(** A small program logic for the dispatch monad: weakest preconditions with an
    error postcondition, the per-ROSCA view of the storage, and the frame relation
    that every function of the pallet respects. *)

From S2P Require Import Prelude RoscaTypes RoscaRounds RoscaCalls.

Section logic.
Context {T : Config}.
Implicit Types (s : State) (r : RoscaId).

(** * Weakest preconditions

    [wp m s Q E]: run from [s], [m] neither panics nor runs out of iterations; it
    ends in a result and a state satisfying [Q], or in an error satisfying [E]. *)
Definition wp {A} (m : M A) s (Q : A → State → Prop) (E : DispatchError → Prop) : Prop :=
  match m s with
  | Ok (a, s') => Q a s'
  | Err e => E e
  | Panic => False
  | Diverge => False
  end.

Lemma wp_mono {A} (m : M A) s (Q Q' : A → State → Prop) (E E' : DispatchError → Prop) :
  wp m s Q E → (∀ a s', Q a s' → Q' a s') → (∀ e, E e → E' e) → wp m s Q' E'.
Proof. unfold wp. repeat case_match; naive_solver. Qed.

Lemma wp_and {A} (m : M A) s (Q Q' : A → State → Prop) E :
  wp m s Q E → wp m s Q' (λ _, True) → wp m s (λ a s', Q a s' ∧ Q' a s') E.
Proof. unfold wp. repeat case_match; naive_solver. Qed.

Lemma wp_bind {A B} (m : M A) (k : A → M B) s (Q : B → State → Prop) E :
  wp m s (λ a s', wp (k a) s' Q E) E → wp (m ≫= k) s Q E.
Proof. unfold wp, mbind, M_bind. repeat case_match; naive_solver. Qed.

Lemma wp_ret {A} (a : A) s (Q : A → State → Prop) (E : DispatchError → Prop) :
  Q a s → wp (mret a) s Q E.
Proof. done. Qed.

Lemma wp_gets {A} (f : State → A) s (Q : A → State → Prop) (E : DispatchError → Prop) :
  Q (f s) s → wp (gets f) s Q E.
Proof. done. Qed.

Lemma wp_modify (f : State → State) s (Q : unit → State → Prop) (E : DispatchError → Prop) :
  Q tt (f s) → wp (modify f) s Q E.
Proof. done. Qed.

Lemma wp_deposit_event ev s (Q : unit → State → Prop) (E : DispatchError → Prop) :
  Q tt (set_Events (Events s ++ [ev]) s) → wp (deposit_event ev) s Q E.
Proof. done. Qed.

Lemma wp_ensure b er s (Q : unit → State → Prop) (E : DispatchError → Prop) :
  (b = true → Q tt s) → (b = false → E (ModuleError er)) → wp (ensure b er) s Q E.
Proof. unfold wp, ensure. destruct b; naive_solver. Qed.

Lemma wp_ok_or {A} (o : option A) er s (Q : A → State → Prop) (E : DispatchError → Prop) :
  (∀ a, o = Some a → Q a s) → (o = None → E (ModuleError er)) → wp (ok_or o er) s Q E.
Proof. unfold wp, ok_or. destruct o; naive_solver. Qed.

Lemma wp_ok_or_Some {A} (o : option A) a er s (Q : A → State → Prop) (E : DispatchError → Prop) :
  o = Some a → Q a s → wp (ok_or o er) s Q E.
Proof. by intros ->. Qed.

Lemma wp_ensure_true b er s (Q : unit → State → Prop) (E : DispatchError → Prop) :
  b = true → Q tt s → wp (ensure b er) s Q E.
Proof. by intros ->. Qed.

Lemma wp_ensure_signed o s (Q : AccountId → State → Prop) (E : DispatchError → Prop) :
  (∀ a, o = Signed a → Q a s) → E BadOrigin → wp (ensure_signed o) s Q E.
Proof. unfold wp, ensure_signed. destruct o; naive_solver. Qed.

Lemma wp_transfer asset from to amount s (Q : unit → State → Prop) (E : DispatchError → Prop) :
  (∀ l, asset_transfer asset from to amount (Ledger s) = inl l → Q tt (set_Ledger l s)) →
  (∀ e, asset_transfer asset from to amount (Ledger s) = inr e → E (Currency e)) →
  wp (transfer asset from to amount) s Q E.
Proof. unfold wp, transfer. destruct (asset_transfer _ _ _ _ _); naive_solver. Qed.

Lemma wp_vec_get {A} (v : list A) i a s (Q : A → State → Prop) (E : DispatchError → Prop) :
  0 ≤ i → v !! Z.to_nat i = Some a → Q a s → wp (vec_get v i) s Q E.
Proof. intros Hi Hv HQ. unfold wp, vec_get. destruct (Z.ltb_spec i 0); [lia|]. by rewrite Hv. Qed.

Lemma wp_vec_set {A} (v : list A) i x s (Q : list A → State → Prop) (E : DispatchError → Prop) :
  0 ≤ i < len v → Q (<[Z.to_nat i := x]> v) s → wp (vec_set v i x) s Q E.
Proof.
  intros Hi HQ. unfold wp, vec_set, len in *.
  destruct (Z.ltb_spec i 0); [lia|]. by destruct (Z.leb_spec (Z.of_nat (length v)) i); [lia|].
Qed.

(** The last element of a vector, and the vector rotated right by one. *)
Lemma usize_sub_last {A} (p : list A) x : len (p ++ [x]) ≤ u32_MAX → usize_sub (len (p ++ [x])) 1 = len p.
Proof.
  unfold len. rewrite length_app. cbn. intros. unfold usize_sub. rewrite wrapping_sub_in; lia.
Qed.
Lemma lookup_last {A} (p : list A) x : (p ++ [x]) !! Z.to_nat (len p) = Some x.
Proof. unfold len. by rewrite Nat2Z.id, lookup_app_r, Nat.sub_diag by lia. Qed.
Lemma rotate_last {A} (p : list A) x : try_rotate_right (p ++ [x]) 1 = Some (x :: p).
Proof.
  unfold try_rotate_right, len. rewrite length_app. cbn [length]. rewrite (proj2 (Z.leb_le _ _)) by lia.
  replace (length p + 1 - Z.to_nat 1)%nat with (length p) by lia.
  by rewrite drop_app_length, take_app_length.
Qed.

(** A loop of writes. *)
Lemma wp_for_each_modify {A} (l : list A) (f : A → State → State) s (Q : unit → State → Prop)
    (E : DispatchError → Prop) :
  Q tt (foldl (λ s x, f x s) s l) → wp (for_each l (λ x, modify (f x))) s Q E.
Proof.
  revert s. induction l as [|x l IH]; intros s HQ; cbn; [done|].
  apply wp_bind, wp_modify. by apply IH.
Qed.

(** A loop keeps [I], which speaks of the elements still to be visited. *)
Lemma wp_for_each {A} (I : list A → State → Prop) (l : list A) body s
    (Q : unit → State → Prop) (E : DispatchError → Prop) :
  I l s →
  (∀ x l' s', I (x :: l') s' → wp (body x) s' (λ _, I l') E) →
  (∀ s', I [] s' → Q tt s') →
  wp (for_each l body) s Q E.
Proof.
  intros HI Hbody HQ. revert s HI. induction l as [|x l IH]; intros s HI; cbn.
  - by apply wp_ret, HQ.
  - apply wp_bind. eapply wp_mono; [by apply Hbody | naive_solver | done].
Qed.

(** From a weakest precondition to the outcome of a run. *)
Lemma wp_Ok {A} (m : M A) s (Q : A → State → Prop) E a s' :
  wp m s Q E → m s = Ok (a, s') → Q a s'.
Proof. unfold wp. intros Hwp Hm. by rewrite Hm in Hwp. Qed.

(** * Transfers

    The transfers a run has made, in order. *)
Record Transfer : Type := mkTransfer {
  t_asset : Z;
  t_from : AccountId;
  t_to : AccountId;
  t_amount : Balance;
}.

Fixpoint run_transfers (ts : list Transfer) (ledger : Assets) : option Assets :=
  match ts with
  | [] => Some ledger
  | t :: ts =>
    match asset_transfer (t_asset t) (t_from t) (t_to t) (t_amount t) ledger with
    | inl ledger => run_transfers ts ledger
    | inr _ => None
    end
  end.

Lemma run_transfers_app ts ts' ledger ledger' ledger'' :
  run_transfers ts ledger = Some ledger' → run_transfers ts' ledger' = Some ledger'' →
  run_transfers (ts ++ ts') ledger = Some ledger''.
Proof.
  revert ledger. induction ts as [|t ts IH]; intros ledger; cbn; [by intros [= ->]|].
  case_match; [apply IH | done].
Qed.

(** * Effects

    What a run does outside the storage of the pallet: the transfers it makes and the
    events it deposits, in order. *)
Inductive Effect : Type :=
  | Moved (t : Transfer)
  | Emitted (ev : Event).

Definition transfers (fx : list Effect) : list Transfer :=
  omap (λ x, match x with Moved t => Some t | Emitted _ => None end) fx.
Definition events (fx : list Effect) : list Event :=
  omap (λ x, match x with Moved _ => None | Emitted ev => Some ev end) fx.

Definition performs (fx : list Effect) s s' : Prop :=
  run_transfers (transfers fx) (Ledger s) = Some (Ledger s') ∧ Events s' = Events s ++ events fx.

Lemma transfers_app fx fx' : transfers (fx ++ fx') = transfers fx ++ transfers fx'.
Proof. apply omap_app. Qed.
Lemma events_app fx fx' : events (fx ++ fx') = events fx ++ events fx'.
Proof. apply omap_app. Qed.

Lemma performs_nil s s' : Ledger s' = Ledger s → Events s' = Events s → performs [] s s'.
Proof. intros HL HE. split; cbn; [by rewrite HL | by rewrite app_nil_r]. Qed.

Lemma performs_app fx fx' s s1 s2 :
  performs fx s s1 → performs fx' s1 s2 → performs (fx ++ fx') s s2.
Proof.
  intros [Ht He] [Ht' He']. split; [|by rewrite events_app, app_assoc, <- He].
  rewrite transfers_app. by eapply run_transfers_app.
Qed.

(** * The view of one ROSCA

    What the storage holds under the key of one ROSCA. *)
Record RoscaView : Type := mkView {
  v_active : option RoscaDetails;
  v_completed : option unit;
  v_participants : gmap AccountId Z;
  v_invited : gmap AccountId unit;
  v_count : option Z;
  v_deposits : gmap AccountId Z;
  v_slots : option (list (option AccountId));
  v_order : option (list AccountId);
  v_pending : option RoscaDetails;
  v_next : option Moment;
  v_final : option Moment;
  v_claimant : option AccountId;
  v_contributors : gmap AccountId unit;
  v_contributions : Z;
  v_defaults : gmap AccountId Z;
}.

Definition view r s : RoscaView :=
  mkView (ActiveRoscas s !! r) (CompletedRoscas s !! r) (prefix (RoscaParticipants s) r)
    (prefix (RoscaInvitedPreverifiedParticipants s) r) (RoscaParticipantsCount s !! r)
    (prefix (RoscaSecurityDeposits s) r) (PendingRoscaParticipantsOrder s !! r)
    (ActiveRoscaParticipantsOrder s !! r) (PendingRoscaDetails s !! r) (NextPayByTimestamp s !! r)
    (FinalPayByTimestamp s !! r) (EligibleClaimant s !! r) (prefix (CurrentContributors s) r)
    (default 0 (CurrentContributionCount s !! r)) (prefix (DefaultCount s) r).

Definition empty_view : RoscaView :=
  mkView None None ∅ ∅ None ∅ None None None None None None ∅ 0 ∅.

(** * Frames

    [frame r s s']: between [s] and [s'] nothing was written under another ROSCA's
    key, the next identifier and the environment are the same and the event log was only extended. *)
Record frame r s s' : Prop := mkFrame {
  frame_view r' : r ≠ r' → view r' s' = view r' s;
  frame_next : NextRoscaId s' = NextRoscaId s;
  frame_now : Now s' = Now s;
  frame_block : BlockNumber s' = BlockNumber s ∧ BlockHash s' = BlockHash s;
  frame_events : Events s `prefix_of` Events s';
}.

#[global] Instance frame_refl r : Reflexive (frame r).
Proof. by split. Qed.
#[global] Instance frame_trans r : Transitive (frame r).
Proof.
  intros s1 s2 s3 [V1 I1 N1 [B1 H1] E1] [V2 I2 N2 [B2 H2] E2].
  split; [intros r' Hr; by rewrite V2, V1 | congruence | congruence | split; congruence | by etrans].
Qed.

(** Every successful run of [m] is related by [R]. *)
Definition stable (R : relation State) {A} (m : M A) : Prop :=
  ∀ s a s', m s = Ok (a, s') → R s s'.

Section stable.
Context (R : relation State) `{!Reflexive R, !Transitive R}.

Lemma stable_bind {A B} (m : M A) (k : A → M B) :
  stable R m → (∀ a, stable R (k a)) → stable R (m ≫= k).
Proof.
  unfold stable, mbind, M_bind. intros Hm Hk s b s'.
  repeat case_match; intros; simplify_eq. etrans; eauto.
Qed.
Lemma stable_ret {A} (a : A) : stable R (mret a).
Proof. intros s b s'. unfold mret, M_ret. naive_solver. Qed.
Lemma stable_gets {A} (f : State → A) : stable R (gets f).
Proof. intros s b s'. unfold gets. naive_solver. Qed.
Lemma stable_ensure b e : stable R (ensure b e).
Proof. intros s a s'. unfold ensure, mret, M_ret, throw. destruct b; naive_solver. Qed.
Lemma stable_ok_or {A} (o : option A) e : stable R (ok_or o e).
Proof. intros s a s'. unfold ok_or, mret, M_ret, throw. destruct o; naive_solver. Qed.
Lemma stable_ensure_signed o : stable R (ensure_signed o).
Proof. intros s a s'. unfold ensure_signed, mret, M_ret. destruct o; naive_solver. Qed.
Lemma stable_panic {A} : stable R (panic (A := A)).
Proof. intros s a s'. by unfold panic. Qed.
Lemma stable_diverge {A} : stable R (diverge (A := A)).
Proof. intros s a s'. by unfold diverge. Qed.
Lemma stable_vec_get {A} (v : list A) i : stable R (vec_get v i).
Proof. unfold vec_get. repeat case_match; auto using stable_panic, stable_ret. Qed.
Lemma stable_vec_set {A} (v : list A) i x : stable R (vec_set v i x).
Proof. unfold vec_set. repeat case_match; auto using stable_panic, stable_ret. Qed.
Lemma stable_modify f : (∀ s, R s (f s)) → stable R (modify f).
Proof. intros Hf s a s'. unfold modify. naive_solver. Qed.
Lemma stable_deposit_event ev :
  (∀ s, R s (set_Events (Events s ++ [ev]) s)) → stable R (deposit_event ev).
Proof. apply stable_modify. Qed.
Lemma stable_transfer asset from to amount :
  (∀ s l, R s (set_Ledger l s)) → stable R (transfer asset from to amount).
Proof. intros Hf s a s'. unfold transfer. destruct (asset_transfer _ _ _ _ _); naive_solver. Qed.
Lemma stable_for_each {A} (l : list A) body :
  (∀ x, stable R (body x)) → stable R (for_each l body).
Proof. intros Hb. induction l; cbn; auto using stable_ret, stable_bind. Qed.
End stable.

(** * Invariants with typed results

    [keeps J E m P]: from a state satisfying [J], whatever [m] returns satisfies [P]
    and leaves a state satisfying [J] again; a refusal of the ledger satisfies [E]. *)
Definition keeps (J : State → Prop) (E : TransferError → Prop) {A} (m : M A) (P : A → Prop) : Prop :=
  ∀ s, J s →
    match m s with
    | Ok (x, s') => P x ∧ J s'
    | Err (Currency e) => E e
    | _ => True
    end.
Definition optional {A} (P : A → Prop) (o : option A) : Prop := ∀ x, o = Some x → P x.

Section keeps.
Context {J : State → Prop} {E : TransferError → Prop}.

Lemma keeps_mono {A} (m : M A) (P Q : A → Prop) : keeps J E m P → (∀ x, P x → Q x) → keeps J E m Q.
Proof. intros Hm HPQ s Hs. specialize (Hm s Hs). repeat case_match; naive_solver. Qed.
Lemma keeps_bind {A B} (m : M A) (k : A → M B) P Q :
  keeps J E m P → (∀ x, P x → keeps J E (k x) Q) → keeps J E (m ≫= k) Q.
Proof.
  intros Hm Hk s Hs. unfold mbind, M_bind. specialize (Hm s Hs).
  destruct (m s) as [[x s']| | |]; try done. destruct Hm as [Hx Hs']. by apply Hk.
Qed.
Lemma keeps_ret {A} (x : A) (P : A → Prop) : P x → keeps J E (mret x) P.
Proof. by intros Hx s Hs. Qed.
Lemma keeps_gets {A} (f : State → A) (P : A → Prop) : (∀ s, J s → P (f s)) → keeps J E (gets f) P.
Proof. intros Hf s Hs. split; [by apply Hf | done]. Qed.
Lemma keeps_modify f (P : unit → Prop) : P tt → (∀ s, J s → J (f s)) → keeps J E (modify f) P.
Proof. intros HP Hf s Hs. split; [done | by apply Hf]. Qed.
Lemma keeps_ensure b e (P : unit → Prop) : P tt → keeps J E (ensure b e) P.
Proof. intros HP s Hs. by destruct b. Qed.
Lemma keeps_ok_or {A} (o : option A) e (P : A → Prop) : optional P o → keeps J E (ok_or o e) P.
Proof. intros Ho s Hs. destruct o; [|done]. split; [by apply Ho | done]. Qed.
Lemma keeps_ensure_signed o (P : AccountId → Prop) : (∀ a, P a) → keeps J E (ensure_signed o) P.
Proof. intros HP s Hs. by destruct o. Qed.
Lemma keeps_vec_get {A} (v : list A) i (P : A → Prop) : Forall P v → keeps J E (vec_get v i) P.
Proof.
  intros Hv s Hs. unfold vec_get. destruct (i <? 0); [done|]. destruct (v !! Z.to_nat i) eqn:Hi; [|done].
  split; [by eapply Forall_lookup_1 | done].
Qed.
Lemma keeps_vec_set {A} (v : list A) i x : keeps J E (vec_set v i x) (λ v', length v' = length v).
Proof. intros s Hs. unfold vec_set. destruct (_ || _); [done|]. split; [apply length_insert | done]. Qed.
Lemma keeps_diverge {A} (P : A → Prop) : keeps J E diverge P.
Proof. by intros s Hs. Qed.
Lemma keeps_for_each {A} (l : list A) body :
  (∀ x, x ∈ l → keeps J E (body x) (λ _, True)) → keeps J E (for_each l body) (λ _, True).
Proof.
  induction l as [|x l IH]; intros Hb; cbn; [by apply keeps_ret|].
  eapply keeps_bind; [apply Hb; by left | intros _ _]. apply IH. intros y Hy. apply Hb. by right.
Qed.
End keeps.
End logic.

(** Symbolic execution of a [wp] goal: one primitive at a time, splitting on the
    conditions the code tests. *)
Ltac wp_prim :=
  lazymatch goal with
  | |- wp (mret _) _ _ _ => apply wp_ret
  | |- wp (gets _) _ _ _ => apply wp_gets
  | |- wp (modify _) _ _ _ => apply wp_modify
  | |- wp (deposit_event _) _ _ _ => apply wp_deposit_event
  | |- wp (ensure _ _) _ _ _ => apply wp_ensure
  | |- wp (ok_or _ _) _ _ _ => apply wp_ok_or
  | |- wp (ensure_signed _) _ _ _ => apply wp_ensure_signed
  | |- wp (transfer _ _ _ _) _ _ _ => apply wp_transfer
  end.
Ltac wp_step :=
  lazymatch goal with
  | |- wp (mbind _ _) _ _ _ => apply wp_bind
  | |- wp (if ?b then _ else _) _ _ _ => destruct b eqn:?
  | |- wp _ _ _ _ => wp_prim
  end; cbv beta.

(** All steps that involve no choice. *)
Ltac wp_auto :=
  repeat (cbv zeta;
    lazymatch goal with
    | |- wp (mbind _ _) _ _ _ => apply wp_bind
    | |- wp (mret _) _ _ _ => apply wp_ret
    | |- wp (gets _) _ _ _ => apply wp_gets
    | |- wp (modify _) _ _ _ => apply wp_modify
    | |- wp (deposit_event _) _ _ _ => apply wp_deposit_event
    end; cbv beta).

(** The effects of a run that the ledger and the log show. *)
Ltac solve_performs :=
  split; cbn; repeat match goal with H : asset_transfer _ _ _ _ _ = inl _ |- _ => cbn in H; rewrite H; clear H end;
  rewrite <- ?app_assoc, ?app_nil_r; done.

(** [x ← gets f; y ← ok_or x e; ...] where [H] tells what is stored. *)
Ltac wp_read H := wp_auto; apply (wp_ok_or_Some _ _ _ _ _ _ H); cbv beta.

(** The same for [stable] goals. *)
Ltac stable_step :=
  lazymatch goal with
  | |- stable _ (mbind _ _) => refine (stable_bind _ _ _ _ _); [|intros]
  | |- stable _ (mret _) => refine (stable_ret _ _)
  | |- stable _ (gets _) => refine (stable_gets _ _)
  | |- stable _ (ensure _ _) => refine (stable_ensure _ _ _)
  | |- stable _ (ok_or _ _) => refine (stable_ok_or _ _ _)
  | |- stable _ (ensure_signed _) => refine (stable_ensure_signed _ _)
  | |- stable _ (vec_get _ _) => refine (stable_vec_get _ _ _)
  | |- stable _ (vec_set _ _ _) => refine (stable_vec_set _ _ _ _)
  | |- stable _ diverge => refine (stable_diverge _)
  | |- stable _ (for_each _ _) => refine (stable_for_each _ _ _ _); intros
  | |- stable _ (modify _) => refine (stable_modify _ _ _); intros
  | |- stable _ (deposit_event _) => refine (stable_deposit_event _ _ _); intros
  | |- stable _ (transfer _ _ _ _) => refine (stable_transfer _ _ _ _ _ _); intros
  | |- stable _ (if decide ?P then _ else _) => destruct (decide P)
  | |- stable _ (if ?b then _ else _) => destruct b
  | |- stable _ (match ?x with _ => _ end) => destruct x
  end.

(** A storage write under the key [r] is a frame step. *)
Ltac solve_frame :=
  split;
  [ intros; unfold view; cbn; f_equal; by autorewrite with storage
  | reflexivity
  | reflexivity
  | split; reflexivity
  | cbn; first [reflexivity | by apply prefix_app_r] ].
