(* ===== verification/RoscaFrame.v ===== *)
(** Every call works on one ROSCA: whatever it writes under a [RoscaId] key, it
    writes under the key of the ROSCA it names (or creates). *)

From S2P Require Import Prelude RoscaTypes RoscaRounds RoscaCalls RoscaLogic.

Create HintDb frames.

Section frames.
Context {T : Config}.
Implicit Types (r : RoscaId).

Ltac solve_stable :=
  repeat (cbv zeta; first [solve [eauto with frames] | stable_step]); solve_frame.

Lemma process_defaulter_frame r d c acc p : stable (frame r) (process_defaulter r d c acc p).
Proof. unfold process_defaulter. solve_stable. Qed.
#[local] Hint Resolve process_defaulter_frame : frames.

Lemma process_defaulters_frame r : stable (frame r) (process_defaulters r).
Proof. unfold process_defaulters. solve_stable. Qed.

Lemma advance_rosca_round_frame r : stable (frame r) (advance_rosca_round r).
Proof. unfold advance_rosca_round. solve_stable. Qed.

Lemma check_and_complete_rosca_frame r : stable (frame r) (check_and_complete_rosca r).
Proof. unfold check_and_complete_rosca. solve_stable. Qed.
#[local] Hint Resolve process_defaulters_frame advance_rosca_round_frame
  check_and_complete_rosca_frame : frames.

Lemma shuffle_loop_stable R `{!Reflexive R, !Transitive R} fuel seed av sh :
  stable R (shuffle_loop fuel seed av sh).
Proof.
  revert av sh. induction fuel as [|fuel IH]; intros [|i av] sh; cbn [shuffle_loop]; repeat stable_step.
  apply IH.
Qed.

Lemma shuffle_apply_stable R `{!Reflexive R, !Transitive R} ps i idx sh :
  stable R (shuffle_apply ps i idx sh).
Proof. revert i sh. induction idx; intros; cbn [shuffle_apply]; repeat stable_step; auto. Qed.

Lemma shuffle_participants_stable R `{!Reflexive R, !Transitive R} ps :
  stable R (shuffle_participants ps).
Proof.
  unfold shuffle_participants. repeat (cbv zeta; stable_step);
    [by apply shuffle_loop_stable | by apply shuffle_apply_stable].
Qed.

Lemma generate_rounds_stable R `{!Reflexive R, !Transitive R} ps t f :
  stable R (generate_rounds ps t f).
Proof.
  unfold generate_rounds. repeat stable_step. clear t.
  match goal with |- stable _ (generate_rounds_loop _ _ ?i ?l ?rs ?c) => generalize i, rs, c end.
  induction (reverse ps); intros; cbn [generate_rounds_loop]; repeat (cbv zeta; stable_step); auto.
Qed.

Lemma add_frequency_stable R `{!Reflexive R, !Transitive R} n t f : stable R (add_frequency n t f).
Proof. revert t. induction n; intros; cbn [add_frequency]; repeat stable_step; auto. Qed.

Lemma catch_up_frame fuel r now t l c : stable (frame r) (catch_up fuel r now t l c).
Proof. revert t l c. induction fuel; intros; cbn [catch_up]; solve_stable. Qed.

Lemma process_remaining_rounds_frame fuel r t : stable (frame r) (process_remaining_rounds fuel r t).
Proof. induction fuel; cbn [process_remaining_rounds]; solve_stable. Qed.

Lemma settle_contribution_frame a r d f t l c : stable (frame r) (settle_contribution a r d f t l c).
Proof. unfold settle_contribution. solve_stable. Qed.

#[local] Hint Extern 1 (stable _ (shuffle_participants _)) => apply shuffle_participants_stable; apply _ : frames.
#[local] Hint Extern 1 (stable _ (generate_rounds _ _ _)) => apply generate_rounds_stable; apply _ : frames.
#[local] Hint Extern 1 (stable _ (add_frequency _ _ _)) => apply add_frequency_stable; apply _ : frames.
#[local] Hint Resolve catch_up_frame process_remaining_rounds_frame settle_contribution_frame : frames.

(** The ROSCA a call works on, given the next identifier. *)
Definition call_rosca (next : RoscaId) (c : Call) : RoscaId :=
  match c with
  | Call_create_rosca _ _ _ _ _ _ _ _ _ => next
  | Call_join_rosca r _ | Call_leave_rosca r | Call_start_rosca r | Call_contribute_to_rosca r
  | Call_manually_end_rosca r | Call_claim_security_deposit r _
  | Call_add_to_security_deposit r _ => r
  end.

Lemma dispatch_frame_named o c s s' :
  (∀ n, call_rosca n c = call_rosca (next_rosca_id s) c) →
  dispatch o c s = Ok (tt, s') → frame (call_rosca (next_rosca_id s) c) s s'.
Proof.
  intros Hc. destruct c as [| | | | | | |]; cbn in *.
  1: specialize (Hc (next_rosca_id s + 1)); lia.
  all: clear Hc; generalize dependent s'; generalize dependent s; intros s s'.
  - enough (stable (frame rosca_id) (join_rosca o rosca_id position)) by eauto.
    unfold join_rosca. solve_stable.
  - enough (stable (frame rosca_id) (leave_rosca o rosca_id)) by eauto.
    unfold leave_rosca. solve_stable.
  - enough (stable (frame rosca_id) (start_rosca o rosca_id)) by eauto.
    unfold start_rosca. solve_stable.
  - enough (stable (frame rosca_id) (contribute_to_rosca o rosca_id)) by eauto.
    unfold contribute_to_rosca. solve_stable.
  - enough (stable (frame rosca_id) (manually_end_rosca o rosca_id)) by eauto.
    unfold manually_end_rosca. solve_stable.
  - enough (stable (frame rosca_id) (claim_security_deposit o rosca_id asset)) by eauto.
    unfold claim_security_deposit. solve_stable.
  - enough (stable (frame rosca_id) (add_to_security_deposit o rosca_id amount)) by eauto.
    unfold add_to_security_deposit. solve_stable.
Qed.
End frames.
