(* ===== verification/RoscaSchedule.v ===== *)
(** The payout schedule of a ROSCA: the shuffle of its participants and the rounds
    announced when it starts. *)

From S2P Require Import Prelude RoscaTypes RoscaRounds RoscaCalls RoscaLogic RoscaSample.

Section shuffle.
Context {T : Config} {L : ConfigLaws T}.
Implicit Types (s : State) (ps : list AccountId) (idx av : list Z).

(** The indices drawn from [av] when every draw uses the byte [b]. *)
Fixpoint draws (fuel : nat) (b : Z) av : list Z :=
  match fuel with
  | O => []
  | S fuel =>
    match av with
    | [] => []
    | _ => let i := Z.to_nat (b mod len av) in
           option_list (av !! i) ++ draws fuel b (delete i av)
    end
  end.

Lemma draw_lookup b av : av ≠ [] → 0 ≤ b mod len av ∧ is_Some (av !! Z.to_nat (b mod len av)).
Proof.
  intros Hav. unfold len. assert (0 < length av)%nat by (destruct av; [done | cbn; lia]).
  pose proof (Z.mod_pos_bound b (Z.of_nat (length av))). split; [lia|].
  apply lookup_lt_is_Some. lia.
Qed.

Lemma draws_Permutation fuel b av : (length av ≤ fuel)%nat → draws fuel b av ≡ₚ av.
Proof.
  revert av. induction fuel as [|fuel IH]; intros [|x av] Hlen; cbn in Hlen; try done; [lia|].
  destruct (draw_lookup b (x :: av)) as [_ [y Hy]]; [done|].
  cbn [draws]. rewrite Hy. cbn [option_list app].
  etrans; [|symmetry; by apply delete_Permutation]. apply Permutation_skip, IH.
  pose proof (length_delete (x :: av) _ (mk_is_Some _ _ Hy)) as Hd. cbn in Hd. lia.
Qed.

Lemma wp_shuffle_loop fuel seed b av sh s (Q : list Z → State → Prop) E :
  (length av ≤ fuel)%nat → head (blake2_128 seed) = Some b →
  Q (sh ++ draws fuel b av) s → wp (shuffle_loop fuel seed av sh) s Q E.
Proof.
  intros Hlen Hb. revert av sh Hlen.
  induction fuel as [|fuel IH]; intros [|x av] sh Hlen HQ; cbn in Hlen;
    [by rewrite app_nil_r in HQ | lia | by rewrite app_nil_r in HQ |].
  destruct (draw_lookup b (x :: av)) as [H0 [y Hy]]; [done|].
  cbn [shuffle_loop]. wp_step. eapply (wp_vec_get _ _ b); [done | by destruct (blake2_128 seed) |].
  wp_step. eapply wp_vec_get; [done..|].
  apply IH.
  - pose proof (length_delete (x :: av) _ (mk_is_Some _ _ Hy)) as Hd. cbn in Hd. lia.
  - cbn [draws] in HQ. rewrite Hy in HQ. cbn [option_list] in HQ. by rewrite <- app_assoc.
Qed.

Lemma wp_shuffle_apply ps i idx sh s (Q : list AccountId → State → Prop) E :
  Forall (λ j, 0 ≤ j < len ps) idx → 0 ≤ i → i + len idx ≤ len sh →
  Q (take (Z.to_nat i) sh ++ omap (λ j, ps !! Z.to_nat j) idx
     ++ drop (Z.to_nat i + length idx) sh) s →
  wp (shuffle_apply ps i idx sh) s Q E.
Proof.
  intros Hidx. revert i sh. induction Hidx as [|j idx Hj Hidx IH]; intros i sh Hi Hle HQ.
  { cbn in HQ |- *. rewrite Nat.add_0_r, take_drop in HQ. done. }
  unfold len in *. cbn [shuffle_apply length] in *.
  destruct (lookup_lt_is_Some_2 ps (Z.to_nat j)) as [p Hp]; [lia|].
  wp_step. eapply wp_vec_get; [lia | done |].
  wp_step. apply wp_vec_set; [unfold len; lia|].
  apply IH; [lia | rewrite length_insert; lia |].
  assert (Z.to_nat (i + 1) = S (Z.to_nat i)) as -> by lia.
  cbn in HQ. rewrite Hp in HQ.
  rewrite (take_S_r _ _ p), take_insert_ge, drop_insert_lt by
    (try apply list_lookup_insert_eq; lia).
  rewrite <- app_assoc. cbn. replace (S (Z.to_nat i + length idx)) with (Z.to_nat i + S (length idx))%nat by lia. done.
Qed.

Lemma omap_seqZ ps : omap (λ j, ps !! Z.to_nat j) (seqZ 0 (len ps)) = ps.
Proof.
  induction ps as [|p ps IH] using rev_ind; [done|].
  unfold len in *. rewrite length_app, Nat2Z.inj_add, seqZ_app, omap_app by lia.
  rewrite (seqZ_cons (0 + _)), (seqZ_nil (Z.succ _)) by (cbn; lia).
  cbn [omap list_omap]. rewrite Z.add_0_l, Nat2Z.id, lookup_app_r, Nat.sub_diag by lia. f_equal.
  rewrite <- IH at 2. apply list_omap_ext, Forall_Forall2_diag, Forall_forall.
  intros j Hj%elem_of_seqZ. apply lookup_app_l. lia.
Qed.

(** The first byte of the hashed seed, on which the whole order depends. *)
Definition shuffle_byte s : Z :=
  default 0 (head (blake2_128 (blake2_128 (BlockHash s (BlockNumber s))))).

Definition shuffled (b : Z) ps : list AccountId :=
  omap (λ j, ps !! Z.to_nat j) (draws (length ps) b (seqZ 0 (len ps))).

Lemma shuffled_Permutation b ps : shuffled b ps ≡ₚ ps.
Proof.
  unfold shuffled. rewrite draws_Permutation; [by rewrite omap_seqZ|].
  rewrite length_seqZ. unfold len. lia.
Qed.

Lemma wp_shuffle_participants ps s (Q : list AccountId → State → Prop) E :
  Q (shuffled (shuffle_byte s) ps) s → wp (shuffle_participants ps) s Q E.
Proof.
  intros HQ. unfold shuffle_participants. do 5 (wp_step; cbv zeta).
  assert (length (seqZ 0 (len ps)) = length ps) as Hlen by (rewrite length_seqZ; unfold len; lia).
  assert (draws (length ps) (shuffle_byte s) (seqZ 0 (len ps)) ≡ₚ seqZ 0 (len ps)) as Hperm
    by (apply draws_Permutation; lia).
  unfold shuffled in HQ. set (idx := draws _ _ _) in *.
  eapply (wp_shuffle_loop _ _ (shuffle_byte s)); [lia | |]; fold idx.
  { unfold shuffle_byte. pose proof (blake2_128_length (blake2_128 (BlockHash s (BlockNumber s)))).
    by destruct (blake2_128 (blake2_128 _)). }
  pose proof (Permutation_length Hperm) as Hlen'.
  apply wp_shuffle_apply; [| lia | unfold len; rewrite app_nil_l; lia |].
  - rewrite app_nil_l, Hperm. apply Forall_forall. intros j Hj%elem_of_seqZ. lia.
  - rewrite drop_ge, app_nil_r by (rewrite app_nil_l; lia). done.
Qed.
End shuffle.

Section rounds.
Context {T : Config} {L : ConfigLaws T}.
Implicit Types (s : State) (l : list AccountId) (t f : Moment).

(** The rounds a ROSCA announces: [l] lists the recipients in order of payout, [t]
    is the start and [f] the contribution frequency. *)
Definition round_of l t f (i : nat) (a : AccountId) : RoundInfo :=
  mkRoundInfo (Z.of_nat i + 1) (t + f * (Z.of_nat i + 1)) (filter (λ x, x ≠ a) (reverse l)) a.
Definition schedule l t f : list RoundInfo := imap (round_of l t f) l.

(** The loop, in the middle of the recipients [done ++ todo]. *)
Lemma wp_generate_rounds_loop l t f done todo s (Q : list RoundInfo → State → Prop) E :
  l = done ++ todo → NoDup l → 0 ≤ t → 0 ≤ f →
  len l ≤ MaxParticipants → len l ≤ MaxInvitedParticipants + 1 →
  (t + f * (len l + 1) ≤ u64_MAX → Q (imap (round_of l t f) l) s) →
  (u64_MAX < t + f * (len l + 1) → E (ModuleError ArithmeticOverflow)) →
  t + f * (len done + 1) ≤ u64_MAX →
  wp (generate_rounds_loop (reverse l) f (len done) todo (imap (round_of l t f) done)
        (t + f * (len done + 1))) s Q E.
Proof.
  intros Hl Hnd Ht Hf Hmax Hinv HQ HE. revert done Hl.
  pose proof MaxParticipants_u32 as Hu. unfold in_width, u32_MAX in Hu.
  induction todo as [|a todo IH]; intros done Hl Hcut; cbn [generate_rounds_loop].
  { rewrite app_nil_r in Hl. subst done. wp_step. by apply HQ. }
  assert (len l = len done + 1 + len todo) as Hlen
    by (subst l; unfold len; rewrite length_app; cbn; lia).
  assert (S (length (filter (λ x, x ≠ a) (reverse l))) = length (reverse l)) as Hflt.
  { apply filter_ne_length; [by rewrite reverse_Permutation|].
    apply elem_of_reverse. subst l. set_solver. }
  rewrite length_reverse in Hflt. cbv zeta. wp_step. wp_step.
  2: { unfold bounded_try_from, len in *. case_match; [done | lia]. }
  intros cs Hcs. unfold bounded_try_from in Hcs. case_match; simplify_eq.
  wp_step. wp_step.
  2: { unfold try_push, len in *. rewrite length_imap. case_match; [done | lia]. }
  intros rs Hrs. unfold try_push in Hrs. case_match; simplify_eq.
  assert (len (done ++ [a]) = len done + 1) as Hd by (unfold len; rewrite length_app; cbn; lia).
  wp_step. wp_step.
  - intros c [-> Hc]%checked_add_Some.
    specialize (IH (done ++ [a])). rewrite Hd in IH.
    rewrite imap_app in IH. cbn in IH. rewrite Nat.add_0_r in IH. unfold compose in IH.
    rewrite Z.mod_small by (unfold len in *; lia).
    replace (t + f * (len done + 1) + f) with (t + f * (len done + 1 + 1)) by lia.
    apply IH; [by rewrite <- app_assoc | lia].
  - intros Hc%checked_add_None. apply HE. unfold len in *. nia.
Qed.

(** [generate_rounds] announces the schedule, or reports an overflow exactly when
    the cutoff after the last round does not fit a [u64]. *)
Lemma wp_generate_rounds l t f s (Q : list RoundInfo → State → Prop) E :
  NoDup l → 0 ≤ t → 0 ≤ f → len l ≤ MaxParticipants → len l ≤ MaxInvitedParticipants + 1 →
  (t + f * (len l + 1) ≤ u64_MAX → Q (schedule (reverse l) t f) s) →
  (u64_MAX < t + f * (len l + 1) → E (ModuleError ArithmeticOverflow)) →
  wp (generate_rounds l t f) s Q E.
Proof.
  intros Hnd Ht Hf Hmax Hinv HQ HE.
  assert (len (reverse l) = len l) as Hlen by (unfold len; by rewrite length_reverse).
  unfold generate_rounds. wp_step. wp_step.
  - intros c [-> Hc]%checked_add_Some.
    rewrite <- (reverse_involutive l) at 1. replace (t + f) with (t + f * (len (@nil AccountId) + 1)).
    2: { unfold len. cbn. lia. }
    apply (wp_generate_rounds_loop (reverse l) t f [] (reverse l)); rewrite ?Hlen; try done.
    + by rewrite reverse_Permutation.
    + unfold len. cbn. lia.
  - intros Hc%checked_add_None. apply HE. unfold len in *. nia.
Qed.

(** [add_frequency] computes [t + f * n], and overflows exactly when that does. *)
Lemma wp_add_frequency n t f s (Q : Moment → State → Prop) E :
  0 ≤ f →
  (t + f * Z.of_nat n ≤ u64_MAX → Q (t + f * Z.of_nat n) s) →
  (u64_MAX < t + f * Z.of_nat n → E (ModuleError ArithmeticOverflow)) →
  t ≤ u64_MAX → wp (add_frequency n t f) s Q E.
Proof.
  intros Hf. revert t. induction n as [|n IH]; intros t HQ HE Ht; cbn [add_frequency].
  { rewrite Z.mul_0_r, Z.add_0_r in HQ. by apply HQ. }
  wp_step. wp_step.
  - intros c [-> Hc]%checked_add_Some.
    assert (t + f + f * Z.of_nat n = t + f * Z.of_nat (S n)) as Heq by lia.
    apply IH; rewrite ?Heq; done.
  - intros Hc%checked_add_None. apply HE. nia.
Qed.
End rounds.
