(* ===== verification/RoscaTyping.v ===== *)
(** Types of the stored values.  The model keeps an integer of [n] bits as a [Z] and a
    [BoundedVec] as a list; this file states what their types guarantee of every
    storage item and of every event, and shows that each function of the pallet
    produces well-typed values from well-typed ones: a semantic type system for the
    dispatch monad. *)

From S2P Require Import Prelude RoscaTypes RoscaRounds RoscaCalls RoscaLogic.

Section typing.
Context {T : Config} {L : ConfigLaws T}.
Implicit Types (s : State) (r : RoscaId) (d : RoscaDetails) (a : AccountId).

(** * Well-typed storage *)

Abbreviation u32 := (in_width u32_MAX).
Abbreviation u64 := (in_width u64_MAX).
Abbreviation u128 := (in_width u128_MAX).
Definition bounded {A} (bound : Z) (l : list A) : Prop := len l ≤ bound.

(** A [StorageMap] and a [StorageDoubleMap] of values satisfying [P]. *)
Definition stored {V} (P : V → Prop) (m : gmap RoscaId V) : Prop :=
  map_Forall (λ r v, u32 r ∧ P v) m.
Definition stored_under {V} (P : V → Prop) (m : gmap RoscaId (gmap AccountId V)) : Prop :=
  stored (map_Forall (λ _, P)) m.

Record details_typed d : Prop := {
  typed_number : u32 (number_of_participants d);
  typed_threshold : u32 (minimum_participant_threshold d);
  typed_amount : u32 (contribution_amount d);
  typed_frequency : u64 (contribution_frequency d);
  typed_start_by : u64 (start_by_timestamp d);
  typed_name : bounded StringLimit (name d);
}.

Record round_typed (i : RoundInfo) : Prop := {
  typed_round_number : u32 (round_number i);
  typed_cutoff : u64 (payment_cutoff i);
  typed_expected : bounded MaxInvitedParticipants (expected_contributors i);
}.
Definition rounds_typed (l : list RoundInfo) : Prop := bounded MaxParticipants l ∧ Forall round_typed l.

Definition event_typed (e : Event) : Prop :=
  match e with
  | RoscaCreated r amount _ frequency _ name number threshold start_by eligible _ =>
    u32 r ∧ u128 amount ∧ u64 frequency ∧ bounded StringLimit name ∧ u32 number ∧ u32 threshold ∧
    u64 start_by ∧ bounded MaxParticipants eligible
  | RoscaStarted r _ rounds _ cutoff => u32 r ∧ rounds_typed rounds ∧ u64 cutoff
  | NewRoundStarted r _ cutoff => u32 r ∧ u64 cutoff
  | ContributionMade r _ _ amount | DepositDeducted r _ _ amount _
  | SecurityDepositContribution r _ amount | SecurityDepositClaimed r _ amount => u32 r ∧ u128 amount
  | ParticipantDefaulted r _ _ | JoinedRosca r _ | LeftRosca r _ | RoscaComplete r
  | RoscaManuallyEnded r => u32 r
  end.

Record well_typed s : Prop := {
  typed_next_id : u32 (NextRoscaId s);
  typed_active : stored details_typed (ActiveRoscas s);
  typed_completed : stored (λ _, True) (CompletedRoscas s);
  typed_participants : stored_under u32 (RoscaParticipants s);
  typed_invited : stored_under (λ _, True) (RoscaInvitedPreverifiedParticipants s);
  typed_count : stored u32 (RoscaParticipantsCount s);
  typed_deposits : stored_under u32 (RoscaSecurityDeposits s);
  typed_slots : stored (bounded MaxParticipants) (PendingRoscaParticipantsOrder s);
  typed_order : stored (bounded MaxParticipants) (ActiveRoscaParticipantsOrder s);
  typed_pending : stored details_typed (PendingRoscaDetails s);
  typed_next : stored u64 (NextPayByTimestamp s);
  typed_final : stored u64 (FinalPayByTimestamp s);
  typed_claimant : stored (λ _, True) (EligibleClaimant s);
  typed_contributors : stored_under (λ _, True) (CurrentContributors s);
  typed_contributions : stored u32 (CurrentContributionCount s);
  typed_defaults : stored_under u32 (DefaultCount s);
  typed_now : u64 (Now s);
  typed_events : Forall event_typed (Events s);
}.

Lemma stored_insert {V} (P : V → Prop) r v m : u32 r → P v → stored P m → stored P (<[r := v]> m).
Proof. intros. by apply map_Forall_insert_2. Qed.
Lemma stored_delete {V} (P : V → Prop) r m : stored P m → stored P (delete r m).
Proof. apply map_Forall_delete. Qed.
Lemma stored_lookup {V} (P : V → Prop) r v m : stored P m → m !! r = Some v → P v.
Proof. intros Hm Hv. by apply (Hm r v). Qed.
Lemma stored_prefix {V} (P : V → Prop) r m : stored_under P m → map_Forall (λ _, P) (prefix m r).
Proof.
  intros Hm. unfold prefix. destruct (m !! r) as [p|] eqn:E; [|apply map_Forall_empty].
  by apply (stored_lookup _ _ _ _ Hm E).
Qed.
Lemma stored_dlookup {V} (P : V → Prop) r a v m : stored_under P m → dlookup m r a = Some v → P v.
Proof. intros Hm. by apply (stored_prefix P r m Hm a v). Qed.
Lemma stored_dset {V} (P : V → Prop) r p m :
  u32 r → map_Forall (λ _, P) p → stored_under P m → stored_under P (dset r p m).
Proof. intros. by apply stored_insert. Qed.
Lemma stored_dinsert {V} (P : V → Prop) r a v m :
  u32 r → P v → stored_under P m → stored_under P (dinsert r a v m).
Proof. intros. apply stored_dset; [done| |done]. apply map_Forall_insert_2; [done|]. by apply stored_prefix. Qed.
Lemma stored_dremove {V} (P : V → Prop) r a m :
  u32 r → stored_under P m → stored_under P (dremove r a m).
Proof. intros. apply stored_dset; [done| |done]. apply map_Forall_delete. by apply stored_prefix. Qed.

(** * Typed programs

    [m ⦂ P]: from a well-typed state, whatever [m] returns satisfies [P] and leaves a
    well-typed state. *)
Notation "m ⦂ P" := (keeps well_typed (λ _, True) m P) (at level 70, no associativity).

Lemma keeps_vec_set_bounded {A} bound (v : list A) i x :
  bounded bound v → vec_set v i x ⦂ bounded bound.
Proof. intros Hv. eapply keeps_mono; [apply keeps_vec_set|]. unfold bounded, len. by intros v' ->. Qed.
Lemma type_transfer asset from to amount : transfer asset from to amount ⦂ (λ _, True).
Proof.
  intros s Hs. unfold transfer. destruct (asset_transfer _ _ _ _ _); [|done]. split; [done|].
  by destruct Hs; split.
Qed.
Lemma type_deposit_event e : event_typed e → deposit_event e ⦂ (λ _, True).
Proof.
  intros He. apply keeps_modify; [done|]. intros s []. split; try done. cbn. by apply Forall_app_2, Forall_singleton.
Qed.

(** The reads: what is stored is typed. *)
Lemma type_read {V} (f : State → gmap RoscaId V) (P : V → Prop) r :
  (∀ s, well_typed s → stored P (f s)) → gets (λ s, f s !! r) ⦂ optional P.
Proof. intros Hf. apply keeps_gets. intros s Hs v. by apply stored_lookup, Hf. Qed.
Lemma type_read_under {V} (f : State → gmap RoscaId (gmap AccountId V)) (P : V → Prop) r a :
  (∀ s, well_typed s → stored_under P (f s)) → gets (λ s, dlookup (f s) r a) ⦂ optional P.
Proof. intros Hf. apply keeps_gets. intros s Hs v. by apply stored_dlookup, Hf. Qed.

Lemma default_u32 (o : option Z) : optional u32 o → u32 (default 0 o).
Proof. destruct o; cbn; [auto | done]. Qed.
Lemma checked_add_typed max x y : 0 ≤ x → 0 ≤ y → optional (in_width max) (checked_add max x y).
Proof. intros ? ? z [-> ?]%checked_add_Some. unfold in_width. lia. Qed.
Lemma checked_sub_typed x y : u32 x → 0 ≤ y → optional u32 (checked_sub x y).
Proof. intros [? ?] ? z [-> ?]%checked_sub_Some. unfold in_width. lia. Qed.
Lemma bounded_try_from_typed {A} bound (v : list A) : optional (bounded bound) (bounded_try_from bound v).
Proof. unfold bounded_try_from, bounded. intros x. destruct (Z.leb_spec (len v) bound); naive_solver. Qed.
Lemma rotate_typed {A} bound (v : list A) mid :
  bounded bound v → optional (bounded bound) (try_rotate_right v mid).
Proof.
  unfold try_rotate_right, bounded, len. intros Hv x. case_match; [|done]. intros [= <-].
  rewrite length_app, length_drop, length_take. lia.
Qed.
Lemma width_nonneg max x : in_width max x → 0 ≤ x.
Proof. by intros [? _]. Qed.
Lemma map_Forall_True {V} (m : gmap AccountId V) : map_Forall (λ _ _, True) m.
Proof. done. Qed.
Lemma len_nonneg {A} (l : list A) : 0 ≤ len l.
Proof. unfold len. lia. Qed.
Lemma u32_0 : u32 0.
Proof. done. Qed.
Lemma u32_1 : u32 1.
Proof. done. Qed.
Lemma wrapping_add_u32 x y : u32 (wrapping_add u32_MAX x y).
Proof. unfold wrapping_add, in_width, u32_MAX. pose proof (Z.mod_pos_bound (x + y) (2 ^ 32 - 1 + 1)). lia. Qed.
Lemma optional_or {A} (P : A → Prop) (o o' : option A) :
  optional P o → optional P o' → optional P (match o with Some x => Some x | None => o' end).
Proof. by destruct o. Qed.
Lemma u32_u128 x : u32 x → u128 x.
Proof. unfold in_width, u32_MAX, u128_MAX. lia. Qed.
End typing.

Notation "m ⦂ P" := (keeps well_typed (λ _, True) m P) (at level 70, no associativity).
Create HintDb typing.
#[export] Hint Resolve stored_insert stored_delete stored_dinsert stored_dremove stored_dset default_u32
  bounded_try_from_typed rotate_typed u32_0 u32_1 wrapping_add_u32 optional_or u32_u128 map_Forall_True
  typed_number typed_threshold typed_amount typed_frequency typed_start_by typed_name : typing.

(** A write of typed values to typed storage. *)
Ltac type_write := intros ? []; split; cbn; eauto 8 with typing.

Section functions.
Context {T : Config} {L : ConfigLaws T}.
Implicit Types (r : RoscaId) (d : RoscaDetails) (a : AccountId).
Abbreviation u32 := (in_width u32_MAX).
Abbreviation u64 := (in_width u64_MAX).

(** * The getters *)

Lemma type_active_roscas r : gets (active_roscas r) ⦂ optional details_typed.
Proof. apply type_read. by intros s []. Qed.
Lemma type_completed_roscas r : gets (completed_roscas r) ⦂ optional (λ _, True).
Proof. apply type_read. by intros s []. Qed.
Lemma type_participants r a : gets (participants r a) ⦂ optional u32.
Proof. apply type_read_under. by intros s []. Qed.
Lemma type_invited r a : gets (invited_preverified_participants r a) ⦂ optional (λ _, True).
Proof. apply type_read_under. by intros s []. Qed.
Lemma type_participants_count r : gets (participants_count r) ⦂ optional u32.
Proof. apply type_read. by intros s []. Qed.
Lemma type_security_deposit r a : gets (security_deposit r a) ⦂ optional u32.
Proof. apply type_read_under. by intros s []. Qed.
Lemma type_pending_order r : gets (pending_rosca_participants_order r) ⦂ optional (bounded MaxParticipants).
Proof. apply type_read. by intros s []. Qed.
Lemma type_active_order r : gets (active_rosca_participants_order r) ⦂ optional (bounded MaxParticipants).
Proof. apply type_read. by intros s []. Qed.
Lemma type_rosca_details r : gets (rosca_details r) ⦂ optional details_typed.
Proof. apply type_read. by intros s []. Qed.
Lemma type_next r : gets (next_pay_by_timestamp r) ⦂ optional u64.
Proof. apply type_read. by intros s []. Qed.
Lemma type_final r : gets (final_pay_by_timestamp r) ⦂ optional u64.
Proof. apply type_read. by intros s []. Qed.
Lemma type_eligible_claimant r : gets (eligible_claimant r) ⦂ optional (λ _, True).
Proof. apply type_read. by intros s []. Qed.
Lemma type_current_contributors r a : gets (current_contributors r a) ⦂ optional (λ _, True).
Proof. apply type_read_under. by intros s []. Qed.
Lemma type_contribution_count r : gets (current_contribution_count r) ⦂ u32.
Proof.
  apply keeps_gets. intros s []. apply default_u32. intros x. by apply stored_lookup.
Qed.
Lemma type_Now : gets Now ⦂ u64.
Proof. apply keeps_gets. by intros s []. Qed.
Lemma type_next_rosca_id : gets next_rosca_id ⦂ u32.
Proof. apply keeps_gets. by intros s []. Qed.
Lemma type_default_count r a s : well_typed s → u32 (default_count r a s).
Proof. intros []. apply default_u32. intros x. by apply stored_dlookup. Qed.

#[local] Hint Resolve type_active_roscas type_completed_roscas type_participants type_invited
  type_participants_count type_security_deposit type_pending_order type_active_order
  type_rosca_details type_next type_final type_eligible_claimant type_current_contributors
  type_contribution_count type_Now type_next_rosca_id : typing.

(** One statement of a function: the type of its value, then the rest. *)
Ltac type_prim :=
  lazymatch goal with
  | |- ensure _ _ ⦂ _ => apply (keeps_ensure _ _ (λ _, True)); done
  | |- ensure_signed _ ⦂ _ => apply (keeps_ensure_signed _ (λ _, True)); done
  | |- ok_or (checked_add _ _ _) _ ⦂ _ => apply keeps_ok_or, checked_add_typed; first [lia | apply len_nonneg | eapply width_nonneg; eauto with typing]
  | |- ok_or (checked_sub _ _) _ ⦂ _ => apply keeps_ok_or, checked_sub_typed; [done | lia]
  | |- ok_or _ _ ⦂ _ => apply keeps_ok_or; solve [eassumption | eauto with typing]
  | |- modify _ ⦂ _ => apply (keeps_modify _ (λ _, True)); [done|]; solve [type_write]
  | |- transfer _ _ _ _ ⦂ _ => apply type_transfer
  | |- deposit_event _ ⦂ _ => apply type_deposit_event; cbn; eauto 12 with typing
  | |- vec_get _ _ ⦂ _ => apply (keeps_vec_get _ _ (λ _, True)), Forall_true; done
  | |- vec_set _ _ _ ⦂ _ => first [eapply keeps_vec_set_bounded; eassumption | apply keeps_vec_set]
  | |- mret _ ⦂ _ => apply keeps_ret
  | |- diverge ⦂ _ => apply keeps_diverge
  | |- _ => solve [eauto with typing]
  end.
Ltac type_step :=
  cbv zeta;
  lazymatch goal with
  | |- mbind _ _ ⦂ _ => eapply keeps_bind; [|intros ? ?]; cbv beta
  | |- (if decide ?P then _ else _) ⦂ _ => destruct (decide P)
  | |- (if ?b then _ else _) ⦂ _ => destruct b eqn:?
  | |- (match ?x with _ => _ end) ⦂ _ => destruct x
  | |- _ => type_prim
  end.

Lemma checked_sub_u32 x y : u32 x → u32 y → optional u32 (checked_sub x y).
Proof. intros ? [? _]. by apply checked_sub_typed. Qed.
#[local] Hint Resolve checked_sub_u32 : typing.

Lemma type_default_write r p :
  u32 r → modify (λ s, set_DefaultCount (dinsert r p
    (saturating_add u32_MAX (default_count r p s) 1) (DefaultCount s)) s) ⦂ (λ _, True).
Proof.
  intros Hr. apply keeps_modify; [done|]. intros s Hs. pose proof (type_default_count r p s Hs) as [? ?].
  assert (u32 (saturating_add u32_MAX (default_count r p s) 1)) by (unfold saturating_add, in_width; lia).
  destruct Hs. split; cbn; eauto with typing.
Qed.

(** * The helper functions *)

Lemma type_process_defaulter r d c acc p :
  u32 r → details_typed d → process_defaulter r d c acc p ⦂ (λ _, True).
Proof.
  intros Hr Hd. unfold process_defaulter.
  repeat first [apply type_default_write; done | type_step]; eauto 12 with typing.
Qed.
#[local] Hint Resolve type_process_defaulter : typing.

Lemma type_process_defaulters r : u32 r → process_defaulters r ⦂ (λ _, True).
Proof.
  intros Hr. unfold process_defaulters. repeat type_step. apply keeps_for_each. eauto with typing.
Qed.

Lemma type_advance_rosca_round r : u32 r → advance_rosca_round r ⦂ (λ _, True).
Proof. intros Hr. unfold advance_rosca_round. repeat type_step. Qed.

Lemma type_check_and_complete_rosca r : u32 r → check_and_complete_rosca r ⦂ (λ _, True).
Proof. intros Hr. unfold check_and_complete_rosca. by repeat type_step. Qed.
#[local] Hint Resolve type_process_defaulters type_advance_rosca_round type_check_and_complete_rosca : typing.

Lemma type_shuffle_loop fuel seed av sh : shuffle_loop fuel seed av sh ⦂ (λ _, True).
Proof.
  revert av sh. induction fuel as [|fuel IH]; intros [|i av] sh; cbn [shuffle_loop]; by repeat type_step.
Qed.

Lemma type_shuffle_apply ps i idx sh : shuffle_apply ps i idx sh ⦂ (λ l, length l = length sh).
Proof.
  revert i sh. induction idx as [|j idx IH]; intros i sh; cbn [shuffle_apply]; [by type_step|].
  type_step; [type_step|]. type_step; [type_step|]. eapply keeps_mono; [apply IH | cbn; congruence].
Qed.

Lemma type_shuffle_participants ps :
  bounded MaxParticipants ps → shuffle_participants ps ⦂ bounded MaxParticipants.
Proof.
  intros Hps. unfold shuffle_participants.
  eapply keeps_bind; [by apply (keeps_gets _ (λ _, True))|intros b _].
  eapply keeps_bind; [by apply (keeps_gets _ (λ _, True))|intros h _].
  eapply keeps_bind; [apply type_shuffle_loop|intros idx _].
  eapply keeps_mono; [apply type_shuffle_apply|]. unfold bounded, len. intros l ->. done.
Qed.

Lemma try_push_typed (l : list RoundInfo) x :
  rounds_typed l → round_typed x → optional rounds_typed (try_push MaxParticipants l x).
Proof.
  unfold try_push, rounds_typed, bounded, len. intros [Hl Hf] Hx y.
  destruct (Z.ltb_spec (Z.of_nat (length l)) MaxParticipants) as [Hlt|]; [|done]. intros [= <-].
  rewrite length_app. cbn. split; [lia|]. by apply Forall_app_2, Forall_singleton.
Qed.

Lemma type_generate_rounds_loop ps f i rs rounds t :
  u64 t → u64 f → rounds_typed rounds → generate_rounds_loop ps f i rs rounds t ⦂ rounds_typed.
Proof.
  intros Ht Hf. revert i rounds t Ht.
  induction rs as [|p rs IH]; intros i rounds t Ht Hr; cbn [generate_rounds_loop]; [by type_step|].
  type_step; [type_step|]. type_step.
  { apply keeps_ok_or, try_push_typed; [done|]. split; [|done|done]. unfold in_width, u32_MAX.
    cbn [round_number]. pose proof (Z.mod_pos_bound (i + 1) (2 ^ 32)). lia. }
  type_step; [type_step|]. by apply IH.
Qed.

Lemma type_generate_rounds ps t f : u64 t → u64 f → generate_rounds ps t f ⦂ rounds_typed.
Proof.
  intros Ht Hf. unfold generate_rounds. type_step; [type_step|]. apply type_generate_rounds_loop; [done..|].
  split; [|constructor]. pose proof MaxParticipants_u32 as [? _]. done.
Qed.

Lemma type_add_frequency n t f : u64 t → u64 f → add_frequency n t f ⦂ u64.
Proof. revert t. induction n; intros t Ht Hf; cbn [add_frequency]; repeat type_step; auto. Qed.
#[local] Hint Resolve type_shuffle_participants type_generate_rounds type_add_frequency : typing.

(** The loops. *)
Definition caught_up_typed (x : option (Moment * list AccountId * AccountId)) : Prop :=
  match x with Some (next, order, _) => u64 next ∧ bounded MaxParticipants order | None => True end.

Lemma type_catch_up fuel r now next order c :
  u32 r → u64 next → bounded MaxParticipants order → catch_up fuel r now next order c ⦂ caught_up_typed.
Proof.
  intros Hr. revert next order c.
  induction fuel as [|fuel IH]; intros next order c Hn Ho; cbn [catch_up]; by repeat type_step.
Qed.

Lemma type_process_remaining_rounds fuel r final :
  u32 r → process_remaining_rounds fuel r final ⦂ (λ _, True).
Proof. intros Hr. induction fuel; cbn [process_remaining_rounds]; by repeat type_step. Qed.

Lemma type_settle_contribution a r d final next order c :
  u32 r → details_typed d → u64 next → bounded MaxParticipants order →
  settle_contribution a r d final next order c ⦂ (λ _, True).
Proof. intros. unfold settle_contribution. by repeat type_step. Qed.
#[local] Hint Resolve type_catch_up type_process_remaining_rounds type_settle_contribution : typing.

(** * The calls *)

Lemma insert_bounded {A} bound (l : list A) i x : bounded bound l → bounded bound (<[i := x]> l).
Proof. unfold bounded, len. by rewrite length_insert. Qed.

Lemma type_join_rosca o r p : u32 r → u32 (default 0 p) → join_rosca o r p ⦂ (λ _, True).
Proof.
  intros Hr Hp. unfold join_rosca. do 13 (type_step; [type_step|]).
  type_step; [instantiate (1 := λ '(l, i), bounded MaxParticipants l ∧ u32 i)|].
  - destruct p as [i|].
    + type_step; [by apply keeps_ok_or; instantiate (1 := λ _, True)|]. type_step; [type_step|].
      type_step. split; [by apply insert_bounded | done].
    + type_step; [by apply keeps_ok_or; instantiate (1 := λ _, True)|]. type_step; [type_step|].
      type_step. split; [done|]. unfold in_width, u32_MAX. pose proof (Z.mod_pos_bound (Z.of_nat x12) (2 ^ 32)). lia.
  - match goal with x : _ * _, H : _ |- _ => destruct x; destruct H end. by repeat type_step.
Qed.

Lemma type_leave_rosca o r : u32 r → leave_rosca o r ⦂ (λ _, True).
Proof. intros Hr. unfold leave_rosca. by repeat type_step. Qed.

Lemma type_start_rosca o r : u32 r → start_rosca o r ⦂ (λ _, True).
Proof. intros Hr. unfold start_rosca. by repeat type_step. Qed.

Lemma type_contribute_to_rosca o r : u32 r → contribute_to_rosca o r ⦂ (λ _, True).
Proof.
  intros Hr. unfold contribute_to_rosca. repeat type_step; try done.
  match goal with H : caught_up_typed _ |- _ => destruct H end. auto with typing.
Qed.

Lemma type_manually_end_rosca o r : u32 r → manually_end_rosca o r ⦂ (λ _, True).
Proof. intros Hr. unfold manually_end_rosca. by repeat type_step. Qed.

Lemma type_claim_security_deposit o r asset : u32 r → claim_security_deposit o r asset ⦂ (λ _, True).
Proof. intros Hr. unfold claim_security_deposit. by repeat type_step. Qed.

Lemma type_add_to_security_deposit o r x :
  u32 r → u32 x → add_to_security_deposit o r x ⦂ (λ _, True).
Proof. intros Hr Hx. unfold add_to_security_deposit. by repeat type_step. Qed.

Lemma push_all_bounded l v :
  bounded MaxParticipants v → bounded MaxParticipants (foldl (push_ignoring_error MaxParticipants) v l).
Proof.
  revert v. induction l as [|x l IH]; intros v Hv; cbn; [done|]. apply IH. unfold push_ignoring_error, try_push.
  destruct (Z.ltb_spec (len v) MaxParticipants); [|done]. unfold bounded, len in *. cbn. rewrite length_app. cbn. lia.
Qed.

Lemma type_create_rosca o random invited threshold amount asset frequency start_by position rosca_name :
  call_decodable (Call_create_rosca random invited threshold amount asset frequency start_by position rosca_name) →
  create_rosca o random invited threshold amount asset frequency start_by position rosca_name ⦂ (λ _, True).
Proof.
  intros (Hinv & Hthr & Hamt & Hfr & Hst & Hpos & Hname). unfold create_rosca.
  pose proof MaxParticipants_u32 as [Hmax _].
  assert (∀ n, u32 n → details_typed
    (mkRoscaDetails random n threshold amount asset frequency start_by rosca_name)) as Hd by by split.
  repeat type_step.
  - apply keeps_for_each. intros a _. by type_step.
  - split_and!; auto using u32_u128. by apply (push_all_bounded (_ :: _)).
Qed.

Lemma dispatch_typed_result o c : call_decodable c → dispatch o c ⦂ (λ _, True).
Proof.
  destruct c; [by apply type_create_rosca|..]; cbn;
    eauto using type_leave_rosca, type_start_rosca, type_contribute_to_rosca,
      type_manually_end_rosca, type_claim_security_deposit.
  - intros [? ?]. by apply type_join_rosca.
  - intros [? ?]. by apply type_add_to_security_deposit.
Qed.

(** A chain on which nothing was stored yet is well-typed. *)
Lemma empty_well_typed ledger now block hashes :
  u64 now → well_typed (mkState 0 ∅ ∅ ∅ ∅ ∅ ∅ ∅ ∅ ∅ ∅ ∅ ∅ ∅ ∅ ∅ ∅ ledger now block hashes []).
Proof. 
  intros Hnow. split; cbn; unfold stored_under, stored; first [assumption | exact u32_0 | apply map_Forall_empty | apply Forall_nil_2].
Qed.
End functions.
