(* ===== verification/RoscaInvariant.v ===== *)
(** The well-formedness invariant of the pallet's storage: the life cycle of a ROSCA
    as seen in its view, and what the helper functions do to it. *)

From S2P Require Import Prelude RoscaTypes RoscaRounds RoscaCalls RoscaLogic RoscaFrame.
From S2P Require Import RoscaSample RoscaSchedule.

Section invariant.
Context {T : Config} {L : ConfigLaws T}.
Implicit Types (s : State) (r : RoscaId) (v : RoscaView) (d : RoscaDetails) (l : list AccountId).

(** What [create_rosca] establishes of the parameters of a ROSCA. *)
Record details_ok d : Prop := {
  details_amount : 0 < contribution_amount d ≤ u32_MAX;
  details_frequency : 0 < contribution_frequency d;
  details_number : 1 ≤ number_of_participants d ≤ MaxParticipants;
  details_invited : number_of_participants d ≤ MaxInvitedParticipants + 1;
  details_threshold : 0 ≤ minimum_participant_threshold d ≤ number_of_participants d;
}.

(** A positive deposit belongs to a participant. *)
Definition deposits_ok v : Prop :=
  ∀ a x, v_deposits v !! a = Some x →
         in_width u32_MAX x ∧ (0 < x → is_Some (v_participants v !! a)).

(** A ROSCA that has not started: [o] lists its positions. *)
Record pending_ok d (o : list (option AccountId)) v : Prop := {
  pending_active : v_active v = None;
  pending_completed : v_completed v = None;
  pending_pending : v_pending v = Some d;
  pending_details : details_ok d;
  pending_slots : v_slots v = Some o;
  pending_length : len o = number_of_participants d;
  pending_count : v_count v = Some (len (omap id o));
  pending_participants a i :
    v_participants v !! a = Some i ↔ 0 ≤ i ∧ o !! Z.to_nat i = Some (Some a);
  pending_invited : dom (v_participants v) ⊆ dom (v_invited v);
  pending_next : v_next v = None;
  pending_final : v_final v = None;
  pending_contributors : v_contributors v = ∅;
  pending_contributions : v_contributions v = 0;
  pending_deposits : deposits_ok v;
}.

(** A started ROSCA after [k] completed rounds: [l] lists the claimants in order and
    [t] is the time it was started at. *)
Record running d l (k : nat) (t : Moment) v : Prop := {
  running_active : v_active v = Some d;
  running_completed : v_completed v = None;
  running_pending : v_pending v = None;
  running_details : details_ok d;
  running_NoDup : NoDup l;
  running_length : len l ≤ number_of_participants d;
  running_nonempty : (0 < length l)%nat;
  running_round : (k ≤ length l)%nat;
  running_count : v_count v = Some (len l);
  running_participants a : is_Some (v_participants v !! a) ↔ a ∈ l;
  running_order : v_order v = Some (ring_order l (k mod length l));
  running_claimant : v_claimant v = l !! (k mod length l)%nat;
  running_start : 0 ≤ t;
  running_next : v_next v = Some (t + contribution_frequency d * (Z.of_nat k + 1));
  running_final : v_final v = Some (t + contribution_frequency d * len l);
  running_bound : t + contribution_frequency d * (len l + 1) ≤ u64_MAX;
  running_contributors : ∀ a, is_Some (v_contributors v !! a) → a ∈ l;
  running_contributions : v_contributions v = Z.of_nat (size (v_contributors v));
  running_open : v_contributions v ≤ Z.max 0 (len l - 2);
  running_deposits : deposits_ok v;
}.

(** A completed ROSCA. *)
Record completed_ok l v : Prop := {
  completed_active : v_active v = None;
  completed_completed : v_completed v = Some tt;
  completed_pending : v_pending v = None;
  completed_count : v_count v = Some (len l);
  completed_participants a : is_Some (v_participants v !! a) ↔ a ∈ l;
  completed_final : is_Some (v_final v);
  completed_deposits : deposits_ok v;
}.

(** The announcement of the schedule is in the event log. *)
Definition announced (es : list Event) r l (t f : Moment) : Prop :=
  ∃ who c n, RoscaStarted r who (schedule l t f) c n ∈ es.

(** The life cycle of a ROSCA. *)
Inductive rosca_ok (es : list Event) r v : Prop :=
  | rosca_fresh : v = empty_view → rosca_ok es r v
  | rosca_pending d o : pending_ok d o v → rosca_ok es r v
  | rosca_active d l k t :
      running d l k t v → (k < length l)%nat →
      announced es r l t (contribution_frequency d) → rosca_ok es r v
  | rosca_completed l : completed_ok l v → rosca_ok es r v.

(** The invariant: every identifier below the next one is a ROSCA in some phase of
    its life, every other identifier is unused. *)
Record Inv s : Prop := {
  Inv_next : in_width u32_MAX (NextRoscaId s);
  Inv_now : in_width u64_MAX (Now s);
  Inv_fresh r : NextRoscaId s ≤ r → view r s = empty_view;
  Inv_rosca r : rosca_ok (Events s) r (view r s);
}.

Lemma announced_mono es es' r l t f :
  es `prefix_of` es' → announced es r l t f → announced es' r l t f.
Proof.
  intros [k ->] (who & c & n & H). exists who, c, n. apply elem_of_app. by left.
Qed.

Lemma rosca_ok_mono es es' r v : es `prefix_of` es' → rosca_ok es r v → rosca_ok es' r v.
Proof.
  intros Hes [?|d o ?|d l k t ? ? ?|l ?];
    [by apply rosca_fresh | by eapply rosca_pending | | by eapply rosca_completed].
  eapply rosca_active; eauto using announced_mono.
Qed.

(** A call on [r] keeps the invariant when it keeps [r] well-formed and does not
    succeed on an unused identifier. *)
Lemma Inv_frame r s s' :
  Inv s → frame r s s' → is_Some (v_count (view r s)) → rosca_ok (Events s') r (view r s') → Inv s'.
Proof.
  intros [Hn Ht Hf Hr] [V N W _ E] Hlive Hok. split; rewrite ?N, ?W; [done|done| |].
  - intros r' Hr'. destruct (decide (r = r')) as [->|Hne]; [|by rewrite V, Hf].
    rewrite (Hf _ Hr') in Hlive. by destruct Hlive.
  - intros r'. destruct (decide (r = r')) as [->|Hne]; [done|].
    rewrite V by done. by eapply rosca_ok_mono.
Qed.

(** * Rounds *)

(** The errors [fungibles::Mutate::transfer] can report. *)
Definition currency_error (e : DispatchError) : Prop := ∃ te, e = Currency te.

(** The view after the missed contributions of a round were settled. *)
Definition settle_view (deposits defaults : gmap AccountId Z) v : RoscaView :=
  mkView (v_active v) (v_completed v) (v_participants v) (v_invited v) (v_count v) deposits
    (v_slots v) (v_order v) (v_pending v) (v_next v) (v_final v) (v_claimant v)
    (v_contributors v) (v_contributions v) defaults.

(** The participant [a] has neither contributed in this round nor is its claimant. *)
Definition owes v (c a : AccountId) : Prop := a ≠ c ∧ v_contributors v !! a = None.
#[global] Instance owes_dec v c a : Decision (owes v c a).
Proof. unfold owes. apply _. Defined.

(** Missed contributions [amt] of the participants in [ps] who owe one: each is
    taken from the deposit as far as it reaches; who cannot cover it is marked. *)
Record settled (amt : Z) (c : AccountId) (ps : list AccountId) v v' : Prop := {
  settled_view : v' = settle_view (v_deposits v') (v_defaults v') v;
  settled_dom a : is_Some (v_deposits v' !! a) → is_Some (v_deposits v !! a);
  settled_deposits a :
    default 0 (v_deposits v' !! a) =
      if decide (a ∈ ps ∧ owes v c a) then Z.max 0 (default 0 (v_deposits v !! a) - amt)
      else default 0 (v_deposits v !! a);
  settled_defaults a :
    default 0 (v_defaults v' !! a) =
      if decide (a ∈ ps ∧ owes v c a ∧ default 0 (v_deposits v !! a) < amt)
      then saturating_add u32_MAX (default 0 (v_defaults v !! a)) 1
      else default 0 (v_defaults v !! a);
}.

Lemma settled_nil amt c v : settled amt c [] v v.
Proof.
  split; [by destruct v | done | |]; intros a;
    rewrite decide_False by (intros [Ha _]; by apply not_elem_of_nil in Ha); done.
Qed.

Lemma settled_skip amt c ps p v v' :
  settled amt c ps v v' → ¬ owes v c p → settled amt c (ps ++ [p]) v v'.
Proof.
  intros [Hv Hdom Hdep Hdef] Ho. split; [done | done | |]; intros a.
  - rewrite Hdep. apply decide_ext. set_solver.
  - rewrite Hdef. apply decide_ext. set_solver.
Qed.

Lemma settled_pay amt c ps p v v' deposits defaults :
  settled amt c ps v v' → p ∉ ps → owes v c p →
  let x := default 0 (v_deposits v !! p) in
  (deposits = v_deposits v' ∧ x = Z.max 0 (x - amt) ∨
   is_Some (v_deposits v !! p) ∧ deposits = <[p := Z.max 0 (x - amt)]> (v_deposits v')) →
  defaults = (if x <? amt
              then <[p := saturating_add u32_MAX (default 0 (v_defaults v' !! p)) 1]> (v_defaults v')
              else v_defaults v') →
  settled amt c (ps ++ [p]) v (settle_view deposits defaults v').
Proof.
  intros [Hv Hdom Hdep Hdef] Hp Ho x Hx Hd. split; cbn.
  - rewrite Hv. by destruct v.
  - intros a. destruct Hx as [[-> _]|[Hs ->]]; [apply Hdom|].
    destruct (decide (p = a)) as [->|]; autorewrite with storage; auto.
  - intros a. destruct (decide (p = a)) as [->|Hne].
    + rewrite decide_True by set_solver.
      destruct Hx as [[-> Hx]|[Hs ->]]; [|by autorewrite with storage].
      rewrite Hdep, decide_False by naive_solver. done.
    + trans (default 0 (v_deposits v' !! a)).
      { destruct Hx as [[-> _]|[_ ->]]; by autorewrite with storage. }
      rewrite Hdep. apply decide_ext. set_solver.
  - intros a. subst defaults. destruct (decide (p = a)) as [->|Hne].
    + destruct (Z.ltb_spec x amt).
      * autorewrite with storage. rewrite (decide_True (P := _ ∧ _ ∧ _)) by set_solver.
        cbn. by rewrite Hdef, decide_False by naive_solver.
      * rewrite Hdef, !decide_False; [done | | naive_solver]. unfold x in *. intros (_ & _ & ?). lia.
    + trans (default 0 (v_defaults v' !! a)).
      { destruct (x <? amt); by autorewrite with storage. }
      rewrite Hdef. apply decide_ext. set_solver.
Qed.

(** How the missed contribution of [p] is settled: the transfer out of its deposit, as
    far as that reaches, and what is announced. *)
Definition settlement d r (c : AccountId) v (p : AccountId) : list Effect :=
  let x := default 0 (v_deposits v !! p) in
  if decide (owes v c p) then
    if x <? contribution_amount d then
      (if 0 <? x
       then [Moved (mkTransfer (PaymentAssets_id (payment_asset d)) (rosca_account_id r) c x);
             Emitted (DepositDeducted r p c x false)]
       else []) ++ [Emitted (ParticipantDefaulted r c p)]
    else
      [Moved (mkTransfer (PaymentAssets_id (payment_asset d)) (rosca_account_id r) c (contribution_amount d));
       Emitted (DepositDeducted r p c (contribution_amount d) true)]
  else [].

(** One participant who owes a contribution. *)
Lemma wp_process_defaulter r d c p s (Q : unit → State → Prop) :
  owes (view r s) c p → 0 < contribution_amount d →
  let x := default 0 (v_deposits (view r s) !! p) in
  0 ≤ x →
  (∀ s2 deposits defaults,
     view r s2 = settle_view deposits defaults (view r s) →
     (deposits = v_deposits (view r s) ∧ x = Z.max 0 (x - contribution_amount d) ∨
      is_Some (v_deposits (view r s) !! p) ∧
      deposits = <[p := Z.max 0 (x - contribution_amount d)]> (v_deposits (view r s))) →
     defaults = (if x <? contribution_amount d
                 then <[p := saturating_add u32_MAX (default 0 (v_defaults (view r s) !! p)) 1]>
                        (v_defaults (view r s))
                 else v_defaults (view r s)) →
     performs (settlement d r c (view r s) p) s s2 → Q tt s2) →
  wp (process_defaulter r d c (rosca_account_id r) p) s Q currency_error.
Proof.
  intros Ho Hamt x Hx HQ. unfold settlement in HQ. fold x in HQ. rewrite decide_True in HQ by done.
  destruct Ho as [Hpc Hcc]. unfold process_defaulter. rewrite decide_False by done.
  wp_auto. change (current_contributors r p s) with (v_contributors (view r s) !! p).
  rewrite Hcc. wp_auto. change (default 0 (security_deposit r p s)) with x.
  assert (0 < x → is_Some (v_deposits (view r s) !! p)) as Hsome.
  { unfold x. destruct (v_deposits (view r s) !! p); [done | cbn; lia]. }
  destruct (x <? contribution_amount d) eqn:Hlt.
  - destruct (0 <? x) eqn:H0.
    + wp_auto. apply wp_transfer; [intros ledger Htr | by intros te _; exists te].
      wp_auto. eapply HQ; [unfold view; cbn; by autorewrite with storage | right | reflexivity | solve_performs].
      split; [apply Hsome; lia|]. cbn. by replace (Z.max _ _) with 0 by lia.
    + wp_auto. eapply HQ; [unfold view; cbn; by autorewrite with storage | left | reflexivity | solve_performs].
      split; [done | lia].
  - wp_auto. apply wp_transfer; [intros ledger Htr | by intros te _; exists te].
    wp_auto. rewrite checked_sub_in by lia.
    eapply HQ; [unfold view; cbn; by autorewrite with storage | right | reflexivity | solve_performs].
    split; [apply Hsome; lia|]. cbn. by replace (Z.max _ _) with (x - contribution_amount d) by lia.
Qed.

(** What is still to be settled does not depend on what has been. *)
Lemma settlement_settled d r c ps p v v' :
  settled (contribution_amount d) c ps v v' → p ∉ ps → settlement d r c v' p = settlement d r c v p.
Proof.
  intros Hs Hp. unfold settlement.
  assert (default 0 (v_deposits v' !! p) = default 0 (v_deposits v !! p)) as ->.
  { rewrite (settled_deposits _ _ _ _ _ Hs), decide_False; naive_solver. }
  assert (v_contributors v' = v_contributors v) as Hc by by rewrite (settled_view _ _ _ _ _ Hs).
  cbv zeta. apply decide_ext. unfold owes. by rewrite Hc.
Qed.

(** [process_defaulters] settles the missed contributions of the round; only the
    transfers can fail. *)
Lemma wp_process_defaulters r d c l s :
  v_active (view r s) = Some d → v_claimant (view r s) = Some c → v_order (view r s) = Some l →
  NoDup l → 0 < contribution_amount d → deposits_ok (view r s) →
  wp (process_defaulters r) s
    (λ _ s', settled (contribution_amount d) c l (view r s) (view r s') ∧
       performs (l ≫= settlement d r c (view r s)) s s') currency_error.
Proof.
  intros Ha Hc Hl Hnd Hamt Hdep. unfold process_defaulters.
  wp_read Ha. wp_read Hc. wp_read Hl. cbv zeta.
  set (done_ ps s' := settled (contribution_amount d) c ps (view r s) (view r s') ∧
    performs (ps ≫= settlement d r c (view r s)) s s').
  apply (wp_for_each (λ todo s', ∃ ps, l = ps ++ todo ∧ done_ ps s')).
  { exists []. split; [done|]. split; [apply settled_nil | by apply performs_nil]. }
  2: { intros s' (ps & -> & Hs). by rewrite app_nil_r. }
  intros p todo s' (ps & -> & Hs & Hts).
  assert (p ∉ ps) as Hp. { apply NoDup_app in Hnd as (_ & Hnd & _). intros ?. apply (Hnd p); set_solver. }
  pose proof (settlement_settled _ r _ _ _ _ _ Hs Hp) as Hset.
  assert (v_contributors (view r s') = v_contributors (view r s)) as Hcontr
    by by rewrite (settled_view _ _ _ _ _ Hs).
  assert (default 0 (v_deposits (view r s') !! p) = default 0 (v_deposits (view r s) !! p)) as Hx.
  { rewrite (settled_deposits _ _ _ _ _ Hs), decide_False; naive_solver. }
  assert (∀ s2, settled (contribution_amount d) c (ps ++ [p]) (view r s) (view r s2) →
    performs (settlement d r c (view r s') p) s' s2 →
    ∃ ps0, ps ++ p :: todo = ps0 ++ todo ∧ done_ ps0 s2) as Hstep.
  { intros s2 H2 Ht2. exists (ps ++ [p]). split; [by rewrite <- app_assoc|]. split; [done|].
    rewrite bind_app. eapply performs_app; [done|]. cbn. by rewrite app_nil_r, <- Hset. }
  destruct (decide (owes (view r s) c p)) as [Ho|Ho].
  - apply wp_process_defaulter; [by unfold owes; rewrite Hcontr | done | |].
    + rewrite Hx. specialize (Hdep p). destruct (v_deposits (view r s) !! p); [|done].
      destruct (Hdep _ eq_refl) as [[? ?] _]. done.
    + intros s2 deposits defaults Hs2 Hdeps Hdefs Ht2. apply Hstep; [|done]. rewrite Hs2.
      rewrite Hx in Hdeps, Hdefs. apply settled_pay; [done..| |done].
      destruct Hdeps as [?|[? ?]]; [by left | right]. split; [by eapply settled_dom | done].
  - assert (settlement d r c (view r s') p = []) as Hnil
      by (rewrite Hset; unfold settlement; by rewrite decide_False by done).
    assert (∃ ps0, ps ++ p :: todo = ps0 ++ todo ∧ done_ ps0 s') as Hskip
      by (apply Hstep; [by apply settled_skip | rewrite Hnil; by apply performs_nil]).
    unfold process_defaulter. destruct (decide (p = c)) as [->|Hpc]; [done|].
    wp_auto. destruct (current_contributors r p s') as [[]|] eqn:Hcc; [done|].
    destruct Ho. split; [done | by rewrite <- Hcontr].
Qed.

Lemma settled_deposits_ok amt c ps v v' :
  0 < amt → settled amt c ps v v' → deposits_ok v → deposits_ok v'.
Proof.
  intros Hamt Hs Hok a x Hx.
  destruct (settled_dom _ _ _ _ _ Hs a) as [y Hy]; [by eexists|].
  pose proof (settled_deposits _ _ _ _ _ Hs a) as Hd. rewrite Hx, Hy in Hd. cbn in Hd.
  assert (v_participants v' = v_participants v) as -> by by rewrite (settled_view _ _ _ _ _ Hs).
  destruct (Hok _ _ Hy) as [Hw Hp]. unfold in_width in *. case_decide; split; try lia; intros; apply Hp; lia.
Qed.

Lemma settled_running c ps d l k t v v' :
  settled (contribution_amount d) c ps v v' → running d l k t v → running d l k t v'.
Proof.
  intros Hs []. assert (0 < contribution_amount d) as Hamt by (by apply details_amount).
  pose proof (settled_deposits_ok _ _ _ _ _ Hamt Hs) as Hok.
  rewrite (settled_view _ _ _ _ _ Hs) in Hok |- *. split; cbn; auto.
Qed.

Lemma running_claimant_Some d l k t v :
  running d l k t v → ∃ c, l !! (k mod length l)%nat = Some c ∧ v_claimant v = Some c ∧ c ∈ l.
Proof.
  intros Hr. destruct (lookup_lt_is_Some_2 l (k mod length l)) as [c Hc].
  { apply Nat.mod_upper_bound. pose proof (running_nonempty _ _ _ _ _ Hr). lia. }
  exists c. split_and!; [done | by rewrite (running_claimant _ _ _ _ _ Hr) |].
  by eapply list_elem_of_lookup_2.
Qed.

Lemma running_u32 d l k t v : running d l k t v → len l ≤ u32_MAX.
Proof.
  intros []. pose proof MaxParticipants_u32 as [_ Hm]. destruct running_details0. lia.
Qed.

(** The claimants, the start and the round of a running ROSCA can be read off its
    view. *)
Lemma running_unique d d' l l' k k' t t' v :
  running d l k t v → running d' l' k' t' v → d = d' ∧ l = l' ∧ k = k' ∧ t = t'.
Proof.
  intros H1 H2.
  assert (d = d') as <-.
  { enough (Some d = Some d') by congruence.
    by rewrite <- (running_active _ _ _ _ _ H1), <- (running_active _ _ _ _ _ H2). }
  assert (length l = length l') as Hlen.
  { enough (Some (len l) = Some (len l')) as [= ?] by (unfold len in *; lia).
    by rewrite <- (running_count _ _ _ _ _ H1), <- (running_count _ _ _ _ _ H2). }
  pose proof (details_frequency _ (running_details _ _ _ _ _ H1)) as Hf.
  assert (t = t') as <-.
  { pose proof (running_final _ _ _ _ _ H1) as F1. rewrite (running_final _ _ _ _ _ H2) in F1.
    unfold len in F1. rewrite Hlen in F1. injection F1. lia. }
  assert (k = k') as <-.
  { pose proof (running_next _ _ _ _ _ H1) as F1. rewrite (running_next _ _ _ _ _ H2) in F1.
    injection F1 as F1. apply Z.add_reg_l in F1. apply Z.mul_reg_l in F1; lia. }
  split_and!; try done. apply (ring_order_inj _ _ (k mod length l)); [done|].
  pose proof (running_order _ _ _ _ _ H1) as O1. rewrite (running_order _ _ _ _ _ H2) in O1.
  rewrite Hlen. congruence.
Qed.

Lemma settled_Permutation amt c ps ps' v v' : ps ≡ₚ ps' → settled amt c ps v v' → settled amt c ps' v v'.
Proof.
  intros Hps [Hv Hdom Hdep Hdef]. split; [done | done | |]; intros a;
    [rewrite Hdep | rewrite Hdef]; apply decide_ext; by rewrite Hps.
Qed.

Lemma wp_settle_round d l k t r s (Q : unit → State → Prop) :
  running d l k t (view r s) →
  (∀ c s', l !! (k mod length l)%nat = Some c →
     settled (contribution_amount d) c l (view r s) (view r s') →
     performs (ring_order l (k mod length l) ≫= settlement d r c (view r s)) s s' →
     running d l k t (view r s') → frame r s s' → Q tt s') →
  wp (process_defaulters r) s Q currency_error.
Proof.
  intros Hrun HQ. destruct (running_claimant_Some _ _ _ _ _ Hrun) as (c & Hlc & Hc & _).
  assert (wp (process_defaulters r) s
    (λ _ s', settled (contribution_amount d) c (ring_order l (k mod length l)) (view r s) (view r s') ∧
       performs (ring_order l (k mod length l) ≫= settlement d r c (view r s)) s s')
    currency_error) as Hwp.
  { apply wp_process_defaulters; try by destruct Hrun.
    - rewrite ring_order_Permutation. by destruct Hrun.
    - apply details_amount. by destruct Hrun. }
  unfold wp in *. destruct (process_defaulters r s) as [[[] s']| | |] eqn:Hs; try done.
  destruct Hwp as [Hwp Hts]. apply (settled_Permutation _ _ _ _ _ _ (ring_order_Permutation l _)) in Hwp.
  eapply HQ; eauto using settled_running. by eapply process_defaulters_frame.
Qed.

(** The view at the start of round [k]. *)
Definition advance_view d l (t : Moment) (k : nat) v : RoscaView :=
  mkView (v_active v) (v_completed v) (v_participants v) (v_invited v) (v_count v) (v_deposits v)
    (v_slots v) (Some (ring_order l (k mod length l))) (v_pending v)
    (Some (t + contribution_frequency d * (Z.of_nat k + 1))) (v_final v) (l !! (k mod length l)%nat)
    ∅ 0 (v_defaults v).

Lemma running_advance d l k t v :
  running d l k t v → (k < length l)%nat → running d l (S k) t (advance_view d l t (S k) v).
Proof.
  intros [] Hk. split; cbn; try done; try lia. intros a [? Ha]. by rewrite lookup_empty in Ha.
Qed.

(** The announcement of the round that starts. *)
Definition round_started d r l (t : Moment) (k : nat) : list Effect :=
  match l !! (k mod length l)%nat with
  | Some c => [Emitted (NewRoundStarted r c (t + contribution_frequency d * (Z.of_nat k + 1)))]
  | None => []
  end.

Lemma wp_advance_rosca_round d l k t r s (Q : unit → State → Prop) E :
  running d l k t (view r s) → (k < length l)%nat →
  (∀ s', view r s' = advance_view d l t (S k) (view r s) → performs (round_started d r l t (S k)) s s' → frame r s s' → Q tt s') →
  wp (advance_rosca_round r) s Q E.
Proof.
  intros Hrun Hk HQ.
  destruct (ring_order_next l k Hk) as (x & o & Hx & Ho & Ho').
  assert (length o + 1 = length l)%nat as Hlen
    by (rewrite <- (length_ring_order l k), Ho, length_app; cbn; lia).
  pose proof (running_u32 _ _ _ _ _ Hrun) as Hu.
  enough (wp (advance_rosca_round r) s
    (λ _ s', view r s' = advance_view d l t (S k) (view r s) ∧ performs (round_started d r l t (S k)) s s')
    (λ _, False)) as Hwp.
  { unfold wp in *. destruct (advance_rosca_round r s) as [[[] s']| | |] eqn:Hs; try done.
    destruct Hwp. apply HQ; [done | done | by eapply advance_rosca_round_frame]. }
  clear HQ Q E. destruct Hrun. rewrite Nat.mod_small in running_order0 by done.
  unfold len in *. unfold advance_rosca_round.
  wp_read running_active0. wp_read running_next0. wp_auto.
  apply (wp_ok_or_Some _ (t + contribution_frequency d * (Z.of_nat (S k) + 1))).
  { apply checked_add_Some. rewrite Nat2Z.inj_succ. split; [ring|].
    destruct running_details0. nia. }
  wp_read running_order0. rewrite Ho. wp_auto.
  rewrite usize_sub_last by (unfold len; rewrite length_app; cbn; lia).
  apply (wp_vec_get _ _ x); [unfold len; lia | apply lookup_last |].
  wp_auto. apply (wp_ok_or_Some _ _ _ _ _ _ (rotate_last o x)).
  wp_auto. split; [|unfold round_started; rewrite Hx; solve_performs]. unfold view, advance_view. rewrite Ho', Hx. cbn. autorewrite with storage. cbn.
  assert (usize_sub (len (x :: o)) 1 = len o) as ->.
  { unfold usize_sub, len. cbn [length]. rewrite wrapping_sub_in; lia. }
  rewrite clear_prefix_all; [done|].
  unfold len. cbn in running_contributions0, running_open0. lia.
Qed.

(** Rounds [k] to [k' - 1] pass with the contributions made so far: each is settled
    from the deposits and the next one begins, with the effects [fx]. *)
Inductive missed r d l (t : Moment) (k : nat) v : nat → RoscaView → list Effect → Prop :=
  | missed_none : missed r d l t k v k v []
  | missed_round k1 c v1 v2 fx :
      missed r d l t k v k1 v1 fx → l !! k1 = Some c → settled (contribution_amount d) c l v1 v2 →
      missed r d l t k v (S k1) (advance_view d l t (S k1) v2)
        (fx ++ (ring_order l k1 ≫= settlement d r c v1) ++ round_started d r l t (S k1)).

(** Between missed rounds nobody has contributed. *)
Lemma missed_contributors r d l t k v k' v' ts :
  missed r d l t k v k' v' ts → k' = k ∧ v' = v ∨ (k < k')%nat ∧ v_contributors v' = ∅.
Proof. induction 1 as [|k1 c v1 v2 ts _ [[-> ->]|[? ?]] _ _]; [by left | right..]; (split; [lia | done]). Qed.
End invariant.
