(* ===== verification/RoscaPreservation.v ===== *)
(** Every call keeps the invariant, and none of the pallet's loops, index accesses
    or conversions fails in a state that satisfies it. *)

From S2P Require Import Prelude RoscaTypes RoscaRounds RoscaCalls RoscaLogic RoscaFrame.
From S2P Require Import RoscaSample RoscaSchedule RoscaInvariant.

Section preservation.
Context {T : Config} {L : ConfigLaws T}.
Implicit Types (s : State) (r : RoscaId) (v : RoscaView) (d : RoscaDetails) (l : list AccountId).

(** * Completing a ROSCA *)

Definition complete_view v : RoscaView :=
  mkView None (Some tt) (v_participants v) (v_invited v) (v_count v) (v_deposits v)
    (v_slots v) (v_order v) (v_pending v) (v_next v) (v_final v) (v_claimant v)
    (v_contributors v) (v_contributions v) (v_defaults v).

Lemma running_complete d l k t v : running d l k t v → completed_ok l (complete_view v).
Proof. intros []. split; cbn; eauto. Qed.

Lemma wp_check_and_complete_rosca d l k t r s (Q : bool → State → Prop) E :
  running d l k t (view r s) →
  ((k < length l)%nat → Q false s) →
  (k = length l → ∀ s', view r s' = complete_view (view r s) →
     performs [Emitted (RoscaComplete r)] s s' → frame r s s' → Q true s') →
  wp (check_and_complete_rosca r) s Q E.
Proof.
  intros Hrun Hf Ht.
  assert (stable (frame r) (check_and_complete_rosca r)) as Hst by apply check_and_complete_rosca_frame.
  destruct Hrun. assert (0 < contribution_frequency d) by by apply details_frequency.
  enough (wp (check_and_complete_rosca r) s
    (λ b s', if b : bool
             then k = length l ∧ view r s' = complete_view (view r s) ∧ performs [Emitted (RoscaComplete r)] s s'
             else (k < length l)%nat ∧ s' = s)
    (λ _, False)) as Hwp.
  { unfold wp in *. destruct (check_and_complete_rosca r s) as [[[] s']| | |] eqn:Hs; try done;
      destruct Hwp as [? Hrest]; [by destruct Hrest; eauto | subst; eauto]. }
  unfold check_and_complete_rosca.
  wp_read running_active. wp_read running_final. wp_read running_next.
  unfold len in *. destruct (_ <? _) eqn:Hlt.
  - wp_auto. split_and!; [nia | | solve_performs]. unfold view, complete_view. cbn. by autorewrite with storage.
  - wp_auto. split; [nia | done].
Qed.

(** * The loop of [contribute_to_rosca] *)

(** One missed round: [process_defaulters] followed by [advance_rosca_round]. *)
Lemma wp_missed_round {B} d l k t r s (K : M B) (Q : B → State → Prop) E :
  running d l k t (view r s) → (k < length l)%nat → (∀ e, currency_error e → E e) →
  (∀ c s1 s', l !! k = Some c → settled (contribution_amount d) c l (view r s) (view r s1) →
     view r s' = advance_view d l t (S k) (view r s1) →
     performs ((ring_order l k ≫= settlement d r c (view r s)) ++ round_started d r l t (S k)) s s' →
     running d l (S k) t (view r s') → frame r s s' → wp K s' Q E) →
  wp (_ ← process_defaulters r; _ ← advance_rosca_round r; K) s Q E.
Proof.
  intros Hrun Hk HE HQ. wp_auto. refine (wp_mono _ _ _ _ currency_error _ _ _ HE);
    [|intros ? ?; exact (λ h, h)].
  apply (wp_settle_round _ _ _ _ _ _ _ Hrun). intros c s1 Hc Hs Hts Hrun1 Hfr1.
  rewrite Nat.mod_small in Hc, Hts by done.
  wp_auto. apply (wp_advance_rosca_round _ _ _ _ _ _ _ _ Hrun1 Hk). intros s2 Hv HP Hfr2.
  eapply HQ; [done | done | done | by eapply performs_app | | by etrans]. rewrite Hv. by apply running_advance.
Qed.

Lemma wp_catch_up fuel d l k t c r now s (Q : option (Moment * list AccountId * AccountId) → State → Prop) :
  running d l k t (view r s) → (k < length l)%nat → (length l - k ≤ fuel)%nat → l !! k = Some c →
  (∀ k' c' s', running d l k' t (view r s') → (k' < length l)%nat → l !! k' = Some c' →
     now < t + contribution_frequency d * (Z.of_nat k' + 1) →
     ((k < k')%nat → t + contribution_frequency d * Z.of_nat k' ≤ now) →
     (∃ fx, missed r d l t k (view r s) k' (view r s') fx ∧ performs fx s s') → frame r s s' →
     Q (Some (t + contribution_frequency d * (Z.of_nat k' + 1), ring_order l k', c')) s') →
  (∀ v s', running d l (length l) t v →
     (∃ fx, missed r d l t k (view r s) (length l) v fx ∧
        performs (fx ++ [Emitted (RoscaComplete r)]) s s') →
     t + contribution_frequency d * len l ≤ now → view r s' = complete_view v → frame r s s' → Q None s') →
  wp (catch_up fuel r now (t + contribution_frequency d * (Z.of_nat k + 1)) (ring_order l k) c) s Q
    currency_error.
Proof.
  intros Hrun Hk Hfuel Hc HQ HN.
  enough (∀ s1 k1 c1, frame r s s1 → running d l k1 t (view r s1) → (k1 < length l)%nat →
    (length l - k1 ≤ fuel)%nat → l !! k1 = Some c1 →
    (∃ fx, missed r d l t k (view r s) k1 (view r s1) fx ∧ performs fx s s1) →
    ((k < k1)%nat → t + contribution_frequency d * Z.of_nat k1 ≤ now) →
    wp (catch_up fuel r now (t + contribution_frequency d * (Z.of_nat k1 + 1)) (ring_order l k1) c1) s1 Q
    currency_error) as Hgen by (apply Hgen; [reflexivity | done.. | eauto using missed_none, performs_nil | lia]).
  clear Hrun Hk Hfuel Hc. induction fuel as [|fuel IH]; intros s1 k1 c1 Hfr Hrun Hk Hfuel Hc Hs1 Hn; [lia|].
  cbn [catch_up]. destruct (_ <=? _) eqn:Hle; [|apply wp_ret; eapply HQ; eauto; lia].
  apply (wp_missed_round _ _ _ _ _ _ _ _ _ Hrun Hk); [done|]. intros c' s2 s3 Hc' Hs2 Hv3 Ht3 Hrun3 Hfr3.
  rewrite Hc in Hc'. injection Hc' as <-.
  assert (∃ fx, missed r d l t k (view r s) (S k1) (view r s3) fx ∧ performs fx s s3) as Hm3.
  { destruct Hs1 as (fx & Hm & Hfx). eexists. rewrite Hv3.
    split; [by eapply missed_round | by eapply performs_app]. }
  assert (frame r s s3) as Hfr3' by by etrans.
  wp_auto. apply (wp_check_and_complete_rosca _ _ _ _ _ _ _ _ Hrun3).
  - intros Hk3. destruct (running_claimant_Some _ _ _ _ _ Hrun3) as (c3 & Hl3 & Hcl3 & _).
    pose proof (running_order _ _ _ _ _ Hrun3) as Ho3. rewrite Nat.mod_small in Hl3, Ho3 by done.
    wp_read (running_next _ _ _ _ _ Hrun3). wp_read Ho3. wp_read Hcl3.
    apply IH; auto; lia.
  - intros Hk3 s4 Hc4 HP4 Hfr4. apply wp_ret.
    assert (t + contribution_frequency d * len l ≤ now) by (unfold len; lia).
    rewrite Hk3 in *. destruct Hm3 as (fx & Hm3 & Hfx).
    eapply HN; [done | eauto using performs_app | done | done | by etrans].
Qed.

(** * The loop of [manually_end_rosca] *)

Lemma wp_process_remaining_rounds fuel d l k t r s (Q : unit → State → Prop) :
  running d l k t (view r s) → (length l - k ≤ fuel)%nat →
  (∀ s', running d l (length l) t (view r s') →
     (∃ fx, missed r d l t k (view r s) (length l) (view r s') fx ∧ performs fx s s') →
     frame r s s' → Q tt s') →
  wp (process_remaining_rounds fuel r (t + contribution_frequency d * len l)) s Q currency_error.
Proof.
  intros Hrun Hfuel HQ.
  enough (∀ s1 k1, frame r s s1 → running d l k1 t (view r s1) → (length l - k1 ≤ fuel)%nat →
    (∃ fx, missed r d l t k (view r s) k1 (view r s1) fx ∧ performs fx s s1) →
    wp (process_remaining_rounds fuel r (t + contribution_frequency d * len l)) s1 Q currency_error)
    as Hgen by (eapply Hgen; eauto using missed_none, performs_nil; reflexivity).
  clear Hrun Hfuel. induction fuel as [|fuel IH]; intros s1 k1 Hfr Hrun Hfuel Hm;
    cbn [process_remaining_rounds]; wp_auto;
    change (next_pay_by_timestamp r s1) with (v_next (view r s1));
    rewrite (running_next _ _ _ _ _ Hrun); pose proof (running_round _ _ _ _ _ Hrun);
    assert (0 < contribution_frequency d) by (by apply details_frequency; destruct Hrun);
    destruct (_ <=? _) eqn:Hle; unfold len in Hle; try nia.
  1, 3: assert (k1 = length l) as -> by nia; by apply wp_ret, HQ.
  assert (k1 < length l)%nat as Hk by nia.
  apply (wp_missed_round _ _ _ _ _ _ _ _ _ Hrun Hk); [done|]. intros c' s2 s3 Hc' Hs2 Hv3 Ht3 Hrun3 Hfr3.
  eapply IH; [by etrans | done | lia |]. destruct Hm as (fx & Hm & Hfx). eexists. rewrite Hv3.
  split; [by eapply missed_round | by eapply performs_app].
Qed.

(** * Contributions *)

Definition contribute_view (a : AccountId) v : RoscaView :=
  mkView (v_active v) (v_completed v) (v_participants v) (v_invited v) (v_count v) (v_deposits v)
    (v_slots v) (v_order v) (v_pending v) (v_next v) (v_final v) (v_claimant v)
    (<[a := tt]> (v_contributors v)) (v_contributions v + 1) (v_defaults v).

(** What a contribution of [a] in round [k] makes of a running ROSCA: the round goes
    on, the next one starts, or the ROSCA is complete. *)
Inductive contributed d l (k : nat) (t : Moment) (a : AccountId) v v' : Prop :=
  | contributed_open :
      v_contributions v + 1 < len l - 1 → v' = contribute_view a v →
      contributed d l k t a v v'
  | contributed_round :
      v_contributions v + 1 = len l - 1 → (S k < length l)%nat → v' = advance_view d l t (S k) v →
      contributed d l k t a v v'
  | contributed_last :
      v_contributions v + 1 = len l - 1 → S k = length l →
      v' = complete_view (contribute_view a v) → contributed d l k t a v v'.

Lemma running_contribute d l k t a v :
  running d l k t v → a ∈ l → v_contributors v !! a = None → v_contributions v + 1 < len l - 1 →
  running d l k t (contribute_view a v).
Proof.
  intros Hrun Ha Hnone Hc. destruct Hrun. split; cbn; try done.
  - intros b. destruct (decide (a = b)) as [->|]; [done|]. autorewrite with storage. auto.
  - rewrite map_size_insert_None by done. lia.
  - lia.
Qed.

Lemma contributed_ok d l k t a v v' :
  running d l k t v → (k < length l)%nat → a ∈ l → v_contributors v !! a = None →
  contributed d l k t a v v' →
  (∃ k', running d l k' t v' ∧ (k' < length l)%nat) ∨ completed_ok l v'.
Proof.
  intros Hrun Hk Ha Hnone [Hc ->|Hc Hk' ->|Hc Hk' ->].
  - left. exists k. split; [|done]. by apply running_contribute.
  - left. exists (S k). split; [|done]. by apply running_advance.
  - right. destruct Hrun. split; cbn; eauto.
Qed.

(** The error of a transfer that the ledger refuses. *)
Definition refused (asset : Z) (from to : AccountId) (amount : Balance) (ledger : Assets) (e : DispatchError) : Prop :=
  ∃ te, e = Currency te ∧ asset_transfer asset from to amount ledger = inr te.
Lemma refused_currency asset from to amount ledger e : refused asset from to amount ledger e → currency_error e.
Proof. intros (te & -> & _). by exists te. Qed.

(** The effects of that contribution, to the claimant [c]. *)
Definition contribution d r l (t : Moment) (k : nat) (a c : AccountId) v : list Effect :=
  [Moved (mkTransfer (PaymentAssets_id (payment_asset d)) a c (contribution_amount d));
   Emitted (ContributionMade r a c (contribution_amount d))] ++
  (if decide (v_contributions v + 1 = len l - 1)
   then if decide (S k = length l) then [Emitted (RoscaComplete r)] else round_started d r l t (S k)
   else []).

Lemma wp_settle_contribution d l k t c a r s (Q : unit → State → Prop) :
  running d l k t (view r s) → (k < length l)%nat → (2 ≤ length l)%nat → l !! k = Some c →
  v_contributors (view r s) !! a = None →
  (∀ s', asset_transfer (PaymentAssets_id (payment_asset d)) a c (contribution_amount d) (Ledger s)
       = inl (Ledger s') → performs (contribution d r l t k a c (view r s)) s s' →
     contributed d l k t a (view r s) (view r s') → frame r s s' → Q tt s') →
  wp (settle_contribution a r d (t + contribution_frequency d * len l)
        (t + contribution_frequency d * (Z.of_nat k + 1)) (ring_order l k) c) s Q
    (refused (PaymentAssets_id (payment_asset d)) a c (contribution_amount d) (Ledger s)).
Proof.
  intros Hrun Hk H2 Hc Hnone HQ. set (E := refused _ _ _ _ _).
  enough (wp (settle_contribution a r d (t + contribution_frequency d * len l)
        (t + contribution_frequency d * (Z.of_nat k + 1)) (ring_order l k) c) s
    (λ _ s', asset_transfer (PaymentAssets_id (payment_asset d)) a c (contribution_amount d) (Ledger s)
       = inl (Ledger s') ∧ performs (contribution d r l t k a c (view r s)) s s' ∧
       contributed d l k t a (view r s) (view r s')) E) as Hwp.
  { unfold wp in *. destruct (settle_contribution _ _ _ _ _ _ _ s) as [[[] s']| | |] eqn:Hs; try done.
    destruct Hwp as (? & ? & ?). eapply HQ; eauto. by eapply settle_contribution_frame. }
  clear HQ Q. unfold contribution, len. pose proof (running_u32 _ _ _ _ _ Hrun) as Hu. destruct Hrun.
  assert (0 < contribution_frequency d) by by apply details_frequency.
  unfold settle_contribution. wp_auto. apply wp_transfer; [intros ledger Htr | by intros te Hte; exists te].
  wp_auto. unfold len in *. remember (v_contributions (view r s)) as n eqn:Hn.
  apply (wp_ok_or_Some _ (n + 1)).
  { apply checked_add_Some. split; [by rewrite Hn|]. enough (n + 1 ≤ u32_MAX) by (by rewrite Hn in *). lia. }
  wp_auto. assert (usize_sub (Z.of_nat (length (ring_order l k))) 1 = Z.of_nat (length l) - 1) as Hlen.
  { rewrite length_ring_order. unfold usize_sub. rewrite wrapping_sub_in; lia. }
  unfold len. rewrite Hlen. destruct (_ =? _) eqn:Heq.
  2: { wp_auto. rewrite decide_False by lia.
       split_and!; [done | solve_performs |]. apply contributed_open; [unfold len; rewrite <- Hn; lia|].
       rewrite Hn. unfold view, contribute_view. cbn. by autorewrite with storage. }
  wp_auto. apply (wp_ok_or_Some _ (t + contribution_frequency d * (Z.of_nat (S k) + 1))).
  { apply checked_add_Some. rewrite Nat2Z.inj_succ. split; [ring|]. nia. }
  destruct (_ <? _) eqn:Hlt.
  { assert (S k = length l).
    { clear -Hlt H Hk. apply Z.ltb_lt, Z.add_lt_mono_l, Z.mul_lt_mono_pos_l in Hlt; [|done]. lia. }
    wp_auto. rewrite !decide_True by lia. split_and!; [done | solve_performs |].
    apply contributed_last; [unfold len; rewrite <- Hn; lia | done |].
    rewrite Hn. unfold view, complete_view, contribute_view. cbn. by autorewrite with storage. }
  destruct (ring_order_next l k Hk) as (x & o & Hx & Ho & Ho').
  assert (S k < length l)%nat as Hk'.
  { clear -Hlt H Hk. apply Z.ltb_ge, Z.add_le_mono_l, Z.mul_le_mono_pos_l in Hlt; [|done]. lia. } rewrite Nat.mod_small in Hx, Ho' by done.
  assert (length o + 1 = length l)%nat as Hlo
    by (rewrite <- (length_ring_order l k), Ho, length_app; cbn; lia).
  wp_auto. rewrite Ho. replace (Z.of_nat (length l) - 1) with (len o) by (unfold len; lia).
  apply (wp_vec_get _ _ x); [unfold len; lia | apply lookup_last |].
  wp_auto. apply (wp_ok_or_Some _ _ _ _ _ _ (rotate_last o x)).
  wp_auto. rewrite decide_True, decide_False by (unfold len; lia). unfold round_started.
  rewrite Nat.mod_small, Hx by done. split_and!; [done | solve_performs |].
  eapply contributed_round; [unfold len; rewrite <- Hn; lia | done |].
  unfold view, advance_view. rewrite Nat.mod_small, Hx, Ho' by done. cbn. autorewrite with storage. cbn.
  rewrite clear_prefix_all; [done|].
  change (prefix (CurrentContributors s) r) with (v_contributors (view r s)).
  rewrite map_size_insert_None by done.
  unfold usize_sub. cbn [length]. rewrite wrapping_sub_in; lia.
Qed.
End preservation.
