(* ===== verification/RoscaMembership.v ===== *)
(** Joining, leaving, starting and creating a ROSCA, on its view: what each call
    writes, and why the result is well-formed. *)

From S2P Require Import Prelude RoscaTypes RoscaRounds RoscaCalls RoscaLogic RoscaFrame.
From S2P Require Import RoscaSample RoscaSchedule RoscaInvariant RoscaPreservation.

Section membership.
Context {T : Config} {L : ConfigLaws T}.
Implicit Types (s : State) (r : RoscaId) (v : RoscaView) (d : RoscaDetails) (l : list AccountId).
Implicit Types (o : list (option AccountId)) (a : AccountId) (i : Z).

(** The positions, the participants and their number change; and the deposits when a
    participant leaves. *)
Definition membership_view (ps : gmap AccountId Z) (n : Z) o (deposits : gmap AccountId Z) v : RoscaView :=
  mkView (v_active v) (v_completed v) ps (v_invited v) (Some n) deposits (Some o) (v_order v)
    (v_pending v) (v_next v) (v_final v) (v_claimant v) (v_contributors v) (v_contributions v)
    (v_defaults v).

(** [a] takes position [i]. *)
Definition join_view a i o v : RoscaView :=
  membership_view (<[a := i]> (v_participants v)) (len (omap id o) + 1)
    (<[Z.to_nat i := Some a]> o) (v_deposits v) v.

(** [a] gives up position [i] and takes a positive deposit back. *)
Definition leave_view a i o v : RoscaView :=
  membership_view (delete a (v_participants v)) (len (omap id o) - 1) (<[Z.to_nat i := None]> o)
    (if 0 <? default 0 (v_deposits v !! a) then delete a (v_deposits v) else v_deposits v) v.

Lemma pending_slot d o v a i :
  pending_ok d o v → v_participants v !! a = Some i → 0 ≤ i < len o ∧ o !! Z.to_nat i = Some (Some a).
Proof.
  intros Hp [H0 Hi]%(pending_participants _ _ _ Hp). split; [|done].
  pose proof (lookup_lt_Some _ _ _ Hi). unfold len. lia.
Qed.

Lemma pending_distinct d o v (i j : nat) a :
  pending_ok d o v → o !! i = Some (Some a) → o !! j = Some (Some a) → i = j.
Proof.
  intros Hp Hi Hj.
  assert (∀ n, o !! n = Some (Some a) → v_participants v !! a = Some (Z.of_nat n)) as Hslot.
  { intros n Hn. apply (pending_participants _ _ _ Hp). rewrite Nat2Z.id. split; [lia | done]. }
  pose proof (Hslot _ Hi). pose proof (Hslot _ Hj). simplify_eq. lia.
Qed.

Lemma pending_join d o v a i :
  pending_ok d o v → v_participants v !! a = None → is_Some (v_invited v !! a) →
  0 ≤ i → o !! Z.to_nat i = Some None →
  pending_ok d (<[Z.to_nat i := Some a]> o) (join_view a i o v).
Proof.
  intros Hp Hnew Hinv Hi Ho. pose proof (lookup_lt_Some _ _ _ Ho) as Hlt.
  destruct Hp. split; cbn; try done.
  - unfold len. by rewrite length_insert.
  - pose proof (length_omap_insert o _ _ (Some a) Ho) as Hl. cbn in Hl. unfold len. f_equal. lia.
  - intros b j. destruct (decide (a = b)) as [->|Hne].
    + rewrite lookup_insert_eq. split.
      * intros [= <-]. by rewrite list_lookup_insert_eq.
      * intros [Hj Hb]. destruct (decide (Z.to_nat i = Z.to_nat j)) as [?|?]; [f_equal; lia|].
        rewrite list_lookup_insert_ne in Hb by done.
        by rewrite (proj2 (pending_participants b j)) in Hnew.
    + rewrite lookup_insert_ne, pending_participants by done.
      destruct (decide (Z.to_nat i = Z.to_nat j)) as [Heq|?].
      * rewrite <- Heq, Ho, list_lookup_insert_eq by done. naive_solver.
      * by rewrite list_lookup_insert_ne.
  - rewrite dom_insert. apply elem_of_dom in Hinv. set_solver.
  - intros b x Hx. apply pending_deposits in Hx as [? Hx]. split; [done|]. cbn.
    intros H0. rewrite lookup_insert_is_Some'. auto.
Qed.

Lemma pending_leave d o v a i :
  pending_ok d o v → v_participants v !! a = Some i →
  pending_ok d (<[Z.to_nat i := None]> o) (leave_view a i o v).
Proof.
  intros Hp Ha. destruct (pending_slot _ _ _ _ _ Hp Ha) as [Hi Ho].
  pose proof (lookup_lt_Some _ _ _ Ho) as Hlt. pose proof (λ j b, pending_distinct d o v (Z.to_nat i) j b Hp) as Hinj.
  destruct Hp. split; cbn; try done.
  - unfold len. by rewrite length_insert.
  - pose proof (length_omap_insert o _ _ None Ho) as Hl. cbn in Hl. unfold len. f_equal. lia.
  - intros b j. destruct (decide (a = b)) as [->|Hne].
    + rewrite lookup_delete_eq. split; [done|]. intros [Hj Hb].
      destruct (decide (Z.to_nat i = Z.to_nat j)) as [Heq|Hne].
      * by rewrite <- Heq, list_lookup_insert_eq in Hb.
      * rewrite list_lookup_insert_ne in Hb by done. destruct Hne. by eapply Hinj.
    + rewrite lookup_delete_ne, pending_participants by done.
      destruct (decide (Z.to_nat i = Z.to_nat j)) as [Heq|?].
      * rewrite <- Heq, Ho, list_lookup_insert_eq by done. naive_solver.
      * by rewrite list_lookup_insert_ne.
  - rewrite dom_delete. set_solver.
  - intros b x. cbn. intros Hx. destruct (decide (a = b)) as [->|Hne].
    + destruct (0 <? _) eqn:H0; [by rewrite lookup_delete_eq in Hx|].
      rewrite Hx in H0. cbn in H0. apply pending_deposits in Hx as [? _]. split; [done | lia].
    + rewrite lookup_delete_ne by done. apply (pending_deposits b).
      destruct (0 <? _); [|done]. by rewrite lookup_delete_ne in Hx.
Qed.

(** The ROSCA starts at time [t] with the claimants [l] in this order. *)
Definition start_view d l (t : Moment) v : RoscaView :=
  mkView (Some d) (v_completed v) (v_participants v) (v_invited v) (v_count v) (v_deposits v)
    (v_slots v) (Some (ring_order l 0)) None (Some (t + contribution_frequency d))
    (Some (t + contribution_frequency d * len l)) (l !! 0%nat) (v_contributors v) (v_contributions v)
    (v_defaults v).

Lemma pending_start d o l t v :
  pending_ok d o v → l ≡ₚ omap id o → (0 < length l)%nat → 0 ≤ t →
  t + contribution_frequency d * (len l + 1) ≤ u64_MAX → running d l 0 t (start_view d l t v).
Proof.
  intros Hp Hl Hne Ht Hb.
  assert (NoDup (omap id o)) as Hnd.
  { apply NoDup_omap_id. intros i j a. by apply (pending_distinct d o v). }
  assert (length l = length (omap id o)) as Hlen by (by rewrite Hl).
  destruct Hp. split; cbn; try done.
  - by rewrite Hl.
  - rewrite <- pending_length. unfold len. rewrite Hlen. pose proof (length_omap_id o). lia.
  - lia.
  - unfold len in *. rewrite pending_count. f_equal. lia.
  - intros a. rewrite Hl, elem_of_omap_id. split.
    + intros [i [_ Hi]%pending_participants]. eauto.
    + intros [i Hi]. exists (Z.of_nat i). apply pending_participants. rewrite Nat2Z.id. split; [lia | done].
  - by rewrite Nat.Div0.mod_0_l.
  - by rewrite Nat.Div0.mod_0_l.
  - f_equal. ring.
  - intros a. by rewrite pending_contributors, lookup_empty, is_Some_alt.
  - rewrite pending_contributions, pending_contributors, map_size_empty. done.
  - rewrite pending_contributions. lia.
Qed.

(** The order that [start_rosca] stores, from the one it has computed. *)
Lemma ring_order_first (p l : list AccountId) (x : AccountId) :
  p = l ++ [x] → ring_order (reverse p) 0 = x :: l ∧ reverse p !! 0%nat = Some x.
Proof.
  intros ->. rewrite reverse_snoc. split; [|done]. unfold ring_order. cbn [drop take].
  by rewrite drop_0, take_0, reverse_snoc, reverse_involutive.
Qed.

(** * Creation *)

Lemma dedup_from_spec x l :
  (∀ a, a ∈ dedup_from x l ↔ a = x ∨ a ∈ l) ∧ (length (dedup_from x l) ≤ S (length l))%nat ∧
  (StronglySorted AccountId_le (x :: l) → NoDup (dedup_from x l)).
Proof.
  revert x. induction l as [|y l IH]; intros x; cbn [dedup_from].
  { split_and!; [set_solver | done | intros; apply NoDup_singleton]. }
  destruct (decide (x = y)) as [->|Hne].
  - destruct (IH y) as (He & Hl & Hn). split_and!; [set_solver | cbn; lia |].
    intros [Hs _]%StronglySorted_inv. auto.
  - destruct (IH y) as (He & Hl & Hn). split_and!; [set_solver | cbn; lia |].
    intros [Hs Hx]%StronglySorted_inv. constructor; [|auto].
    intros Hin%He. apply Forall_cons in Hx as [Hxy Hx].
    destruct Hin as [->|Hin]; [done|].
    apply StronglySorted_inv in Hs as [_ Hy]. rewrite Forall_forall in Hx, Hy.
    apply Hne. apply (anti_symm AccountId_le); [done|]. by apply Hy.
Qed.

(** The participants a ROSCA invites: the accounts of the list, each once. *)
Lemma invited_spec l :
  NoDup (dedup (merge_sort AccountId_le l)) ∧ (∀ a, a ∈ dedup (merge_sort AccountId_le l) ↔ a ∈ l) ∧
  (length (dedup (merge_sort AccountId_le l)) ≤ length l)%nat.
Proof.
  pose proof (merge_sort_Permutation AccountId_le l) as Hp.
  pose proof (StronglySorted_merge_sort AccountId_le l) as Hs.
  destruct (merge_sort AccountId_le l) as [|x l'] eqn:Heq; cbn [dedup].
  { apply Permutation_nil_l in Hp. subst l. split_and!; [constructor | done | done]. }
  destruct (dedup_from_spec x l') as (He & Hl & Hn).
  split_and!; [auto | | rewrite <- Hp; done].
  intros a. rewrite <- Hp, He. set_solver.
Qed.

(** The accounts [l] are added to an invitation list. *)
Definition invite l (m : gmap AccountId unit) : gmap AccountId unit := foldl (λ m a, <[a := tt]> m) m l.

Lemma invite_spec l m a : is_Some (invite l m !! a) ↔ a ∈ l ∨ is_Some (m !! a).
Proof.
  revert m. induction l as [|b l IH]; intros m; [set_solver|].
  change (invite (b :: l) m) with (invite l (<[b := tt]> m)). rewrite IH, lookup_insert_is_Some'. set_solver.
Qed.

(** The storage after the loop that records the invitations. *)
Lemma invite_loop r l s :
  foldl (λ s a, set_RoscaInvitedPreverifiedParticipants
                  (dinsert r a tt (RoscaInvitedPreverifiedParticipants s)) s) s l =
  set_RoscaInvitedPreverifiedParticipants
    (foldl (λ m a, dinsert r a tt m) (RoscaInvitedPreverifiedParticipants s) l) s.
Proof.
  revert s. induction l as [|a l IH]; intros s; [by destruct s|]. cbn [foldl]. by rewrite IH.
Qed.

Lemma prefix_invite_eq r l (m : gmap RoscaId (gmap AccountId unit)) :
  prefix (foldl (λ m a, dinsert r a tt m) m l) r = invite l (prefix m r).
Proof.
  revert m. induction l as [|a l IH]; intros m; cbn; [done|]. by rewrite IH, prefix_dinsert_eq.
Qed.
Lemma prefix_invite_ne r r' l (m : gmap RoscaId (gmap AccountId unit)) :
  r ≠ r' → prefix (foldl (λ m a, dinsert r a tt m) m l) r' = prefix m r'.
Proof.
  intros Hr. revert m. induction l as [|a l IH]; intros m; cbn; [done|].
  by rewrite IH, prefix_dinsert_ne.
Qed.

(** A new ROSCA: its creator [a] takes position [i] and is, with [l], on its list. *)
Definition create_view d a i l : RoscaView :=
  mkView None None {[a := i]} (invite l {[a := tt]}) (Some 1) ∅
    (Some (<[Z.to_nat i := Some a]> (replicate (Z.to_nat (number_of_participants d)) None)))
    None (Some d) None None None ∅ 0 ∅.

Lemma omap_id_replicate n : omap id (replicate n (@None AccountId)) = [].
Proof. by induction n. Qed.

Lemma create_pending d a i l :
  details_ok d → 0 ≤ i < number_of_participants d →
  pending_ok d (<[Z.to_nat i := Some a]> (replicate (Z.to_nat (number_of_participants d)) None))
    (create_view d a i l).
Proof.
  intros Hd Hi. set (n := Z.to_nat (number_of_participants d)).
  assert (replicate n (@None AccountId) !! Z.to_nat i = Some None) as Hnone
    by (apply lookup_replicate; split; [done | lia]).
  split; cbn; try done.
  - unfold len. rewrite length_insert, length_replicate. lia.
  - pose proof (length_omap_insert _ _ _ (Some a) Hnone) as Hl. rewrite omap_id_replicate in Hl.
    cbn in Hl. unfold len. f_equal. lia.
  - intros b j. rewrite lookup_singleton_Some. split.
    + intros [<- <-]. rewrite list_lookup_insert_eq by (rewrite length_replicate; lia). split; [lia | done].
    + intros [Hj Hb]. destruct (decide (Z.to_nat i = Z.to_nat j)) as [Heq|Hne].
      * rewrite <- Heq, list_lookup_insert_eq in Hb by (rewrite length_replicate; lia).
        injection Hb as <-. split; [done | lia].
      * rewrite list_lookup_insert_ne in Hb by done. by apply lookup_replicate in Hb as [? _].
  - rewrite dom_singleton. intros b ->%elem_of_singleton. apply elem_of_dom, invite_spec.
    right. by rewrite lookup_singleton_eq.
Qed.
End membership.
