(* ===== verification/RoscaLifecycle.v ===== *)
(** The abstract specification of the pallet: how a successful call moves the one
    ROSCA it works on through its life cycle.  The calls are proved to refine it in
    the file after this one. *)

From S2P Require Import Prelude RoscaTypes RoscaRounds RoscaCalls RoscaLogic RoscaFrame.
From S2P Require Import RoscaSample RoscaSchedule RoscaInvariant RoscaPreservation.
From S2P Require Import RoscaMembership.

Section lifecycle.
Context {T : Config} {L : ConfigLaws T}.
Implicit Types (s : State) (r : RoscaId) (v : RoscaView) (d : RoscaDetails) (l : list AccountId).
Implicit Types (o : list (option AccountId)) (a : AccountId).

(** The deposit of [a] becomes [x]. *)
Definition deposit_view (deposits : gmap AccountId Z) v : RoscaView :=
  settle_view deposits (v_defaults v) v.

(** A positive deposit is paid back to a participant who leaves. *)
Definition refund d r a v : list Effect :=
  let x := default 0 (v_deposits v !! a) in
  if 0 <? x
  then [Moved (mkTransfer (PaymentAssets_id (payment_asset d)) (rosca_account_id r) a x);
        Emitted (SecurityDepositClaimed r a x)]
  else [].

(** [rosca_step now a c v v' fx]: at time [now], the call [c] signed by [a] moves a
    ROSCA from [v] to [v'] with the effects [fx], its transfers and events in order. *)
Inductive rosca_step (now : Moment) a : Call → RoscaView → RoscaView → list Effect → Prop :=
  | step_join r p d o i v :
      pending_ok d o v → now < start_by_timestamp d →
      v_participants v !! a = None → is_Some (v_invited v !! a) →
      0 ≤ i → o !! Z.to_nat i = Some None →
      p = Some i ∨ p = None ∧ first_none o = Some (Z.to_nat i) →
      rosca_step now a (Call_join_rosca r p) v (join_view a i o v) [Emitted (JoinedRosca r a)]
  | step_leave r d o i v :
      pending_ok d o v → v_participants v !! a = Some i →
      rosca_step now a (Call_leave_rosca r) v (leave_view a i o v)
        (refund d r a v ++ [Emitted (LeftRosca r a)])
  | step_start r d o l c v :
      pending_ok d o v → now < start_by_timestamp d →
      is_Some (v_participants v !! a) → minimum_participant_threshold d ≤ len l →
      l ≡ₚ omap id o → (random_order d = false → l = omap id o) →
      0 ≤ now → now + contribution_frequency d * (len l + 1) ≤ u64_MAX → l !! 0%nat = Some c →
      rosca_step now a (Call_start_rosca r) v (start_view d l now v)
        [Emitted (RoscaStarted r a (schedule l now (contribution_frequency d)) c
                    (now + contribution_frequency d))]
  | step_contribute r d l k t k' c v v1 v' fx :
      running d l k t v → (k < length l)%nat → a ∈ l →
      l !! k ≠ Some a → v_contributors v !! a = None →
      missed r d l t k v k' v1 fx → l !! k' = Some c →
      ((k < k')%nat → t + contribution_frequency d * Z.of_nat k' ≤ now) →
      now < t + contribution_frequency d * (Z.of_nat k' + 1) →
      running d l k' t v1 → contributed d l k' t a v1 v' →
      rosca_step now a (Call_contribute_to_rosca r) v v'
        (fx ++ contribution d r l t k' a c v1)
  | step_expire r d l k t v v1 fx :
      running d l k t v → (k < length l)%nat →
      t + contribution_frequency d * len l ≤ now →
      missed r d l t k v (length l) v1 fx → running d l (length l) t v1 →
      rosca_step now a (Call_contribute_to_rosca r) v (complete_view v1)
        (fx ++ [Emitted (RoscaComplete r)])
  | step_end r d l k t v v1 fx :
      running d l k t v → (k < length l)%nat →
      t + contribution_frequency d * len l < now →
      missed r d l t k v (length l) v1 fx → running d l (length l) t v1 →
      rosca_step now a (Call_manually_end_rosca r) v (complete_view v1)
        (fx ++ [Emitted (RoscaComplete r)])
  | step_claim r asset l x t v :
      completed_ok l v → v_final v = Some t → t < now →
      v_deposits v !! a = Some x → 0 < x →
      rosca_step now a (Call_claim_security_deposit r asset) v
        (deposit_view (delete a (v_deposits v)) v)
        [Moved (mkTransfer (PaymentAssets_id asset) (rosca_account_id r) a x);
         Emitted (SecurityDepositClaimed r a x)]
  | step_add r d amount v :
      v_completed v = None → v_active v = Some d ∨ v_active v = None ∧ v_pending v = Some d →
      is_Some (v_participants v !! a) → 0 ≤ amount →
      default 0 (v_deposits v !! a) + amount ≤ u32_MAX →
      rosca_step now a (Call_add_to_security_deposit r amount) v
        (deposit_view (<[a := default 0 (v_deposits v !! a) + amount]> (v_deposits v)) v)
        [Moved (mkTransfer (PaymentAssets_id (payment_asset d)) a (rosca_account_id r) amount);
         Emitted (SecurityDepositContribution r a amount)].

Lemma rosca_ok_deposits es r ds v :
  rosca_ok es r v → v ≠ empty_view → deposits_ok (deposit_view ds v) → rosca_ok es r (deposit_view ds v).
Proof.
  intros [?|d o []|d l k t [] Hk Ha|l []] Hne Hok; [done| | |].
  - eapply rosca_pending. by split.
  - eapply rosca_active; [|done|done]. by split.
  - eapply rosca_completed. by split.
Qed.

(** There is no step on an unused identifier. *)
Lemma rosca_step_empty now a c v' ts : ¬ rosca_step now a c empty_view v' ts.
Proof.
  inversion 1; subst;
    match goal with
    | H : pending_ok _ _ empty_view |- _ => by destruct H
    | H : running _ _ _ _ empty_view |- _ => by destruct H
    | H : completed_ok _ empty_view |- _ => by destruct H
    | H : is_Some (v_participants empty_view !! _) |- _ => by destruct H
    end.
Qed.

(** The claimants can be read off the view of a ROSCA that has just started. *)
Lemma start_view_inj d l d' l' now v :
  start_view d l now v = start_view d' l' now v → d = d' ∧ l = l'.
Proof.
  intros [= -> Ho _ _ _]. split; [done|]. unfold ring_order in Ho. apply (inj reverse) in Ho.
  destruct l as [|x l], l' as [|x' l']; cbn in Ho; rewrite ?drop_0, ?take_0 in Ho; try done.
  - symmetry in Ho. by apply app_nil in Ho as [_ ?].
  - by apply app_nil in Ho as [_ ?].
  - by apply app_inj_tail in Ho as [-> ->].
Qed.

(** Only a start makes the view of one. *)
Lemma rosca_step_start now a c d l v v' ts :
  rosca_step now a c v v' ts → v' = start_view d l now v → v_active v = None →
  ∃ r, c = Call_start_rosca r.
Proof.
  intros Hs ->. inversion Hs; subst; intros Ha; eauto;
    match goal with
    | H : running _ _ _ _ v |- _ => by rewrite (running_active _ _ _ _ _ H) in Ha
    | H : completed_ok _ v |- _ => rewrite (completed_active _ _ H) in *; done
    | _ => congruence
    end.
Qed.

(** A step keeps a ROSCA well-formed; a start has to be announced. *)
Lemma rosca_step_ok now a c es r v v' ts :
  rosca_ok es r v → rosca_step now a c v v' ts →
  (∀ d l k t, running d l k t v → announced es r l t (contribution_frequency d)) →
  (∀ d l, v_active v = None → v' = start_view d l now v → announced es r l now (contribution_frequency d)) →
  is_Some (v_count v) ∧ rosca_ok es r v'.
Proof.
  intros Hok Hstep Hann Hstart.
  assert (is_Some (v_count v)) as Hcount.
  { destruct Hok as [->|? ? Hp|? ? ? ? Hr ? ?|? Hc].
    - by destruct (rosca_step_empty _ _ _ _ _ Hstep).
    - by rewrite (pending_count _ _ _ Hp).
    - by rewrite (running_count _ _ _ _ _ Hr).
    - by rewrite (completed_count _ _ Hc). }
  split; [done|].
  destruct Hstep as [? ? d o i v Hp|? d o i v Hp|? d o l x v Hp Hn Ha ? Hl ? Hnow Hb
    |? d l k t k' c v v1 v' ts Hr Hk Ha Hc Hnone Hm Hk' ? ? Hr1 Hcon|? d l k t v v1 ts Hr Hk Ht Hm Hr1
    |? d l k t v v1 ts Hr Hk Ht Hm Hr1|? ? l x t v Hc Hf Ht Hx H0|? d amount v Hc Hd Ha Hx].
  - eapply rosca_pending. by apply pending_join.
  - eapply rosca_pending. by eapply pending_leave.
  - assert (0 < length l)%nat as Hne.
    { destruct Ha as [i [_ Hi]%(pending_participants _ _ _ Hp)]. destruct l; [|cbn; lia].
      assert (a ∈ omap id o) as Hin by (apply elem_of_omap_id; eauto).
      rewrite <- Hl in Hin. by apply elem_of_nil in Hin. }
    pose proof (pending_start _ _ _ _ _ Hp Hl Hne Hnow Hb) as Hrun.
    eapply rosca_active; [done | done|]. apply Hstart; [by destruct Hp | done].
  - assert (v_contributors v1 !! a = None) as Hnone1.
    { destruct (missed_contributors _ _ _ _ _ _ _ _ _ Hm) as [[_ ->]|[_ ->]]; [done | by rewrite lookup_empty]. }
    apply lookup_lt_Some in Hk'. destruct (contributed_ok _ _ _ _ _ _ _ Hr1 Hk' Ha Hnone1 Hcon) as [(k2 & Hr2 & Hk2)|Hc2].
    + eapply rosca_active; eauto.
    + by eapply rosca_completed.
  - eapply rosca_completed. by eapply running_complete.
  - eapply rosca_completed. by eapply running_complete.
  - apply rosca_ok_deposits; [done | by intros -> |]. intros b y Hy. cbn in *.
    apply lookup_delete_Some in Hy as [_ Hy]. by apply (completed_deposits _ _ Hc).
  - apply rosca_ok_deposits; [done | by intros ->; destruct Hcount |].
    assert (deposits_ok v) as Hdep.
    { by destruct Hok as [->|? ? []|? ? ? ? [] ? ?|? []]. }
    assert (0 ≤ default 0 (v_deposits v !! a)).
    { destruct (v_deposits v !! a) as [y|] eqn:Hy; [|done]. by apply Hdep in Hy as [[? ?] _]. }
    intros b y Hy. cbn in *. apply lookup_insert_Some in Hy as [[<- <-]|[? Hy]].
    + split; [unfold in_width; lia | done].
    + by apply Hdep.
Qed.

Lemma completed_claim l a v : completed_ok l v → completed_ok l (deposit_view (delete a (v_deposits v)) v).
Proof.
  intros []. split; cbn; try done. intros b x Hx. cbn in Hx.
  apply lookup_delete_Some in Hx as [_ Hx]. by apply completed_deposits.
Qed.

(** A step of a completed ROSCA: only its deposits change, and they only go. *)
Lemma completed_rosca_step now a c l v v' ts :
  completed_ok l v → rosca_step now a c v v' ts →
  completed_ok l v' ∧ ∃ ds, ds ⊆ v_deposits v ∧ v' = deposit_view ds v.
Proof.
  intros Hok Hstep. destruct Hstep;
    try match goal with
    | H : pending_ok _ _ ?v |- _ => destruct H, Hok; congruence
    | H : running _ _ _ _ v |- _ => destruct H, Hok; congruence
    | H : v_completed v = None |- _ => destruct Hok; congruence
    end.
  split; [by apply completed_claim|]. eexists. split; [apply delete_subseteq | done].
Qed.
End lifecycle.
