(* ===== verification/RoscaSafety.v ===== *)
(** The calls of the pallet keep its invariant; which errors each of them can
    report; and the absence of panics and of unbounded loops. *)

From S2P Require Import Prelude RoscaTypes RoscaRounds RoscaCalls RoscaLogic RoscaFrame.
From S2P Require Import RoscaSample RoscaSchedule RoscaInvariant RoscaPreservation.
From S2P Require Import RoscaMembership RoscaLifecycle.

Section safety.
Context {T : Config} {L : ConfigLaws T}.
Implicit Types (s : State) (r : RoscaId) (v : RoscaView) (d : RoscaDetails) (l : list AccountId).

(** The errors of the pallet that each call can report. *)
Definition call_errors (c : Call) : list Error :=
  match c with
  | Call_create_rosca _ _ _ _ _ _ _ _ _ =>
    [ContributionAmountMustBePositive; FrequencyMustBePositive; ArithmeticError; CantInviteSelf;
     ThresholdTooHigh; PositionTooLarge; StartByTimestampMustBeFuture]
  | Call_join_rosca _ _ =>
    [RoscaAlreadyActive; AlreadyJoined; NotInvited; RoscaNotFound; StartByTimestampMustBeFuture;
     PositionTooLarge; PositionAlreadyFilled; AllPositionsFilled]
  | Call_leave_rosca _ => [RoscaAlreadyActive; NotAParticipant; RoscaNotFound]
  | Call_start_rosca _ =>
    [RoscaAlreadyActive; NotAParticipant; RoscaNotFound; StartByTimestampMustBeFuture;
     ParticipantThresholdNotMet; ArithmeticOverflow]
  | Call_contribute_to_rosca _ =>
    [NotAParticipant; RoscaAlreadyCompleted; RoscaNotActive; CantContributeToSelf; AlreadyContributed]
  | Call_manually_end_rosca _ => [RoscaNotActive; FinalPayByTimestampMustBePast]
  | Call_claim_security_deposit _ _ =>
    [FinalPayByTimestampNotFound; FinalPayByTimestampMustBePast; RoscaStillActive;
     SecurityDepositNotFound; SecurityDepositIsZero]
  | Call_add_to_security_deposit _ _ => [NotAParticipant; RoscaAlreadyCompleted; ArithmeticOverflow]
  end.

(** The calls that transfer assets and so can pass on an error of the ledger. *)
Definition call_transfers (c : Call) : bool :=
  match c with
  | Call_create_rosca _ _ _ _ _ _ _ _ _ | Call_join_rosca _ _ | Call_start_rosca _ => false
  | _ => true
  end.

Definition reported (c : Call) (e : DispatchError) : Prop :=
  match e with
  | BadOrigin => True
  | ModuleError er => er ∈ call_errors c
  | Currency _ => call_transfers c = true
  end.

(** A run of the call [c], signed by some account, moves [r] by a step of the
    specification, with the transfers and events it prescribes. *)
Definition moves (o : Origin) (c : Call) r s s' : Prop :=
  ∃ a fx, o = Signed a ∧ rosca_step (Now s) a c (view r s) (view r s') fx ∧ performs fx s s'.

Ltac solve_reported := first [done | cbn; set_solver].
Ltac wp_signed a := wp_auto; apply wp_ensure_signed; [intros a -> | solve_reported].
Ltac wp_guard H := wp_auto; apply wp_ensure; [intros H | intros _; solve_reported].
Ltac wp_decide H := wp_guard H; apply bool_decide_eq_true in H.
Ltac wp_some x H := wp_auto; apply wp_ok_or; [intros x H | intros _; solve_reported].

Lemma currency_reported c e : call_transfers c = true → currency_error e → reported c e.
Proof. by intros Hc [te ->]. Qed.

Ltac wp_currency :=
  refine (wp_mono _ _ _ _ currency_error _ _ _ _);
  [| intros ? ?; exact (λ h, h) | by intros ?; apply currency_reported].

(** The view that the storage writes of a call have produced. *)
Ltac solve_view :=
  unfold view, join_view, membership_view, start_view, complete_view, deposit_view, settle_view;
  cbn; by autorewrite with storage.
Ltac move_to v :=
  match goal with
  | |- context [rosca_step _ _ _ _ ?w _] => replace w with v; [| solve_view]
  end.

(** The phases in which a ROSCA has started and is not complete. *)
Lemma active_running s r d :
  Inv s → active_roscas r s = Some d →
  ∃ l k t, running d l k t (view r s) ∧ (k < length l)%nat ∧
           announced (Events s) r l t (contribution_frequency d).
Proof.
  intros HI Ha. change (v_active (view r s) = Some d) in Ha.
  destruct (Inv_rosca _ HI r) as [Hv|d' o []|d' l k t Hrun Hk Hann|l []]; try congruence.
  - by rewrite Hv in Ha.
  - rewrite (running_active _ _ _ _ _ Hrun) in Ha. simplify_eq. eauto 6.
Qed.

Lemma pending_phase s r d :
  Inv s → rosca_details r s = Some d → ∃ o, pending_ok d o (view r s).
Proof.
  intros HI Ha. change (v_pending (view r s) = Some d) in Ha.
  destruct (Inv_rosca _ HI r) as [Hv|d' o Hp|d' l k t []|l []]; try congruence.
  - by rewrite Hv in Ha.
  - pose proof (pending_pending _ _ _ Hp). assert (d' = d) as -> by congruence. eauto.
Qed.

Lemma running_fuel d l k t v : running d l k t v → (length l - k ≤ loop_fuel)%nat.
Proof.
  intros []. pose proof (details_number _ running_details). unfold loop_fuel, len in *. lia.
Qed.

Lemma contribute_to_rosca_moves o r s :
  Inv s → wp (contribute_to_rosca o r) s (λ _, moves o (Call_contribute_to_rosca r) r s) (reported (Call_contribute_to_rosca r)).
Proof.
  intros HI. unfold contribute_to_rosca. wp_signed a. wp_decide Hmem. wp_decide Hcomp. wp_some d Hact.
  destruct (active_running _ _ _ HI Hact) as (l & k & t & Hrun & Hk & Hann).
  destruct (running_claimant_Some _ _ _ _ _ Hrun) as (c & Hlc & Hc & Hin).
  pose proof (running_order _ _ _ _ _ Hrun) as Ho. rewrite Nat.mod_small in Hlc, Ho by done.
  apply (running_participants _ _ _ _ _ Hrun) in Hmem.
  wp_read Hc. wp_decide Hca. wp_decide Hnone.
  wp_read (running_final _ _ _ _ _ Hrun). wp_read (running_next _ _ _ _ _ Hrun). wp_read Ho. wp_auto.
  assert (2 ≤ length l)%nat as H2.
  { destruct l as [|x [|y l]]; cbn; [by apply elem_of_nil in Hin | | lia]. set_solver. }
  wp_currency. eapply wp_catch_up; [done | done | by eapply running_fuel | done | |].
  - intros k' c' s' Hrun' Hk' Hc' Hlt Hge (ts & Hm & Hts) Hfr. wp_currency.
    refine (wp_mono _ _ _ _ _ _ _ (λ _ _ h, h) (refused_currency _ _ _ _ _)).
    eapply wp_settle_contribution; [done..| |].
    { destruct (missed_contributors _ _ _ _ _ _ _ _ _ Hm) as [[_ ->]|[_ ->]]; [done | by rewrite lookup_empty]. }
    intros s2 Htr HP Hcon Hfr2. eexists a, _. split_and!; [done | eapply step_contribute; try done; congruence |].
    by eapply performs_app.
  - intros v s' Hrun' (ts & Hm & Hts) Ht Hv Hfr. apply wp_ret. eexists a, _. rewrite Hv.
    split_and!; [done | by eapply step_expire | done].
Qed.

(** A participant who is not the claimant and has not contributed passes the checks. *)
Lemma wp_contribute_guards a d l k t c r s (Q : unit → State → Prop) E :
  running d l k t (view r s) → (k < length l)%nat → a ∈ l → l !! k = Some c → c ≠ a →
  v_contributors (view r s) !! a = None →
  wp (caught_up ← catch_up loop_fuel r (Now s) (t + contribution_frequency d * (Z.of_nat k + 1)) (ring_order l k) c;
      match caught_up with
      | None => mret tt
      | Some (next, order, claimant) =>
        settle_contribution a r d (t + contribution_frequency d * len l) next order claimant
      end) s Q E →
  wp (contribute_to_rosca (Signed a) r) s Q E.
Proof.
  intros Hrun Hk Hin Hc Hca Hnone HQ. unfold contribute_to_rosca. wp_auto. apply wp_ret. wp_auto.
  apply wp_ensure_true; [by apply bool_decide_eq_true, (running_participants _ _ _ _ _ Hrun)|].
  wp_auto. apply wp_ensure_true; [apply bool_decide_eq_true, (running_completed _ _ _ _ _ Hrun)|].
  assert (v_claimant (view r s) = Some c) as Hcl
    by (by rewrite (running_claimant _ _ _ _ _ Hrun), Nat.mod_small).
  assert (v_order (view r s) = Some (ring_order l k)) as Ho
    by (by rewrite (running_order _ _ _ _ _ Hrun), Nat.mod_small).
  wp_read (running_active _ _ _ _ _ Hrun). wp_read Hcl.
  wp_auto. apply wp_ensure_true; [by apply bool_decide_eq_true|].
  wp_auto. apply wp_ensure_true; [by apply bool_decide_eq_true|].
  wp_read (running_final _ _ _ _ _ Hrun). wp_read (running_next _ _ _ _ _ Hrun). wp_read Ho. exact HQ.
Qed.

(** There are two participants at least when one of them is not the claimant. *)
Lemma two_participants l k (a c : AccountId) : a ∈ l → l !! k = Some c → c ≠ a → (2 ≤ length l)%nat.
Proof.
  intros Hin Hc Hca. destruct l as [|x [|y l]]; cbn; [by apply elem_of_nil in Hin | | lia].
  apply list_elem_of_singleton in Hin as ->. destruct k as [|[]]; naive_solver.
Qed.

(** A contribution before the pay-by time of the round. *)
Lemma wp_contribute_on_time a d l k t c r s (Q : unit → State → Prop) :
  running d l k t (view r s) → (k < length l)%nat → a ∈ l → l !! k = Some c → c ≠ a →
  v_contributors (view r s) !! a = None → Now s < t + contribution_frequency d * (Z.of_nat k + 1) →
  (∀ s', asset_transfer (PaymentAssets_id (payment_asset d)) a c (contribution_amount d) (Ledger s)
       = inl (Ledger s') → performs (contribution d r l t k a c (view r s)) s s' →
     contributed d l k t a (view r s) (view r s') → Q tt s') →
  wp (contribute_to_rosca (Signed a) r) s Q
    (refused (PaymentAssets_id (payment_asset d)) a c (contribution_amount d) (Ledger s)).
Proof.
  intros Hrun Hk Hin Hc Hca Hnone Hnow HQ. eapply wp_contribute_guards; [done..|]. wp_auto.
  unfold loop_fuel. cbn [catch_up]. rewrite (proj2 (Z.leb_gt _ _)) by lia. apply wp_ret.
  eapply wp_settle_contribution; [done | done | exact (two_participants _ _ _ _ Hin Hc Hca) | done..|].
  intros s' Htr HP Hcon _. by apply HQ.
Qed.

(** A contribution before the final pay-by time: the missed rounds are settled first, and
    then it goes to whoever is the claimant by now. *)
Lemma wp_contribute_caught_up a d l k t c r s (Q : unit → State → Prop) :
  running d l k t (view r s) → (k < length l)%nat → a ∈ l → l !! k = Some c → c ≠ a →
  v_contributors (view r s) !! a = None → Now s < t + contribution_frequency d * len l →
  (∀ k' c' fx v s', missed r d l t k (view r s) k' v fx → running d l k' t v → (k' < length l)%nat →
     l !! k' = Some c' → Now s < t + contribution_frequency d * (Z.of_nat k' + 1) →
     ((k < k')%nat → t + contribution_frequency d * Z.of_nat k' ≤ Now s) →
     performs (fx ++ contribution d r l t k' a c' v) s s' → contributed d l k' t a v (view r s') → Q tt s') →
  wp (contribute_to_rosca (Signed a) r) s Q currency_error.
Proof.
  intros Hrun Hk Hin Hc Hca Hnone Hnow HQ. eapply wp_contribute_guards; [done..|]. wp_auto.
  eapply wp_catch_up; [done | done | by eapply running_fuel | done | | lia].
  intros k' c' s1 Hrun' Hk' Hc' Hlt Hge (fx & Hm & Hfx) _.
  refine (wp_mono _ _ _ _ _ _ _ (λ _ _ h, h) (refused_currency _ _ _ _ _)).
  eapply wp_settle_contribution; [done | done | exact (two_participants _ _ _ _ Hin Hc Hca) | done | |].
  { destruct (missed_contributors _ _ _ _ _ _ _ _ _ Hm) as [[_ ->]|[_ ->]]; [done | by rewrite lookup_empty]. }
  intros s' Htr HP Hcon _. eapply HQ; eauto. by eapply performs_app.
Qed.

(** The participant whose turn comes next, before the last round. *)
Lemma next_claimant d l k t p a next final r s :
  running d l k t (view r s) → (k < length l)%nat → active_rosca_participants_order r s = Some (p ++ [a]) →
  next_pay_by_timestamp r s = Some next → final_pay_by_timestamp r s = Some final → next < final →
  p ≠ [] →
  length l = S (length p) ∧ next = t + contribution_frequency d * (Z.of_nat k + 1) ∧
  final = t + contribution_frequency d * len l ∧ (S k < length l)%nat ∧ l !! S k = Some a ∧
  ∃ c, l !! k = Some c ∧ c ≠ a.
Proof.
  intros Hrun Hk Ho Hn Hf Hlt Hp.
  pose proof (running_order _ _ _ _ _ Hrun) as Ho'. rewrite Nat.mod_small in Ho' by done.
  change (v_order (view r s)) with (active_rosca_participants_order r s) in Ho'.
  pose proof (running_next _ _ _ _ _ Hrun) as Hn'. change (v_next (view r s)) with (next_pay_by_timestamp r s) in Hn'.
  pose proof (running_final _ _ _ _ _ Hrun) as Hf'. change (v_final (view r s)) with (final_pay_by_timestamp r s) in Hf'.
  rewrite Ho in Ho'. rewrite Hn in Hn'. rewrite Hf in Hf'. injection Ho' as Ho'. injection Hn' as ->. injection Hf' as ->.
  assert (0 < contribution_frequency d) as Hfr by (apply details_frequency, Hrun).
  assert (S k < length l)%nat as HSk by (unfold len in Hlt; nia).
  destruct (ring_order_next l k Hk) as (x & o & Hx & Hox & _). rewrite Nat.mod_small in Hx by done.
  rewrite Hox in Ho'. apply app_inj_tail in Ho' as [-> ->].
  assert (length l = S (length o)) as Hlen by (rewrite <- (length_ring_order l k), Hox, length_app; cbn; lia).
  destruct (lookup_lt_is_Some_2 l k Hk) as [c Hc]. split_and!; [done..|]. exists c. split; [done|]. intros ->.
  pose proof (NoDup_lookup _ _ _ _ (running_NoDup _ _ _ _ _ Hrun) Hc Hx). lia.
Qed.

(** An active ROSCA whose final pay-by time has passed can be ended: only the ledger
    can refuse. *)
Lemma wp_manually_end_rosca a d l k t r s (Q : unit → State → Prop) :
  running d l k t (view r s) → t + contribution_frequency d * len l < Now s →
  (∀ v s' ts, missed r d l t k (view r s) (length l) v ts → running d l (length l) t v →
     view r s' = complete_view v → performs (ts ++ [Emitted (RoscaComplete r)]) s s' → Q tt s') →
  wp (manually_end_rosca (Signed a) r) s Q currency_error.
Proof.
  intros Hrun Hlate HQ. unfold manually_end_rosca. wp_auto. apply wp_ret.
  wp_read (running_active _ _ _ _ _ Hrun). wp_read (running_final _ _ _ _ _ Hrun).
  wp_auto. apply wp_ensure_true; [lia|]. wp_auto.
  eapply wp_process_remaining_rounds; [done | by eapply running_fuel |].
  intros s' Hrun' (ts & Hm & Hts) Hfr. wp_read (running_next _ _ _ _ _ Hrun').
  pose proof (running_bound _ _ _ _ _ Hrun') as Hb.
  wp_auto. apply (wp_ok_or_Some _ (t + contribution_frequency d * (len l + 1))).
  { apply checked_add_Some. split; [ring | lia]. }
  wp_auto. apply wp_ensure_true; [unfold len; lia|]. wp_auto. eapply HQ; [done | done | solve_view |].
  eapply performs_app; [done | solve_performs].
Qed.

Lemma manually_end_rosca_moves o r s :
  Inv s → wp (manually_end_rosca o r) s (λ _, moves o (Call_manually_end_rosca r) r s) (reported (Call_manually_end_rosca r)).
Proof.
  intros HI. destruct o as [a| |]; [|done..].
  destruct (active_roscas r s) as [d|] eqn:Hact.
  2: { unfold manually_end_rosca. wp_auto. apply wp_ret. wp_auto. rewrite Hact. solve_reported. }
  destruct (active_running _ _ _ HI Hact) as (l & k & t & Hrun & Hk & Hann).
  destruct (decide (t + contribution_frequency d * len l < Now s)) as [Hlate|Hearly].
  - wp_currency. eapply wp_manually_end_rosca; [done..|]. intros v s' ts Hm Hr Hv Hts.
    eexists a, _. rewrite Hv. split_and!; [done | by eapply step_end | done].
  - unfold manually_end_rosca. wp_auto. apply wp_ret. wp_read Hact. wp_read (running_final _ _ _ _ _ Hrun).
    wp_guard Hlate. lia.
Qed.

(** The position a participant asks for is free, or the first free one is taken. *)
Lemma first_none_spec o n : first_none o = Some n → o !! n = Some None.
Proof.
  revert n. induction o as [|[a|] o IH]; intros n; cbn; [done | | by intros [= <-]].
  intros (m & Hm & ->)%fmap_Some. cbn. auto.
Qed.

Lemma join_rosca_moves o r p s :
  Inv s → in_width u32_MAX (default 0 p) →
  wp (join_rosca o r p) s (λ _, moves o (Call_join_rosca r p) r s) (reported (Call_join_rosca r p)).
Proof.
  intros HI Hp. unfold join_rosca. wp_signed a. wp_decide Hact. wp_decide Hnew. wp_decide Hinv.
  wp_some d Hpend. destruct (pending_phase _ _ _ HI Hpend) as (slots & Hok).
  wp_guard Hnow. wp_read (pending_slots _ _ _ Hok). wp_auto.
  pose proof (details_number _ (pending_details _ _ _ Hok)) as Hn.
  pose proof (pending_length _ _ _ Hok) as Hlen. pose proof MaxParticipants_u32 as [_ Hu].
  pose proof (length_omap_id slots) as Hfill. unfold len in Hlen.
  refine (wp_mono _ _ (λ x s', s' = s ∧ 0 ≤ x.2 ∧ slots !! Z.to_nat x.2 = Some None ∧
    (p = Some x.2 ∨ p = None ∧ first_none slots = Some (Z.to_nat x.2)) ∧
    x.1 = <[Z.to_nat x.2 := Some a]> slots) _ (reported (Call_join_rosca r p)) _ _ _ _); [| | done].
  { destruct p as [i|]; cbn in Hp.
    - wp_some x Hx. wp_decide Hfree. subst x. wp_auto. split_and!; [done | apply Hp | done | by left | done].
    - wp_some n Hfirst. pose proof (first_none_spec _ _ Hfirst) as Hfree.
      pose proof (lookup_lt_Some _ _ _ Hfree).
      wp_auto. apply wp_vec_set; [unfold len; lia|]. wp_auto. cbn.
      unfold in_width, u32_MAX in *. rewrite Z.mod_small, Nat2Z.id by lia.
      split_and!; [done | lia | done | by right | done]. }
  intros [o' i] s' (-> & Hi & Hfree & Hpos & Ho'). cbn in Hi, Hfree, Hpos, Ho'. subst o'. wp_read (pending_count _ _ _ Hok). wp_auto.
  pose proof (length_omap_insert _ _ _ (Some a) Hfree) as Hc. cbn in Hc.
  pose proof (length_omap_id (<[Z.to_nat i := Some a]> slots)) as Hc'. rewrite length_insert in Hc'.
  apply (wp_ok_or_Some _ (len (omap id slots) + 1)).
  { apply checked_add_in. unfold len. lia. }
  wp_auto. eexists a, _. move_to (join_view a i slots (view r s)).
  split_and!; [done | eapply step_join; try done; lia | solve_performs].
Qed.

(** A participant can leave a pending ROSCA; only paying out a deposit can fail. *)
Lemma wp_leave_rosca a d o i r s (Q : unit → State → Prop) (E : DispatchError → Prop) :
  pending_ok d o (view r s) → v_participants (view r s) !! a = Some i →
  (∀ s', view r s' = leave_view a i o (view r s) →
     performs (refund d r a (view r s) ++ [Emitted (LeftRosca r a)]) s s' → Q tt s') →
  (0 < default 0 (v_deposits (view r s) !! a) → ∀ e, currency_error e → E e) →
  wp (leave_rosca (Signed a) r) s Q E.
Proof.
  intros Hok Hi HQ HE. unfold leave_rosca. wp_auto. apply wp_ret. wp_auto.
  apply wp_ensure_true; [apply bool_decide_eq_true, (pending_active _ _ _ Hok)|].
  wp_read Hi. wp_read (pending_pending _ _ _ Hok). wp_read (pending_slots _ _ _ Hok). wp_auto.
  destruct (pending_slot _ _ _ _ _ Hok Hi) as [Hrange Hslot]. apply wp_vec_set; [done|].
  wp_read (pending_count _ _ _ Hok). wp_auto.
  pose proof (length_omap_insert _ _ _ None Hslot) as Hc. cbn in Hc.
  apply (wp_ok_or_Some _ (len (omap id o) - 1)).
  { apply checked_sub_in. unfold len. lia. }
  wp_auto. match goal with |- wp (if 0 <? ?x then _ else _) _ _ _ =>
    change x with (default 0 (v_deposits (view r s) !! a)) end.
  destruct (0 <? _) eqn:H0.
  - wp_auto. apply wp_transfer; [intros ledger Htr | intros e _; apply HE; [lia | by exists e]].
    wp_auto. apply HQ; [unfold leave_view; rewrite H0; solve_view|].
    unfold refund. rewrite H0. solve_performs.
  - wp_auto. apply HQ; [unfold leave_view; rewrite H0; solve_view|]. unfold refund. rewrite H0. solve_performs.
Qed.

Lemma leave_rosca_moves o r s :
  Inv s → wp (leave_rosca o r) s (λ _, moves o (Call_leave_rosca r) r s) (reported (Call_leave_rosca r)).
Proof.
  intros HI. destruct o as [a| |]; [|done..].
  destruct (participants r a s) as [i|] eqn:Hi.
  2: { unfold leave_rosca. wp_auto. apply wp_ret. wp_decide Hact. wp_auto. rewrite Hi. solve_reported. }
  destruct (rosca_details r s) as [d|] eqn:Hpend.
  - destruct (pending_phase _ _ _ HI Hpend) as (slots & Hok).
    eapply wp_leave_rosca; [done..| |by intros _ e; apply currency_reported].
    intros s' Hv Hts. eexists a, _. rewrite Hv. split_and!; [done | by eapply step_leave | done].
  - unfold leave_rosca. wp_auto. apply wp_ret. wp_decide Hact. wp_read Hi. wp_auto.
    rewrite Hpend. solve_reported.
Qed.

(** The order of the claimants that [start_rosca] settles on. *)
Definition start_order d (o : list (option AccountId)) s : list AccountId :=
  reverse (if random_order d then shuffled (shuffle_byte s) (omap id (reverse o)) else omap id (reverse o)).

Lemma omap_id_reverse (o : list (option AccountId)) : omap id (reverse o) = reverse (omap id o).
Proof.
  induction o as [|x o IH]; [done|]. rewrite reverse_cons, omap_app, IH.
  destruct x as [a|]; cbn; [by rewrite <- reverse_cons | by rewrite app_nil_r].
Qed.

Lemma start_order_Permutation d o s : start_order d o s ≡ₚ omap id o.
Proof.
  unfold start_order. rewrite reverse_Permutation, omap_id_reverse.
  destruct (random_order d); rewrite ?shuffled_Permutation; apply reverse_Permutation.
Qed.

Lemma start_order_slots d o s : random_order d = false → start_order d o s = omap id o.
Proof. intros Hr. unfold start_order. by rewrite Hr, omap_id_reverse, reverse_involutive. Qed.

(** The order that is rotated into place: its last participant is paid first. *)
Lemma start_order_last d o v s a i :
  pending_ok d o v → v_participants v !! a = Some i →
  ∃ p x, reverse (p ++ [x]) = start_order d o s ∧ NoDup (p ++ [x]) ∧
    len (p ++ [x]) = len (omap id o) ∧ len (start_order d o s) = len (omap id o) ∧
    1 ≤ len (omap id o) ≤ number_of_participants d ∧
    ring_order (start_order d o s) 0 = x :: p ∧ start_order d o s !! 0%nat = Some x.
Proof.
  intros Hok Hi. pose proof (start_order_Permutation d o s) as Hperm.
  pose proof (Permutation_length Hperm) as Hol. destruct (pending_slot _ _ _ _ _ Hok Hi) as [_ Hslot].
  assert (a ∈ start_order d o s) as Hin by (rewrite Hperm; apply elem_of_omap_id; eauto).
  assert (∃ p x, reverse (p ++ [x]) = start_order d o s) as (p & x & Hp).
  { destruct (start_order d o s) as [|x l]; [by apply elem_of_nil in Hin|].
    exists (reverse l), x. by rewrite reverse_snoc, reverse_involutive. }
  pose proof (length_omap_id o) as Hfill. pose proof (pending_length _ _ _ Hok) as Hlen.
  assert (length (start_order d o s) = S (length p)) as Hlp
    by (rewrite <- Hp, length_reverse, length_app; cbn; lia).
  destruct (ring_order_first _ _ _ (eq_refl (p ++ [x]))) as [Hring Hfirst]. rewrite Hp in Hring, Hfirst.
  exists p, x. unfold len in *. rewrite length_app. cbn [length]. split_and!; try done; try lia.
  rewrite <- reverse_Permutation, Hp, Hperm. apply NoDup_omap_id. intros j1 j2 b. by apply (pending_distinct d o v).
Qed.

(** The new ROSCA and its announcement. *)
Definition starts (a : AccountId) d l r s s' : Prop :=
  view r s' = start_view d l (Now s) (view r s) ∧
  ∃ c, l !! 0%nat = Some c ∧
    Events s' = Events s ++ [RoscaStarted r a (schedule l (Now s) (contribution_frequency d)) c
                               (Now s + contribution_frequency d)].

Lemma wp_start_rosca o r s :
  Inv s →
  wp (start_rosca o r) s
    (λ _ s', ∃ a d slots, o = Signed a ∧ pending_ok d slots (view r s) ∧
       starts a d (start_order d slots s) r s s' ∧
       moves o (Call_start_rosca r) r s s')
    (reported (Call_start_rosca r)).
Proof.
  intros HI. unfold start_rosca. wp_signed a. wp_decide Hact. wp_some i Hi.
  wp_some d Hpend. destruct (pending_phase _ _ _ HI Hpend) as (slots & Hok).
  destruct (start_order_last _ _ _ s _ _ Hok Hi) as (p & x & Hp & Hnd & Hlp & Hlo & Hle & Hring & Hfirst).
  pose proof (pending_details _ _ _ Hok) as [_ Hfreq Hnum Hinv].
  pose proof (Inv_now _ HI) as [Hnow0 _]. pose proof MaxParticipants_u32 as [_ Hu].
  wp_read (pending_slots _ _ _ Hok). wp_guard Hnow. wp_read (pending_count _ _ _ Hok). wp_guard Hthr. wp_auto.
  apply (wp_ok_or_Some _ (omap id (reverse slots))).
  { unfold bounded_try_from, len in *. rewrite omap_id_reverse, length_reverse.
    by rewrite (proj2 (Z.leb_le _ _)) by lia. }
  wp_auto. refine (wp_mono _ _ (λ q s', s' = s ∧ q = p ++ [x]) _ (λ _, False) _ _ _ _); [| |done].
  { unfold start_order in Hp. destruct (random_order d); [apply wp_shuffle_participants | apply wp_ret];
      (split; [done|]); by apply (inj reverse) in Hp. }
  intros q s' [-> ->]. wp_auto. apply wp_generate_rounds; [done | lia..| |solve_reported].
  rewrite Hp. intros Hb. rewrite Hlp in Hb. wp_auto. rewrite usize_sub_last by lia.
  apply (wp_vec_get _ _ x); [unfold len; lia | apply lookup_last |].
  wp_auto. apply (wp_ok_or_Some _ _ _ _ _ _ (rotate_last p x)).
  wp_auto. apply (wp_ok_or_Some _ (Now s + contribution_frequency d)); [apply checked_add_in; nia|].
  wp_auto. apply wp_add_frequency; [lia | | nia | nia]. rewrite Z2Nat.id by lia.
  replace (Now s + contribution_frequency d + contribution_frequency d * (len (omap id slots) - 1))
    with (Now s + contribution_frequency d * len (omap id slots)) by ring.
  intros _. wp_auto. exists a, d, slots.
  match goal with |- context [starts _ _ _ _ _ ?s'] =>
    assert (view r s' = start_view d (start_order d slots s) (Now s) (view r s)) as Hv end.
  { unfold start_view. rewrite Hring, Hfirst, Hlo. solve_view. }
  split_and!; [done | done | split; [exact Hv | by exists x] |].
  eexists a, _. rewrite Hv. clear Hv. split_and!; [done | |].
  - eapply step_start; [done | | | rewrite Hlo | | | | rewrite Hlo | exact Hfirst];
      eauto using start_order_Permutation, start_order_slots; lia.
  - solve_performs.
Qed.

(** A positive deposit in a completed ROSCA is paid out after the final pay-by time:
    only the ledger can refuse. *)
Lemma wp_claim_security_deposit a r asset x t s (Q : unit → State → Prop) :
  completed_roscas r s = Some tt → final_pay_by_timestamp r s = Some t → t < Now s →
  security_deposit r a s = Some x → 0 < x →
  (∀ ledger, asset_transfer (PaymentAssets_id asset) (rosca_account_id r) a x (Ledger s) = inl ledger →
     Q tt (set_Events (Events s ++ [SecurityDepositClaimed r a x])
             (set_RoscaSecurityDeposits (dremove r a (RoscaSecurityDeposits s)) (set_Ledger ledger s)))) →
  wp (claim_security_deposit (Signed a) r asset) s Q
    (λ e, ∃ e', e = Currency e' ∧
       asset_transfer (PaymentAssets_id asset) (rosca_account_id r) a x (Ledger s) = inr e').
Proof.
  intros Hc Hf Ht Hx H0 HQ. unfold claim_security_deposit. wp_auto. apply wp_ret. wp_read Hf. wp_auto.
  apply wp_ensure_true; [lia|]. wp_auto. apply wp_ensure_true.
  { rewrite (bool_decide_eq_true_2 (is_Some (completed_roscas r s))) by (by rewrite Hc). apply orb_true_r. }
  wp_read Hx. wp_auto. apply wp_ensure_true; [lia|].
  wp_auto. apply wp_transfer; [intros ledger Htr | by intros e He; exists e].
  wp_auto. by apply HQ.
Qed.

Lemma claim_security_deposit_moves o r asset s :
  Inv s → wp (claim_security_deposit o r asset) s (λ _, moves o (Call_claim_security_deposit r asset) r s)
            (reported (Call_claim_security_deposit r asset)).
Proof.
  intros HI. unfold claim_security_deposit. wp_signed a. wp_some t Hfinal. wp_guard Ht. wp_guard Hphase.
  wp_some x Hx. wp_guard H0. wp_auto. apply wp_transfer; [intros ledger Htr | done].
  wp_auto. eexists a, _. move_to (deposit_view (delete a (v_deposits (view r s))) (view r s)).
  change (v_final (view r s) = Some t) in Hfinal.
  assert (∃ l, completed_ok l (view r s)) as [l Hc].
  { change (rosca_details r s) with (v_pending (view r s)) in Hphase.
    change (completed_roscas r s) with (v_completed (view r s)) in Hphase.
    destruct (Inv_rosca _ HI r) as [Hv|d' o []|d' l k t' [] Hk Hann|l Hc]; [..|by exists l].
    - by rewrite Hv in Hfinal.
    - congruence.
    - by rewrite running_completed, running_pending in Hphase. }
  split_and!; [done | eapply step_claim; try done; lia | solve_performs].
Qed.

Lemma add_to_security_deposit_moves o r amount s :
  Inv s → in_width u32_MAX amount →
  wp (add_to_security_deposit o r amount) s (λ _, moves o (Call_add_to_security_deposit r amount) r s)
    (reported (Call_add_to_security_deposit r amount)).
Proof.
  intros HI Hamt. unfold add_to_security_deposit. wp_signed a. wp_decide Hmem. wp_decide Hcomp. wp_auto.
  apply wp_ok_or.
  2: { change (active_roscas r s) with (v_active (view r s)). change (rosca_details r s) with (v_pending (view r s)).
       change (completed_roscas r s) with (v_completed (view r s)) in Hcomp.
       change (participants r a s) with (v_participants (view r s) !! a) in Hmem.
       destruct (Inv_rosca _ HI r) as [Hv|d' o []|d' l k t' [] Hk Hann|l []]; try congruence.
       - rewrite Hv in Hmem. by destruct Hmem.
       - by rewrite pending_active, pending_pending.
       - by rewrite running_active. }
  intros d Hd. wp_auto. apply wp_transfer; [intros ledger Htr | done]. wp_some x Hx.
  apply checked_add_Some in Hx as [-> Hx]. wp_auto. eexists a, _.
  move_to (deposit_view (<[a := default 0 (v_deposits (view r s) !! a) + amount]> (v_deposits (view r s))) (view r s)).
  split_and!; [done | eapply step_add; [done | | done | apply Hamt | exact Hx] | solve_performs].
  change (active_roscas r s) with (v_active (view r s)) in Hd.
  destruct (v_active (view r s)); [by left | by right].
Qed.

(** * Creation *)

(** The parameters that [create_rosca] records. *)
Definition created (random : bool) (invited : list AccountId) (threshold amount : Z) (asset : PaymentAssets)
    (frequency start_by : Moment) (rosca_name : list Z) : RoscaDetails :=
  mkRoscaDetails random (len (dedup (merge_sort AccountId_le invited)) + 1) threshold amount asset
    frequency start_by rosca_name.

(** A new ROSCA with parameters [d], under the next identifier; nothing else
    changes. *)
Record creates (a : AccountId) d (i : Z) (l : list AccountId) s s' : Prop := {
  creates_next : NextRoscaId s' = NextRoscaId s + 1;
  creates_view : view (NextRoscaId s) s' = create_view d a i l;
  creates_others r : r ≠ NextRoscaId s → view r s' = view r s;
  creates_now : Now s' = Now s;
  creates_ledger : Ledger s' = Ledger s;
  creates_events : Events s' = Events s ++
    [RoscaCreated (NextRoscaId s) (contribution_amount d) (payment_asset d) (contribution_frequency d)
       (random_order d) (name d) (number_of_participants d) (minimum_participant_threshold d)
       (start_by_timestamp d) (a :: l) a];
}.

Lemma push_all bound l1 l2 :
  len l1 + len l2 ≤ bound → foldl (push_ignoring_error bound) l1 l2 = l1 ++ l2.
Proof.
  revert l1. induction l2 as [|x l2 IH]; intros l1 Hle; cbn [foldl]; [by rewrite app_nil_r|].
  unfold len in *. cbn in Hle.
  assert (push_ignoring_error bound l1 x = l1 ++ [x]) as ->.
  { unfold push_ignoring_error, try_push, len. by rewrite (proj2 (Z.ltb_lt _ _)) by lia. }
  rewrite IH, <- app_assoc; [done|]. rewrite length_app. cbn. lia.
Qed.

Lemma wp_create_rosca o random invited threshold amount asset frequency start_by position rosca_name s :
  let c := Call_create_rosca random invited threshold amount asset frequency start_by position rosca_name in
  let d := created random invited threshold amount asset frequency start_by rosca_name in
  Inv s → call_decodable c → NextRoscaId s < u32_MAX →
  default 0 position < number_of_participants d →
  wp (dispatch o c) s
    (λ _ s', ∃ a, o = Signed a ∧ details_ok d ∧ 
       creates a d (default 0 position) (dedup (merge_sort AccountId_le invited)) s s')
    (reported c).
Proof.
  intros c d HI (Hinv & Hthr & Hamt & Hfreq & Hstart & Hpos & Hname) Hnext Hposn.
  destruct (invited_spec invited) as (_ & _ & Hlen). cbn in Hposn.
  pose proof MaxParticipants_u32 as [_ Hu].
  cbn [dispatch c]. unfold create_rosca. wp_signed a. wp_guard Ha. wp_guard Hf. wp_guard Hmax. wp_guard Hself.
  wp_auto. apply (wp_ok_or_Some _ (number_of_participants d)).
  { apply checked_add_in. unfold len in *. lia. }
  wp_guard Hth. wp_guard Hp. wp_guard Hst. wp_auto.
  assert (1 ≤ number_of_participants d ≤ MaxInvitedParticipants + 1) as Hn by (cbn; unfold len in *; lia).
  apply wp_vec_set; [unfold len; rewrite length_replicate; cbn in *; unfold in_width in *; lia|].
  wp_auto. apply wp_for_each_modify. rewrite invite_loop. wp_auto.
  eapply wp_ok_or_Some.
  { unfold bounded_try_from, len. rewrite length_insert, length_replicate.
    by rewrite (proj2 (Z.leb_le _ _)) by lia. }
  wp_auto. exists a. split_and!; [done | split; cbn in Hn, Hth |- *; unfold in_width in *; lia |].
  pose proof (Inv_fresh _ HI (NextRoscaId s) (Z.le_refl _)) as Hempty.
  unfold in_width in *. pose proof (Inv_next _ HI) as [? _]. unfold next_rosca_id in *. split.
  - cbn. apply wrapping_add_in; lia.
  - injection Hempty as ? ? Eparts Einv. unfold view, create_view. cbn. autorewrite with storage.
    rewrite prefix_invite_eq. autorewrite with storage. rewrite Eparts, Einv. f_equal; assumption.
  - intros r Hr. unfold view. cbn. rewrite prefix_invite_ne by done. by autorewrite with storage.
  - done.
  - done.
  - pose proof (push_all MaxParticipants [] (a :: dedup (merge_sort AccountId_le invited))) as Hpush.
    cbn [foldl app] in Hpush. cbn. rewrite Hpush; [done|]. unfold len in *. cbn in *. lia.
Qed.

(** * The calls together *)

(** A call whose arguments can be decoded; to [create_rosca] the next identifier and
    the position are not too large. *)
Definition admissible s (c : Call) : Prop :=
  call_decodable c ∧
  match c with
  | Call_create_rosca _ invited _ _ _ _ _ position _ =>
    NextRoscaId s < u32_MAX ∧ default 0 position < len (dedup (merge_sort AccountId_le invited)) + 1
  | _ => True
  end.

(** The calls on an existing ROSCA. *)
Definition is_create (c : Call) : bool :=
  match c with Call_create_rosca _ _ _ _ _ _ _ _ _ => true | _ => false end.

Lemma dispatch_moves o c s :
  Inv s → call_decodable c → is_create c = false →
  wp (dispatch o c) s (λ _ s', moves o c (call_rosca (NextRoscaId s) c) s s') (reported c).
Proof.
  intros HI Hc Hn. destruct c as [| | | | | | |]; cbn in Hc |- *; try done.
  - apply join_rosca_moves; [done | apply Hc].
  - by apply leave_rosca_moves.
  - eapply wp_mono; [by apply wp_start_rosca | | done]. by intros ? s' (a & d & slots & ? & ? & ? & ?).
  - by apply contribute_to_rosca_moves.
  - by apply manually_end_rosca_moves.
  - by apply claim_security_deposit_moves.
  - apply add_to_security_deposit_moves; [done | apply Hc].
Qed.

Lemma dispatch_frame o c s s' :
  is_create c = false → dispatch o c s = Ok (tt, s') → frame (call_rosca (NextRoscaId s) c) s s'.
Proof. intros Hc. apply dispatch_frame_named. by destruct c. Qed.

(** A start is announced. *)
Lemma dispatch_announces o c s s' d l :
  Inv s → call_decodable c → is_create c = false → dispatch o c s = Ok (tt, s') →
  let r := call_rosca (NextRoscaId s) c in
  v_active (view r s) = None → view r s' = start_view d l (Now s) (view r s) →
  announced (Events s') r l (Now s) (contribution_frequency d).
Proof.
  intros HI Hd Hc Hrun r Ha Hv.
  destruct (wp_Ok _ _ _ _ _ _ (dispatch_moves o c s HI Hd Hc) Hrun) as (a & ts & _ & Hstep & _).
  destruct (rosca_step_start _ _ _ _ _ _ _ _ Hstep Hv Ha) as [r' ->]. cbn in r, Hrun.
  destruct (wp_Ok _ _ _ _ _ _ (wp_start_rosca o r' s HI) Hrun)
    as (a' & d' & slots & _ & _ & [Hv' (x & _ & He)] & _).
  subst r. rewrite Hv' in Hv. apply start_view_inj in Hv as [-> <-].
  exists a', x, (Now s + contribution_frequency d). rewrite He. set_solver.
Qed.

Lemma Inv_dispatch o c s s' :
  Inv s → admissible s c → dispatch o c s = Ok (tt, s') → Inv s'.
Proof.
  intros HI [Hd Hadm] Hrun. destruct (is_create c) eqn:Hc.
  - destruct c as [random invited threshold amount asset frequency start_by position rosca_name| | | | | | |];
      try done. destruct Hadm as [Hn Hp].
    destruct (wp_Ok _ _ _ _ _ _ (wp_create_rosca o _ _ _ _ _ _ _ _ _ s HI Hd Hn Hp) Hrun)
      as (a & -> & Hok & [En Ev Eo Enow _ Ee]).
    destruct HI as [Hn' Hnow Hf Hr]. destruct Hd as (_ & _ & _ & _ & _ & [Hp0 _] & _).
    split; rewrite ?En, ?Enow; [unfold in_width in *; lia | done | |].
    + intros r Hle. rewrite Eo by lia. apply Hf. lia.
    + intros r. destruct (decide (r = NextRoscaId s)) as [->|Hne].
      * rewrite Ev. eapply rosca_pending, create_pending; [done|]. split; [exact Hp0 | exact Hp].
      * rewrite Eo by done. eapply rosca_ok_mono; [|done]. rewrite Ee. by apply prefix_app_r.
  - pose proof (dispatch_frame _ _ _ _ Hc Hrun) as Hfr.
    destruct (wp_Ok _ _ _ _ _ _ (dispatch_moves o c s HI Hd Hc) Hrun) as (a & ts & _ & Hstep & _).
    destruct (rosca_step_ok _ _ _ (Events s') (call_rosca (NextRoscaId s) c) _ _ _
      (rosca_ok_mono _ _ _ _ (frame_events _ _ _ Hfr) (Inv_rosca _ HI _)) Hstep) as [Hlive Hok].
    + intros d l k t Hrun'. eapply announced_mono; [by destruct Hfr|].
      destruct (active_running _ _ _ HI (running_active _ _ _ _ _ Hrun')) as (l' & k' & t' & Hr & _ & Hann).
      by destruct (running_unique _ _ _ _ _ _ _ _ _ Hrun' Hr) as (_ & -> & _ & ->).
    + intros d l Ha Hv. by eapply dispatch_announces.
    + by eapply Inv_frame.
Qed.

(** * Executions

    What happens around the calls: time passes, blocks are produced, and the other
    pallets move assets.  The storage of this pallet stays as it is. *)
Record environment s s' : Prop := {
  environment_view r : view r s' = view r s;
  environment_next : NextRoscaId s' = NextRoscaId s;
  environment_now : Now s ≤ Now s' ≤ u64_MAX;
  environment_events : Events s' = Events s;
}.

Inductive chain_step s s' : Prop :=
  | chain_call o c : admissible s c → dispatch o c s = Ok (tt, s') → chain_step s s'
  | chain_environment : environment s s' → chain_step s s'.

(** A chain on which no ROSCA was ever created. *)
Record chain_genesis s : Prop := {
  genesis_view r : view r s = empty_view;
  genesis_next : NextRoscaId s = 0;
  genesis_now : in_width u64_MAX (Now s);
}.

Definition reachable s : Prop := ∃ s0, chain_genesis s0 ∧ rtc chain_step s0 s.

Lemma Inv_genesis s : chain_genesis s → Inv s.
Proof.
  intros [Hv Hn Hnow]. split; [by rewrite Hn | done | done |].
  intros r. rewrite Hv. by apply rosca_fresh.
Qed.

Lemma Inv_chain_step s s' : Inv s → chain_step s s' → Inv s'.
Proof.
  intros HI [o c Hadm Hrun|[Hv Hn Hnow He]]; [by eapply Inv_dispatch|].
  destruct HI as [Hn' Hnow' Hf Hr]. unfold in_width in *.
  split; [by rewrite Hn | unfold in_width; lia | |].
  - intros r. rewrite Hv, Hn. apply Hf.
  - intros r. rewrite Hv, He. apply Hr.
Qed.

Lemma Inv_reachable s : reachable s → Inv s.
Proof.
  intros (s0 & H0 & Hs). apply Inv_genesis in H0. induction Hs; eauto using Inv_chain_step.
Qed.

(** No call panics or loops in a state that satisfies the invariant. *)
Lemma dispatch_reported o c s :
  Inv s → admissible s c → wp (dispatch o c) s (λ _, Inv) (reported c).
Proof.
  intros HI Hadm.
  enough (wp (dispatch o c) s (λ _ _, True) (reported c)) as Hwp.
  { unfold wp in *. destruct (dispatch o c s) as [[[] s']| | |] eqn:Hrun; try done.
    by eapply Inv_dispatch. }
  destruct Hadm as [Hd Ha]. destruct (is_create c) eqn:Hc.
  - destruct c; try done. destruct Ha. eapply wp_mono; [|done|done]. by apply wp_create_rosca.
  - eapply wp_mono; [|done|done]. by apply dispatch_moves.
Qed.

(** * Completed ROSCAs *)

Lemma completed_phase s r : Inv s → completed_roscas r s = Some tt → ∃ l, completed_ok l (view r s).
Proof.
  intros HI Hc. change (v_completed (view r s) = Some tt) in Hc.
  destruct (Inv_rosca _ HI r) as [Hv|d o []|d l k t []|l Hok]; try congruence; eauto.
  by rewrite Hv in Hc.
Qed.

(** Only the deposits of a completed ROSCA change, and they only go. *)
Lemma completed_chain_step l r s s' :
  Inv s → completed_ok l (view r s) → chain_step s s' →
  completed_ok l (view r s') ∧ ∃ ds, ds ⊆ v_deposits (view r s) ∧ view r s' = deposit_view ds (view r s).
Proof.
  assert (∀ v, v = deposit_view (v_deposits v) v) as Hid by (by intros []).
  intros HI Hok [o c [Hd Hadm] Hrun|[Hv _ _ _]]; [|rewrite Hv; split; eauto].
  destruct (is_create c) eqn:Hc.
  - destruct c; try done. destruct Hadm as [Hn Hp].
    destruct (wp_Ok _ _ _ _ _ _ (wp_create_rosca o _ _ _ _ _ _ _ _ _ s HI Hd Hn Hp) Hrun)
      as (a & _ & _ & Hcre).
    rewrite (creates_others _ _ _ _ _ _ Hcre); [eauto|]. intros ->.
    rewrite (Inv_fresh _ HI _ (Z.le_refl _)) in Hok. by destruct Hok.
  - pose proof (dispatch_frame _ _ _ _ Hc Hrun) as Hfr.
    destruct (decide (call_rosca (NextRoscaId s) c = r)) as [<-|Hne];
      [|rewrite (frame_view _ _ _ Hfr _ Hne); eauto].
    destruct (wp_Ok _ _ _ _ _ _ (dispatch_moves o c s HI Hd Hc) Hrun) as (a & ts & _ & Hstep & _).
    by eapply completed_rosca_step.
Qed.

Lemma completed_steps l r s s' :
  Inv s → completed_ok l (view r s) → rtc chain_step s s' →
  Inv s' ∧ completed_ok l (view r s') ∧
  ∃ ds, ds ⊆ v_deposits (view r s) ∧ view r s' = deposit_view ds (view r s).
Proof.
  intros HI Hok Hs. revert HI Hok. induction Hs as [s|s s1 s' Hstep Hs IH]; intros HI Hok.
  - split_and!; [done..|]. eexists. split; [done|]. by destruct (view r s).
  - destruct (completed_chain_step _ _ _ _ HI Hok Hstep) as (Hok1 & ds1 & Hds1 & Hv1).
    destruct (IH (Inv_chain_step _ _ HI Hstep) Hok1) as (HI' & Hok' & ds & Hds & Hv).
    split_and!; [done..|]. exists ds. rewrite Hv1 in Hds, Hv. split; [by etrans | done].
Qed.
End safety.
