(* ===== verification/RoscaMoney.v ===== *)
(** The security deposits are backed: the account of a ROSCA always holds at least
    what its deposits record.  The ledger is the [fungibles] implementation behind
    [ForeignCurrency]; what is used of it is its documented behaviour, as laws. *)

From S2P Require Import Prelude RoscaTypes RoscaRounds RoscaCalls RoscaLogic RoscaFrame.
From S2P Require Import RoscaSample RoscaSchedule RoscaInvariant RoscaPreservation.
From S2P Require Import RoscaMembership RoscaLifecycle RoscaSafety.

(** The ledger.  A transfer between different accounts moves the amount; an account
    that would keep less than the minimum balance is reaped, so the remainder is
    exact only where the minimum balance is one unit at most.  Sub-accounts of
    different ROSCAs are different. *)
Class LedgerLaws (T : Config) : Prop := {
  balance_nonneg ledger asset who : 0 ≤ asset_balance ledger asset who;
  transfer_from asset from to amount ledger ledger' :
    asset_transfer asset from to amount ledger = inl ledger' → 0 ≤ amount → from ≠ to →
    asset_minimum_balance ledger asset ≤ 1 →
    asset_balance ledger' asset from = asset_balance ledger asset from - amount;
  transfer_to asset from to amount ledger ledger' :
    asset_transfer asset from to amount ledger = inl ledger' → 0 ≤ amount → from ≠ to →
    asset_minimum_balance ledger asset ≤ 1 →
    asset_balance ledger' asset to = asset_balance ledger asset to + amount;
  transfer_self asset who amount ledger ledger' :
    asset_transfer asset who who amount ledger = inl ledger' →
    asset_balance ledger' asset who = asset_balance ledger asset who;
  transfer_elsewhere asset asset' from to amount ledger ledger' who :
    asset_transfer asset from to amount ledger = inl ledger' →
    asset ≠ asset' ∨ who ≠ from ∧ who ≠ to →
    asset_balance ledger' asset' who = asset_balance ledger asset' who;
  transfer_minimum asset asset' from to amount ledger ledger' :
    asset_transfer asset from to amount ledger = inl ledger' →
    asset_minimum_balance ledger' asset' = asset_minimum_balance ledger asset';
  sub_account_inj r r' :
    in_width u32_MAX r → in_width u32_MAX r' → rosca_account_id r = rosca_account_id r' → r = r';
}.

(** * Sums over a map *)

Section total.
Context {K : Type} `{Countable K}.
Implicit Types (m : gmap K Z) (i : K).

Definition total m : Z := map_fold (λ _ x y, x + y) 0 m.

Lemma total_empty : total ∅ = 0.
Proof. apply map_fold_empty. Qed.

Lemma total_insert_None m i x : m !! i = None → total (<[i := x]> m) = x + total m.
Proof. intros Hi. unfold total. rewrite map_fold_insert_L; [done | intros; lia | done]. Qed.

Lemma total_delete m i : total m = default 0 (m !! i) + total (delete i m).
Proof.
  destruct (m !! i) as [x|] eqn:Hi; cbn.
  - rewrite <- total_insert_None with (i := i) by apply lookup_delete_eq.
    by rewrite insert_delete_id.
  - by rewrite delete_id.
Qed.

Lemma total_insert m i x : total (<[i := x]> m) = x - default 0 (m !! i) + total m.
Proof.
  rewrite (total_delete (<[i := x]> m) i), lookup_insert_eq, delete_insert_eq, (total_delete m i). cbn. lia.
Qed.

(** Only the values count, an absent entry is a zero. *)
Lemma total_ext m m' : (∀ i, default 0 (m !! i) = default 0 (m' !! i)) → total m = total m'.
Proof.
  revert m'. induction m as [|i x m Hi IH] using map_ind; intros m' Hm.
  - rewrite total_empty. induction m' as [|i x m' Hi IH] using map_ind; [by rewrite total_empty|].
    rewrite total_insert_None by done.
    pose proof (Hm i) as Hx. rewrite lookup_empty, lookup_insert_eq in Hx. cbn in Hx. rewrite <- IH; [lia|].
    intros j. destruct (decide (i = j)) as [<-|Hne]; [by rewrite Hi|].
    specialize (Hm j). by rewrite lookup_insert_ne in Hm.
  - rewrite total_insert_None, (total_delete m' i), <- Hm, lookup_insert_eq by done. cbn. f_equal.
    apply IH. intros j. destruct (decide (i = j)) as [<-|Hne]; [by rewrite Hi, lookup_delete_eq|].
    specialize (Hm j). by rewrite lookup_insert_ne in Hm; rewrite ?lookup_delete_ne.
Qed.

Definition sum_over (g : K → Z) (l : list K) : Z := foldr (λ i y, g i + y) 0 l.

Lemma sum_over_Permutation (g : K → Z) l l' : l ≡ₚ l' → sum_over g l = sum_over g l'.
Proof. unfold sum_over. induction 1; cbn; lia. Qed.

(** The entries of distinct keys [l] are lowered by [g]. *)
Lemma total_lower (g : K → Z) l m m' :
  NoDup l →
  (∀ i, default 0 (m' !! i) = default 0 (m !! i) - (if decide (i ∈ l) then g i else 0)) →
  total m' = total m - sum_over g l.
Proof.
  intros Hnd. revert m. induction Hnd as [|k l Hk Hnd IH]; intros m Hm.
  - rewrite (total_ext m' m); [cbn; lia|]. intros i. rewrite Hm, decide_False by set_solver. lia.
  - change (sum_over g (k :: l)) with (g k + sum_over g l). rewrite (IH (<[k := default 0 (m !! k) - g k]> m)); [rewrite total_insert; lia|].
    intros i. rewrite Hm. destruct (decide (k = i)) as [<-|Hne].
    + rewrite lookup_insert_eq. cbn. rewrite decide_True, decide_False by set_solver. lia.
    + rewrite lookup_insert_ne by done. f_equal. apply decide_ext. set_solver.
Qed.
End total.

(** * Transfers and balances *)

Section money.
Context {T : Config} {L : ConfigLaws T} {F : LedgerLaws T}.
Implicit Types (s : State) (r : RoscaId) (v : RoscaView) (d : RoscaDetails) (l : list AccountId).
Implicit Types (a who : AccountId) (t : Transfer) (ts : list Transfer) (fx : list Effect) (ledger : Assets).

(** What a transfer adds to the balance of [who]. *)
Definition net (asset : Z) who t : Z :=
  if decide (t_asset t = asset)
  then (if decide (t_to t = who) then t_amount t else 0) - (if decide (t_from t = who) then t_amount t else 0)
  else 0.
Definition net_all (asset : Z) who ts : Z := foldr (λ t y, net asset who t + y) 0 ts.

Lemma net_all_cons asset who t ts : net_all asset who (t :: ts) = net asset who t + net_all asset who ts.
Proof. done. Qed.
Lemma net_all_app asset who ts ts' : net_all asset who (ts ++ ts') = net_all asset who ts + net_all asset who ts'.
Proof.
  induction ts as [|t ts IH]; [done|]. cbn [app]. rewrite !net_all_cons, IH. lia.
Qed.

Lemma transfer_net asset from to amount ledger ledger' asset' who :
  asset_transfer asset from to amount ledger = inl ledger' → 0 ≤ amount →
  asset_minimum_balance ledger asset' ≤ 1 →
  asset_balance ledger' asset' who =
    asset_balance ledger asset' who + net asset' who (mkTransfer asset from to amount).
Proof.
  intros Htr Ha Hmin. unfold net. cbn.
  destruct (decide (asset = asset')) as [->|Hne];
    [|rewrite (transfer_elsewhere _ _ _ _ _ _ _ _ Htr); [lia | by left]].
  destruct (decide (from = to)) as [->|Hft].
  { destruct (decide (to = who)) as [->|Hw]; [rewrite (transfer_self _ _ _ _ _ Htr); lia|].
    rewrite (transfer_elsewhere _ _ _ _ _ _ _ _ Htr); [lia | by right]. }
  destruct (decide (to = who)) as [->|Hto].
  { rewrite decide_False by done. rewrite (transfer_to _ _ _ _ _ _ Htr) by done. lia. }
  destruct (decide (from = who)) as [->|Hfrom].
  - rewrite (transfer_from _ _ _ _ _ _ Htr) by done. lia.
  - rewrite (transfer_elsewhere _ _ _ _ _ _ _ _ Htr) by (by right). lia.
Qed.

Lemma run_transfers_net ts ledger ledger' asset who :
  run_transfers ts ledger = Some ledger' → Forall (λ t, 0 ≤ t_amount t) ts →
  asset_minimum_balance ledger asset ≤ 1 →
  asset_balance ledger' asset who = asset_balance ledger asset who + net_all asset who ts ∧
  asset_minimum_balance ledger' asset = asset_minimum_balance ledger asset.
Proof.
  revert ledger. induction ts as [|[as_ from to amount] ts IH]; intros ledger; cbn [run_transfers t_asset t_from t_to t_amount].
  { intros [= ->] _ _. split; [cbn; lia | done]. }
  destruct (asset_transfer _ _ _ _ _) as [ledger1|] eqn:Htr; [|done].
  intros Hrun [Ha Hts]%Forall_cons Hmin. cbn in Ha.
  pose proof (transfer_minimum _ asset _ _ _ _ _ Htr) as Hm1.
  destruct (IH ledger1 Hrun Hts) as [Hb Hm]; [by rewrite Hm1|].
  split; [|by rewrite Hm]. rewrite Hb, (transfer_net _ _ _ _ _ _ _ _ Htr Ha Hmin), net_all_cons. lia.
Qed.

(** Nothing is taken from an account that no transfer names as its source. *)
Lemma net_all_nonneg asset who ts :
  Forall (λ t, 0 ≤ t_amount t ∧ t_from t ≠ who) ts → 0 ≤ net_all asset who ts.
Proof.
  induction 1 as [|t ts [Ha Hf] Hts IH]; [done|]. rewrite net_all_cons. unfold net.
  rewrite (decide_False (P := t_from t = who)) by done. repeat case_decide; lia.
Qed.

(** * One missed round *)

(** What the settlement of a round takes from the deposit of [p]. *)
Definition taken d (c : AccountId) v p : Z :=
  let x := Z.min (default 0 (v_deposits v !! p)) (contribution_amount d) in
  if decide (owes v c p ∧ 0 < x) then x else 0.

Lemma settled_total d c l v v' :
  settled (contribution_amount d) c l v v' → NoDup l → deposits_ok v → 0 < contribution_amount d →
  total (v_deposits v') = total (v_deposits v) - sum_over (taken d c v) l.
Proof.
  intros Hs Hnd Hok Hamt. apply total_lower; [done|]. intros p. rewrite (settled_deposits _ _ _ _ _ Hs).
  assert (0 ≤ default 0 (v_deposits v !! p)).
  { destruct (v_deposits v !! p) as [x|] eqn:Hx; [|done]. by destruct (Hok _ _ Hx) as [[? ?] _]. }
  unfold taken. destruct (decide (p ∈ l)) as [Hp|Hp]; [|rewrite decide_False by naive_solver; lia].
  destruct (decide (owes v c p)) as [Ho|Ho]; [|rewrite !decide_False by naive_solver; lia].
  rewrite decide_True by done. case_decide as Hpos; [lia|].
  assert (¬ 0 < Z.min (default 0 (v_deposits v !! p)) (contribution_amount d)) by naive_solver. lia.
Qed.

(** Of each settlement at most one transfer, of what is taken. *)
Lemma settlement_transfers d r c v p :
  0 < contribution_amount d →
  transfers (settlement d r c v p) =
    if decide (0 < taken d c v p)
    then [mkTransfer (PaymentAssets_id (payment_asset d)) (rosca_account_id r) c (taken d c v p)] else [].
Proof.
  intros Hamt. unfold settlement, taken. destruct (decide (owes v c p)) as [Ho|Ho].
  2: { by rewrite (decide_False (P := _ ∧ _)), decide_False by (lia || naive_solver). }
  destruct (Z.ltb_spec (default 0 (v_deposits v !! p)) (contribution_amount d)).
  - rewrite Z.min_l by lia. destruct (Z.ltb_spec 0 (default 0 (v_deposits v !! p))).
    + by rewrite (decide_True (P := _ ∧ _)), decide_True by done.
    + by rewrite (decide_False (P := _ ∧ _)), decide_False by (lia || naive_solver lia).
  - rewrite Z.min_r by lia. by rewrite (decide_True (P := _ ∧ _)), decide_True by done.
Qed.

Lemma taken_nonneg d c v p : 0 ≤ taken d c v p.
Proof. unfold taken. case_decide; lia. Qed.

Lemma settlement_net d r c v l :
  c ≠ rosca_account_id r → 0 < contribution_amount d →
  net_all (PaymentAssets_id (payment_asset d)) (rosca_account_id r) (transfers (l ≫= settlement d r c v)) =
    - sum_over (taken d c v) l.
Proof.
  intros Hc Hamt. induction l as [|p l IH]; [done|]. rewrite bind_cons, transfers_app, net_all_app, IH.
  change (sum_over (taken d c v) (p :: l)) with (taken d c v p + sum_over (taken d c v) l).
  rewrite settlement_transfers by done. pose proof (taken_nonneg d c v p).
  case_decide; rewrite ?net_all_cons; cbn [net_all foldr]; [|lia].
  unfold net. cbn. rewrite decide_True, decide_False, decide_True by done. lia.
Qed.

Lemma settlement_from d r c v l :
  0 < contribution_amount d →
  Forall (λ t, 0 ≤ t_amount t ∧ t_from t = rosca_account_id r) (transfers (l ≫= settlement d r c v)).
Proof.
  intros Hamt. induction l as [|p l IH]; [constructor|].
  rewrite bind_cons, transfers_app, settlement_transfers by done. apply Forall_app. split; [|done].
  case_decide; [|constructor]. apply Forall_singleton. cbn. split; [lia | done].
Qed.

Lemma round_started_transfers d r l (t : Moment) k : transfers (round_started d r l t k) = [].
Proof. unfold round_started. by case_match. Qed.

Lemma contribution_transfers d r l (t : Moment) k a c v :
  transfers (contribution d r l t k a c v) =
    [mkTransfer (PaymentAssets_id (payment_asset d)) a c (contribution_amount d)].
Proof. unfold contribution. rewrite transfers_app. repeat case_decide; by rewrite ?round_started_transfers. Qed.

(** * Steps *)

(** The deposits of [v'] are backed as well as those of [v] were. *)
Definition backed (asset : Z) r v v' fx : Prop :=
  total (v_deposits v') - total (v_deposits v) ≤ net_all asset (rosca_account_id r) (transfers fx).

(** The transfers of a step name the signer or the account of the ROSCA as source. *)
Definition own_transfers a r fx : Prop :=
  Forall (λ t, 0 ≤ t_amount t ∧ (t_from t = a ∨ t_from t = rosca_account_id r)) (transfers fx).

Lemma missed_backed r d l (t : Moment) k v k' v' fx :
  missed r d l t k v k' v' fx → running d l k t v → (k' ≤ length l)%nat → rosca_account_id r ∉ l →
  backed (PaymentAssets_id (payment_asset d)) r v v' fx ∧
  Forall (λ t, 0 ≤ t_amount t ∧ t_from t = rosca_account_id r) (transfers fx) ∧ running d l k' t v'.
Proof.
  intros Hm Hrun Hk Hacc. revert Hk. induction Hm as [|k1 c v1 v2 fx Hm IH Hc Hs]; intros Hk.
  { split_and!; [unfold backed; cbn; lia | constructor | done]. }
  destruct IH as (Hb & Hfx & Hrun1); [lia|]. unfold backed in *.
  assert (c ≠ rosca_account_id r) as Hca by (intros ->; by apply list_elem_of_lookup_2 in Hc).
  assert (0 < contribution_amount d) as Hamt by (apply details_amount; by destruct Hrun).
  rewrite !transfers_app, round_started_transfers, app_nil_r, net_all_app, settlement_net by done.
  split_and!.
  - rewrite (sum_over_Permutation _ _ _ (ring_order_Permutation l k1)).
    cbn [v_deposits advance_view].
    rewrite (settled_total d c l v1 v2); [lia | done | by destruct Hrun | by destruct Hrun1 | done].
  - apply Forall_app. split; [done | by apply settlement_from].
  - apply running_advance; [by eapply settled_running | lia].
Qed.

Lemma contributed_deposits d l k (t : Moment) a v v' :
  contributed d l k t a v v' → v_deposits v' = v_deposits v.
Proof. by intros [? ->|? ? ->|? ? ->]. Qed.

Lemma running_account d l k (t : Moment) v who :
  running d l k t v → v_participants v !! who = None → who ∉ l.
Proof. intros [] Hnone Hin. apply running_participants in Hin. rewrite Hnone in Hin. by destruct Hin. Qed.

Lemma net_other asset who as_ from to x :
  from ≠ who → to ≠ who → net_all asset who [mkTransfer as_ from to x] = 0.
Proof.
  intros. rewrite net_all_cons. unfold net. cbn.
  rewrite (decide_False (P := to = who)), (decide_False (P := from = who)) by done. by case_decide.
Qed.

Lemma net_out asset who as_ to x :
  to ≠ who → 0 ≤ x → - x ≤ net_all asset who [mkTransfer as_ who to x].
Proof.
  intros. rewrite net_all_cons. unfold net. cbn.
  rewrite (decide_False (P := to = who)), (decide_True (P := who = who)) by done. case_decide; lia.
Qed.

Lemma net_in asset who from x : from ≠ who → net_all asset who [mkTransfer asset from who x] = x.
Proof.
  intros. rewrite net_all_cons. unfold net. cbn.
  rewrite decide_True, decide_True, decide_False by done. lia.
Qed.

Lemma rosca_step_backed now a c v v' fx asset :
  rosca_step now a c v v' fx → let r := call_rosca 0 c in
  a ≠ rosca_account_id r → v_participants v !! rosca_account_id r = None → deposits_ok v →
  (∀ d, v_active v = Some d ∨ v_pending v = Some d → PaymentAssets_id (payment_asset d) = asset) →
  backed asset r v v' fx ∧ own_transfers a r fx.
Proof.
  intros Hstep r Ha Hacc Hdep Hasset. unfold own_transfers.
  assert (∀ r ts, Forall (λ t, 0 ≤ t_amount t ∧ t_from t = rosca_account_id r) ts →
    Forall (λ t, 0 ≤ t_amount t ∧ (t_from t = a ∨ t_from t = rosca_account_id r)) ts) as Hown.
  { intros r1 ts1 H1. eapply Forall_impl; [exact H1|]. naive_solver. }
  destruct Hstep as [| ? d o i v Hp|? d o l x v Hp|? d l k t k' c v v1 v' fx Hr Hk Hin Hc Hnone Hm Hk' ? ? Hr1 Hcon
    |? d l k t v v1 fx Hr Hk Ht Hm Hr1|? d l k t v v1 fx Hr Hk Ht Hm Hr1
    |? asset' l x t v Hc Hf Ht Hx H0|? d amount v Hc Hd Hmem Hx]; subst r; cbn [call_rosca] in *.
  - split; [unfold backed; cbn; lia | constructor].
  - unfold backed, leave_view, refund. cbn [v_deposits membership_view].
    destruct (0 <? _) eqn:H0; [|split; [cbn; lia | constructor]].
    cbn [transfers omap list_omap app].
    rewrite (total_delete (v_deposits v) a). split; [|apply Forall_singleton; cbn; split; [lia | by right]].
    pose proof (net_out asset (rosca_account_id r0) (PaymentAssets_id (payment_asset d)) a
      (default 0 (v_deposits v !! a)) Ha). lia.
  - split; [unfold backed; cbn; lia | constructor].
  - destruct (missed_backed _ _ _ _ _ _ _ _ _ Hm Hr) as (Hb & Hfx & _);
      [apply lookup_lt_Some in Hk'; lia | exact (running_account _ _ _ _ _ _ Hr Hacc) |].
    assert (0 < contribution_amount d) by (apply details_amount; by destruct Hr).
    rewrite (Hasset d) in Hb by (left; by destruct Hr). split.
    + unfold backed in *. rewrite (contributed_deposits _ _ _ _ _ _ _ Hcon), transfers_app,
        contribution_transfers, net_all_app, net_other; [lia | done |].
      intros Heq. rewrite Heq in Hk'. apply list_elem_of_lookup_2 in Hk'.
      by apply (running_account _ _ _ _ _ _ Hr Hacc).
    + rewrite transfers_app, contribution_transfers. apply Forall_app. split; [auto|].
      apply Forall_singleton. cbn. split; [lia | by left].
  - destruct (missed_backed _ _ _ _ _ _ _ _ _ Hm Hr) as (Hb & Hfx & _); [lia | exact (running_account _ _ _ _ _ _ Hr Hacc) |].
    rewrite (Hasset d) in Hb by (left; by destruct Hr). unfold backed. rewrite transfers_app, app_nil_r. split; [done | auto].
  - destruct (missed_backed _ _ _ _ _ _ _ _ _ Hm Hr) as (Hb & Hfx & _); [lia | exact (running_account _ _ _ _ _ _ Hr Hacc) |].
    rewrite (Hasset d) in Hb by (left; by destruct Hr). unfold backed. rewrite transfers_app, app_nil_r. split; [done | auto].
  - unfold backed. cbn [v_deposits deposit_view settle_view]. rewrite (total_delete (v_deposits v) a), Hx.
    change (default 0 (Some x)) with x. cbn [transfers omap list_omap].
    split; [|apply Forall_singleton; cbn; split; [lia | by right]].
    pose proof (net_out asset (rosca_account_id r0) (PaymentAssets_id asset') a x Ha). lia.
  - rewrite (Hasset d) by naive_solver. unfold backed. cbn [v_deposits deposit_view settle_view].
    cbn [transfers omap list_omap]. rewrite total_insert, net_in by done. split; [lia|]. apply Forall_singleton. cbn. split; [done | by left].
Qed.

(** What a step leaves of the parameters and the participants. *)
Lemma missed_static r d l (t : Moment) k v k' v' fx :
  missed r d l t k v k' v' fx →
  v_active v' = v_active v ∧ v_pending v' = v_pending v ∧ v_participants v' = v_participants v.
Proof.
  induction 1 as [|k1 c v1 v2 fx _ IH _ Hs]; [done|]. cbn. rewrite (settled_view _ _ _ _ _ Hs). done.
Qed.

Lemma contributed_static d l k (t : Moment) a v v' :
  contributed d l k t a v v' →
  (v_active v' = v_active v ∨ v_active v' = None) ∧ v_pending v' = v_pending v ∧
  v_participants v' = v_participants v.
Proof. intros [? ->|? ? ->|? ? ->]; cbn; auto. Qed.

Lemma rosca_step_static now a c v v' fx :
  rosca_step now a c v v' fx →
  (∀ d, v_active v' = Some d ∨ v_pending v' = Some d → v_active v = Some d ∨ v_pending v = Some d) ∧
  (∀ b, is_Some (v_participants v' !! b) → b = a ∨ is_Some (v_participants v !! b)).
Proof.
  intros Hstep. destruct Hstep as [? ? ? ? ? v|? ? ? ? v|? d o l x v Hp|? ? ? ? ? ? ? v v1 v' fx ? ? ? ? ? Hm ? ? ? ? Hcon
    |? ? ? ? ? v v1 fx ? ? ? Hm|? ? ? ? ? v v1 fx ? ? ? Hm| |]; cbn.
  - split; [done|]. intros b Hb%lookup_insert_is_Some'. naive_solver.
  - split; [done|]. intros b [_ ?]%lookup_delete_is_Some. by right.
  - split; [|by right]. intros d' [[= <-]|?]; [|done]. right. by destruct Hp.
  - destruct (missed_static _ _ _ _ _ _ _ _ _ Hm) as (<- & <- & <-).
    destruct (contributed_static _ _ _ _ _ _ _ Hcon) as (Ha & -> & ->).
    split; [|by right]. intros d' [Hd|?]; [|by right]. destruct Ha as [<-|Ha]; [by left | congruence].
  - destruct (missed_static _ _ _ _ _ _ _ _ _ Hm) as (<- & -> & ->). split; [naive_solver | by right].
  - destruct (missed_static _ _ _ _ _ _ _ _ _ Hm) as (<- & -> & ->). split; [naive_solver | by right].
  - split; [done | by right].
  - split; [done | by right].
Qed.

(** * Executions

    Nobody signs for the account of a ROSCA, so besides the pallet nothing is taken
    from it. *)
Definition not_rosca_account a : Prop := ∀ r, in_width u32_MAX r → a ≠ rosca_account_id r.

Inductive owned_step s s' : Prop :=
  | owned_call a c :
      not_rosca_account a → admissible s c → dispatch (Signed a) c s = Ok (tt, s') → owned_step s s'
  | owned_environment :
      environment s s' →
      (∀ asset, asset_minimum_balance (Ledger s') asset = asset_minimum_balance (Ledger s) asset) →
      (∀ r asset, in_width u32_MAX r →
         asset_balance (Ledger s) asset (rosca_account_id r) ≤ asset_balance (Ledger s') asset (rosca_account_id r)) →
      owned_step s s'.

Lemma owned_chain_step s s' : owned_step s s' → chain_step s s'.
Proof. intros [a c ? ? ?|? ? ?]; [by eapply chain_call | by apply chain_environment]. Qed.

(** The deposits of every ROSCA are backed, in the payment asset [pa] of the ROSCA. *)
Record solvent (pa : RoscaId → PaymentAssets) s : Prop := {
  solvent_participants r a : is_Some (v_participants (view r s) !! a) → not_rosca_account a;
  solvent_asset r d :
    v_active (view r s) = Some d ∨ v_pending (view r s) = Some d → payment_asset d = pa r;
  solvent_minimum asset : asset_minimum_balance (Ledger s) (PaymentAssets_id asset) ≤ 1;
  solvent_backed r :
    in_width u32_MAX r →
    total (v_deposits (view r s)) ≤
      asset_balance (Ledger s) (PaymentAssets_id (pa r)) (rosca_account_id r);
}.

Lemma solvent_genesis pa s :
  chain_genesis s → (∀ asset, asset_minimum_balance (Ledger s) (PaymentAssets_id asset) ≤ 1) → solvent pa s.
Proof.
  intros [Hv _ _] Hmin. split; [| |done|]; intros r; rewrite Hv; cbn.
  - intros a [? Ha]. by rewrite lookup_empty in Ha.
  - naive_solver.
  - intros _. rewrite total_empty. apply balance_nonneg.
Qed.

Lemma solvent_moves pa a c s s' :
  Inv s → solvent pa s → not_rosca_account a → call_decodable c → is_create c = false →
  dispatch (Signed a) c s = Ok (tt, s') → solvent pa s'.
Proof.
  intros HI [Hpart Hasset Hmin Hback] Ha Hd Hc Hrun.
  pose proof (dispatch_frame _ _ _ _ Hc Hrun) as Hfr.
  destruct (wp_Ok _ _ _ _ _ _ (dispatch_moves (Signed a) c s HI Hd Hc) Hrun)
    as (a' & fx & [= <-] & Hstep & [Hfx _]).
  assert (call_rosca (NextRoscaId s) c = call_rosca 0 c) as Hcr by by destruct c.
  rewrite Hcr in *. set (r0 := call_rosca 0 c) in *.
  assert (in_width u32_MAX r0) as Hr0 by (destruct c; try done; try apply Hd; by destruct Hd).
  destruct (rosca_step_static _ _ _ _ _ _ Hstep) as [Hdet Hparts].
  destruct (rosca_step_backed _ _ _ _ _ _ (PaymentAssets_id (pa r0)) Hstep) as [Hb Hown].
  { by apply Ha. }
  { destruct (v_participants (view r0 s) !! rosca_account_id r0) eqn:Heq; [|done].
    by destruct (Hpart r0 _ (mk_is_Some _ _ Heq) r0 Hr0). }
  { by destruct (Inv_rosca _ HI r0) as [->|? ? []|? ? ? ? [] ? ?|? []]. }
  { intros d Hdd. by rewrite (Hasset _ _ Hdd). }
  fold r0 in Hb, Hown.
  assert (∀ asset who, asset_balance (Ledger s') (PaymentAssets_id asset) who =
    asset_balance (Ledger s) (PaymentAssets_id asset) who + net_all (PaymentAssets_id asset) who (transfers fx) ∧
    asset_minimum_balance (Ledger s') (PaymentAssets_id asset) =
    asset_minimum_balance (Ledger s) (PaymentAssets_id asset)) as Hnet.
  { intros asset who. apply run_transfers_net; [done | | apply Hmin].
    eapply Forall_impl; [exact Hown | naive_solver]. }
  assert (∀ r, r ≠ r0 → view r s' = view r s) as Hother by (intros r Hr; by apply Hfr).
  split.
  - intros r b Hb'. destruct (decide (r = r0)) as [->|Hne]; [|rewrite Hother in Hb' by done; eauto].
    apply Hparts in Hb' as [->|Hb']; eauto.
  - intros r d Hdd. destruct (decide (r = r0)) as [->|Hne]; [eauto|]. rewrite Hother in Hdd by done. eauto.
  - intros asset. destruct (Hnet asset a) as [_ ->]. done.
  - intros r Hr. destruct (Hnet (pa r) (rosca_account_id r)) as [-> _]. specialize (Hback r Hr).
    destruct (decide (r = r0)) as [->|Hne]; [unfold backed in Hb; lia|]. rewrite Hother by done.
    enough (0 ≤ net_all (PaymentAssets_id (pa r)) (rosca_account_id r) (transfers fx)) by lia.
    apply net_all_nonneg. eapply Forall_impl; [exact Hown|]. intros t [Ht Hfrom]. split; [done|].
    destruct Hfrom as [->| ->]; [by apply Ha|]. intros Heq. apply Hne. symmetry. by apply sub_account_inj.
Qed.

Lemma solvent_step pa s s' :
  Inv s → solvent pa s → owned_step s s' →
  ∃ pa', solvent pa' s' ∧ NextRoscaId s ≤ NextRoscaId s' ∧ ∀ r, r < NextRoscaId s → pa' r = pa r.
Proof.
  intros HI Hsol [a c Ha [Hd Hadm] Hrun|[Hv Hn Hnow He] Hmin Hbal].
  - destruct (is_create c) eqn:Hc.
    2: { exists pa. split_and!; [by eapply solvent_moves | | done].
         by rewrite (frame_next _ _ _ (dispatch_frame _ _ _ _ Hc Hrun)). }
    destruct c as [random invited threshold amount asset frequency start_by position rosca_name| | | | | | |];
      try done. destruct Hadm as [Hn Hp].
    destruct (wp_Ok _ _ _ _ _ _ (wp_create_rosca _ _ _ _ _ _ _ _ _ _ s HI Hd Hn Hp) Hrun)
      as (a' & [= <-] & Hok & [En Ev Eo Enow EL Ee]).
    exists (λ r, if decide (r = NextRoscaId s) then asset else pa r).
    destruct Hsol as [Hpart Hasset Hmin Hback]. split_and!; [|lia|].
    + split; rewrite ?EL; [| |done|]; intros r;
        (destruct (decide (r = NextRoscaId s)) as [->|Hne]; [rewrite Ev | rewrite Eo by done; eauto]); cbn.
      * intros b [? [<- _]%lookup_singleton_Some]. done.
      * intros d [?|[= <-]]; done.
      * intros _. rewrite total_empty. apply balance_nonneg.
    + intros r Hr. by rewrite decide_False by lia.
  - exists pa. split_and!; [|by rewrite Hn | done]. destruct Hsol as [Hpart Hasset Hmin' Hback].
    split; [intros r; rewrite Hv; eauto | intros r; rewrite Hv; eauto | intros; by rewrite Hmin |].
    intros r Hr. rewrite Hv. specialize (Hback r Hr). specialize (Hbal r (PaymentAssets_id (pa r)) Hr). lia.
Qed.

Lemma solvent_steps pa s s' :
  Inv s → solvent pa s → rtc owned_step s s' →
  Inv s' ∧ ∃ pa', solvent pa' s' ∧ ∀ r, r < NextRoscaId s → pa' r = pa r.
Proof.
  intros HI Hsol Hs. revert pa HI Hsol. induction Hs as [s|s s1 s' Hstep Hs IH]; intros pa HI Hsol; [eauto|].
  destruct (solvent_step _ _ _ HI Hsol Hstep) as (pa1 & Hsol1 & Hn & Hpa1).
  destruct (IH pa1) as (HI' & pa' & Hsol' & Hpa'); [|done|].
  { eapply Inv_chain_step; [done|]. by apply owned_chain_step. }
  split; [done|]. exists pa'. split; [done|]. intros r Hr. rewrite Hpa' by lia. auto.
Qed.
End money.
