(* ===== verification/RoscaLiveness.v ===== *)
(** The deposits can be recovered: while the ledger moves the payment asset, every
    transfer that settles the remaining rounds of a ROSCA is covered, so an active
    ROSCA can always be ended, and then every deposit can be claimed in full. *)

From S2P Require Import Prelude RoscaTypes RoscaRounds RoscaCalls RoscaLogic RoscaFrame.
From S2P Require Import RoscaSchedule RoscaInvariant RoscaPreservation.
From S2P Require Import RoscaMembership RoscaLifecycle RoscaSafety RoscaMoney.

(** When the ledger accepts a transfer: [asset_transferable] stands for an asset that
    exists and is live, none of whose accounts is frozen, blocked or unable to receive
    it.  A covered amount of at least the minimum balance is then transferred. *)
Class LedgerProgress (T : Config) : Type := {
  asset_transferable : Assets → Z → Prop;
  transferable_transfer asset asset' from to amount ledger ledger' :
    asset_transfer asset from to amount ledger = inl ledger' →
    asset_transferable ledger asset' → asset_transferable ledger' asset';
  transfer_succeeds asset from to amount ledger :
    asset_transferable ledger asset →
    0 < amount → amount ≤ asset_balance ledger asset from → asset_minimum_balance ledger asset ≤ amount →
    ∃ ledger', asset_transfer asset from to amount ledger = inl ledger';
}.

Section liveness.
Context {T : Config} {L : ConfigLaws T} {F : LedgerLaws T} {G : LedgerProgress T}.
Implicit Types (s : State) (r : RoscaId) (d : RoscaDetails) (l : list AccountId) (a p : AccountId).

(** What the settlement of a round needs and keeps: the deposits of the ROSCA are
    covered by its account, which is not the account of a participant. *)
Record funded d r s : Prop := {
  funded_active : optional (eq d) (active_roscas r s);
  funded_claimant : optional (λ a, a ≠ rosca_account_id r) (eligible_claimant r s);
  funded_order : optional (Forall (λ a, a ≠ rosca_account_id r)) (active_rosca_participants_order r s);
  funded_deposits : map_Forall (λ _ x, 0 ≤ x) (prefix (RoscaSecurityDeposits s) r);
  funded_transferable : asset_transferable (Ledger s) (PaymentAssets_id (payment_asset d));
  funded_minimum : asset_minimum_balance (Ledger s) (PaymentAssets_id (payment_asset d)) ≤ 1;
  funded_backed :
    total (prefix (RoscaSecurityDeposits s) r) ≤
      asset_balance (Ledger s) (PaymentAssets_id (payment_asset d)) (rosca_account_id r);
}.

Lemma total_nonneg (m : gmap AccountId Z) : map_Forall (λ _ x, 0 ≤ x) m → 0 ≤ total m.
Proof.
  induction m as [|i x m Hi IH] using map_ind; intros Hm; [done|].
  rewrite total_insert_None by done. apply map_Forall_insert in Hm as [? ?]; [|done]. specialize (IH ltac:(done)). lia.
Qed.
Lemma total_member (m : gmap AccountId Z) p : map_Forall (λ _ x, 0 ≤ x) m → default 0 (m !! p) ≤ total m.
Proof.
  intros Hm. rewrite (total_delete m p). pose proof (total_nonneg (delete p m) (map_Forall_delete _ _ _ Hm)). lia.
Qed.

(** A deduction from a deposit that covers it goes through and keeps the rest funded. *)
Lemma funded_deduct d r c p x rest ev s (Q : unit → State → Prop) :
  funded d r s → c ≠ rosca_account_id r → 0 < x → x ≤ default 0 (security_deposit r p s) →
  rest = default 0 (security_deposit r p s) - x → (∀ s', funded d r s' → Q tt s') →
  wp (_ ← transfer (PaymentAssets_id (payment_asset d)) (rosca_account_id r) c x;
      _ ← modify (λ s', set_RoscaSecurityDeposits
            (dinsert r p rest (RoscaSecurityDeposits s')) s');
      deposit_event ev) s Q (λ _, False).
Proof.
  intros [Ha Hc Ho Hd Ht Hm Hb] Hca Hx Hcov Hrest HQ. pose proof (total_member _ p Hd) as Hp.
  apply wp_bind, wp_transfer.
  2: { intros e He. destruct (transfer_succeeds (PaymentAssets_id (payment_asset d)) (rosca_account_id r) c x (Ledger s))
         as [ledger' Htr]; [done | done | | lia | congruence].
       change (dlookup (RoscaSecurityDeposits s) r p) with (security_deposit r p s) in Hcov.
       unfold security_deposit, dlookup in Hcov. lia. }
  intros ledger' Htr. wp_auto. apply HQ. split; cbn; autorewrite with storage; try done.
  - apply map_Forall_insert_2; [lia | done].
  - by apply (transferable_transfer _ _ _ _ _ _ _ Htr).
  - by rewrite (transfer_minimum _ _ _ _ _ _ _ Htr).
  - rewrite (transfer_from _ _ _ _ _ _ Htr), total_insert by (done || lia).
    unfold security_deposit, dlookup in *. lia.
Qed.

(** [m] keeps the ROSCA funded, and the ledger refuses none of its transfers. *)
Abbreviation keeps_funded d r m := (keeps (funded d r) (λ _, False) m).

Lemma keeps_wp {A} (J : State → Prop) (E : TransferError → Prop) (m : M A) (P : A → Prop) :
  (∀ s, J s → wp m s (λ x s', P x ∧ J s') (λ e, ∀ e', e = Currency e' → E e')) → keeps J E m P.
Proof.
  intros Hm s Hs. specialize (Hm s Hs). unfold wp in Hm. destruct (m s) as [[x s']|e| |]; try done.
  destruct e; try done. by apply Hm.
Qed.

Lemma wp_no_error {A} (m : M A) s (Q : A → State → Prop) E : wp m s Q (λ _, False) → wp m s Q E.
Proof. intros Hm. by eapply wp_mono; [exact Hm | |]. Qed.

Lemma process_defaulter_funded d r c p :
  c ≠ rosca_account_id r → 0 < contribution_amount d →
  keeps_funded d r (process_defaulter r d c (rosca_account_id r) p) (λ _, True).
Proof.
  intros Hc Hamt. apply keeps_wp. intros s Hs. unfold process_defaulter.
  destruct (decide (p = c)); [by apply wp_ret|]. wp_auto.
  destruct (current_contributors r p s); [by apply wp_ret|]. wp_auto.
  assert (0 ≤ default 0 (security_deposit r p s)) as H0.
  { destruct (security_deposit r p s) as [x|] eqn:Hx; [|done]. exact (funded_deposits _ _ _ Hs p x Hx). }
  set (dep := default 0 (security_deposit r p s)) in *.
  destruct (Z.ltb_spec dep (contribution_amount d)).
  - assert (∀ s', funded d r s' → wp (_ ← modify (λ s, set_DefaultCount
              (dinsert r p (saturating_add u32_MAX (default_count r p s) 1) (DefaultCount s)) s);
        deposit_event (ParticipantDefaulted r c p)) s' (λ _ s', True ∧ funded d r s') (λ e, ∀ e', e = Currency e' → False)) as Hk.
    { intros s' Hs'. wp_auto. split; [done|]. by destruct Hs'. }
    destruct (Z.ltb_spec 0 dep); [|by apply wp_ret, Hk].
    apply wp_no_error.
    apply (funded_deduct d r c p dep); [done.. | lia | apply Hk].
  - assert (checked_sub dep (contribution_amount d) = Some (dep - contribution_amount d)) as ->
      by (apply checked_sub_in; lia).
    apply wp_no_error.
    apply (funded_deduct d r c p (contribution_amount d)); [done | done | done | lia | done | by intros s' Hs'; apply wp_ret].
Qed.

(** The steps that neither read nor write what [funded] speaks of. *)
Lemma funded_gets d r {A} (f : State → A) : keeps_funded d r (gets f) (λ _, True).
Proof. by apply keeps_gets. Qed.
Lemma funded_ok_or d r {A} (o : option A) e : keeps_funded d r (ok_or o e) (λ _, True).
Proof. by apply keeps_ok_or. Qed.
Lemma funded_ensure d r b e : keeps_funded d r (ensure b e) (λ _, True).
Proof. by apply keeps_ensure. Qed.
Lemma funded_ensure_signed d r o : keeps_funded d r (ensure_signed o) (λ _, True).
Proof. by apply keeps_ensure_signed. Qed.
Lemma funded_modify d r f :
  (∀ s, funded d r s → funded d r (f s)) → keeps_funded d r (modify f) (λ _, True).
Proof. by apply keeps_modify. Qed.

(** Run past such a step. *)
Ltac funded_skip :=
  eapply keeps_bind;
  [ first [apply funded_gets | apply funded_ok_or | apply funded_ensure | apply funded_ensure_signed
          | apply funded_modify; by intros ? []]
  | intros ? _ ].

Lemma process_defaulters_funded d r :
  0 < contribution_amount d → keeps_funded d r (process_defaulters r) (λ _, True).
Proof.
  intros Hamt. unfold process_defaulters.
  eapply keeps_bind; [apply keeps_gets, funded_active | intros o Ho].
  eapply keeps_bind; [by apply keeps_ok_or | intros ? <-].
  eapply keeps_bind; [apply keeps_gets, funded_claimant | intros c Hc].
  eapply keeps_bind; [by apply keeps_ok_or | clear c Hc; intros c Hc].
  do 2 funded_skip.
  apply keeps_for_each. intros p _. by apply process_defaulter_funded.
Qed.

Lemma Forall_rotate_right (P : AccountId → Prop) l n l' : Forall P l → try_rotate_right l n = Some l' → Forall P l'.
Proof.
  unfold try_rotate_right. intros Hl. case_match; [|done]. intros [= <-].
  apply Forall_app. split; [by apply Forall_drop | by apply Forall_take].
Qed.

Lemma advance_rosca_round_funded d r : keeps_funded d r (advance_rosca_round r) (λ _, True).
Proof.
  unfold advance_rosca_round.
  do 6 funded_skip.
  eapply keeps_bind; [apply keeps_gets, funded_order | intros l Hl].
  eapply keeps_bind; [by apply keeps_ok_or | clear l Hl; intros l Hl].
  eapply keeps_bind; [by apply keeps_vec_get | intros c Hc].
  eapply keeps_bind; [apply funded_modify | intros _ _].
  { intros s []. split; try done. unfold eligible_claimant, optional. cbn. intros ?. rewrite gmap_insert_eq. by intros [= <-]. }
  eapply keeps_bind; [apply keeps_ok_or; intros l'; by apply Forall_rotate_right | intros l' Hl'].
  eapply keeps_bind; [apply funded_modify | intros _ _].
  { intros s []. split; try done. unfold active_rosca_participants_order, optional. cbn. intros ?. rewrite gmap_insert_eq. by intros [= <-]. }
  cbv zeta. do 2 funded_skip. apply funded_modify. by intros s [].
Qed.

Lemma process_remaining_rounds_funded fuel d r final :
  0 < contribution_amount d → keeps_funded d r (process_remaining_rounds fuel r final) (λ _, True).
Proof.
  intros Hamt. induction fuel as [|fuel IH]; cbn;
    (eapply keeps_bind; [apply funded_gets | intros [t|] _; [|by apply keeps_ret]]);
    (destruct (t <=? final); [|by apply keeps_ret]); [apply keeps_diverge|].
  eapply keeps_bind; [by apply process_defaulters_funded | intros _ _].
  eapply keeps_bind; [apply advance_rosca_round_funded | intros _ _]. exact IH.
Qed.

Lemma manually_end_rosca_funded d r o :
  0 < contribution_amount d → keeps_funded d r (manually_end_rosca o r) (λ _, True).
Proof.
  intros Hamt. unfold manually_end_rosca.
  do 7 funded_skip. eapply keeps_bind; [by apply process_remaining_rounds_funded | intros ? _]. do 5 funded_skip.
  eapply keeps_bind; [apply funded_modify; intros s []; split; try done | intros _ _].
  - unfold active_roscas, optional. cbn. intros ?. by rewrite gmap_delete_eq.
  - apply funded_modify. by intros s [].
Qed.

(** * Ending and claiming *)

Lemma running_funded pa d l k t r s :
  solvent pa s → running d l k t (view r s) → in_width u32_MAX r →
  asset_transferable (Ledger s) (PaymentAssets_id (payment_asset d)) → funded d r s.
Proof.
  intros Hsol Hrun Hr Ht.
  assert (pa r = payment_asset d) as Hpa.
  { symmetry. apply (solvent_asset _ _ Hsol). left. by destruct Hrun. }
  assert (∀ a, a ∈ l → a ≠ rosca_account_id r) as Hl.
  { intros a Ha. apply (solvent_participants _ _ Hsol r); [|done]. by apply (running_participants _ _ _ _ _ Hrun). }
  pose proof (solvent_backed _ _ Hsol r Hr) as Hback. rewrite Hpa in Hback.
  destruct Hrun. split; try done.
  - intros d' Hd'. change (v_active (view r s) = Some d') in Hd'. congruence.
  - intros a Ha. change (v_claimant (view r s) = Some a) in Ha. rewrite running_claimant in Ha.
    by apply Hl, (list_elem_of_lookup_2 _ _ _ Ha).
  - intros l' Hl'. change (v_order (view r s) = Some l') in Hl'. rewrite running_order in Hl'. simplify_eq.
    apply Forall_forall. intros a. rewrite ring_order_Permutation. apply Hl.
  - intros a x Hx. apply (running_deposits a x Hx).
  - apply (solvent_minimum _ _ Hsol).
Qed.

(** A completed ROSCA whose deposits can be claimed. *)
Record claimable d r s : Prop := {
  claimable_funded : funded d r s;
  claimable_completed : completed_roscas r s = Some tt;
  claimable_late : ∃ t, final_pay_by_timestamp r s = Some t ∧ t < Now s;
  claimable_owners a x : security_deposit r a s = Some x → 0 < x → not_rosca_account a;
}.

Lemma manually_end_rosca_claimable pa d l k t r a s :
  solvent pa s → running d l k t (view r s) → in_width u32_MAX r →
  asset_transferable (Ledger s) (PaymentAssets_id (payment_asset d)) →
  t + contribution_frequency d * len l < Now s →
  ∃ s', manually_end_rosca (Signed a) r s = Ok (tt, s') ∧ claimable d r s'.
Proof.
  intros Hsol Hrun Hr Htr Hlate.
  pose proof (manually_end_rosca_funded d r (Signed a)
    (proj1 (details_amount _ (running_details _ _ _ _ _ Hrun))) s (running_funded _ _ _ _ _ _ _ Hsol Hrun Hr Htr)) as Hf.
  pose proof (λ s' H, frame_now _ _ _ (dispatch_frame (Signed a) (Call_manually_end_rosca r) s s' eq_refl H)) as Hnow.
  assert (wp (manually_end_rosca (Signed a) r) s (λ _ s', ∃ v, running d l (length l) t v ∧
    v_participants v = v_participants (view r s) ∧ view r s' = complete_view v) currency_error) as Hwp.
  { eapply wp_manually_end_rosca; [done..|]. intros v s' ts Hm Hv Hvs _. exists v. split_and!; [done| |done].
    apply (missed_static _ _ _ _ _ _ _ _ _ Hm). }
  unfold wp in Hwp.
  destruct (manually_end_rosca (Signed a) r s) as [[[] s']|e| |] eqn:Hend; [|by destruct Hwp as [? ->]|done..].
  exists s'. split; [done|]. destruct Hf as [_ Hf]. destruct Hwp as (v & Hrun' & Hp & Hv).
  pose proof (f_equal v_completed Hv) as Hc. pose proof (f_equal v_final Hv) as Hfin.
  pose proof (f_equal v_deposits Hv) as Hdep. cbn in Hc, Hfin, Hdep.
  destruct Hrun'. split; [done | done | |].
  - exists (t + contribution_frequency d * len l). split; [by rewrite <- running_final | by rewrite (Hnow s' Hend)].
  - intros b x Hx H0. apply (solvent_participants _ _ Hsol r). rewrite <- Hp.
    apply (running_deposits b x); [|done]. by rewrite <- Hdep.
Qed.

(** The state after [a] has claimed [x], with the ledger [ledger]. *)
Definition after_claim r a (x : Z) (ledger : Assets) s : State :=
  set_Events (Events s ++ [SecurityDepositClaimed r a x])
    (set_RoscaSecurityDeposits (dremove r a (RoscaSecurityDeposits s)) (set_Ledger ledger s)).

Lemma claim_succeeds d r a x s :
  claimable d r s → security_deposit r a s = Some x → 0 < x →
  ∃ ledger,
    asset_transfer (PaymentAssets_id (payment_asset d)) (rosca_account_id r) a x (Ledger s) = inl ledger ∧
    dispatch (Signed a) (Call_claim_security_deposit r (payment_asset d)) s =
      Ok (tt, after_claim r a x ledger s).
Proof.
  intros [Hf Hc (t & Hfinal & Ht) Hown] Hx H0.
  pose proof (total_member _ a (funded_deposits _ _ _ Hf)) as Hcov.
  change (prefix (RoscaSecurityDeposits s) r !! a) with (security_deposit r a s) in Hcov.
  rewrite Hx in Hcov. cbn in Hcov.
  destruct (transfer_succeeds (PaymentAssets_id (payment_asset d)) (rosca_account_id r) a x (Ledger s))
    as [ledger Htr]; [by destruct Hf | done | destruct Hf; lia | destruct Hf; lia |].
  exists ledger. split; [done|].
  pose proof (wp_claim_security_deposit a r (payment_asset d) x t s
    (λ _ s', s' = after_claim r a x ledger s) Hc Hfinal Ht Hx H0) as Hwp.
  unfold wp in Hwp. cbn [dispatch]. rewrite Htr in Hwp. specialize (Hwp ltac:(by intros ? [= <-])).
  destruct (claim_security_deposit _ _ _ s) as [[[] s']|e| |]; [by rewrite Hwp | naive_solver | done..].
Qed.

Lemma after_claim_deposit r a x ledger s b :
  security_deposit r b (after_claim r a x ledger s) = if decide (b = a) then None else security_deposit r b s.
Proof.
  unfold security_deposit, dlookup. cbn. autorewrite with storage.
  case_decide as Hb; [subst; by rewrite gmap_delete_eq | by rewrite gmap_delete_ne].
Qed.

Lemma after_claim_claimable d r a x ledger s :
  claimable d r s → a ≠ rosca_account_id r → security_deposit r a s = Some x → 0 < x →
  asset_transfer (PaymentAssets_id (payment_asset d)) (rosca_account_id r) a x (Ledger s) = inl ledger →
  claimable d r (after_claim r a x ledger s).
Proof.
  intros [[] Hc Hlate Hown] Ha Hx H0 Htr. split; [|done | done |].
  - split; try done; cbn; autorewrite with storage.
    + by apply map_Forall_delete.
    + by apply (transferable_transfer _ _ _ _ _ _ _ Htr).
    + by rewrite (transfer_minimum _ _ _ _ _ _ _ Htr).
    + rewrite (transfer_from _ _ _ _ _ _ Htr) by (done || lia). rewrite (total_delete _ a) in funded_backed0.
      change (prefix (RoscaSecurityDeposits s) r !! a) with (security_deposit r a s) in funded_backed0.
      rewrite Hx in funded_backed0. cbn in funded_backed0. lia.
  - intros b y. rewrite after_claim_deposit. case_decide; [done|]. apply Hown.
Qed.

(** The deposit of [a] is claimed when the accounts [ps] claim theirs. *)
Definition claims (ps : list AccountId) r s a : Prop := a ∈ ps ∧ 0 < default 0 (security_deposit r a s).
#[local] Instance claims_dec ps r s a : Decision (claims ps r s a).
Proof. unfold claims. apply _. Defined.

(** The accounts [ps] claim one after the other. *)
Lemma claim_all d r ps s :
  claimable d r s → in_width u32_MAX r → NoDup ps →
  ∃ s', rtc owned_step s s' ∧ claimable d r s' ∧
    (∀ b, security_deposit r b s' = if decide (claims ps r s b) then None else security_deposit r b s) ∧
    (∀ b, b ≠ rosca_account_id r →
       asset_balance (Ledger s') (PaymentAssets_id (payment_asset d)) b =
       asset_balance (Ledger s) (PaymentAssets_id (payment_asset d)) b +
         if decide (claims ps r s b) then default 0 (security_deposit r b s) else 0).
Proof.
  intros Hs Hr Hnd. revert s Hs. induction Hnd as [|a ps Ha Hnd IH]; intros s Hs.
  { exists s. split_and!; [done | done | |]; intros b *; rewrite decide_False by (intros [Hb _]; set_solver); [done | lia]. }
  destruct (decide (0 < default 0 (security_deposit r a s))) as [H0|H0].
  2: { destruct (IH s Hs) as (s' & Hsteps & Hs' & Hdep & Hbal). exists s'.
       assert (∀ b, claims ps r s b ↔ claims (a :: ps) r s b) as Heq by (unfold claims; set_solver).
       split_and!; [done | done | |]; intros b *; rewrite <- (decide_ext _ _ _ _ (Heq b)); auto. }
  destruct (security_deposit r a s) as [x|] eqn:Hx; [|done]. cbn in H0.
  assert (not_rosca_account a) as Hown by by apply (claimable_owners _ _ _ Hs a x).
  destruct (claim_succeeds d r a x s Hs Hx H0) as (ledger & Htr & Hrun).
  destruct (IH (after_claim r a x ledger s)) as (s' & Hsteps & Hs' & Hdep & Hbal).
  { apply (after_claim_claimable d); auto. }
  assert (∀ b, b ≠ a → claims ps r (after_claim r a x ledger s) b ↔ claims (a :: ps) r s b) as Hne.
  { intros b Hb. unfold claims. rewrite after_claim_deposit, decide_False by done. set_solver. }
  assert (¬ claims ps r (after_claim r a x ledger s) a) as Hno by (intros [? _]; done).
  assert (claims (a :: ps) r s a) as Hyes by (split; [left | by rewrite Hx]).
  exists s'. split_and!; [|done| |].
  - eapply rtc_l; [|exact Hsteps]. by apply (owned_call _ _ a (Call_claim_security_deposit r (payment_asset d))).
  - intros b. rewrite Hdep, after_claim_deposit. destruct (decide (b = a)) as [->|Hb].
    + by rewrite decide_False, decide_True.
    + by rewrite (decide_ext _ _ _ _ (Hne b Hb)).
  - intros b Hacc. rewrite Hbal, after_claim_deposit by done. cbn. destruct (decide (b = a)) as [->|Hb].
    + rewrite decide_False, decide_True, Hx, (transfer_to _ _ _ _ _ _ Htr) by
        (done || lia || by destruct (claimable_funded _ _ _ Hs) || by auto). cbn. lia.
    + by rewrite (decide_ext _ _ _ _ (Hne b Hb)), (transfer_elsewhere _ _ _ _ _ _ _ _ Htr) by (by right).
Qed.

(** An active ROSCA can be ended: its participants only have to wait. *)
Lemma active_claimable pa d r s :
  Inv s → solvent pa s → in_width u32_MAX r → active_roscas r s = Some d →
  asset_transferable (Ledger s) (PaymentAssets_id (payment_asset d)) →
  ∃ s', rtc owned_step s s' ∧ claimable d r s'.
Proof.
  intros HI Hsol Hr Ha Htr. destruct (active_running _ _ _ HI Ha) as (l & k & t & Hrun & Hk & _).
  pose proof (Inv_now _ HI) as Hnow. pose proof (running_bound _ _ _ _ _ Hrun).
  assert (0 < contribution_frequency d) by (apply details_frequency; by destruct Hrun).
  pose proof (running_start _ _ _ _ _ Hrun). unfold in_width in Hnow.
  set (now := Z.max (Now s) (t + contribution_frequency d * len l + 1)).
  assert (owned_step s (set_Now now s)) as Hwait.
  { apply owned_environment; [|done|done]. split; [done | done | cbn; unfold len in *; nia | done]. }
  assert (∃ a, not_rosca_account a) as [a Hown].
  { destruct (lookup_lt_is_Some_2 l k Hk) as [a Hl]. exists a. apply (solvent_participants _ _ Hsol r).
    by apply (running_participants _ _ _ _ _ Hrun), (list_elem_of_lookup_2 _ _ _ Hl). }
  destruct (manually_end_rosca_claimable pa d l k t r a (set_Now now s)) as (s' & Hend & Hs'); [by destruct Hsol; split | done | done | done | cbn; lia |].
  exists s'. split; [|done]. eapply rtc_l; [exact Hwait|].
  apply rtc_once. by apply (owned_call _ _ a (Call_manually_end_rosca r)).
Qed.
End liveness.
