(* ===== verification/RoscaFairness.v ===== *)
(** A ROSCA that everybody keeps: in every round all participants but the claimant
    contribute before the cutoff.  Each of them then pays as many contributions as it
    receives, and in between its account is off by exactly the credit or the savings
    of the rounds that have passed. *)

From S2P Require Import Prelude RoscaTypes RoscaRounds RoscaCalls RoscaLogic RoscaFrame.
From S2P Require Import RoscaSchedule RoscaInvariant RoscaPreservation.
From S2P Require Import RoscaMembership RoscaLifecycle RoscaSafety RoscaMoney RoscaLiveness.

Section runs.
Context {T : Config}.

(** One round: at the time [round.1] the accounts [round.2] contribute, one after the
    other; and a sequence of rounds. *)
Definition honest_round (r : RoscaId) (round : Moment * list AccountId) : M unit :=
  _ ← modify (set_Now (round.1));
  for_each (round.2) (λ a, dispatch (Signed a) (Call_contribute_to_rosca r)).
Definition honest_run (r : RoscaId) (rounds : list (Moment * list AccountId)) : M unit :=
  for_each rounds (honest_round r).

(** Round [k] of a ROSCA of the claimants [l], started at [t], is kept: all but its
    claimant contribute, before its cutoff. *)
Definition kept (d : RoscaDetails) (l : list AccountId) (t : Moment) (k : nat)
    (round : Moment * list AccountId) : Prop :=
  (∃ c, l !! k = Some c ∧ c :: round.2 ≡ₚ l) ∧ round.1 < t + contribution_frequency d * (Z.of_nat k + 1).

(** What [a] is ahead of its own payments after [k] rounds, in contributions: who has
    been the claimant has received one of each other participant, and everybody has paid
    the rounds of the others. *)
Definition position (l : list AccountId) (k : nat) (a : AccountId) : Z :=
  if decide (a ∈ l) then (if decide (a ∈ take k l) then len l else 0) - Z.of_nat k else 0.
End runs.

Section fairness.
Context {T : Config} {L : ConfigLaws T} {F : LedgerLaws T} {G : LedgerProgress T}.
Context (r : RoscaId) (d : RoscaDetails) (l : list AccountId) (t : Moment).
Context (v0 : RoscaView) (balance : AccountId → Z).
Implicit Types (s : State) (k : nat) (a c p : AccountId) (ds ps : list AccountId).
Abbreviation asset := (PaymentAssets_id (payment_asset d)).
Abbreviation amount := (contribution_amount d).

(** Every participant can pay all its contributions. *)
Hypothesis funds : ∀ a, a ∈ l → amount * (len l - 1) ≤ balance a.

(** After [k] rounds and the contributions of [ds] to the claimant [c]. *)
Definition paid k ds (c : option AccountId) a : Z :=
  position l k a + (if decide (c = Some a) then len ds else 0) - (if decide (a ∈ ds) then 1 else 0).

(** The ledger then, and what the ROSCA keeps: nobody touches the deposits. *)
Record accounts (shift : AccountId → Z) s : Prop := {
  accounts_balance a : asset_balance (Ledger s) asset a = balance a + amount * shift a;
  accounts_transferable : asset_transferable (Ledger s) asset;
  accounts_minimum : asset_minimum_balance (Ledger s) asset ≤ 1;
  accounts_deposits : v_deposits (view r s) = v_deposits v0;
  accounts_defaults : v_defaults (view r s) = v_defaults v0;
}.

(** In round [k], [ds] have contributed. *)
Record in_round k ds s : Prop := {
  in_round_running : running d l k t (view r s);
  in_round_contributors a : is_Some (v_contributors (view r s) !! a) ↔ a ∈ ds;
  in_round_contributions : v_contributions (view r s) = len ds;
  in_round_accounts : accounts (paid k ds (l !! k)) s;
}.

(** Between two rounds, or after the last one. *)
Definition between k s : Prop :=
  ((k < length l)%nat → in_round k [] s) ∧
  (k = length l → completed_roscas r s = Some tt ∧ accounts (position l k) s).

Lemma accounts_ext shift shift' s : (∀ a, shift a = shift' a) → accounts shift s → accounts shift' s.
Proof. intros Hs []. split; try done. intros a. by rewrite <- Hs. Qed.

Lemma paid_nil k (c : option AccountId) a : paid k [] c a = position l k a.
Proof. unfold paid. rewrite (decide_False (P := a ∈ [])) by set_solver. unfold len. case_decide; cbn; lia. Qed.

(** A contribution is covered as long as somebody is still to be a claimant. *)
Lemma covered k ds c p s :
  in_round k ds s → l !! k = Some c → p ∈ l → p ∉ ds → p ≠ c →
  amount ≤ asset_balance (Ledger s) asset p.
Proof.
  intros [Hrun _ _ [Hb _ _ _ _]] Hc Hp Hds Hpc.
  pose proof (details_amount _ (running_details _ _ _ _ _ Hrun)) as Hamt.
  rewrite Hb. pose proof (funds p Hp) as Hf. apply lookup_lt_Some in Hc as Hk.
  unfold paid, position. rewrite Hc, !(decide_False (P := _ ∈ ds)), (decide_True (P := p ∈ l)) by done.
  rewrite (decide_False (P := Some c = Some p)) by congruence.
  destruct (decide (p ∈ take k l)) as [Ht|Ht]; [unfold len in *; nia|].
  assert (S k < length l)%nat; [|unfold len in *; nia].
  apply list_elem_of_lookup in Hp as [i Hi]. apply lookup_lt_Some in Hi as Hlt.
  assert (i ≠ k) by congruence. assert (¬ (i < k)%nat); [|lia].
  intros Hik. apply Ht. apply list_elem_of_lookup. exists i. by rewrite lookup_take_lt.
Qed.

(** The transfer of a contribution. *)
Lemma accounts_transfer k ds c p s s' :
  in_round k ds s → l !! k = Some c → p ∉ ds → p ≠ c →
  asset_transfer asset p c amount (Ledger s) = inl (Ledger s') →
  v_deposits (view r s') = v_deposits (view r s) → v_defaults (view r s') = v_defaults (view r s) →
  accounts (paid k (ds ++ [p]) (Some c)) s'.
Proof.
  intros [Hrun _ _ [Hb Ht Hm Hd Hf]] Hc Hp Hpc Htr Hd' Hf'.
  pose proof (details_amount _ (running_details _ _ _ _ _ Hrun)) as Hamt.
  split; [|by apply (transferable_transfer _ _ _ _ _ _ _ Htr) | by rewrite (transfer_minimum _ _ _ _ _ _ _ Htr)
          | congruence | congruence].
  intros a. rewrite (transfer_net _ _ _ _ _ _ asset a Htr), Hb, Hc by (done || lia).
  unfold net, paid, len. cbn [t_asset t_from t_to t_amount]. rewrite (decide_True (P := asset = asset)) by done.
  rewrite length_app. cbn [length].
  destruct (decide (p = a)) as [->|Hpa].
  - rewrite (decide_False (P := c = a)), !(decide_False (P := Some c = Some a)) by congruence.
    rewrite (decide_False (P := a ∈ ds)), (decide_True (P := a ∈ ds ++ [a])) by set_solver. lia.
  - assert (a ∈ ds ++ [p] ↔ a ∈ ds) as Ha by set_solver. rewrite (decide_ext _ _ _ _ Ha).
    destruct (decide (c = a)) as [->|Hca].
    + rewrite !(decide_True (P := Some a = Some a)) by done. destruct (decide (a ∈ ds)); lia.
    + rewrite !(decide_False (P := Some c = Some a)) by congruence. lia.
Qed.

(** The round is over: the claimant has received, the others have paid. *)
Lemma paid_round k c ds a :
  NoDup l → l !! k = Some c → c :: ds ≡ₚ l → paid k ds (Some c) a = position l (S k) a.
Proof.
  intros Hnd Hc Hl. pose proof (Permutation_length Hl) as Hlen. cbn in Hlen.
  assert (∀ b, b ∈ l ↔ b = c ∨ b ∈ ds) as Hin by (intros b; rewrite <- Hl; set_solver).
  assert (c ∉ ds) as Hcds by (rewrite <- Hl in Hnd; by apply NoDup_cons in Hnd as [? _]).
  assert (c ∉ take k l) as Hct.
  { intros (i & Hi)%list_elem_of_lookup. apply lookup_take_Some in Hi as [Hi Hik].
    pose proof (NoDup_lookup _ _ _ _ Hnd Hi Hc). lia. }
  unfold paid, position. rewrite (take_S_r _ _ _ Hc). unfold len.
  destruct (decide (c = a)) as [->|Hca].
  - rewrite (decide_True (P := Some a = Some a)), (decide_False (P := a ∈ ds)), !(decide_True (P := a ∈ l)) by naive_solver.
    rewrite (decide_False (P := a ∈ take k l)), (decide_True (P := a ∈ _ ++ _)) by set_solver. lia.
  - rewrite (decide_False (P := Some c = Some a)) by congruence.
    assert (a ∈ take k l ++ [c] ↔ a ∈ take k l) as Ha by set_solver. rewrite (decide_ext _ _ _ _ Ha).
    destruct (decide (a ∈ l)) as [Hal|Hal].
    + rewrite (decide_True (P := a ∈ ds)) by naive_solver. case_decide; lia.
    + rewrite (decide_False (P := a ∈ ds)) by naive_solver. lia.
Qed.
(** A participant of the round who has not contributed yet does so; the ledger cannot
    refuse. *)
Lemma contribution_accepted k ds c p s :
  in_round k ds s → l !! k = Some c → p ∈ l → p ∉ ds → p ≠ c →
  Now s < t + contribution_frequency d * (Z.of_nat k + 1) →
  wp (dispatch (Signed p) (Call_contribute_to_rosca r)) s
    (λ _ s', Now s' = Now s ∧ contributed d l k t p (view r s) (view r s') ∧
       accounts (paid k (ds ++ [p]) (Some c)) s') (λ _, False).
Proof.
  intros Hs Hc Hp Hpd Hpc Hnow. apply lookup_lt_Some in Hc as Hk.
  pose proof (covered k ds c p s Hs Hc Hp Hpd Hpc) as Hcov.
  pose proof (λ s', accounts_transfer k ds c p s s' Hs Hc Hpd Hpc) as Htransfer.
  pose proof (λ s' H, frame_now _ _ _ (dispatch_frame (Signed p) (Call_contribute_to_rosca r) s s' eq_refl H)) as Htime.
  destruct Hs as [Hrun Hcon _ Hacc].
  assert (v_contributors (view r s) !! p = None) as Hnone by (apply eq_None_not_Some; by rewrite Hcon).
  pose proof (wp_contribute_on_time p d l k t c r s (λ _ s',
    asset_transfer asset p c amount (Ledger s) = inl (Ledger s') ∧ contributed d l k t p (view r s) (view r s'))
    Hrun Hk Hp Hc (not_eq_sym Hpc) Hnone Hnow (λ s' H _ H', conj H H')) as Hwp.
  cbn [dispatch] in *. unfold wp in *. destruct (contribute_to_rosca (Signed p) r s) as [[[] s']|e| |]; try done.
  - destruct Hwp as [Htr Hcd]. split_and!; [by apply Htime | done|].
    by apply Htransfer; [|destruct Hcd as [_ ->|_ _ ->|_ _ ->]..].
  - destruct Hwp as (te & _ & Hte). pose proof (details_amount _ (running_details _ _ _ _ _ Hrun)).
    destruct Hacc, (transfer_succeeds asset p c amount (Ledger s)) as [ledger Htr]; [done | lia | done | lia | congruence].
Qed.

(** One contribution of a round in which [rest] are still to contribute. *)
Lemma honest_contribution k ds c p rest s :
  in_round k ds s → l !! k = Some c → c :: ds ++ p :: rest ≡ₚ l →
  Now s < t + contribution_frequency d * (Z.of_nat k + 1) →
  wp (dispatch (Signed p) (Call_contribute_to_rosca r)) s
    (λ _ s', Now s' = Now s ∧ if rest is [] then between (S k) s' else in_round k (ds ++ [p]) s') (λ _, False).
Proof.
  intros Hs Hc Hl Hnow. apply lookup_lt_Some in Hc as Hk.
  pose proof (running_NoDup _ _ _ _ _ (in_round_running _ _ _ Hs)) as Hnd. pose proof (Permutation_length Hl) as Hlen.
  assert (p ∈ l ∧ p ∉ ds ∧ p ≠ c) as (Hp & Hpd & Hpc).
  { rewrite <- Hl in Hnd |- *. apply NoDup_cons in Hnd as [Hcn Hnd]. apply NoDup_app in Hnd as (_ & Hdis & _). set_solver. }
  rewrite length_cons, length_app, length_cons in Hlen.
  refine (wp_mono _ _ _ _ _ _ (contribution_accepted k ds c p s Hs Hc Hp Hpd Hpc Hnow) _ (λ _ h, h)).
  intros _ s' (Htime & Hcd & Hacc). split; [done|]. destruct Hs as [Hrun Hcon Hcount _].
  assert (v_contributors (view r s) !! p = None) as Hnone by (apply eq_None_not_Some; by rewrite Hcon).
  assert (rest = [] → ∀ a, paid k (ds ++ [p]) (Some c) a = position l (S k) a) as Hround
    by (intros -> a; by apply paid_round).
  destruct Hcd as [Hn Hv|Hn Hk' Hv|Hn Hk' Hv]; rewrite Hcount in Hn; unfold len in Hn;
    destruct rest as [|q rest]; cbn [length] in Hlen; try lia.
  - split; [| | |by rewrite Hc]; rewrite Hv.
    + apply running_contribute; try done. unfold len. by rewrite Hcount.
    + intros a. cbn [v_contributors contribute_view]. destruct (decide (p = a)) as [->|Hpa].
      * rewrite gmap_insert_eq. set_solver.
      * rewrite gmap_insert_ne, Hcon by done. set_solver.
    + cbn [v_contributions contribute_view]. rewrite Hcount. unfold len. rewrite length_app. cbn. lia.
  - split; [|lia]. intros _. split; [by rewrite Hv; apply running_advance | | by rewrite Hv |].
    + intros a. rewrite Hv. cbn. rewrite lookup_empty. split; [by intros []|]. set_solver.
    + eapply accounts_ext; [|exact Hacc]. intros a. rewrite paid_nil. auto.
  - split; [lia|]. intros _. split; [exact (f_equal v_completed Hv)|]. eapply accounts_ext; [auto | exact Hacc].
Qed.

(** A round, and rounds one after the other, from the state between two rounds. *)
Lemma honest_round_kept k round s :
  (2 ≤ length l)%nat → between k s → (k < length l)%nat → kept d l t k round →
  wp (honest_round r round) s (λ _, between (S k)) (λ _, False).
Proof.
  intros H2 [Hs _] Hk [(c & Hc & Hl) Hnow]. specialize (Hs Hk). destruct round as [now ps]. cbn in *.
  unfold honest_round. wp_auto. cbn.
  apply (wp_for_each (λ todo s', Now s' = now ∧
    if todo is [] then between (S k) s' else ∃ ds, c :: ds ++ todo ≡ₚ l ∧ in_round k ds s')).
  - split; [done|]. destruct ps as [|p ps]; [apply Permutation_length in Hl; cbn in Hl; lia|].
    exists []. split; [done|]. destruct Hs as [? ? ? []]. by split.
  - intros p todo s' [<- (ds & Hl' & Hds)].
    refine (wp_mono _ _ _ _ _ _ (honest_contribution k ds c p todo s' Hds Hc Hl' Hnow) _ (λ _ h, h)).
    intros _ s2 [Htime Hs2]. split; [done|]. destruct todo as [|q todo]; [done|].
    exists (ds ++ [p]). by rewrite <- app_assoc.
  - by intros s' [_ ?].
Qed.

Lemma honest_run_kept k rounds s :
  (2 ≤ length l)%nat → between k s → (k + length rounds ≤ length l)%nat →
  (∀ i round, rounds !! i = Some round → kept d l t (k + i) round) →
  wp (honest_run r rounds) s (λ _, between (k + length rounds)) (λ _, False).
Proof.
  intros H2. revert k s. induction rounds as [|round rounds IH]; intros k s Hs Hlen Hkept; cbn [length] in *.
  { rewrite Nat.add_0_r. by apply wp_ret. }
  apply wp_bind. eapply wp_mono; [apply (honest_round_kept k); [done | done | lia |] | | done].
  { specialize (Hkept 0%nat round eq_refl). by rewrite Nat.add_0_r in Hkept. }
  intros [] s' Hs'. rewrite Nat.add_succ_r. apply (IH (S k)); [done | lia|].
  intros i round' Hi. specialize (Hkept (S i) round' Hi). by rewrite Nat.add_succ_r in Hkept.
Qed.

(** A state between rounds, at the start and afterwards. *)
Lemma between_start s :
  running d l 0 t (view r s) → v_contributors (view r s) = ∅ → v_contributions (view r s) = 0 →
  asset_transferable (Ledger s) asset → asset_minimum_balance (Ledger s) asset ≤ 1 →
  (∀ a, balance a = asset_balance (Ledger s) asset a) →
  v_deposits (view r s) = v_deposits v0 → v_defaults (view r s) = v_defaults v0 → (0 < length l)%nat → between 0 s.
Proof.
  intros Hrun Hnone Hzero Htr Hmin Hb Hd Hf Hl. split; [|lia]. intros _. split; try done.
  - intros a. rewrite Hnone, lookup_empty. split; [by intros []|]. set_solver.
  - split; try done. intros a. rewrite paid_nil, Hb. unfold position.
    rewrite (decide_False (P := a ∈ take 0 l)) by set_solver. case_decide; lia.
Qed.

Lemma between_accounts k s :
  (k ≤ length l)%nat → between k s →
  accounts (position l k) s ∧ (k = length l → completed_roscas r s = Some tt).
Proof.
  intros Hk [Hin Hend]. destruct (decide (k = length l)) as [->|Hne].
  - destruct (Hend eq_refl) as [? ?]. by split.
  - split; [|done]. eapply accounts_ext; [|exact (in_round_accounts _ _ _ (Hin ltac:(lia)))]. intros a. apply paid_nil.
Qed.

(** In the end nobody is ahead. *)
Lemma position_end a : position l (length l) a = 0.
Proof.
  unfold position, len. rewrite firstn_all. repeat case_decide; done || lia.
Qed.
End fairness.

Section start.
Context {T : Config} {L : ConfigLaws T}.

(** A computation that cannot fail. *)
Lemma wp_total (m : M unit) s (Q : unit → State → Prop) : wp m s Q (λ _, False) → ∃ s', m s = Ok (tt, s') ∧ Q tt s'.
Proof. unfold wp. destruct (m s) as [[[] s']| | |]; naive_solver. Qed.

(** What a successful start leaves: the first round, in which nobody has contributed. *)
Lemma start_running o r d l s s1 :
  Inv s → rosca_details r s = Some d → start_rosca o r s = Ok (tt, s1) →
  active_rosca_participants_order r s1 = Some (ring_order l 0) →
  running d l 0 (Now s) (view r s1) ∧ v_contributors (view r s1) = ∅ ∧ v_contributions (view r s1) = 0.
Proof.
  intros HI Hpend Hstart Ho.
  destruct (wp_Ok _ _ _ _ _ _ (wp_start_rosca o r s HI) Hstart) as (a & d' & slots & _ & Hok & [Hv _] & (a1 & ? & _ & Hstep & _)).
  assert (d' = d) as ->.
  { change (v_pending (view r s) = Some d) in Hpend. rewrite (pending_pending _ _ _ Hok) in Hpend. congruence. }
  change (v_order (view r s1) = Some (ring_order l 0)) in Ho.
  set (l' := start_order d slots s) in *. rewrite Hv in Ho, Hstep |- *.
  remember (start_view d l' (Now s) (view r s)) as v1 eqn:Hv1 in Hstep.
  inversion Hstep as [ | |? d2 o2 l2 c2 v Hok2 Hn Ha Hthr Hl Hord Hnow Hb Hc2 Hr Hv2 Heq| | | | | ].
  rewrite Hv1 in Heq. apply start_view_inj in Heq as [-> ->].
  assert (l = l') as ->.
  { injection Ho as Ho. apply (ring_order_inj _ _ 0); [|done]. by rewrite <- (length_ring_order l 0), <- Ho, length_ring_order. }
  split; [|by destruct Hok].
  apply (pending_start _ _ _ _ _ Hok2 Hl); [|done..].
  destruct Ha as [i Hi%(pending_participants _ _ _ Hok2)]. destruct Hi as [_ Hi].
  assert (a1 ∈ l') as Hin by (rewrite Hl; apply elem_of_omap_id; eauto).
  destruct l'; [by apply elem_of_nil in Hin | cbn; lia].
Qed.
End start.
