(* ===== verification/RoscaScenarios.v ===== *)
(** Concrete executions of the pallet on the sample configuration: the states of
    [pallets/rosca/src/tests.rs] at which the theorems are instantiated, and proofs
    that these states are reachable. *)

From S2P Require Import Prelude RoscaTypes RoscaRounds RoscaCalls RoscaLogic RoscaFrame.
From S2P Require Import RoscaSample RoscaSchedule RoscaInvariant RoscaPreservation.
From S2P Require Import RoscaMembership RoscaLifecycle RoscaSafety RoscaMoney RoscaLiveness.

(** * Scenarios *)

Section play.
Context {T : Config} {L : ConfigLaws T}.
Implicit Types (s : State).

(** What a scenario does: a signed call, or a jump in time. *)
Inductive action : Type :=
  | Do (who : AccountId) (c : Call)
  | At (now : Moment).

(** Run a scenario in which every call succeeds. *)
Fixpoint play (actions : list action) s : option State :=
  match actions with
  | [] => Some s
  | Do who c :: rest =>
    match dispatch (Signed who) c s with
    | Ok (_, s') => play rest s'
    | _ => None
    end
  | At now :: rest => if (Now s <=? now) && (now <=? u64_MAX) then play rest (set_Now now s) else None
  end.

(** The calls of a scenario are well-formed; the condition on [create_rosca] is stated at
    the identifier [next], with which only its calls of [create_rosca] interfere. *)
Fixpoint admitted_from s0 (next : RoscaId) (actions : list action) : Prop :=
  match actions with
  | [] => True
  | Do _ c :: rest =>
    admissible (set_NextRoscaId next s0) c ∧ admitted_from s0 (if is_create c then next + 1 else next) rest
  | At _ :: rest => admitted_from s0 next rest
  end.

Lemma admissible_next s s' c : NextRoscaId s = NextRoscaId s' → admissible s c → admissible s' c.
Proof. intros Heq. unfold admissible. by rewrite Heq. Qed.

Lemma dispatch_next o c s s1 :
  Inv s → admissible s c → dispatch o c s = Ok (tt, s1) →
  NextRoscaId s1 = if is_create c then NextRoscaId s + 1 else NextRoscaId s.
Proof.
  intros HI Hc Hrun. destruct (is_create c) eqn:Hcr.
  - destruct c; try done. destruct Hc as [Hd [Hn Hp]].
    destruct (wp_Ok _ _ _ _ _ _ (wp_create_rosca _ _ _ _ _ _ _ _ _ _ s HI Hd Hn Hp) Hrun)
      as (a & _ & _ & Hcre). by rewrite (creates_next _ _ _ _ _ _ Hcre).
  - by rewrite (frame_next _ _ _ (dispatch_frame _ _ _ _ Hcr Hrun)).
Qed.

(** All accounts of a scenario satisfy [own]. *)
Fixpoint owned_by (own : AccountId → bool) (actions : list action) : bool :=
  match actions with
  | [] => true
  | Do who _ :: rest => own who && owned_by own rest
  | At _ :: rest => owned_by own rest
  end.

Lemma play_owned own s0 actions s s' :
  (∀ who, own who = true → not_rosca_account who) →
  Inv s → admitted_from s0 (NextRoscaId s) actions → owned_by own actions = true → play actions s = Some s' →
  rtc owned_step s s'.
Proof.
  intros Hacc. revert s. induction actions as [|[who c|now] actions IH]; intros s HI Hadm Hown Hplay; cbn in *.
  - by simplify_eq.
  - destruct Hadm as [Hc Hadm]. apply (admissible_next _ s) in Hc; [|done].
    apply andb_true_iff in Hown as [Hwho Hown].
    pose proof (dispatch_next (Signed who) c s) as Hnext.
    destruct (dispatch _ c s) as [[[] s1]| | |] eqn:Hrun; try done.
    eapply rtc_l; [apply (owned_call _ _ who c); [by apply Hacc|done|exact Hrun]|].
    apply (IH s1); [by eapply Inv_dispatch | | done | done]. by rewrite (Hnext s1 HI Hc eq_refl).
  - destruct ((Now s <=? now) && (now <=? u64_MAX)) eqn:Hnow; [|done].
    assert (owned_step s (set_Now now s)) as Hstep.
    { apply owned_environment; [|done|done]. split; cbn; [done | done | lia | done]. }
    eapply rtc_l; [exact Hstep|]. apply IH; try done.
    eapply Inv_chain_step; [done | by apply owned_chain_step].
Qed.
End play.

(** * On the sample configuration *)

Definition admitted : RoscaId → list action → Prop := admitted_from (T := Sample) (genesis 0).

(** No account of a scenario is the account of a ROSCA. *)
Definition ordinary (who : Z) : bool := who <? 2 ^ 40.
Definition owned : list action → bool := owned_by (T := Sample) ordinary.

Lemma ordinary_account who : ordinary who = true → not_rosca_account (T := Sample) who.
Proof. unfold ordinary. intros Hwho r Hr. unfold rosca_account_id. cbn. unfold in_width in Hr. lia. Qed.

Lemma genesis_reachable now : in_width u64_MAX now → reachable (genesis now).
Proof. intros Hnow. exists (genesis now). split; [|reflexivity]. by split. Qed.

(** A scenario from the genesis of the mock runtime at time 1. *)
Definition state_after (actions : list action) : State (T := Sample) :=
  default (genesis 1) (play actions (genesis 1)).
Definition plays (actions : list action) : bool :=
  match play actions (genesis 1) with Some _ => true | None => false end.

Lemma scenario_owned actions :
  admitted 0 actions → owned actions = true → plays actions = true →
  rtc owned_step (genesis 1) (state_after actions).
Proof.
  unfold plays, state_after. intros Hadm Hown Hplays.
  destruct (play actions (genesis 1)) eqn:Hplay; [|done].
  eapply play_owned; [exact ordinary_account | | exact Hadm | done | exact Hplay]. by apply Inv_genesis.
Qed.

Lemma scenario_reachable actions :
  admitted 0 actions → owned actions = true → plays actions = true → reachable (state_after actions).
Proof.
  intros Hadm Hown Hplays. exists (genesis 1). split; [by split|].
  eapply (rtc_subrel owned_step); [exact owned_chain_step | by apply scenario_owned].
Qed.

(** The conditions are decided by evaluation. *)
Ltac reach := apply scenario_reachable; [vm_compute; repeat split; discriminate | by vm_compute | by vm_compute].

(** The sample ledger satisfies the laws of the ledger. *)
#[export] Instance Sample_ledger : LedgerLaws Sample.
Proof.
  split; cbn; unfold ledger_transfer.
  - intros ledger asset who. unfold ledger_balance. lia.
  - intros asset from to amount ledger ledger'. destruct (_ <? _) eqn:Hlt; [done|].
    intros Htr Ha Hne _. rewrite decide_False in Htr by done. injection Htr as <-. unfold ledger_balance at 1.
    rewrite lookup_insert_ne, lookup_insert_eq by congruence. cbn. lia.
  - intros asset from to amount ledger ledger'. destruct (_ <? _) eqn:Hlt; [done|].
    intros Htr Ha Hne _. rewrite decide_False in Htr by done. injection Htr as <-. unfold ledger_balance at 1.
    rewrite lookup_insert_eq. cbn. unfold ledger_balance in *. lia.
  - intros asset who amount ledger ledger'. destruct (_ <? _); [done|]. rewrite decide_True by done. naive_solver.
  - intros asset asset' from to amount ledger ledger' who. destruct (_ <? _); [done|].
    intros Htr Hne. case_decide; injection Htr as <-; [done|]. unfold ledger_balance at 1.
    rewrite !lookup_insert_ne by naive_solver. done.
  - done.
  - unfold rosca_account_id. cbn. intros. lia.
Qed.

#[export] Instance Sample_progress : LedgerProgress Sample.
Proof.
  refine {| asset_transferable := λ _ _, True |}; [done|]. cbn. unfold ledger_transfer.
  intros asset from to amount ledger _ _ Hcov _. rewrite (proj2 (Z.ltb_ge _ _)) by done. case_decide; eauto.
Defined.

(** The state after a call, or the same state when it fails. *)
Definition run_or_stay (who : Z) (c : Call (T := Sample)) (s : State (T := Sample)) : State (T := Sample) :=
  match dispatch (Signed who) c s with Ok (_, s') => s' | _ => s end.

Definition succeeds (who : Z) (c : Call (T := Sample)) (s : State (T := Sample)) : bool :=
  match dispatch (Signed who) c s with Ok _ => true | _ => false end.

Lemma run_or_stay_Ok who c s : succeeds who c s = true → dispatch (Signed who) c s = Ok (tt, run_or_stay who c s).
Proof. unfold succeeds, run_or_stay. by destruct (dispatch _ c s) as [[[] s']| | |]. Qed.

Lemma run_or_stay_call (m : M (T := Sample) unit) who c s :
  dispatch (Signed who) c = m → succeeds who c s = true → m s = Ok (tt, run_or_stay who c s).
Proof. intros <-. apply run_or_stay_Ok. Qed.

(** [setup_basic_rosca] of the tests: accounts 1, 2 and 3, contribution 100,
    frequency 10, started at time 1. *)
Definition joined : list action :=
  [Do 1 (Call_create_rosca false [2; 3] 3 100 USDT 10 20 (Some 0) [1]);
   Do 2 (Call_join_rosca 0 None); Do 3 (Call_join_rosca 0 None)].
Definition basic : list action := joined ++ [Do 1 (Call_start_rosca 0)].

Lemma joined_reachable : reachable (state_after joined).
Proof. reach. Qed.
Lemma basic_reachable : reachable (state_after basic).
Proof. reach. Qed.

(** The first round has passed without a contribution. *)
Definition late : list action := basic ++ [At 12].
Lemma late_reachable : reachable (state_after late).
Proof. reach. Qed.

(** The parameters of the basic scenario. *)
Definition basic_details : RoscaDetails := mkRoscaDetails false 3 3 100 USDT 10 20 [1].
Definition basic_create : Call (T := Sample) :=
  Call_create_rosca false [2; 3] 3 100 USDT 10 20 (Some 0) [1].

(** Only the creator has joined. *)
Definition alone : list action := [Do 1 basic_create].
Lemma alone_reachable : reachable (state_after alone).
Proof. reach. Qed.

(** All rounds have passed without a contribution. *)
Definition over : list action := basic ++ [At 40].
Lemma over_reachable : reachable (state_after over).
Proof. reach. Qed.

(** The creator has made a deposit of 500; all rounds have passed and account 4 has
    ended the ROSCA. *)
Definition deposited : list action := joined ++ [Do 1 (Call_add_to_security_deposit 0 500)].
Definition ended : list action :=
  deposited ++ [Do 1 (Call_start_rosca 0); At 40; Do 4 (Call_manually_end_rosca 0)].
Lemma ended_reachable : reachable (state_after ended).
Proof. reach. Qed.
