(* ===== verification/RoscaTheorems.v ===== *)
(** The correctness theorems of the ROSCA pallet, each with an instance on the sample
    configuration where it has hypotheses. *)

From S2P Require Import Prelude RoscaTypes RoscaRounds RoscaCalls RoscaLogic RoscaFrame.
From S2P Require Import RoscaSample RoscaSchedule RoscaInvariant RoscaPreservation.
From S2P Require Import RoscaMembership RoscaLifecycle RoscaSafety RoscaMoney RoscaLiveness RoscaFairness RoscaScenarios.

Section theorems.
Context {T : Config} {L : ConfigLaws T}.
Implicit Types (s : State) (r : RoscaId) (v : RoscaView) (d : RoscaDetails) (l : list AccountId).
Implicit Types (a : AccountId) (o : Origin) (c : Call).

(** C1: in every reachable state of the chain, every admissible call of the pallet ends:
    it does not panic and none of its loops runs on.  It succeeds in a state that
    satisfies the storage invariant again, or it fails with one of the errors listed
    for that call, an error of the asset ledger for the calls that move assets, or a
    bad origin. *)
Theorem dispatch_safe o c s :
  reachable s → admissible s c → wp (dispatch o c) s (λ _, Inv) (reported c).
Proof. intros Hs. apply dispatch_reported. by apply Inv_reachable. Qed.

(** C2: a successful call on an existing ROSCA is a step of the life-cycle
    specification on the view of that ROSCA, at the current time and by the signer,
    and makes exactly the transfers and deposits exactly the events that this step
    prescribes, in their order; it writes nothing under any other ROSCA's key and keeps
    the next identifier. *)
Theorem dispatch_refines o c s s' :
  reachable s → call_decodable c → is_create c = false → dispatch o c s = Ok (tt, s') →
  let r := call_rosca (NextRoscaId s) c in
  frame r s s' ∧
  ∃ a fx, o = Signed a ∧ rosca_step (Now s) a c (view r s) (view r s') fx ∧ performs fx s s'.
Proof.
  intros Hs Hc Hn Hrun r. split; [by apply (dispatch_frame _ _ _ _ Hn Hrun)|].
  exact (wp_Ok _ _ _ _ _ _ (dispatch_moves o c s (Inv_reachable _ Hs) Hc Hn) Hrun).
Qed.

(** C3: [create_rosca] in a reachable state: a successful call records the given
    parameters under the next identifier, with as many positions as there are different
    invited accounts and the creator, the creator on the requested position (by default
    the first) and the invited accounts and the creator on the invitation list; every
    other ROSCA stays as it is, and the event lists the creator and the invited
    accounts, sorted and without duplicates. *)
Theorem create_rosca_creates o random invited threshold amount asset frequency start_by position
    rosca_name s s' :
  let c := Call_create_rosca random invited threshold amount asset frequency start_by position rosca_name in
  let d := created random invited threshold amount asset frequency start_by rosca_name in
  let l := dedup (merge_sort AccountId_le invited) in
  reachable s → admissible s c → dispatch o c s = Ok (tt, s') →
  (NoDup l ∧ ∀ b, b ∈ l ↔ b ∈ invited) ∧
  ∃ a, o = Signed a ∧ details_ok d ∧ creates a d (default 0 position) l s s'.
Proof.
  intros c d l Hs [Hd [Hn Hp]] Hrun. destruct (invited_spec invited) as (Hnd & Hl & _). split; [done|].
  exact (wp_Ok _ _ _ _ _ _ (wp_create_rosca o _ _ _ _ _ _ _ _ _ s (Inv_reachable _ Hs) Hd Hn Hp) Hrun).
Qed.

(** C4: [start_rosca] in a reachable state: a successful call fixes the order of the
    claimants, by position or by the shuffle of the reversed positions; the first
    claimant, the first and the final pay-by time follow from it; and the event
    announces exactly the schedule of this order: one round per participant,
    [contribution_frequency] apart, each paid by all the others. *)
Theorem start_rosca_starts o r s s' :
  reachable s → start_rosca o r s = Ok (tt, s') →
  ∃ a d slots, o = Signed a ∧ pending_ok d slots (view r s) ∧
    start_order d slots s ≡ₚ omap id slots ∧ starts a d (start_order d slots s) r s s'.
Proof.
  intros Hs Hrun.
  destruct (wp_Ok _ _ _ _ _ _ (wp_start_rosca o r s (Inv_reachable _ Hs)) Hrun)
    as (a & d & slots & ? & ? & ? & _).
  exists a, d, slots. split_and!; try done. apply start_order_Permutation.
Qed.

(** C5: an active ROSCA follows the schedule announced when it was started: in some
    round of it, the eligible claimant is the recipient and the next pay-by time the
    cutoff of this round, and the final pay-by time is the cutoff of the last
    round. *)
Theorem active_rosca_on_schedule r d s :
  reachable s → active_roscas r s = Some d →
  ∃ who rounds first n (k : nat) round final,
    RoscaStarted r who rounds first n ∈ Events s ∧ rounds !! k = Some round ∧ last rounds = Some final ∧
    eligible_claimant r s = Some (recipient round) ∧
    next_pay_by_timestamp r s = Some (payment_cutoff round) ∧
    final_pay_by_timestamp r s = Some (payment_cutoff final).
Proof.
  intros Hs Ha.
  destruct (active_running _ _ _ (Inv_reachable _ Hs) Ha) as (l & k & t & Hrun & Hk & who & c & n & Hev).
  destruct (lookup_lt_is_Some_2 l k Hk) as [x Hx].
  destruct (lookup_lt_is_Some_2 l (pred (length l))) as [y Hy]; [lia|].
  exists who, (schedule l t (contribution_frequency d)), c, n, k,
    (round_of l t (contribution_frequency d) k x),
    (round_of l t (contribution_frequency d) (pred (length l)) y).
  unfold schedule. rewrite last_lookup, length_imap, !list_lookup_imap, Hx, Hy.
  destruct Hrun. rewrite Nat.mod_small in running_claimant by done.
  split_and!; try done; cbn.
  - by rewrite <- Hx.
  - replace (Z.of_nat (pred (length l)) + 1) with (len l) by (unfold len; lia). done.
Qed.

(** C6: [generate_rounds] on a list of distinct participants within the bounds of the
    pallet: the schedule of the reversed list, or an overflow error exactly when the
    cutoff after the last round does not fit a [u64]. *)
Theorem generate_rounds_schedule l t f s :
  NoDup l → 0 ≤ t → 0 ≤ f → len l ≤ MaxParticipants → len l ≤ MaxInvitedParticipants + 1 →
  generate_rounds l t f s =
    if t + f * (len l + 1) <=? u64_MAX then Ok (schedule (reverse l) t f, s)
    else Err (ModuleError ArithmeticOverflow).
Proof.
  intros Hnd Ht Hf Hmax Hinv.
  enough (wp (generate_rounds l t f) s
    (λ x s', t + f * (len l + 1) ≤ u64_MAX ∧ x = schedule (reverse l) t f ∧ s' = s)
    (λ e, u64_MAX < t + f * (len l + 1) ∧ e = ModuleError ArithmeticOverflow)) as Hwp.
  { unfold wp in Hwp. destruct (generate_rounds l t f s) as [[x s']| | |]; try done;
      destruct Hwp as [Hb Hx]; destruct (Z.leb_spec (t + f * (len l + 1)) u64_MAX); try lia;
      [by destruct Hx as [-> ->] | by subst]. }
  by apply wp_generate_rounds.
Qed.

(** C7: [shuffle_participants] always ends with a permutation of the participants, and the
    permutation is determined by a single byte, the first of the twice hashed block
    hash: every draw of the loop uses this byte. *)
Theorem shuffle_participants_shuffles l s :
  shuffle_participants l s = Ok (shuffled (shuffle_byte s) l, s) ∧
  shuffled (shuffle_byte s) l ≡ₚ l ∧ in_width u8_MAX (shuffle_byte s).
Proof.
  split_and!; [|apply shuffled_Permutation|].
  - enough (wp (shuffle_participants l) s (λ x s', x = shuffled (shuffle_byte s) l ∧ s' = s) (λ _, False)) as Hwp.
    { unfold wp in Hwp. destruct (shuffle_participants l s) as [[x s']| | |]; try done.
      by destruct Hwp as [-> ->]. }
    by apply wp_shuffle_participants.
  - unfold shuffle_byte. set (h := blake2_128 (BlockHash s (BlockNumber s))).
    pose proof (blake2_128_length h). pose proof (blake2_128_bytes h) as Hb.
    destruct (blake2_128 h) as [|b bs]; [done|]. by apply Forall_cons in Hb as [? _].
Qed.

(** C8: [process_defaulters] in a reachable state: every participant but the claimant
    who has not contributed in this round loses a contribution of the deposit, or what
    is left of it, and exactly those whose deposit does not cover it get a default recorded (up
    to the [u32] maximum); nobody else's deposit or record changes, and the amounts
    deducted are transferred from the account of the ROSCA to the claimant, each
    deduction and each default announced by its event.  Only the ledger can make it
    fail. *)
Theorem process_defaulters_settles r d claimant l s :
  reachable s → active_roscas r s = Some d → eligible_claimant r s = Some claimant →
  active_rosca_participants_order r s = Some l →
  wp (process_defaulters r) s
    (λ _ s', (settled (contribution_amount d) claimant l (view r s) (view r s') ∧
       performs (l ≫= settlement d r claimant (view r s)) s s') ∧ frame r s s')
    currency_error.
Proof.
  intros Hs Ha Hc Hl.
  destruct (active_running _ _ _ (Inv_reachable _ Hs) Ha) as (l' & k & t & Hrun & Hk & _).
  eapply wp_and; [eapply wp_process_defaulters; try done; destruct Hrun|].
  - assert (l = ring_order l' (k mod length l')) as -> by (enough (Some l = Some (ring_order l' (k mod length l'))) by congruence; by rewrite <- running_order).
    by rewrite ring_order_Permutation.
  - by apply details_amount.
  - done.
  - pose proof (process_defaulters_frame r s) as Hf.
    assert (wp (process_defaulters r) s (λ _ _, True) currency_error) as Hwp
      by (apply (wp_settle_round _ _ _ _ _ _ _ Hrun); done).
    unfold wp in *. destruct (process_defaulters r s) as [[[] s']| | |]; try done. by eapply Hf.
Qed.

(** C9: [advance_rosca_round] on an active ROSCA of a reachable state never fails: the
    last participant of the order becomes the claimant and moves to its front, the
    pay-by time moves by one frequency, the contributions are cleared, and the new
    round is announced. *)
Theorem advance_rosca_round_rotates r d l p x t s :
  reachable s → active_roscas r s = Some d → next_pay_by_timestamp r s = Some t →
  active_rosca_participants_order r s = Some l → l = p ++ [x] →
  wp (advance_rosca_round r) s
    (λ _ s', eligible_claimant r s' = Some x ∧ active_rosca_participants_order r s' = Some (x :: p) ∧
       next_pay_by_timestamp r s' = Some (t + contribution_frequency d) ∧
       (∀ a, current_contributors r a s' = None) ∧ current_contribution_count r s' = 0 ∧
       (∀ a, security_deposit r a s' = security_deposit r a s) ∧
       Events s' = Events s ++ [NewRoundStarted r x (t + contribution_frequency d)] ∧ frame r s s')
    (λ _, False).
Proof.
  intros Hs Ha Ht Hl ->.
  destruct (active_running _ _ _ (Inv_reachable _ Hs) Ha) as (l' & k & t' & Hrun & Hk & _).
  apply (wp_advance_rosca_round _ _ _ _ _ _ _ _ Hrun Hk). intros s' Hv [_ HE] Hfr.
  destruct (ring_order_next l' k Hk) as (y & q & Hy & Ho & Ho').
  pose proof (running_order _ _ _ _ _ Hrun) as Hord. pose proof (running_next _ _ _ _ _ Hrun) as Hnext.
  change (active_rosca_participants_order r s) with (v_order (view r s)) in Hl.
  change (next_pay_by_timestamp r s) with (v_next (view r s)) in Ht.
  rewrite Hl, Nat.mod_small, Ho in Hord by done. injection Hord as [-> ->]%app_inj_tail.
  injection Hv as ? ? ? ? ? Hdep ? Eo ? En ? Ec Econ Ecnt ?. rewrite Ho' in Eo.
  rewrite Ht in Hnext. injection Hnext as ->.
  replace (t' + _ + _) with (t' + contribution_frequency d * (Z.of_nat (S k) + 1)) by lia.
  split_and!; [by unfold eligible_claimant; rewrite Ec | done | | | done | | | done].
  - done.
  - intros b. unfold current_contributors, dlookup. by rewrite Econ, lookup_empty.
  - intros b. unfold security_deposit, dlookup. by rewrite Hdep.
  - rewrite HE. unfold round_started. by rewrite Hy.
Qed.

(** C10: once the final pay-by time of an active ROSCA has passed, [manually_end_rosca]
    by any account ends it, unless the ledger refuses a transfer: the remaining rounds
    are settled from the deposits one after the other, the ROSCA is marked completed,
    and nothing else is transferred or announced. *)
Theorem manually_end_rosca_ends r d t a s :
  reachable s → active_roscas r s = Some d → final_pay_by_timestamp r s = Some t → t < Now s →
  wp (manually_end_rosca (Signed a) r) s
    (λ _ s', active_roscas r s' = None ∧ completed_roscas r s' = Some tt ∧
       ∃ l k start v fx, running d l k start (view r s) ∧
         missed r d l start k (view r s) (length l) v fx ∧ view r s' = complete_view v ∧
         performs (fx ++ [Emitted (RoscaComplete r)]) s s')
    currency_error.
Proof.
  intros Hs Ha Ht Hlate.
  destruct (active_running _ _ _ (Inv_reachable _ Hs) Ha) as (l & k & start & Hrun & Hk & _).
  pose proof (running_final _ _ _ _ _ Hrun) as Hf. change (v_final (view r s)) with (final_pay_by_timestamp r s) in Hf.
  rewrite Ht in Hf. injection Hf as ->.
  eapply wp_manually_end_rosca; [done..|]. intros v s' ts Hm _ Hv Hts. pose proof Hv as Hv'.
  injection Hv' as Eact Ecomp _ _ _ _ _ _ _ _ _ _ _ _ _. eauto 12.
Qed.

(** C11: a contribution of a participant who is not the claimant and has not
    contributed yet, made before the pay-by time of the current round: the
    contribution goes from the signer to the claimant; it is counted, and the last one
    of a round starts the next round or, in the last round, completes the ROSCA; each of
    this is announced.  Only the ledger can refuse it. *)
Theorem contribute_to_rosca_on_time r d claimant next a s :
  reachable s → active_roscas r s = Some d → eligible_claimant r s = Some claimant →
  next_pay_by_timestamp r s = Some next → Now s < next →
  is_Some (participants r a s) → a ≠ claimant → current_contributors r a s = None →
  wp (contribute_to_rosca (Signed a) r) s
    (λ _ s', asset_transfer (PaymentAssets_id (payment_asset d)) a claimant (contribution_amount d)
               (Ledger s) = inl (Ledger s') ∧
       ∃ l k t, running d l k t (view r s) ∧ contributed d l k t a (view r s) (view r s') ∧
         performs (contribution d r l t k a claimant (view r s)) s s')
    currency_error.
Proof.
  intros Hs Ha Hcl Hn Hnow Hmem Hne Hnone.
  destruct (active_running _ _ _ (Inv_reachable _ Hs) Ha) as (l & k & t & Hrun & Hk & _).
  pose proof (running_claimant _ _ _ _ _ Hrun) as Hc. rewrite Nat.mod_small in Hc by done.
  pose proof (running_next _ _ _ _ _ Hrun) as Hnext.
  change (v_next (view r s)) with (next_pay_by_timestamp r s) in Hnext.
  change (v_claimant (view r s)) with (eligible_claimant r s) in Hc.
  rewrite Hn in Hnext. injection Hnext as ->.
  refine (wp_mono _ _ _ _ _ _ _ (λ _ _ h, h) (refused_currency _ _ _ _ _)).
  eapply (wp_contribute_on_time a d l k t claimant); try done.
  - by apply (running_participants _ _ _ _ _ Hrun).
  - by rewrite <- Hc.
  - intros s' Htr HP Hcon. eauto 9.
Qed.

(** C13: leaving a pending ROSCA right after joining it restores everything the ROSCA
    stores: the positions, the participants, their number and the deposits. *)
Theorem join_leave_roundtrip r p a s s1 :
  reachable s → in_width u32_MAX (default 0 p) → join_rosca (Signed a) r p s = Ok (tt, s1) →
  wp (leave_rosca (Signed a) r) s1 (λ _ s2, view r s2 = view r s ∧ frame r s s2) (λ _, False).
Proof.
  intros Hs Hp Hjoin. pose proof (Inv_reachable _ Hs) as HI.
  pose proof (dispatch_frame (Signed a) (Call_join_rosca r p) s s1 eq_refl Hjoin) as Hfr. cbn in Hfr.
  destruct (wp_Ok _ _ _ _ _ _ (join_rosca_moves (Signed a) r p s HI Hp) Hjoin) as (a' & ts & [= <-] & Hstep & _).
  remember (view r s1) as v1 eqn:Hv1 in Hstep.
  inversion Hstep as [? ? d o i v Hok Hnow Hnew Hinv Hi Hfree Hpos| | | | | | |]. subst r0 p0 v.
  assert (join_view a i o (view r s) = view r s1) as Hv by congruence.
  assert (default 0 (v_deposits (view r s) !! a) ≤ 0) as Hzero.
  { destruct (v_deposits (view r s) !! a) as [x|] eqn:Hx; [|done]. cbn.
    destruct (pending_deposits _ _ _ Hok _ _ Hx) as [_ Hpos0].
    destruct (decide (0 < x)) as [H0|?]; [|lia]. apply Hpos0 in H0. by rewrite Hnew in H0; destruct H0. }
  enough (wp (leave_rosca (Signed a) r) s1 (λ _ s2, view r s2 = view r s) (λ _, False)) as Hwp.
  { unfold wp in *. destruct (leave_rosca (Signed a) r s1) as [[[] s2]| | |] eqn:Hleave; try done.
    split; [done|]. etrans; [done|].
    exact (dispatch_frame (Signed a) (Call_leave_rosca r) s1 s2 eq_refl Hleave). }
  eapply (wp_leave_rosca _ d (<[Z.to_nat i := Some a]> o) i); rewrite <- Hv.
  - by apply pending_join.
  - apply lookup_insert_eq.
  - intros s2 -> _. unfold leave_view, join_view, membership_view. cbn.
    rewrite (proj2 (Z.ltb_ge _ _)) by done.
    pose proof (length_omap_insert _ _ _ (Some a) Hfree) as Hlen. cbn in Hlen.
    replace (len _ - 1) with (len (omap id o)) by (unfold len; lia).
    rewrite list_insert_insert_eq, list_insert_id by done. rewrite delete_insert_id by done.
    rewrite <- (pending_count _ _ _ Hok), <- (pending_slots _ _ _ Hok). done.
  - cbn [v_deposits join_view membership_view]. lia.
Qed.

(** C14: completion is final.  Along any execution, a completed ROSCA of a reachable
    state stays completed and inactive, its participants stay the same, and no deposit
    appears or grows: it stays as it is until it is claimed. *)
Theorem completed_forever r s s' :
  reachable s → completed_roscas r s = Some tt → rtc chain_step s s' →
  completed_roscas r s' = Some tt ∧ active_roscas r s' = None ∧
  (∀ a, participants r a s' = participants r a s) ∧
  (∀ a x, security_deposit r a s' = Some x → security_deposit r a s = Some x).
Proof.
  intros Hs Hc Hsteps. pose proof (Inv_reachable _ Hs) as HI. clear Hs.
  assert (∃ l, completed_ok l (view r s)) as [l Hok] by by apply completed_phase.
  destruct (completed_steps _ _ _ _ HI Hok Hsteps) as (_ & Hok' & ds & Hds & Hv).
  split_and!.
  - exact (completed_completed _ _ Hok').
  - exact (completed_active _ _ Hok').
  - intros a. injection Hv as _ _ Hp. unfold participants, dlookup. by rewrite Hp.
  - intros a x Hx. change (v_deposits (view r s') !! a = Some x) in Hx. rewrite Hv in Hx.
    by apply (lookup_weaken ds).
Qed.

(** C15: a security deposit is claimed at most once: after a successful claim no later
    claim of the same account on the same ROSCA succeeds, in whatever asset it
    asks. *)
Theorem claim_security_deposit_once r a asset asset' s s1 s2 :
  reachable s → in_width u32_MAX r →
  claim_security_deposit (Signed a) r asset s = Ok (tt, s1) → rtc chain_step s1 s2 →
  ∃ e, claim_security_deposit (Signed a) r asset' s2 = Err e.
Proof.
  intros Hs Hr Hclaim Hsteps. pose proof (Inv_reachable _ Hs) as HI.
  destruct (wp_Ok _ _ _ _ _ _ (claim_security_deposit_moves (Signed a) r asset s HI) Hclaim)
    as (a' & ts & [= <-] & Hstep & _).
  remember (view r s1) as v1 eqn:Hv1 in Hstep.
  inversion Hstep as [| | | | | |? ? l x t v Hok Hf Ht Hx H0|]. subst r0 asset0 v.
  assert (view r s1 = deposit_view (delete a (v_deposits (view r s))) (view r s)) as Hv by congruence.
  assert (completed_ok l (view r s1)) as Hok1 by (rewrite Hv; by apply completed_claim).
  assert (Inv s1) as HI1 by (by apply (Inv_dispatch (Signed a) (Call_claim_security_deposit r asset) s)).
  destruct (completed_steps _ _ _ _ HI1 Hok1 Hsteps) as (HI2 & Hok2 & ds & Hds & Hv2).
  pose proof (claim_security_deposit_moves (Signed a) r asset' s2 HI2) as Hwp. unfold wp in Hwp.
  destruct (claim_security_deposit (Signed a) r asset' s2) as [[[] s3]|e| |] eqn:Hrun; [|by eexists|done..].
  destruct Hwp as (? & ts2 & [= <-] & Hstep2 & _). inversion Hstep2 as [| | | | | |? ? l' y t' v' _ _ _ Hy|].
  rewrite Hv2 in Hy. cbn in Hy. apply (lookup_weaken _ _ _ _ Hy) in Hds. rewrite Hv in Hds. cbn in Hds.
  by rewrite lookup_delete_eq in Hds.
Qed.

(** C16: the positions of a pending ROSCA of a reachable state: the recorded positions
    and the vector of positions describe the same assignment, the number of
    participants is the number of filled positions, and every participant was
    invited. *)
Theorem pending_positions r d s :
  reachable s → rosca_details r s = Some d →
  ∃ slots, pending_rosca_participants_order r s = Some slots ∧ len slots = number_of_participants d ∧
    participants_count r s = Some (len (omap id slots)) ∧
    (∀ a i, participants r a s = Some i ↔ 0 ≤ i ∧ slots !! Z.to_nat i = Some (Some a)) ∧
    (∀ a, is_Some (participants r a s) → invited_preverified_participants r a s = Some tt).
Proof.
  intros Hs Hp. destruct (pending_phase _ _ _ (Inv_reachable _ Hs) Hp) as [o Hok].
  exists o. destruct Hok. split_and!; try done.
  intros a Ha. change (is_Some (v_participants (view r s) !! a)) in Ha.
  apply elem_of_dom, pending_invited, elem_of_dom in Ha as [[] Ha]. done.
Qed.

(** C17: the bookkeeping of an active ROSCA of a reachable state: its order is an
    arrangement of all participants without repetition, the claimant is its first, the
    contribution count is the number of accounts recorded as contributors in the
    current round, all of them participants, and it stays below the count at which a round closes (when there are
    at least two participants). *)
Theorem active_bookkeeping r d s :
  reachable s → active_roscas r s = Some d →
  ∃ l, active_rosca_participants_order r s = Some l ∧ NoDup l ∧
    (∀ a, is_Some (participants r a s) ↔ a ∈ l) ∧ participants_count r s = Some (len l) ∧
    eligible_claimant r s = head l ∧
    current_contribution_count r s = Z.of_nat (size (prefix (CurrentContributors s) r)) ∧
    (∀ a, is_Some (current_contributors r a s) → a ∈ l) ∧
    (2 ≤ len l → current_contribution_count r s < len l - 1).
Proof.
  intros Hs Ha. destruct (active_running _ _ _ (Inv_reachable _ Hs) Ha) as (l & k & t & Hrun & Hk & _).
  exists (ring_order l k). pose proof (head_ring_order l k) as Hhead.
  assert (len (ring_order l k) = len l) as Hlen by (unfold len; by rewrite length_ring_order).
  destruct Hrun. rewrite Nat.mod_small in running_order, running_claimant by done. rewrite Hlen.
  split_and!; try done.
  - by rewrite ring_order_Permutation.
  - intros a. rewrite ring_order_Permutation. apply running_participants.
  - by rewrite Hhead.
  - intros a. rewrite ring_order_Permutation. apply running_contributors.
  - change (current_contribution_count r s) with (v_contributions (view r s)). lia.
Qed.

(** C18: the security deposits are backed.  On a chain where nobody signs for the
    account of a ROSCA and the payment assets have a minimum balance of at most one
    unit: from the moment a ROSCA is pending or active, and through its completion,
    its account holds at least the sum of its recorded deposits in the payment asset
    of the ROSCA. *)
Theorem deposits_backed {F : LedgerLaws T} r d s0 s s' :
  chain_genesis s0 → (∀ asset, asset_minimum_balance (Ledger s0) (PaymentAssets_id asset) ≤ 1) →
  rtc owned_step s0 s → in_width u32_MAX r →
  active_roscas r s = Some d ∨ rosca_details r s = Some d → rtc owned_step s s' →
  total (prefix (RoscaSecurityDeposits s') r) ≤
    asset_balance (Ledger s') (PaymentAssets_id (payment_asset d)) (rosca_account_id r).
Proof.
  intros H0 Hmin Hs Hr Hd Hs'.
  destruct (solvent_steps (λ _, USDT) s0 s (Inv_genesis _ H0) (solvent_genesis _ _ H0 Hmin) Hs)
    as (HI & pa & Hsol & _).
  destruct (solvent_steps pa s s' HI Hsol Hs') as (_ & pa' & Hsol' & Hpa).
  rewrite (solvent_asset _ _ Hsol r d Hd), <- Hpa; [by apply (solvent_backed _ _ Hsol')|].
  destruct (decide (r < NextRoscaId s)) as [?|Hge]; [done|].
  assert (view r s = empty_view) as Hv by (apply (Inv_fresh _ HI); lia).
  change (v_active (view r s) = Some d ∨ v_pending (view r s) = Some d) in Hd. rewrite Hv in Hd. naive_solver.
Qed.

(** C19: [claim_security_deposit] by an account with a positive deposit in a completed
    ROSCA of a reachable state.  After the final pay-by time, exactly the recorded deposit
    is transferred from the account of the ROSCA, in the asset that the caller names, and
    the record is removed; only the ledger can refuse it.  Until then the claim is refused,
    even if all contributions were made early. *)
Theorem claim_security_deposit_pays r a x t asset s :
  reachable s → completed_roscas r s = Some tt → final_pay_by_timestamp r s = Some t →
  security_deposit r a s = Some x → 0 < x →
  if t <? Now s then
    wp (claim_security_deposit (Signed a) r asset) s
      (λ _ s', asset_transfer (PaymentAssets_id asset) (rosca_account_id r) a x (Ledger s) = inl (Ledger s') ∧
         view r s' = deposit_view (delete a (v_deposits (view r s))) (view r s) ∧ frame r s s')
      currency_error
  else claim_security_deposit (Signed a) r asset s = Err (ModuleError FinalPayByTimestampMustBePast).
Proof.
  intros Hs Hc Hf Hx H0. destruct (Z.ltb_spec t (Now s)) as [Ht|Ht]; cycle 1.
  { unfold claim_security_deposit, mbind, M_bind, ensure_signed, mret, M_ret, gets. rewrite Hf. cbn [ok_or].
    unfold mret, M_ret, ensure. by rewrite (proj2 (Z.ltb_ge _ _)). }
  enough (wp (claim_security_deposit (Signed a) r asset) s
    (λ _ s', asset_transfer (PaymentAssets_id asset) (rosca_account_id r) a x (Ledger s) = inl (Ledger s') ∧
       view r s' = deposit_view (delete a (v_deposits (view r s))) (view r s)) currency_error) as Hwp.
  { unfold wp in *. destruct (claim_security_deposit (Signed a) r asset s) as [[[] s']| | |] eqn:Hrun; try done.
    destruct Hwp. split_and!; [done..|].
    exact (dispatch_frame (Signed a) (Call_claim_security_deposit r asset) s s' eq_refl Hrun). }
  eapply wp_mono; [eapply (wp_claim_security_deposit a r asset x t s (λ _ s',
    asset_transfer (PaymentAssets_id asset) (rosca_account_id r) a x (Ledger s) = inl (Ledger s') ∧
    view r s' = deposit_view (delete a (v_deposits (view r s))) (view r s))); [done..|] | done |].
  - intros ledger Htr. split; [done|]. unfold view, deposit_view, settle_view. cbn. by autorewrite with storage.
  - intros e (e' & -> & _). by exists e'.
Qed.

(** C20: [create_rosca] panics when the creator asks for a position beyond the number
    of participants that is still below the maximum of the pallet: the position is
    only checked against [MaxParticipants], and then used as an index into a vector
    of [number_of_participants] positions. *)
Theorem create_rosca_position_panics a random invited threshold amount asset frequency start_by position
    rosca_name s :
  let n := number_of_participants
             (created random invited threshold amount asset frequency start_by rosca_name) in
  len invited ≤ MaxInvitedParticipants → a ∉ invited → 0 < amount → 0 < frequency →
  MaxInvitedParticipants < MaxParticipants → threshold ≤ n → Now s < start_by →
  n ≤ position < MaxParticipants →
  create_rosca (Signed a) random invited threshold amount asset frequency start_by (Some position) rosca_name s
    = Panic.
Proof.
  intros n Hlen Ha Hamt Hf Hmax Hthr Hst Hpos.
  assert (1 ≤ n) as Hn by (subst n; cbn; unfold len; lia).
  destruct (invited_spec invited) as (_ & _ & Hl). pose proof MaxParticipants_u32 as [_ Hu].
  unfold create_rosca. change (default 0 (Some position)) with position. cbv zeta. unfold mbind, M_bind, ensure_signed, ensure, mret, M_ret, gets.
  rewrite !(proj2 (Z.ltb_lt _ _)) by lia. rewrite bool_decide_eq_false_2 by done. cbn [negb].
  assert (checked_add u32_MAX (len (dedup (merge_sort AccountId_le invited))) 1 = Some n) as ->
    by (apply checked_add_in; unfold len in *; lia).
  cbn [ok_or]. unfold mret, M_ret. rewrite (proj2 (Z.leb_le _ _)) by done. rewrite !(proj2 (Z.ltb_lt _ _)) by lia.
  unfold vec_set. rewrite length_replicate. rewrite (proj2 (Z.leb_le _ position)) by lia.
  by rewrite orb_true_r.
Qed.

(** C35: with a minimum balance of at most one unit for the payment assets, which the
    deployed genesis does not give, no deposit is ever locked.  From any state of an execution in which nobody signs
    for the account of a ROSCA, while the ledger moves the payment asset of an active
    ROSCA, the chain can go on to a state in which the ROSCA is completed, and from there
    to one in which every account has received exactly its deposit and no deposit is
    left. *)
Theorem deposits_recoverable {F : LedgerLaws T} {G : LedgerProgress T} r d s0 s :
  chain_genesis s0 → (∀ asset, asset_minimum_balance (Ledger s0) (PaymentAssets_id asset) ≤ 1) →
  rtc owned_step s0 s → in_width u32_MAX r → active_roscas r s = Some d →
  asset_transferable (Ledger s) (PaymentAssets_id (payment_asset d)) →
  ∃ s1 s2, rtc owned_step s s1 ∧ completed_roscas r s1 = Some tt ∧ rtc owned_step s1 s2 ∧
    ∀ a, default 0 (security_deposit r a s2) = 0 ∧
      (a ≠ rosca_account_id r →
       asset_balance (Ledger s2) (PaymentAssets_id (payment_asset d)) a =
       asset_balance (Ledger s1) (PaymentAssets_id (payment_asset d)) a + default 0 (security_deposit r a s1)).
Proof.
  intros H0 Hmin Hs Hr Ha Htr.
  destruct (solvent_steps (λ _, USDT) s0 s (Inv_genesis _ H0) (solvent_genesis _ _ H0 Hmin) Hs) as (HI & pa & Hsol & _).
  destruct (active_claimable pa d r s HI Hsol Hr Ha Htr) as (s1 & Hs1 & Hcl).
  destruct (claim_all d r (map_to_list (prefix (RoscaSecurityDeposits s1) r)).*1 s1 Hcl Hr) as (s2 & Hs2 & _ & Hdep & Hbal);
    [apply NoDup_fst_map_to_list|].
  exists s1, s2. split_and!; [done | by destruct Hcl | done |]. intros a. rewrite Hdep.
  assert (0 < default 0 (security_deposit r a s1) → claims (map_to_list (prefix (RoscaSecurityDeposits s1) r)).*1 r s1 a) as Hyes.
  { intros Hpos. split; [|done]. destruct (security_deposit r a s1) as [x|] eqn:Hx; [|done].
    apply list_elem_of_fmap. exists (a, x). split; [done|]. by apply elem_of_map_to_list. }
  assert (0 ≤ default 0 (security_deposit r a s1)) as Hpos.
  { destruct (security_deposit r a s1) as [x|] eqn:Hx; [|done]. exact (funded_deposits _ _ _ (claimable_funded _ _ _ Hcl) a x Hx). }
  split; [case_decide as Hc; [done|]; destruct (decide (0 < default 0 (security_deposit r a s1))); [by destruct Hc; auto | lia]|].
  intros Hacc. rewrite Hbal by done. case_decide as Hc; [done|].
  destruct (decide (0 < default 0 (security_deposit r a s1))); [by destruct Hc; auto | lia].
Qed.

(** C33: a ROSCA that is kept is fair.  After a start, while the ledger moves the payment
    asset, whose minimum balance is at most one unit, and every participant holds the
    contributions of all rounds at the start, let all participants but the
    claimant contribute before the cutoff of every round, in any order.  No contribution
    is refused; after [k] rounds every account is off by exactly its position: who has
    been the claimant has the credit of the rounds to come, the others have saved the
    rounds that passed; the deposits are not touched and nobody is marked as a
    defaulter.  After the last round the ROSCA is completed and everybody has received
    exactly what he has paid. *)
Theorem kept_rosca_fair {F : LedgerLaws T} {G : LedgerProgress T} o r d l rounds s s1 :
  let asset := PaymentAssets_id (payment_asset d) in
  reachable s → rosca_details r s = Some d → start_rosca o r s = Ok (tt, s1) →
  active_rosca_participants_order r s1 = Some (ring_order l 0) → (2 ≤ length l)%nat →
  asset_transferable (Ledger s1) asset → asset_minimum_balance (Ledger s1) asset ≤ 1 →
  (∀ a, a ∈ l → contribution_amount d * (len l - 1) ≤ asset_balance (Ledger s1) asset a) →
  (length rounds ≤ length l)%nat → (∀ k round, rounds !! k = Some round → kept d l (Now s) k round) →
  ∃ s', honest_run r rounds s1 = Ok (tt, s') ∧
    (∀ a, asset_balance (Ledger s') asset a =
       asset_balance (Ledger s1) asset a + contribution_amount d * position l (length rounds) a) ∧
    (∀ a, security_deposit r a s' = security_deposit r a s1 ∧ default_count r a s' = default_count r a s1) ∧
    (length rounds = length l → completed_roscas r s' = Some tt ∧
       ∀ a, asset_balance (Ledger s') asset a = asset_balance (Ledger s1) asset a).
Proof.
  intros asset Hs Hpend Hstart Ho H2 Htr Hmin Hfunds Hlen Hkept.
  destruct (start_running _ _ _ _ _ _ (Inv_reachable _ Hs) Hpend Hstart Ho) as (Hrun & Hnone & Hzero).
  destruct (fun Hb => wp_total _ _ _ (honest_run_kept r d l (Now s) (view r s1) (asset_balance (Ledger s1) asset)
    Hfunds 0 rounds s1 H2 Hb Hlen Hkept)) as (s' & Hrun' & Hb).
  { apply between_start; [done..|lia]. }
  exists s'. split; [done|]. apply (between_accounts r d l (Now s)) in Hb as [[] Hdone]; [|done..].
  split_and!; [done | |].
  - intros a. split; [exact (f_equal (lookup a) accounts_deposits)|]. unfold default_count, dlookup.
    by rewrite (accounts_defaults : prefix (DefaultCount s') r = prefix (DefaultCount s1) r).
  - intros Hall. split; [by apply Hdone|]. intros a. rewrite accounts_balance, Nat.add_0_l, Hall, position_end. lia.
Qed.

(** C21: the checks that a contributor is not the claimant and has not contributed are
    made before missed rounds are settled.  In every reachable state, the participant whose
    turn comes with the next round can contribute during that round although the last
    one was never settled: no check refuses it, he pays himself, and the payment is
    announced as a contribution to his own round, unless the ledger refuses a transfer.
    With at least three participants he is then both the claimant and the first recorded
    contributor of the round. *)
Theorem late_contribution_to_self r d p a next final s :
  reachable s → active_roscas r s = Some d → active_rosca_participants_order r s = Some (p ++ [a]) →
  p ≠ [] → next_pay_by_timestamp r s = Some next → final_pay_by_timestamp r s = Some final →
  current_contributors r a s = None → next ≤ Now s < next + contribution_frequency d → next < final →
  wp (contribute_to_rosca (Signed a) r) s
    (λ _ s', (∃ fx, performs fx s s' ∧
       Moved (mkTransfer (PaymentAssets_id (payment_asset d)) a a (contribution_amount d)) ∈ fx ∧
       Emitted (ContributionMade r a a (contribution_amount d)) ∈ fx) ∧
       ((2 ≤ length p)%nat → eligible_claimant r s' = Some a ∧ current_contributors r a s' = Some tt ∧
          current_contribution_count r s' = 1))
    currency_error.
Proof.
  intros Hs Ha Ho Hp Hn Hf Hnone Hnow Hlt.
  destruct (active_running _ _ _ (Inv_reachable _ Hs) Ha) as (l & k & t & Hrun & Hk & _).
  destruct (next_claimant _ _ _ _ _ _ _ _ _ _ Hrun Hk Ho Hn Hf Hlt) as (Hlen & -> & -> & Hk' & Hla & c & Hc & Hca).
  { by destruct p. }
  assert (0 < contribution_frequency d) as Hfr by (apply details_frequency, Hrun).
  eapply wp_contribute_caught_up; try done.
  { by eapply list_elem_of_lookup_2. }
  { unfold len. nia. }
  intros k' c' fx v s' Hm Hrun' _ Hc' Hlo Hhi HP Hcon.
  assert (k' = S k ∧ v_contributors v = ∅) as [-> Hempty].
  { destruct (missed_contributors _ _ _ _ _ _ _ _ _ Hm) as [[-> _]|[Hkk ->]]; [lia|].
    specialize (Hhi Hkk). split; [nia | done]. }
  assert (c' = a) as -> by congruence. split.
  - eexists. split; [exact HP|]. unfold contribution. split; apply elem_of_app; right; apply elem_of_app; left; set_solver.
  - intros H2. pose proof (running_contributions _ _ _ _ _ Hrun') as Hcnt. rewrite Hempty, map_size_empty in Hcnt.
    destruct Hcon as [_ Hv|Hx _ _|Hx _ _]; [|unfold len in Hx; lia..].
    injection Hv as _ _ _ _ _ _ _ _ _ _ _ Hcl Hcb Hcc _.
    pose proof (running_claimant _ _ _ _ _ Hrun') as Hcl'. rewrite Nat.mod_small, Hla in Hcl' by lia.
    split_and!.
    + unfold eligible_claimant. by rewrite Hcl.
    + unfold current_contributors, dlookup. by rewrite Hcb, lookup_insert_eq.
    + unfold current_contribution_count. rewrite Hcc. lia.
Qed.
End theorems.

(** * Instances

    Each theorem with hypotheses, applied in a state of the sample chain. *)

(** An evaluated read of a sample state. *)
Ltac eval_read := match goal with |- _ = ?x => vm_cast_no_check (eq_refl x) end.

Lemma dispatch_safe_witness :
  wp (dispatch (Signed (T := Sample) 2) (Call_contribute_to_rosca 0)) (state_after basic) (λ _, Inv)
    (reported (Call_contribute_to_rosca (T := Sample) 0)).
Proof. apply (dispatch_safe (T := Sample)); [exact basic_reachable | by vm_compute]. Defined.

Lemma dispatch_refines_witness :
  let c := Call_contribute_to_rosca (T := Sample) 0 in
  let s := state_after basic in let s' := run_or_stay 2 c s in
  frame 0 s s' ∧ ∃ a fx, Signed (T := Sample) 2 = Signed a ∧
    rosca_step (Now s) a c (view 0 s) (view 0 s') fx ∧ performs fx s s'.
Proof.
  intros c s s'. apply (dispatch_refines (T := Sample) (Signed (T := Sample) 2) c s s').
  - exact basic_reachable.
  - by vm_compute.
  - done.
  - apply run_or_stay_Ok. by vm_compute.
Defined.

Lemma create_rosca_creates_witness :
  let s := genesis 1 in let s' := run_or_stay 1 basic_create s in
  let l := dedup (merge_sort (AccountId_le (Config := Sample)) [2; 3]) in
  (NoDup l ∧ ∀ b, b ∈ l ↔ b ∈ [2; 3]) ∧
  ∃ a, Signed (T := Sample) 1 = Signed a ∧ details_ok basic_details ∧ creates a basic_details 0 l s s'.
Proof.
  intros s s' l.
  apply (create_rosca_creates (T := Sample) (Signed (T := Sample) 1) false [2; 3] 3 100 USDT 10 20 (Some 0) [1] s s').
  - by apply genesis_reachable.
  - vm_compute. repeat split; discriminate.
  - apply run_or_stay_Ok. by vm_compute.
Defined.

Lemma start_rosca_starts_witness :
  let s := state_after joined in let s' := run_or_stay 1 (Call_start_rosca (T := Sample) 0) s in
  ∃ a d slots, Signed (T := Sample) 1 = Signed a ∧ pending_ok d slots (view 0 s) ∧
    start_order d slots s ≡ₚ omap id slots ∧ starts a d (start_order d slots s) 0 s s'.
Proof.
  intros s s'. apply (start_rosca_starts (T := Sample) (Signed (T := Sample) 1) 0 s s').
  - exact joined_reachable.
  - apply (run_or_stay_call _ 1 (Call_start_rosca 0)); [done | by vm_compute].
Defined.

Lemma active_rosca_on_schedule_witness :
  let s := state_after basic in
  ∃ who rounds first n (k : nat) round final,
    RoscaStarted (T := Sample) 0 who rounds first n ∈ Events s ∧ rounds !! k = Some round ∧
    last rounds = Some final ∧ eligible_claimant 0 s = Some (recipient round) ∧
    next_pay_by_timestamp 0 s = Some (payment_cutoff round) ∧
    final_pay_by_timestamp 0 s = Some (payment_cutoff final).
Proof.
  intros s. apply (active_rosca_on_schedule (T := Sample) 0 basic_details s); [exact basic_reachable|].
  eval_read.
Defined.

Lemma generate_rounds_schedule_witness :
  generate_rounds (T := Sample) [3; 2; 1] 1 10 (genesis 1) =
    if 1 + 10 * (len [3; 2; 1] + 1) <=? u64_MAX then Ok (schedule (reverse [3; 2; 1]) 1 10, genesis 1)
    else Err (ModuleError ArithmeticOverflow).
Proof.
  apply (generate_rounds_schedule (T := Sample) [3; 2; 1] 1 10 (genesis 1)); try done.
  by apply (bool_decide_unpack _).
Defined.

Lemma shuffle_participants_shuffles_witness :
  let s := genesis 1 in
  shuffle_participants (T := Sample) [1; 2; 3] s = Ok (shuffled (shuffle_byte s) [1; 2; 3], s) ∧
  shuffled (shuffle_byte s) [1; 2; 3] ≡ₚ [1; 2; 3] ∧ in_width u8_MAX (shuffle_byte s).
Proof. intros s. apply (shuffle_participants_shuffles (T := Sample) [1; 2; 3] s). Defined.

Lemma process_defaulters_settles_witness :
  let s := state_after late in
  wp (process_defaulters (T := Sample) 0) s
    (λ _ s', (settled 100 (1 : AccountId) [1; 3; 2] (view 0 s) (view 0 s') ∧
       performs ([1; 3; 2] ≫= settlement basic_details 0 (1 : AccountId) (view 0 s)) s s') ∧
       frame 0 s s') currency_error.
Proof.
  intros s. apply (process_defaulters_settles (T := Sample) 0 basic_details 1 [1; 3; 2] s);
    [exact late_reachable | eval_read..].
Defined.

Lemma advance_rosca_round_rotates_witness :
  let s := state_after late in
  wp (advance_rosca_round (T := Sample) 0) s
    (λ _ s', eligible_claimant 0 s' = Some 2 ∧ active_rosca_participants_order 0 s' = Some [2; 1; 3] ∧
       next_pay_by_timestamp 0 s' = Some (11 + 10) ∧ (∀ a, current_contributors 0 a s' = None) ∧
       current_contribution_count 0 s' = 0 ∧
       (∀ a, security_deposit 0 a s' = security_deposit 0 a s) ∧
       Events s' = Events s ++ [NewRoundStarted 0 2 (11 + 10)] ∧ frame 0 s s') (λ _, False).
Proof.
  intros s. apply (advance_rosca_round_rotates (T := Sample) 0 basic_details [1; 3; 2] [1; 3] 2 11 s);
    [exact late_reachable | eval_read.. | done].
Defined.

Lemma manually_end_rosca_ends_witness :
  let s := state_after over in
  wp (manually_end_rosca (Signed (T := Sample) 4) 0) s
    (λ _ s', active_roscas 0 s' = None ∧ completed_roscas 0 s' = Some tt ∧
       ∃ l k start v fx, running basic_details l k start (view 0 s) ∧
         missed 0 basic_details l start k (view 0 s) (length l) v fx ∧ view 0 s' = complete_view v ∧
         performs (fx ++ [Emitted (RoscaComplete 0)]) s s') currency_error.
Proof.
  intros s. apply (manually_end_rosca_ends (T := Sample) 0 basic_details 31 4 s);
    [exact over_reachable | eval_read | eval_read | by vm_compute].
Defined.

Lemma contribute_to_rosca_on_time_witness :
  let s := state_after basic in
  wp (contribute_to_rosca (Signed (T := Sample) 2) 0) s
    (λ _ s', asset_transfer (Config := Sample) (PaymentAssets_id (payment_asset basic_details)) 2 1
               (contribution_amount basic_details) (Ledger s) = inl (Ledger s') ∧
       ∃ l k t, running basic_details l k t (view 0 s) ∧
         contributed basic_details l k t (2 : AccountId) (view 0 s) (view 0 s') ∧
         performs (contribution basic_details 0 l t k (2 : AccountId) 1 (view 0 s)) s s') currency_error.
Proof.
  intros s. apply (contribute_to_rosca_on_time (T := Sample) 0 basic_details 1 11 2 s);
    [exact basic_reachable | eval_read | eval_read | eval_read | by vm_compute | | done | eval_read].
  exists 1. eval_read.
Defined.

Lemma join_leave_roundtrip_witness :
  let s := state_after alone in let s1 := run_or_stay 2 (Call_join_rosca (T := Sample) 0 (Some 2)) s in
  wp (leave_rosca (Signed (T := Sample) 2) 0) s1 (λ _ s2, view 0 s2 = view 0 s ∧ frame 0 s s2) (λ _, False).
Proof.
  intros s s1. apply (join_leave_roundtrip (T := Sample) 0 (Some 2) 2 s s1).
  - exact alone_reachable.
  - by vm_compute.
  - apply (run_or_stay_call _ 2 (Call_join_rosca 0 (Some 2))); [done | by vm_compute].
Defined.

Lemma completed_forever_witness :
  let s := state_after ended in
  completed_roscas 0 s = Some tt ∧ active_roscas 0 s = None ∧
  (∀ a : AccountId, participants 0 a s = participants 0 a s) ∧
  (∀ (a : AccountId) x, security_deposit 0 a s = Some x → security_deposit 0 a s = Some x).
Proof.
  intros s. apply (completed_forever (T := Sample) 0 s s); [exact ended_reachable | eval_read | reflexivity].
Defined.

Lemma claim_security_deposit_once_witness :
  let s := state_after ended in
  let s1 := run_or_stay 1 (Call_claim_security_deposit (T := Sample) 0 USDT) s in
  ∃ e, claim_security_deposit (Signed (T := Sample) 1) 0 USDC s1 = Err e.
Proof.
  intros s s1. apply (claim_security_deposit_once (T := Sample) 0 1 USDT USDC s s1 s1).
  - exact ended_reachable.
  - by vm_compute.
  - apply (run_or_stay_call _ 1 (Call_claim_security_deposit 0 USDT)); [done | by vm_compute].
  - reflexivity.
Defined.

Lemma pending_positions_witness :
  let s := state_after joined in
  ∃ slots, pending_rosca_participants_order 0 s = Some slots ∧ len slots = 3 ∧
    participants_count 0 s = Some (len (omap id slots)) ∧
    (∀ (a : AccountId) i, participants 0 a s = Some i ↔ 0 ≤ i ∧ slots !! Z.to_nat i = Some (Some a)) ∧
    (∀ a : AccountId, is_Some (participants 0 a s) → invited_preverified_participants 0 a s = Some tt).
Proof.
  intros s. apply (pending_positions (T := Sample) 0 basic_details s); [exact joined_reachable | eval_read].
Defined.

Lemma active_bookkeeping_witness :
  let s := state_after basic in
  ∃ l, active_rosca_participants_order 0 s = Some l ∧ NoDup l ∧
    (∀ a, is_Some (participants 0 a s) ↔ a ∈ l) ∧ participants_count 0 s = Some (len l) ∧
    eligible_claimant 0 s = head l ∧
    current_contribution_count 0 s = Z.of_nat (size (prefix (CurrentContributors s) 0)) ∧
    (∀ a, is_Some (current_contributors 0 a s) → a ∈ l) ∧
    (2 ≤ len l → current_contribution_count 0 s < len l - 1).
Proof.
  intros s. apply (active_bookkeeping (T := Sample) 0 basic_details s); [exact basic_reachable | eval_read].
Defined.

Lemma deposits_backed_witness :
  let s := state_after deposited in
  total (prefix (RoscaSecurityDeposits s) 0) ≤
    asset_balance (Config := Sample) (Ledger s) (PaymentAssets_id (payment_asset basic_details))
      (rosca_account_id 0).
Proof.
  intros s. apply (deposits_backed (T := Sample) 0 basic_details (genesis 1) s s).
  - by split.
  - done.
  - apply scenario_owned; [vm_compute; repeat split; discriminate | done | by vm_compute].
  - by vm_compute.
  - right. eval_read.
  - reflexivity.
Defined.

Lemma claim_security_deposit_pays_witness :
  let s := state_after ended in
  wp (claim_security_deposit (Signed (T := Sample) 1) 0 USDT) s
    (λ _ s', asset_transfer (PaymentAssets_id USDT) (rosca_account_id (T := Sample) 0) 1 300 (Ledger s)
               = inl (Ledger s') ∧
       view 0 s' = deposit_view (delete (1 : AccountId) (v_deposits (view 0 s))) (view 0 s) ∧ frame 0 s s')
    currency_error.
Proof.
  intros s. assert (31 <? Now s = true) as Hlate by eval_read.
  pose proof (claim_security_deposit_pays (T := Sample) 0 1 300 31 USDT s) as H. rewrite Hlate in H.
  apply H; [exact ended_reachable | eval_read | eval_read | eval_read | done].
Defined.

Lemma late_contribution_to_self_witness :
  let s := state_after late in
  wp (contribute_to_rosca (Signed (T := Sample) 2) 0) s
    (λ _ s', (∃ fx, performs fx s s' ∧
       Moved (mkTransfer (PaymentAssets_id USDT) 2 2 100) ∈ fx ∧
       Emitted (ContributionMade (T := Sample) 0 2 2 100) ∈ fx) ∧
       ((2 ≤ 2)%nat → eligible_claimant 0 s' = Some 2 ∧ current_contributors 0 2 s' = Some tt ∧
          current_contribution_count 0 s' = 1))
    currency_error.
Proof.
  intros s. apply (late_contribution_to_self (T := Sample) 0 basic_details [1; 3] 2 11 31 s);
    [exact late_reachable | eval_read | eval_read | done | eval_read | eval_read | eval_read | by vm_compute | done].
Defined.

Lemma create_rosca_position_panics_witness :
  create_rosca (Signed (T := Sample) 1) false [2; 3] 3 100 USDT 10 20 (Some 5) [1] (genesis 1) = Panic.
Proof.
  apply (create_rosca_position_panics (T := Sample) 1 false [2; 3] 3 100 USDT 10 20 5 [1] (genesis 1));
    try done; by apply (bool_decide_unpack _).
Defined.

Lemma deposits_recoverable_witness :
  let s := state_after (deposited ++ [Do 1 (Call_start_rosca 0)]) in
  ∃ s1 s2, rtc owned_step s s1 ∧ completed_roscas 0 s1 = Some tt ∧ rtc owned_step s1 s2 ∧
    ∀ a, default 0 (security_deposit 0 a s2) = 0 ∧
      (a ≠ rosca_account_id (T := Sample) 0 →
       asset_balance (Config := Sample) (Ledger s2) (PaymentAssets_id USDT) a =
       asset_balance (Config := Sample) (Ledger s1) (PaymentAssets_id USDT) a + default 0 (security_deposit 0 a s1)).
Proof.
  intros s. apply (deposits_recoverable (T := Sample) 0 basic_details (genesis 1) s).
  - by split.
  - done.
  - apply scenario_owned; [vm_compute; repeat split; discriminate | done | by vm_compute].
  - by vm_compute.
  - eval_read.
  - exact I.
Defined.

Lemma kept_rosca_fair_witness :
  let s1 := run_or_stay 1 (Call_start_rosca (T := Sample) 0) (state_after joined) in
  let rounds : list (Moment * list (AccountId (Config := Sample))) := [(1, [2; 3]); (15, [3; 1]); (25, [1; 2])] in
  ∃ s', honest_run 0 rounds s1 = Ok (tt, s') ∧
    (∀ a, asset_balance (Config := Sample) (Ledger s') (PaymentAssets_id USDT) a =
       asset_balance (Config := Sample) (Ledger s1) (PaymentAssets_id USDT) a + 100 * position [1; 2; 3] 3 a) ∧
    (∀ a, security_deposit 0 a s' = security_deposit 0 a s1 ∧ default_count 0 a s' = default_count 0 a s1) ∧
    (3 = 3 → completed_roscas 0 s' = Some tt ∧
       ∀ a, asset_balance (Config := Sample) (Ledger s') (PaymentAssets_id USDT) a =
            asset_balance (Config := Sample) (Ledger s1) (PaymentAssets_id USDT) a)%nat.
Proof.
  intros s1 rounds.
  apply (kept_rosca_fair (T := Sample) (Signed (T := Sample) 1) 0 basic_details [1; 2; 3] rounds (state_after joined) s1).
  - exact joined_reachable.
  - eval_read.
  - apply (run_or_stay_call _ 1 (Call_start_rosca 0)); [done | by vm_compute].
  - eval_read.
  - cbn. lia.
  - exact I.
  - done.
  - intros a Ha. repeat (apply elem_of_cons in Ha as [->|Ha]; [by vm_compute|]). by apply elem_of_nil in Ha.
  - done.
  - intros k round Hk. destruct k as [|[|[|]]]; [injection Hk as <-..|done]; (split; [|by vm_compute]);
      eexists; (split; [reflexivity|]); by apply (bool_decide_unpack _).
Defined.
