(* ===== verification/RoscaTests.v ===== *)
(** The tests of the pallet, [pallets/rosca/src/tests.rs], replayed on the model.  A test
    is a program in a monad whose assertions end it when they fail; it is run from the
    genesis of the mock runtime and passes by evaluation.  The ledger and the hash are
    those of [RoscaSample]. *)

From S2P Require Import Prelude RoscaTypes RoscaRounds RoscaCalls RoscaSample.

(** * Running tests *)

Definition Test (A : Type) : Type := State (T := Sample) → option (A * State (T := Sample)).
#[local] Instance Test_mret : MRet Test := λ A a s, Some (a, s).
#[local] Instance Test_mbind : MBind Test := λ A B k m s,
  match m s with Some (a, s') => k a s' | None => None end.

(** [assert_ok!], [assert_noop!] and [assert_err!] of a signed call; the dispatcher undoes
    what a failing call has written. *)
Definition assert_ok (who : Z) (c : Call (T := Sample)) : Test unit := λ s,
  match dispatch (Signed who) c s with Ok r => Some r | _ => None end.
Definition assert_noop (who : Z) (c : Call (T := Sample)) (e : Error) : Test unit := λ s,
  match dispatch (Signed who) c s with
  | Err (ModuleError e') => if decide (e = e') then Some (tt, s) else None
  | _ => None
  end.
Definition assert_err (who : Z) (c : Call (T := Sample)) (e : TokenError) : Test unit := λ s,
  match e, dispatch (Signed who) c s with
  | FundsUnavailable, Err (Currency FundsUnavailable) => Some (tt, s)
  | _, _ => None
  end.

(** A getter, and [assert_eq!], [assert!(_.is_some())] and [assert!]. *)
Definition get {A} (f : State (T := Sample) → A) : Test A := λ s, Some (f s, s).
Definition assert (b : bool) : Test unit := λ s, if b then Some (tt, s) else None.
Definition assert_eq {A} `{EqDecision A} (f : State (T := Sample) → A) (a : A) : Test unit :=
  x ← get f; assert (bool_decide (x = a)).
Definition assert_some {A} (f : State (T := Sample) → option A) : Test unit :=
  x ← get f; assert match x with Some _ => true | None => false end.
Definition unwrap {A} (f : State (T := Sample) → option A) : Test A := λ s,
  match f s with Some a => Some (a, s) | None => None end.
Fixpoint for_each {A} (l : list A) (f : A → Test unit) : Test unit :=
  match l with
  | [] => mret tt
  | x :: l => _ ← f x; for_each l f
  end.

(** [set_timestamp], [set_block_number], [advance_time_and_block] and [Assets::balance]. *)
Definition set_timestamp (now : Moment) : Test unit := λ s, Some (tt, set_Now now s).
Definition set_block_number (n : Z) : Test unit := λ s, Some (tt, set_BlockNumber n s).
Definition advance_time_and_block (timestamp : Moment) : Test unit :=
  now ← get Now;
  _ ← set_timestamp (now + timestamp);
  n ← get BlockNumber;
  set_block_number (n + 1).
Definition balance (asset who : Z) (s : State (T := Sample)) : Z := ledger_balance (Ledger s) asset who.

Definition passes (t : Test unit) : bool := match t (genesis 0) with Some _ => true | None => false end.

(** * Set-up *)

Definition create (random : bool) (invited : list Z) (threshold amount : Z) (asset : PaymentAssets)
    (frequency start_by : Moment) : Call (T := Sample) :=
  Call_create_rosca random invited threshold amount asset frequency start_by (Some 0) [1].
Definition begin (now : Moment) : Test unit := _ ← set_block_number 1; set_timestamp now.

Definition setup (asset : PaymentAssets) (random : bool) (participants : list Z) : Test unit :=
  _ ← begin 1;
  _ ← assert_ok 1 (create random participants 3 100 asset 10 20);
  _ ← for_each participants (λ p, assert_ok p (Call_join_rosca 0 None));
  assert_ok 1 (Call_start_rosca 0).
Definition setup_basic_rosca : Test unit := setup USDT false [2; 3].
Definition setup_basic_rosca_usdc : Test unit := setup USDC false [2; 3].

(** * The tests *)

Definition create_rosca_works : Test unit :=
  _ ← begin 1;
  _ ← assert_ok 1 (create false [2; 3; 4] 4 100 USDT 50 51);
  _ ← assert_eq next_rosca_id 1;
  _ ← assert_some (rosca_details 0);
  _ ← assert_eq (participants_count 0) (Some 1);
  _ ← assert_eq (participants 0 1) (Some 0);
  _ ← assert_some (invited_preverified_participants 0 1);
  assert_some (invited_preverified_participants 0 2).

Definition create_rosca_fails_with_past_start_timestamp : Test unit :=
  _ ← begin 10;
  assert_noop 1 (create false [2; 3] 3 100 USDT 50 9) StartByTimestampMustBeFuture.
Definition create_rosca_fails_with_zero_contribution : Test unit :=
  _ ← begin 1;
  assert_noop 1 (create false [2; 3] 3 0 USDT 50 51) ContributionAmountMustBePositive.
Definition create_rosca_fails_with_zero_frequency : Test unit :=
  _ ← begin 1;
  assert_noop 1 (create false [2; 3] 3 100 USDT 0 51) FrequencyMustBePositive.

Definition join_rosca_works : Test unit :=
  _ ← begin 1;
  _ ← assert_ok 1 (create false [2; 3; 4] 3 100 USDT 50 51);
  _ ← assert_ok 2 (Call_join_rosca 0 None);
  _ ← assert_eq (participants_count 0) (Some 2);
  _ ← assert_some (participants 0 2);
  _ ← assert_noop 2 (Call_join_rosca 0 None) AlreadyJoined;
  assert_noop 5 (Call_join_rosca 0 None) NotInvited.
Definition join_rosca_fails_with_invalid_position : Test unit :=
  _ ← begin 1;
  _ ← assert_ok 1 (create false [2; 3] 3 100 USDT 50 51);
  _ ← assert_noop 2 (Call_join_rosca 0 (Some 5)) PositionTooLarge;
  assert_noop 2 (Call_join_rosca 0 (Some 0)) PositionAlreadyFilled.

Definition leave_rosca_works : Test unit :=
  _ ← begin 1;
  _ ← assert_ok 1 (create false [2; 3] 2 100 USDT 50 51);
  _ ← assert_ok 2 (Call_join_rosca 0 None);
  _ ← assert_ok 2 (Call_add_to_security_deposit 0 100);
  _ ← assert_ok 2 (Call_leave_rosca 0);
  _ ← assert_eq (participants_count 0) (Some 1);
  _ ← assert_eq (security_deposit 0 2) None;
  assert_eq (balance 1984 2) 10000.
Definition leave_rosca_fails_when_active : Test unit :=
  _ ← setup_basic_rosca;
  assert_noop 2 (Call_leave_rosca 0) RoscaAlreadyActive.

Definition start_rosca_works : Test unit :=
  _ ← setup USDT false [2; 3];
  _ ← assert_some (active_roscas 0);
  _ ← assert_eq (next_pay_by_timestamp 0) (Some 11);
  assert_eq (final_pay_by_timestamp 0) (Some 31).
Definition start_rosca_fails_threshold_not_met : Test unit :=
  _ ← begin 1;
  _ ← assert_ok 1 (create false [2; 3] 3 100 USDT 50 51);
  assert_noop 1 (Call_start_rosca 0) ParticipantThresholdNotMet.

Definition first_round (asset : Z) : Test unit :=
  _ ← assert_ok 2 (Call_contribute_to_rosca 0);
  _ ← assert_eq (balance asset 1) 10100;
  _ ← assert_eq (balance asset 2) 9900;
  _ ← assert_eq (current_contribution_count 0) 1;
  _ ← assert_ok 3 (Call_contribute_to_rosca 0);
  _ ← assert_eq (current_contribution_count 0) 0;
  _ ← assert_eq (next_pay_by_timestamp 0) (Some 21);
  new_eligible ← unwrap (eligible_claimant 0);
  _ ← assert (bool_decide (new_eligible = 2));
  assert (bool_decide (new_eligible ≠ 1)).
Definition contribute_to_rosca_works_usdt : Test unit := _ ← setup_basic_rosca; first_round 1984.
Definition contribute_to_rosca_works_usdc : Test unit := _ ← setup_basic_rosca_usdc; first_round 1337.

Definition contribute_with_insufficient_balance_fails : Test unit :=
  _ ← setup USDT false [2; 4];
  assert_err 4 (Call_contribute_to_rosca 0) FundsUnavailable.
Definition contribute_to_rosca_fails_for_eligible_claimant : Test unit :=
  _ ← setup_basic_rosca;
  eligible ← unwrap (eligible_claimant 0);
  assert_noop eligible (Call_contribute_to_rosca 0) CantContributeToSelf.
Definition contribute_twice_in_same_period_fails : Test unit :=
  _ ← setup_basic_rosca;
  _ ← assert_ok 2 (Call_contribute_to_rosca 0);
  assert_noop 2 (Call_contribute_to_rosca 0) AlreadyContributed.
Definition contribute_after_final_pay_completes : Test unit :=
  _ ← setup_basic_rosca;
  _ ← set_timestamp 40;
  _ ← assert_ok 2 (Call_contribute_to_rosca 0);
  assert_some (completed_roscas 0).
Definition contribute_non_participant_fails : Test unit :=
  _ ← setup_basic_rosca;
  assert_noop 4 (Call_contribute_to_rosca 0) NotAParticipant.

Definition manually_end_rosca_works : Test unit :=
  _ ← setup_basic_rosca;
  _ ← set_timestamp 40;
  _ ← assert_ok 1 (Call_manually_end_rosca 0);
  assert_some (completed_roscas 0).
Definition manually_end_before_final_pay_fails : Test unit :=
  _ ← setup_basic_rosca;
  _ ← set_timestamp 25;
  assert_noop 1 (Call_manually_end_rosca 0) FinalPayByTimestampMustBePast.

Definition claim_security_deposit_works : Test unit :=
  _ ← setup_basic_rosca;
  _ ← assert_ok 2 (Call_add_to_security_deposit 0 200);
  _ ← set_timestamp 40;
  _ ← assert_ok 1 (Call_manually_end_rosca 0);
  assert_noop 2 (Call_claim_security_deposit 0 USDT) SecurityDepositIsZero.
Definition claim_security_deposit_before_completion_fails : Test unit :=
  _ ← setup_basic_rosca;
  _ ← assert_ok 2 (Call_add_to_security_deposit 0 200);
  assert_noop 2 (Call_claim_security_deposit 0 USDT) FinalPayByTimestampMustBePast.
Definition add_to_security_deposit_after_completion_fails : Test unit :=
  _ ← setup_basic_rosca;
  _ ← set_timestamp 40;
  _ ← assert_ok 1 (Call_manually_end_rosca 0);
  assert_noop 2 (Call_add_to_security_deposit 0 100) RoscaAlreadyCompleted.

Definition random_order_shuffles_participants : Test unit :=
  _ ← setup USDT true [2; 3];
  active_order ← unwrap (active_rosca_participants_order 0);
  assert (len active_order =? 3).

Definition defaulted (deposit count : Z) : Test unit :=
  _ ← setup_basic_rosca;
  _ ← assert_ok 3 (Call_add_to_security_deposit 0 deposit);
  _ ← set_timestamp 15;
  _ ← assert_ok 2 (Call_contribute_to_rosca 0);
  _ ← assert_eq (default_count 0 3) count;
  assert_eq (security_deposit 0 3) (Some 0).
Definition process_defaulters_sufficient_deposit : Test unit := defaulted 100 0.
Definition process_defaulters_insufficient_deposit : Test unit := defaulted 50 1.

Definition max_participants_edge_case : Test unit :=
  _ ← begin 1;
  assert_ok 1 (create false (seqZ 2 148) 149 100 USDT 50 51).

(** One round: everybody but the claimant contributes. *)
Definition claimant_round (participants : list Z) : Test Z :=
  current_eligible ← unwrap (eligible_claimant 0);
  _ ← for_each participants (λ p,
        if decide (p = current_eligible) then mret tt else assert_ok p (Call_contribute_to_rosca 0));
  mret current_eligible.
Definition eligible_claimant_rotation_works_correctly : Test unit :=
  _ ← setup_basic_rosca;
  a ← claimant_round [1; 2; 3];
  b ← claimant_round [1; 2; 3];
  c ← claimant_round [1; 2; 3];
  _ ← assert (bool_decide (1 ∈ [a; b; c]));
  _ ← assert (bool_decide (2 ∈ [a; b; c]));
  assert (bool_decide (3 ∈ [a; b; c])).

(** [advance_time_and_block] past a pay-by time, and the order after a contribution. *)
Definition pass_time (f : State (T := Sample) → option Moment) : Test unit :=
  pay_by ← unwrap f;
  current_time ← get Now;
  advance_time_and_block (Z.max 0 (pay_by - current_time) + 1).
Definition in_order (claimant : Z) (order : list Z) : Test unit :=
  _ ← assert_eq (eligible_claimant 0) (Some claimant);
  assert_eq (active_rosca_participants_order 0) (Some order).
Definition test_time_based_round_advancement : Test unit :=
  _ ← setup_basic_rosca;
  _ ← in_order 1 [1; 3; 2];
  _ ← pass_time (next_pay_by_timestamp 0);
  _ ← assert_ok 3 (Call_contribute_to_rosca 0);
  _ ← in_order 2 [2; 1; 3];
  _ ← pass_time (next_pay_by_timestamp 0);
  _ ← assert_ok 1 (Call_contribute_to_rosca 0);
  _ ← in_order 3 [3; 2; 1];
  _ ← pass_time (next_pay_by_timestamp 0);
  _ ← assert_ok 2 (Call_contribute_to_rosca 0);
  in_order 1 [1; 3; 2].
Definition test_final_contribution_round_advancement : Test unit :=
  _ ← setup_basic_rosca;
  _ ← in_order 1 [1; 3; 2];
  _ ← assert_ok 3 (Call_contribute_to_rosca 0);
  _ ← assert_ok 2 (Call_contribute_to_rosca 0);
  _ ← in_order 2 [2; 1; 3];
  _ ← assert_ok 1 (Call_contribute_to_rosca 0);
  _ ← assert_ok 3 (Call_contribute_to_rosca 0);
  in_order 3 [3; 2; 1].
Definition test_timestamp_updates_during_round_advancement : Test unit :=
  _ ← setup_basic_rosca;
  initial_next ← unwrap (next_pay_by_timestamp 0);
  _ ← assert_ok 3 (Call_contribute_to_rosca 0);
  _ ← assert_eq (next_pay_by_timestamp 0) (Some initial_next);
  _ ← assert_ok 2 (Call_contribute_to_rosca 0);
  assert_eq (next_pay_by_timestamp 0) (Some (initial_next + 10)).
Definition test_rosca_completion_after_final_pay_by : Test unit :=
  _ ← setup_basic_rosca;
  _ ← pass_time (final_pay_by_timestamp 0);
  _ ← assert_ok 2 (Call_contribute_to_rosca 0);
  assert_some (completed_roscas 0).

Definition creator_can_leave_before_start_and_rosca_can_still_start : Test unit :=
  _ ← begin 1;
  _ ← assert_ok 1 (create false [2; 3; 4] 3 100 USDT 10 50);
  _ ← assert_ok 1 (Call_leave_rosca 0);
  _ ← assert_eq (participants_count 0) (Some 0);
  _ ← assert_eq (participants 0 1) None;
  _ ← for_each [2; 3; 4] (λ p, assert_ok p (Call_join_rosca 0 None));
  _ ← assert_eq (participants_count 0) (Some 3);
  _ ← assert_ok 2 (Call_start_rosca 0);
  assert_some (active_roscas 0).

#[local] Instance RoundInfo_eq_dec : EqDecision (RoundInfo (T := Sample)).
Proof. solve_decision. Defined.
Definition expected_rounds : list (RoundInfo (T := Sample)) :=
  [mkRoundInfo 1 11 [3; 2] 1; mkRoundInfo 2 21 [3; 1] 2; mkRoundInfo 3 31 [2; 1] 3].
Definition test_rosca_started_event_emitted_with_manual_rounds : Test unit :=
  _ ← setup_basic_rosca;
  assert_eq (λ s, match last (Events s) with
                  | Some (RoscaStarted r by_ rounds first cutoff) => Some (r, by_, rounds, first, cutoff)
                  | _ => None
                  end) (Some (0, 1, expected_rounds, 1, 11)).

(** All tests pass. *)
Definition tests : list (Test unit) :=
  [create_rosca_works;
   create_rosca_fails_with_past_start_timestamp;
   create_rosca_fails_with_zero_contribution;
   create_rosca_fails_with_zero_frequency;
   join_rosca_works;
   join_rosca_fails_with_invalid_position;
   leave_rosca_works;
   leave_rosca_fails_when_active;
   start_rosca_works;
   start_rosca_fails_threshold_not_met;
   contribute_to_rosca_works_usdt;
   contribute_to_rosca_works_usdc;
   contribute_with_insufficient_balance_fails;
   contribute_to_rosca_fails_for_eligible_claimant;
   contribute_twice_in_same_period_fails;
   contribute_after_final_pay_completes;
   contribute_non_participant_fails;
   manually_end_rosca_works;
   manually_end_before_final_pay_fails;
   claim_security_deposit_works;
   claim_security_deposit_before_completion_fails;
   add_to_security_deposit_after_completion_fails;
   random_order_shuffles_participants;
   process_defaulters_sufficient_deposit;
   process_defaulters_insufficient_deposit;
   max_participants_edge_case;
   eligible_claimant_rotation_works_correctly;
   test_time_based_round_advancement;
   test_final_contribution_round_advancement;
   test_timestamp_updates_during_round_advancement;
   test_rosca_completion_after_final_pay_by;
   creator_can_leave_before_start_and_rosca_can_still_start;
   test_rosca_started_event_emitted_with_manual_rounds].
Lemma tests_pass : forallb passes tests = true.
Proof. by vm_compute. Qed.
