(* ===== verification/MockRuntime.v ===== *)
(** The mock runtime [Test] of [pallets/rosca/src/mock.rs], on which the tests of the
    pallet run: its pallets and their configurations, without the types that only name a
    type of the runtime or switch something off ([()]), and the genesis of its assets.
    [RoscaSample] is the instance of the pallet's [Config] that it describes. *)

From S2P Require Import Prelude RoscaTypes RoscaRounds RoscaCalls RoscaSample.
#[local] Open Scope string_scope.
#[local] Open Scope Z_scope.

(** [construct_runtime!]: the indices are those of the order. *)
Inductive Test : Type := System | Balances | RoscaPallet | Timestamp | Assets.
Definition Test_pallets : list Test := [System; Balances; RoscaPallet; Timestamp; Assets].
Definition Test_index (p : Test) : Z :=
  match p with System => 0 | Balances => 1 | RoscaPallet => 2 | Timestamp => 3 | Assets => 4 end.

#[export] Instance Test_eq_dec : EqDecision Test.
Proof. solve_decision. Defined.

(** Who may: every signed account, or the root. *)
Inductive EnsureOrigin : Type := EnsureSigned | EnsureRoot.
Definition admits_origin {T : Config} (e : EnsureOrigin) (o : Origin) : bool :=
  match e, o with
  | EnsureSigned, Signed _ => true
  | EnsureRoot, Root => true
  | _, _ => false
  end.

(** [frame_system::Config for Test]; the other types are those of
    [ParaChainDefaultConfig]. *)
Record SystemConfig : Type := mkSystemConfig {
  sys_Nonce_max : Z;
  sys_AccountId_max : Z;
  sys_BlockHashCount : Z;
  sys_BaseCallFilter : Test → bool;
  sys_MaxConsumers : Z;
}.
Definition frame_system_Test : SystemConfig := {|
  sys_Nonce_max := u32_MAX;
  sys_AccountId_max := u64_MAX;
  sys_BlockHashCount := 250;
  sys_BaseCallFilter := λ _, true;
  sys_MaxConsumers := 16;
|}.

(** [pallet_balances::Config for Test]. *)
Record BalancesConfig : Type := mkBalancesConfig {
  bal_Balance_max : Z;
  bal_ExistentialDeposit : Z;
  bal_AccountStore : Test;
}.
Definition pallet_balances_Test : BalancesConfig := {|
  bal_Balance_max := u128_MAX;
  bal_ExistentialDeposit := 10;
  bal_AccountStore := System;
|}.

(** [pallet_assets::Config for Test] and its parameters. *)
Definition AssetDeposit : Z := 10.
Definition ApprovalDeposit : Z := 0.
Definition StringLimit : Z := 50.
Definition RemoveItemsLimit : Z := 1000.
Record AssetsConfig : Type := mkAssetsConfig {
  ast_ApprovalDeposit : Z;
  ast_AssetAccountDeposit : Z;
  ast_AssetDeposit : Z;
  ast_AssetId_max : Z;
  ast_CreateOrigin : EnsureOrigin;
  ast_Currency : Test;
  ast_ForceOrigin : EnsureOrigin;
  ast_MetadataDepositBase : Z;
  ast_MetadataDepositPerByte : Z;
  ast_RemoveItemsLimit : Z;
  ast_StringLimit : Z;
}.
Definition pallet_assets_Test : AssetsConfig := {|
  ast_ApprovalDeposit := ApprovalDeposit;
  ast_AssetAccountDeposit := 1;
  ast_AssetDeposit := AssetDeposit;
  ast_AssetId_max := u32_MAX;
  ast_CreateOrigin := EnsureSigned;
  ast_Currency := Balances;
  ast_ForceOrigin := EnsureRoot;
  ast_MetadataDepositBase := 1;
  ast_MetadataDepositPerByte := 1;
  ast_RemoveItemsLimit := RemoveItemsLimit;
  ast_StringLimit := StringLimit;
|}.

(** [crate::Config for Test]. *)
Definition RoscaPalletId : string := "py/rosca".
Record RoscaConfig : Type := mkRoscaConfig {
  rosca_ForeignCurrency : Test;
  rosca_MaxParticipants : Z;
  rosca_MaxInvitedParticipants : Z;
  rosca_PalletId : string;
  rosca_StringLimit : Z;
}.
Definition pallet_rosca_Test : RoscaConfig := {|
  rosca_ForeignCurrency := Assets;
  rosca_MaxParticipants := 150;
  rosca_MaxInvitedParticipants := 149;
  rosca_PalletId := RoscaPalletId;
  rosca_StringLimit := 50;
|}.

(** [pallet_timestamp::Config for Test]. *)
Definition MinimumPeriod : Z := 5.
Record TimestampConfig : Type := mkTimestampConfig {
  ts_Moment_max : Z;
  ts_MinimumPeriod : Z;
}.
Definition pallet_timestamp_Test : TimestampConfig := {|
  ts_Moment_max := u64_MAX;
  ts_MinimumPeriod := MinimumPeriod;
|}.

(** [pallet_assets::GenesisConfig]: id, owner, sufficiency and minimum balance of an
    asset; id, name, symbol and decimals; id, account and balance. *)
Record AssetsGenesis : Type := mkAssetsGenesis {
  gen_assets : list (Z * Z * bool * Z);
  gen_metadata : list (Z * string * string * Z);
  gen_accounts : list (Z * Z * Z);
}.

(** The two that [new_test_ext] assimilates. *)
Definition new_test_ext : list AssetsGenesis :=
  [mkAssetsGenesis [(1984, 0, true, 1)] [(1984, "Usdt", "Usdt", 0)]
     [(1984, 0, 10000); (1984, 1, 10000); (1984, 2, 10000); (1984, 3, 10000); (1984, 4, 50)];
   mkAssetsGenesis [(1337, 0, true, 1)] [(1337, "Usdc", "Usdc", 0)]
     [(1337, 0, 10000); (1337, 1, 10000); (1337, 2, 10000); (1337, 3, 10000); (1337, 4, 50)]].

(** * The mock runtime and the sample pallet *)

(** The balances of a genesis. *)
Definition ledger_of (gs : list AssetsGenesis) : gmap (Z * Z) N :=
  list_to_map ((λ x, (x.1, Z.to_N x.2)) <$> (gs ≫= gen_accounts)).

(** What the genesis builder of [pallet_assets] asks for. *)
Definition genesis_accepted (g : AssetsGenesis) : bool :=
  bool_decide (NoDup ((λ x, x.1.1.1) <$> gen_assets g)) &&
  forallb (λ x, 0 <? x.2) (gen_assets g) &&
  forallb (λ x, bool_decide (x.1.1.1 ∈ ((λ x, x.1.1.1) <$> gen_assets g))) (gen_metadata g) &&
  forallb (λ x, existsb (λ y, (y.1.1.1 =? x.1.1) && (y.2 <=? x.2)) (gen_assets g)) (gen_accounts g).

(** The sample configuration is that of the mock runtime: its bounds, its ledger, its
    minimum balances and its payment assets, at a genesis that [pallet_assets] accepts. *)
Lemma sample_is_mock :
  MaxParticipants (Config := Sample) = rosca_MaxParticipants pallet_rosca_Test ∧
  MaxInvitedParticipants (Config := Sample) = rosca_MaxInvitedParticipants pallet_rosca_Test ∧
  RoscaTypes.StringLimit (Config := Sample) = rosca_StringLimit pallet_rosca_Test ∧
  Ledger (genesis 1) = ledger_of new_test_ext ∧
  forallb genesis_accepted new_test_ext = true ∧
  (∀ i k b n, (i, k, b, n) ∈ (new_test_ext ≫= gen_assets) →
     asset_minimum_balance (Config := Sample) (Ledger (genesis 1)) i = n ∧ ∃ a, PaymentAssets_id a = i).
Proof.
  split_and!; try (by vm_compute).
  intros i k b n H. cbn in H. case_elem H; (split; [done|]); [by exists USDT | by exists USDC].
Qed.

(** The tests create no asset; the root alone could force one. *)
Lemma mock_origins {T : Config} o :
  admits_origin (ast_ForceOrigin pallet_assets_Test) o = true ↔ o = Root.
Proof. split; [by destruct o | by intros ->]. Qed.

Lemma Test_indices : Test_index <$> Test_pallets = seqZ 0 5.
Proof. by vm_compute. Qed.
