(* ===== verification/Indexer.v ===== *)
(** The indexer: the event handlers of [indexer/src/mappings/mappingHandlers.ts], which
    the project file [indexer/project.ts] attaches to the events of the ROSCA pallet, as
    functions on the tables of [indexer/schema.graphql].

    An account stands for its address string: the handlers only compare addresses.  An
    identifier such as [`${rosca_id}-${address}`] stands for the pair it is made of, see
    [entity_id_inj].  A JavaScript number or [BigInt] is an integer, [undefined] is
    [None], and a handler that throws has no result.  A column of type [Int] holds 32 bits
    with a sign: saving an entity with a larger value throws. *)

From Stdlib Require Import Ascii.
From stdpp Require Import pretty.
From S2P Require Import Prelude RoscaTypes.

(** * Identifiers *)

(** [`${rosca_id}-${suffix}`]. *)
Definition entity_id (rosca_id : N) (suffix : string) : string :=
  (pretty rosca_id +:+ "-" +:+ suffix)%string.

(** A decimal number contains no dash, so an identifier determines its parts. *)
Fixpoint before_dash (s : string) : string :=
  match s with
  | String c s => if decide (c = "-"%char) then EmptyString else String c (before_dash s)
  | EmptyString => EmptyString
  end.

Lemma before_dash_go n s t :
  before_dash (s +:+ t) = (s +:+ before_dash t)%string →
  before_dash (pretty_N_go n s +:+ t) = (pretty_N_go n s +:+ before_dash t)%string.
Proof.
  revert s. induction (N.lt_wf_0 n) as [n _ IH]; intros s Hs.
  destruct (decide (n = 0)%N) as [->|Hn]; [by rewrite pretty_N_go_0|].
  rewrite pretty_N_go_step by lia. apply IH; [apply N.div_lt; lia|].
  set (c := pretty_N_char _). change (before_dash (String c (s +:+ t)) = String c (s +:+ before_dash t)).
  cbn [before_dash]. rewrite Hs, decide_False; [done|]. unfold c, pretty_N_char. by repeat case_match.
Qed.

Lemma before_dash_id n suffix : before_dash (entity_id n suffix) = pretty n.
Proof.
  unfold entity_id. assert (∀ s, (s +:+ before_dash ("-" +:+ suffix))%string = s) as Hs
    by (intros s; induction s as [|c s IH]; [done | exact (f_equal (String c) IH)]).
  rewrite <- (Hs (pretty n)). unfold pretty, pretty_N. destruct (decide (n = 0%N)); [done|].
  rewrite !Hs. rewrite before_dash_go by done. apply Hs.
Qed.

Lemma entity_id_inj n n' suffix suffix' :
  entity_id n suffix = entity_id n' suffix' → n = n' ∧ suffix = suffix'.
Proof.
  intros Heq. assert (n = n') as <-.
  { apply (inj pretty). by rewrite <- (before_dash_id n suffix), <- (before_dash_id n' suffix'), Heq. }
  split; [done|]. unfold entity_id in Heq. apply (inj (String.append _)) in Heq. by injection Heq.
Qed.

Section indexer.
Context {T : Config}.

(** * Entities *)

(** The values of a column of type [Int!]; those of a [BigInt!] are not bounded. *)
Definition i32_MAX : Z := 2147483647.
Definition Int (n : Z) : bool := (- i32_MAX - 1 <=? n) && (n <=? i32_MAX).

(** [type Rosca @entity]. *)
Record Rosca : Type := mkRosca {
  roscaId : RoscaId;
  roscaName : list Z;
  creator : AccountId;
  paymentAsset : PaymentAssets;
  randomOrder : bool;
  totalParticipants : Z;
  minParticipants : Z;
  contributionAmount : Z;
  contributionFrequency : Moment;
  startTimestamp : Moment;
  completed : bool;
  eligibleParticipants : list AccountId;
  activeParticipants : list AccountId;
  startedBy : option AccountId;
  totalSecurityDeposits : Z;
  currentRecipient : option AccountId;
  currentRoundNumber : Z;
  currentRoundPaymentCutoff : option Moment;
}.

(** [type Round @entity]. *)
Record Round : Type := mkRound {
  chainRoscaId : RoscaId;
  roundNumber : Z;
  paymentCutoff : Moment;
  expectedContributors : list AccountId;
  roundRecipient : AccountId;
  defaulters : list AccountId;
  actualContributors : list AccountId;
}.

(** The tables.  Of [Account] only the identifier is stored, of [RoscaEligibility] the
    time of joining and of [SecurityDeposit] the amount. *)
Record Database : Type := mkDatabase {
  Roscas : gmap RoscaId Rosca;
  Rounds : gmap RoscaId (gmap Z Round);
  Accounts : gset AccountId;
  RoscaEligibilities : gmap RoscaId (gmap AccountId (option Moment));
  SecurityDeposits : gmap RoscaId (gmap AccountId Z);
}.

Definition empty_database : Database := mkDatabase ∅ ∅ ∅ ∅ ∅.

(** [save] and [store.remove]: the columns of type [Int!] of an entity, the tables with the
    entity in them, and [save], which throws when a value does not fit its column. *)
Definition Rosca_fits (x : Rosca) : bool :=
  Int (roscaId x) && Int (totalParticipants x) && Int (minParticipants x) &&
  Int (totalSecurityDeposits x) && Int (currentRoundNumber x).
Definition put_Rosca (x : Rosca) (db : Database) : Database :=
  mkDatabase (<[roscaId x := x]> (Roscas db)) (Rounds db) (Accounts db) (RoscaEligibilities db)
    (SecurityDeposits db).
Definition save_Rosca (x : Rosca) (db : Database) : option Database :=
  if Rosca_fits x then Some (put_Rosca x db) else None.
Definition Round_fits (x : Round) : bool := Int (chainRoscaId x) && Int (roundNumber x).
Definition put_Round (x : Round) (db : Database) : Database :=
  mkDatabase (Roscas db) (dinsert (chainRoscaId x) (roundNumber x) x (Rounds db)) (Accounts db)
    (RoscaEligibilities db) (SecurityDeposits db).
Definition save_Round (x : Round) (db : Database) : option Database :=
  if Round_fits x then Some (put_Round x db) else None.
Definition save_Account (a : AccountId) (db : Database) : Database :=
  mkDatabase (Roscas db) (Rounds db) ({[a]} ∪ Accounts db) (RoscaEligibilities db) (SecurityDeposits db).
Definition save_RoscaEligibility (rosca_id : RoscaId) (a : AccountId) (joinedAt : option Moment)
    (db : Database) : Database :=
  mkDatabase (Roscas db) (Rounds db) (Accounts db)
    (dinsert rosca_id a joinedAt (RoscaEligibilities db)) (SecurityDeposits db).
Definition put_SecurityDeposit (rosca_id : RoscaId) (a : AccountId) (amount : Z) (db : Database) : Database :=
  mkDatabase (Roscas db) (Rounds db) (Accounts db) (RoscaEligibilities db)
    (dinsert rosca_id a amount (SecurityDeposits db)).
Definition save_SecurityDeposit (rosca_id : RoscaId) (a : AccountId) (amount : Z) (db : Database)
    : option Database :=
  if Int amount then Some (put_SecurityDeposit rosca_id a amount db) else None.
Definition remove_SecurityDeposit (rosca_id : RoscaId) (a : AccountId) (db : Database) : Database :=
  mkDatabase (Roscas db) (Rounds db) (Accounts db) (RoscaEligibilities db)
    (dremove rosca_id a (SecurityDeposits db)).

(** [for (const x of l)] with a body that may throw. *)
Fixpoint for_of {A} (f : A → Database → option Database) (l : list A) (db : Database) : option Database :=
  match l with
  | [] => Some db
  | x :: l => db ← f x db; for_of f l db
  end.

(** [Round.getByFields] of the store: at most [limit] of the rounds that match; which
    of them is not specified. *)
Class Store : Type := {
  getByFields : (Round → bool) → nat → gmap RoscaId (gmap Z Round) → list Round;
}.
Class StoreLaws (St : Store) : Prop := {
  getByFields_limit fields limit m : (length (getByFields fields limit m) ≤ limit)%nat;
  getByFields_sound fields limit m x :
    x ∈ getByFields fields limit m → fields x = true ∧ ∃ r n, dlookup m r n = Some x;
  getByFields_complete fields limit m r n x :
    dlookup m r n = Some x → fields x = true → getByFields fields (S limit) m ≠ [];
}.
Context {St : Store}.

(** * Handlers *)

(** The entity with other values in some of its fields. *)
Definition with_start (started_by claimant : AccountId) (number : Z) (cutoff : Moment) (x : Rosca) : Rosca :=
  mkRosca (roscaId x) (roscaName x) (creator x) (paymentAsset x) (randomOrder x) (totalParticipants x)
    (minParticipants x) (contributionAmount x) (contributionFrequency x) (startTimestamp x) (completed x)
    (eligibleParticipants x) (activeParticipants x) (Some started_by) (totalSecurityDeposits x)
    (Some claimant) number (Some cutoff).
Definition with_round (claimant : AccountId) (number : Z) (cutoff : Moment) (x : Rosca) : Rosca :=
  mkRosca (roscaId x) (roscaName x) (creator x) (paymentAsset x) (randomOrder x) (totalParticipants x)
    (minParticipants x) (contributionAmount x) (contributionFrequency x) (startTimestamp x) (completed x)
    (eligibleParticipants x) (activeParticipants x) (startedBy x) (totalSecurityDeposits x)
    (Some claimant) number (Some cutoff).
Definition with_participants (active : list AccountId) (x : Rosca) : Rosca :=
  mkRosca (roscaId x) (roscaName x) (creator x) (paymentAsset x) (randomOrder x) (totalParticipants x)
    (minParticipants x) (contributionAmount x) (contributionFrequency x) (startTimestamp x) (completed x)
    (eligibleParticipants x) active (startedBy x) (totalSecurityDeposits x)
    (currentRecipient x) (currentRoundNumber x) (currentRoundPaymentCutoff x).
Definition with_completed (done_ : bool) (x : Rosca) : Rosca :=
  mkRosca (roscaId x) (roscaName x) (creator x) (paymentAsset x) (randomOrder x) (totalParticipants x)
    (minParticipants x) (contributionAmount x) (contributionFrequency x) (startTimestamp x) done_
    (eligibleParticipants x) (activeParticipants x) (startedBy x) (totalSecurityDeposits x)
    (currentRecipient x) (currentRoundNumber x) (currentRoundPaymentCutoff x).
Definition with_deposits (amount : Z) (x : Rosca) : Rosca :=
  mkRosca (roscaId x) (roscaName x) (creator x) (paymentAsset x) (randomOrder x) (totalParticipants x)
    (minParticipants x) (contributionAmount x) (contributionFrequency x) (startTimestamp x) (completed x)
    (eligibleParticipants x) (activeParticipants x) (startedBy x) amount
    (currentRecipient x) (currentRoundNumber x) (currentRoundPaymentCutoff x).

(** [handleRoscaCreated], the loop over the eligible accounts: the creator has joined at
    the time of the block, [event.block.timestamp!] throws when there is none. *)
Fixpoint create_eligibilities (time : option Moment) (rosca_id : RoscaId) (creator : AccountId)
    (addresses : list AccountId) (db : Database) : option Database :=
  match addresses with
  | [] => Some db
  | address :: addresses =>
    let db := if decide (address ∈ Accounts db) then db else save_Account address db in
    joinedAt ← (if decide (address = creator) then Some <$> time else Some None);
    create_eligibilities time rosca_id creator addresses (save_RoscaEligibility rosca_id address joinedAt db)
  end.
Definition handleRoscaCreated (time : option Moment) (rosca_id : RoscaId) (contribution_amount : Balance)
    (payment_asset : PaymentAssets) (contribution_frequency : Moment) (random_order : bool) (name : list Z)
    (number_of_participants minimum_participant_threshold : Z) (start_by_timestamp : Moment)
    (eligible_participants : list AccountId) (creator : AccountId) (db : Database) : option Database :=
  let roscaEntity := mkRosca rosca_id name creator payment_asset random_order number_of_participants
    minimum_participant_threshold contribution_amount contribution_frequency start_by_timestamp false
    eligible_participants [creator] None 0 None 0 None in
  db ← save_Rosca roscaEntity db;
  create_eligibilities time rosca_id creator eligible_participants db.

(** [handleRoscaStarted]. *)
Definition create_round (rosca_id : RoscaId) (round : RoundInfo) (db : Database) : option Database :=
  save_Round (mkRound rosca_id (round_number round) (payment_cutoff round) (expected_contributors round)
                (recipient round) [] []) db.
Definition handleRoscaStarted (rosca_id : RoscaId) (started_by : AccountId) (rounds : list RoundInfo)
    (first_eligible_claimant : AccountId) (payment_cutoff : Moment) (db : Database) : option Database :=
  db ← match Roscas db !! rosca_id with
       | Some roscaEntity =>
         save_Rosca (with_start started_by first_eligible_claimant 1 payment_cutoff roscaEntity) db
       | None => Some db
       end;
  for_of (create_round rosca_id) rounds db.

(** The query of the three handlers below, and [includes] followed by [push]. *)
Definition rounds_of (rosca_id : RoscaId) (to : AccountId) (db : Database) : list Round :=
  getByFields (λ x, bool_decide (chainRoscaId x = rosca_id) && bool_decide (roundRecipient x = to)) 1 (Rounds db).
Definition push_new (a : AccountId) (l : list AccountId) : list AccountId :=
  if decide (a ∈ l) then l else l ++ [a].
Definition add_defaulter (a : AccountId) (x : Round) : Round :=
  mkRound (chainRoscaId x) (roundNumber x) (paymentCutoff x) (expectedContributors x) (roundRecipient x)
    (push_new a (defaulters x)) (actualContributors x).
Definition add_contributor (a : AccountId) (x : Round) : Round :=
  mkRound (chainRoscaId x) (roundNumber x) (paymentCutoff x) (expectedContributors x) (roundRecipient x)
    (defaulters x) (push_new a (actualContributors x)).

(** [handleParticipantDefaulted], [handleContributionMade] and [handleDepositDeducted]:
    an entity that is not changed is not saved. *)
Definition handleParticipantDefaulted (rosca_id : RoscaId) (unpaid_recipient defaulter : AccountId)
    (db : Database) : option Database :=
  for_of (λ x db, if decide (defaulter ∈ defaulters x) then Some db
                    else save_Round (add_defaulter defaulter x) db)
    (rounds_of rosca_id unpaid_recipient db) db.
Definition handleContributionMade (rosca_id : RoscaId) (contributor recipient : AccountId) (amount : Balance)
    (db : Database) : option Database :=
  for_of (λ x db, if decide (contributor ∈ actualContributors x) then Some db
                    else save_Round (add_contributor contributor x) db)
    (rounds_of rosca_id recipient db) db.
Definition handleDepositDeducted (rosca_id : RoscaId) (contributor recipient : AccountId) (amount : Balance)
    (sufficient : bool) (db : Database) : option Database :=
  for_of (λ x db, if decide (contributor ∈ actualContributors x) then Some db
                    else save_Round (add_contributor contributor x) db)
    (rounds_of rosca_id recipient db) db.

(** [handleJoinedRosca]. *)
Definition handleJoinedRosca (time : option Moment) (rosca_id : RoscaId) (contributor : AccountId)
    (db : Database) : option Database :=
  match Roscas db !! rosca_id, dlookup (RoscaEligibilities db) rosca_id contributor, time with
  | Some roscaEntity, Some _, Some now =>
    save_Rosca (if decide (contributor ∈ activeParticipants roscaEntity) then roscaEntity
                else with_participants (contributor :: activeParticipants roscaEntity) roscaEntity)
      (save_RoscaEligibility rosca_id contributor (Some now) db)
  | _, _, _ => Some db
  end.

(** [handleLeftRosca]. *)
Definition handleLeftRosca (rosca_id : RoscaId) (contributor : AccountId) (db : Database) : option Database :=
  match Roscas db !! rosca_id, dlookup (RoscaEligibilities db) rosca_id contributor with
  | Some roscaEntity, Some _ =>
    save_Rosca (with_participants (filter (λ a, a ≠ contributor) (activeParticipants roscaEntity)) roscaEntity)
      (save_RoscaEligibility rosca_id contributor None db)
  | _, _ => Some db
  end.

(** [handleRoscaComplete]. *)
Definition handleRoscaComplete (rosca_id : RoscaId) (db : Database) : option Database :=
  match Roscas db !! rosca_id with
  | Some roscaEntity => save_Rosca (with_completed true roscaEntity) db
  | None => Some db
  end.

(** [handleSecurityDepositContribution]: the new deposit is created or the old one
    raised, then the total of the ROSCA is. *)
Definition add_total (rosca_id : RoscaId) (amount : Z) (db : Database) : option Database :=
  match Roscas db !! rosca_id with
  | Some x => save_Rosca (with_deposits (totalSecurityDeposits x + amount) x) db
  | None => Some db
  end.
Definition handleSecurityDepositContribution (rosca_id : RoscaId) (depositor : AccountId) (amount : Balance)
    (db : Database) : option Database :=
  if decide (depositor ∈ Accounts db) then
    match dlookup (SecurityDeposits db) rosca_id depositor with
    | None =>
      db ← save_SecurityDeposit rosca_id depositor amount db;
      add_total rosca_id amount db
    | Some securityDeposit =>
      db ← save_SecurityDeposit rosca_id depositor (securityDeposit + amount) db;
      add_total rosca_id amount db
    end
  else Some db.

(** [handleSecurityDepositClaimed]: a claim of another amount than the recorded one is
    only logged, and so is a [save] that throws. *)
Definition handleSecurityDepositClaimed (rosca_id : RoscaId) (depositor : AccountId) (amount : Balance)
    (db : Database) : option Database :=
  match dlookup (SecurityDeposits db) rosca_id depositor with
  | None => Some db
  | Some deposit =>
    if decide (deposit = amount) then
      match add_total rosca_id (- amount) db with
      | Some db => Some (remove_SecurityDeposit rosca_id depositor db)
      | None => Some db
      end
    else Some db
  end.

(** [handleNewRoundStarted]: [rosca.currentRoundPaymentCutoff! += ...] throws when the
    field is undefined. *)
Definition handleNewRoundStarted (rosca_id : RoscaId) (new_eligible_recipient : AccountId)
    (payment_cutoff : Moment) (db : Database) : option Database :=
  match Roscas db !! rosca_id with
  | None => Some db
  | Some rosca =>
    cutoff ← currentRoundPaymentCutoff rosca;
    save_Rosca (with_round new_eligible_recipient (currentRoundNumber rosca + 1)
                  (cutoff + payment_cutoff) rosca) db
  end.

(** * The project *)

(** [dataSources] of the project: the handler of each event, in a block with the given
    timestamp.  [RoscaManuallyEnded] has none. *)
Definition handle (time : option Moment) (ev : Event) (db : Database) : option Database :=
  match ev with
  | RoscaCreated r amount asset frequency random name number threshold start_by eligible creator =>
    handleRoscaCreated time r amount asset frequency random name number threshold start_by eligible creator db
  | ParticipantDefaulted r to a => handleParticipantDefaulted r to a db
  | ContributionMade r a to amount => handleContributionMade r a to amount db
  | DepositDeducted r a to amount sufficient => handleDepositDeducted r a to amount sufficient db
  | JoinedRosca r a => handleJoinedRosca time r a db
  | LeftRosca r a => handleLeftRosca r a db
  | RoscaStarted r a rounds claimant cutoff => handleRoscaStarted r a rounds claimant cutoff db
  | RoscaComplete r => handleRoscaComplete r db
  | SecurityDepositContribution r a amount => handleSecurityDepositContribution r a amount db
  | SecurityDepositClaimed r a amount => handleSecurityDepositClaimed r a amount db
  | RoscaManuallyEnded r => Some db
  | NewRoundStarted r claimant cutoff => handleNewRoundStarted r claimant cutoff db
  end.

(** The events of the chain in order, each with the timestamp of its block. *)
Fixpoint index (log : list (option Moment * Event)) (db : Database) : option Database :=
  match log with
  | [] => Some db
  | (time, ev) :: log => db ← handle time ev db; index log db
  end.
End indexer.
