(* ===== verification/IndexerTables.v ===== *)
(** What the event handlers of the indexer do to the tables of one ROSCA, and that they
    leave the tables of the others alone. *)

From S2P Require Import Prelude RoscaTypes RoscaRounds RoscaCalls RoscaLogic RoscaSchedule RoscaMoney Indexer.

Section tables.
Context {T : Config} {St : Store} {SL : StoreLaws St}.
Implicit Types (r : RoscaId) (db : Database) (x : Rosca) (y : Round) (a b : AccountId) (ev : Event).

(** * The entities of one ROSCA *)
Record Tables : Type := mkTables {
  w_rosca : option Rosca;
  w_rounds : gmap Z Round;
  w_eligibilities : gmap AccountId (option Moment);
  w_deposits : gmap AccountId Z;
}.

Definition tables r db : Tables :=
  mkTables (Roscas db !! r) (prefix (Rounds db) r) (prefix (RoscaEligibilities db) r)
    (prefix (SecurityDeposits db) r).

(** Every entity is stored under its own identifier, with values that fit the columns. *)
Record well_kept db : Prop := {
  well_kept_rosca r x : Roscas db !! r = Some x → roscaId x = r;
  well_kept_round r n y :
    dlookup (Rounds db) r n = Some y → (chainRoscaId y = r ∧ roundNumber y = n) ∧ Round_fits y = true;
}.

(** A save succeeds exactly when the values fit. *)
Lemma save_Rosca_Some x db db' : save_Rosca x db = Some db' ↔ Rosca_fits x = true ∧ db' = put_Rosca x db.
Proof. unfold save_Rosca. destruct (Rosca_fits x); naive_solver. Qed.
Lemma save_Round_Some y db db' : save_Round y db = Some db' ↔ Round_fits y = true ∧ db' = put_Round y db.
Proof. unfold save_Round. destruct (Round_fits y); naive_solver. Qed.
Lemma save_SecurityDeposit_Some r a n db db' :
  save_SecurityDeposit r a n db = Some db' ↔ Int n = true ∧ db' = put_SecurityDeposit r a n db.
Proof. unfold save_SecurityDeposit. destruct (Int n); naive_solver. Qed.

Lemma Int_spec n : Int n = true ↔ - i32_MAX - 1 ≤ n ≤ i32_MAX.
Proof. unfold Int. rewrite andb_true_iff, !Z.leb_le. done. Qed.
Lemma Rosca_fits_spec x :
  Rosca_fits x = true ↔
    (Int (roscaId x) = true ∧ Int (totalParticipants x) = true ∧ Int (minParticipants x) = true) ∧
    Int (totalSecurityDeposits x) = true ∧ Int (currentRoundNumber x) = true.
Proof. unfold Rosca_fits. rewrite !andb_true_iff. naive_solver. Qed.
Lemma Round_fits_spec y : Round_fits y = true ↔ Int (chainRoscaId y) = true ∧ Int (roundNumber y) = true.
Proof. apply andb_true_iff. Qed.

(** [touches r db db']: nothing is written for another ROSCA than [r], and no account is
    lost. *)
Definition touches r db db' : Prop :=
  well_kept db →
  well_kept db' ∧ Accounts db ⊆ Accounts db' ∧ ∀ r', r ≠ r' → tables r' db' = tables r' db.

#[global] Instance touches_refl r : Reflexive (touches r).
Proof. by intros db. Qed.
#[global] Instance touches_trans r : Transitive (touches r).
Proof.
  intros db1 db2 db3 H12 H23 H1. destruct (H12 H1) as (H2 & A2 & T2). destruct (H23 H2) as (H3 & A3 & T3).
  split_and!; [done | by etrans | intros r' Hr; by rewrite T3, T2].
Qed.

Ltac solve_touches := intros r' Hr; unfold tables; cbn; by autorewrite with storage.

Lemma save_Rosca_touches r x db db' : save_Rosca x db = Some db' → roscaId x = r → touches r db db'.
Proof.
  intros [_ ->]%save_Rosca_Some <- [Hx Hy]. split_and!; [split; cbn; [|done] | done | solve_touches].
  intros r x' Hx'. apply lookup_insert_Some in Hx' as [[<- <-]|[_ ?]]; auto.
Qed.
Lemma save_Round_touches r y db db' : save_Round y db = Some db' → chainRoscaId y = r → touches r db db'.
Proof.
  intros [Hfit ->]%save_Round_Some <- [Hx Hy]. split_and!; [split; cbn; [done|] | done | solve_touches].
  intros r n y'. unfold dlookup. cbn. destruct (decide (chainRoscaId y = r)) as [<-|Hr]; autorewrite with storage; [|apply Hy].
  intros [[<- <-]|[_ ?]]%lookup_insert_Some; auto.
Qed.
Lemma save_Account_touches r a db : touches r db (save_Account a db).
Proof. intros [Hx Hy]. split_and!; [by split | cbn; set_solver | done]. Qed.
Lemma save_RoscaEligibility_touches r a t db : touches r db (save_RoscaEligibility r a t db).
Proof. intros [Hx Hy]. split_and!; [by split | done | solve_touches]. Qed.
Lemma save_SecurityDeposit_touches r a n db db' : save_SecurityDeposit r a n db = Some db' → touches r db db'.
Proof. intros [_ ->]%save_SecurityDeposit_Some [Hx Hy]. split_and!; [by split | done | solve_touches]. Qed.
Lemma remove_SecurityDeposit_touches r a db : touches r db (remove_SecurityDeposit r a db).
Proof. intros [Hx Hy]. split_and!; [by split | done | solve_touches]. Qed.

(** A loop touches what its body touches. *)
Lemma touches_for_of {A} r (f : A → Database → option Database) l db db' :
  (∀ z db db', z ∈ l → f z db = Some db' → touches r db db') → for_of f l db = Some db' → touches r db db'.
Proof.
  revert db. induction l as [|z l IH]; intros db Hf; [by intros [= <-]|]. cbn. intros (db1 & Hz & Hdb)%bind_Some.
  etrans; [eapply Hf; [by left | done] | apply IH; [intros; eapply Hf; [by right | done] | done]].
Qed.

Lemma add_total_touches r n db db' : add_total r n db = Some db' → touches r db db'.
Proof.
  unfold add_total. destruct (Roscas db !! r) as [x|] eqn:Hx; [|by intros [= <-]].
  intros Hdb Hk. eapply save_Rosca_touches; [done | | done]. by apply (well_kept_rosca _ Hk r x).
Qed.

Lemma rounds_of_recipient r to db y : y ∈ rounds_of r to db → chainRoscaId y = r ∧ roundRecipient y = to.
Proof.
  intros [Hf _]%getByFields_sound. apply andb_true_iff in Hf as [H1 H2].
  by apply bool_decide_eq_true in H1, H2.
Qed.

Lemma create_eligibilities_touches time r c l db db' :
  create_eligibilities time r c l db = Some db' → touches r db db'.
Proof.
  revert db. induction l as [|b l IH]; intros db; cbn [create_eligibilities]; [by intros [= <-]|].
  intros (j & _ & Hdb)%bind_Some. apply IH in Hdb. etrans; [|exact Hdb].
  etrans; [|apply save_RoscaEligibility_touches]. case_decide; [reflexivity | apply save_Account_touches].
Qed.

(** The ROSCA an event is about. *)
Definition event_rosca ev : RoscaId :=
  match ev with
  | RoscaCreated r _ _ _ _ _ _ _ _ _ _ | ParticipantDefaulted r _ _ | ContributionMade r _ _ _
  | DepositDeducted r _ _ _ _ | JoinedRosca r _ | LeftRosca r _ | RoscaStarted r _ _ _ _ | RoscaComplete r
  | SecurityDepositContribution r _ _ | SecurityDepositClaimed r _ _ | RoscaManuallyEnded r
  | NewRoundStarted r _ _ => r
  end.

(** The loop over the rounds of a recipient. *)
Lemma touches_rounds r to (f : Round → Round) (P : Round → Prop) `{∀ y, Decision (P y)} db0 db db' :
  (∀ y, chainRoscaId (f y) = chainRoscaId y) →
  for_of (λ y db, if decide (P y) then Some db else save_Round (f y) db) (rounds_of r to db0) db = Some db' →
  touches r db db'.
Proof.
  intros Hf. apply touches_for_of. intros y db1 db2 [Hy _]%rounds_of_recipient.
  case_decide; [by intros [= <-]|]. intros Hdb. eapply save_Round_touches; [done|]. by rewrite Hf.
Qed.

Lemma handle_touches time ev db db' : handle time ev db = Some db' → touches (event_rosca ev) db db'.
Proof.
  assert (∀ r (f : Rosca → Rosca) x db1 db db', (∀ x, roscaId (f x) = roscaId x) → Roscas db1 !! r = Some x →
    touches r db1 db → Roscas db = Roscas db1 → save_Rosca (f x) db = Some db' → touches r db1 db') as Hsave.
  { intros r f x db1 db2 db3 Hf Hx Ht Heq Hs. etrans; [exact Ht|]. intros Hk. eapply save_Rosca_touches; [done | | done].
    rewrite Hf. apply (well_kept_rosca _ Hk). by rewrite Heq. }
  destruct ev; cbn [handle event_rosca]; intros Hdb.
  - apply bind_Some in Hdb as (db1 & Hdb1 & Hdb). etrans; [by eapply save_Rosca_touches | by eapply create_eligibilities_touches].
  - eapply (touches_rounds _ _ (add_defaulter _) (λ y, _ ∈ defaulters y)); [|exact Hdb]. done.
  - eapply (touches_rounds _ _ (add_contributor _) (λ y, _ ∈ actualContributors y)); [|exact Hdb]. done.
  - eapply (touches_rounds _ _ (add_contributor _) (λ y, _ ∈ actualContributors y)); [|exact Hdb]. done.
  - unfold handleJoinedRosca in Hdb. destruct (Roscas db !! _) as [x|] eqn:Hx; [|by injection Hdb as <-].
    destruct (dlookup _ _ _); [|by injection Hdb as <-]. destruct time; [|by injection Hdb as <-].
    revert Hdb. case_decide; [apply (Hsave _ id) | apply (Hsave _ (with_participants _))];
      done || apply save_RoscaEligibility_touches.
  - unfold handleLeftRosca in Hdb. destruct (Roscas db !! _) as [x|] eqn:Hx; [|by injection Hdb as <-].
    destruct (dlookup _ _ _); [|by injection Hdb as <-].
    revert Hdb. apply (Hsave _ (with_participants _)); done || apply save_RoscaEligibility_touches.
  - apply bind_Some in Hdb as (db1 & Hdb1 & Hdb).
    etrans; [|eapply touches_for_of; [|exact Hdb]; intros; by eapply save_Round_touches].
    destruct (Roscas db !! _) as [x|] eqn:Hx; [|by injection Hdb1 as <-].
    by eapply (Hsave _ (with_start _ _ _ _)).
  - unfold handleRoscaComplete in Hdb. destruct (Roscas db !! _) as [x|] eqn:Hx; [|by injection Hdb as <-].
    by eapply (Hsave _ (with_completed _)).
  - unfold handleSecurityDepositContribution in Hdb. case_decide; [|by injection Hdb as <-].
    case_match; apply bind_Some in Hdb as (db1 & Hdb1 & Hdb);
      (etrans; [by eapply save_SecurityDeposit_touches | by eapply add_total_touches]).
  - unfold handleSecurityDepositClaimed in Hdb. repeat case_match; simplify_eq; try reflexivity.
    etrans; [by eapply add_total_touches | apply remove_SecurityDeposit_touches].
  - by injection Hdb as <-.
  - unfold handleNewRoundStarted in Hdb. destruct (Roscas db !! _) as [x|] eqn:Hx; [|by injection Hdb as <-].
    apply bind_Some in Hdb as (t & _ & Hdb). by eapply (Hsave _ (with_round _ _ _)).
Qed.

(** * Runs of the indexer

    [indexes evs db Q]: whatever the timestamps of the blocks, the indexer handles the
    events [evs] without throwing and ends in a database that satisfies [Q]. *)
Definition indexes (evs : list Event) db (Q : Database → Prop) : Prop :=
  ∀ log, log.*2 = evs → Forall (λ e, is_Some e.1) log → ∃ db', index log db = Some db' ∧ Q db'.

Lemma index_app log log' db : index (log ++ log') db = index log db ≫= index log'.
Proof.
  revert db. induction log as [|[time ev] log IH]; intros db; [done|]. cbn.
  destruct (handle time ev db); [apply IH | done].
Qed.

Lemma indexes_nil db (Q : Database → Prop) : Q db → indexes [] db Q.
Proof. intros HQ log Hlog _. apply fmap_nil_inv in Hlog as ->. by exists db. Qed.

Lemma indexes_app evs evs' db (Q : Database → Prop) :
  indexes evs db (λ db1, indexes evs' db1 Q) → indexes (evs ++ evs') db Q.
Proof.
  intros H log Hlog Htime. apply fmap_app_inv in Hlog as (l1 & l2 & -> & -> & ->).
  apply Forall_app in Htime as [H1 H2]. destruct (H l1 eq_refl H1) as (db1 & Hdb1 & H').
  destruct (H' l2 eq_refl H2) as (db2 & Hdb2 & HQ). exists db2. by rewrite index_app, Hdb1.
Qed.

Lemma indexes_one ev db (Q : Database → Prop) :
  (∀ now, ∃ db', handle (Some now) ev db = Some db' ∧ Q db') → indexes [ev] db Q.
Proof.
  intros H log Hlog Htime. destruct log as [|[time ev'] [|]]; try done. injection Hlog as ->.
  apply Forall_singleton in Htime as [now Hnow]. cbn in Hnow. subst time.
  destruct (H now) as (db' & Hdb & HQ). exists db'. cbn. by rewrite Hdb.
Qed.

Lemma indexes_cons ev evs db (Q : Database → Prop) :
  (∀ now, ∃ db', handle (Some now) ev db = Some db' ∧ indexes evs db' Q) → indexes (ev :: evs) db Q.
Proof. intros H. apply (indexes_app [ev]). by apply indexes_one. Qed.

Lemma indexes_mono evs db (Q Q' : Database → Prop) :
  indexes evs db Q → (∀ db', Q db' → Q' db') → indexes evs db Q'.
Proof. intros H HQ log Hlog Htime. destruct (H log Hlog Htime) as (db' & ? & ?). eauto. Qed.

Lemma index_touches r log db db' :
  Forall (λ ev, event_rosca ev = r) log.*2 → index log db = Some db' → touches r db db'.
Proof.
  revert db. induction log as [|[time ev] log IH]; intros db; cbn; [by intros _ [= <-]|].
  intros [<- Hall]%Forall_cons (db1 & Hdb1 & Hdb')%bind_Some.
  etrans; [by eapply handle_touches | by apply IH].
Qed.

Lemma indexes_touches r evs db (Q : Database → Prop) :
  Forall (λ ev, event_rosca ev = r) evs → indexes evs db Q →
  indexes evs db (λ db', Q db' ∧ touches r db db').
Proof.
  intros Hall H log Hlog Htime. destruct (H log Hlog Htime) as (db' & Hdb & HQ).
  exists db'. split_and!; [done..|]. eapply index_touches; [|done]. by rewrite Hlog.
Qed.
End tables.
