(* ===== verification/IndexerFollows.v ===== *)
(** The indexer follows the chain: what its tables hold of a ROSCA in each phase of its
    life, and that every step of the specification keeps it so. *)

From S2P Require Import Prelude RoscaTypes RoscaRounds RoscaCalls RoscaLogic RoscaFrame.
From S2P Require Import RoscaSample RoscaSchedule RoscaInvariant RoscaPreservation.
From S2P Require Import RoscaMembership RoscaLifecycle RoscaSafety RoscaMoney Indexer IndexerTables.

Section follows.
Context {T : Config} {L : ConfigLaws T} {St : Store} {SL : StoreLaws St}.
Implicit Types (r : RoscaId) (v : RoscaView) (d : RoscaDetails) (l : list AccountId) (db : Database).
Implicit Types (x : Rosca) (y : Round) (w : Tables) (a b c : AccountId) (es : list Event) (acc : gset AccountId).

(** The parameters of a ROSCA as its entity has them. *)
Definition parameters x : RoscaDetails :=
  mkRoscaDetails (randomOrder x) (totalParticipants x) (minParticipants x) (contributionAmount x)
    (paymentAsset x) (contributionFrequency x) (startTimestamp x) (roscaName x).

(** The entity of an announced round, with those who have defaulted and paid so far. *)
Definition round_entity r (info : RoundInfo) (ds ac : list AccountId) : Round :=
  mkRound r (round_number info) (payment_cutoff info) (expected_contributors info) (recipient info) ds ac.

(** Everybody who was to pay in a round has paid or defaulted; or the recipient has paid
    itself in place of another. *)
Definition accounted (info : RoundInfo) (ds ac : list AccountId) : Prop :=
  (∀ b, b ∈ expected_contributors info → b ∈ ac ∨ b ∈ ds) ∨ recipient info ∈ ac.

(** The rounds of the schedule [sched] are in the table, [k] of them are over and
    accounted for.  In the current round exactly those have paid who have contributed; the
    later ones are empty. *)
Record rounds_at r (sched : list RoundInfo) (k : nat) (paid : AccountId → Prop) (m : gmap Z Round) : Prop := {
  rounds_entity i info : sched !! i = Some info →
    ∃ ds ac, m !! round_number info = Some (round_entity r info ds ac) ∧ NoDup ds ∧ NoDup ac ∧
      (∀ b, b ∈ ds → b ∈ expected_contributors info) ∧
      ((i < k)%nat → accounted info ds ac) ∧
      ((i = k)%nat → ds = [] ∧ ∀ b, b ∈ ac ↔ paid b) ∧
      ((k < i)%nat → ds = [] ∧ ac = []);
  rounds_only n y : m !! n = Some y →
    ∃ i info, sched !! i = Some info ∧ round_number info = n ∧ roundRecipient y = recipient info;
}.

(** The sum of the cutoffs of the rounds up to number [k + 1]. *)
Fixpoint cutoffs (t f : Moment) (k : nat) : Moment :=
  match k with
  | O => t + f
  | S k' => cutoffs t f k' + (t + f * (Z.of_nat k + 1))
  end.

(** The phases.  [currentRoundPaymentCutoff] is the sum of all cutoffs so far, not the
    cutoff of the round. *)
Inductive phase r v x (m : gmap Z Round) : Prop :=
  | phase_pending d :
      v_pending v = Some d → v_completed v = None → m = ∅ →
      currentRecipient x = None → currentRoundNumber x = 0 → phase r v x m
  | phase_running d l k t :
      running d l k t v → rounds_at r (schedule l t (contribution_frequency d)) k
                            (λ b, is_Some (v_contributors v !! b)) m →
      currentRecipient x = v_claimant v → currentRoundNumber x = Z.of_nat k + 1 →
      currentRoundPaymentCutoff x = Some (cutoffs t (contribution_frequency d) k) → phase r v x m
  | phase_completed l t f :
      v_completed v = Some tt → (∀ b, is_Some (v_participants v !! b) ↔ b ∈ l) →
      rounds_at r (schedule l t f) (length l) (λ _, False) m → phase r v x m.

(** Part of the deposit of [b] was taken for a missed contribution. *)
Definition deducted es r b : Prop := ∃ c n ok, DepositDeducted r b c n ok ∈ es.

(** What was paid into the deposits of a ROSCA according to the events. *)
Definition paid_in_by r ev : Z :=
  match ev with
  | SecurityDepositContribution r' _ n => if decide (r' = r) then Z.max 0 n else 0
  | _ => 0
  end.
Definition paid_in r es : Z := foldr (λ ev n, paid_in_by r ev + n) 0 es.

(** The tables [w] of the indexer, with the accounts [acc] and the entity [x], follow the
    view [v] of a ROSCA on a chain with the event log [es]. *)
Record follows es acc r v w x : Prop := {
  follows_rosca : w_rosca w = Some x;
  follows_id : roscaId x = r;
  follows_details d : v_active v = Some d ∨ v_pending v = Some d → parameters x = d;
  follows_participants b : b ∈ activeParticipants x ↔ is_Some (v_participants v !! b);
  follows_NoDup : NoDup (activeParticipants x);
  follows_eligible b : b ∈ eligibleParticipants x ↔ is_Some (v_invited v !! b);
  follows_invited b : is_Some (w_eligibilities w !! b) ↔ is_Some (v_invited v !! b);
  follows_joined b : is_Some (mjoin (w_eligibilities w !! b)) ↔ is_Some (v_participants v !! b);
  follows_accounts b : is_Some (v_invited v !! b) → b ∈ acc;
  follows_completed : completed x = true ↔ v_completed v = Some tt;
  follows_deposits b : default 0 (w_deposits w !! b) = default 0 (v_deposits v !! b) ∨ deducted es r b;
  follows_total : totalSecurityDeposits x = total (w_deposits w);
  follows_bound : totalSecurityDeposits x ≤ paid_in r es;
  follows_nonneg b n : w_deposits w !! b = Some n → 0 ≤ n;
  follows_fits : Rosca_fits x = true;
  follows_phase : phase r v x (w_rounds w);
}.

Lemma paid_in_by_nonneg r ev : 0 ≤ paid_in_by r ev.
Proof. destruct ev; cbn; try done. case_decide; lia. Qed.
Lemma paid_in_nonneg r es : 0 ≤ paid_in r es.
Proof. induction es as [|ev es IH]; cbn; [done|]. pose proof (paid_in_by_nonneg r ev). unfold paid_in in IH. lia. Qed.
Lemma paid_in_app r es es' : paid_in r (es ++ es') = paid_in r es + paid_in r es'.
Proof. unfold paid_in. induction es as [|ev es IH]; cbn; [done|]. rewrite IH. lia. Qed.
Lemma paid_in_mono r es es' : paid_in r es ≤ paid_in r (es ++ es').
Proof. rewrite paid_in_app. pose proof (paid_in_nonneg r es'). lia. Qed.
#[local] Hint Resolve paid_in_mono : core.

Lemma deducted_mono es es' r b : deducted es r b → deducted (es ++ es') r b.
Proof. intros (c & n & ok & Hin). exists c, n, ok. apply elem_of_app. by left. Qed.

Lemma follows_mono es es' acc acc' r v w x :
  follows es acc r v w x → acc ⊆ acc' → follows (es ++ es') acc' r v w x.
Proof.
  intros [] Hacc. split; try done; [by eauto | |by etrans].
  intros b. destruct (follows_deposits0 b); auto using deducted_mono.
Qed.

(** An entity whose numbers stay fits its columns again. *)
Lemma fits_same x x' :
  Rosca_fits x = true → roscaId x' = roscaId x → totalParticipants x' = totalParticipants x →
  minParticipants x' = minParticipants x → Int (totalSecurityDeposits x') = true →
  Int (currentRoundNumber x') = true → Rosca_fits x' = true.
Proof. intros [(? & ? & ?) _]%Rosca_fits_spec Hr Hn Hm ? ?. apply Rosca_fits_spec. by rewrite Hr, Hn, Hm. Qed.

(** The deposits in the tables are at most their total. *)
Lemma deposits_nonneg (m : gmap AccountId Z) : (∀ b n, m !! b = Some n → 0 ≤ n) → 0 ≤ total m.
Proof.
  induction m as [|i n m Hi IH] using map_ind; intros Hm; [done|].
  rewrite total_insert_None by done. pose proof (Hm i n (lookup_insert_eq _ _ _)).
  assert (0 ≤ total m); [|lia]. apply IH. intros b k Hb. apply (Hm b). by rewrite lookup_insert_ne by congruence.
Qed.
Lemma total_lookup (m : gmap AccountId Z) a :
  (∀ b n, m !! b = Some n → 0 ≤ n) → 0 ≤ default 0 (m !! a) ≤ total m.
Proof.
  intros Hm. rewrite (total_delete m a).
  assert (0 ≤ total (delete a m)) by (apply deposits_nonneg; intros b n [_ ?]%lookup_delete_Some; eauto).
  destruct (m !! a) as [n|] eqn:Ha; cbn; [pose proof (Hm _ _ Ha)|]; lia.
Qed.

Lemma follows_total_bounds es acc r v w x :
  follows es acc r v w x → 0 ≤ totalSecurityDeposits x ≤ paid_in r es.
Proof.
  intros []. split; [|done]. rewrite follows_total0. by apply deposits_nonneg.
Qed.

(** A participant has been invited and has an account. *)
Lemma follows_member es acc r v w x b :
  follows es acc r v w x → is_Some (v_participants v !! b) →
  is_Some (w_eligibilities w !! b) ∧ is_Some (v_invited v !! b) ∧ b ∈ acc.
Proof.
  intros Hf Hb. apply (follows_joined _ _ _ _ _ _ Hf) in Hb.
  assert (is_Some (w_eligibilities w !! b)) as He by (destruct (w_eligibilities w !! b); [done | by destruct Hb]).
  apply (follows_invited _ _ _ _ _ _ Hf) in He as Hi. split_and!; [done..|]. by apply (follows_accounts _ _ _ _ _ _ Hf).
Qed.

(** A pending ROSCA in the tables. *)
Lemma follows_pending es acc r d o v w x :
  follows es acc r v w x → pending_ok d o v →
  w_rounds w = ∅ ∧ currentRecipient x = None ∧ currentRoundNumber x = 0 ∧ completed x = false.
Proof.
  intros Hf Hp. destruct (follows_completed _ _ _ _ _ _ Hf) as [Hc _].
  rewrite (pending_completed _ _ _ Hp) in Hc.
  assert (completed x = false) as -> by (destruct (completed x); [by discriminate (Hc eq_refl) | done]).
  destruct (follows_phase _ _ _ _ _ _ Hf) as [? ? ? ? ? ?|? ? ? ? []|? ? ? Hcom]; [done|..];
    destruct Hp; congruence.
Qed.

(** A running one: the round and its claimant are the current ones. *)
Lemma follows_running es acc r d l k t v w x :
  follows es acc r v w x → running d l k t v →
  rounds_at r (schedule l t (contribution_frequency d)) k (λ b, is_Some (v_contributors v !! b)) (w_rounds w) ∧
  currentRecipient x = v_claimant v ∧ currentRoundNumber x = Z.of_nat k + 1 ∧
  currentRoundPaymentCutoff x = Some (cutoffs t (contribution_frequency d) k) ∧ completed x = false.
Proof.
  intros Hf Hr. destruct (follows_completed _ _ _ _ _ _ Hf) as [Hc _].
  rewrite (running_completed _ _ _ _ _ Hr) in Hc.
  assert (completed x = false) as -> by (destruct (completed x); [by discriminate (Hc eq_refl) | done]).
  destruct (follows_phase _ _ _ _ _ _ Hf) as [? Hp _ _ _ _|d' l' k' t' Hr' ? ? ? ?|? ? ? Hcom _ _].
  - destruct Hr; congruence.
  - by destruct (running_unique _ _ _ _ _ _ _ _ _ Hr Hr') as (-> & -> & -> & ->).
  - destruct Hr; congruence.
Qed.

(** * Joining and leaving *)

Lemma follows_join es r a i d o v x db :
  follows es (Accounts db) r v (tables r db) x → pending_ok d o v →
  v_participants v !! a = None → is_Some (v_invited v !! a) →
  indexes [JoinedRosca r a] db (λ db', ∃ x',
    follows (es ++ [JoinedRosca r a]) (Accounts db') r (join_view a i o v) (tables r db') x').
Proof.
  intros Hf Hp Hnew Hinv. apply indexes_one. intros now.
  pose proof (follows_pending _ _ _ _ _ _ _ _ Hf Hp) as (Hm & Hrec & Hnum & Hc).
  assert (a ∉ activeParticipants x) as Ha.
  { intros Ha%(follows_participants _ _ _ _ _ _ Hf). rewrite Hnew in Ha. by destruct Ha. }
  apply (follows_invited _ _ _ _ _ _ Hf) in Hinv as [j Hj].
  pose proof (follows_rosca _ _ _ _ _ _ Hf) as Hx. cbn in Hx, Hj.
  eexists. split.
  { cbn [handle]. unfold handleJoinedRosca, dlookup. rewrite Hx, Hj, decide_False by done.
    apply save_Rosca_Some. split; [exact (follows_fits _ _ _ _ _ _ Hf) | reflexivity]. }
  exists (with_participants (a :: activeParticipants x) x).
  destruct Hf. unfold tables in *. cbn in *. subst r. autorewrite with storage.
  split; cbn; try done.
  - intros b. rewrite elem_of_cons, follows_participants0, lookup_insert_is_Some'. naive_solver.
  - by apply NoDup_cons.
  - intros b. rewrite <- follows_invited0. destruct (decide (a = b)) as [<-|Hne]; [|by autorewrite with storage].
    autorewrite with storage. rewrite Hj. split; by intros.
  - intros b. destruct (decide (a = b)) as [<-|Hne]; autorewrite with storage; [|apply follows_joined0]. by cbn.
  - intros b. destruct (follows_deposits0 b); auto using deducted_mono.
  - by etrans.
  - apply (phase_pending _ _ _ _ d); try done; by destruct Hp.
Qed.
(** * Deposits *)

Lemma phase_deposits r v x m ds n :
  phase r v x m → deposits_ok (deposit_view ds v) → phase r (deposit_view ds v) (with_deposits n x) m.
Proof.
  intros [d ? ? ? ? ?|d l k t Hr ? ? ? ?|l t f ? ? ?] Hok.
  - by apply (phase_pending _ _ _ _ d).
  - apply (phase_running _ _ _ _ d l k t); try done. destruct Hr. by split.
  - by apply (phase_completed _ _ _ _ l t f).
Qed.

(** The deposits change, on the chain and in the tables. *)
Lemma follows_deposit es ev acc r v w x ds ds' n :
  follows es acc r v w x → deposits_ok (deposit_view ds v) →
  (∀ b, default 0 (ds' !! b) = default 0 (ds !! b) ∨ deducted (es ++ [ev]) r b) → n = total ds' →
  n ≤ paid_in r (es ++ [ev]) → (∀ b k, ds' !! b = Some k → 0 ≤ k) → Int n = true →
  follows (es ++ [ev]) acc r (deposit_view ds v)
    (mkTables (Some (with_deposits n x)) (w_rounds w) (w_eligibilities w) ds') (with_deposits n x).
Proof.
  intros [] Hok Hds Hn Hb Hnn Hfit. split; cbn; try done; [|by apply phase_deposits].
  eapply fits_same; try done. by apply Rosca_fits_spec in follows_fits0 as (_ & _ & ?).
Qed.

Lemma with_deposits_id x : with_deposits (totalSecurityDeposits x) x = x.
Proof. by destruct x. Qed.

Lemma add_total_tables r n x db :
  Roscas db !! r = Some x → roscaId x = r → Rosca_fits x = true → Int (totalSecurityDeposits x + n) = true →
  ∃ db', add_total r n db = Some db' ∧
    tables r db' = mkTables (Some (with_deposits (totalSecurityDeposits x + n) x)) (prefix (Rounds db) r)
      (prefix (RoscaEligibilities db) r) (prefix (SecurityDeposits db) r) ∧
    Accounts db' = Accounts db ∧ SecurityDeposits db' = SecurityDeposits db.
Proof.
  intros Hx Hr Hfit Hn. unfold add_total. rewrite Hx. eexists. split.
  { apply save_Rosca_Some. split; [|reflexivity]. eapply fits_same; try done.
    by apply Rosca_fits_spec in Hfit as (_ & _ & ?). }
  split_and!; [|done..]. unfold tables. cbn. subst r. by autorewrite with storage.
Qed.

(** A deposit that is paid back, when a participant leaves or claims it. *)
Lemma follows_claim es r a n v x db :
  follows es (Accounts db) r v (tables r db) x → v_deposits v !! a = Some n → 0 < n →
  deposits_ok (deposit_view (delete a (v_deposits v)) v) →
  indexes [SecurityDepositClaimed r a n] db (λ db', ∃ x',
    follows (es ++ [SecurityDepositClaimed r a n]) (Accounts db') r
      (deposit_view (delete a (v_deposits v)) v) (tables r db') x').
Proof.
  intros Hf Hn H0 Hok. apply indexes_one. intros now. cbn [handle]. clear now.
  pose proof (follows_rosca _ _ _ _ _ _ Hf) as Hx. pose proof (follows_id _ _ _ _ _ _ Hf) as Hid.
  pose proof (follows_total _ _ _ _ _ _ Hf) as Htot. pose proof (follows_deposits _ _ _ _ _ _ Hf) as Hdep.
  pose proof (follows_total_bounds _ _ _ _ _ _ Hf) as Hbnd. pose proof (follows_nonneg _ _ _ _ _ _ Hf) as Hnn.
  pose proof (follows_fits _ _ _ _ _ _ Hf) as Hfit. pose proof (paid_in_mono r es [SecurityDepositClaimed r a n]) as Hmono.
  cbn in Hx, Htot, Hdep, Hnn. unfold handleSecurityDepositClaimed, dlookup.
  assert (∀ ds' : gmap AccountId Z, (∀ b, a ≠ b → ds' !! b = prefix (SecurityDeposits db) r !! b) →
    ds' !! a = None ∨ deducted es r a →
    ∀ b, default 0 (ds' !! b) = default 0 (delete a (v_deposits v) !! b) ∨
      deducted (es ++ [SecurityDepositClaimed r a n]) r b) as Hds.
  { intros ds' Hne Ha b. destruct (decide (a = b)) as [<-|Hab].
    - rewrite lookup_delete_eq. destruct Ha as [->|?]; auto using deducted_mono.
    - rewrite lookup_delete_ne, Hne by done. destruct (Hdep b); auto using deducted_mono. }
  assert (prefix (SecurityDeposits db) r !! a ≠ Some n → ∃ db', Some db = Some db' ∧ ∃ x',
    follows (es ++ [SecurityDepositClaimed r a n])
    (Accounts db') r (deposit_view (delete a (v_deposits v)) v) (tables r db') x') as Hstay.
  { intros Hne. exists db. split; [done|]. pose proof (follows_deposit es (SecurityDepositClaimed r a n) _ _ _ _ _ _
      (prefix (SecurityDeposits db) r) (totalSecurityDeposits x) Hf Hok) as H. rewrite with_deposits_id in H.
    exists x. unfold tables at 1. rewrite Hx. apply H; [apply Hds; [done|] | done | lia | done |].
    - right. destruct (Hdep a) as [Heq|?]; [|done]. rewrite Hn in Heq. cbn in Heq.
      destruct (prefix _ _ !! a); cbn in *; [congruence | lia].
    - by apply Rosca_fits_spec in Hfit as (_ & ? & _). }
  destruct (prefix (SecurityDeposits db) r !! a) as [m|] eqn:Hm; [|by apply Hstay].
  destruct (decide (m = n)) as [->|Hne]; [|by apply Hstay; naive_solver].
  pose proof (total_lookup _ a Hnn) as Hle. rewrite Hm in Hle. cbn in Hle.
  assert (Int (totalSecurityDeposits x + - n) = true) as Hint.
  { apply Rosca_fits_spec in Hfit as (_ & Hi%Int_spec & _). apply Int_spec. unfold i32_MAX in *. lia. }
  destruct (add_total_tables r (- n) x db Hx Hid Hfit Hint) as (db1 & -> & Ht & HA & HS). injection Ht as Ht1 Ht2 Ht3 Ht4.
  eexists. split; [reflexivity|].
  eexists. unfold tables. cbn. rewrite HA, HS, Ht1, Ht2, Ht3. autorewrite with storage.
  apply (follows_deposit es _ _ _ _ (tables r db)); [done | done | apply Hds | | lia | | done].
  - intros b Hb. by rewrite lookup_delete_ne.
  - left. apply lookup_delete_eq.
  - rewrite Htot, (total_delete (prefix (SecurityDeposits db) r) a), Hm. cbn. lia.
  - intros b k [_ ?]%lookup_delete_Some. by eapply Hnn.
Qed.

(** [handleSecurityDepositContribution] for a participant: it throws exactly when a column
    overflows. *)
Lemma handle_add es time r a n v x db :
  follows es (Accounts db) r v (tables r db) x → is_Some (v_participants v !! a) →
  let m := default 0 (prefix (SecurityDeposits db) r !! a) + n in
  handle time (SecurityDepositContribution r a n) db =
    (db ← save_SecurityDeposit r a m db; add_total r n db).
Proof.
  intros Hf Ha. destruct (follows_member _ _ _ _ _ _ _ Hf Ha) as (_ & _ & Hacc).
  cbn [handle]. unfold handleSecurityDepositContribution, dlookup. rewrite decide_True by done.
  by destruct (prefix (SecurityDeposits db) r !! a).
Qed.

Lemma follows_add es r a n v x db :
  follows es (Accounts db) r v (tables r db) x → is_Some (v_participants v !! a) → 0 ≤ n →
  let ds := <[a := default 0 (v_deposits v !! a) + n]> (v_deposits v) in
  deposits_ok (deposit_view ds v) → paid_in r (es ++ [SecurityDepositContribution r a n]) ≤ i32_MAX →
  indexes [SecurityDepositContribution r a n] db (λ db', ∃ x',
    follows (es ++ [SecurityDepositContribution r a n]) (Accounts db') r (deposit_view ds v) (tables r db') x').
Proof.
  intros Hf Ha H0 ds Hok Hmax. apply indexes_one. intros now. rewrite (handle_add es (Some now) r a n v x db Hf Ha).
  pose proof (follows_rosca _ _ _ _ _ _ Hf) as Hx. pose proof (follows_id _ _ _ _ _ _ Hf) as Hid.
  pose proof (follows_total _ _ _ _ _ _ Hf) as Htot. pose proof (follows_deposits _ _ _ _ _ _ Hf) as Hdep.
  pose proof (follows_total_bounds _ _ _ _ _ _ Hf) as Hbnd. pose proof (follows_nonneg _ _ _ _ _ _ Hf) as Hnn.
  pose proof (follows_fits _ _ _ _ _ _ Hf) as Hfit. cbn in Hx, Htot, Hdep, Hnn.
  set (m := default 0 (prefix (SecurityDeposits db) r !! a) + n).
  pose proof (total_lookup _ a Hnn) as Hle.
  assert (totalSecurityDeposits x + n ≤ paid_in r (es ++ [SecurityDepositContribution r a n])) as Htn.
  { rewrite paid_in_app. cbn. rewrite decide_True by done. lia. }
  assert (Int m = true ∧ Int (totalSecurityDeposits x + n) = true) as [Him Hit]
    by (rewrite !Int_spec; subst m; unfold i32_MAX in *; lia).
  rewrite (proj2 (save_SecurityDeposit_Some r a m db _) (conj Him eq_refl)). cbn [mbind option_bind].
  destruct (add_total_tables r n x (put_SecurityDeposit r a m db) Hx Hid Hfit Hit) as (db1 & -> & Ht & HA & _).
  exists db1. split; [done|]. rewrite Ht, HA. cbn.
  autorewrite with storage. eexists. apply (follows_deposit es _ _ _ _ (tables r db)); [done | done | | | done | | done].
  - intros b. unfold ds. destruct (decide (a = b)) as [<-|Hne]; autorewrite with storage.
    + destruct (Hdep a) as [<-|?]; auto using deducted_mono.
    + destruct (Hdep b); auto using deducted_mono.
  - rewrite Htot, total_insert. subst m. lia.
  - intros b k [[<- <-]|[_ ?]]%lookup_insert_Some; [subst m; lia | by eapply Hnn].
Qed.

Lemma follows_leave es r a i d o v x db :
  follows es (Accounts db) r v (tables r db) x → pending_ok d o v → v_participants v !! a = Some i →
  let evs := events (refund d r a v ++ [Emitted (LeftRosca r a)]) in
  indexes evs db (λ db', ∃ x', follows (es ++ evs) (Accounts db') r (leave_view a i o v) (tables r db') x').
Proof.
  intros Hf Hp Ha evs. subst evs. rewrite events_app.
  set (v1 := deposit_view (v_deposits (leave_view a i o v)) v).
  assert (indexes (events (refund d r a v)) db (λ db', ∃ x',
    follows (es ++ events (refund d r a v)) (Accounts db') r v1 (tables r db') x')) as H1.
  { unfold refund, v1, leave_view. cbn [v_deposits membership_view]. destruct (0 <? _) eqn:H0.
    - destruct (v_deposits v !! a) as [n|] eqn:Hn; [|done]. eapply follows_claim; [done | done | by apply Z.ltb_lt in H0 |].
      intros b y Hy. cbn in *. apply lookup_delete_Some in Hy as [_ Hy]. by apply (pending_deposits _ _ _ Hp).
    - apply indexes_nil. exists x. cbn. rewrite app_nil_r. by destruct v. }
  apply indexes_app. eapply indexes_mono; [exact H1|]. intros db1 (x1 & Hf1). clear H1 Hf.
  apply indexes_one. intros now.
  assert (is_Some (v_participants v1 !! a)) as Hmem by (cbn; by exists i).
  destruct (follows_member _ _ _ _ _ _ _ Hf1 Hmem) as ([j Hj] & _ & _).
  pose proof (follows_rosca _ _ _ _ _ _ Hf1) as Hx1. cbn in Hx1, Hj.
  eexists. split.
  { cbn [handle]. unfold handleLeftRosca, dlookup. rewrite Hx1, Hj.
    apply save_Rosca_Some. split; [exact (follows_fits _ _ _ _ _ _ Hf1) | reflexivity]. }
  exists (with_participants (filter (λ b, b ≠ a) (activeParticipants x1)) x1).
  rewrite app_assoc. destruct Hf1. unfold tables in *. cbn in *. subst r. autorewrite with storage.
  split; cbn; try done.
  - intros b. rewrite list_elem_of_filter, follows_participants0, lookup_delete_is_Some. naive_solver.
  - by apply NoDup_filter.
  - intros b. rewrite <- follows_invited0. destruct (decide (a = b)) as [<-|Hne]; [|by autorewrite with storage].
    autorewrite with storage. rewrite Hj. split; by intros.
  - intros b. destruct (decide (a = b)) as [<-|Hne]; autorewrite with storage; [|apply follows_joined0].
    cbn. split; by intros [].
  - intros b. destruct (follows_deposits0 b); auto using deducted_mono.
  - by etrans.
  - destruct follows_phase0 as [d1 ? ? ? ? ?|? ? ? ? []|? ? ? Hc]; [|destruct Hp; cbn in *; congruence..].
    by apply (phase_pending _ _ _ _ d1).
Qed.
End follows.
