(* ===== verification/IndexerRounds.v ===== *)
(** The rounds in the tables of the indexer: the announcement of the schedule, the
    payments and defaults of a round, and the start of the next one. *)

From S2P Require Import Prelude RoscaTypes RoscaRounds RoscaCalls RoscaLogic RoscaFrame.
From S2P Require Import RoscaSample RoscaSchedule RoscaInvariant RoscaPreservation.
From S2P Require Import RoscaMembership RoscaLifecycle RoscaSafety RoscaMoney Indexer IndexerTables IndexerFollows.

Section rounds.
Context {T : Config} {L : ConfigLaws T} {St : Store} {SL : StoreLaws St}.
Implicit Types (r : RoscaId) (v : RoscaView) (d : RoscaDetails) (l : list AccountId) (db : Database).
Implicit Types (x : Rosca) (y : Round) (w : Tables) (a b c : AccountId) (es : list Event) (acc : gset AccountId).
Implicit Types (sched : list RoundInfo) (info : RoundInfo) (m : gmap Z Round).

(** * The schedule *)

Definition numbered sched : Prop := ∀ i info, sched !! i = Some info → round_number info = Z.of_nat i + 1.

Lemma schedule_lookup l (t f : Moment) i info :
  schedule l t f !! i = Some info ↔ ∃ a, l !! i = Some a ∧ info = round_of l t f i a.
Proof.
  unfold schedule. rewrite list_lookup_imap. split.
  - intros (a & Ha & ->)%fmap_Some. by exists a.
  - intros (a & -> & ->). done.
Qed.

Lemma schedule_numbered l (t f : Moment) : numbered (schedule l t f).
Proof. by intros i info (a & _ & ->)%schedule_lookup. Qed.

Lemma length_schedule l (t f : Moment) : length (schedule l t f) = length l.
Proof. apply length_imap. Qed.

(** Distinct claimants: a recipient determines its round. *)
Lemma schedule_recipient l (t f : Moment) i j info info' :
  NoDup l → schedule l t f !! i = Some info → schedule l t f !! j = Some info' →
  recipient info = recipient info' → i = j.
Proof.
  intros Hnd (a & Ha & ->)%schedule_lookup (b & Hb & ->)%schedule_lookup. cbn. intros <-. by eapply NoDup_lookup.
Qed.

(** [handleRoscaStarted] enters the schedule. *)
Lemma create_rounds r sched db :
  Int r = true → (∀ info, info ∈ sched → Int (round_number info) = true) →
  ∃ db', for_of (create_round r) sched db = Some db' ∧
    tables r db' = mkTables (Roscas db !! r)
      (foldl (λ m info, <[round_number info := round_entity r info [] []]> m) (prefix (Rounds db) r) sched)
      (prefix (RoscaEligibilities db) r) (prefix (SecurityDeposits db) r) ∧ Accounts db' = Accounts db.
Proof.
  intros Hr. revert db. induction sched as [|info sched IH]; intros db Hall; [by exists db|]. cbn [foldl for_of].
  assert (create_round r info db = Some (put_Round (round_entity r info [] []) db)) as ->.
  { apply save_Round_Some. split; [|done]. apply Round_fits_spec. split; [done|]. apply Hall. by left. }
  cbn [mbind option_bind]. destruct (IH (put_Round (round_entity r info [] []) db)) as (db' & -> & Ht & Ha).
  { intros info' Hin. apply Hall. by right. }
  exists db'. split; [done|]. rewrite Ht, Ha.
  cbn [Roscas Rounds Accounts RoscaEligibilities SecurityDeposits put_Round chainRoscaId roundNumber round_entity].
  by autorewrite with storage.
Qed.

(** The numbers of the rounds fit their column. *)
Lemma schedule_fits l (t f : Moment) info : len l ≤ i32_MAX → info ∈ schedule l t f → Int (round_number info) = true.
Proof.
  intros Hl [i Hi]%list_elem_of_lookup. rewrite (schedule_numbered _ _ _ _ _ Hi).
  apply lookup_lt_Some in Hi. rewrite length_schedule in Hi. apply Int_spec. unfold len, i32_MAX in *. lia.
Qed.

Lemma rounds_at_start r sched (paid : AccountId → Prop) :
  numbered sched → (∀ b, ¬ paid b) →
  rounds_at r sched 0 paid (foldl (λ m info, <[round_number info := round_entity r info [] []]> m) ∅ sched).
Proof.
  intros Hnum Hpaid. set (m := foldl _ _ _).
  assert ((∀ i info, sched !! i = Some info → m !! round_number info = Some (round_entity r info [] [])) ∧
    (∀ n y, m !! n = Some y → ∃ i info, sched !! i = Some info ∧ round_number info = n ∧
       roundRecipient y = recipient info)) as [H1 H2].
  { subst m. induction sched as [|info sched IH] using rev_ind; [done|]. rewrite foldl_app. cbn [foldl].
    destruct IH as [IH1 IH2].
    { intros i info' Hi. apply Hnum. by apply lookup_app_l_Some. }
    pose proof (Hnum (length sched) info) as Hn. rewrite lookup_app_r, Nat.sub_diag in Hn by done.
    specialize (Hn eq_refl). split.
    - intros i info' Hi. destruct (decide (i = length sched)) as [->|Hne].
      + rewrite lookup_app_r, Nat.sub_diag in Hi by done. injection Hi as <-. by autorewrite with storage.
      + pose proof (Hnum _ _ Hi). pose proof (lookup_lt_Some _ _ _ Hi) as Hlt. rewrite length_app in Hlt. cbn in Hlt.
        rewrite lookup_insert_ne by lia. apply (IH1 i). by rewrite lookup_app_l in Hi by lia.
    - intros n y [[<- <-]|[_ Hy]]%lookup_insert_Some.
      + exists (length sched), info. by rewrite lookup_app_r, Nat.sub_diag.
      + destruct (IH2 n y Hy) as (i & info' & Hi & ? & ?). exists i, info'. split; [by apply lookup_app_l_Some | done]. }
  split; [|done]. intros i info Hi. exists [], []. split_and!; [by eapply H1 | constructor | constructor | | lia | | done].
  - intros b Hb. by apply elem_of_nil in Hb.
  - intros _. split; [done|]. intros b. split; [intros Hb; by apply elem_of_nil in Hb | by intros ?%Hpaid].
Qed.

(** * Payments and defaults *)

(** The lists of the current round change; the round goes on or the next one starts. *)
Lemma rounds_at_update r sched k k' (paid paid' : AccountId → Prop) m info ds ac :
  numbered sched → rounds_at r sched k paid m → sched !! k = Some info → NoDup ds → NoDup ac →
  (∀ b, b ∈ ds → b ∈ expected_contributors info) →
  (k' = k ∧ ds = [] ∧ (∀ b, b ∈ ac ↔ paid' b) ∨ k' = S k ∧ accounted info ds ac ∧ ∀ b, ¬ paid' b) →
  rounds_at r sched k' paid' (<[round_number info := round_entity r info ds ac]> m).
Proof.
  intros Hnum [He Ho] Hk Hds Hac Hexp Hk'. split.
  - intros i info' Hi. destruct (decide (i = k)) as [->|Hne].
    + rewrite Hk in Hi. injection Hi as <-. exists ds, ac. autorewrite with storage.
      destruct Hk' as [(-> & -> & ?)|(-> & ? & ?)]; split_and!; done || lia.
    + destruct (He i info' Hi) as (ds' & ac' & Hm & ? & ? & ? & H1 & H2 & H3). exists ds', ac'.
      rewrite lookup_insert_ne by (rewrite (Hnum _ _ Hi), (Hnum _ _ Hk); lia).
      split_and!; try done; destruct Hk' as [(-> & _)|(-> & _ & Hno)]; try done; intros Hlt; try (apply H1 || apply H3; lia).
      destruct H3 as [-> ->]; [lia|]. split; [done|]. intros b. split; [intros Hb; by apply elem_of_nil in Hb | by intros ?%Hno].
  - intros n y [[<- <-]|[_ Hy]]%lookup_insert_Some; [by exists k, info | by apply Ho].
Qed.

(** A recipient has one round. *)
Lemma rounds_of_one r to n y db :
  well_kept db → prefix (Rounds db) r !! n = Some y → roundRecipient y = to →
  (∀ n' y', prefix (Rounds db) r !! n' = Some y' → roundRecipient y' = to → n' = n) → rounds_of r to db = [y].
Proof.
  intros Hk Hy Hto Huniq. destruct (well_kept_round _ Hk r n y Hy) as [[Hr Hn] _].
  assert (∀ z, z ∈ rounds_of r to db → z = y) as Hall.
  { intros z Hz. destruct (rounds_of_recipient _ _ _ _ Hz) as [Hzr Hzt].
    unfold rounds_of in Hz. apply getByFields_sound in Hz as (_ & r' & n' & Hz).
    destruct (well_kept_round _ Hk _ _ _ Hz) as [[Hr' _] _]. rewrite Hzr in Hr'. subst r'.
    pose proof (Huniq _ _ Hz Hzt) as ->. unfold dlookup in Hz. congruence. }
  pose proof (getByFields_limit (λ z, bool_decide (chainRoscaId z = r) && bool_decide (roundRecipient z = to)) 1 (Rounds db)) as Hlim.
  pose proof (getByFields_complete (λ z, bool_decide (chainRoscaId z = r) && bool_decide (roundRecipient z = to)) 0 (Rounds db) r n y Hy) as Hne.
  fold (rounds_of r to db) in Hlim, Hne. cbv beta in Hne. rewrite !bool_decide_true in Hne by done. specialize (Hne eq_refl).
  destruct (rounds_of r to db) as [|z [|]]; cbn in *; [done | | lia]. f_equal. apply Hall. by left.
Qed.

(** No other round than that of [info] is paid to its recipient. *)
Definition sole info m : Prop :=
  ∀ n y, m !! n = Some y → roundRecipient y = recipient info → n = round_number info.

Lemma rounds_at_sole r l (t f : Moment) k (paid : AccountId → Prop) m info :
  NoDup l → rounds_at r (schedule l t f) k paid m → schedule l t f !! k = Some info → sole info m.
Proof.
  intros Hnd [_ Ho] Hk n y Hy Hrec. destruct (Ho n y Hy) as (i & info' & Hi & <- & Hr).
  rewrite Hr in Hrec. pose proof (schedule_recipient _ _ _ _ _ _ _ Hnd Hi Hk Hrec) as ->. congruence.
Qed.

(** The loop of the three handlers: [f] is applied to that round. *)
Lemma update_round r info y (f : Round → Round) (P : Round → Prop) `{∀ y, Decision (P y)} m db :
  well_kept db → prefix (Rounds db) r = <[round_number info := y]> m → sole info m →
  roundRecipient y = recipient info → (∀ y, chainRoscaId (f y) = chainRoscaId y ∧ roundNumber (f y) = roundNumber y) →
  (P y → f y = y) →
  ∃ db', for_of (λ y db, if decide (P y) then Some db else save_Round (f y) db)
           (rounds_of r (recipient info) db) db = Some db' ∧
    tables r db' = mkTables (Roscas db !! r) (<[round_number info := f y]> m) (prefix (RoscaEligibilities db) r)
      (prefix (SecurityDeposits db) r) ∧ Accounts db' = Accounts db ∧ well_kept db'.
Proof.
  intros Hk Hm Hsole Hrec Hf HP.
  assert (prefix (Rounds db) r !! round_number info = Some y) as Hy by (rewrite Hm; apply lookup_insert_eq).
  destruct (well_kept_round _ Hk _ _ _ Hy) as [[Hr Hn] Hfit]. destruct (Hf y) as [Hfr Hfn].
  rewrite (rounds_of_one _ _ (round_number info) y); [|done..|].
  2: { intros n' y' Hy' Hrec'. rewrite Hm in Hy'. apply lookup_insert_Some in Hy' as [[<- _]|[_ Hy']]; [done|]. by eapply Hsole. }
  cbn [for_of]. destruct (decide (P y)) as [Hp|Hp].
  - exists db. rewrite (HP Hp), <- Hm. by split_and!.
  - assert (save_Round (f y) db = Some (put_Round (f y) db)) as Hs.
    { apply save_Round_Some. split; [|done]. unfold Round_fits in *. by rewrite Hfr, Hfn. }
    rewrite Hs. eexists. split; [done|]. split_and!; [|done | by eapply save_Round_touches].
    unfold tables. cbn. rewrite Hfr, Hr, Hfn, Hn. autorewrite with storage. by rewrite Hm, insert_insert_eq.
Qed.

Lemma push_new_in a l : a ∈ l → push_new a l = l.
Proof. intros Ha. unfold push_new. by rewrite decide_True. Qed.
Lemma elem_of_push_new a b l : b ∈ push_new a l ↔ b = a ∨ b ∈ l.
Proof. unfold push_new. case_decide; set_solver. Qed.
Lemma NoDup_push_new a l : NoDup l → NoDup (push_new a l).
Proof. intros Hl. unfold push_new. case_decide; [done|]. apply NoDup_app. split_and!; [done | set_solver | apply NoDup_singleton]. Qed.
(** The tables of [r] are [w] except for the lists of the round [info]. *)
Definition at_round r info m w acc ds ac db : Prop :=
  well_kept db ∧ Accounts db = acc ∧
  tables r db = mkTables (w_rosca w) (<[round_number info := round_entity r info ds ac]> m)
                  (w_eligibilities w) (w_deposits w).

Lemma at_round_update r info m w acc ds ac ds' ac' (f : Round → Round) (P : Round → Prop) `{∀ y, Decision (P y)} db :
  at_round r info m w acc ds ac db → sole info m →
  (∀ y, chainRoscaId (f y) = chainRoscaId y ∧ roundNumber (f y) = roundNumber y) →
  f (round_entity r info ds ac) = round_entity r info ds' ac' →
  (P (round_entity r info ds ac) → ds' = ds ∧ ac' = ac) →
  ∃ db', for_of (λ y db, if decide (P y) then Some db else save_Round (f y) db)
           (rounds_of r (recipient info) db) db = Some db' ∧ at_round r info m w acc ds' ac' db'.
Proof.
  intros (Hk & Hacc & Ht) Hsole Hf Heq HP. injection Ht as Hx Hm He Hd.
  destruct (update_round r info (round_entity r info ds ac) f P m db) as (db' & Hdb & Ht' & Hacc' & Hk'); try done.
  { intros Hp. destruct (HP Hp) as [-> ->]. done. }
  exists db'. split; [done|]. split_and!; [done | by rewrite Hacc' |]. by rewrite Ht', Hx, He, Hd, Heq.
Qed.

Lemma handle_paid time ev r info m w acc ds ac b n ok db :
  at_round r info m w acc ds ac db → sole info m →
  ev = ContributionMade r b (recipient info) n ∨ ev = DepositDeducted r b (recipient info) n ok →
  ∃ db', handle time ev db = Some db' ∧ at_round r info m w acc ds (push_new b ac) db'.
Proof.
  intros Hat Hsole Hev.
  assert (handle time ev db = for_of (λ y db, if decide (b ∈ actualContributors y) then Some db
    else save_Round (add_contributor b y) db) (rounds_of r (recipient info) db) db) as -> by by destruct Hev as [-> | ->].
  eapply (at_round_update _ _ _ _ _ _ _ _ _ (add_contributor b) (λ y, b ∈ actualContributors y)); [done.. |].
  intros Hin; by rewrite push_new_in.
Qed.

Lemma handle_defaulted time r info m w acc ds ac b db :
  at_round r info m w acc ds ac db → sole info m →
  ∃ db', handle time (ParticipantDefaulted r (recipient info) b) db = Some db' ∧
    at_round r info m w acc (push_new b ds) ac db'.
Proof.
  intros Hat Hsole.
  eapply (at_round_update _ _ _ _ _ _ _ _ _ (add_defaulter b) (λ y, b ∈ defaulters y)); [done.. |]. intros Hin. by rewrite push_new_in.
Qed.

(** The settlement of a round enters everybody who owes a contribution as a payer or as
    a defaulter. *)
Record entered v c (ps ds ac ds' ac' : list AccountId) : Prop := {
  entered_NoDup_ds : NoDup ds → NoDup ds';
  entered_NoDup_ac : NoDup ac → NoDup ac';
  entered_ds b : b ∈ ds' → b ∈ ds ∨ b ∈ ps ∧ owes v c b;
  entered_ds_mono b : b ∈ ds → b ∈ ds';
  entered_ac b : b ∈ ac → b ∈ ac';
  entered_all b : b ∈ ps → owes v c b → b ∈ ac' ∨ b ∈ ds';
}.

Lemma entered_cons v c p ps ds ac ds1 ac1 ds' ac' :
  entered v c [p] ds ac ds1 ac1 → entered v c ps ds1 ac1 ds' ac' → entered v c (p :: ps) ds ac ds' ac'.
Proof.
  intros [A1 A2 A3 A4 A5 A6] [B1 B2 B3 B4 B5 B6]. split; try by auto.
  - intros b [[?|[?%list_elem_of_singleton ?]]%A3|[? ?]]%B3; set_solver.
  - intros b [->|Hb]%elem_of_cons Ho; [|by apply B6]. destruct (A6 p) as [?|?]; [by left | done | left; auto | right; auto].
Qed.

Lemma index_settlement_one d r v info m w acc p ds ac db :
  let c := recipient info in
  at_round r info m w acc ds ac db → sole info m →
  indexes (events (settlement d r c v p)) db
    (λ db', ∃ ds' ac', at_round r info m w acc ds' ac' db' ∧ entered v c [p] ds ac ds' ac').
Proof.
  intros c Hat Hsole. unfold settlement. destruct (decide (owes v c p)) as [Ho|Ho].
  2: { apply indexes_nil. exists ds, ac. split; [done|]. split; set_solver. }
  assert (∀ n ok Q, (∀ db', at_round r info m w acc ds (push_new p ac) db' → Q db') →
    indexes [DepositDeducted r p c n ok] db Q) as Hpaid.
  { intros n ok Q HQ. apply indexes_one. intros now.
    destruct (handle_paid (Some now) (DepositDeducted r p c n ok) r info m w acc ds ac p n ok db) as (db' & ? & ?);
      [done | done | by right|]. eauto. }
  destruct (_ <? _).
  - assert (∀ ac' db', at_round r info m w acc ds ac' db' → (NoDup ac → NoDup ac') → (∀ b, b ∈ ac → b ∈ ac') →
      indexes [ParticipantDefaulted r c p] db' (λ db'', ∃ ds' ac', at_round r info m w acc ds' ac' db'' ∧
        entered v c [p] ds ac ds' ac')) as Hdef.
    { intros ac' db1 Hat1 Hnd Hsub. apply indexes_one. intros now.
      destruct (handle_defaulted (Some now) r info m w acc ds ac' p db1 Hat1 Hsole) as (db2 & ? & ?).
      exists db2. split; [done|]. exists (push_new p ds), ac'. split; [done|].
      split; try done; try (intros b; rewrite elem_of_push_new; set_solver). apply NoDup_push_new. }
    destruct (0 <? _).
    + apply (indexes_app [_] [_]). apply Hpaid. intros db' Hat'. apply (Hdef (push_new p ac)); [done | apply NoDup_push_new |].
      intros b Hb. apply elem_of_push_new. by right.
    + by apply (Hdef ac).
  - apply Hpaid. intros db' Hat'. exists ds, (push_new p ac). split; [done|].
    split; try done; try (intros b; rewrite ?elem_of_push_new; set_solver). apply NoDup_push_new.
Qed.

Lemma index_settlement d r v info m w acc ps ds ac db :
  let c := recipient info in
  at_round r info m w acc ds ac db → sole info m →
  indexes (events (ps ≫= settlement d r c v)) db
    (λ db', ∃ ds' ac', at_round r info m w acc ds' ac' db' ∧ entered v c ps ds ac ds' ac').
Proof.
  intros c. revert ds ac db. induction ps as [|p ps IH]; intros ds ac db Hat Hsole.
  { apply indexes_nil. exists ds, ac. split; [done|]. split; set_solver. }
  rewrite bind_cons, events_app. apply indexes_app. eapply indexes_mono; [by eapply index_settlement_one|].
  intros db1 (ds1 & ac1 & Hat1 & H1). eapply indexes_mono; [by apply IH|].
  intros db2 (ds2 & ac2 & Hat2 & H2). exists ds2, ac2. split; [done | by eapply entered_cons].
Qed.

(** A deposit that the settlement changes is reported as deducted. *)
Lemma settlement_deducted d r c l v v' b :
  settled (contribution_amount d) c l v v' → 0 < contribution_amount d → deposits_ok v →
  default 0 (v_deposits v' !! b) = default 0 (v_deposits v !! b) ∨
  deducted (events (l ≫= settlement d r c v)) r b.
Proof.
  intros Hs Hamt Hok. rewrite (settled_deposits _ _ _ _ _ Hs b). case_decide as Ho; [|by left].
  destruct Ho as [Hb Ho]. destruct (decide (0 < default 0 (v_deposits v !! b))) as [Hpos|Hz].
  - right. apply list_elem_of_split in Hb as (l1 & l2 & ->). rewrite bind_app, bind_cons, !events_app.
    enough (∃ n ok, DepositDeducted r b c n ok ∈ events (settlement d r c v b)) as (n & ok & Hin)
      by (exists c, n, ok; set_solver).
    unfold settlement. rewrite decide_True by done. destruct (_ <? _); [rewrite (proj2 (Z.ltb_lt _ _)) by done|];
      do 2 eexists; by left.
  - left. destruct (v_deposits v !! b) as [n|] eqn:Hn; cbn in *; [|lia]. destruct (Hok _ _ Hn) as [[? ?] _]. lia.
Qed.
(** * Rounds of a running ROSCA *)

(** Two entities of the same ROSCA with the same participants and deposits. *)
Definition same_rosca x x' : Prop :=
  roscaId x' = roscaId x ∧ parameters x' = parameters x ∧ activeParticipants x' = activeParticipants x ∧
  eligibleParticipants x' = eligibleParticipants x ∧ totalSecurityDeposits x' = totalSecurityDeposits x.

Lemma same_rosca_fits x x' :
  Rosca_fits x = true → same_rosca x x' → Int (currentRoundNumber x') = true → Rosca_fits x' = true.
Proof.
  intros Hfit (Hid & Hpar & _ & _ & Htot) Hn. injection Hpar as _ Hnum Hmin _ _ _ _ _.
  eapply fits_same; try done. rewrite Htot. by apply Rosca_fits_spec in Hfit as (_ & ? & _).
Qed.

(** The ROSCA goes on, neither its participants nor the recorded deposits change. *)
Lemma follows_change es evs acc r v v' w x x' m' :
  follows es acc r v w x → same_rosca x x' →
  (∀ d, v_active v' = Some d ∨ v_pending v' = Some d → v_active v = Some d ∨ v_pending v = Some d) →
  v_participants v' = v_participants v → v_invited v' = v_invited v →
  (completed x' = true ↔ v_completed v' = Some tt) →
  (∀ b, default 0 (v_deposits v' !! b) = default 0 (v_deposits v !! b) ∨ deducted evs r b) →
  Rosca_fits x' = true → phase r v' x' m' →
  follows (es ++ evs) acc r v' (mkTables (Some x') m' (w_eligibilities w) (w_deposits w)) x'.
Proof.
  intros [] (Hid & Hpar & Hact & Hel & Htot) Ha Hps Hi Hc Hd Hfit Hph.
  split; cbn; rewrite ?Hid, ?Hpar, ?Hact, ?Hel, ?Htot, ?Hps, ?Hi; try done; [by auto | | by etrans; [|apply paid_in_mono]].
  intros b. destruct (Hd b) as [->|(c' & k & ok & Hin)].
  - destruct (follows_deposits b); auto using deducted_mono.
  - right. exists c', k, ok. apply elem_of_app. by right.
Qed.

(** The current round in the table. *)
Lemma current_round r d l k (t : Moment) v (m : gmap Z Round) :
  let sched := schedule l t (contribution_frequency d) in
  running d l k t v → (k < length l)%nat →
  rounds_at r sched k (λ b, is_Some (v_contributors v !! b)) m →
  ∃ c info ac, l !! k = Some c ∧ sched !! k = Some info ∧ info = round_of l t (contribution_frequency d) k c ∧
    m = <[round_number info := round_entity r info [] ac]> m ∧ NoDup ac ∧
    (∀ b, b ∈ ac ↔ is_Some (v_contributors v !! b)) ∧ sole info m.
Proof.
  intros sched Hr Hk Hat. destruct (lookup_lt_is_Some_2 _ _ Hk) as [c Hc].
  assert (sched !! k = Some (round_of l t (contribution_frequency d) k c)) as Hs by (apply schedule_lookup; eauto).
  destruct (rounds_entity _ _ _ _ _ Hat k _ Hs) as (ds & ac & Hm & _ & Hac & _ & _ & Hcur & _).
  destruct (Hcur eq_refl) as [-> Hpaid]. eexists c, _, ac. split_and!; try done.
  - by rewrite insert_id.
  - eapply rounds_at_sole; [apply Hr | done | done].
Qed.

(** [handleNewRoundStarted]. *)
Lemma index_round_started d r l (t : Moment) k x db (Q : Database → Prop) :
  Roscas db !! r = Some x → roscaId x = r → Rosca_fits x = true → (0 < length l)%nat → Z.of_nat k + 2 ≤ i32_MAX →
  currentRoundNumber x = Z.of_nat k + 1 →
  currentRoundPaymentCutoff x = Some (cutoffs t (contribution_frequency d) k) →
  (∀ c db', l !! (S k mod length l)%nat = Some c → Accounts db' = Accounts db →
     let x' := with_round c (Z.of_nat (S k) + 1) (cutoffs t (contribution_frequency d) (S k)) x in
     Rosca_fits x' = true →
     tables r db' = mkTables (Some x')
       (prefix (Rounds db) r) (prefix (RoscaEligibilities db) r) (prefix (SecurityDeposits db) r) → Q db') →
  indexes (events (round_started d r l t (S k))) db Q.
Proof.
  intros Hx Hid Hfit Hl Hk Hnum Hcut HQ. unfold round_started.
  destruct (lookup_lt_is_Some_2 l (S k mod length l)) as [c Hc]; [apply Nat.mod_upper_bound; lia|].
  rewrite Hc. apply indexes_one. intros now. cbn [handle]. unfold handleNewRoundStarted. rewrite Hx, Hcut. cbn [mbind option_bind].
  change (cutoffs t (contribution_frequency d) k + (t + contribution_frequency d * (Z.of_nat (S k) + 1)))
    with (cutoffs t (contribution_frequency d) (S k)).
  rewrite Hnum. replace (Z.of_nat k + 1 + 1) with (Z.of_nat (S k) + 1) by lia. set (x' := with_round _ _ _ _).
  assert (Rosca_fits x' = true) as Hfit'.
  { eapply (same_rosca_fits x); [done..|]. apply Int_spec. unfold i32_MAX in *. cbn [currentRoundNumber x' with_round]. lia. }
  eexists. split; [by apply save_Rosca_Some|]. apply (HQ c); [done | done | done |].
  unfold tables. cbn. rewrite Hid. by autorewrite with storage.
Qed.

(** The number of the next round fits its column. *)
Lemma running_number d l k (t : Moment) v :
  running d l k t v → (k < length l)%nat → MaxParticipants < i32_MAX → Z.of_nat k + 2 ≤ i32_MAX.
Proof.
  intros Hr Hk Hmax. pose proof (running_length _ _ _ _ _ Hr).
  pose proof (details_number _ (running_details _ _ _ _ _ Hr)). unfold len in *. lia.
Qed.

(** A missed round. *)
Lemma follows_round es r d l k (t : Moment) c v v2 x db :
  follows es (Accounts db) r v (tables r db) x → well_kept db → running d l k t v → l !! k = Some c →
  settled (contribution_amount d) c l v v2 → MaxParticipants < i32_MAX →
  let evs := events ((ring_order l k ≫= settlement d r c v) ++ round_started d r l t (S k)) in
  indexes evs db (λ db', ∃ x',
    follows (es ++ evs) (Accounts db') r (advance_view d l t (S k) v2) (tables r db') x').
Proof.
  intros Hf Hkept Hr Hc Hs Hmax evs. apply lookup_lt_Some in Hc as Hk.
  pose proof (details_amount _ (running_details _ _ _ _ _ Hr)) as [Hamt _].
  destruct (follows_running _ _ _ _ _ _ _ _ _ _ Hf Hr) as (Hat & Hrec & Hnum & Hcut & Hcomp).
  destruct (current_round r d l k t v _ Hr Hk Hat) as (c' & info & ac & Hc' & Hinfo & Heq & Hm & Hac & Hpaid & Hsole).
  rewrite Hc in Hc'. injection Hc' as <-. assert (recipient info = c) as Hto by by rewrite Heq.
  assert (running d l (S k) t (advance_view d l t (S k) v2)) as Hr'.
  { apply running_advance; [|done]. by eapply settled_running. }
  assert (∀ b, default 0 (v_deposits v2 !! b) = default 0 (v_deposits v !! b) ∨ deducted evs r b) as Hded.
  { intros b. subst evs. rewrite events_app. pose proof (settled_Permutation _ _ _ _ _ _ (symmetry (ring_order_Permutation l k)) Hs) as Hs'.
    destruct (settlement_deducted d r c _ v v2 b Hs' Hamt (running_deposits _ _ _ _ _ Hr)) as [?|?]; auto using deducted_mono. }
  subst evs. rewrite events_app. apply indexes_app. rewrite <- Hto.
  eapply indexes_mono; [eapply (index_settlement d r v info (w_rounds (tables r db)) (tables r db) (Accounts db) _ [] ac)|].
  { split_and!; [done | done|]. rewrite <- Hm. by destruct (tables r db). }
  { done. }
  intros db1 (ds' & ac' & (Hkept1 & Hacc1 & Ht1) & Hent). injection Ht1 as Hx1 Hm1 He1 Hd1.
  pose proof (follows_rosca _ _ _ _ _ _ Hf) as Hx. cbn in Hx.
  eapply index_round_started; [by rewrite Hx1 | apply Hf | apply Hf | apply Hr | by eapply running_number | done | done |].
  intros c2 db2 Hc2 Hacc2 x' Hfit' Ht2. subst x'. eexists. rewrite Ht2, Hacc2, Hacc1, Hm1, He1, Hd1.
  rewrite (settled_view _ _ _ _ _ Hs) in Hr' |- *.
  rewrite Hto. rewrite <- events_app. apply (follows_change es _ (Accounts db) r v _ (tables r db) x); try done; [apply Hf|].
  eapply phase_running; [exact Hr' | | | done | done].
  - eapply rounds_at_update; [apply schedule_numbered | exact Hat | done | by apply (entered_NoDup_ds _ _ _ _ _ _ _ Hent), NoDup_nil_2
      | by apply (entered_NoDup_ac _ _ _ _ _ _ _ Hent) | |].
    + intros b [Hb|[Hb [Hne _]]]%(entered_ds _ _ _ _ _ _ _ Hent); [by apply elem_of_nil in Hb|].
      rewrite Heq. cbn. apply list_elem_of_filter. rewrite elem_of_reverse, <- (ring_order_Permutation l k), <- Hto. done.
    + right. split_and!; [done| |].
      * left. intros b Hb. rewrite Heq in Hb. cbn in Hb. apply list_elem_of_filter in Hb as [Hne Hb].
        rewrite elem_of_reverse, <- (ring_order_Permutation l k) in Hb.
        destruct (v_contributors v !! b) as [[]|] eqn:Hcb.
        -- left. apply (entered_ac _ _ _ _ _ _ _ Hent), Hpaid. by rewrite Hcb.
        -- apply (entered_all _ _ _ _ _ _ _ Hent); [done|]. split; [by rewrite Hto | done].
      * cbn. intros b [? Hb]. by rewrite lookup_empty in Hb.
  - cbn. by rewrite Hc2.
Qed.

(** All these events are about the one ROSCA. *)
Lemma Forall_event_settlement d r c v l :
  Forall (λ ev, event_rosca ev = r) (events (l ≫= settlement d r c v)).
Proof.
  apply Forall_forall. intros ev (fx & Hfx & Hev)%list_elem_of_omap.
  apply list_elem_of_bind in Hfx as (p & Hp & _). unfold settlement in Hp. repeat case_match; set_solver.
Qed.

Lemma Forall_event_round_started d r l (t : Moment) k :
  Forall (λ ev, event_rosca ev = r) (events (round_started d r l t k)).
Proof. unfold round_started. case_match; by repeat constructor. Qed.

Lemma Forall_event_missed r d l (t : Moment) k v k' v' fx :
  missed r d l t k v k' v' fx → Forall (λ ev, event_rosca ev = r) (events fx).
Proof.
  induction 1 as [|k1 c v1 v2 fx _ IH _ _]; [constructor|]. rewrite !events_app.
  repeat (apply Forall_app; split); auto using Forall_event_settlement, Forall_event_round_started.
Qed.

Lemma follows_missed es r d l k (t : Moment) v k' v' fx x db :
  missed r d l t k v k' v' fx → running d l k t v → (k' ≤ length l)%nat → MaxParticipants < i32_MAX →
  follows es (Accounts db) r v (tables r db) x → well_kept db →
  indexes (events fx) db (λ db', well_kept db' ∧ running d l k' t v' ∧
    ∃ x', follows (es ++ events fx) (Accounts db') r v' (tables r db') x').
Proof.
  intros Hm Hr Hk' Hmax Hf Hkept. revert Hk'. induction Hm as [|k1 c v1 v2 fx Hm IH Hc Hs]; intros Hk'.
  { apply indexes_nil. split_and!; [done..|]. exists x. by rewrite app_nil_r. }
  rewrite events_app. apply indexes_app. eapply indexes_mono; [apply IH; lia|].
  intros db1 (Hkept1 & Hr1 & x1 & Hf1). clear IH Hf Hkept. rewrite app_assoc.
  eapply indexes_mono.
  { apply (indexes_touches r); [|by eapply follows_round]. rewrite events_app.
    apply Forall_app. auto using Forall_event_settlement, Forall_event_round_started. }
  intros db2 [(x2 & Hf2) Htouch]. destruct (Htouch Hkept1) as (Hkept2 & _ & _). split_and!; [done | | by exists x2].
  apply running_advance; [by eapply settled_running | lia].
Qed.
End rounds.
