(* ===== verification/IndexerSteps.v ===== *)
(** Every step of the specification, and every step of the chain, leaves the tables of
    the indexer in line with the storage of the pallet. *)

From S2P Require Import Prelude RoscaTypes RoscaRounds RoscaCalls RoscaLogic RoscaFrame.
From S2P Require Import RoscaSample RoscaSchedule RoscaInvariant RoscaPreservation.
From S2P Require Import RoscaMembership RoscaLifecycle RoscaSafety RoscaMoney.
From S2P Require Import Indexer IndexerTables IndexerFollows IndexerRounds.

Section steps.
Context {T : Config} {L : ConfigLaws T} {St : Store} {SL : StoreLaws St}.
Implicit Types (r : RoscaId) (v : RoscaView) (d : RoscaDetails) (l : list AccountId) (db : Database).
Implicit Types (x : Rosca) (a b c : AccountId) (es : list Event) (s : State) (ev : Event).

(** A round in which as many have contributed as there are others is accounted for. *)
Lemma round_accounted d l k (t f : Moment) c a ac v :
  running d l k t v → l !! k = Some c → a ∈ l → v_contributors v !! a = None →
  v_contributions v + 1 = len l - 1 → NoDup ac →
  (∀ b, b ∈ ac ↔ b = a ∨ is_Some (v_contributors v !! b)) → accounted (round_of l t f k c) [] ac.
Proof.
  intros Hr Hc Ha Hnone Hcount Hnd Hac. destruct (decide (c ∈ ac)) as [?|Hcn]; [by right|]. left.
  assert (ac ≡ₚ a :: elements (dom (v_contributors v))) as Hperm.
  { apply NoDup_Permutation; [done| |].
    - apply NoDup_cons. split; [|apply NoDup_elements]. rewrite elem_of_elements, elem_of_dom, Hnone. by intros [].
    - intros b. by rewrite Hac, elem_of_cons, elem_of_elements, elem_of_dom. }
  apply Permutation_length in Hperm as Hlen. cbn [length] in Hlen.
  change (length (elements (dom (v_contributors v)))) with (size (dom (v_contributors v))) in Hlen.
  rewrite size_dom in Hlen. pose proof (running_contributions _ _ _ _ _ Hr) as Hn.
  assert (c ∈ reverse l) as Hcl by (apply elem_of_reverse; by eapply list_elem_of_lookup_2).
  assert (NoDup (reverse l)) as Hndl by (rewrite reverse_Permutation; apply Hr).
  pose proof (filter_ne_length _ _ Hndl Hcl) as Hflt. rewrite length_reverse in Hflt.
  intros b Hb. left. cbn in Hb.
  assert (ac ⊆+ filter (λ z, z ≠ c) (reverse l)) as Hsub.
  { apply NoDup_submseteq; [done|]. intros z Hz. apply list_elem_of_filter. split; [by intros ->|].
    apply elem_of_reverse. apply Hac in Hz as [->|Hz]; [done|]. by apply (running_contributors _ _ _ _ _ Hr). }
  unfold len in *. rewrite (submseteq_length_Permutation _ _ Hsub); [done|]. lia.
Qed.

Lemma with_completed_same x : same_rosca x (with_completed true x).
Proof. done. Qed.
Lemma same_rosca_trans x x1 x2 : same_rosca x x1 → same_rosca x1 x2 → same_rosca x x2.
Proof. intros (? & ? & ? & ? & ?) (? & ? & ? & ? & ?). split_and!; congruence. Qed.

(** [handleRoscaComplete]. *)
Lemma index_complete r x db (Q : Database → Prop) :
  Roscas db !! r = Some x → roscaId x = r → Rosca_fits x = true →
  (∀ db', Accounts db' = Accounts db →
     tables r db' = mkTables (Some (with_completed true x)) (prefix (Rounds db) r)
       (prefix (RoscaEligibilities db) r) (prefix (SecurityDeposits db) r) → Q db') →
  indexes [RoscaComplete r] db Q.
Proof.
  intros Hx Hid Hfit HQ. apply indexes_one. intros now. cbn [handle]. unfold handleRoscaComplete. rewrite Hx.
  eexists. split; [by apply save_Rosca_Some|]. apply HQ; [done|].
  unfold tables. cbn. rewrite Hid. by autorewrite with storage.
Qed.

(** The rounds of a ROSCA that is over. *)
Lemma rounds_at_over r l (t f : Moment) k (paid paid' : AccountId → Prop) m :
  rounds_at r (schedule l t f) k paid m → k = length l → rounds_at r (schedule l t f) (length l) paid' m.
Proof.
  intros [He Ho] ->. split; [|done]. intros i info Hi. pose proof (lookup_lt_Some _ _ _ Hi) as Hlt.
  rewrite length_schedule in Hlt. destruct (He i info Hi) as (ds & ac & ? & ? & ? & ? & ? & _).
  exists ds, ac. split_and!; done || lia.
Qed.

Lemma follows_complete es r d l (t : Moment) v x db :
  follows es (Accounts db) r v (tables r db) x → running d l (length l) t v →
  indexes [RoscaComplete r] db (λ db', ∃ x',
    follows (es ++ [RoscaComplete r]) (Accounts db') r (complete_view v) (tables r db') x').
Proof.
  intros Hf Hr. destruct (follows_running _ _ _ _ _ _ _ _ _ _ Hf Hr) as (Hat & _).
  eapply index_complete; [exact (follows_rosca _ _ _ _ _ _ Hf) | apply Hf | apply Hf |]. intros db' Hacc Ht.
  exists (with_completed true x). rewrite Hacc, Ht.
  apply (follows_change es _ (Accounts db) r v _ (tables r db) x); try done; [cbn; naive_solver | by left | apply Hf |].
  eapply phase_completed; [done | exact (running_participants _ _ _ _ _ Hr) | by eapply rounds_at_over].
Qed.
(** A contribution in the current round. *)
Lemma follows_contribution es r d l k (t : Moment) c a v v' x db :
  follows es (Accounts db) r v (tables r db) x → well_kept db → running d l k t v → l !! k = Some c →
  a ∈ l → v_contributors v !! a = None → contributed d l k t a v v' → MaxParticipants < i32_MAX →
  let evs := events (contribution d r l t k a c v) in
  indexes evs db (λ db', ∃ x', follows (es ++ evs) (Accounts db') r v' (tables r db') x').
Proof.
  intros Hf Hkept Hr Hc Ha Hnone Hcon Hmax evs. apply lookup_lt_Some in Hc as Hk.
  destruct (follows_running _ _ _ _ _ _ _ _ _ _ Hf Hr) as (Hat & Hrec & Hnum & Hcut & Hcomp).
  destruct (current_round r d l k t v _ Hr Hk Hat) as (c' & info & ac & Hc' & Hinfo & Heq & Hm & Hac & Hpaid & Hsole).
  rewrite Hc in Hc'. injection Hc' as <-. assert (recipient info = c) as Hto by by rewrite Heq.
  assert (∀ b, b ∈ push_new a ac ↔ b = a ∨ is_Some (v_contributors v !! b)) as Hpush
    by (intros b; by rewrite elem_of_push_new, Hpaid).
  pose proof (NoDup_push_new a ac Hac) as Hac'.
  assert (∀ k' (paid : AccountId → Prop),
    (k' = k ∧ (∀ b, b ∈ push_new a ac ↔ paid b) ∨
     k' = S k ∧ accounted info [] (push_new a ac) ∧ ∀ b, ¬ paid b) →
    rounds_at r (schedule l t (contribution_frequency d)) k' paid
      (<[round_number info := round_entity r info [] (push_new a ac)]> (w_rounds (tables r db)))) as Hrounds.
  { intros k' paid Hk'. eapply rounds_at_update; [apply schedule_numbered | exact Hat | done | by apply NoDup_nil_2 | done | |].
    - intros b Hb. by apply elem_of_nil in Hb.
    - destruct Hk' as [[-> ?]|(-> & ? & ?)]; auto. }
  pose proof (follows_rosca _ _ _ _ _ _ Hf) as Hx. cbn in Hx.
  subst evs. unfold contribution. rewrite events_app. cbn [events omap list_omap]. apply indexes_app, indexes_one. intros now.
  destruct (handle_paid (Some now) (ContributionMade r a c (contribution_amount d)) r info (w_rounds (tables r db))
    (tables r db) (Accounts db) [] ac a (contribution_amount d) true db) as (db1 & Hdb1 & Hkept1 & Hacc1 & Ht1).
  { split_and!; [done | done|]. rewrite <- Hm. by destruct (tables r db). }
  { done. }
  { left. by rewrite Hto. }
  exists db1. split; [done|]. injection Ht1 as Hx1 Hm1 He1 Hd1. rewrite Hx in Hx1.
  destruct Hcon as [Hcnt ->|Hcnt Hk' ->|Hcnt Hk' ->].
  - rewrite decide_False by lia. apply indexes_nil. exists x. unfold tables. rewrite Hacc1, Hx1, Hm1, He1, Hd1.
    apply (follows_change es _ (Accounts db) r v _ (tables r db) x); try done; [apply Hf | by left | apply Hf |].
    apply (phase_running _ _ _ _ d l k t); try done; [by apply running_contribute|].
    apply Hrounds. left. split; [done|]. intros b. rewrite Hpush. cbn. rewrite lookup_insert_is_Some'. naive_solver.
  - rewrite decide_True, decide_False by lia.
    eapply index_round_started; [done | apply Hf | apply Hf | apply Hr | by eapply running_number | done | done |].
    intros c2 db2 Hc2 Hacc2 x' Hfit' Ht2. subst x'. eexists. rewrite Ht2, Hacc2, Hacc1, Hm1, He1, Hd1.
    apply (follows_change es _ (Accounts db) r v _ (tables r db) x); try done; [apply Hf | by left|].
    eapply phase_running; [by apply (running_advance _ _ _ _ _ Hr) | | by cbn; rewrite Hc2 | done | done].
    apply Hrounds. right. split_and!; [done | rewrite Heq; by eapply round_accounted|].
    cbn. intros b [? Hb]. by rewrite lookup_empty in Hb.
  - rewrite !decide_True by lia. eapply index_complete; [done | apply Hf | apply Hf |].
    intros db2 Hacc2 Ht2. eexists. rewrite Ht2, Hacc2, Hacc1, Hm1, He1, Hd1.
    apply (follows_change es _ (Accounts db) r v _ (tables r db) x); try done; [cbn; naive_solver | by left | apply Hf |].
    eapply phase_completed; [done | exact (running_participants _ _ _ _ _ Hr)|].
    rewrite <- Hk'. apply Hrounds. right. split_and!; [done | rewrite Heq; by eapply round_accounted | naive_solver].
Qed.

(** The start of a ROSCA. *)
Lemma follows_start es r d o l c (now : Moment) a v x db :
  follows es (Accounts db) r v (tables r db) x → pending_ok d o v → l ≡ₚ omap id o → l !! 0%nat = Some c →
  0 ≤ now → now + contribution_frequency d * (len l + 1) ≤ u64_MAX → MaxParticipants < i32_MAX →
  let ev := RoscaStarted r a (schedule l now (contribution_frequency d)) c (now + contribution_frequency d) in
  indexes [ev] db (λ db', ∃ x',
    follows (es ++ [ev]) (Accounts db') r (start_view d l now v) (tables r db') x').
Proof.
  intros Hf Hp Hl Hc Hnow Hb Hmax ev. apply indexes_one. intros time. cbn [handle ev].
  destruct (follows_pending _ _ _ _ _ _ _ _ Hf Hp) as (Hm & Hrec & Hnum & Hcomp).
  pose proof (follows_rosca _ _ _ _ _ _ Hf) as Hx. pose proof (follows_id _ _ _ _ _ _ Hf) as Hid.
  pose proof (follows_fits _ _ _ _ _ _ Hf) as Hfit. cbn in Hx, Hm.
  assert (0 < length l)%nat as Hlt by (apply lookup_lt_Some in Hc; lia).
  pose proof (pending_start _ _ _ _ _ Hp Hl Hlt Hnow Hb) as Hr.
  set (x' := with_start a c 1 (now + contribution_frequency d) x).
  assert (Rosca_fits x' = true) as Hfit' by by eapply (same_rosca_fits x).
  unfold handleRoscaStarted. rewrite Hx. fold x'. rewrite (proj2 (save_Rosca_Some x' db _) (conj Hfit' eq_refl)).
  cbn [mbind option_bind].
  destruct (create_rounds r (schedule l now (contribution_frequency d)) (put_Rosca x' db)) as (db' & -> & Ht & Ha).
  { apply Rosca_fits_spec in Hfit as [(Hi & _) _]. by rewrite Hid in Hi. }
  { intros info. apply schedule_fits. pose proof (running_length _ _ _ _ _ Hr).
    pose proof (details_number _ (running_details _ _ _ _ _ Hr)). lia. }
  exists db'. split; [done|]. rewrite Ht, Ha.
  cbn [Roscas Rounds Accounts RoscaEligibilities SecurityDeposits put_Rosca roscaId x' with_start].
  rewrite Hid, Hm. autorewrite with storage. eexists.
  apply (follows_change es _ (Accounts db) r v _ (tables r db) x); try done.
  - cbn. intros d' [[= <-]|?]; [|done]. right. by destruct Hp.
  - apply Hf.
  - by left.
  - apply (phase_running _ _ _ _ d l 0 now); try done.
    apply rounds_at_start; [apply schedule_numbered|]. cbn. rewrite (pending_contributors _ _ _ Hp).
    intros b [? Hb']. by rewrite lookup_empty in Hb'.
Qed.

(** * Steps of the specification *)

(** All events of a step are about its ROSCA. *)
Lemma Forall_event_step now a call v v' fx :
  rosca_step now a call v v' fx → Forall (λ ev, event_rosca ev = call_rosca 0 call) (events fx).
Proof.
  destruct 1; cbn [call_rosca]; rewrite ?events_app; repeat (apply Forall_app; split);
    eauto using Forall_event_missed; try (by repeat constructor).
  - unfold refund. case_match; by repeat constructor.
  - unfold contribution, round_started. rewrite events_app. repeat case_match; by repeat constructor.
Qed.

Lemma follows_step es now a call v v' fx x db :
  let r := call_rosca 0 call in
  rosca_step now a call v v' fx → follows es (Accounts db) r v (tables r db) x → well_kept db → deposits_ok v' →
  MaxParticipants < i32_MAX → paid_in r (es ++ events fx) ≤ i32_MAX →
  indexes (events fx) db (λ db', well_kept db' ∧ (∀ r', r ≠ r' → tables r' db' = tables r' db) ∧
    Accounts db ⊆ Accounts db' ∧
    ∃ x', follows (es ++ events fx) (Accounts db') r v' (tables r db') x').
Proof.
  intros r Hstep Hf Hkept Hok Hmax Hpaid. pose proof (Forall_event_step _ _ _ _ _ _ Hstep) as Hev. fold r in Hev.
  eapply indexes_mono; [apply (indexes_touches r); [done|] |].
  2: { intros db' [HQ Ht]. destruct (Ht Hkept) as (H1 & H2 & H3). split_and!; [done | done | done | exact HQ]. }
  clear Hev. destruct Hstep as [? ? d o i v Hp ? Hnew Hinv|? d o i v Hp Hi|? d o l c v Hp ? Ha ? Hl ? Hnow Hb Hc
    |? d l k t k' c v v1 v' fx Hr Hk Ha Hc Hnone Hm Hk' ? ? Hr1 Hcon|? d l k t v v1 fx Hr Hk Ht Hm Hr1
    |? d l k t v v1 fx Hr Hk Ht Hm Hr1|? ? l n t v Hc Hfin Ht Hx H0|? d n v Hc Hd Ha ? Hx]; subst r; cbn [call_rosca] in *.
  - by eapply follows_join.
  - by eapply follows_leave.
  - by eapply follows_start.
  - rewrite events_app. apply indexes_app. apply lookup_lt_Some in Hk' as Hlt.
    eapply indexes_mono; [eapply follows_missed; eauto; lia|]. intros db1 (Hkept1 & _ & x1 & Hf1). rewrite app_assoc.
    eapply follows_contribution; try done.
    by destruct (missed_contributors _ _ _ _ _ _ _ _ _ Hm) as [[_ ->]|[_ ->]].
  - rewrite events_app. apply indexes_app. eapply indexes_mono; [by eapply follows_missed; eauto|].
    intros db1 (Hkept1 & _ & x1 & Hf1). rewrite app_assoc. by eapply follows_complete.
  - rewrite events_app. apply indexes_app. eapply indexes_mono; [by eapply follows_missed; eauto|].
    intros db1 (Hkept1 & _ & x1 & Hf1). rewrite app_assoc. by eapply follows_complete.
  - by eapply follows_claim.
  - by eapply follows_add.
Qed.
(** * Creation *)

Lemma lookup_foldl_insert {V} (g : AccountId → V) l (m : gmap AccountId V) b :
  foldl (λ m b, <[b := g b]> m) m l !! b = if decide (b ∈ l) then Some (g b) else m !! b.
Proof.
  revert m. induction l as [|c l IH]; intros m; cbn [foldl]; [by rewrite decide_False by apply not_elem_of_nil|].
  rewrite IH. destruct (decide (b ∈ l)) as [Hb|Hb]; [by rewrite decide_True by by right|].
  destruct (decide (c = b)) as [<-|Hne]; [by rewrite lookup_insert_eq, decide_True by left|].
  rewrite lookup_insert_ne, decide_False by set_solver. done.
Qed.

(** The loop of [handleRoscaCreated]. *)
Lemma index_eligibilities (now : Moment) r c l db :
  ∃ db', create_eligibilities (Some now) r c l db = Some db' ∧
    tables r db' = mkTables (Roscas db !! r) (prefix (Rounds db) r)
      (foldl (λ m b, <[b := if decide (b = c) then Some now else None]> m) (prefix (RoscaEligibilities db) r) l)
      (prefix (SecurityDeposits db) r) ∧
    ∀ b, b ∈ Accounts db' ↔ b ∈ l ∨ b ∈ Accounts db.
Proof.
  revert db. induction l as [|b l IH]; intros db; cbn [create_eligibilities foldl].
  { exists db. split_and!; [done | done | set_solver]. }
  set (db1 := if decide (b ∈ Accounts db) then db else save_Account b db).
  assert (tables r db1 = tables r db ∧ ∀ b', b' ∈ Accounts db1 ↔ b' = b ∨ b' ∈ Accounts db) as [Ht1 Ha1].
  { subst db1. case_decide; (split; [done|]); cbn; set_solver. }
  set (j := if decide (b = c) then Some now else None).
  assert ((if decide (b = c) then Some <$> Some now else Some None) = Some j) as -> by (subst j; by case_decide).
  cbn [mbind option_bind]. destruct (IH (save_RoscaEligibility r b j db1)) as (db' & Hdb & Ht & Ha).
  exists db'. injection Ht1 as Hx Hm He Hd. split_and!; [done | |].
  - rewrite Ht. cbn [save_RoscaEligibility Roscas Rounds RoscaEligibilities SecurityDeposits].
    autorewrite with storage. by rewrite Hx, Hm, He, Hd.
  - intros b'. rewrite Ha. cbn. rewrite Ha1. set_solver.
Qed.

Lemma follows_create es r d a i l db :
  tables r db = mkTables None ∅ ∅ ∅ → details_ok d → MaxParticipants < i32_MAX → 0 ≤ r ≤ i32_MAX →
  let ev := RoscaCreated r (contribution_amount d) (payment_asset d) (contribution_frequency d)
    (random_order d) (name d) (number_of_participants d) (minimum_participant_threshold d)
    (start_by_timestamp d) (a :: l) a in
  indexes [ev] db (λ db', ∃ x,
    follows (es ++ [ev]) (Accounts db') r (create_view d a i l) (tables r db') x).
Proof.
  intros Hnone Hdet Hmax Hr ev. injection Hnone as Hx Hm He Hd. apply indexes_one. intros now. cbn [handle ev].
  unfold handleRoscaCreated. set (x := mkRosca _ _ _ _ _ _ _ _ _ _ _ _ _ _ _ _ _ _).
  assert (Rosca_fits x = true) as Hfit.
  { destruct Hdet. apply Rosca_fits_spec. rewrite !Int_spec. unfold i32_MAX in *. cbn. lia. }
  rewrite (proj2 (save_Rosca_Some x db _) (conj Hfit eq_refl)). cbn [mbind option_bind].
  destruct (index_eligibilities now r a (a :: l) (put_Rosca x db)) as (db' & Hdb & Ht & Ha).
  exists db'. split; [done|]. exists x. rewrite Ht.
  cbn [put_Rosca Roscas Rounds RoscaEligibilities SecurityDeposits roscaId x] in *.
  autorewrite with storage. rewrite Hm, He, Hd.
  assert (∀ b, is_Some (invite l {[a := tt]} !! b) ↔ b ∈ a :: l) as Hinv.
  { intros b. rewrite invite_spec, elem_of_cons. destruct (decide (a = b)) as [<-|Hne].
    - rewrite lookup_singleton_eq. naive_solver.
    - rewrite lookup_singleton_ne by done. split; [intros [?|[? [=]]]; by right | intros [->|?]; [done | by left]]. }
  split; cbn [w_rosca w_rounds w_eligibilities w_deposits v_active v_pending v_participants v_invited v_completed
              v_deposits create_view activeParticipants eligibleParticipants completed totalSecurityDeposits x];
    try done; [apply paid_in_nonneg || (try (intros b; rewrite ?Hinv))..].
  - intros [?|[= <-]]; [done|]. by destruct d.
  - rewrite list_elem_of_singleton, lookup_singleton_is_Some. naive_solver.
  - apply NoDup_singleton.
  - rewrite lookup_foldl_insert, lookup_empty. destruct (decide (b ∈ a :: l)) as [Hb|Hb];
      split; intros Hs; try done; by destruct Hs.
  - rewrite lookup_foldl_insert, lookup_empty, lookup_singleton_is_Some.
    destruct (decide (b ∈ a :: l)) as [Hb|Hb]; cbn; [case_decide|]; split; intros Hs; try done; try (by destruct Hs).
    all: set_solver.
  - intros Hb. apply Ha. by left.
  - by left.
  - apply (phase_pending _ _ _ _ d); done.
Qed.

(** * The chain *)

(** The numbers of the chain and of the events [es] so far fit the columns: participants,
    identifiers, and what was paid into the deposits of each ROSCA. *)
Record columns_fit es s : Prop := {
  fit_participants : MaxParticipants < i32_MAX;
  fit_ids : NextRoscaId s ≤ i32_MAX + 1;
  fit_deposits r : paid_in r es ≤ i32_MAX;
}.

(** The database of an indexer that has handled the events [es] since genesis. *)
Record in_line es s db : Prop := {
  in_line_kept : well_kept db;
  in_line_rosca r : 0 ≤ r < NextRoscaId s → ∃ x, follows es (Accounts db) r (view r s) (tables r db) x;
  in_line_none r : NextRoscaId s ≤ r → tables r db = mkTables None ∅ ∅ ∅;
}.

Lemma in_line_genesis s : chain_genesis s → in_line [] s empty_database.
Proof.
  intros [Hv Hn Hnow]. split; [split; cbn; [intros ? ?; by rewrite lookup_empty|] | intros r; lia | done].
  intros r n y. unfold dlookup, prefix. rewrite lookup_empty. cbn. by rewrite lookup_empty.
Qed.

(** The events logged between [s] and [s'] take the indexer from the one to the other, if
    the numbers still fit. *)
Definition logs s s' : Prop :=
  NextRoscaId s ≤ NextRoscaId s' ∧
  ∃ evs, Events s' = Events s ++ evs ∧
    ∀ es db, in_line es s db → columns_fit (es ++ evs) s' → indexes evs db (in_line (es ++ evs) s').

#[global] Instance logs_refl : Reflexive logs.
Proof.
  intros s. split; [done|]. exists []. split; [by rewrite app_nil_r|].
  intros es db Hdb _. apply indexes_nil. by rewrite app_nil_r.
Qed.
#[global] Instance logs_trans : Transitive logs.
Proof.
  intros s1 s2 s3 (N1 & e1 & H1 & I1) (N2 & e2 & H2 & I2). split; [lia|].
  exists (e1 ++ e2). split; [by rewrite H2, H1, app_assoc|].
  intros es db Hdb Hfit. rewrite app_assoc in Hfit |- *. apply indexes_app.
  eapply indexes_mono; [apply I1; [done|]|]; [|intros db1 Hdb1; by apply I2].
  destruct Hfit as [Hm Hi Hp]. split; [done | lia|]. intros r. etrans; [|exact (Hp r)]. apply paid_in_mono.
Qed.

Lemma in_line_create o random invited threshold amount asset frequency start_by position rosca_name s s' :
  let c := Call_create_rosca random invited threshold amount asset frequency start_by position rosca_name in
  Inv s → admissible s c → dispatch o c s = Ok (tt, s') → logs s s'.
Proof.
  intros c HI [Hd [Hn Hp]] Hrun.
  destruct (wp_Ok _ _ _ _ _ _ (wp_create_rosca o _ _ _ _ _ _ _ _ _ s HI Hd Hn Hp) Hrun)
    as (a & -> & Hok & [En Ev Eo Enow EL Ee]).
  split; [lia|]. eexists. split; [exact Ee|]. intros es db [Hkept Hros Hnone] [Hmax Hids _]. pose proof (Inv_next _ HI) as [H0 _].
  eapply indexes_mono; [apply (indexes_touches (NextRoscaId s)); [by repeat constructor|];
    apply follows_create; [by apply Hnone | done | done | lia]|].
  intros db' [(x & Hf) Ht]. destruct (Ht Hkept) as (Hkept' & Hacc & Htab). split; [done| |].
  - intros r Hr. destruct (decide (r = NextRoscaId s)) as [->|Hne].
    + exists x. rewrite Ev. exact Hf.
    + destruct (Hros r) as [x' Hx']; [lia|]. exists x'. rewrite Eo, Htab by done. by eapply follows_mono.
  - intros r Hr. rewrite Htab by lia. apply Hnone. lia.
Qed.

Lemma in_line_moves o (c : Call) s s' :
  Inv s → admissible s c → is_create c = false → dispatch o c s = Ok (tt, s') → logs s s'.
Proof.
  intros HI Hadm Hc Hrun. pose proof (Inv_dispatch _ _ _ _ HI Hadm Hrun) as HI'.
  destruct Hadm as [Hd _]. pose proof (dispatch_frame _ _ _ _ Hc Hrun) as [Hv Hn _ _ _].
  destruct (wp_Ok _ _ _ _ _ _ (dispatch_moves o c s HI Hd Hc) Hrun) as (a & fx & -> & Hstep & [_ HE]).
  assert (call_rosca (NextRoscaId s) c = call_rosca 0 c) as Hcr by by destruct c.
  rewrite Hcr in *. set (r := call_rosca 0 c) in *.
  assert (0 ≤ r < NextRoscaId s) as Hr.
  { split; [destruct c; try done; try apply Hd; by destruct Hd as [[? ?] _]|].
    destruct (decide (NextRoscaId s ≤ r)) as [Hle|?]; [|lia].
    rewrite (Inv_fresh _ HI r Hle) in Hstep. by destruct (rosca_step_empty _ _ _ _ _ Hstep). }
  split; [lia|]. exists (events fx). split; [done|]. intros es db [Hkept Hros Hnone] [Hmax _ Hpaid].
  destruct (Hros r Hr) as [x Hx].
  eapply indexes_mono; [eapply follows_step; [exact Hstep | exact Hx | done | | done | apply Hpaid]|].
  { by destruct (Inv_rosca _ HI' r) as [->|? ? []|? ? ? ? [] ? ?|? []]. }
  intros db' (Hkept' & Htab & Hacc & x' & Hx'). split; [done| |].
  - rewrite Hn. intros r' Hr'. destruct (decide (r = r')) as [<-|Hne]; [by exists x'|].
    destruct (Hros r' Hr') as [x1 Hx1]. exists x1. rewrite Hv, Htab by done. by eapply follows_mono.
  - rewrite Hn. intros r' Hr'. fold r in Htab. rewrite Htab by lia. by apply Hnone.
Qed.

Lemma in_line_step s s' : Inv s → chain_step s s' → logs s s'.
Proof.
  intros HI [o c Hadm Hrun|[Hv Hn _ He]].
  - destruct (is_create c) eqn:Hc; [|by eapply in_line_moves].
    destruct c; try done. by eapply in_line_create.
  - split; [lia|]. exists []. split; [by rewrite app_nil_r|]. intros es db [Hkept Hros Hnone] _. apply indexes_nil.
    rewrite app_nil_r. split; [done | |]; rewrite Hn; [|done]. intros r Hr. rewrite Hv. auto.
Qed.

Lemma in_line_steps s s' : Inv s → rtc chain_step s s' → logs s s'.
Proof.
  intros HI Hs. revert HI. induction Hs as [s|s s1 s' Hstep _ IH]; intros HI; [reflexivity|].
  etrans; [by apply in_line_step | apply IH; by eapply Inv_chain_step].
Qed.
End steps.
