(* ===== verification/IndexerTheorems.v ===== *)
(** The results about the indexer, each with an instance on the sample chain. *)

From S2P Require Import Prelude RoscaTypes RoscaRounds RoscaCalls RoscaLogic RoscaFrame.
From S2P Require Import RoscaSample RoscaSchedule RoscaInvariant RoscaPreservation.
From S2P Require Import RoscaMembership RoscaLifecycle RoscaSafety RoscaMoney RoscaScenarios.
From S2P Require Import Indexer IndexerTables IndexerFollows IndexerRounds IndexerSteps.

Section theorems.
Context {T : Config} {L : ConfigLaws T} {St : Store} {SL : StoreLaws St}.
Implicit Types (r : RoscaId) (s : State) (d : RoscaDetails) (log : list (option Moment * Event)).

(** [log] holds the events of the chain since its genesis [s0], in their order, every block
    had a timestamp, and the numbers fit the columns of the tables: fewer than [i32_MAX]
    participants, identifiers up to [i32_MAX], and at most [i32_MAX] paid into the deposits
    of each ROSCA. *)
Record indexed s0 s log : Prop := {
  indexed_genesis : chain_genesis s0;
  indexed_steps : rtc chain_step s0 s;
  indexed_log : Events s = Events s0 ++ log.*2;
  indexed_times : Forall (λ e, is_Some e.1) log;
  indexed_fit : columns_fit log.*2 s;
}.

Lemma indexed_in_line s0 s log : indexed s0 s log → ∃ db, index log empty_database = Some db ∧ in_line log.*2 s db.
Proof.
  intros [H0 Hs Hlog Htime Hfit]. destruct (in_line_steps _ _ (Inv_genesis _ H0) Hs) as (_ & evs & HE & Hidx).
  rewrite HE in Hlog. apply app_inv_head in Hlog as ->.
  by apply (Hidx [] _ (in_line_genesis _ H0) Hfit log).
Qed.

(** C12: the indexer follows the chain, as long as identifiers, participants and what was
    paid into the deposits of a ROSCA fit the 32-bit columns of its tables.  It handles
    every event of an execution from genesis without throwing, whatever the timestamps of
    the blocks.  Its database has an
    entity for every ROSCA: with the parameters, participants, invitations and completion
    of the storage; with the rounds of the announced schedule, each finished one accounted
    for by payments and defaults (unless its recipient has paid itself), the current one
    with exactly the contributors and the claimant of the storage; and with the deposits
    of the storage but for accounts from which a missed contribution was deducted. *)
Theorem indexer_follows_chain s0 s log :
  indexed s0 s log →
  ∃ db, index log empty_database = Some db ∧
    ∀ r, 0 ≤ r < NextRoscaId s → ∃ x, follows log.*2 (Accounts db) r (view r s) (tables r db) x.
Proof.
  intros Hi. destruct (indexed_in_line _ _ _ Hi) as (db & Hdb & [_ Hros _]). by exists db.
Qed.

Lemma cutoffs_last t f (k : nat) :
  0 ≤ t → 0 < f → let n := t + f * (Z.of_nat k + 1) in
  n ≤ cutoffs t f k ∧ (cutoffs t f k = n ↔ k = 0%nat).
Proof.
  intros Ht Hf. cbv zeta. destruct k as [|k]; cbn [cutoffs]; [split; [lia|]; split; [done | lia]|].
  assert (0 < cutoffs t f k) by (induction k as [|k IH]; cbn [cutoffs]; nia). split; [lia|]. split; [lia | done].
Qed.

(** C36: when a deposit stops the indexer.  After it has followed the chain, let an account
    add to its security deposit.  The call logs one event, and handling it throws exactly
    when the total of the deposits that the indexer has recorded for the ROSCA, with the new
    amount, exceeds the largest value of a 32-bit column with a sign; the chain counts the
    deposit of a single account with 32 bits without one. *)
Theorem indexer_deposit_overflow s0 s s' log r a n time :
  indexed s0 s log → in_width u32_MAX r → in_width u32_MAX n →
  dispatch (Signed a) (Call_add_to_security_deposit r n) s = Ok (tt, s') →
  ∃ db x, index log empty_database = Some db ∧ Roscas db !! r = Some x ∧
    totalSecurityDeposits x = total (prefix (SecurityDeposits db) r) ∧
    Events s' = Events s ++ [SecurityDepositContribution r a n] ∧
    (index (log ++ [(time, SecurityDepositContribution r a n)]) empty_database = None ↔
     i32_MAX < totalSecurityDeposits x + n).
Proof.
  intros Hi Hr Hn Hrun. assert (Inv s) as HI by (apply Inv_reachable; exists s0; by destruct Hi).
  destruct (indexed_in_line _ _ _ Hi) as (db & Hdb & [_ Hros _]).
  destruct (wp_Ok _ _ _ _ _ _ (dispatch_moves (Signed a) (Call_add_to_security_deposit r n) s HI (conj Hr Hn) eq_refl) Hrun)
    as (a' & fx & [= <-] & Hstep & [_ HE]). cbn in Hstep.
  assert (0 ≤ r < NextRoscaId s) as Hlt.
  { split; [apply Hr|]. destruct (decide (NextRoscaId s ≤ r)) as [Hle|?]; [|lia].
    rewrite (Inv_fresh _ HI r Hle) in Hstep. by destruct (rosca_step_empty _ _ _ _ _ Hstep). }
  destruct (Hros r Hlt) as [x Hx]. exists db, x.
  remember (view r s) as v eqn:Hv in Hstep. remember (view r s') as v' eqn:Hv' in Hstep.
  inversion Hstep as [| | | | | | |? d ? ? _ _ Ha H0 _]. subst. cbn in HE.
  split_and!; [done | exact (follows_rosca _ _ _ _ _ _ Hx) | exact (follows_total _ _ _ _ _ _ Hx) | done |].
  rewrite index_app, Hdb. cbn [mbind option_bind index]. rewrite (handle_add _ _ _ _ _ _ _ _ Hx Ha).
  pose proof (follows_rosca _ _ _ _ _ _ Hx) as Hrow. pose proof (follows_fits _ _ _ _ _ _ Hx) as Hfit.
  pose proof (follows_nonneg _ _ _ _ _ _ Hx) as Hnn. pose proof (total_lookup _ a Hnn) as Hle.
  pose proof (follows_total _ _ _ _ _ _ Hx) as Htot. cbn in Hrow, Hle, Htot.
  set (m := default 0 (prefix (SecurityDeposits db) r !! a) + n).
  destruct (decide (totalSecurityDeposits x + n ≤ i32_MAX)) as [Hok|Hbig].
  - assert (Int m = true ∧ Int (totalSecurityDeposits x + n) = true) as [Him Hit]
      by (rewrite !Int_spec; subst m; unfold i32_MAX in *; lia).
    rewrite (proj2 (save_SecurityDeposit_Some r a m db _) (conj Him eq_refl)). cbn [mbind option_bind].
    destruct (add_total_tables r n x (put_SecurityDeposit r a m db) Hrow (follows_id _ _ _ _ _ _ Hx) Hfit Hit)
      as (db1 & -> & _). split; [done | lia].
  - split; [lia|]. intros _. destruct (save_SecurityDeposit r a m db) as [db1|] eqn:Hs; [|done]. cbn [mbind option_bind].
    apply save_SecurityDeposit_Some in Hs as [_ ->]. unfold add_total. cbn [put_SecurityDeposit Roscas]. rewrite Hrow.
    unfold save_Rosca. destruct (Rosca_fits (with_deposits _ _)) eqn:Hf; [|done].
    apply Rosca_fits_spec in Hf as (_ & Hf%Int_spec & _). cbn [totalSecurityDeposits with_deposits] in Hf. lia.
Qed.

(** C22: the payment cutoff that the indexer shows for an active ROSCA, as long as it follows
    the chain (the numbers fit its columns).  The handler of a
    new round adds the new cutoff to the old one in place of replacing it, so what is shown
    is the next pay-by time of the chain in the first round, and later than that in every
    other round. *)
Theorem indexer_cutoff_accumulates s0 s log r d :
  indexed s0 s log → 0 ≤ r < NextRoscaId s → active_roscas r s = Some d →
  ∃ db x shown next, index log empty_database = Some db ∧ Roscas db !! r = Some x ∧
    currentRoundPaymentCutoff x = Some shown ∧ next_pay_by_timestamp r s = Some next ∧
    next ≤ shown ∧ (shown = next ↔ currentRoundNumber x = 1).
Proof.
  intros Hi Hr Ha. destruct (indexed_in_line _ _ _ Hi) as (db & Hdb & [_ Hros _]).
  destruct (Hros r Hr) as [x Hx]. assert (Inv s) as HI.
  { apply Inv_reachable. exists s0. by destruct Hi. }
  destruct (active_running _ _ _ HI Ha) as (l & k & t & Hrun & _ & _).
  destruct (follows_running _ _ _ _ _ _ _ _ _ _ Hx Hrun) as (_ & _ & Hnum & Hcut & _).
  destruct (cutoffs_last t (contribution_frequency d) k) as [Hle Heq];
    [apply Hrun | apply (running_details _ _ _ _ _ Hrun) |].
  eexists db, x, _, _. split_and!; [done | exact (follows_rosca _ _ _ _ _ _ Hx) | done
    | exact (running_next _ _ _ _ _ Hrun) | done |]. rewrite Heq, Hnum. lia.
Qed.
End theorems.

(** * The sample chain *)

(** A store that answers a query with the first matches. *)
#[export] Instance SampleStore : Store (T := Sample) := {|
  getByFields fields limit m :=
    take limit (filter (λ y, fields y = true) (map_to_list m ≫= λ p, (map_to_list p.2).*2));
|}.

Lemma elem_of_all_rounds (m : gmap RoscaId (gmap Z (Round (T := Sample)))) y :
  y ∈ (map_to_list m ≫= λ p, (map_to_list p.2).*2) ↔ ∃ r n, dlookup m r n = Some y.
Proof.
  rewrite list_elem_of_bind. unfold dlookup, prefix. split.
  - intros ([r p] & Hy & Hp). apply elem_of_map_to_list in Hp. cbn in Hy.
    apply list_elem_of_fmap in Hy as ([n y'] & -> & Hn%elem_of_map_to_list). exists r, n. by rewrite Hp.
  - intros (r & n & Hy). destruct (m !! r) as [p|] eqn:Hp; cbn in Hy; [|by rewrite lookup_empty in Hy].
    exists (r, p). split; [|by apply elem_of_map_to_list]. apply list_elem_of_fmap. exists (n, y).
    split; [done | by apply elem_of_map_to_list].
Qed.

#[export] Instance SampleStore_laws : StoreLaws SampleStore.
Proof.
  split; cbn.
  - intros fields limit m. rewrite length_take. lia.
  - intros fields limit m x Hx. apply elem_of_take in Hx as (i & Hx & _). apply list_elem_of_lookup_2 in Hx.
    apply list_elem_of_filter in Hx as [Hf Hx]. split; [done|]. by apply elem_of_all_rounds.
  - intros fields limit m r n x Hx Hf.
    assert (x ∈ filter (λ y, fields y = true) (map_to_list m ≫= λ p, (map_to_list p.2).*2)) as Hin.
    { apply list_elem_of_filter. split; [done|]. apply elem_of_all_rounds. eauto. }
    destruct (filter _ _); [by apply elem_of_nil in Hin | done].
Qed.

(** The events of a scenario, all in blocks with the timestamp 7. *)
Definition events_of (actions : list action) : list (option Moment * Event (T := Sample)) :=
  (λ ev, (Some 7, ev)) <$> Events (state_after actions).

Lemma scenario_indexed actions :
  admitted 0 actions → owned actions = true → plays actions = true →
  NextRoscaId (state_after actions) ≤ i32_MAX + 1 → (∀ r, paid_in r (Events (state_after actions)) ≤ i32_MAX) →
  indexed (genesis 1) (state_after actions) (events_of actions).
Proof.
  intros Hadm Hown Hplays Hids Hpaid.
  assert ((events_of actions).*2 = Events (state_after actions)) as Hev
    by (unfold events_of; rewrite <- list_fmap_compose; cbn; by rewrite list_fmap_id).
  split.
  - by split.
  - eapply (rtc_subrel owned_step); [exact owned_chain_step | by apply scenario_owned].
  - by rewrite Hev.
  - apply Forall_fmap, Forall_true. by eexists.
  - rewrite Hev. by split.
Qed.

(** No deposit of a scenario exceeds the columns. *)
Lemma paid_in_bounded (es : list (Event (T := Sample))) r :
  foldr (λ ev n, match ev with SecurityDepositContribution _ _ k => Z.max 0 k + n | _ => n end) 0 es ≤ i32_MAX →
  paid_in r es ≤ i32_MAX.
Proof.
  intros H. etrans; [|exact H]. clear H. unfold paid_in. induction es as [|ev es IH]; cbn; [done|].
  destruct ev; cbn; try lia. case_decide; lia.
Qed.

(** The first round has passed and the second one is under way. *)
Definition second_round : list action := basic ++ [At 12; Do 3 (Call_contribute_to_rosca 0)].

Lemma indexer_follows_chain_witness :
  let s := state_after ended in
  ∃ db, index (events_of ended) empty_database = Some db ∧
    ∀ r, 0 ≤ r < NextRoscaId s → ∃ x, follows (events_of ended).*2 (Accounts db) r (view r s) (tables r db) x.
Proof.
  intros s. apply (indexer_follows_chain (T := Sample) (genesis 1)).
  apply scenario_indexed; [vm_compute; repeat split; discriminate | by vm_compute.. |].
  intros r. by apply paid_in_bounded; vm_compute.
Defined.

Lemma indexer_cutoff_accumulates_witness :
  let s := state_after second_round in
  ∃ db x shown next, index (events_of second_round) empty_database = Some db ∧ Roscas db !! 0 = Some x ∧
    currentRoundPaymentCutoff x = Some shown ∧ next_pay_by_timestamp 0 s = Some next ∧
    next ≤ shown ∧ (shown = next ↔ currentRoundNumber x = 1).
Proof.
  intros s. apply (indexer_cutoff_accumulates (T := Sample) (genesis 1) s (events_of second_round) 0 basic_details).
  - apply scenario_indexed; [vm_compute; repeat split; discriminate | by vm_compute.. |].
    intros r. by apply paid_in_bounded; vm_compute.
  - by vm_compute.
  - by vm_compute.
Defined.

Lemma indexer_deposit_overflow_witness :
  let s := state_after joined in
  let s' := run_or_stay 2 (Call_add_to_security_deposit (T := Sample) 0 500) s in
  ∃ db x, index (events_of joined) empty_database = Some db ∧ Roscas db !! 0 = Some x ∧
    totalSecurityDeposits x = total (prefix (SecurityDeposits db) 0) ∧
    Events s' = Events s ++ [SecurityDepositContribution 0 2 500] ∧
    (index (events_of joined ++ [(Some 7, SecurityDepositContribution 0 2 500)]) empty_database = None ↔
     i32_MAX < totalSecurityDeposits x + 500).
Proof.
  intros s s'. apply (indexer_deposit_overflow (T := Sample) (genesis 1) s s' (events_of joined) 0 2 500 (Some 7)).
  - apply scenario_indexed; [vm_compute; repeat split; discriminate | by vm_compute.. |].
    intros r. by apply paid_in_bounded; vm_compute.
  - by vm_compute.
  - by vm_compute.
  - apply run_or_stay_Ok. by vm_compute.
Defined.

(** All rounds were missed, and two contributions of 100 were deducted from the deposit of
    the creator.  The indexer still shows 500, as the deposit and as the total; the claim
    of the 300 that are left does not match this and is only logged. *)
Definition claimed : list action := ended ++ [Do 1 (Call_claim_security_deposit 0 USDT)].

Lemma deduction_not_indexed :
  let s := state_after claimed in
  security_deposit 0 (1 : AccountId) (state_after ended) = Some 300 ∧
  security_deposit 0 (1 : AccountId) s = None ∧
  (λ db, (dlookup (SecurityDeposits db) 0 1, totalSecurityDeposits <$> Roscas db !! 0)) <$>
    index (events_of claimed) empty_database = Some (Some 500, Some 500).
Proof. split_and!; match goal with |- _ = ?y => vm_cast_no_check (eq_refl y) end. Qed.
