(* ===== verification/Weights.v ===== *)
(** Weights: the type of [sp_weights], which the runtime uses but does not define, as
    an interface with its documented behaviour; the weight constants of
    [runtime/src/constants.rs] and [runtime/src/weights/]; and the rules by which the
    weight functions are bounded. *)

From S2P Require Import Prelude.

(** * The interface of [sp_weights]

    [Weight], [RuntimeDbWeight::reads] and [RuntimeDbWeight::writes], and the unit
    constants of [frame_support::weights::constants] and of the relay chain. *)

(** [RuntimeDbWeight], as its fields are set in [rocksdb_weights.rs]. *)
Record RuntimeDbWeight : Type := mkRuntimeDbWeight { read : Z; write : Z }.

Class SpWeights : Type := {
  Weight : Type;
  from_parts : Z → Z → Weight;
  ref_time : Weight → Z;
  proof_size : Weight → Z;
  weight_add : Weight → Weight → Weight;
  weight_mul : Weight → Z → Weight;
  db_reads : RuntimeDbWeight → Z → Weight;
  db_writes : RuntimeDbWeight → Z → Weight;
  WEIGHT_REF_TIME_PER_SECOND : Z;
  WEIGHT_REF_TIME_PER_NANOS : Z;
  MAX_POV_SIZE : Z;
}.

(** [Weight] is a pair of [u64]s with saturating arithmetic; a database operation
    costs reference time only; a second is [10^12] picoseconds. *)
Class SpWeightsLaws (W : SpWeights) : Prop := {
  ref_time_from_parts t p : ref_time (from_parts t p) = t;
  proof_size_from_parts t p : proof_size (from_parts t p) = p;
  ref_time_add x y : ref_time (weight_add x y) = saturating_add u64_MAX (ref_time x) (ref_time y);
  proof_size_add x y : proof_size (weight_add x y) = saturating_add u64_MAX (proof_size x) (proof_size y);
  ref_time_mul x n : ref_time (weight_mul x n) = saturating_mul u64_MAX (ref_time x) n;
  proof_size_mul x n : proof_size (weight_mul x n) = saturating_mul u64_MAX (proof_size x) n;
  ref_time_reads d n : ref_time (db_reads d n) = saturating_mul u64_MAX (read d) n;
  proof_size_reads d n : proof_size (db_reads d n) = 0;
  ref_time_writes d n : ref_time (db_writes d n) = saturating_mul u64_MAX (write d) n;
  proof_size_writes d n : proof_size (db_writes d n) = 0;
  ref_time_per_second : WEIGHT_REF_TIME_PER_SECOND = 1000000000000;
  ref_time_per_nanos : WEIGHT_REF_TIME_PER_NANOS = 1000;
  max_pov_size : MAX_POV_SIZE = 5 * 1024 * 1024;
}.

Declare Scope weight_scope.
Delimit Scope weight_scope with weight.
Infix "⊕" := weight_add (at level 50, left associativity) : weight_scope.
Infix "⊗" := weight_mul (at level 40, left associativity) : weight_scope.

Section weights.
Context {W : SpWeights}.

(** [MAXIMUM_BLOCK_WEIGHT]. *)
Definition MAXIMUM_BLOCK_WEIGHT : Weight :=
  from_parts (saturating_mul u64_MAX WEIGHT_REF_TIME_PER_SECOND 2) MAX_POV_SIZE.

(** [BlockExecutionWeight] and [ExtrinsicBaseWeight]. *)
Definition BlockExecutionWeight : Weight :=
  from_parts (saturating_mul u64_MAX WEIGHT_REF_TIME_PER_NANOS 5000000) 0.
Definition ExtrinsicBaseWeight : Weight :=
  from_parts (saturating_mul u64_MAX WEIGHT_REF_TIME_PER_NANOS 125000) 0.

(** [RocksDbWeight], the [DbWeight] of the runtime, and [ParityDbWeight]. *)
Definition RocksDbWeight : RuntimeDbWeight :=
  mkRuntimeDbWeight (25000 * WEIGHT_REF_TIME_PER_NANOS) (100000 * WEIGHT_REF_TIME_PER_NANOS).
Definition ParityDbWeight : RuntimeDbWeight :=
  mkRuntimeDbWeight (8000 * WEIGHT_REF_TIME_PER_NANOS) (50000 * WEIGHT_REF_TIME_PER_NANOS).

(** * Weight functions

    A function of a [WeightInfo] has up to three components; with each comes the
    upper end of the range it was benchmarked on. *)
Inductive weight_fn : Type :=
  | W0 (w : Weight)
  | W1 (hi : Z) (f : Z → Weight)
  | W2 (hi1 hi2 : Z) (f : Z → Z → Weight)
  | W3 (hi1 hi2 hi3 : Z) (f : Z → Z → Z → Weight).

(** [w] is at most [t] reference time and [p] proof size. *)
Definition within (w : Weight) (t p : Z) : Prop := ref_time w ≤ t ∧ proof_size w ≤ p.

(** On its whole range, the function stays within a block. *)
Definition fits_block (f : weight_fn) : Prop :=
  let fits w := within w (ref_time MAXIMUM_BLOCK_WEIGHT) (proof_size MAXIMUM_BLOCK_WEIGHT) in
  match f with
  | W0 w => fits w
  | W1 hi f => ∀ a, 0 ≤ a ≤ hi → fits (f a)
  | W2 hi1 hi2 f => ∀ a b, 0 ≤ a ≤ hi1 → 0 ≤ b ≤ hi2 → fits (f a b)
  | W3 hi1 hi2 hi3 f => ∀ a b c, 0 ≤ a ≤ hi1 → 0 ≤ b ≤ hi2 → 0 ≤ c ≤ hi3 → fits (f a b c)
  end.

Context {L : SpWeightsLaws W}.

Lemma within_parts t p : within (from_parts t p) t p.
Proof. unfold within. by rewrite ref_time_from_parts, proof_size_from_parts. Qed.

Lemma within_add x y t p t' p' :
  within x t p → within y t' p' → within (weight_add x y) (t + t') (p + p').
Proof.
  unfold within. rewrite ref_time_add, proof_size_add. unfold saturating_add. lia.
Qed.

Lemma within_mul t p n hi :
  0 ≤ t → 0 ≤ p → 0 ≤ n ≤ hi → within (weight_mul (from_parts t p) n) (t * hi) (p * hi).
Proof.
  intros. unfold within.
  rewrite ref_time_mul, proof_size_mul, ref_time_from_parts, proof_size_from_parts. unfold saturating_mul. nia.
Qed.

Lemma within_reads n hi : 0 ≤ n ≤ hi → within (db_reads RocksDbWeight n) (25000000 * hi) 0.
Proof.
  intros. unfold within. rewrite ref_time_reads, proof_size_reads. cbn. rewrite ref_time_per_nanos.
  unfold saturating_mul. lia.
Qed.
Lemma within_writes n hi : 0 ≤ n ≤ hi → within (db_writes RocksDbWeight n) (100000000 * hi) 0.
Proof.
  intros. unfold within. rewrite ref_time_writes, proof_size_writes. cbn. rewrite ref_time_per_nanos.
  unfold saturating_mul. lia.
Qed.

(** A number of database operations that grows with a component. *)
Lemma scaled_in k n hi : 0 ≤ k → 0 ≤ n ≤ hi → 0 ≤ saturating_mul u64_MAX k n ≤ k * hi.
Proof. intros. unfold saturating_mul, u64_MAX. nia. Qed.

Lemma within_block w t p :
  within w t p → t ≤ 2000000000000 → p ≤ 5242880 →
  within w (ref_time MAXIMUM_BLOCK_WEIGHT) (proof_size MAXIMUM_BLOCK_WEIGHT).
Proof.
  unfold within, MAXIMUM_BLOCK_WEIGHT. rewrite ref_time_from_parts, proof_size_from_parts.
  rewrite ref_time_per_second, max_pov_size. intros [? ?] ? ?. split; [|lia].
  change (saturating_mul u64_MAX 1000000000000 2) with 2000000000000. lia.
Qed.
End weights.

(** A concrete [Weight]: pairs of integers. *)
#[export] Instance SampleWeights : SpWeights := {|
  Weight := Z * Z;
  from_parts := pair;
  ref_time := fst;
  proof_size := snd;
  weight_add x y := (saturating_add u64_MAX x.1 y.1, saturating_add u64_MAX x.2 y.2);
  weight_mul x n := (saturating_mul u64_MAX x.1 n, saturating_mul u64_MAX x.2 n);
  db_reads d n := (saturating_mul u64_MAX (read d) n, 0);
  db_writes d n := (saturating_mul u64_MAX (write d) n, 0);
  WEIGHT_REF_TIME_PER_SECOND := 1000000000000;
  WEIGHT_REF_TIME_PER_NANOS := 1000;
  MAX_POV_SIZE := 5 * 1024 * 1024;
|}.
#[export] Instance SampleWeights_laws : SpWeightsLaws SampleWeights.
Proof. by split. Qed.

(** Bound a weight function on its range. *)
Ltac bound_weight :=
  lazymatch goal with
  | |- within (weight_add _ _) _ _ => eapply within_add; [bound_weight | bound_weight]
  | |- within (weight_mul _ _) _ _ => eapply within_mul; [done | done | eassumption]
  | |- within (from_parts _ _) _ _ => apply within_parts
  | |- within (db_reads _ (saturating_mul _ _ _)) _ _ =>
    eapply within_reads, scaled_in; [done | eassumption]
  | |- within (db_writes _ (saturating_mul _ _ _)) _ _ =>
    eapply within_writes, scaled_in; [done | eassumption]
  | |- within (db_reads _ ?n) _ _ => apply (within_reads n n); lia
  | |- within (db_writes _ ?n) _ _ => apply (within_writes n n); lia
  end.
Ltac head_of t := lazymatch t with ?f _ => head_of f | _ => t end.
Ltac bound_fn :=
  lazymatch goal with |- fits_block ?f => let f' := eval hnf in f in change (fits_block f') end;
  cbv beta delta [fits_block] iota zeta; intros;
  lazymatch goal with |- within ?w _ _ => let h := head_of w in unfold h end;
  eapply within_block; [bound_weight | by vm_compute | by vm_compute].
Ltac bound_table :=
  lazymatch goal with |- Forall _ ?t => let h := head_of t in unfold h end;
  repeat (apply Forall_cons; split; [bound_fn|]); apply Forall_nil; exact I.
