(* ===== verification/WeightsMonetary.v ===== *)
(** The weight functions of the monetary pallets: assets, balances and treasury, as generated in
    [runtime/src/weights/]: one definition per function of each [WeightInfo], over the
    database weight [DbWeight] of the runtime. *)

From S2P Require Import Prelude Weights.

Section weights.
Context {W : SpWeights} (DbWeight : RuntimeDbWeight).
Open Scope weight_scope.

(** * [pallet_assets.rs] *)
Definition pallet_assets_create : Weight :=
  from_parts 32453000 0 ⊕ from_parts 0 3675 ⊕ db_reads DbWeight 2 ⊕ db_writes DbWeight 2.
Definition pallet_assets_force_create : Weight :=
  from_parts 11986000 0 ⊕ from_parts 0 3675 ⊕ db_reads DbWeight 1 ⊕ db_writes DbWeight 1.
Definition pallet_assets_start_destroy : Weight :=
  from_parts 14640000 0 ⊕ from_parts 0 3675 ⊕ db_reads DbWeight 1 ⊕ db_writes DbWeight 1.
Definition pallet_assets_destroy_accounts (c : Z) : Weight :=
  from_parts 18724000 0 ⊕ from_parts 0 3675 ⊕ from_parts 15491076 0 ⊗ c ⊕ db_reads DbWeight 2
  ⊕ db_reads DbWeight (saturating_mul u64_MAX 2 c) ⊕ db_writes DbWeight 1
  ⊕ db_writes DbWeight (saturating_mul u64_MAX 2 c) ⊕ from_parts 0 2609 ⊗ c.
Definition pallet_assets_destroy_approvals (a : Z) : Weight :=
  from_parts 19817000 0 ⊕ from_parts 0 3675 ⊕ from_parts 18109816 0 ⊗ a ⊕ db_reads DbWeight 2
  ⊕ db_reads DbWeight (saturating_mul u64_MAX 1 a) ⊕ db_writes DbWeight 1
  ⊕ db_writes DbWeight (saturating_mul u64_MAX 1 a) ⊕ from_parts 0 2623 ⊗ a.
Definition pallet_assets_finish_destroy : Weight :=
  from_parts 16106000 0 ⊕ from_parts 0 3675 ⊕ db_reads DbWeight 2 ⊕ db_writes DbWeight 1.
Definition pallet_assets_mint : Weight :=
  from_parts 28883000 0 ⊕ from_parts 0 3675 ⊕ db_reads DbWeight 2 ⊕ db_writes DbWeight 2.
Definition pallet_assets_burn : Weight :=
  from_parts 38547000 0 ⊕ from_parts 0 3675 ⊕ db_reads DbWeight 2 ⊕ db_writes DbWeight 2.
Definition pallet_assets_transfer : Weight :=
  from_parts 54023000 0 ⊕ from_parts 0 6208 ⊕ db_reads DbWeight 4 ⊕ db_writes DbWeight 4.
Definition pallet_assets_transfer_keep_alive : Weight :=
  from_parts 48133000 0 ⊕ from_parts 0 6208 ⊕ db_reads DbWeight 4 ⊕ db_writes DbWeight 4.
Definition pallet_assets_force_transfer : Weight :=
  from_parts 53975000 0 ⊕ from_parts 0 6208 ⊕ db_reads DbWeight 4 ⊕ db_writes DbWeight 4.
Definition pallet_assets_freeze : Weight :=
  from_parts 19547000 0 ⊕ from_parts 0 3675 ⊕ db_reads DbWeight 2 ⊕ db_writes DbWeight 1.
Definition pallet_assets_thaw : Weight :=
  from_parts 19447000 0 ⊕ from_parts 0 3675 ⊕ db_reads DbWeight 2 ⊕ db_writes DbWeight 1.
Definition pallet_assets_freeze_asset : Weight :=
  from_parts 14463000 0 ⊕ from_parts 0 3675 ⊕ db_reads DbWeight 1 ⊕ db_writes DbWeight 1.
Definition pallet_assets_thaw_asset : Weight :=
  from_parts 14506000 0 ⊕ from_parts 0 3675 ⊕ db_reads DbWeight 1 ⊕ db_writes DbWeight 1.
Definition pallet_assets_transfer_ownership : Weight :=
  from_parts 16644000 0 ⊕ from_parts 0 3675 ⊕ db_reads DbWeight 2 ⊕ db_writes DbWeight 1.
Definition pallet_assets_set_team : Weight :=
  from_parts 14408000 0 ⊕ from_parts 0 3675 ⊕ db_reads DbWeight 1 ⊕ db_writes DbWeight 1.
Definition pallet_assets_set_metadata (n s : Z) : Weight :=
  from_parts 34411513 0 ⊕ from_parts 0 3675 ⊕ from_parts 2693 0 ⊗ n ⊕ from_parts 1850 0 ⊗ s
  ⊕ db_reads DbWeight 2 ⊕ db_writes DbWeight 1.
Definition pallet_assets_clear_metadata : Weight :=
  from_parts 34436000 0 ⊕ from_parts 0 3675 ⊕ db_reads DbWeight 2 ⊕ db_writes DbWeight 1.
Definition pallet_assets_force_set_metadata (n s : Z) : Weight :=
  from_parts 14763895 0 ⊕ from_parts 0 3675 ⊕ from_parts 244 0 ⊗ n ⊕ from_parts 1085 0 ⊗ s
  ⊕ db_reads DbWeight 2 ⊕ db_writes DbWeight 1.
Definition pallet_assets_force_clear_metadata : Weight :=
  from_parts 33984000 0 ⊕ from_parts 0 3675 ⊕ db_reads DbWeight 2 ⊕ db_writes DbWeight 1.
Definition pallet_assets_force_asset_status : Weight :=
  from_parts 13714000 0 ⊕ from_parts 0 3675 ⊕ db_reads DbWeight 1 ⊕ db_writes DbWeight 1.
Definition pallet_assets_approve_transfer : Weight :=
  from_parts 39281000 0 ⊕ from_parts 0 3675 ⊕ db_reads DbWeight 2 ⊕ db_writes DbWeight 2.
Definition pallet_assets_transfer_approved : Weight :=
  from_parts 80296000 0 ⊕ from_parts 0 6208 ⊕ db_reads DbWeight 5 ⊕ db_writes DbWeight 5.
Definition pallet_assets_cancel_approval : Weight :=
  from_parts 41771000 0 ⊕ from_parts 0 3675 ⊕ db_reads DbWeight 2 ⊕ db_writes DbWeight 2.
Definition pallet_assets_force_cancel_approval : Weight :=
  from_parts 41870000 0 ⊕ from_parts 0 3675 ⊕ db_reads DbWeight 2 ⊕ db_writes DbWeight 2.
Definition pallet_assets_set_min_balance : Weight :=
  from_parts 15393000 0 ⊕ from_parts 0 3675 ⊕ db_reads DbWeight 1 ⊕ db_writes DbWeight 1.
Definition pallet_assets_touch : Weight :=
  from_parts 40258000 0 ⊕ from_parts 0 3675 ⊕ db_reads DbWeight 3 ⊕ db_writes DbWeight 3.
Definition pallet_assets_touch_other : Weight :=
  from_parts 38015000 0 ⊕ from_parts 0 3675 ⊕ db_reads DbWeight 2 ⊕ db_writes DbWeight 2.
Definition pallet_assets_refund : Weight :=
  from_parts 38449000 0 ⊕ from_parts 0 3675 ⊕ db_reads DbWeight 3 ⊕ db_writes DbWeight 3.
Definition pallet_assets_refund_other : Weight :=
  from_parts 36470000 0 ⊕ from_parts 0 3675 ⊕ db_reads DbWeight 2 ⊕ db_writes DbWeight 2.
Definition pallet_assets_block : Weight :=
  from_parts 19427000 0 ⊕ from_parts 0 3675 ⊕ db_reads DbWeight 2 ⊕ db_writes DbWeight 1.
Definition pallet_assets_weights : list weight_fn :=
  [W0 pallet_assets_create;
   W0 pallet_assets_force_create;
   W0 pallet_assets_start_destroy;
   W1 1000 pallet_assets_destroy_accounts;
   W1 1000 pallet_assets_destroy_approvals;
   W0 pallet_assets_finish_destroy;
   W0 pallet_assets_mint;
   W0 pallet_assets_burn;
   W0 pallet_assets_transfer;
   W0 pallet_assets_transfer_keep_alive;
   W0 pallet_assets_force_transfer;
   W0 pallet_assets_freeze;
   W0 pallet_assets_thaw;
   W0 pallet_assets_freeze_asset;
   W0 pallet_assets_thaw_asset;
   W0 pallet_assets_transfer_ownership;
   W0 pallet_assets_set_team;
   W2 50 50 pallet_assets_set_metadata;
   W0 pallet_assets_clear_metadata;
   W2 50 50 pallet_assets_force_set_metadata;
   W0 pallet_assets_force_clear_metadata;
   W0 pallet_assets_force_asset_status;
   W0 pallet_assets_approve_transfer;
   W0 pallet_assets_transfer_approved;
   W0 pallet_assets_cancel_approval;
   W0 pallet_assets_force_cancel_approval;
   W0 pallet_assets_set_min_balance;
   W0 pallet_assets_touch;
   W0 pallet_assets_touch_other;
   W0 pallet_assets_refund;
   W0 pallet_assets_refund_other;
   W0 pallet_assets_block].

(** * [pallet_balances.rs] *)
Definition pallet_balances_transfer_allow_death : Weight :=
  from_parts 63689000 0 ⊕ from_parts 0 3593 ⊕ db_reads DbWeight 1 ⊕ db_writes DbWeight 1.
Definition pallet_balances_transfer_keep_alive : Weight :=
  from_parts 50316000 0 ⊕ from_parts 0 3593 ⊕ db_reads DbWeight 1 ⊕ db_writes DbWeight 1.
Definition pallet_balances_force_set_balance_creating : Weight :=
  from_parts 19224000 0 ⊕ from_parts 0 3593 ⊕ db_reads DbWeight 1 ⊕ db_writes DbWeight 1.
Definition pallet_balances_force_set_balance_killing : Weight :=
  from_parts 26321000 0 ⊕ from_parts 0 3593 ⊕ db_reads DbWeight 1 ⊕ db_writes DbWeight 1.
Definition pallet_balances_force_transfer : Weight :=
  from_parts 65694000 0 ⊕ from_parts 0 6196 ⊕ db_reads DbWeight 2 ⊕ db_writes DbWeight 2.
Definition pallet_balances_transfer_all : Weight :=
  from_parts 63009000 0 ⊕ from_parts 0 3593 ⊕ db_reads DbWeight 1 ⊕ db_writes DbWeight 1.
Definition pallet_balances_force_unreserve : Weight :=
  from_parts 23398000 0 ⊕ from_parts 0 3593 ⊕ db_reads DbWeight 1 ⊕ db_writes DbWeight 1.
Definition pallet_balances_upgrade_accounts (u : Z) : Weight :=
  from_parts 21265000 0 ⊕ from_parts 0 990 ⊕ from_parts 17574363 0 ⊗ u
  ⊕ db_reads DbWeight (saturating_mul u64_MAX 1 u)
  ⊕ db_writes DbWeight (saturating_mul u64_MAX 1 u) ⊕ from_parts 0 2603 ⊗ u.
Definition pallet_balances_force_adjust_total_issuance : Weight :=
  from_parts 8071000 0 ⊕ from_parts 0 0.
Definition pallet_balances_weights : list weight_fn :=
  [W0 pallet_balances_transfer_allow_death;
   W0 pallet_balances_transfer_keep_alive;
   W0 pallet_balances_force_set_balance_creating;
   W0 pallet_balances_force_set_balance_killing;
   W0 pallet_balances_force_transfer;
   W0 pallet_balances_transfer_all;
   W0 pallet_balances_force_unreserve;
   W1 1000 pallet_balances_upgrade_accounts;
   W0 pallet_balances_force_adjust_total_issuance].

(** * [pallet_treasury.rs] *)
Definition pallet_treasury_spend_local : Weight :=
  from_parts 14006000 0 ⊕ from_parts 0 1887 ⊕ db_reads DbWeight 2 ⊕ db_writes DbWeight 3.
Definition pallet_treasury_propose_spend : Weight :=
  from_parts 30762000 0 ⊕ from_parts 0 1489 ⊕ db_reads DbWeight 1 ⊕ db_writes DbWeight 2.
Definition pallet_treasury_reject_proposal : Weight :=
  from_parts 47536000 0 ⊕ from_parts 0 6196 ⊕ db_reads DbWeight 3 ⊕ db_writes DbWeight 3.
Definition pallet_treasury_approve_proposal (p : Z) : Weight :=
  from_parts 13272306 0 ⊕ from_parts 0 3573 ⊕ from_parts 104034 0 ⊗ p ⊕ db_reads DbWeight 2
  ⊕ db_writes DbWeight 1.
Definition pallet_treasury_remove_approval : Weight :=
  from_parts 7250000 0 ⊕ from_parts 0 1887 ⊕ db_reads DbWeight 1 ⊕ db_writes DbWeight 1.
Definition pallet_treasury_on_initialize_proposals (p : Z) : Weight :=
  from_parts 178002629 0 ⊕ from_parts 0 22019 ⊕ from_parts 4022516 0 ⊗ p ⊕ db_reads DbWeight 10
  ⊕ db_reads DbWeight (saturating_mul u64_MAX 1 p) ⊕ db_writes DbWeight 14
  ⊕ from_parts 0 2583 ⊗ p.
Definition pallet_treasury_spend : Weight :=
  from_parts 16698000 0 ⊕ from_parts 0 1489 ⊕ db_reads DbWeight 1 ⊕ db_writes DbWeight 2.
Definition pallet_treasury_payout : Weight :=
  from_parts 62416000 0 ⊕ from_parts 0 5318 ⊕ db_reads DbWeight 6 ⊕ db_writes DbWeight 5.
Definition pallet_treasury_check_status : Weight :=
  from_parts 28882000 0 ⊕ from_parts 0 5318 ⊕ db_reads DbWeight 2 ⊕ db_writes DbWeight 2.
Definition pallet_treasury_void_spend : Weight :=
  from_parts 16801000 0 ⊕ from_parts 0 5318 ⊕ db_reads DbWeight 1 ⊕ db_writes DbWeight 1.
Definition pallet_treasury_weights : list weight_fn :=
  [W0 pallet_treasury_spend_local;
   W0 pallet_treasury_propose_spend;
   W0 pallet_treasury_reject_proposal;
   W1 99 pallet_treasury_approve_proposal;
   W0 pallet_treasury_remove_approval;
   W1 99 pallet_treasury_on_initialize_proposals;
   W0 pallet_treasury_spend;
   W0 pallet_treasury_payout;
   W0 pallet_treasury_check_status;
   W0 pallet_treasury_void_spend].

(** All of them, with the ranges of their components. *)
Definition monetary_weights : list weight_fn :=
  pallet_assets_weights ++
  pallet_balances_weights ++
  pallet_treasury_weights.
End weights.

Section bounds.
Context {W : SpWeights} {L : SpWeightsLaws W}.

Lemma pallet_assets_weights_fit : Forall fits_block (pallet_assets_weights RocksDbWeight).
Proof. bound_table. Qed.
Lemma pallet_balances_weights_fit : Forall fits_block (pallet_balances_weights RocksDbWeight).
Proof. bound_table. Qed.
Lemma pallet_treasury_weights_fit : Forall fits_block (pallet_treasury_weights RocksDbWeight).
Proof. bound_table. Qed.

(** On the whole range of its components, every weight function of
    the monetary pallets: assets, balances and treasury
    stays within the maximal weight of a block, in reference time and in proof size. *)
Lemma monetary_weights_fit : Forall fits_block (monetary_weights RocksDbWeight).
Proof.
  unfold monetary_weights. rewrite !Forall_app. split_and!;
    auto using pallet_assets_weights_fit, pallet_balances_weights_fit, pallet_treasury_weights_fit.
Qed.
End bounds.
