(* ===== verification/WeightsGovernance.v ===== *)
(** The weight functions of the governance and collator pallets: conviction voting, referenda, whitelist, sudo and collator selection, as generated in
    [runtime/src/weights/]: one definition per function of each [WeightInfo], over the
    database weight [DbWeight] of the runtime. *)

From S2P Require Import Prelude Weights.

Section weights.
Context {W : SpWeights} (DbWeight : RuntimeDbWeight).
Open Scope weight_scope.

(** * [pallet_conviction_voting.rs] *)
Definition pallet_conviction_voting_vote_new : Weight :=
  from_parts 155224000 0 ⊕ from_parts 0 42428 ⊕ db_reads DbWeight 6 ⊕ db_writes DbWeight 5.
Definition pallet_conviction_voting_vote_existing : Weight :=
  from_parts 206170000 0 ⊕ from_parts 0 83866 ⊕ db_reads DbWeight 7 ⊕ db_writes DbWeight 7.
Definition pallet_conviction_voting_remove_vote : Weight :=
  from_parts 167086000 0 ⊕ from_parts 0 83866 ⊕ db_reads DbWeight 4 ⊕ db_writes DbWeight 5.
Definition pallet_conviction_voting_remove_other_vote : Weight :=
  from_parts 93476000 0 ⊕ from_parts 0 30706 ⊕ db_reads DbWeight 2 ⊕ db_writes DbWeight 1.
Definition pallet_conviction_voting_delegate (r : Z) : Weight :=
  from_parts 1127926732 0 ⊕ from_parts 0 83866 ⊕ from_parts 26345520 0 ⊗ r ⊕ db_reads DbWeight 7
  ⊕ db_reads DbWeight (saturating_mul u64_MAX 1 r) ⊕ db_writes DbWeight 45
  ⊕ db_writes DbWeight (saturating_mul u64_MAX 1 r) ⊕ from_parts 0 3411 ⊗ r.
Definition pallet_conviction_voting_undelegate (r : Z) : Weight :=
  from_parts 1108378747 0 ⊕ from_parts 0 83866 ⊕ from_parts 26011311 0 ⊗ r ⊕ db_reads DbWeight 4
  ⊕ db_reads DbWeight (saturating_mul u64_MAX 1 r) ⊕ db_writes DbWeight 43
  ⊕ db_writes DbWeight (saturating_mul u64_MAX 1 r) ⊕ from_parts 0 3411 ⊗ r.
Definition pallet_conviction_voting_unlock : Weight :=
  from_parts 107170000 0 ⊕ from_parts 0 30706 ⊕ db_reads DbWeight 4 ⊕ db_writes DbWeight 3.
Definition pallet_conviction_voting_weights : list weight_fn :=
  [W0 pallet_conviction_voting_vote_new;
   W0 pallet_conviction_voting_vote_existing;
   W0 pallet_conviction_voting_remove_vote;
   W0 pallet_conviction_voting_remove_other_vote;
   W1 512 pallet_conviction_voting_delegate;
   W1 512 pallet_conviction_voting_undelegate;
   W0 pallet_conviction_voting_unlock].

(** * [pallet_referenda.rs] *)
Definition pallet_referenda_submit : Weight :=
  from_parts 43579000 0 ⊕ from_parts 0 42428 ⊕ db_reads DbWeight 2 ⊕ db_writes DbWeight 3.
Definition pallet_referenda_place_decision_deposit_preparing : Weight :=
  from_parts 56959000 0 ⊕ from_parts 0 83866 ⊕ db_reads DbWeight 3 ⊕ db_writes DbWeight 4.
Definition pallet_referenda_place_decision_deposit_queued : Weight :=
  from_parts 67198000 0 ⊕ from_parts 0 42428 ⊕ db_reads DbWeight 4 ⊕ db_writes DbWeight 4.
Definition pallet_referenda_place_decision_deposit_not_queued : Weight :=
  from_parts 66951000 0 ⊕ from_parts 0 42428 ⊕ db_reads DbWeight 4 ⊕ db_writes DbWeight 4.
Definition pallet_referenda_place_decision_deposit_passing : Weight :=
  from_parts 68725000 0 ⊕ from_parts 0 83866 ⊕ db_reads DbWeight 4 ⊕ db_writes DbWeight 5.
Definition pallet_referenda_place_decision_deposit_failing : Weight :=
  from_parts 65950000 0 ⊕ from_parts 0 83866 ⊕ db_reads DbWeight 4 ⊕ db_writes DbWeight 5.
Definition pallet_referenda_refund_decision_deposit : Weight :=
  from_parts 35081000 0 ⊕ from_parts 0 4401 ⊕ db_reads DbWeight 1 ⊕ db_writes DbWeight 1.
Definition pallet_referenda_refund_submission_deposit : Weight :=
  from_parts 35148000 0 ⊕ from_parts 0 4401 ⊕ db_reads DbWeight 1 ⊕ db_writes DbWeight 1.
Definition pallet_referenda_cancel : Weight :=
  from_parts 40836000 0 ⊕ from_parts 0 83866 ⊕ db_reads DbWeight 3 ⊕ db_writes DbWeight 4.
Definition pallet_referenda_kill : Weight :=
  from_parts 113294000 0 ⊕ from_parts 0 83866 ⊕ db_reads DbWeight 5 ⊕ db_writes DbWeight 5.
Definition pallet_referenda_one_fewer_deciding_queue_empty : Weight :=
  from_parts 12486000 0 ⊕ from_parts 0 3876 ⊕ db_reads DbWeight 2 ⊕ db_writes DbWeight 1.
Definition pallet_referenda_one_fewer_deciding_failing : Weight :=
  from_parts 43769000 0 ⊕ from_parts 0 42428 ⊕ db_reads DbWeight 3 ⊕ db_writes DbWeight 3.
Definition pallet_referenda_one_fewer_deciding_passing : Weight :=
  from_parts 47437000 0 ⊕ from_parts 0 42428 ⊕ db_reads DbWeight 3 ⊕ db_writes DbWeight 3.
Definition pallet_referenda_nudge_referendum_requeued_insertion : Weight :=
  from_parts 20904000 0 ⊕ from_parts 0 4401 ⊕ db_reads DbWeight 2 ⊕ db_writes DbWeight 1.
Definition pallet_referenda_nudge_referendum_requeued_slide : Weight :=
  from_parts 20957000 0 ⊕ from_parts 0 4401 ⊕ db_reads DbWeight 2 ⊕ db_writes DbWeight 1.
Definition pallet_referenda_nudge_referendum_queued : Weight :=
  from_parts 25591000 0 ⊕ from_parts 0 4401 ⊕ db_reads DbWeight 3 ⊕ db_writes DbWeight 2.
Definition pallet_referenda_nudge_referendum_not_queued : Weight :=
  from_parts 25679000 0 ⊕ from_parts 0 4401 ⊕ db_reads DbWeight 3 ⊕ db_writes DbWeight 2.
Definition pallet_referenda_nudge_referendum_no_deposit : Weight :=
  from_parts 26312000 0 ⊕ from_parts 0 42428 ⊕ db_reads DbWeight 2 ⊕ db_writes DbWeight 2.
Definition pallet_referenda_nudge_referendum_preparing : Weight :=
  from_parts 26602000 0 ⊕ from_parts 0 42428 ⊕ db_reads DbWeight 2 ⊕ db_writes DbWeight 2.
Definition pallet_referenda_nudge_referendum_timed_out : Weight :=
  from_parts 17610000 0 ⊕ from_parts 0 4401 ⊕ db_reads DbWeight 1 ⊕ db_writes DbWeight 1.
Definition pallet_referenda_nudge_referendum_begin_deciding_failing : Weight :=
  from_parts 36079000 0 ⊕ from_parts 0 42428 ⊕ db_reads DbWeight 3 ⊕ db_writes DbWeight 3.
Definition pallet_referenda_nudge_referendum_begin_deciding_passing : Weight :=
  from_parts 38320000 0 ⊕ from_parts 0 42428 ⊕ db_reads DbWeight 3 ⊕ db_writes DbWeight 3.
Definition pallet_referenda_nudge_referendum_begin_confirming : Weight :=
  from_parts 30546000 0 ⊕ from_parts 0 42428 ⊕ db_reads DbWeight 2 ⊕ db_writes DbWeight 2.
Definition pallet_referenda_nudge_referendum_end_confirming : Weight :=
  from_parts 31145000 0 ⊕ from_parts 0 42428 ⊕ db_reads DbWeight 2 ⊕ db_writes DbWeight 2.
Definition pallet_referenda_nudge_referendum_continue_not_confirming : Weight :=
  from_parts 29546000 0 ⊕ from_parts 0 42428 ⊕ db_reads DbWeight 2 ⊕ db_writes DbWeight 2.
Definition pallet_referenda_nudge_referendum_continue_confirming : Weight :=
  from_parts 28129000 0 ⊕ from_parts 0 42428 ⊕ db_reads DbWeight 2 ⊕ db_writes DbWeight 2.
Definition pallet_referenda_nudge_referendum_approved : Weight :=
  from_parts 43526000 0 ⊕ from_parts 0 83866 ⊕ db_reads DbWeight 4 ⊕ db_writes DbWeight 4.
Definition pallet_referenda_nudge_referendum_rejected : Weight :=
  from_parts 30738000 0 ⊕ from_parts 0 42428 ⊕ db_reads DbWeight 2 ⊕ db_writes DbWeight 2.
Definition pallet_referenda_set_some_metadata : Weight :=
  from_parts 24882000 0 ⊕ from_parts 0 4401 ⊕ db_reads DbWeight 3 ⊕ db_writes DbWeight 1.
Definition pallet_referenda_clear_metadata : Weight :=
  from_parts 20390000 0 ⊕ from_parts 0 4401 ⊕ db_reads DbWeight 2 ⊕ db_writes DbWeight 1.
Definition pallet_referenda_weights : list weight_fn :=
  [W0 pallet_referenda_submit;
   W0 pallet_referenda_place_decision_deposit_preparing;
   W0 pallet_referenda_place_decision_deposit_queued;
   W0 pallet_referenda_place_decision_deposit_not_queued;
   W0 pallet_referenda_place_decision_deposit_passing;
   W0 pallet_referenda_place_decision_deposit_failing;
   W0 pallet_referenda_refund_decision_deposit;
   W0 pallet_referenda_refund_submission_deposit;
   W0 pallet_referenda_cancel;
   W0 pallet_referenda_kill;
   W0 pallet_referenda_one_fewer_deciding_queue_empty;
   W0 pallet_referenda_one_fewer_deciding_failing;
   W0 pallet_referenda_one_fewer_deciding_passing;
   W0 pallet_referenda_nudge_referendum_requeued_insertion;
   W0 pallet_referenda_nudge_referendum_requeued_slide;
   W0 pallet_referenda_nudge_referendum_queued;
   W0 pallet_referenda_nudge_referendum_not_queued;
   W0 pallet_referenda_nudge_referendum_no_deposit;
   W0 pallet_referenda_nudge_referendum_preparing;
   W0 pallet_referenda_nudge_referendum_timed_out;
   W0 pallet_referenda_nudge_referendum_begin_deciding_failing;
   W0 pallet_referenda_nudge_referendum_begin_deciding_passing;
   W0 pallet_referenda_nudge_referendum_begin_confirming;
   W0 pallet_referenda_nudge_referendum_end_confirming;
   W0 pallet_referenda_nudge_referendum_continue_not_confirming;
   W0 pallet_referenda_nudge_referendum_continue_confirming;
   W0 pallet_referenda_nudge_referendum_approved;
   W0 pallet_referenda_nudge_referendum_rejected;
   W0 pallet_referenda_set_some_metadata;
   W0 pallet_referenda_clear_metadata].

(** * [pallet_whitelist.rs] *)
Definition pallet_whitelist_whitelist_call : Weight :=
  from_parts 23718000 0 ⊕ from_parts 0 3556 ⊕ db_reads DbWeight 3 ⊕ db_writes DbWeight 2.
Definition pallet_whitelist_remove_whitelisted_call : Weight :=
  from_parts 21765000 0 ⊕ from_parts 0 3556 ⊕ db_reads DbWeight 3 ⊕ db_writes DbWeight 2.
Definition pallet_whitelist_dispatch_whitelisted_call (n : Z) : Weight :=
  from_parts 35591000 0 ⊕ from_parts 0 3716 ⊕ from_parts 1269 0 ⊗ n ⊕ db_reads DbWeight 4
  ⊕ db_writes DbWeight 3 ⊕ from_parts 0 1 ⊗ n.
Definition pallet_whitelist_dispatch_whitelisted_call_with_preimage (n : Z) : Weight :=
  from_parts 26690528 0 ⊕ from_parts 0 3556 ⊕ from_parts 1443 0 ⊗ n ⊕ db_reads DbWeight 3
  ⊕ db_writes DbWeight 2.
Definition pallet_whitelist_weights : list weight_fn :=
  [W0 pallet_whitelist_whitelist_call;
   W0 pallet_whitelist_remove_whitelisted_call;
   W1 4194294 pallet_whitelist_dispatch_whitelisted_call;
   W1 10000 pallet_whitelist_dispatch_whitelisted_call_with_preimage].

(** * [pallet_sudo.rs] *)
Definition pallet_sudo_set_key : Weight :=
  from_parts 12485000 0 ⊕ from_parts 0 1517 ⊕ db_reads DbWeight 1 ⊕ db_writes DbWeight 1.
Definition pallet_sudo_sudo : Weight :=
  from_parts 13675000 0 ⊕ from_parts 0 1517 ⊕ db_reads DbWeight 1.
Definition pallet_sudo_sudo_as : Weight :=
  from_parts 13871000 0 ⊕ from_parts 0 1517 ⊕ db_reads DbWeight 1.
Definition pallet_sudo_remove_key : Weight :=
  from_parts 11534000 0 ⊕ from_parts 0 1517 ⊕ db_reads DbWeight 1 ⊕ db_writes DbWeight 1.
Definition pallet_sudo_weights : list weight_fn :=
  [W0 pallet_sudo_set_key;
   W0 pallet_sudo_sudo;
   W0 pallet_sudo_sudo_as;
   W0 pallet_sudo_remove_key].

(** * [pallet_collator_selection.rs] *)
Definition pallet_collator_selection_set_invulnerables (b : Z) : Weight :=
  from_parts 11867268 0 ⊕ from_parts 0 1188 ⊕ from_parts 4019723 0 ⊗ b
  ⊕ db_reads DbWeight (saturating_mul u64_MAX 1 b) ⊕ db_writes DbWeight 1
  ⊕ from_parts 0 2555 ⊗ b.
Definition pallet_collator_selection_add_invulnerable (b c : Z) : Weight :=
  from_parts 50154893 0 ⊕ from_parts 0 6287 ⊕ from_parts 223716 0 ⊗ b ⊕ from_parts 161903 0 ⊗ c
  ⊕ db_reads DbWeight 4 ⊕ db_writes DbWeight 3 ⊕ from_parts 0 37 ⊗ b ⊕ from_parts 0 53 ⊗ c.
Definition pallet_collator_selection_remove_invulnerable (b : Z) : Weight :=
  from_parts 14433354 0 ⊕ from_parts 0 6287 ⊕ from_parts 227542 0 ⊗ b ⊕ db_reads DbWeight 2
  ⊕ db_writes DbWeight 1.
Definition pallet_collator_selection_set_desired_candidates : Weight :=
  from_parts 6895000 0 ⊕ from_parts 0 0 ⊕ db_writes DbWeight 1.
Definition pallet_collator_selection_set_candidacy_bond (c k : Z) : Weight :=
  from_parts 12928000 0 ⊕ from_parts 0 6287 ⊕ from_parts 7131904 0 ⊗ c
  ⊕ from_parts 6851552 0 ⊗ k ⊕ db_reads DbWeight 2 ⊕ db_writes DbWeight 1
  ⊕ db_writes DbWeight (saturating_mul u64_MAX 1 c)
  ⊕ db_writes DbWeight (saturating_mul u64_MAX 1 k) ⊕ from_parts 0 901 ⊗ c
  ⊕ from_parts 0 901 ⊗ k.
Definition pallet_collator_selection_update_bond (c : Z) : Weight :=
  from_parts 36049393 0 ⊕ from_parts 0 6287 ⊕ from_parts 140976 0 ⊗ c ⊕ db_reads DbWeight 2
  ⊕ db_writes DbWeight 1.
Definition pallet_collator_selection_register_as_candidate (c : Z) : Weight :=
  from_parts 48727747 0 ⊕ from_parts 0 6287 ⊕ from_parts 174129 0 ⊗ c ⊕ db_reads DbWeight 4
  ⊕ db_writes DbWeight 2 ⊕ from_parts 0 54 ⊗ c.
Definition pallet_collator_selection_take_candidate_slot (c : Z) : Weight :=
  from_parts 72958277 0 ⊕ from_parts 0 6287 ⊕ from_parts 190301 0 ⊗ c ⊕ db_reads DbWeight 5
  ⊕ db_writes DbWeight 4 ⊕ from_parts 0 54 ⊗ c.
Definition pallet_collator_selection_leave_intent (c : Z) : Weight :=
  from_parts 42050095 0 ⊕ from_parts 0 6287 ⊕ from_parts 155259 0 ⊗ c ⊕ db_reads DbWeight 2
  ⊕ db_writes DbWeight 2.
Definition pallet_collator_selection_note_author : Weight :=
  from_parts 58126000 0 ⊕ from_parts 0 6196 ⊕ db_reads DbWeight 2 ⊕ db_writes DbWeight 3.
Definition pallet_collator_selection_new_session (r c : Z) : Weight :=
  from_parts 23703000 0 ⊕ from_parts 0 6287 ⊕ from_parts 16132813 0 ⊗ c ⊕ db_reads DbWeight 4
  ⊕ db_reads DbWeight (saturating_mul u64_MAX 1 c)
  ⊕ db_writes DbWeight (saturating_mul u64_MAX 1 c) ⊕ from_parts 0 2519 ⊗ c
  ⊕ from_parts 0 2603 ⊗ r.
Definition pallet_collator_selection_weights : list weight_fn :=
  [W1 20 pallet_collator_selection_set_invulnerables;
   W2 19 99 pallet_collator_selection_add_invulnerable;
   W1 20 pallet_collator_selection_remove_invulnerable;
   W0 pallet_collator_selection_set_desired_candidates;
   W2 100 100 pallet_collator_selection_set_candidacy_bond;
   W1 100 pallet_collator_selection_update_bond;
   W1 99 pallet_collator_selection_register_as_candidate;
   W1 100 pallet_collator_selection_take_candidate_slot;
   W1 100 pallet_collator_selection_leave_intent;
   W0 pallet_collator_selection_note_author;
   W2 100 100 pallet_collator_selection_new_session].

(** All of them, with the ranges of their components. *)
Definition governance_weights : list weight_fn :=
  pallet_conviction_voting_weights ++
  pallet_referenda_weights ++
  pallet_whitelist_weights ++
  pallet_sudo_weights ++
  pallet_collator_selection_weights.
End weights.

Section bounds.
Context {W : SpWeights} {L : SpWeightsLaws W}.

Lemma pallet_conviction_voting_weights_fit : Forall fits_block (pallet_conviction_voting_weights RocksDbWeight).
Proof. bound_table. Qed.
Lemma pallet_referenda_weights_fit : Forall fits_block (pallet_referenda_weights RocksDbWeight).
Proof. bound_table. Qed.
Lemma pallet_whitelist_weights_fit : Forall fits_block (pallet_whitelist_weights RocksDbWeight).
Proof. bound_table. Qed.
Lemma pallet_sudo_weights_fit : Forall fits_block (pallet_sudo_weights RocksDbWeight).
Proof. bound_table. Qed.
Lemma pallet_collator_selection_weights_fit : Forall fits_block (pallet_collator_selection_weights RocksDbWeight).
Proof. bound_table. Qed.

(** On the whole range of its components, every weight function of
    the governance and collator pallets: conviction voting, referenda, whitelist, sudo and collator selection
    stays within the maximal weight of a block, in reference time and in proof size. *)
Lemma governance_weights_fit : Forall fits_block (governance_weights RocksDbWeight).
Proof.
  unfold governance_weights. rewrite !Forall_app. split_and!;
    auto using pallet_conviction_voting_weights_fit, pallet_referenda_weights_fit, pallet_whitelist_weights_fit, pallet_sudo_weights_fit, pallet_collator_selection_weights_fit.
Qed.
End bounds.
