(* ===== verification/WeightsSystem.v ===== *)
(** The weight functions of the system, utility and messaging pallets, as generated in
    [runtime/src/weights/]: one definition per function of each [WeightInfo], over the
    database weight [DbWeight] of the runtime. *)

From S2P Require Import Prelude Weights.

Section weights.
Context {W : SpWeights} (DbWeight : RuntimeDbWeight).
Open Scope weight_scope.

(** * [cumulus_pallet_parachain_system.rs] *)
Definition cumulus_pallet_parachain_system_enqueue_inbound_downward_messages (n : Z) : Weight :=
  from_parts 2802000 0 ⊕ from_parts 0 3517 ⊕ from_parts 192444156 0 ⊗ n ⊕ db_reads DbWeight 3
  ⊕ db_writes DbWeight 4 ⊕ db_writes DbWeight (saturating_mul u64_MAX 1 n).
Definition cumulus_pallet_parachain_system_weights : list weight_fn :=
  [W1 1000 cumulus_pallet_parachain_system_enqueue_inbound_downward_messages].

(** * [cumulus_pallet_xcmp_queue.rs] *)
Definition cumulus_pallet_xcmp_queue_set_config_with_u32 : Weight :=
  from_parts 5950000 0 ⊕ from_parts 0 1561 ⊕ db_reads DbWeight 1 ⊕ db_writes DbWeight 1.
Definition cumulus_pallet_xcmp_queue_enqueue_xcmp_message : Weight :=
  from_parts 16833000 0 ⊕ from_parts 0 3517 ⊕ db_reads DbWeight 4 ⊕ db_writes DbWeight 3.
Definition cumulus_pallet_xcmp_queue_suspend_channel : Weight :=
  from_parts 3443000 0 ⊕ from_parts 0 1561 ⊕ db_reads DbWeight 1 ⊕ db_writes DbWeight 1.
Definition cumulus_pallet_xcmp_queue_resume_channel : Weight :=
  from_parts 4377000 0 ⊕ from_parts 0 1596 ⊕ db_reads DbWeight 1 ⊕ db_writes DbWeight 1.
Definition cumulus_pallet_xcmp_queue_take_first_concatenated_xcm : Weight :=
  from_parts 10188000 0 ⊕ from_parts 0 0.
Definition cumulus_pallet_xcmp_queue_on_idle_good_msg : Weight :=
  from_parts 118206000 0 ⊕ from_parts 0 69176 ⊕ db_reads DbWeight 6 ⊕ db_writes DbWeight 5.
Definition cumulus_pallet_xcmp_queue_on_idle_large_msg : Weight :=
  from_parts 57941000 0 ⊕ from_parts 0 69175 ⊕ db_reads DbWeight 2 ⊕ db_writes DbWeight 2.
Definition cumulus_pallet_xcmp_queue_weights : list weight_fn :=
  [W0 cumulus_pallet_xcmp_queue_set_config_with_u32;
   W0 cumulus_pallet_xcmp_queue_enqueue_xcmp_message;
   W0 cumulus_pallet_xcmp_queue_suspend_channel;
   W0 cumulus_pallet_xcmp_queue_resume_channel;
   W0 cumulus_pallet_xcmp_queue_take_first_concatenated_xcm;
   W0 cumulus_pallet_xcmp_queue_on_idle_good_msg;
   W0 cumulus_pallet_xcmp_queue_on_idle_large_msg].

(** * [pallet_message_queue.rs] *)
Definition pallet_message_queue_ready_ring_knit : Weight :=
  from_parts 15467000 0 ⊕ from_parts 0 6044 ⊕ db_reads DbWeight 3 ⊕ db_writes DbWeight 2.
Definition pallet_message_queue_ready_ring_unknit : Weight :=
  from_parts 13473000 0 ⊕ from_parts 0 6044 ⊕ db_reads DbWeight 3 ⊕ db_writes DbWeight 3.
Definition pallet_message_queue_service_queue_base : Weight :=
  from_parts 4969000 0 ⊕ from_parts 0 3517 ⊕ db_reads DbWeight 1 ⊕ db_writes DbWeight 1.
Definition pallet_message_queue_service_page_base_completion : Weight :=
  from_parts 6947000 0 ⊕ from_parts 0 69050 ⊕ db_reads DbWeight 1 ⊕ db_writes DbWeight 1.
Definition pallet_message_queue_service_page_base_no_completion : Weight :=
  from_parts 7250000 0 ⊕ from_parts 0 69050 ⊕ db_reads DbWeight 1 ⊕ db_writes DbWeight 1.
Definition pallet_message_queue_service_page_item : Weight :=
  from_parts 164945000 0 ⊕ from_parts 0 0 ⊕ db_writes DbWeight 2.
Definition pallet_message_queue_bump_service_head : Weight :=
  from_parts 8642000 0 ⊕ from_parts 0 3517 ⊕ db_reads DbWeight 2 ⊕ db_writes DbWeight 1.
Definition pallet_message_queue_reap_page : Weight :=
  from_parts 60642000 0 ⊕ from_parts 0 69050 ⊕ db_reads DbWeight 2 ⊕ db_writes DbWeight 2.
Definition pallet_message_queue_execute_overweight_page_removed : Weight :=
  from_parts 77378000 0 ⊕ from_parts 0 69050 ⊕ db_reads DbWeight 2 ⊕ db_writes DbWeight 2.
Definition pallet_message_queue_execute_overweight_page_updated : Weight :=
  from_parts 114169000 0 ⊕ from_parts 0 69050 ⊕ db_reads DbWeight 2 ⊕ db_writes DbWeight 2.
Definition pallet_message_queue_weights : list weight_fn :=
  [W0 pallet_message_queue_ready_ring_knit;
   W0 pallet_message_queue_ready_ring_unknit;
   W0 pallet_message_queue_service_queue_base;
   W0 pallet_message_queue_service_page_base_completion;
   W0 pallet_message_queue_service_page_base_no_completion;
   W0 pallet_message_queue_service_page_item;
   W0 pallet_message_queue_bump_service_head;
   W0 pallet_message_queue_reap_page;
   W0 pallet_message_queue_execute_overweight_page_removed;
   W0 pallet_message_queue_execute_overweight_page_updated].

(** * [pallet_multisig.rs] *)
Definition pallet_multisig_as_multi_threshold_1 (z : Z) : Weight :=
  from_parts 16645891 0 ⊕ from_parts 0 0 ⊕ from_parts 544 0 ⊗ z.
Definition pallet_multisig_as_multi_create (s z : Z) : Weight :=
  from_parts 38464817 0 ⊕ from_parts 0 6811 ⊕ from_parts 140476 0 ⊗ s ⊕ from_parts 1484 0 ⊗ z
  ⊕ db_reads DbWeight 1 ⊕ db_writes DbWeight 1.
Definition pallet_multisig_as_multi_approve (s z : Z) : Weight :=
  from_parts 21872775 0 ⊕ from_parts 0 6811 ⊕ from_parts 122423 0 ⊗ s ⊕ from_parts 1436 0 ⊗ z
  ⊕ db_reads DbWeight 1 ⊕ db_writes DbWeight 1.
Definition pallet_multisig_as_multi_complete (s z : Z) : Weight :=
  from_parts 43156157 0 ⊕ from_parts 0 6811 ⊕ from_parts 164099 0 ⊗ s ⊕ from_parts 1524 0 ⊗ z
  ⊕ db_reads DbWeight 2 ⊕ db_writes DbWeight 2.
Definition pallet_multisig_approve_as_multi_create (s : Z) : Weight :=
  from_parts 37094076 0 ⊕ from_parts 0 6811 ⊕ from_parts 146157 0 ⊗ s ⊕ db_reads DbWeight 1
  ⊕ db_writes DbWeight 1.
Definition pallet_multisig_approve_as_multi_approve (s : Z) : Weight :=
  from_parts 20611956 0 ⊕ from_parts 0 6811 ⊕ from_parts 119122 0 ⊗ s ⊕ db_reads DbWeight 1
  ⊕ db_writes DbWeight 1.
Definition pallet_multisig_cancel_as_multi (s : Z) : Weight :=
  from_parts 39254823 0 ⊕ from_parts 0 6811 ⊕ from_parts 131867 0 ⊗ s ⊕ db_reads DbWeight 1
  ⊕ db_writes DbWeight 1.
Definition pallet_multisig_weights : list weight_fn :=
  [W1 10000 pallet_multisig_as_multi_threshold_1;
   W2 100 10000 pallet_multisig_as_multi_create;
   W2 100 10000 pallet_multisig_as_multi_approve;
   W2 100 10000 pallet_multisig_as_multi_complete;
   W1 100 pallet_multisig_approve_as_multi_create;
   W1 100 pallet_multisig_approve_as_multi_approve;
   W1 100 pallet_multisig_cancel_as_multi].

(** * [pallet_preimage.rs] *)
Definition pallet_preimage_note_preimage (s : Z) : Weight :=
  from_parts 62646000 0 ⊕ from_parts 0 3556 ⊕ from_parts 2374 0 ⊗ s ⊕ db_reads DbWeight 3
  ⊕ db_writes DbWeight 3.
Definition pallet_preimage_note_requested_preimage (s : Z) : Weight :=
  from_parts 20867000 0 ⊕ from_parts 0 3556 ⊕ from_parts 2360 0 ⊗ s ⊕ db_reads DbWeight 2
  ⊕ db_writes DbWeight 2.
Definition pallet_preimage_note_no_deposit_preimage (s : Z) : Weight :=
  from_parts 19947000 0 ⊕ from_parts 0 3556 ⊕ from_parts 2353 0 ⊗ s ⊕ db_reads DbWeight 2
  ⊕ db_writes DbWeight 2.
Definition pallet_preimage_unnote_preimage : Weight :=
  from_parts 69449000 0 ⊕ from_parts 0 3556 ⊕ db_reads DbWeight 3 ⊕ db_writes DbWeight 3.
Definition pallet_preimage_unnote_no_deposit_preimage : Weight :=
  from_parts 33647000 0 ⊕ from_parts 0 3556 ⊕ db_reads DbWeight 2 ⊕ db_writes DbWeight 2.
Definition pallet_preimage_request_preimage : Weight :=
  from_parts 25279000 0 ⊕ from_parts 0 3556 ⊕ db_reads DbWeight 2 ⊕ db_writes DbWeight 1.
Definition pallet_preimage_request_no_deposit_preimage : Weight :=
  from_parts 18494000 0 ⊕ from_parts 0 3556 ⊕ db_reads DbWeight 2 ⊕ db_writes DbWeight 1.
Definition pallet_preimage_request_unnoted_preimage : Weight :=
  from_parts 19766000 0 ⊕ from_parts 0 3556 ⊕ db_reads DbWeight 2 ⊕ db_writes DbWeight 1.
Definition pallet_preimage_request_requested_preimage : Weight :=
  from_parts 14469000 0 ⊕ from_parts 0 3556 ⊕ db_reads DbWeight 2 ⊕ db_writes DbWeight 1.
Definition pallet_preimage_unrequest_preimage : Weight :=
  from_parts 32052000 0 ⊕ from_parts 0 3556 ⊕ db_reads DbWeight 2 ⊕ db_writes DbWeight 2.
Definition pallet_preimage_unrequest_unnoted_preimage : Weight :=
  from_parts 14280000 0 ⊕ from_parts 0 3556 ⊕ db_reads DbWeight 2 ⊕ db_writes DbWeight 1.
Definition pallet_preimage_unrequest_multi_referenced_preimage : Weight :=
  from_parts 14347000 0 ⊕ from_parts 0 3556 ⊕ db_reads DbWeight 2 ⊕ db_writes DbWeight 1.
Definition pallet_preimage_ensure_updated (n : Z) : Weight :=
  from_parts 70098000 0 ⊕ from_parts 0 990 ⊕ from_parts 66716432 0 ⊗ n
  ⊕ db_reads DbWeight (saturating_mul u64_MAX 3 n)
  ⊕ db_writes DbWeight (saturating_mul u64_MAX 4 n) ⊕ from_parts 0 2603 ⊗ n.
Definition pallet_preimage_weights : list weight_fn :=
  [W1 4194304 pallet_preimage_note_preimage;
   W1 4194304 pallet_preimage_note_requested_preimage;
   W1 4194304 pallet_preimage_note_no_deposit_preimage;
   W0 pallet_preimage_unnote_preimage;
   W0 pallet_preimage_unnote_no_deposit_preimage;
   W0 pallet_preimage_request_preimage;
   W0 pallet_preimage_request_no_deposit_preimage;
   W0 pallet_preimage_request_unnoted_preimage;
   W0 pallet_preimage_request_requested_preimage;
   W0 pallet_preimage_unrequest_preimage;
   W0 pallet_preimage_unrequest_unnoted_preimage;
   W0 pallet_preimage_unrequest_multi_referenced_preimage;
   W1 1024 pallet_preimage_ensure_updated].

(** * [pallet_proxy.rs] *)
Definition pallet_proxy_proxy (p : Z) : Weight :=
  from_parts 18038537 0 ⊕ from_parts 0 4706 ⊕ from_parts 35785 0 ⊗ p ⊕ db_reads DbWeight 1.
Definition pallet_proxy_proxy_announced (a p : Z) : Weight :=
  from_parts 43422090 0 ⊕ from_parts 0 5698 ⊕ from_parts 180338 0 ⊗ a ⊕ from_parts 37656 0 ⊗ p
  ⊕ db_reads DbWeight 3 ⊕ db_writes DbWeight 2.
Definition pallet_proxy_remove_announcement (a p : Z) : Weight :=
  from_parts 30439765 0 ⊕ from_parts 0 5698 ⊕ from_parts 169490 0 ⊗ a ⊕ from_parts 4933 0 ⊗ p
  ⊕ db_reads DbWeight 2 ⊕ db_writes DbWeight 2.
Definition pallet_proxy_reject_announcement (a p : Z) : Weight :=
  from_parts 30289212 0 ⊕ from_parts 0 5698 ⊕ from_parts 165307 0 ⊗ a ⊕ from_parts 5614 0 ⊗ p
  ⊕ db_reads DbWeight 2 ⊕ db_writes DbWeight 2.
Definition pallet_proxy_announce (a p : Z) : Weight :=
  from_parts 38472822 0 ⊕ from_parts 0 5698 ⊕ from_parts 184426 0 ⊗ a ⊕ from_parts 47260 0 ⊗ p
  ⊕ db_reads DbWeight 3 ⊕ db_writes DbWeight 2.
Definition pallet_proxy_add_proxy (p : Z) : Weight :=
  from_parts 29859941 0 ⊕ from_parts 0 4706 ⊕ from_parts 36055 0 ⊗ p ⊕ db_reads DbWeight 1
  ⊕ db_writes DbWeight 1.
Definition pallet_proxy_remove_proxy (p : Z) : Weight :=
  from_parts 29955778 0 ⊕ from_parts 0 4706 ⊕ from_parts 38034 0 ⊗ p ⊕ db_reads DbWeight 1
  ⊕ db_writes DbWeight 1.
Definition pallet_proxy_remove_proxies (p : Z) : Weight :=
  from_parts 28391098 0 ⊕ from_parts 0 4706 ⊕ from_parts 45877 0 ⊗ p ⊕ db_reads DbWeight 1
  ⊕ db_writes DbWeight 1.
Definition pallet_proxy_create_pure (p : Z) : Weight :=
  from_parts 31705111 0 ⊕ from_parts 0 4706 ⊕ from_parts 10048 0 ⊗ p ⊕ db_reads DbWeight 1
  ⊕ db_writes DbWeight 1.
Definition pallet_proxy_kill_pure (p : Z) : Weight :=
  from_parts 29458879 0 ⊕ from_parts 0 4706 ⊕ from_parts 48887 0 ⊗ p ⊕ db_reads DbWeight 1
  ⊕ db_writes DbWeight 1.
Definition pallet_proxy_weights : list weight_fn :=
  [W1 31 pallet_proxy_proxy;
   W2 31 31 pallet_proxy_proxy_announced;
   W2 31 31 pallet_proxy_remove_announcement;
   W2 31 31 pallet_proxy_reject_announcement;
   W2 31 31 pallet_proxy_announce;
   W1 31 pallet_proxy_add_proxy;
   W1 31 pallet_proxy_remove_proxy;
   W1 31 pallet_proxy_remove_proxies;
   W1 31 pallet_proxy_create_pure;
   W1 30 pallet_proxy_kill_pure].

(** * [pallet_scheduler.rs] *)
Definition pallet_scheduler_service_agendas_base : Weight :=
  from_parts 3445000 0 ⊕ from_parts 0 1489 ⊕ db_reads DbWeight 1 ⊕ db_writes DbWeight 1.
Definition pallet_scheduler_service_agenda_base (s : Z) : Weight :=
  from_parts 8210371 0 ⊕ from_parts 0 42428 ⊕ from_parts 446196 0 ⊗ s ⊕ db_reads DbWeight 1
  ⊕ db_writes DbWeight 1.
Definition pallet_scheduler_service_task_base : Weight :=
  from_parts 4509000 0 ⊕ from_parts 0 0.
Definition pallet_scheduler_service_task_fetched (s : Z) : Weight :=
  from_parts 23279000 0 ⊕ from_parts 0 3644 ⊕ from_parts 1304 0 ⊗ s ⊕ db_reads DbWeight 3
  ⊕ db_writes DbWeight 2 ⊕ from_parts 0 1 ⊗ s.
Definition pallet_scheduler_service_task_named : Weight :=
  from_parts 6795000 0 ⊕ from_parts 0 0 ⊕ db_writes DbWeight 1.
Definition pallet_scheduler_service_task_periodic : Weight :=
  from_parts 4486000 0 ⊕ from_parts 0 0.
Definition pallet_scheduler_execute_dispatch_signed : Weight :=
  from_parts 2983000 0 ⊕ from_parts 0 0.
Definition pallet_scheduler_execute_dispatch_unsigned : Weight :=
  from_parts 3058000 0 ⊕ from_parts 0 0.
Definition pallet_scheduler_schedule (s : Z) : Weight :=
  from_parts 16543350 0 ⊕ from_parts 0 42428 ⊕ from_parts 487975 0 ⊗ s ⊕ db_reads DbWeight 1
  ⊕ db_writes DbWeight 1.
Definition pallet_scheduler_cancel (s : Z) : Weight :=
  from_parts 19979432 0 ⊕ from_parts 0 42428 ⊕ from_parts 749133 0 ⊗ s ⊕ db_reads DbWeight 1
  ⊕ db_writes DbWeight 3.
Definition pallet_scheduler_schedule_named (s : Z) : Weight :=
  from_parts 22109441 0 ⊕ from_parts 0 42428 ⊕ from_parts 523729 0 ⊗ s ⊕ db_reads DbWeight 2
  ⊕ db_writes DbWeight 2.
Definition pallet_scheduler_cancel_named (s : Z) : Weight :=
  from_parts 22880603 0 ⊕ from_parts 0 42428 ⊕ from_parts 764730 0 ⊗ s ⊕ db_reads DbWeight 2
  ⊕ db_writes DbWeight 3.
Definition pallet_scheduler_schedule_retry (s : Z) : Weight :=
  from_parts 12199525 0 ⊕ from_parts 0 42428 ⊕ from_parts 34132 0 ⊗ s ⊕ db_reads DbWeight 1
  ⊕ db_writes DbWeight 2.
Definition pallet_scheduler_set_retry : Weight :=
  from_parts 32988000 0 ⊕ from_parts 0 42428 ⊕ db_reads DbWeight 1 ⊕ db_writes DbWeight 1.
Definition pallet_scheduler_set_retry_named : Weight :=
  from_parts 40026000 0 ⊕ from_parts 0 42428 ⊕ db_reads DbWeight 2 ⊕ db_writes DbWeight 1.
Definition pallet_scheduler_cancel_retry : Weight :=
  from_parts 32155000 0 ⊕ from_parts 0 42428 ⊕ db_reads DbWeight 1 ⊕ db_writes DbWeight 1.
Definition pallet_scheduler_cancel_retry_named : Weight :=
  from_parts 38702000 0 ⊕ from_parts 0 42428 ⊕ db_reads DbWeight 2 ⊕ db_writes DbWeight 1.
Definition pallet_scheduler_weights : list weight_fn :=
  [W0 pallet_scheduler_service_agendas_base;
   W1 50 pallet_scheduler_service_agenda_base;
   W0 pallet_scheduler_service_task_base;
   W1 4194304 pallet_scheduler_service_task_fetched;
   W0 pallet_scheduler_service_task_named;
   W0 pallet_scheduler_service_task_periodic;
   W0 pallet_scheduler_execute_dispatch_signed;
   W0 pallet_scheduler_execute_dispatch_unsigned;
   W1 49 pallet_scheduler_schedule;
   W1 50 pallet_scheduler_cancel;
   W1 49 pallet_scheduler_schedule_named;
   W1 50 pallet_scheduler_cancel_named;
   W1 50 pallet_scheduler_schedule_retry;
   W0 pallet_scheduler_set_retry;
   W0 pallet_scheduler_set_retry_named;
   W0 pallet_scheduler_cancel_retry;
   W0 pallet_scheduler_cancel_retry_named].

(** * [pallet_session.rs] *)
Definition pallet_session_set_keys : Weight :=
  from_parts 22180000 0 ⊕ from_parts 0 3763 ⊕ db_reads DbWeight 2 ⊕ db_writes DbWeight 2.
Definition pallet_session_purge_keys : Weight :=
  from_parts 16045000 0 ⊕ from_parts 0 3745 ⊕ db_reads DbWeight 1 ⊕ db_writes DbWeight 2.
Definition pallet_session_weights : list weight_fn :=
  [W0 pallet_session_set_keys;
   W0 pallet_session_purge_keys].

(** * [pallet_timestamp.rs] *)
Definition pallet_timestamp_set : Weight :=
  from_parts 9116000 0 ⊕ from_parts 0 1493 ⊕ db_reads DbWeight 2 ⊕ db_writes DbWeight 1.
Definition pallet_timestamp_on_finalize : Weight :=
  from_parts 3620000 0 ⊕ from_parts 0 0.
Definition pallet_timestamp_weights : list weight_fn :=
  [W0 pallet_timestamp_set;
   W0 pallet_timestamp_on_finalize].

(** * [pallet_utility.rs] *)
Definition pallet_utility_batch (c : Z) : Weight :=
  from_parts 14005294 0 ⊕ from_parts 0 0 ⊕ from_parts 4451967 0 ⊗ c.
Definition pallet_utility_as_derivative : Weight :=
  from_parts 6391000 0 ⊕ from_parts 0 0.
Definition pallet_utility_batch_all (c : Z) : Weight :=
  from_parts 12829008 0 ⊕ from_parts 0 0 ⊕ from_parts 4786428 0 ⊗ c.
Definition pallet_utility_dispatch_as : Weight :=
  from_parts 9502000 0 ⊕ from_parts 0 0.
Definition pallet_utility_force_batch (c : Z) : Weight :=
  from_parts 14744634 0 ⊕ from_parts 0 0 ⊕ from_parts 4434967 0 ⊗ c.
Definition pallet_utility_weights : list weight_fn :=
  [W1 1000 pallet_utility_batch;
   W0 pallet_utility_as_derivative;
   W1 1000 pallet_utility_batch_all;
   W0 pallet_utility_dispatch_as;
   W1 1000 pallet_utility_force_batch].

(** All of them, with the ranges of their components. *)
Definition system_weights : list weight_fn :=
  cumulus_pallet_parachain_system_weights ++
  cumulus_pallet_xcmp_queue_weights ++
  pallet_message_queue_weights ++
  pallet_multisig_weights ++
  pallet_preimage_weights ++
  pallet_proxy_weights ++
  pallet_scheduler_weights ++
  pallet_session_weights ++
  pallet_timestamp_weights ++
  pallet_utility_weights.
End weights.

Section bounds.
Context {W : SpWeights} {L : SpWeightsLaws W}.

Lemma cumulus_pallet_parachain_system_weights_fit : Forall fits_block (cumulus_pallet_parachain_system_weights RocksDbWeight).
Proof. bound_table. Qed.
Lemma cumulus_pallet_xcmp_queue_weights_fit : Forall fits_block (cumulus_pallet_xcmp_queue_weights RocksDbWeight).
Proof. bound_table. Qed.
Lemma pallet_message_queue_weights_fit : Forall fits_block (pallet_message_queue_weights RocksDbWeight).
Proof. bound_table. Qed.
Lemma pallet_multisig_weights_fit : Forall fits_block (pallet_multisig_weights RocksDbWeight).
Proof. bound_table. Qed.
Lemma pallet_preimage_weights_fit : Forall fits_block (pallet_preimage_weights RocksDbWeight).
Proof. bound_table. Qed.
Lemma pallet_proxy_weights_fit : Forall fits_block (pallet_proxy_weights RocksDbWeight).
Proof. bound_table. Qed.
Lemma pallet_scheduler_weights_fit : Forall fits_block (pallet_scheduler_weights RocksDbWeight).
Proof. bound_table. Qed.
Lemma pallet_session_weights_fit : Forall fits_block (pallet_session_weights RocksDbWeight).
Proof. bound_table. Qed.
Lemma pallet_timestamp_weights_fit : Forall fits_block (pallet_timestamp_weights RocksDbWeight).
Proof. bound_table. Qed.
Lemma pallet_utility_weights_fit : Forall fits_block pallet_utility_weights.
Proof. bound_table. Qed.

(** On the whole range of its components, every weight function of
    the system, utility and messaging pallets
    stays within the maximal weight of a block, in reference time and in proof size. *)
Lemma system_weights_fit : Forall fits_block (system_weights RocksDbWeight).
Proof.
  unfold system_weights. rewrite !Forall_app. split_and!;
    auto using cumulus_pallet_parachain_system_weights_fit, cumulus_pallet_xcmp_queue_weights_fit, pallet_message_queue_weights_fit, pallet_multisig_weights_fit, pallet_preimage_weights_fit, pallet_proxy_weights_fit, pallet_scheduler_weights_fit, pallet_session_weights_fit, pallet_timestamp_weights_fit, pallet_utility_weights_fit.
Qed.
End bounds.
