(* ===== verification/WeightsRuntime.v ===== *)
(** All weight functions of [runtime/src/weights/] together. *)

From S2P Require Import Prelude Weights WeightsMonetary WeightsGovernance WeightsSystem.

Section runtime.
Context {W : SpWeights} {L : SpWeightsLaws W}.

(** The weight functions of every pallet, over the weights of the database. *)
Definition runtime_weights (db : RuntimeDbWeight) : list weight_fn :=
  monetary_weights db ++ governance_weights db ++ system_weights db.

(** C23: no call outgrows a block.  On the whole range of its components, every weight
    function of the runtime, over the database weights that it is configured with, stays
    within the maximal weight of a block, in reference time and in proof size. *)
Theorem runtime_weights_fit : Forall fits_block (runtime_weights RocksDbWeight).
Proof.
  unfold runtime_weights. rewrite !Forall_app.
  auto using monetary_weights_fit, governance_weights_fit, system_weights_fit.
Qed.
End runtime.

Lemma runtime_weights_fit_witness :
  Forall (fits_block (W := SampleWeights)) (runtime_weights (W := SampleWeights) RocksDbWeight).
Proof. exact (runtime_weights_fit (W := SampleWeights)). Defined.
