(* ===== verification/RuntimeConstants.v ===== *)
(** The constants of the runtime: [runtime/src/constants.rs], the [parameter_types!] of
    [runtime/src/configs/mod.rs] and [runtime/src/configs/governance/mod.rs], and the
    fee polynomial of [runtime/src/lib.rs]. *)

From S2P Require Import Prelude Weights.

(** * [constants::currency]; [Balance] is [u128] *)

Definition MICROCENTS : Z := 1000000.
Definition MILLICENTS : Z := 1000000000.
Definition CENTS : Z := 1000 * MILLICENTS.
Definition DOLLARS : Z := 100 * CENTS.
Definition GRAND : Z := 1000 * DOLLARS.
Definition EXISTENTIAL_DEPOSIT : Z := MILLICENTS.

(** [u128] products and sums, which wrap in a release build. *)
Definition u128_mul (a b : Z) : Z := (a * b) mod (u128_MAX + 1).
Definition u128_add (a b : Z) : Z := wrapping_add u128_MAX a b.

(** [deposit(items, bytes)]. *)
Definition deposit (items bytes : Z) : Z :=
  u128_add (u128_mul (u128_mul items 15) CENTS) (u128_mul (u128_mul bytes 6) CENTS).

(** * Time, in blocks of [MILLISECS_PER_BLOCK]; [BlockNumber] is [u32] *)

Definition MILLISECS_PER_BLOCK : Z := 6000.
Definition SLOT_DURATION : Z := MILLISECS_PER_BLOCK.
Definition MINUTES : Z := 60000 / MILLISECS_PER_BLOCK.
Definition HOURS : Z := MINUTES * 60.
Definition DAYS : Z := HOURS * 24.

Definition UNINCLUDED_SEGMENT_CAPACITY : Z := 3.
Definition BLOCK_PROCESSING_VELOCITY : Z := 1.
Definition RELAY_CHAIN_SLOT_DURATION_MILLIS : Z := 6000.
Definition MAX_BLOCK_LENGTH : Z := 5 * 1024 * 1024.

(** * Parameters of the pallets *)

Definition PreimageBaseDeposit : Z := deposit 2 64.
Definition PreimageByteDeposit : Z := deposit 0 1.
Definition ProxyDepositBase : Z := deposit 1 40.
Definition AnnouncementDepositBase : Z := deposit 1 48.
Definition ProxyDepositFactor : Z := deposit 0 33.
Definition AnnouncementDepositFactor : Z := deposit 0 66.
Definition AssetDeposit : Z := 10 * CENTS.
Definition AssetAccountDeposit : Z := deposit 1 16.
Definition ApprovalDeposit : Z := EXISTENTIAL_DEPOSIT.
Definition MetadataDepositBase : Z := deposit 1 68.
Definition MetadataDepositPerByte : Z := deposit 0 1.
Definition TransactionByteFee : Z := 10 * MICROCENTS.
Definition ToSiblingBaseDeliveryFee : Z := saturating_mul u128_MAX CENTS 3.
Definition DepositBase : Z := deposit 1 88.
Definition DepositFactor : Z := deposit 0 32.
Definition Period : Z := 6 * HOURS.
Definition Offset : Z := 0.
Definition SessionLength : Z := 6 * HOURS.
Definition ProposalBondMinimum : Z := 2 * GRAND.
Definition ProposalBondMaximum : Z := GRAND.
Definition SpendPeriod : Z := 6 * DAYS.
Definition PayoutSpendPeriod : Z := 30 * DAYS.

(** * [pallet_conviction_voting] and [pallet_referenda] *)

Definition VoteLockingPeriod : Z := 7 * DAYS.
Definition MaxBalance : Z := u128_MAX.
Definition AlarmInterval : Z := 1.
Definition SubmissionDeposit : Z := 3 * CENTS.
Definition UndecidingTimeout : Z := 14 * DAYS.

(** * [pallet_rosca::Config for Runtime] *)

Definition rosca_MaxParticipants : Z := 150.
Definition rosca_MaxInvitedParticipants : Z := 149.
Definition rosca_StringLimit : Z := 50.

(** * [WeightToFee]

    [Perbill::from_rational] of [sp_arithmetic] is a parameter. *)

Definition P_FACTOR : Z := 10.
Definition Q_FACTOR : Z := 100.
Definition POLY_DEGREE : Z := 1.

(** [WeightToFeeCoefficient], as it is filled in. *)
Record WeightToFeeCoefficient : Type := mkWeightToFeeCoefficient {
  degree : Z;
  negative : bool;
  coeff_frac : Z;
  coeff_integer : Z;
}.

Section fees.
Context {W : SpWeights} (Perbill_from_rational : Z → Z → Z).

(** [WeightToFee::polynomial]; [fee_p] and [fee_q] are its local variables. *)
Definition fee_p : Z := MILLICENTS / P_FACTOR.
Definition fee_q : Z := Q_FACTOR * ref_time ExtrinsicBaseWeight.
Definition polynomial : list WeightToFeeCoefficient :=
  [mkWeightToFeeCoefficient POLY_DEGREE false (Perbill_from_rational (fee_p mod fee_q) fee_q) (fee_p / fee_q)].
End fees.

(** * Properties *)

Lemma u128_mul_in a b : 0 ≤ a → 0 ≤ b → a * b ≤ u128_MAX → u128_mul a b = a * b.
Proof. intros. apply Z.mod_small. lia. Qed.

(** [deposit] never overflows: on all [u32] arguments it is the exact sum of 15
    cents per item and 6 cents per byte, a valid [u128]. *)
Lemma deposit_exact items bytes :
  in_width u32_MAX items → in_width u32_MAX bytes →
  deposit items bytes = items * (15 * CENTS) + bytes * (6 * CENTS) ∧ in_width u128_MAX (deposit items bytes).
Proof.
  unfold in_width. change u32_MAX with 4294967295. intros Hi Hb.
  assert (u128_MAX = 340282366920938463463374607431768211455) as Hmax by done.
  assert (CENTS = 1000000000000) as Hc by done.
  assert (deposit items bytes = items * (15 * CENTS) + bytes * (6 * CENTS)) as ->; [|rewrite Hc; lia].
  unfold deposit, u128_add. rewrite Hc. rewrite (u128_mul_in items 15), (u128_mul_in bytes 6) by lia.
  rewrite !(u128_mul_in _ 1000000000000), wrapping_add_in by lia. lia.
Qed.

(** The bond of a treasury proposal has a maximum below its minimum. *)
Lemma proposal_bond_range : ProposalBondMaximum < ProposalBondMinimum.
Proof. done. Qed.
