(* ===== verification/RuntimeGovernance.v ===== *)
(** OpenGov: the custom origins of [runtime/src/configs/governance/origins.rs], the
    treasury's spend origin of [runtime/src/configs/governance/mod.rs] and the referenda
    tracks of [runtime/src/configs/governance/tracks.rs]. *)

From S2P Require Import Prelude RuntimeConstants.

(** [pallet_custom_origins::Origin]. *)
Inductive Origin : Type :=
  | Treasurer
  | ReferendumCanceller
  | ReferendumKiller
  | SmallTipper
  | BigTipper
  | SmallSpender
  | MediumSpender
  | BigSpender
  | WhitelistedCaller.

#[export] Instance Origin_eq_dec : EqDecision Origin.
Proof. solve_decision. Defined.

(** [frame_system::RawOrigin]. *)
Inductive RawOrigin (AccountId : Type) : Type :=
  | Root
  | Signed (a : AccountId)
  | NoOrigin.
Arguments Root {AccountId}.
Arguments Signed {AccountId} a.
Arguments NoOrigin {AccountId}.

(** [Result::and_then]. *)
Definition and_then {A B E : Type} (r : A + E) (f : A → B + E) : B + E :=
  match r with inl a => f a | inr e => inr e end.

(** * What the runtime macro and FRAME provide

    [RuntimeOrigin], a caller with a filter of the calls it may make, and the type
    [PalletsOrigin] of the callers, generated by [construct_runtime!], with the conversions
    to and from the origins of the pallets; and the combinators [EnsureRootWithSuccess] and
    [EitherOf].  A conversion to the origin of a pallet loses the filter, and
    [from_custom] makes an origin with the filter of the runtime. *)
Class Origins : Type := {
  AccountId : Type;
  PalletsOrigin : Type;
  RuntimeOrigin : Type;
  caller : RuntimeOrigin → PalletsOrigin;
  from_system : RawOrigin AccountId → PalletsOrigin;
  from_pallet : Origin → PalletsOrigin;
  try_into_system : PalletsOrigin → option (RawOrigin AccountId);
  try_into_pallet : PalletsOrigin → option Origin;
  into_custom : RuntimeOrigin → Origin + RuntimeOrigin;
  from_custom : Origin → RuntimeOrigin;
  EnsureRootWithSuccess : Z → RuntimeOrigin → Z + RuntimeOrigin;
  EitherOf {A : Type} : (RuntimeOrigin → A + RuntimeOrigin) → (RuntimeOrigin → A + RuntimeOrigin) →
             RuntimeOrigin → A + RuntimeOrigin;
}.

Class OriginsLaws (O : Origins) : Prop := {
  try_into_system_Some p r : try_into_system p = Some r ↔ p = from_system r;
  try_into_pallet_Some p c : try_into_pallet p = Some c ↔ p = from_pallet c;
  from_system_pallet r c : from_system r ≠ from_pallet c;
  from_system_inj :: Inj (=) (=) from_system;
  from_pallet_inj :: Inj (=) (=) from_pallet;
  caller_custom c : caller (from_custom c) = from_pallet c;
  into_custom_Ok o c : into_custom o = inl c ↔ caller o = from_pallet c;
  into_custom_Err o o' : into_custom o = inr o' → o' = o;
  (** [EnsureRootWithSuccess] accepts the root origin only and hands back any other. *)
  ensure_root_root n o : caller o = from_system Root → EnsureRootWithSuccess n o = inl n;
  ensure_root_other n o : caller o ≠ from_system Root → EnsureRootWithSuccess n o = inr o;
  (** [EitherOf] tries the right when the left refuses. *)
  EitherOf_left {A : Type} (l r : RuntimeOrigin → A + RuntimeOrigin) o a : l o = inl a → EitherOf l r o = inl a;
  EitherOf_right {A : Type} (l r : RuntimeOrigin → A + RuntimeOrigin) o o' : l o = inr o' → EitherOf l r o = r o';
}.

Section origins.
Context {O : Origins}.

(** [decl_unit_ensures!]: the [try_origin] of the origin [name], and its four uses. *)
Definition unit_try_origin (name : Origin) (o : RuntimeOrigin) : unit + RuntimeOrigin :=
  and_then (into_custom o) (λ c, if bool_decide (c = name) then inl tt else inr (from_custom c)).
Definition Treasurer_try_origin : RuntimeOrigin → unit + RuntimeOrigin := unit_try_origin Treasurer.
Definition ReferendumCanceller_try_origin : RuntimeOrigin → unit + RuntimeOrigin :=
  unit_try_origin ReferendumCanceller.
Definition ReferendumKiller_try_origin : RuntimeOrigin → unit + RuntimeOrigin :=
  unit_try_origin ReferendumKiller.
Definition WhitelistedCaller_try_origin : RuntimeOrigin → unit + RuntimeOrigin :=
  unit_try_origin WhitelistedCaller.

(** [decl_ensure!] for [Spender]. *)
Definition Spender_try_origin (o : RuntimeOrigin) : Z + RuntimeOrigin :=
  and_then (into_custom o) (λ c,
    match c with
    | SmallTipper => inl (250 * 3 * CENTS)
    | BigTipper => inl GRAND
    | SmallSpender => inl (10 * GRAND)
    | MediumSpender => inl (100 * GRAND)
    | BigSpender => inl (1000 * GRAND)
    | Treasurer => inl (10000 * GRAND)
    | r => inr (from_custom r)
    end).

(** [TreasurySpender]. *)
Definition TreasurySpender : RuntimeOrigin → Z + RuntimeOrigin :=
  EitherOf (EnsureRootWithSuccess MaxBalance) Spender_try_origin.

(** [TracksInfo::track_for]. *)
Definition track_for (id : PalletsOrigin) : option Z :=
  match try_into_system id with
  | Some Root => Some 0
  | Some _ => None
  | None =>
    match try_into_pallet id with
    | Some WhitelistedCaller => Some 1
    | Some Treasurer => Some 11
    | Some ReferendumCanceller => Some 20
    | Some ReferendumKiller => Some 21
    | Some SmallTipper => Some 30
    | Some BigTipper => Some 31
    | Some SmallSpender => Some 32
    | Some MediumSpender => Some 33
    | Some BigSpender => Some 34
    | None => None
    end
  end.
End origins.

(** * The tracks

    The approval and support curves of [pallet_referenda] and the fixed-point numbers
    of [sp_arithmetic] that describe them are parameters. *)
Class Curves : Type := {
  FixedI64 : Type;
  FixedI64_from_rational : Z → Z → FixedI64;
  Curve : Type;
  make_linear : Z → Z → FixedI64 → FixedI64 → Curve;
  make_reciprocal : Z → Z → FixedI64 → FixedI64 → FixedI64 → Curve;
}.

Section tracks.
Context {C : Curves}.

(** [pallet_referenda::TrackInfo], as it is filled in. *)
Record TrackInfo : Type := mkTrackInfo {
  name : string;
  max_deciding : Z;
  decision_deposit : Z;
  prepare_period : Z;
  decision_period : Z;
  confirm_period : Z;
  min_enactment_period : Z;
  min_approval : Curve;
  min_support : Curve;
}.

(** [percent(x: i32)]; [x as u128] wraps a negative [x]. *)
Definition percent (x : Z) : FixedI64 := FixedI64_from_rational (x mod (u128_MAX + 1)) 100.

Definition APP_ROOT : Curve := make_reciprocal 4 28 (percent 80) (percent 50) (percent 100).
Definition SUP_ROOT : Curve := make_linear 28 28 (percent 0) (percent 50).
Definition APP_TREASURER : Curve := make_reciprocal 4 28 (percent 80) (percent 50) (percent 100).
Definition SUP_TREASURER : Curve := make_linear 28 28 (percent 0) (percent 50).
Definition APP_REFERENDUM_CANCELLER : Curve := make_linear 17 28 (percent 50) (percent 100).
Definition SUP_REFERENDUM_CANCELLER : Curve := make_reciprocal 12 28 (percent 1) (percent 0) (percent 50).
Definition APP_REFERENDUM_KILLER : Curve := make_linear 17 28 (percent 50) (percent 100).
Definition SUP_REFERENDUM_KILLER : Curve := make_reciprocal 12 28 (percent 1) (percent 0) (percent 50).
Definition APP_SMALL_TIPPER : Curve := make_linear 10 28 (percent 50) (percent 100).
Definition SUP_SMALL_TIPPER : Curve := make_reciprocal 1 28 (percent 4) (percent 0) (percent 50).
Definition APP_BIG_TIPPER : Curve := make_linear 10 28 (percent 50) (percent 100).
Definition SUP_BIG_TIPPER : Curve := make_reciprocal 8 28 (percent 1) (percent 0) (percent 50).
Definition APP_SMALL_SPENDER : Curve := make_linear 17 28 (percent 50) (percent 100).
Definition SUP_SMALL_SPENDER : Curve := make_reciprocal 12 28 (percent 1) (percent 0) (percent 50).
Definition APP_MEDIUM_SPENDER : Curve := make_linear 23 28 (percent 50) (percent 100).
Definition SUP_MEDIUM_SPENDER : Curve := make_reciprocal 16 28 (percent 1) (percent 0) (percent 50).
Definition APP_BIG_SPENDER : Curve := make_linear 28 28 (percent 50) (percent 100).
Definition SUP_BIG_SPENDER : Curve := make_reciprocal 20 28 (percent 1) (percent 0) (percent 50).
Definition APP_WHITELISTED_CALLER : Curve := make_reciprocal 16 (28 * 24) (percent 96) (percent 50) (percent 100).
Definition SUP_WHITELISTED_CALLER : Curve := make_reciprocal 1 28 (percent 20) (percent 5) (percent 50).

(** [TRACKS_DATA], which [TracksInfo::tracks] returns. *)
Definition TRACKS_DATA : list (Z * TrackInfo) := [
  (0, {| name := "root"%string; max_deciding := 1; decision_deposit := 100 * GRAND;
      prepare_period := 8 * MINUTES; decision_period := 20 * MINUTES;
      confirm_period := 12 * MINUTES; min_enactment_period := 5 * MINUTES;
      min_approval := APP_ROOT; min_support := SUP_ROOT |});
  (1, {| name := "whitelisted_caller"%string; max_deciding := 100; decision_deposit := 10 * GRAND;
      prepare_period := 6 * MINUTES; decision_period := 20 * MINUTES;
      confirm_period := 4 * MINUTES; min_enactment_period := 3 * MINUTES;
      min_approval := APP_WHITELISTED_CALLER; min_support := SUP_WHITELISTED_CALLER |});
  (11, {| name := "treasurer"%string; max_deciding := 10; decision_deposit := GRAND;
      prepare_period := 8 * MINUTES; decision_period := 20 * MINUTES;
      confirm_period := 8 * MINUTES; min_enactment_period := 5 * MINUTES;
      min_approval := APP_TREASURER; min_support := SUP_TREASURER |});
  (20, {| name := "referendum_canceller"%string; max_deciding := 1000; decision_deposit := 10 * GRAND;
      prepare_period := 8 * MINUTES; decision_period := 14 * MINUTES;
      confirm_period := 8 * MINUTES; min_enactment_period := 3 * MINUTES;
      min_approval := APP_REFERENDUM_CANCELLER; min_support := SUP_REFERENDUM_CANCELLER |});
  (21, {| name := "referendum_killer"%string; max_deciding := 1000; decision_deposit := 50 * GRAND;
      prepare_period := 8 * MINUTES; decision_period := 20 * MINUTES;
      confirm_period := 8 * MINUTES; min_enactment_period := 3 * MINUTES;
      min_approval := APP_REFERENDUM_KILLER; min_support := SUP_REFERENDUM_KILLER |});
  (30, {| name := "small_tipper"%string; max_deciding := 200; decision_deposit := 3 * CENTS;
      prepare_period := MINUTES; decision_period := 14 * MINUTES;
      confirm_period := 4 * MINUTES; min_enactment_period := MINUTES;
      min_approval := APP_SMALL_TIPPER; min_support := SUP_SMALL_TIPPER |});
  (31, {| name := "big_tipper"%string; max_deciding := 100; decision_deposit := 10 * 3 * CENTS;
      prepare_period := 4 * MINUTES; decision_period := 14 * MINUTES;
      confirm_period := 12 * MINUTES; min_enactment_period := 3 * MINUTES;
      min_approval := APP_BIG_TIPPER; min_support := SUP_BIG_TIPPER |});
  (32, {| name := "small_spender"%string; max_deciding := 50; decision_deposit := 100 * 3 * CENTS;
      prepare_period := 10 * MINUTES; decision_period := 20 * MINUTES;
      confirm_period := 10 * MINUTES; min_enactment_period := 5 * MINUTES;
      min_approval := APP_SMALL_SPENDER; min_support := SUP_SMALL_SPENDER |});
  (33, {| name := "medium_spender"%string; max_deciding := 50; decision_deposit := 200 * 3 * CENTS;
      prepare_period := 10 * MINUTES; decision_period := 20 * MINUTES;
      confirm_period := 12 * MINUTES; min_enactment_period := 5 * MINUTES;
      min_approval := APP_MEDIUM_SPENDER; min_support := SUP_MEDIUM_SPENDER |});
  (34, {| name := "big_spender"%string; max_deciding := 50; decision_deposit := 400 * 3 * CENTS;
      prepare_period := 10 * MINUTES; decision_period := 20 * MINUTES;
      confirm_period := 14 * MINUTES; min_enactment_period := 5 * MINUTES;
      min_approval := APP_BIG_SPENDER; min_support := SUP_BIG_SPENDER |})
].
Definition tracks : list (Z * TrackInfo) := TRACKS_DATA.
End tracks.

(** * Properties *)

Section properties.
Context {O : Origins} {L : OriginsLaws O} {C : Curves}.
Implicit Types (p : PalletsOrigin) (o : RuntimeOrigin) (c : Origin) (i : Z) (t : TrackInfo).

(** The origins that have a track, in the order of [TRACKS_DATA]. *)
Definition track_origins : list PalletsOrigin :=
  from_system Root :: (from_pallet <$>
    [WhitelistedCaller; Treasurer; ReferendumCanceller; ReferendumKiller; SmallTipper; BigTipper;
     SmallSpender; MediumSpender; BigSpender]).

Lemma try_into_system_pallet c : try_into_system (from_pallet c) = None.
Proof.
  destruct (try_into_system (from_pallet c)) eqn:E; [|done].
  apply try_into_system_Some in E. by destruct (from_system_pallet r c).
Qed.

Lemma track_for_origins p i :
  track_for p = Some i ↔ (p, i) ∈ zip track_origins (fst <$> tracks).
Proof.
  unfold track_for. cbn. rewrite !elem_of_cons, elem_of_nil. split.
  - repeat case_match; intros [= <-]; try (apply try_into_system_Some in H; naive_solver);
      apply try_into_pallet_Some in H0; naive_solver.
  - assert (∀ r, try_into_system (from_system r) = Some r) as Hs by (intros; by apply try_into_system_Some).
    assert (∀ c, try_into_pallet (from_pallet c) = Some c) as Hp by (intros; by apply try_into_pallet_Some).
    intros H. repeat destruct H as [[= -> ->]|H]; try done; rewrite ?Hs, ?try_into_system_pallet, ?Hp; done.
Qed.

Lemma track_origins_NoDup : NoDup track_origins.
Proof.
  unfold track_origins. constructor.
  - intros (c & Heq & _)%list_elem_of_fmap. by apply from_system_pallet in Heq.
  - apply (NoDup_fmap_2 _). apply (bool_decide_unpack _). by vm_compute.
Qed.

(** A list of pairs without a repeated second component names the first by it. *)
Lemma elem_of_zip_inj_r {A B} (l : list A) (k : list B) a a' b :
  NoDup k → (a, b) ∈ zip l k → (a', b) ∈ zip l k → a = a'.
Proof.
  intros Hk [n (? & ? & [= <- <-] & Hl & Hb)%lookup_zip_with_Some]%list_elem_of_lookup.
  intros [m (? & ? & [= <- <-] & Hl' & Hb')%lookup_zip_with_Some]%list_elem_of_lookup.
  assert (n = m) as <- by by eapply NoDup_lookup. congruence.
Qed.

Lemma tracks_ids_sorted : StronglySorted Z.lt (fst <$> tracks).
Proof. repeat (constructor; [|repeat constructor; done]). constructor. Qed.

Lemma tracks_ids_NoDup : NoDup (fst <$> tracks).
Proof. apply (bool_decide_unpack _). by vm_compute. Qed.

Lemma track_named_once i t t' : (i, t) ∈ tracks → (i, t') ∈ tracks → t = t'.
Proof.
  intros [n Hn]%list_elem_of_lookup [m Hm]%list_elem_of_lookup.
  assert (n = m) as <-; [|congruence].
  eapply (NoDup_lookup (fst <$> tracks)); [apply tracks_ids_NoDup | by rewrite list_lookup_fmap, Hn
  | by rewrite list_lookup_fmap, Hm].
Qed.

(** C28: the referenda tracks are numbered in strictly increasing order, as their
    lookup by binary search needs; and [track_for] is a bijection between the origins
    it accepts and the tracks: every id it answers is that of exactly one track, and
    every track is reached from exactly one origin. *)
Theorem tracks_bijective :
  StronglySorted Z.lt (fst <$> tracks) ∧
  (∀ p i, track_for p = Some i → exists! t, (i, t) ∈ tracks) ∧
  (∀ i t, (i, t) ∈ tracks → exists! p, track_for p = Some i).
Proof.
  split_and!; [apply tracks_ids_sorted | |].
  - intros p i Hp%track_for_origins%elem_of_zip_r. apply list_elem_of_fmap in Hp as ([i' t] & -> & Ht).
    exists t. split; [done|]. intros t'. by apply track_named_once.
  - intros i t [n Hn]%list_elem_of_lookup.
    assert (n < length track_origins)%nat as [p Hp]%lookup_lt_is_Some_2 by by apply lookup_lt_Some in Hn.
    assert ((p, i) ∈ zip track_origins (fst <$> tracks)) as Hpi.
    { apply list_elem_of_lookup. exists n. apply lookup_zip_with_Some. exists p, i.
      by rewrite list_lookup_fmap, Hn. }
    exists p. split; [by apply track_for_origins|]. intros p' Hp'%track_for_origins.
    by eapply elem_of_zip_inj_r; [apply tracks_ids_NoDup| |].
Qed.

Lemma TreasurySpender_root o : caller o = from_system Root → TreasurySpender o = inl MaxBalance.
Proof. intros Ho. by apply EitherOf_left, ensure_root_root. Qed.

Lemma TreasurySpender_other o : caller o ≠ from_system Root → TreasurySpender o = Spender_try_origin o.
Proof. intros Ho. by apply EitherOf_right, ensure_root_other. Qed.

Lemma custom_not_root o c : caller o = from_pallet c → caller o ≠ from_system Root.
Proof. intros -> Heq. by apply eq_sym, from_system_pallet in Heq. Qed.

(** The limit of a custom origin. *)
Definition spending_limit c : option Z :=
  match c with
  | SmallTipper => Some (250 * 3 * CENTS)
  | BigTipper => Some GRAND
  | SmallSpender => Some (10 * GRAND)
  | MediumSpender => Some (100 * GRAND)
  | BigSpender => Some (1000 * GRAND)
  | Treasurer => Some (10000 * GRAND)
  | WhitelistedCaller | ReferendumCanceller | ReferendumKiller => None
  end.

Lemma TreasurySpender_custom o c :
  caller o = from_pallet c →
  TreasurySpender o = match spending_limit c with Some a => inl a | None => inr (from_custom c) end.
Proof.
  intros Ho. rewrite TreasurySpender_other by by eapply custom_not_root.
  unfold Spender_try_origin. rewrite (proj2 (into_custom_Ok o c) Ho). by destruct c.
Qed.

Lemma TreasurySpender_foreign o :
  caller o ≠ from_system Root → (∀ c, caller o ≠ from_pallet c) → TreasurySpender o = inr o.
Proof.
  intros Hr Hc. rewrite TreasurySpender_other by done. unfold Spender_try_origin, and_then.
  destruct (into_custom o) as [c|o'] eqn:E; [by apply into_custom_Ok, Hc in E | by apply into_custom_Err in E as ->].
Qed.

(** The decision deposit of the track of a custom origin. *)
Definition origin_deposit c (d : Z) : Prop :=
  ∃ i t, track_for (from_pallet c) = Some i ∧ (i, t) ∈ tracks ∧ decision_deposit t = d.

Lemma origin_deposit_eq c d :
  origin_deposit c d →
  d = match c with
      | WhitelistedCaller | ReferendumCanceller => 10 * GRAND
      | Treasurer => GRAND
      | ReferendumKiller => 50 * GRAND
      | SmallTipper => 3 * CENTS
      | BigTipper => 30 * CENTS
      | SmallSpender => 300 * CENTS
      | MediumSpender => 600 * CENTS
      | BigSpender => 1200 * CENTS
      end.
Proof.
  intros (i & t & Hi & Ht & <-).
  assert (Some i = Some (match c with
    | WhitelistedCaller => 1 | Treasurer => 11 | ReferendumCanceller => 20 | ReferendumKiller => 21
    | SmallTipper => 30 | BigTipper => 31 | SmallSpender => 32 | MediumSpender => 33 | BigSpender => 34
    end)) as [= ->].
  { rewrite <- Hi. unfold track_for. rewrite try_into_system_pallet.
    assert (try_into_pallet (from_pallet c) = Some c) as -> by by apply try_into_pallet_Some. by destruct c. }
  unfold tracks, TRACKS_DATA in Ht.
  destruct c; case_elem Ht; done.
Qed.

(** C29: who may spend treasury funds.  The root origin may spend any amount.  A custom
    origin, with whatever filter, may spend up to its limit if it has one, and is refused
    otherwise: what is handed back is the same custom origin, but made anew, without its
    filter.  Every other origin is refused and handed back as it is.  And among the
    origins with a limit the one with the higher limit has the higher decision deposit on
    its referenda track. *)
Theorem treasury_spenders :
  (∀ o, caller o = from_system Root → TreasurySpender o = inl MaxBalance) ∧
  (∀ o c, caller o = from_pallet c →
    TreasurySpender o = match spending_limit c with Some a => inl a | None => inr (from_custom c) end) ∧
  (∀ o, caller o ≠ from_system Root → (∀ c, caller o ≠ from_pallet c) → TreasurySpender o = inr o) ∧
  (∀ c a, spending_limit c = Some a → 0 < a < MaxBalance) ∧
  (∀ c c' a a' d d', spending_limit c = Some a → spending_limit c' = Some a' →
    origin_deposit c d → origin_deposit c' d' → a < a' → d < d').
Proof.
  split_and!; [apply TreasurySpender_root | apply TreasurySpender_custom | apply TreasurySpender_foreign | |].
  - intros c a Ha. destruct c; by simplify_eq/=.
  - intros c c' a a' d d' Ha Ha' ->%origin_deposit_eq ->%origin_deposit_eq.
    destruct c, c'; simplify_eq/=; intros Hlt; vm_compute in Hlt; done.
Qed.
End properties.

(** * A concrete runtime origin *)

(** The origins of two pallets and of the rest of the runtime, and linear curves. *)
Inductive SampleCaller : Type :=
  | SystemCaller (r : RawOrigin Z)
  | OriginsCaller (c : Origin)
  | OtherCaller.

(** An origin is a caller and whether its calls are filtered further than by the
    runtime. *)
#[export] Instance SampleOrigins : Origins := {|
  AccountId := Z;
  PalletsOrigin := SampleCaller;
  RuntimeOrigin := SampleCaller * bool;
  caller := fst;
  from_system := SystemCaller;
  from_pallet := OriginsCaller;
  try_into_system p := match p with SystemCaller r => Some r | _ => None end;
  try_into_pallet p := match p with OriginsCaller c => Some c | _ => None end;
  into_custom o := match o.1 with OriginsCaller c => inl c | _ => inr o end;
  from_custom c := (OriginsCaller c, false);
  EnsureRootWithSuccess n o := match o.1 with SystemCaller Root => inl n | _ => inr o end;
  EitherOf A l r o := match l o with inl a => inl a | inr o' => r o' end;
|}.

#[export] Instance SampleOrigins_laws : OriginsLaws SampleOrigins.
Proof.
  split; try done.
  - intros p r. destruct p; naive_solver.
  - intros p c. destruct p; naive_solver.
  - intros r r' H. naive_solver.
  - intros c c' H. naive_solver.
  - intros [p f] c. destruct p; cbn; naive_solver.
  - intros [p f] o'. destruct p; cbn; naive_solver.
  - intros n [p f] Ho. cbn in Ho. by subst.
  - intros n [[[]| |] f] Ho; naive_solver.
  - intros A l r o a H. cbn. by rewrite H.
  - intros A l r o o' H. cbn. by rewrite H.
Qed.

#[export] Instance SampleCurves : Curves := {|
  FixedI64 := Z;
  FixedI64_from_rational n d := n * 1000000000 / d;
  Curve := list Z;
  make_linear l p f c := [l; p; f; c];
  make_reciprocal d p l f c := [d; p; l; f; c];
|}.

Lemma tracks_bijective_witness :
  StronglySorted Z.lt (fst <$> tracks) ∧
  (∀ p i, track_for (O := SampleOrigins) p = Some i → exists! t, (i, t) ∈ tracks) ∧
  (∀ i t, (i, t) ∈ tracks → exists! p, track_for (O := SampleOrigins) p = Some i).
Proof. apply (tracks_bijective (O := SampleOrigins) (C := SampleCurves)). Defined.

Lemma treasury_spenders_witness :
  let o : RuntimeOrigin := (OriginsCaller BigSpender, true) in
  let o' : RuntimeOrigin := (OriginsCaller ReferendumKiller, true) in
  TreasurySpender o = inl (1000 * GRAND) ∧ TreasurySpender o' = inr (OriginsCaller ReferendumKiller, false) ∧
  TreasurySpender ((SystemCaller Root, true) : RuntimeOrigin) = inl MaxBalance ∧
  TreasurySpender ((OtherCaller, true) : RuntimeOrigin) = inr (OtherCaller, true).
Proof.
  intros o o'. destruct (treasury_spenders (O := SampleOrigins) (C := SampleCurves)) as (Hroot & Hcustom & Hother & _).
  split_and!.
  - by rewrite (Hcustom o BigSpender).
  - by rewrite (Hcustom o' ReferendumKiller).
  - by apply Hroot.
  - by apply Hother.
Defined.
