(* ===== verification/RuntimeFilters.v ===== *)
(** The pallets of the runtime with the indices [construct_runtime!] gives them in
    [runtime/src/lib.rs], and the call filters [NormalFilter] and [ProxyType] of
    [runtime/src/configs/mod.rs]. *)

From S2P Require Import Prelude.

(** The pallets of [construct_runtime!], in its order. *)
Inductive pallet : Type :=
  | System | ParachainSystem | Timestamp | ParachainInfo | Proxy | Utility | Multisig | Scheduler | Preimage
  | Balances | TransactionPayment | Assets | Treasury
  | Sudo | ConvictionVoting | Referenda | Origins | Whitelist
  | Authorship | CollatorSelection | Session | Aura | AuraExt
  | XcmpQueue | PolkadotXcm | CumulusXcm | MessageQueue
  | Rosca.

#[export] Instance pallet_eq_dec : EqDecision pallet.
Proof. solve_decision. Defined.

(** The index of a pallet, which encodes its calls, events and errors. *)
Definition index (p : pallet) : Z :=
  match p with
  | System => 0
  | ParachainSystem => 1
  | Timestamp => 2
  | ParachainInfo => 3
  | Proxy => 4
  | Utility => 5
  | Multisig => 6
  | Scheduler => 7
  | Preimage => 8
  | Balances => 10
  | TransactionPayment => 11
  | Assets => 12
  | Treasury => 13
  | Sudo => 15
  | ConvictionVoting => 16
  | Referenda => 17
  | Origins => 18
  | Whitelist => 19
  | Authorship => 20
  | CollatorSelection => 21
  | Session => 22
  | Aura => 23
  | AuraExt => 24
  | XcmpQueue => 30
  | PolkadotXcm => 31
  | CumulusXcm => 32
  | MessageQueue => 33
  | Rosca => 40
  end.

(** [TreasuryInteriorLocation] names this pallet instance. *)
Definition TreasuryInteriorLocation_instance : Z := 13.

(** * Calls

    The calls of the pallets are declared by the pallets; of [pallet_proxy::Call] the
    filters distinguish four variants. *)
Class Calls : Type := {
  Call : pallet → Type;
  is_create_pure : Call Proxy → bool;
  is_kill_pure : Call Proxy → bool;
  is_remove_proxies : Call Proxy → bool;
  is_reject_announcement : Call Proxy → bool;
}.

(** They are different variants. *)
Class CallsLaws (K : Calls) : Prop := {
  reject_announcement_only c :
    is_reject_announcement c = true →
    is_create_pure c = false ∧ is_kill_pure c = false ∧ is_remove_proxies c = false;
}.

(** [pub enum ProxyType]. *)
Inductive ProxyType : Type := Any | NonTransfer | CancelProxy | Collator.

Section filters.
Context {K : Calls}.

(** [RuntimeCall]: a call of one of the pallets. *)
Definition RuntimeCall : Type := sigT Call.

(** [NormalFilter::contains]. *)
Definition NormalFilter_contains (c : RuntimeCall) : bool :=
  match c with
  | existT Proxy method => negb (is_create_pure method || is_kill_pure method || is_remove_proxies method)
  | _ => true
  end.

(** [ProxyType::filter]. *)
Definition ProxyType_filter (self : ProxyType) (c : RuntimeCall) : bool :=
  match self with
  | Any => true
  | NonTransfer => negb match c with existT Balances _ => true | _ => false end
  | CancelProxy =>
    match c with
    | existT Proxy method => is_reject_announcement method
    | existT Multisig _ => true
    | _ => false
    end
  | Collator =>
    match c with
    | existT CollatorSelection _ => true
    | existT Multisig _ => true
    | _ => false
    end
  end.

(** * Properties *)

Context {L : CallsLaws K}.
Implicit Types (c : RuntimeCall) (t : ProxyType).

(** The two narrow proxy types are narrower than [NonTransfer], which is narrower than
    [Any]. *)
Lemma ProxyType_filter_narrow t c : ProxyType_filter t c = true → t = Any ∨ ProxyType_filter NonTransfer c = true.
Proof. destruct t; [by left | by right |..]; right; destruct c as [[] ?]; done. Qed.

(** C30: what a proxy can do.  Every proxy type but [Any] refuses every call of the
    [Balances] pallet; a call that [CancelProxy] or [Collator] lets through passes the
    base call filter as well, so these proxies can neither create nor destroy pure
    proxies nor remove the proxies of the account; and [NonTransfer] refuses
    nothing but the [Balances] calls. *)
Theorem proxy_filters c t :
  (ProxyType_filter t c = true → t = Any ∨ projT1 c ≠ Balances) ∧
  (t = CancelProxy ∨ t = Collator → ProxyType_filter t c = true → NormalFilter_contains c = true ∧ projT1 c ≠ Utility) ∧
  (projT1 c ≠ Balances → ProxyType_filter NonTransfer c = true).
Proof.
  split_and!.
  - intros [->|H]%ProxyType_filter_narrow; [by left|right]. by destruct c as [[] ?].
  - intros [->| ->]; destruct c as [[] m]; try done. cbn. intros Hm.
    by apply reject_announcement_only in Hm as (-> & -> & ->).
  - by destruct c as [[] ?].
Qed.
End filters.

Lemma index_inj : Inj (=) (=) index.
Proof. intros p q. by destruct p, q. Qed.

(** The indices of the pallets are pairwise distinct and fit the byte they are
    encoded in, and the pallet instance that the treasury pays from is the treasury. *)
Lemma pallet_indices :
  (∀ p q, index p = index q → p = q) ∧ (∀ p, in_width u8_MAX (index p)) ∧
  (∀ p, index p = TreasuryInteriorLocation_instance ↔ p = Treasury).
Proof.
  split_and!; [apply index_inj | by intros [] |].
  intros p. split; [|by intros ->]. intros Hp. by apply index_inj.
Qed.

(** * Concrete calls *)

Inductive SampleProxyCall : Type :=
  | proxy | create_pure | kill_pure | remove_proxies | reject_announcement.
#[export] Instance SampleCalls : Calls := {|
  Call p := SampleProxyCall;
  is_create_pure m := match m with create_pure => true | _ => false end;
  is_kill_pure m := match m with kill_pure => true | _ => false end;
  is_remove_proxies m := match m with remove_proxies => true | _ => false end;
  is_reject_announcement m := match m with reject_announcement => true | _ => false end;
|}.
#[export] Instance SampleCalls_laws : CallsLaws SampleCalls.
Proof. split. by intros []. Qed.

Lemma proxy_filters_witness :
  let c : RuntimeCall := existT Proxy reject_announcement in
  ProxyType_filter CancelProxy c = true ∧ NormalFilter_contains (existT Proxy kill_pure) = false ∧
  (ProxyType_filter CancelProxy c = true → CancelProxy = Any ∨ projT1 c ≠ Balances) ∧
  (CancelProxy = CancelProxy ∨ CancelProxy = Collator → ProxyType_filter CancelProxy c = true →
    NormalFilter_contains c = true ∧ projT1 c ≠ Utility) ∧
  (projT1 c ≠ Balances → ProxyType_filter NonTransfer c = true).
Proof. intros c. do 2 (split; [done|]). apply (proxy_filters c CancelProxy). Defined.
