(* ===== verification/RuntimeXcm.v ===== *)
(** Cross-chain assets and barriers: [runtime/src/configs/xcm_config.rs]. *)

From S2P Require Import Prelude RoscaTypes RuntimeFilters.

(** * Locations

    [xcm::latest] is outside this repository; of its [Location] the configuration uses
    [unpack], which gives the number of parents and the interior junctions, and of the
    junctions and the bodies the variants below; the rest of each is a parameter. *)
Class Xcm : Type := {
  BodyId : Type;
  BodyId_eq_dec :: EqDecision BodyId;
  Executive : BodyId;
  BodyPart : Type;
  BodyPart_eq_dec :: EqDecision BodyPart;
  OtherJunction : Type;
  OtherJunction_eq_dec :: EqDecision OtherJunction;
  (** [Fungibility], the quantity of an [Asset]. *)
  Fungibility : Type;
  (** The instructions other than the HRMP notifications, and the fields of those. *)
  OtherInstruction : Type;
}.

Section xcm.
Context {X : Xcm}.

Inductive Junction : Type :=
  | Parachain (id : Z)
  | PalletInstance (i : Z)
  | GeneralIndex (i : Z)
  | Plurality (id : BodyId) (part : BodyPart)
  | OtherJunc (j : OtherJunction).

#[global] Instance Junction_eq_dec : EqDecision Junction.
Proof. solve_decision. Defined.

(** A [Location]: its parents and its interior, as [unpack] returns them. *)
Definition Location : Type := Z * list Junction.

Record Asset : Type := mkAsset { asset_id : Location; fun_ : Fungibility }.

(** [USDC_PATH], [USDT_PATH], [UsdcLocation], [UsdtLocation] and [AssetsPalletLocation]. *)
Definition USDC_PATH : list Junction := [Parachain 1000; PalletInstance 50; GeneralIndex 1337].
Definition USDT_PATH : list Junction := [Parachain 1000; PalletInstance 50; GeneralIndex 1984].
Definition RelayLocation : Location := (1, []).
Definition UsdtLocation : Location := (1, [Parachain 1000; PalletInstance 50; GeneralIndex 1984]).
Definition UsdtPerSecond : Location * Z * Z := (UsdtLocation, 1000, 1000).
Definition UsdcLocation : Location := (1, [Parachain 1000; PalletInstance 50; GeneralIndex 1337]).
Definition UsdcPerSecond : Location * Z * Z := (UsdcLocation, 1000, 1000).
Definition AssetsPalletLocation : Location := (0, [PalletInstance (index Assets)]).

(** * [SupportedAssets] *)

(** [<SupportedAssets as Contains<Location>>::contains]. *)
Definition SupportedAssets_contains (location : Location) : bool :=
  bool_decide (location = (1, USDC_PATH)) || bool_decide (location = (1, USDT_PATH)).

(** [MaybeEquivalence::convert]. *)
Definition convert (location : Location) : option Z :=
  if bool_decide (location = (1, USDC_PATH)) then Some 1337
  else if bool_decide (location = (1, USDT_PATH)) then Some 1984
  else None.

(** [MaybeEquivalence::convert_back]. *)
Definition convert_back (asset_id : Z) : option Location :=
  if asset_id =? 1337 then Some UsdcLocation
  else if asset_id =? 1984 then Some UsdtLocation
  else None.

(** * [AssetHubAssets] *)

(** [ContainsPair<Asset, Location>]. *)
Definition AssetHubAssets_contains_pair (asset : Asset) (source : Location) : bool :=
  let asset_hub : Location := (1, [Parachain 1000]) in
  if bool_decide (asset_hub ≠ source) then false else SupportedAssets_contains (asset_id asset).

(** [Contains<(Location, Vec<Asset>)>]. *)
Definition AssetHubAssets_contains (item : Location * list Asset) : bool :=
  let '(_, assets) := item in forallb (λ asset, SupportedAssets_contains (asset_id asset)) assets.

(** * Location filters *)

Definition ParentOrParentsExecutivePlurality_contains (location : Location) : bool :=
  match location with
  | (1, []) => true
  | (1, [Plurality id _]) => bool_decide (id = Executive)
  | _ => false
  end.

Definition AssetHubParachain_contains (location : Location) : bool :=
  match location with
  | (1, [Parachain id]) => id =? 1000
  | _ => false
  end.

Definition ParentOrSiblings_contains (location : Location) : bool :=
  match location with
  | (1, []) => true
  | (1, [Parachain _]) => true
  | _ => false
  end.

(** * [AllowHrmpNotificationsFromRelayChain] *)

Inductive Instruction : Type :=
  | HrmpNewChannelOpenRequest (sender max_message_size max_capacity : Z)
  | HrmpChannelAccepted (recipient : Z)
  | HrmpChannelClosing (initiator sender recipient : Z)
  | OtherInst (i : OtherInstruction).

(** [ProcessMessageError], as far as it is raised here or by the matcher. *)
Inductive ProcessMessageError : Type := Unsupported | BadFormat.

(** [CreateMatcher] and [MatchXcm] of [xcm_builder]: a cursor on the instructions. *)
Class MatchXcm : Type := {
  Matcher : Type;
  matcher : list Instruction → Matcher;
  (** The instructions the cursor has not passed. *)
  remaining : Matcher → list Instruction;
  assert_remaining_insts : Matcher → Z → Matcher + ProcessMessageError;
  match_next_inst :
    Matcher → (Instruction → unit + ProcessMessageError) → Matcher + ProcessMessageError;
}.

(** A fresh cursor has passed nothing; [assert_remaining_insts] and [match_next_inst]
    check what they say. *)
Class MatchXcmLaws (Mx : MatchXcm) : Prop := {
  remaining_matcher l : remaining (matcher l) = l;
  assert_remaining_Ok m n : len (remaining m) = n → assert_remaining_insts m n = inl m;
  assert_remaining_Err m n : len (remaining m) ≠ n → assert_remaining_insts m n = inr BadFormat;
  match_next_nil m f : remaining m = [] → match_next_inst m f = inr BadFormat;
  match_next_Ok m f i l u :
    remaining m = i :: l → f i = inl u → ∃ m', match_next_inst m f = inl m' ∧ remaining m' = l;
  match_next_Err m f i l e : remaining m = i :: l → f i = inr e → match_next_inst m f = inr e;
}.

(** [should_execute]; it looks at the origin and the instructions only. *)
Definition should_execute {Mx : MatchXcm} (origin : Location) (instructions : list Instruction)
    : unit + ProcessMessageError :=
  if bool_decide (origin = (1, [])) then
    match assert_remaining_insts (matcher instructions) 1 with
    | inr e => inr e
    | inl m =>
      match match_next_inst m (λ inst,
        match inst with
        | HrmpNewChannelOpenRequest _ _ _ | HrmpChannelAccepted _ | HrmpChannelClosing _ _ _ => inl tt
        | OtherInst _ => inr BadFormat
        end) with
      | inr e => inr e
      | inl _ => inl tt
      end
    end
  else inr Unsupported.

(** * Properties *)

Lemma convert_contains l : SupportedAssets_contains l = bool_decide (is_Some (convert l)).
Proof. unfold SupportedAssets_contains, convert. repeat case_match; done. Qed.

Lemma convert_Some l i : convert l = Some i ↔ convert_back i = Some l.
Proof.
  unfold convert, convert_back. change UsdcLocation with (1, USDC_PATH). change UsdtLocation with (1, USDT_PATH).
  split; intros H.
  - repeat case_match; rewrite ?bool_decide_eq_true in *; by simplify_eq.
  - destruct (i =? 1337) eqn:E; [|destruct (i =? 1984) eqn:E'; [|done]]; simplify_eq.
    + rewrite bool_decide_true by done. f_equal. lia.
    + rewrite bool_decide_false, bool_decide_true by done. f_equal. lia.
Qed.

(** The foreign assets of the chain.  [convert] and [convert_back] are inverse to
    each other; the assets accepted are those that convert; and the ids they convert to
    are those of the payment assets of a ROSCA, each of which has its location on
    Asset Hub. *)
Lemma supported_assets l i :
  (convert l = Some i ↔ convert_back i = Some l) ∧
  (SupportedAssets_contains l = true ↔ is_Some (convert l)) ∧
  (is_Some (convert_back i) ↔ ∃ a, PaymentAssets_id a = i).
Proof.
  split_and!.
  - apply convert_Some.
  - rewrite convert_contains. by rewrite bool_decide_eq_true.
  - unfold convert_back. split.
    + intros [l' H]. repeat case_match; [exists USDC | exists USDT | done]; cbn; lia.
    + intros [[] <-]; by eexists.
Qed.

Lemma contains_payment l :
  SupportedAssets_contains l = true ↔ ∃ a, convert l = Some (PaymentAssets_id a).
Proof.
  rewrite convert_contains, bool_decide_eq_true. split; [|intros [a ->]; by eexists].
  unfold convert. intros [i H]. repeat case_match; simplify_eq; [by exists USDC | by exists USDT].
Qed.

Lemma AssetHubParachain_eq l : AssetHubParachain_contains l = true ↔ l = (1, [Parachain 1000]).
Proof.
  split; [|by intros ->]. destruct l as [n [|[id| | | |] [|]]]; cbn; repeat case_match; try done.
  intros ->%Z.eqb_eq. done.
Qed.

(** A transfer of reserve assets passes the filter when all of them are payment assets,
    wherever it comes from. *)
Lemma asset_hub_transfers item :
  AssetHubAssets_contains item = true ↔ ∀ x, x ∈ item.2 → ∃ a, convert (asset_id x) = Some (PaymentAssets_id a).
Proof.
  destruct item as [l assets]. cbn. rewrite forallb_forall.
  setoid_rewrite list_elem_of_In. by setoid_rewrite contains_payment.
Qed.

Context {Mx : MatchXcm} {Lx : MatchXcmLaws Mx}.

(** An instruction that tells of an HRMP channel. *)
Definition is_hrmp (i : Instruction) : bool := match i with OtherInst _ => false | _ => true end.

(** The free pass of the barrier is for a single HRMP notification from the relay chain
    and nothing else; another origin is refused as unsupported, and another message of the
    relay chain as badly formed. *)
Lemma should_execute_eq origin instructions :
  should_execute origin instructions =
    if bool_decide (origin = RelayLocation)
    then match instructions with [i] => if is_hrmp i then inl tt else inr BadFormat | _ => inr BadFormat end
    else inr Unsupported.
Proof.
  unfold should_execute, RelayLocation. case_bool_decide; [|done].
  destruct instructions as [|i [|i' l]].
  1,3: rewrite assert_remaining_Err; [done|rewrite remaining_matcher; unfold len; cbn; lia].
  rewrite assert_remaining_Ok by by rewrite remaining_matcher.
  destruct (is_hrmp i) eqn:Hi.
  - edestruct match_next_Ok as (m' & -> & _); [by rewrite remaining_matcher | by destruct i | done].
  - erewrite match_next_Err; [done | by rewrite remaining_matcher | by destruct i].
Qed.

End xcm.

(** * A concrete message format and matcher *)

#[export] Instance SampleXcm : Xcm := {|
  BodyId := Z; Executive := 1; BodyPart := unit; OtherJunction := Empty_set; Fungibility := Z;
  OtherInstruction := unit;
|}.

#[export] Instance SampleMatchXcm : MatchXcm (X := SampleXcm) := {|
  Matcher := list (Instruction (X := SampleXcm));
  matcher l := l;
  remaining l := l;
  assert_remaining_insts l n := if len l =? n then inl l else inr BadFormat;
  match_next_inst l f :=
    match l with
    | [] => inr BadFormat
    | i :: l => match f i with inl _ => inl l | inr e => inr e end
    end;
|}.
#[export] Instance SampleMatchXcm_laws : MatchXcmLaws SampleMatchXcm.
Proof.
  split; cbn.
  - done.
  - intros m n Hn%Z.eqb_eq. by rewrite Hn.
  - intros m n Hn%Z.eqb_neq. by rewrite Hn.
  - by intros m f ->.
  - intros m f i l u -> ->. eauto.
  - by intros m f i l e -> ->.
Qed.
