(* ===== verification/RuntimeXcmExecutor.v ===== *)
(** Which cross-chain messages are executed: the [Barrier] of
    [runtime/src/configs/xcm_config.rs].  The combinators are those of [xcm_builder]: an
    interface with their documented behaviour as laws. *)

From S2P Require Import Prelude RoscaTypes Weights RuntimeFilters RuntimeXcm.

(** * Barriers *)

(** [ShouldExecute] and the barriers of [xcm_builder].  [admits b origin instructions
    max_weight credit] tells whether [b] lets the message through, with the weight
    credit of its [Properties]. *)
Class Barriers {X : Xcm} {W : SpWeights} : Type := {
  ShouldExecute : Type;
  admits : ShouldExecute → Location → list Instruction → Weight → Weight → bool;
  (** An implementation that looks at the origin and the instructions only. *)
  implement : (Location → list Instruction → unit + ProcessMessageError) → ShouldExecute;
  tuple : list ShouldExecute → ShouldExecute;
  TrailingSetTopicAsId : ShouldExecute → ShouldExecute;
  DenyThenTry : ShouldExecute → ShouldExecute → ShouldExecute;
  DenyReserveTransferToRelayChain : ShouldExecute;
  TakeWeightCredit : ShouldExecute;
  AllowKnownQueryResponses : ShouldExecute;
  WithComputedOrigin : ShouldExecute → list Junction → Z → ShouldExecute;
  AllowTopLevelPaidExecutionFrom : (Location → bool) → ShouldExecute;
  AllowUnpaidExecutionFrom : (Location → bool) → ShouldExecute;
  AllowSubscriptionsFrom : (Location → bool) → ShouldExecute;
  (** [Contains] for a tuple. *)
  contains_any : list (Location → bool) → Location → bool;
  (** What these look at: the message without a topic at its end; the origin that the
      leading instructions compute, with the rest of the message; whether it begins by
      paying for its execution; an expected response; a version subscription. *)
  without_topic : list Instruction → list Instruction;
  computed_origin : list Junction → Z → Location → list Instruction → option (Location * list Instruction);
  pays_first : list Instruction → Weight → bool;
  known_response : Location → list Instruction → bool;
  version_subscription : list Instruction → bool;
}.

Class BarriersLaws `{B : Barriers} : Prop := {
  admits_implement f o l w c : admits (implement f) o l w c = true ↔ f o l = inl tt;
  admits_tuple bs o l w c : admits (tuple bs) o l w c = true ↔ ∃ b, b ∈ bs ∧ admits b o l w c = true;
  admits_topic b o l w c :
    admits (TrailingSetTopicAsId b) o l w c = true ↔ admits b o (without_topic l) w c = true;
  admits_deny d a o l w c :
    admits (DenyThenTry d a) o l w c = true ↔ admits d o l w c = true ∧ admits a o l w c = true;
  admits_credit o l w c :
    admits TakeWeightCredit o l w c = true ↔ ref_time w ≤ ref_time c ∧ proof_size w ≤ proof_size c;
  admits_response o l w c : admits AllowKnownQueryResponses o l w c = true ↔ known_response o l = true;
  admits_computed b u n o l w c :
    admits (WithComputedOrigin b u n) o l w c = true ↔
      ∃ o' l', computed_origin u n o l = Some (o', l') ∧ admits b o' l' w c = true;
  admits_paid f o l w c :
    admits (AllowTopLevelPaidExecutionFrom f) o l w c = true ↔ f o = true ∧ pays_first l w = true;
  admits_unpaid f o l w c : admits (AllowUnpaidExecutionFrom f) o l w c = true ↔ f o = true;
  admits_subscription f o l w c :
    admits (AllowSubscriptionsFrom f) o l w c = true ↔ f o = true ∧ version_subscription l = true;
  contains_any_spec fs o : contains_any fs o = true ↔ ∃ f, f ∈ fs ∧ f o = true;
}.

Section barrier.
Context {X : Xcm} {W : SpWeights} {B : Barriers} {Mx : MatchXcm}.
(** [ParachainInfo::parachain_id()]. *)
Context (parachain_id : Z).

(** [Everything]. *)
Definition Everything (_ : Location) : bool := true.

(** [UniversalLocation]. *)
Definition UniversalLocation : list Junction := [Parachain parachain_id].

(** [AllowHrmpNotificationsFromRelayChain]. *)
Definition AllowHrmpNotificationsFromRelayChain : ShouldExecute := implement should_execute.

(** [Barrier]. *)
Definition Barrier : ShouldExecute :=
  TrailingSetTopicAsId
    (DenyThenTry DenyReserveTransferToRelayChain
       (tuple [TakeWeightCredit;
               AllowKnownQueryResponses;
               WithComputedOrigin
                 (tuple [AllowHrmpNotificationsFromRelayChain;
                         AllowTopLevelPaidExecutionFrom Everything;
                         AllowUnpaidExecutionFrom
                           (contains_any [AssetHubParachain_contains; ParentOrParentsExecutivePlurality_contains]);
                         AllowSubscriptionsFrom ParentOrSiblings_contains])
                 UniversalLocation 8])).
End barrier.

(** * Properties *)

Section admitted.
Context {X : Xcm} {W : SpWeights} {B : Barriers} {BL : BarriersLaws} {Mx : MatchXcm} {Lx : MatchXcmLaws Mx}.
Implicit Types (o : Location) (l : list Instruction) (w c : Weight).

(** The locations whose messages are executed without payment. *)
Definition trusted o : Prop :=
  o = (1, [Parachain 1000]) ∨ o = RelayLocation ∨ ∃ part, o = (1, [Plurality Executive part]).

(** A message that is let through at the computed origin [o] without a weight credit
    and without being an expected response. *)
Inductive passes o l w : Prop :=
  | passes_hrmp i : o = RelayLocation → l = [i] → is_hrmp i = true → passes o l w
  | passes_paid : pays_first l w = true → passes o l w
  | passes_trusted : trusted o → passes o l w
  | passes_subscription id :
      o = RelayLocation ∨ o = (1, [Parachain id]) → version_subscription l = true → passes o l w.

Lemma ParentOrParentsExecutivePlurality_eq o :
  ParentOrParentsExecutivePlurality_contains o = true ↔ o = RelayLocation ∨ ∃ part, o = (1, [Plurality Executive part]).
Proof.
  split.
  - destruct o as [n [|[| | |id part|] [|]]]; cbn; repeat case_match; try done; [by left|].
    intros ->%bool_decide_eq_true. by right; exists part.
  - intros [->|[part ->]]; [done|]. by apply bool_decide_eq_true.
Qed.

Lemma ParentOrSiblings_eq o :
  ParentOrSiblings_contains o = true ↔ o = RelayLocation ∨ ∃ id, o = (1, [Parachain id]).
Proof.
  split; [|by intros [->|[id ->]]].
  destruct o as [n [|[id| | | |] [|]]]; cbn; repeat case_match; try done; eauto.
Qed.

Lemma hrmp_admitted o l :
  should_execute o l = inl tt ↔ o = RelayLocation ∧ ∃ i, l = [i] ∧ is_hrmp i = true.
Proof.
  rewrite should_execute_eq. case_bool_decide as Ho; [|split; [done | by intros [? _]]].
  split; [|intros [_ (i & -> & ->)]; done]. intros Hl. split; [done|].
  destruct l as [|i [|]]; try done. exists i. by destruct (is_hrmp i).
Qed.

(** The barriers under [WithComputedOrigin]. *)
Lemma computed_admitted o l w c :
  admits (tuple [AllowHrmpNotificationsFromRelayChain; AllowTopLevelPaidExecutionFrom Everything;
                 AllowUnpaidExecutionFrom (contains_any [AssetHubParachain_contains; ParentOrParentsExecutivePlurality_contains]);
                 AllowSubscriptionsFrom ParentOrSiblings_contains]) o l w c = true ↔ passes o l w.
Proof.
  rewrite admits_tuple. split.
  - intros (b & Hb & Ha). case_elem Hb.
    + apply admits_implement, hrmp_admitted in Ha as (-> & i & -> & Hi). by eapply passes_hrmp.
    + apply admits_paid in Ha as [_ Ha]. by apply passes_paid.
    + apply admits_unpaid, contains_any_spec in Ha as (f & Hf & Ho). apply passes_trusted.
      case_elem Hf; [by left; apply AssetHubParachain_eq | by right; apply ParentOrParentsExecutivePlurality_eq].
    + apply admits_subscription in Ha as [Ho Hl].
      apply ParentOrSiblings_eq in Ho as [->|[id ->]]; [apply (passes_subscription _ _ _ 0) | eapply passes_subscription]; eauto.
  - intros [i -> -> Hi|Hp|Ht|id Ho Hl].
    + exists AllowHrmpNotificationsFromRelayChain. split; [set_solver|]. apply admits_implement, hrmp_admitted. eauto.
    + exists (AllowTopLevelPaidExecutionFrom Everything). split; [set_solver|]. by apply admits_paid.
    + eexists. split; [do 2 right; left|]. apply admits_unpaid, contains_any_spec. destruct Ht as [Ht|Ht].
      * exists AssetHubParachain_contains. split; [left | by apply AssetHubParachain_eq].
      * exists ParentOrParentsExecutivePlurality_contains.
        split; [right; left | by apply ParentOrParentsExecutivePlurality_eq].
    + exists (AllowSubscriptionsFrom ParentOrSiblings_contains). split; [set_solver|].
      apply admits_subscription. split; [|done]. apply ParentOrSiblings_eq. naive_solver.
Qed.

(** C39: what the barrier lets in.  A message that is not a reserve transfer denied at once
    is executed exactly when it comes with enough weight credit, when it is a response
    that was asked for, or when the origin its leading instructions compute is entitled to
    it: any origin that pays first, Asset Hub, the relay chain and its executive body
    without payment, the relay chain for a single HRMP notification, and the relay chain
    or a sibling for a version subscription. *)
Theorem barrier_admits parachain_id o l w c :
  let body := without_topic l in
  admits (Barrier parachain_id) o l w c = true ↔
    admits DenyReserveTransferToRelayChain o body w c = true ∧
    (ref_time w ≤ ref_time c ∧ proof_size w ≤ proof_size c ∨
     known_response o body = true ∨
     ∃ o' l', computed_origin [Parachain parachain_id] 8 o body = Some (o', l') ∧ passes o' l' w).
Proof.
  intros body. unfold Barrier. rewrite admits_topic, admits_deny, admits_tuple. fold body.
  setoid_rewrite <- (λ o l w, computed_admitted o l w c).
  rewrite <- admits_credit with (o := o) (l := body), <- admits_response with (w := w) (c := c), <- admits_computed.
  set (T := WithComputedOrigin _ _ _). split; (intros [Hd Ha]; split; [exact Hd|]).
  - destruct Ha as (b & Hb & Ha). case_elem Hb; auto.
  - destruct Ha as [Ha|[Ha|Ha]]; [exists TakeWeightCredit | exists AllowKnownQueryResponses | exists T]; set_solver.
Qed.
End admitted.

(** * Concrete barriers *)

(** Barriers as predicates; the message format has one instruction besides the HRMP
    notifications, nothing is computed from a message and nobody pays. *)
#[local] Instance SampleBarriers : Barriers (X := SampleXcm) (W := SampleWeights) := {|
  ShouldExecute :=
    Location (X := SampleXcm) → list (Instruction (X := SampleXcm)) → Z * Z → Z * Z → bool;
  admits b := b;
  implement f o l _ _ := match f o l with inl _ => true | inr _ => false end;
  tuple bs o l w c := existsb (λ b, b o l w c) bs;
  TrailingSetTopicAsId b := b;
  DenyThenTry d a o l w c := d o l w c && a o l w c;
  DenyReserveTransferToRelayChain _ _ _ _ := true;
  TakeWeightCredit _ _ w c := (w.1 <=? c.1) && (w.2 <=? c.2);
  AllowKnownQueryResponses _ _ _ _ := false;
  WithComputedOrigin b _ _ := b;
  AllowTopLevelPaidExecutionFrom _ _ _ _ _ := false;
  AllowUnpaidExecutionFrom f o _ _ _ := f o;
  AllowSubscriptionsFrom _ _ _ _ _ := false;
  contains_any fs o := existsb (λ f, f o) fs;
  without_topic l := l;
  computed_origin _ _ o l := Some (o, l);
  pays_first _ _ := false;
  known_response _ _ := false;
  version_subscription _ := false;
|}.
#[local] Instance SampleBarriers_laws : BarriersLaws (B := SampleBarriers).
Proof.
  split; cbn.
  - intros f o l _ _. destruct (f o l) as [[]|]; naive_solver.
  - intros bs o l w c. rewrite existsb_exists. by setoid_rewrite list_elem_of_In.
  - done.
  - intros. apply andb_true_iff.
  - intros _ _ w c. rewrite andb_true_iff, !Z.leb_le. done.
  - done.
  - intros b _ _ o l w c. naive_solver.
  - naive_solver.
  - done.
  - naive_solver.
  - intros fs o. rewrite existsb_exists. by setoid_rewrite list_elem_of_In.
Qed.

Lemma barrier_admits_witness :
  admits (Barrier 2000) (1, [Parachain 1000]) [OtherInst tt] (1000, 1000) (0, 0) = true ∧
  admits (Barrier 2000) (1, [Parachain 2001]) [OtherInst tt] (1000, 1000) (0, 0) ≠ true.
Proof.
  split.
  - apply (barrier_admits (W := SampleWeights) 2000). split; [done|]. do 2 right. eexists _, _. split; [done|].
    apply passes_trusted. by left.
  - rewrite (barrier_admits (W := SampleWeights) 2000). intros [_ [[? _]|[?|(o & l & [= <- <-] & Hp)]]]; [done | done |].
    destruct Hp as [i Ho| |[Ho|[Ho|[part Ho]]]|]; done.
Defined.
