(* ===== verification/RuntimePrivileges.v ===== *)
(** Who may do what on the chain: every origin check that the pallets' configurations in
    [runtime/src/configs/] set for their privileged calls, the origin of
    [runtime/src/types.rs] that may change the collators, and the conversion of a
    cross-chain message's origin for [Transact].  The converters and checks themselves are
    those of [xcm_builder], [pallet_xcm] and [frame_support]: an interface with their
    documented behaviour as laws. *)

From S2P Require Import Prelude RoscaTypes RuntimeFilters RuntimeXcm RuntimeGovernance.

(** * Origins, accounts and assets *)

(** [pallet_xcm::Origin], [cumulus_pallet_xcm::Origin], the converters of [xcm_builder]
    from locations to accounts and to origins, and the checks on origins of [pallet_xcm]
    and [frame_support]. *)
Class XcmOrigins {X : Xcm} {O : Origins} : Type := {
  NetworkId : Type;
  OriginKind : Type;
  Defense : BodyId;
  Voice : BodyPart;
  from_xcm : Location → PalletsOrigin;
  from_relay : PalletsOrigin;
  from_sibling : Z → PalletsOrigin;
  into_origin : PalletsOrigin → RuntimeOrigin;
  (** [ConvertLocation<AccountId>]. *)
  ConvertLocation : Type;
  ParentIsPreset : ConvertLocation;
  SiblingParachainConvertsVia : ConvertLocation;
  AccountId32Aliases : option NetworkId → ConvertLocation;
  convert_location_tuple : list ConvertLocation → ConvertLocation;
  (** [ConvertOrigin<RuntimeOrigin>]. *)
  ConvertOrigin : Type;
  convert_origin : ConvertOrigin → Location → OriginKind → option RuntimeOrigin;
  SovereignSignedViaLocation : ConvertLocation → ConvertOrigin;
  RelayChainAsNative : RuntimeOrigin → ConvertOrigin;
  SiblingParachainAsNative : ConvertOrigin;
  SignedAccountId32AsNative : option NetworkId → ConvertOrigin;
  XcmPassthrough : ConvertOrigin;
  convert_origin_tuple : list ConvertOrigin → ConvertOrigin;
  (** [EnsureOrigin]. *)
  EnsureRoot : RuntimeOrigin → unit + RuntimeOrigin;
  EnsureXcm : (Location → bool) → RuntimeOrigin → Location + RuntimeOrigin;
  IsVoiceOfBody : Location → BodyId → Location → bool;
  EitherOfDiverse {A B : Type} :
    (RuntimeOrigin → A + RuntimeOrigin) → (RuntimeOrigin → B + RuntimeOrigin) →
    RuntimeOrigin → (A + B) + RuntimeOrigin;
  (** [ContainsPair<Asset, Location>]. *)
  NativeAsset : Asset → Location → bool;
  contains_pair_any : list (Asset → Location → bool) → Asset → Location → bool;
}.

Class XcmOriginsLaws `{XO : XcmOrigins} : Prop := {
  caller_into p : caller (into_origin p) = p;
  (** The origins of different pallets are different. *)
  from_xcm_system l r : from_xcm l ≠ from_system r;
  from_xcm_pallet l c : from_xcm l ≠ from_pallet c;
  from_relay_system r : from_relay ≠ from_system r;
  from_relay_pallet c : from_relay ≠ from_pallet c;
  from_relay_xcm l : from_relay ≠ from_xcm l;
  from_sibling_system i r : from_sibling i ≠ from_system r;
  from_sibling_pallet i c : from_sibling i ≠ from_pallet c;
  from_sibling_xcm i l : from_sibling i ≠ from_xcm l;
  from_xcm_inj :: Inj (=) (=) from_xcm;
  (** What the converters produce. *)
  sovereign_origin t l k o :
    convert_origin (SovereignSignedViaLocation t) l k = Some o → ∃ a, caller o = from_system (Signed a);
  relay_origin r l k o : convert_origin (RelayChainAsNative r) l k = Some o → o = r;
  sibling_origin l k o : convert_origin SiblingParachainAsNative l k = Some o → ∃ i, caller o = from_sibling i;
  account_origin n l k o :
    convert_origin (SignedAccountId32AsNative n) l k = Some o → ∃ a, caller o = from_system (Signed a);
  passthrough_origin l k o : convert_origin XcmPassthrough l k = Some o → caller o = from_xcm l;
  convert_origin_any cs l k o :
    convert_origin (convert_origin_tuple cs) l k = Some o → ∃ c, c ∈ cs ∧ convert_origin c l k = Some o;
  (** What the checks accept. *)
  ensure_root_Ok o : caller o = from_system Root → EnsureRoot o = inl tt;
  ensure_root_Err o : caller o ≠ from_system Root → EnsureRoot o = inr o;
  ensure_xcm f o l : EnsureXcm f o = inl l ↔ caller o = from_xcm l ∧ f l = true;
  voice_of_body p b l : IsVoiceOfBody p b l = true ↔ l = (p.1, p.2 ++ [Plurality b Voice]);
  either_left {A B : Type} (f : RuntimeOrigin → A + RuntimeOrigin) (g : RuntimeOrigin → B + RuntimeOrigin) o a :
    f o = inl a → EitherOfDiverse f g o = inl (inl a);
  either_right {A B : Type} (f : RuntimeOrigin → A + RuntimeOrigin) (g : RuntimeOrigin → B + RuntimeOrigin) o o' :
    f o = inr o' → EitherOfDiverse f g o = match g o' with inl b => inl (inr b) | inr e => inr e end;
  native_asset a l : NativeAsset a l = true ↔ asset_id a = l;
  contains_pair_spec fs a l : contains_pair_any fs a l = true ↔ ∃ f, f ∈ fs ∧ f a l = true;
}.

Section conversion.
Context {X : Xcm} {O : Origins} {XO : XcmOrigins}.

(** [RelayNetwork] and [RelayChainOrigin]. *)
Definition RelayNetwork : option NetworkId := None.
Definition RelayChainOrigin : RuntimeOrigin := into_origin from_relay.

(** [LocationToAccountId]. *)
Definition LocationToAccountId : ConvertLocation :=
  convert_location_tuple [ParentIsPreset; SiblingParachainConvertsVia; AccountId32Aliases RelayNetwork].

(** [XcmOriginToTransactDispatchOrigin], the [OriginConverter] of [XcmConfig]. *)
Definition XcmOriginToTransactDispatchOrigin : ConvertOrigin :=
  convert_origin_tuple
    [SovereignSignedViaLocation LocationToAccountId;
     RelayChainAsNative RelayChainOrigin;
     SiblingParachainAsNative;
     SignedAccountId32AsNative RelayNetwork;
     XcmPassthrough].

(** [Reserves], the [IsReserve] of [XcmConfig]; its [IsTeleporter] is the empty tuple. *)
Definition Reserves : Asset → Location → bool := contains_pair_any [NativeAsset; AssetHubAssets_contains_pair].
Definition IsTeleporter : Asset → Location → bool := contains_pair_any [].

(** [CollatorSelectionUpdateOrigin] of [types.rs], with [StakingAdminBodyId]. *)
Definition StakingAdminBodyId : BodyId := Defense.
Definition CollatorSelectionUpdateOrigin : RuntimeOrigin → (unit + Location) + RuntimeOrigin :=
  EitherOfDiverse EnsureRoot (EnsureXcm (IsVoiceOfBody RelayLocation StakingAdminBodyId)).

(** [ApproveOrigin] and [RejectOrigin] of [pallet_treasury::Config]. *)
Definition ApproveOrigin : RuntimeOrigin → (unit + unit) + RuntimeOrigin :=
  EitherOfDiverse EnsureRoot Treasurer_try_origin.
Definition RejectOrigin : RuntimeOrigin → (unit + unit) + RuntimeOrigin :=
  EitherOfDiverse EnsureRoot Treasurer_try_origin.

(** [pallet_whitelist::Config], [pallet_referenda::Config], and the other pallets. *)
Definition WhitelistOrigin : RuntimeOrigin → unit + RuntimeOrigin := EnsureRoot.
Definition DispatchWhitelistedOrigin : RuntimeOrigin → unit + RuntimeOrigin :=
  EitherOf EnsureRoot WhitelistedCaller_try_origin.
Definition CancelOrigin : RuntimeOrigin → unit + RuntimeOrigin := EnsureRoot.
Definition KillOrigin : RuntimeOrigin → unit + RuntimeOrigin := EnsureRoot.
Definition ScheduleOrigin : RuntimeOrigin → unit + RuntimeOrigin := EnsureRoot.
Definition ManagerOrigin : RuntimeOrigin → unit + RuntimeOrigin := EnsureRoot.
Definition ForceOrigin : RuntimeOrigin → unit + RuntimeOrigin := EnsureRoot.
Definition ControllerOrigin : RuntimeOrigin → unit + RuntimeOrigin := EnsureRoot.
Definition AdminOrigin : RuntimeOrigin → unit + RuntimeOrigin := EnsureRoot.

(** The privileges of the runtime, and the origins they are granted to. *)
Inductive Privilege : Type :=
  | ScheduleCalls | ManagePreimages | ForceAssets | ControlXcmpQueue | AdminXcm
  | SpendTreasury | ApproveSpend | RejectSpend | UpdateCollators
  | WhitelistCalls | DispatchWhitelisted | CancelReferendum | KillReferendum.

Definition is_Ok {A B : Type} (r : A + B) : bool := match r with inl _ => true | inr _ => false end.

Definition granted (p : Privilege) (o : RuntimeOrigin) : bool :=
  match p with
  | ScheduleCalls => is_Ok (ScheduleOrigin o)
  | ManagePreimages => is_Ok (ManagerOrigin o)
  | ForceAssets => is_Ok (ForceOrigin o)
  | ControlXcmpQueue => is_Ok (ControllerOrigin o)
  | AdminXcm => is_Ok (AdminOrigin o)
  | SpendTreasury => is_Ok (TreasurySpender o)
  | ApproveSpend => is_Ok (ApproveOrigin o)
  | RejectSpend => is_Ok (RejectOrigin o)
  | UpdateCollators => is_Ok (CollatorSelectionUpdateOrigin o)
  | WhitelistCalls => is_Ok (WhitelistOrigin o)
  | DispatchWhitelisted => is_Ok (DispatchWhitelistedOrigin o)
  | CancelReferendum => is_Ok (CancelOrigin o)
  | KillReferendum => is_Ok (KillOrigin o)
  end.
End conversion.

Section privileges.
Context {X : Xcm} {O : Origins} {OL : OriginsLaws O} {XO : XcmOrigins} {XL : XcmOriginsLaws}.
Implicit Types (l : Location) (o : RuntimeOrigin) (k : OriginKind) (p : Privilege) (c : Origin).

(** The privileges of the origins of OpenGov. *)
Definition entitled c p : bool :=
  match p, c with
  | SpendTreasury, (Treasurer | SmallTipper | BigTipper | SmallSpender | MediumSpender | BigSpender) => true
  | (ApproveSpend | RejectSpend), Treasurer => true
  | DispatchWhitelisted, WhitelistedCaller => true
  | _, _ => false
  end.

Lemma granted_root p o : caller o = from_system Root → granted p o = true.
Proof.
  intros Ho. pose proof (ensure_root_Ok o Ho) as Hr.
  destruct p; cbn; unfold ScheduleOrigin, ManagerOrigin, ForceOrigin, ControllerOrigin, AdminOrigin, WhitelistOrigin,
    CancelOrigin, KillOrigin, ApproveOrigin, RejectOrigin, CollatorSelectionUpdateOrigin, DispatchWhitelistedOrigin;
    rewrite ?(TreasurySpender_root o Ho), ?(either_left _ _ _ _ Hr), ?(EitherOf_left _ _ _ _ Hr), ?Hr; done.
Qed.

(** Without the root origin, only the checks with an alternative are left. *)
Lemma granted_other p o :
  caller o ≠ from_system Root →
  granted p o = match p with
    | SpendTreasury => is_Ok (Spender_try_origin o)
    | ApproveSpend | RejectSpend => is_Ok (Treasurer_try_origin o)
    | DispatchWhitelisted => is_Ok (WhitelistedCaller_try_origin o)
    | UpdateCollators => is_Ok (EnsureXcm (IsVoiceOfBody RelayLocation StakingAdminBodyId) o)
    | _ => false
    end.
Proof.
  intros Ho. pose proof (ensure_root_Err o Ho) as Hr.
  destruct p; cbn; unfold ScheduleOrigin, ManagerOrigin, ForceOrigin, ControllerOrigin, AdminOrigin, WhitelistOrigin,
    CancelOrigin, KillOrigin, ApproveOrigin, RejectOrigin, CollatorSelectionUpdateOrigin, DispatchWhitelistedOrigin;
    rewrite ?(TreasurySpender_other o Ho), ?(either_right _ _ _ _ Hr), ?(EitherOf_right _ _ _ _ Hr), ?Hr; try done;
    unfold is_Ok; by repeat case_match.
Qed.

Lemma unit_granted name o : is_Ok (unit_try_origin name o) = true ↔ caller o = from_pallet name.
Proof.
  rewrite <- into_custom_Ok. unfold unit_try_origin, and_then. destruct (into_custom o) as [c|o'] eqn:Ho.
  - case_bool_decide as Hc; [by subst|]. split; [done|]. by intros [= ?].
  - by split.
Qed.

Lemma spender_granted o :
  is_Ok (Spender_try_origin o) = true ↔ ∃ c, caller o = from_pallet c ∧ entitled c SpendTreasury = true.
Proof.
  setoid_rewrite <- into_custom_Ok. unfold Spender_try_origin, and_then. destruct (into_custom o) as [c|o'] eqn:Ho.
  - split; [intros Hc; exists c; by destruct c|]. intros (c' & [= ->] & He). by destruct c'.
  - split; [done | by intros (c & ? & _)].
Qed.

Lemma collators_granted o :
  is_Ok (EnsureXcm (IsVoiceOfBody RelayLocation StakingAdminBodyId) o) = true ↔
  caller o = from_xcm (1, [Plurality Defense Voice]).
Proof.
  destruct (EnsureXcm _ o) as [l|o'] eqn:Ho; cbn.
  - apply ensure_xcm in Ho as [Ho Hl]. apply voice_of_body in Hl as ->. done.
  - split; [done|]. intros Hc. assert (EnsureXcm (IsVoiceOfBody RelayLocation StakingAdminBodyId) o = inl (1, [Plurality Defense Voice])) as H;
      [|by rewrite H in Ho]. apply ensure_xcm. split; [done | by apply voice_of_body].
Qed.

Lemma root_or_other o : caller o = from_system Root ∨ caller o ≠ from_system Root.
Proof.
  destruct (try_into_system (caller o)) as [r|] eqn:Ho.
  - apply try_into_system_Some in Ho. rewrite Ho. destruct r; [by left | |]; right; by intros ?%(inj from_system).
  - right. intros Hr. apply try_into_system_Some in Hr. congruence.
Qed.

Lemma granted_spec p o :
  granted p o = true ↔
    caller o = from_system Root ∨ (∃ c, caller o = from_pallet c ∧ entitled c p = true) ∨
    p = UpdateCollators ∧ caller o = from_xcm (1, [Plurality Defense Voice]).
Proof.
  destruct (root_or_other o) as [Ho|Ho]; [split; [by left | by intros _; apply granted_root]|].
  rewrite (granted_other p o Ho).
  assert (∀ q c, p = q → (∀ c', entitled c' q = true ↔ c' = c) →
    (is_Ok (unit_try_origin c o) = true ↔ ∃ c, caller o = from_pallet c ∧ entitled c p = true)) as Hunit.
  { intros q c -> Hq. rewrite unit_granted. setoid_rewrite Hq. naive_solver. }
  destruct p; cbn [entitled] in *.
  all: try (split; [done | intros [?|[(c & _ & ?)|[? _]]]; try done; by destruct c]).
  - rewrite spender_granted. naive_solver.
  - rewrite (Hunit ApproveSpend Treasurer); [naive_solver | done | by intros []].
  - rewrite (Hunit RejectSpend Treasurer); [naive_solver | done | by intros []].
  - rewrite collators_granted. split; [auto|]. intros [?|[(c & _ & ?)|[_ ?]]]; done.
  - rewrite (Hunit DispatchWhitelisted WhitelistedCaller); [naive_solver | done | by intros []].
Qed.

(** C26: who holds the privileges of the runtime.  Each of them is granted to the root
    origin; apart from it, spending treasury funds to the six spending origins, approving
    and rejecting spends to the treasurer, dispatching a whitelisted call to the
    whitelisted caller, and changing the collators to the voice of the relay chain's
    defense body; and to no other origin.  In particular the origins of the tracks for
    cancelling and killing referenda hold no privilege at all. *)
Theorem privileges_granted p o :
  (granted p o = true ↔
    caller o = from_system Root ∨ (∃ c, caller o = from_pallet c ∧ entitled c p = true) ∨
    p = UpdateCollators ∧ caller o = from_xcm (1, [Plurality Defense Voice])) ∧
  (caller o = from_pallet ReferendumCanceller ∨ caller o = from_pallet ReferendumKiller → granted p o = false).
Proof.
  split; [apply granted_spec|]. intros Hc. apply not_true_iff_false.
  assert (∃ c, caller o = from_pallet c ∧ entitled c p = false) as (c & Ho & He)
    by (destruct Hc; eexists; (split; [done|]); by destruct p).
  intros [Hr|[(c' & Heq & He')|[_ Hx]]]%granted_spec.
  - by apply (custom_not_root o c).
  - rewrite Ho in Heq. apply (inj from_pallet) in Heq as <-. by rewrite He in He'.
  - rewrite Ho in Hx. by apply eq_sym, from_xcm_pallet in Hx.
Qed.

(** What a location becomes for [Transact]. *)
Lemma transact_origin l k o :
  convert_origin XcmOriginToTransactDispatchOrigin l k = Some o →
  (∃ a, caller o = from_system (Signed a)) ∨ caller o = from_relay ∨ (∃ i, caller o = from_sibling i) ∨
  caller o = from_xcm l.
Proof.
  intros (c & Hc & Ho)%convert_origin_any. case_elem Hc.
  - left. by eapply sovereign_origin.
  - apply relay_origin in Ho as ->. right; left. apply caller_into.
  - right; right; left. by eapply sibling_origin.
  - left. by eapply account_origin.
  - do 3 right. by eapply passthrough_origin.
Qed.

(** Neither the root origin nor an origin of OpenGov. *)
Definition unprivileged o : Prop := caller o ≠ from_system Root ∧ ∀ c, caller o ≠ from_pallet c.

Lemma transact_unprivileged l k o :
  convert_origin XcmOriginToTransactDispatchOrigin l k = Some o → unprivileged o.
Proof.
  unfold unprivileged. intros [[a Ho]|[Ho|[[i Ho]|Ho]]]%transact_origin; rewrite Ho; split.
  - by intros ?%(inj from_system).
  - intros c. apply from_system_pallet.
  - apply from_relay_system.
  - apply from_relay_pallet.
  - apply from_sibling_system.
  - apply from_sibling_pallet.
  - apply from_xcm_system.
  - apply from_xcm_pallet.
Qed.

Lemma unprivileged_track o : unprivileged o → track_for (caller o) = None.
Proof.
  intros [Hr Hc]. destruct (track_for (caller o)) as [i|] eqn:Hi; [|done].
  apply track_for_origins, elem_of_zip_l in Hi. apply elem_of_cons in Hi as [Hi|Hi]; [done|].
  apply list_elem_of_fmap in Hi as (c & Hi & _). by destruct (Hc c).
Qed.

(** C40: a [Transact] of another chain never acts with the privileges of this one.
    Whatever location a message comes from and whatever kind of origin it asks for, the
    origin it runs with is not the root and has no referenda track, and the only privilege
    it can hold is to change the collators, when the message speaks for the defense body
    of the relay chain. *)
Theorem transact_cannot_govern l k o :
  convert_origin XcmOriginToTransactDispatchOrigin l k = Some o →
  caller o ≠ from_system Root ∧ track_for (caller o) = None ∧
  ∀ p, granted p o = true → p = UpdateCollators ∧ l = (1, [Plurality Defense Voice]).
Proof.
  intros Hconv. pose proof (transact_unprivileged _ _ _ Hconv) as [Hr Hc].
  split_and!; [done | by apply unprivileged_track|]. intros p [?|[(c & Ho & _)|[-> Hx]]]%granted_spec; [done | |].
  - by destruct (Hc c).
  - split; [done|]. apply transact_origin in Hconv as [[a Ho]|[Ho|[[i Ho]|Ho]]]; rewrite Ho in Hx.
    + by apply eq_sym, from_xcm_system in Hx.
    + by apply from_relay_xcm in Hx.
    + by apply from_sibling_xcm in Hx.
    + by apply (inj from_xcm) in Hx.
Qed.

(** The reserves: an asset is trusted from the chain whose native asset it is, and the
    payment assets from Asset Hub; nothing is teleported, so the two stay exclusive. *)
Lemma reserves_accepted a l :
  (Reserves a l = true ↔ asset_id a = l ∨ l = (1, [Parachain 1000]) ∧ ∃ pa, convert (asset_id a) = Some (PaymentAssets_id pa)) ∧
  IsTeleporter a l ≠ true.
Proof.
  unfold Reserves, IsTeleporter. split.
  - rewrite contains_pair_spec, <- native_asset, <- AssetHubParachain_eq, <- contains_payment.
    assert (AssetHubAssets_contains_pair a l = true ↔
      AssetHubParachain_contains l = true ∧ SupportedAssets_contains (asset_id a) = true) as Hp.
    { rewrite AssetHubParachain_eq. unfold AssetHubAssets_contains_pair. case_bool_decide; naive_solver. }
    rewrite <- Hp. split; [intros (f & Hf & Ha); case_elem Hf; auto|].
    intros [Ha|Ha]; [exists NativeAsset | exists AssetHubAssets_contains_pair]; set_solver.
  - rewrite contains_pair_spec. intros (f & Hf & _). by apply elem_of_nil in Hf.
Qed.
End privileges.

(** * Concrete origins *)

(** The origins of the pallets involved; every location becomes the origin of the [Xcm]
    pallet, the relay chain its own. *)
Inductive XcmCaller : Type :=
  | RawCaller (r : RawOrigin Z)
  | CustomCaller (c : Origin)
  | LocationCaller (l : Location (X := SampleXcm))
  | RelayCaller
  | SiblingCaller (i : Z).

(** An origin is a caller and whether its calls are filtered further than by the
    runtime. *)
#[local] Instance XcmSampleOrigins : Origins := {|
  AccountId := Z;
  PalletsOrigin := XcmCaller;
  RuntimeOrigin := XcmCaller * bool;
  caller := fst;
  from_system := RawCaller;
  from_pallet := CustomCaller;
  try_into_system p := match p with RawCaller r => Some r | _ => None end;
  try_into_pallet p := match p with CustomCaller c => Some c | _ => None end;
  into_custom o := match o.1 with CustomCaller c => inl c | _ => inr o end;
  from_custom c := (CustomCaller c, false);
  EnsureRootWithSuccess n o := match o.1 with RawCaller Root => inl n | _ => inr o end;
  EitherOf A l r o := match l o with inl a => inl a | inr o' => r o' end;
|}.
#[local] Instance XcmSampleOrigins_laws : OriginsLaws XcmSampleOrigins.
Proof.
  split; try done.
  - intros p r. destruct p; naive_solver.
  - intros p c. destruct p; naive_solver.
  - intros r r' H. naive_solver.
  - intros c c' H. naive_solver.
  - intros [p f] c. destruct p; cbn; naive_solver.
  - intros [p f] o'. destruct p; cbn; naive_solver.
  - intros n [p f] Ho. cbn in Ho. by subst.
  - intros n [[[]| | | |] f] Ho; naive_solver.
  - intros A l r o a H. cbn. by rewrite H.
  - intros A l r o o' H. cbn. by rewrite H.
Qed.

Fixpoint first_origin (cs : list (Location (X := SampleXcm) → option (XcmCaller * bool)))
    (l : Location (X := SampleXcm)) : option (XcmCaller * bool) :=
  match cs with
  | [] => None
  | c :: cs => match c l with Some o => Some o | None => first_origin cs l end
  end.

#[local] Instance SampleXcmOrigins : XcmOrigins (X := SampleXcm) (O := XcmSampleOrigins) := {|
  NetworkId := unit;
  OriginKind := unit;
  Defense := (4 : BodyId (Xcm := SampleXcm));
  Voice := (tt : BodyPart (Xcm := SampleXcm));
  from_xcm := (LocationCaller : Location (X := SampleXcm) → PalletsOrigin (Origins := XcmSampleOrigins));
  from_relay := (RelayCaller : PalletsOrigin (Origins := XcmSampleOrigins));
  from_sibling := (SiblingCaller : Z → PalletsOrigin (Origins := XcmSampleOrigins));
  into_origin := ((λ p, (p, false)) : PalletsOrigin (Origins := XcmSampleOrigins) → RuntimeOrigin (Origins := XcmSampleOrigins));
  ConvertLocation := unit;
  ParentIsPreset := tt;
  SiblingParachainConvertsVia := tt;
  AccountId32Aliases _ := tt;
  convert_location_tuple _ := tt;
  ConvertOrigin := Location (X := SampleXcm) → option (XcmCaller * bool);
  convert_origin c l _ := c l;
  SovereignSignedViaLocation _ _ := None;
  RelayChainAsNative r l := if bool_decide (l = (1, [])) then Some r else None;
  SiblingParachainAsNative _ := None;
  SignedAccountId32AsNative _ _ := None;
  XcmPassthrough l := Some (LocationCaller l, false);
  convert_origin_tuple := first_origin;
  EnsureRoot o := match o.1 with RawCaller Root => inl tt | _ => inr o end;
  EnsureXcm f o := match o.1 with LocationCaller l => if f l then inl l else inr o | _ => inr o end;
  IsVoiceOfBody p b l := bool_decide (l = (p.1, p.2 ++ [Plurality b (tt : BodyPart (Xcm := SampleXcm))]));
  EitherOfDiverse A B f g o :=
    match f o with inl a => inl (inl a) | inr o' => match g o' with inl b => inl (inr b) | inr o'' => inr o'' end end;
  NativeAsset a l := bool_decide (asset_id a = l);
  contains_pair_any fs a l := existsb (λ f, f a l) fs;
|}.

Lemma first_origin_any cs l o : first_origin cs l = Some o → ∃ c, c ∈ cs ∧ c l = Some o.
Proof.
  induction cs as [|c cs IH]; cbn; [done|]. destruct (c l) as [o'|] eqn:Hc.
  - intros [= ->]. exists c. split; [left | done].
  - intros (c' & Hin & Ho)%IH. exists c'. split; [by right | done].
Qed.

#[local] Instance SampleXcmOrigins_laws : XcmOriginsLaws (XO := SampleXcmOrigins).
Proof.
  split; cbn; try done.
  - by intros l l' [= ->].
  - intros r l k o. case_bool_decide; naive_solver.
  - naive_solver.
  - intros cs l k o. apply first_origin_any.
  - by intros [p b] ->.
  - intros [[[]| | | |] b]; naive_solver.
  - intros f [[| |l'| |] b] l; cbn; try (split; [done | by intros [? _]]).
    destruct (f l') eqn:Hf; (split; [intros [= <-]; done | intros [[= <-] ?]; congruence]).
  - intros p b l. by rewrite bool_decide_eq_true.
  - intros A B f g o a H. by rewrite H.
  - intros A B f g o o' H. by rewrite H.
  - intros a l. by rewrite bool_decide_eq_true.
  - intros fs a l. rewrite existsb_exists. by setoid_rewrite list_elem_of_In.
Qed.

Lemma privileges_granted_witness :
  let o : RuntimeOrigin (Origins := XcmSampleOrigins) := (CustomCaller ReferendumKiller, true) in
  (granted KillReferendum o = true ↔
    caller o = from_system Root ∨ (∃ c, caller o = from_pallet c ∧ entitled c KillReferendum = true) ∨
    KillReferendum = UpdateCollators ∧ caller o = from_xcm (1, [Plurality Defense Voice])) ∧
  granted KillReferendum o = false.
Proof.
  intros o. destruct (privileges_granted (XO := SampleXcmOrigins) KillReferendum o) as [Hiff Hno].
  split; [exact Hiff | apply Hno; by right].
Defined.

Lemma transact_cannot_govern_witness :
  let o : RuntimeOrigin (Origins := XcmSampleOrigins) := (LocationCaller (1, [Plurality Defense Voice]), false) in
  (caller o ≠ from_system Root ∧ track_for (caller o) = None ∧
   ∀ p, granted p o = true → p = UpdateCollators ∧
     ((1, [Plurality Defense Voice]) : Location) = (1, [Plurality Defense Voice])) ∧
  granted UpdateCollators o = true.
Proof.
  intros o. split; [|by vm_compute].
  by apply (transact_cannot_govern (XO := SampleXcmOrigins) (1, [Plurality Defense Voice]) tt o).
Defined.
