(* ===== verification/RuntimeBlocks.v ===== *)
(** The limits of a block: [RuntimeBlockLength], [RuntimeBlockWeights] and the weights
    that [runtime/src/configs/mod.rs] and [runtime/src/configs/xcm_config.rs] reserve for
    the pallets that run in every block, with the numeric parameters of the pallets. *)

From S2P Require Import Prelude RoscaTypes Weights RuntimeConstants.

(** [DispatchClass] and the fields of [WeightsPerClass] that are set. *)
Inductive DispatchClass : Type := Normal | Operational | Mandatory.
#[export] Instance DispatchClass_eq_dec : EqDecision DispatchClass.
Proof. solve_decision. Defined.

Record WeightsPerClass {W : SpWeights} : Type := mkWeightsPerClass {
  base_extrinsic : Weight;
  max_total : option Weight;
  reserved : option Weight;
}.
Arguments mkWeightsPerClass {W} _ _ _.

(** [Perbill], the remaining operations on [Weight], and the builder of
    [frame_system::limits]. *)
Class FrameLimits {W : SpWeights} : Type := {
  Perbill : Type;
  from_percent : Z → Perbill;
  parts : Perbill → Z;
  perbill_mul : Perbill → Z → Z;
  perbill_mul_weight : Perbill → Weight → Weight;
  weight_sub : Weight → Weight → Weight;
  weight_div : Weight → Z → Weight;
  (** [BlockLength]: the maximum for a class. *)
  BlockLength : Type;
  max_with_normal_ratio : Z → Perbill → BlockLength;
  length_max : BlockLength → DispatchClass → Z;
  (** [BlockWeightsBuilder] and [BlockWeights]; [configured] is what the closures given
      to a builder have set. *)
  Builder : Type;
  builder : Builder;
  base_block : Weight → Builder → Builder;
  for_class : list DispatchClass → (WeightsPerClass → WeightsPerClass) → Builder → Builder;
  avg_block_initialization : Perbill → Builder → Builder;
  configured : Builder → DispatchClass → WeightsPerClass;
  BlockWeights : Type;
  build : Builder → BlockWeights;
  max_block : BlockWeights → Weight;
}.

(** Multiplication by a [Perbill] rounds to the nearest, hence is exact where the product
    is; the weights of a builder are those its closures set, in order; the maximum weight
    of a block is the largest total of a class. *)
Class FrameLimitsLaws `{FL : FrameLimits} : Prop := {
  parts_from_percent n : 0 ≤ n ≤ 100 → parts (from_percent n) = n * 10000000;
  perbill_mul_exact p n m : parts p * n = m * 1000000000 → perbill_mul p n = m;
  ref_time_mul_weight p w : ref_time (perbill_mul_weight p w) = perbill_mul p (ref_time w);
  proof_size_mul_weight p w : proof_size (perbill_mul_weight p w) = perbill_mul p (proof_size w);
  ref_time_sub x y : ref_time y ≤ ref_time x → ref_time (weight_sub x y) = ref_time x - ref_time y;
  proof_size_sub x y : proof_size y ≤ proof_size x → proof_size (weight_sub x y) = proof_size x - proof_size y;
  ref_time_div x n : 0 < n → ref_time (weight_div x n) = ref_time x / n;
  proof_size_div x n : 0 < n → proof_size (weight_div x n) = proof_size x / n;
  length_max_normal n p : length_max (max_with_normal_ratio n p) Normal = perbill_mul p n;
  length_max_other n p c : c ≠ Normal → length_max (max_with_normal_ratio n p) c = n;
  configured_base w b c : configured (base_block w b) c = configured b c;
  configured_for cs f b c :
    configured (for_class cs f b) c = if decide (c ∈ cs) then f (configured b c) else configured b c;
  configured_avg p b c : configured (avg_block_initialization p b) c = configured b c;
  configured_mandatory : max_total (configured builder Mandatory) = None;
  max_block_build b w c :
    max_total (configured b c) = Some w →
    (∀ c' w', max_total (configured b c') = Some w' →
      ref_time w' ≤ ref_time w ∧ proof_size w' ≤ proof_size w) →
    ref_time (max_block (build b)) = ref_time w ∧ proof_size (max_block (build b)) = proof_size w;
}.

Section limits.
Context {W : SpWeights} {FL : FrameLimits}.

(** [constants.rs]. *)
Definition AVERAGE_ON_INITIALIZE_RATIO : Perbill := from_percent 5.
Definition NORMAL_DISPATCH_RATIO : Perbill := from_percent 75.

Definition RuntimeBlockLength : BlockLength := max_with_normal_ratio MAX_BLOCK_LENGTH NORMAL_DISPATCH_RATIO.

(** The three closures, and [RuntimeBlockWeights]. *)
Definition set_base_extrinsic (weights : WeightsPerClass) : WeightsPerClass :=
  mkWeightsPerClass ExtrinsicBaseWeight (max_total weights) (reserved weights).
Definition set_normal (weights : WeightsPerClass) : WeightsPerClass :=
  mkWeightsPerClass (base_extrinsic weights)
    (Some (perbill_mul_weight NORMAL_DISPATCH_RATIO MAXIMUM_BLOCK_WEIGHT)) (reserved weights).
Definition set_operational (weights : WeightsPerClass) : WeightsPerClass :=
  mkWeightsPerClass (base_extrinsic weights) (Some MAXIMUM_BLOCK_WEIGHT)
    (Some (weight_sub MAXIMUM_BLOCK_WEIGHT (perbill_mul_weight NORMAL_DISPATCH_RATIO MAXIMUM_BLOCK_WEIGHT))).
Definition RuntimeBlockWeights_builder : Builder :=
  avg_block_initialization AVERAGE_ON_INITIALIZE_RATIO
    (for_class [Operational] set_operational
       (for_class [Normal] set_normal
          (for_class [Normal; Operational; Mandatory] set_base_extrinsic
             (base_block BlockExecutionWeight builder)))).
Definition RuntimeBlockWeights : BlockWeights := build RuntimeBlockWeights_builder.

(** Weights set aside. *)
Definition MaximumSchedulerWeight : Weight := perbill_mul_weight (from_percent 80) (max_block RuntimeBlockWeights).
Definition ReservedXcmpWeight : Weight := weight_div MAXIMUM_BLOCK_WEIGHT 4.
Definition ReservedDmpWeight : Weight := weight_div MAXIMUM_BLOCK_WEIGHT 4.
Definition MessageQueueServiceWeight : Weight := perbill_mul_weight (from_percent 35) (max_block RuntimeBlockWeights).
Definition UnitWeightCost : Weight := from_parts 1000000000 (64 * 1024).

(** The numeric parameters of the pallets. *)
Definition SS58Prefix : Z := 42.
Definition MaxScheduledRuntimeCallsPerBlock : Z := 50.
Definition MaxProxies : Z := 32.
Definition MaxPending : Z := 32.
Definition MaxFreezes : Z := 0.
Definition MaxLocks : Z := 50.
Definition MaxReserves : Z := 50.
Definition assets_StringLimit : Z := 50.
Definition RemoveItemsLimit : Z := 1000.
Definition OperationalFeeMultiplier : Z := 5.
Definition HeapSize : Z := 64 * 1024.
Definition MaxStale : Z := 8.
Definition MaxInboundSuspended : Z := 1000.
Definition MaxSignatories : Z := 100.
Definition AllowMultipleBlocksPerSlot : bool := true.
Definition MaxAuthorities : Z := 100000.
Definition MaxCandidates : Z := 100.
Definition MaxInvulnerables : Z := 20.
Definition MinEligibleCollators : Z := 4.
Definition MaxApprovals : Z := 100.
Definition MaxInstructions : Z := 100.
Definition MaxAssetsIntoHolding : Z := 64.
Definition MinimumPeriod (experimental : bool) : Z := if experimental then 0 else SLOT_DURATION / 2.
End limits.

(** * Properties *)

Section bounds.
Context {W : SpWeights} {WL : SpWeightsLaws W} {FL : FrameLimits} {LL : FrameLimitsLaws}.

Lemma percent_of n x y : 0 ≤ n ≤ 100 → n * x = y * 100 → perbill_mul (from_percent n) x = y.
Proof. intros Hn Hxy. apply perbill_mul_exact. rewrite parts_from_percent by done. lia. Qed.

Lemma maximum_block : ref_time MAXIMUM_BLOCK_WEIGHT = 2000000000000 ∧ proof_size MAXIMUM_BLOCK_WEIGHT = 5242880.
Proof.
  unfold MAXIMUM_BLOCK_WEIGHT. by rewrite ref_time_from_parts, proof_size_from_parts, ref_time_per_second, max_pov_size.
Qed.

Lemma runtime_configured c :
  max_total (configured RuntimeBlockWeights_builder c) =
    match c with
    | Normal => Some (perbill_mul_weight NORMAL_DISPATCH_RATIO MAXIMUM_BLOCK_WEIGHT)
    | Operational => Some MAXIMUM_BLOCK_WEIGHT
    | Mandatory => None
    end.
Proof.
  unfold RuntimeBlockWeights_builder. rewrite configured_avg, !configured_for, configured_base.
  destruct c; repeat case_decide; try set_solver; [done.. | apply configured_mandatory].
Qed.

Lemma normal_total :
  ref_time (perbill_mul_weight NORMAL_DISPATCH_RATIO MAXIMUM_BLOCK_WEIGHT) = 1500000000000 ∧
  proof_size (perbill_mul_weight NORMAL_DISPATCH_RATIO MAXIMUM_BLOCK_WEIGHT) = 3932160.
Proof.
  destruct maximum_block as [Ht Hp]. rewrite ref_time_mul_weight, proof_size_mul_weight, Ht, Hp.
  split; by apply percent_of.
Qed.

Lemma runtime_max_block :
  ref_time (max_block RuntimeBlockWeights) = 2000000000000 ∧ proof_size (max_block RuntimeBlockWeights) = 5242880.
Proof.
  destruct maximum_block as [Ht Hp], normal_total as [Hnt Hnp]. rewrite <- Ht, <- Hp.
  apply (max_block_build _ _ Operational); [apply (runtime_configured Operational)|].
  intros c w. rewrite runtime_configured. destruct c; intros [= <-]; rewrite ?Hnt, ?Hnp, ?Ht, ?Hp; lia.
Qed.

(** What normal calls may use and what is reserved for operational ones make up the block,
    in both dimensions; the message queue and the messages reserved for each leave room
    for the scheduler only when it does not use its maximum. *)
Lemma block_shares :
  (∀ x, reserved (set_operational x) = Some (weight_sub MAXIMUM_BLOCK_WEIGHT (perbill_mul_weight NORMAL_DISPATCH_RATIO MAXIMUM_BLOCK_WEIGHT))) ∧
  ref_time (weight_sub MAXIMUM_BLOCK_WEIGHT (perbill_mul_weight NORMAL_DISPATCH_RATIO MAXIMUM_BLOCK_WEIGHT)) = 500000000000 ∧
  ref_time MaximumSchedulerWeight = 1600000000000 ∧ ref_time MessageQueueServiceWeight = 700000000000 ∧
  ref_time ReservedXcmpWeight + ref_time ReservedDmpWeight = 1000000000000.
Proof.
  destruct maximum_block as [Ht Hp], normal_total as [Hnt Hnp], runtime_max_block as [Hmt Hmp].
  unfold MaximumSchedulerWeight, MessageQueueServiceWeight, ReservedXcmpWeight, ReservedDmpWeight.
  rewrite !ref_time_mul_weight, !ref_time_div, ref_time_sub, Hmt, Hnt, Ht by (rewrite ?Hnt, ?Ht; lia).
  split_and!; [done | done | by apply percent_of | by apply percent_of | done].
Qed.

(** A message of [n] instructions, at [UnitWeightCost] each, fits the proof size of a block
    only up to 80 instructions, although [MaxInstructions] allows 100. *)
Lemma xcm_message_fits n :
  0 ≤ n → n * proof_size UnitWeightCost ≤ proof_size MAXIMUM_BLOCK_WEIGHT ↔ n ≤ 80.
Proof.
  intros Hn. destruct maximum_block as [_ ->]. unfold UnitWeightCost. rewrite proof_size_from_parts. lia.
Qed.
End bounds.

(** * Concrete limits

    Parts per billion, rounded down; a builder is the function that its closures make. *)
Definition weight_max (x y : Z * Z) : Z * Z := (Z.max x.1 y.1, Z.max x.2 y.2).
Definition largest (ws : list (Z * Z)) : Z * Z :=
  match ws with [] => (0, 0) | w :: ws => foldl weight_max w ws end.

Lemma foldl_weight_max w ws :
  (∀ x, x ∈ ws → x.1 ≤ w.1 ∧ x.2 ≤ w.2) → foldl weight_max w ws = w.
Proof.
  induction ws as [|x ws IH]; cbn; [done|]. intros Hws.
  destruct (Hws x) as [H1 H2]; [left|]. destruct w as [w1 w2]. unfold weight_max at 2. cbn in *.
  rewrite Z.max_l, Z.max_l by done. apply IH. intros y Hy. apply Hws. by right.
Qed.
Lemma largest_spec ws w :
  w ∈ ws → (∀ x, x ∈ ws → x.1 ≤ w.1 ∧ x.2 ≤ w.2) → largest ws = w.
Proof.
  destruct ws as [|x ws]; [by intros ?%elem_of_nil|]. cbn. revert x. induction ws as [|y ws IH]; intros x Hin Hws.
  - by apply list_elem_of_singleton in Hin.
  - cbn. destruct (Hws x) as [Hx1 Hx2]; [left|]. destruct (Hws y) as [Hy1 Hy2]; [right; left|].
    assert (w = x ∨ w = y ∨ w ∈ ws) as Hcase by set_solver.
    destruct (decide (w = weight_max x y)) as [<-|Hne].
    + apply foldl_weight_max. intros z Hz. apply Hws. set_solver.
    + apply IH; [|intros z [->|Hz]%elem_of_cons; [cbn; lia | apply Hws; set_solver]].
      destruct Hcase as [->|[->|Hw]]; [destruct Hne..|by right]; destruct x, y; unfold weight_max; cbn in *; f_equal; lia.
Qed.

#[export] Instance SampleLimits : FrameLimits (W := SampleWeights) := {|
  Perbill := Z;
  from_percent n := n * 10000000;
  parts p := p;
  perbill_mul p n := p * n / 1000000000;
  perbill_mul_weight p w := (p * w.1 / 1000000000, p * w.2 / 1000000000);
  weight_sub x y := (x.1 - y.1, x.2 - y.2);
  weight_div x n := (x.1 / n, x.2 / n);
  BlockLength := DispatchClass → Z;
  max_with_normal_ratio n p c := match c with Normal => p * n / 1000000000 | _ => n end;
  length_max l := l;
  Builder := DispatchClass → WeightsPerClass (W := SampleWeights);
  builder _ := mkWeightsPerClass (W := SampleWeights) (0, 0) None None;
  base_block _ b := b;
  for_class cs f b c := if decide (c ∈ cs) then f (b c) else b c;
  avg_block_initialization _ b := b;
  configured b := b;
  BlockWeights := DispatchClass → WeightsPerClass (W := SampleWeights);
  build b := b;
  max_block b := largest (omap (λ c, max_total (b c)) [Normal; Operational; Mandatory]);
|}.
#[export] Instance SampleLimits_laws : FrameLimitsLaws (FL := SampleLimits).
Proof.
  split; try done.
  - intros p n m H. cbn in *. rewrite H. by rewrite Z.div_mul.
  - intros n p []; done.
  - intros b w c Hw Hall.
    assert (max_block (FrameLimits := SampleLimits) (build b) = w) as ->; [|done].
    apply largest_spec.
    + apply list_elem_of_omap. exists c. split; [destruct c; set_solver | done].
    + intros x (c' & _ & Hx)%list_elem_of_omap. by apply (Hall c').
Qed.
