(* ===== verification/RuntimeFees.v ===== *)
(** What a transaction costs: the fee configuration of [pallet_transaction_payment] in
    [runtime/src/configs/mod.rs] with the polynomial of [runtime/src/lib.rs], the fee
    queries of [runtime/src/apis.rs], the price of a message to a sibling chain of
    [runtime/src/types.rs], and the weight of the calls of the ROSCA pallet. *)

From S2P Require Import Prelude RoscaTypes RoscaCalls RoscaSample Weights RuntimeConstants RuntimeBlocks.

(** * The library *)

(** [pallet_transaction_payment::Config], as far as fees are computed from it, and the
    parts of an inclusion fee. *)
Record PaymentConfig {W : SpWeights} {FL : FrameLimits} : Type := mkPaymentConfig {
  config_WeightToFee : Weight → Z;
  config_LengthToFee : Weight → Z;
  config_OperationalFeeMultiplier : Z;
  config_BlockWeights : BlockWeights;
}.
Arguments mkPaymentConfig {W FL} _ _ _ _.

Record InclusionFee : Type := mkInclusionFee { base_fee : Z; len_fee : Z; adjusted_weight_fee : Z }.

(** [WeightToFeePolynomial::weight_to_fee], [ConstantMultiplier], the functions of
    [pallet_transaction_payment] behind the queries, and [ExponentialPrice].  The fee
    multiplier and the delivery factor of a channel are part of the state; [times] is
    [saturating_mul_int]. *)
Class FeeLib {W : SpWeights} {FL : FrameLimits} : Type := {
  Perbill_from_rational : Z → Z → Z;
  polynomial_weight_to_fee : list WeightToFeeCoefficient → Weight → Z;
  ConstantMultiplier : Z → Weight → Z;
  weight_min : Weight → Weight → Weight;
  class_base_extrinsic : BlockWeights → DispatchClass → Weight;
  FixedU128 : Type;
  times : FixedU128 → Z → Z;
  one : FixedU128;
  fixed_le : FixedU128 → FixedU128 → Prop;
  payment_weight_to_fee : PaymentConfig → Weight → Z;
  payment_length_to_fee : PaymentConfig → Z → Z;
  (** [compute_fee_details], without a tip, for a paying call of a class, a length and a
      weight, at a fee multiplier. *)
  compute_inclusion_fee : PaymentConfig → FixedU128 → DispatchClass → Z → Weight → InclusionFee;
  (** [price_for_delivery]: base, byte fee, factor of the channel, length of the message. *)
  ExponentialPrice : Z → Z → FixedU128 → Z → Z;
}.

(** A linear polynomial is evaluated with one rounding, to the nearest and down from the
    middle; fees are charged for at most the weight of a block; a base fee for the base
    weight of the class, a fee per byte, and the fee of the weight times the multiplier
    make up an inclusion fee; a delivery costs the base and the bytes, times the factor. *)
Class FeeLibLaws `{FB : FeeLib} : Prop := {
  from_rational_exact p q n : 0 < q → p * 1000000000 = n * q → Perbill_from_rational p q = n;
  linear_fee frac w :
    0 ≤ frac ≤ 1000000000 → in_width u64_MAX (ref_time w) →
    polynomial_weight_to_fee [mkWeightToFeeCoefficient 1 false frac 0] w =
      (2 * frac * ref_time w + 999999999) / 2000000000;
  constant_multiplier m w : ConstantMultiplier m w = saturating_mul u128_MAX (ref_time w) m;
  ref_time_min x y : ref_time (weight_min x y) = Z.min (ref_time x) (ref_time y);
  base_extrinsic_build b c : class_base_extrinsic (build b) c = base_extrinsic (configured b c);
  times_zero m : times m 0 = 0;
  times_one n : times one n = n;
  times_mono m m' n : fixed_le m m' → 0 ≤ n → times m n ≤ times m' n;
  payment_weight c w : payment_weight_to_fee c w = config_WeightToFee c (weight_min w (max_block (config_BlockWeights c)));
  payment_length c n : payment_length_to_fee c n = config_LengthToFee c (from_parts n 0);
  inclusion_fee c m k n w :
    compute_inclusion_fee c m k n w =
      mkInclusionFee (payment_weight_to_fee c (class_base_extrinsic (config_BlockWeights c) k))
        (payment_length_to_fee c n) (times m (payment_weight_to_fee c w));
  delivery_price base byte m n :
    ExponentialPrice base byte m n = times m (saturating_add u128_MAX base (saturating_mul u128_MAX n byte));
}.

(** * The configuration *)

Section fees.
Context {W : SpWeights} {FL : FrameLimits} {FB : FeeLib}.

(** [WeightToFee], [LengthToFee] and [pallet_transaction_payment::Config for Runtime]. *)
Definition WeightToFee : Weight → Z := polynomial_weight_to_fee (polynomial Perbill_from_rational).
Definition LengthToFee : Weight → Z := ConstantMultiplier TransactionByteFee.
Definition payment_config : PaymentConfig :=
  mkPaymentConfig WeightToFee LengthToFee OperationalFeeMultiplier RuntimeBlockWeights.

(** [query_weight_to_fee] and [query_length_to_fee], of both fee APIs. *)
Definition query_weight_to_fee (weight : Weight) : Z := payment_weight_to_fee payment_config weight.
Definition query_length_to_fee (length : Z) : Z := payment_length_to_fee payment_config length.

(** [PriceForSiblingParachainDelivery], at the factor of the channel. *)
Definition PriceForSiblingParachainDelivery : FixedU128 → Z → Z :=
  ExponentialPrice ToSiblingBaseDeliveryFee TransactionByteFee.

(** The weight of a call of the pallet: it is declared in [dev_mode] and no call has a
    weight of its own, which is a weight of zero. *)
Definition rosca_call_weight {T : Config} (c : Call) : Weight := from_parts 0 0.

(** The inclusion fee of a ROSCA call in a transaction of [n] bytes. *)
Definition rosca_call_fee {T : Config} (m : FixedU128) (n : Z) (c : Call) : Z :=
  let fee := compute_inclusion_fee payment_config m Normal n (rosca_call_weight c) in
  base_fee fee + len_fee fee + adjusted_weight_fee fee.
End fees.

(** * Properties *)

Section charged.
Context {W : SpWeights} {WL : SpWeightsLaws W} {FL : FrameLimits} {LL : FrameLimitsLaws}.
Context {FB : FeeLib} {BL : FeeLibLaws}.

(** The weights that a block can hold. *)
Definition fits_in_block (w : Weight) : Prop := 0 ≤ ref_time w ≤ ref_time (max_block RuntimeBlockWeights).

Lemma fee_polynomial : polynomial Perbill_from_rational = [mkWeightToFeeCoefficient 1 false 8000000 0].
Proof.
  assert (ref_time ExtrinsicBaseWeight = 125000000) as Hb.
  { unfold ExtrinsicBaseWeight. by rewrite ref_time_from_parts, ref_time_per_nanos. }
  assert (fee_q = 12500000000) as Hq by (unfold fee_q; by rewrite Hb).
  unfold polynomial. rewrite Hq. assert (fee_p = 100000000) as -> by done.
  rewrite Z.mod_small, Z.div_small by lia. by rewrite (from_rational_exact _ _ 8000000).
Qed.

Lemma WeightToFee_eq w :
  in_width u64_MAX (ref_time w) → WeightToFee w = (16 * ref_time w + 999) / 2000.
Proof.
  intros Hw. unfold WeightToFee. rewrite fee_polynomial, linear_fee by done.
  unfold in_width in Hw. Z.div_mod_to_equations. lia.
Qed.

(** Fees are charged for the weight itself when it fits. *)
Lemma query_weight_to_fee_eq w :
  fits_in_block w → query_weight_to_fee w = (16 * ref_time w + 999) / 2000.
Proof.
  unfold fits_in_block. destruct runtime_max_block as [Hm _]. rewrite Hm. intros Hw.
  unfold query_weight_to_fee, payment_config. rewrite payment_weight. cbn [config_WeightToFee config_BlockWeights].
  assert (ref_time (weight_min w (max_block RuntimeBlockWeights)) = ref_time w) as Hmin
    by (rewrite ref_time_min, Hm; lia).
  rewrite WeightToFee_eq; rewrite Hmin; [done|]. unfold in_width, u64_MAX. lia.
Qed.

Lemma query_length_to_fee_eq n : in_width u32_MAX n → query_length_to_fee n = n * (10 * MICROCENTS).
Proof.
  intros Hn. unfold query_length_to_fee, payment_config. rewrite payment_length. cbn [config_LengthToFee].
  unfold LengthToFee. rewrite constant_multiplier, ref_time_from_parts. unfold saturating_mul.
  rewrite Z.min_r; [done|]. unfold in_width, u32_MAX, u128_MAX, TransactionByteFee, MICROCENTS in *. lia.
Qed.

Lemma normal_base_weight : class_base_extrinsic RuntimeBlockWeights Normal = ExtrinsicBaseWeight.
Proof.
  unfold RuntimeBlockWeights. rewrite base_extrinsic_build. unfold RuntimeBlockWeights_builder.
  rewrite configured_avg, !configured_for, configured_base. repeat case_decide; set_solver.
Qed.

Lemma base_extrinsic_fee : query_weight_to_fee ExtrinsicBaseWeight = MICROCENTS.
Proof.
  assert (ref_time ExtrinsicBaseWeight = 125000000) as Hb.
  { unfold ExtrinsicBaseWeight. by rewrite ref_time_from_parts, ref_time_per_nanos. }
  rewrite query_weight_to_fee_eq; rewrite ?Hb; [done|]. unfold fits_in_block.
  rewrite Hb. destruct runtime_max_block as [-> _]. lia.
Qed.

Lemma zero_weight_fee : query_weight_to_fee (from_parts 0 0) = 0.
Proof.
  rewrite query_weight_to_fee_eq; rewrite ?ref_time_from_parts; [done|]. unfold fits_in_block.
  rewrite ref_time_from_parts. destruct runtime_max_block as [-> _]. lia.
Qed.

(** C27: the fees of the chain.  A weight that fits a block costs 8 units per 1000 of its
    reference time, to the nearest unit, and more weight never costs less; the base
    weight of an extrinsic costs exactly one [MICROCENTS] and a byte ten, without
    overflow for any length.  A call of the ROSCA pallet costs its length and the base
    fee only, whatever it does and however congested the chain is. *)
Theorem transaction_fees {T : Config} w w' n m (c : Call) :
  fits_in_block w → fits_in_block w' → in_width u32_MAX n →
  -500 ≤ 8 * ref_time w - 1000 * query_weight_to_fee w ≤ 500 ∧
  (ref_time w ≤ ref_time w' → query_weight_to_fee w ≤ query_weight_to_fee w') ∧
  query_weight_to_fee ExtrinsicBaseWeight = MICROCENTS ∧
  query_length_to_fee n = n * (10 * MICROCENTS) ∧
  rosca_call_fee m n c = (1 + 10 * n) * MICROCENTS.
Proof.
  intros Hw Hw' Hn. rewrite !query_weight_to_fee_eq, query_length_to_fee_eq by done. split_and!.
  - Z.div_mod_to_equations. lia.
  - Z.div_mod_to_equations. lia.
  - Z.div_mod_to_equations. lia.
  - apply base_extrinsic_fee.
  - done.
  - unfold rosca_call_fee, rosca_call_weight. rewrite inclusion_fee. cbn [base_fee len_fee adjusted_weight_fee].
    cbn [config_BlockWeights payment_config]. rewrite normal_base_weight.
    change (payment_weight_to_fee payment_config) with query_weight_to_fee.
    change (payment_length_to_fee payment_config) with query_length_to_fee.
    rewrite base_extrinsic_fee, query_length_to_fee_eq, zero_weight_fee, times_zero by done. lia.
Qed.

(** A message to a sibling chain is never free: at a factor of at least one it costs
    the base fee and ten [MICROCENTS] for every byte. *)
Lemma sibling_delivery_price m n :
  fixed_le one m → in_width u32_MAX n →
  ToSiblingBaseDeliveryFee + n * (10 * MICROCENTS) ≤ PriceForSiblingParachainDelivery m n.
Proof.
  intros Hm Hn. unfold PriceForSiblingParachainDelivery. rewrite delivery_price.
  assert (ToSiblingBaseDeliveryFee = 3000000000000) as -> by done.
  unfold saturating_add, saturating_mul, in_width, u32_MAX, u128_MAX, TransactionByteFee, MICROCENTS in *.
  rewrite !Z.min_r by lia. rewrite <- (times_one (3000000000000 + n * (10 * 1000000))) at 1. apply times_mono; [done | lia].
Qed.
End charged.

(** * Concrete fees *)

#[export] Instance SampleFees : FeeLib (W := SampleWeights) (FL := SampleLimits) := {|
  Perbill_from_rational p q := p * 1000000000 / q;
  polynomial_weight_to_fee cs w :=
    match cs with [c] => (2 * coeff_frac c * w.1 + 999999999) / 2000000000 + coeff_integer c * w.1 | _ => 0 end;
  ConstantMultiplier m w := saturating_mul u128_MAX w.1 m;
  weight_min x y := (Z.min x.1 y.1, Z.min x.2 y.2);
  class_base_extrinsic b c := base_extrinsic (b c);
  FixedU128 := Z;
  times m n := m * n;
  one := 1;
  fixed_le := Z.le;
  payment_weight_to_fee c w :=
    let m := max_block (FrameLimits := SampleLimits) (config_BlockWeights c) in
    config_WeightToFee c (Z.min w.1 m.1, Z.min w.2 m.2);
  payment_length_to_fee c n := config_LengthToFee c (n, 0);
  compute_inclusion_fee c m k n w :=
    let b := base_extrinsic (config_BlockWeights c k) in
    let x := max_block (FrameLimits := SampleLimits) (config_BlockWeights c) in
    mkInclusionFee (config_WeightToFee c (Z.min b.1 x.1, Z.min b.2 x.2)) (config_LengthToFee c (n, 0))
      (m * config_WeightToFee c (Z.min w.1 x.1, Z.min w.2 x.2));
  ExponentialPrice base byte m n := m * saturating_add u128_MAX base (saturating_mul u128_MAX n byte);
|}.
#[export] Instance SampleFees_laws : FeeLibLaws (FB := SampleFees).
Proof.
  split; try done.
  - intros p q n Hq H. cbn. rewrite H. apply Z.div_mul. lia.
  - intros frac w Hf Hw. cbn. lia.
  - intros m. cbn. lia.
  - intros n. cbn. by rewrite Z.mul_1_l.
  - intros m m' n Hm Hn. cbn in *. nia.
Qed.

Lemma transaction_fees_witness :
  let w : Weight (SpWeights := SampleWeights) := (1000000000, 65536) in
  -500 ≤ 8 * ref_time w - 1000 * query_weight_to_fee (FB := SampleFees) w ≤ 500 ∧
  (ref_time w ≤ ref_time w → query_weight_to_fee (FB := SampleFees) w ≤ query_weight_to_fee (FB := SampleFees) w) ∧
  query_weight_to_fee (FB := SampleFees) ExtrinsicBaseWeight = MICROCENTS ∧
  query_length_to_fee (FB := SampleFees) 100 = 100 * (10 * MICROCENTS) ∧
  rosca_call_fee (FB := SampleFees) (T := Sample) (3 : FixedU128) 100
    (Call_start_rosca (T := Sample) 0) = (1 + 10 * 100) * MICROCENTS.
Proof.
  intros w. apply (transaction_fees (FB := SampleFees) (T := Sample) w w 100);
    vm_compute; split; discriminate.
Defined.
