(* ===== verification/RuntimeAssets.v ===== *)
(** How cross-chain messages move assets and pay for their execution: the asset
    transactors, the weigher, the trader and the configurations of the executor and of
    [pallet_xcm] in [runtime/src/configs/xcm_config.rs].  The adapters, matchers and
    traders are those of [xcm_builder]: interfaces with their documented behaviour as
    laws. *)

From S2P Require Import Prelude RoscaTypes Weights RuntimeConstants RuntimeFilters RuntimeXcm RuntimeGovernance.
From S2P Require Import RuntimeXcmExecutor RuntimePrivileges RuntimeBlocks RuntimeFees.

(** * The library *)

(** The currencies of the chain: that of the [Balances] pallet and those of [Assets]. *)
Inductive currency : Type := Native | Foreign (id : Z).
#[export] Instance currency_eq_dec : EqDecision currency.
Proof. solve_decision. Defined.

(** [TransactAsset] with its adapters and matchers.  [Ledgers] is the state of both
    pallets; [mint_into] and [burn_from] are what they do to it. *)
Class Transactors {X : Xcm} {O : Origins} {XO : XcmOrigins} : Type := {
  (** The amount of [Fungible], none of a [NonFungible]. *)
  fungible_amount : Fungibility → option Z;
  convert_location : ConvertLocation → Location → option RuntimeGovernance.AccountId;
  XcmError : Type;
  XcmError_eq_dec :: EqDecision XcmError;
  AssetNotFound : XcmError;
  Unimplemented : XcmError;
  AccountIdConversionFailed : XcmError;
  AssetIdConversionFailed : XcmError;
  Ledgers : Type;
  mint_into : currency → RuntimeGovernance.AccountId → Z → Ledgers → Ledgers + XcmError;
  burn_from : currency → RuntimeGovernance.AccountId → Z → Ledgers → Ledgers + XcmError;
  IsConcrete : Location → Asset → option Z;
  MatchedConvertedConcreteId : (Location → bool) → (Location → option Z) → Asset → (Z * Z) + XcmError;
  TransactAsset : Type;
  deposit_asset : TransactAsset → Asset → Location → Ledgers → Ledgers + XcmError;
  withdraw_asset : TransactAsset → Asset → Location → Ledgers → Ledgers + XcmError;
  FungibleAdapter : (Asset → option Z) → ConvertLocation → TransactAsset;
  FungiblesAdapter : (Asset → (Z * Z) + XcmError) → ConvertLocation → TransactAsset;
  transact_tuple : list TransactAsset → TransactAsset;
}.

(** The two operations on assets. *)
Definition moved `{TA : Transactors} (in_ : bool) (c : currency) : RuntimeGovernance.AccountId → Z → Ledgers → Ledgers + XcmError :=
  if in_ then mint_into c else burn_from c.
Definition transact `{TA : Transactors} (in_ : bool) (t : TransactAsset) : Asset → Location → Ledgers → Ledgers + XcmError :=
  if in_ then deposit_asset t else withdraw_asset t.

(** The errors of a transactor that does not know the asset or the operation. *)
Definition passed_over `{TA : Transactors} (e : XcmError) : Prop := e = AssetNotFound ∨ e = Unimplemented.

(** An adapter handles what its matcher matches, for the account its location converts
    to; a tuple passes over those that do not know the asset or the operation. *)
Class TransactorsLaws `{TA : Transactors} : Prop := {
  account_not_passed : ¬ passed_over AccountIdConversionFailed;
  moved_failure in_ c a n w e : moved in_ c a n w = inr e → ¬ passed_over e;
  is_concrete l a : IsConcrete l a = if decide (asset_id a = l) then fungible_amount (fun_ a) else None;
  converted_concrete_id contains conv a :
    MatchedConvertedConcreteId contains conv a =
      match fungible_amount (fun_ a) with
      | Some n =>
        if contains (asset_id a)
        then match conv (asset_id a) with Some i => inl (i, n) | None => inr AssetIdConversionFailed end
        else inr AssetNotFound
      | None => inr AssetNotFound
      end;
  fungible_adapter in_ m conv a who w :
    transact in_ (FungibleAdapter m conv) a who w =
      match m a with
      | Some n =>
        match convert_location conv who with
        | Some acc => moved in_ Native acc n w
        | None => inr AccountIdConversionFailed
        end
      | None => inr AssetNotFound
      end;
  fungibles_adapter in_ m conv a who w :
    transact in_ (FungiblesAdapter m conv) a who w =
      match m a with
      | inl (i, n) =>
        match convert_location conv who with
        | Some acc => moved in_ (Foreign i) acc n w
        | None => inr AccountIdConversionFailed
        end
      | inr e => inr e
      end;
  transact_none in_ a who w : transact in_ (transact_tuple []) a who w = inr AssetNotFound;
  transact_cons in_ t ts a who w :
    transact in_ (transact_tuple (t :: ts)) a who w =
      match transact in_ t a who w with
      | inr e => if decide (e = AssetNotFound ∨ e = Unimplemented) then transact in_ (transact_tuple ts) a who w else inr e
      | inl w' => inl w'
      end;
}.

Section transactors.
Context {X : Xcm} {O : Origins} {XO : XcmOrigins} {TA : Transactors}.

(** [LocalAssetTransactor], [FungiblesTransactor] and [AssetTransactors]. *)
Definition LocalAssetTransactor : TransactAsset := FungibleAdapter (IsConcrete RelayLocation) LocationToAccountId.
Definition FungiblesTransactor : TransactAsset :=
  FungiblesAdapter (MatchedConvertedConcreteId SupportedAssets_contains convert) LocationToAccountId.
Definition AssetTransactors : TransactAsset := transact_tuple [LocalAssetTransactor; FungiblesTransactor].

(** [FeeAssetId]. *)
Definition FeeAssetId : Location := RelayLocation.

(** * Where assets are kept *)

(** The currency an asset is kept in here, and the chain it has its reserve on. *)
Definition currency_of (l : Location) : option currency :=
  if decide (l = RelayLocation) then Some Native else Foreign <$> convert l.
Definition reserve_of (c : currency) : Location :=
  match c with Native => RelayLocation | Foreign _ => (1, [Parachain 1000]) end.

(** What the transactors do with an asset, in or out. *)
Definition transact_reference (in_ : bool) (a : Asset) (who : Location) (w : Ledgers) : Ledgers + XcmError :=
  match currency_of (asset_id a), fungible_amount (fun_ a) with
  | Some c, Some n =>
    match convert_location LocationToAccountId who with
    | Some acc => moved in_ c acc n w
    | None => inr AccountIdConversionFailed
    end
  | _, _ => inr AssetNotFound
  end.
End transactors.

Section reserves.
Context {X : Xcm} {O : Origins} {OL : OriginsLaws O} {XO : XcmOrigins} {XL : XcmOriginsLaws}.
Context {TA : Transactors} {TL : TransactorsLaws}.

Lemma relay_not_converted : convert RelayLocation = None.
Proof. unfold convert. by rewrite !bool_decide_false. Qed.

Lemma local_transactor in_ a who w :
  transact in_ LocalAssetTransactor a who w =
    if decide (asset_id a = RelayLocation) then transact_reference in_ a who w else inr AssetNotFound.
Proof.
  unfold LocalAssetTransactor, transact_reference, currency_of. rewrite fungible_adapter, is_concrete.
  by case_decide.
Qed.

Lemma fungibles_transactor in_ a who w :
  transact in_ FungiblesTransactor a who w =
    if decide (asset_id a = RelayLocation) then inr AssetNotFound else transact_reference in_ a who w.
Proof.
  unfold FungiblesTransactor, transact_reference, currency_of.
  rewrite fungibles_adapter, converted_concrete_id, convert_contains. case_decide as Ha.
  - rewrite Ha, relay_not_converted. by destruct (fungible_amount (fun_ a)).
  - destruct (convert (asset_id a)), (fungible_amount (fun_ a)); done.
Qed.

Lemma reference_passed_over in_ a who w e :
  transact_reference in_ a who w = inr e → passed_over e → e = AssetNotFound.
Proof.
  unfold transact_reference. destruct (currency_of _) as [c|]; [|by intros [= <-]].
  destruct (fungible_amount _) as [n|]; [|by intros [= <-]].
  destruct (convert_location _ _) as [acc|]; [by intros Hm%moved_failure | by intros [= <-] ?%account_not_passed].
Qed.

Lemma transactors_reference in_ a who w :
  transact in_ AssetTransactors a who w = transact_reference in_ a who w.
Proof.
  unfold AssetTransactors. rewrite !transact_cons, transact_none, local_transactor, fungibles_transactor.
  pose proof (reference_passed_over in_ a who w) as Hpass.
  case_decide; rewrite (decide_True _ _ (or_introl eq_refl)); destruct (transact_reference in_ a who w) as [w'|e];
    try done; case_decide as He; try done; by rewrite (Hpass e).
Qed.

Lemma currency_cases l c :
  currency_of l = Some c →
  l = RelayLocation ∧ c = Native ∨ l ≠ RelayLocation ∧ ∃ pa, convert l = Some (PaymentAssets_id pa) ∧ c = Foreign (PaymentAssets_id pa).
Proof.
  unfold currency_of. case_decide as Hl; [intros [= <-]; by left|]. intros (i & Hi & ->)%fmap_Some. right. split; [done|].
  destruct (proj1 (contains_payment l)) as [pa Hpa]; [|exists pa; split; congruence].
  rewrite convert_contains. by apply bool_decide_eq_true; eexists.
Qed.

(** [l] is the chain at [chain] or a place inside it. *)
Definition inside (l chain : Location) : Prop := ∃ js, l = (chain.1, chain.2 ++ js).

Lemma payment_inside l pa : convert l = Some (PaymentAssets_id pa) → inside l (1, [Parachain 1000]).
Proof.
  intros Hl%convert_Some. destruct pa; injection Hl as <-; by eexists [_; _].
Qed.

(** C24: assets and their reserves.  The transactors take in and give out the fungible
    assets that have a currency here, in that currency and for the account of the
    location, and no others.  Such an asset is accepted as a reserve asset only from the
    chain that has the reserve of its currency, the relay chain for the native currency
    and Asset Hub for the payment assets; an asset without a currency here is accepted
    from the chain whose own asset it is, and then it is not found. *)
Theorem reserves_back_currencies in_ a who w l :
  transact in_ AssetTransactors a who w = transact_reference in_ a who w ∧
  (∀ c, currency_of (asset_id a) = Some c →
     Reserves a (reserve_of c) = true ∧ (Reserves a l = true → inside l (reserve_of c))) ∧
  (currency_of (asset_id a) = None →
     (Reserves a l = true ↔ l = asset_id a) ∧ transact in_ AssetTransactors a who w = inr AssetNotFound).
Proof.
  split; [apply transactors_reference|]. split.
  - intros c Hc. split.
    + apply reserves_accepted. destruct (currency_cases _ _ Hc) as [[Ha ->]|(_ & pa & Hpa & ->)]; [by left|].
      right. eauto.
    + intros [Ha|[-> [pa Hpa]]]%reserves_accepted; destruct (currency_cases _ _ Hc) as [[Hr ->]|(_ & pa' & Hpa' & ->)]; cbn.
      * exists []. by rewrite <- Ha, Hr.
      * rewrite <- Ha. by eapply payment_inside.
      * by rewrite Hr, relay_not_converted in Hpa.
      * by exists [].
  - intros Hnone. split.
    + destruct (reserves_accepted a l) as [-> _]. unfold currency_of in Hnone. case_decide; [done|].
      destruct (convert (asset_id a)); [done|]. naive_solver.
    + rewrite transactors_reference. unfold transact_reference. by rewrite Hnone.
Qed.
End reserves.

(** * Paying for execution *)

(** [WeightBounds] and [WeightTrader].  A holding is the [AssetsInHolding] of a running
    message; [plain] instructions contain no other instructions and no call. *)
Class Traders {X : Xcm} {W : SpWeights} : Type := {
  plain : Instruction → bool;
  FixedWeightBounds : Weight → Z → list Instruction → option Weight;
  Holding : Type;
  held : Holding → Location → Z;
  take_out : Holding → Location → Z → Holding;
  WeightTrader : Type;
  buy_weight : WeightTrader → Weight → Holding → option Holding;
  UsingComponents : (Weight → Z) → Location → WeightTrader;
  FixedRateOfFungible : Location * Z * Z → WeightTrader;
  trader_tuple : list WeightTrader → WeightTrader;
  WEIGHT_PROOF_SIZE_PER_MB : Z;
}.

(** A message of plain instructions weighs their number times the unit, and is refused
    above the limit or when the sum overflows.  A trader takes a positive price out of the holding when it is there;
    the price of a fixed rate is per second of reference time and per megabyte of proof
    size; a tuple sells with the first that accepts the payment. *)
Class TradersLaws `{TR : Traders} : Prop := {
  fixed_weight unit_ limit l :
    Forall (λ i, plain i = true) l →
    FixedWeightBounds unit_ limit l =
      if (len l <=? limit) && (ref_time unit_ * len l <=? u64_MAX) && (proof_size unit_ * len l <=? u64_MAX)
      then Some (from_parts (ref_time unit_ * len l) (proof_size unit_ * len l)) else None;
  held_taken h l n l' : held (take_out h l n) l' = held h l' - (if decide (l = l') then n else 0);
  buy_components f l w h :
    0 < f w → buy_weight (UsingComponents f l) w h = if f w <=? held h l then Some (take_out h l (f w)) else None;
  buy_fixed_rate l per_second per_mb w h :
    let n := per_second * ref_time w / WEIGHT_REF_TIME_PER_SECOND + per_mb * proof_size w / WEIGHT_PROOF_SIZE_PER_MB in
    0 < n →
    buy_weight (FixedRateOfFungible (l, per_second, per_mb)) w h = if n <=? held h l then Some (take_out h l n) else None;
  buy_none w h : buy_weight (trader_tuple []) w h = None;
  buy_cons t ts w h :
    buy_weight (trader_tuple (t :: ts)) w h =
      match buy_weight t w h with Some h' => Some h' | None => buy_weight (trader_tuple ts) w h end;
  proof_size_per_mb : WEIGHT_PROOF_SIZE_PER_MB = 1024 * 1024;
}.

Section trader.
Context {X : Xcm} {W : SpWeights} {FL : FrameLimits} {FB : FeeLib} {TR : Traders}.

(** [Weigher] and [Trader] of [XcmConfig]. *)
Definition Weigher : list Instruction → option Weight := FixedWeightBounds UnitWeightCost MaxInstructions.
Definition Trader : WeightTrader :=
  trader_tuple [UsingComponents WeightToFee RelayLocation; FixedRateOfFungible UsdcPerSecond; FixedRateOfFungible UsdtPerSecond].

(** The first of the prices that the holding covers is paid. *)
Fixpoint pay_first (prices : list (Location * Z)) (h : Holding) : option Holding :=
  match prices with
  | [] => None
  | (l, n) :: prices => if n <=? held h l then Some (take_out h l n) else pay_first prices h
  end.

(** What a message of [n] instructions costs: 8 [MICROCENTS] of the relay chain's
    currency an instruction, or 63.5 millionths of a dollar, rounded down. *)
Definition message_prices (n : Z) : list (Location * Z) :=
  [(RelayLocation, 8 * MICROCENTS * n); (UsdcLocation, n + 125 * n / 2); (UsdtLocation, n + 125 * n / 2)].
End trader.

Section prices.
Context {X : Xcm} {W : SpWeights} {WL : SpWeightsLaws W} {FL : FrameLimits} {LL : FrameLimitsLaws}.
Context {FB : FeeLib} {BL : FeeLibLaws} {TR : Traders} {RL : TradersLaws}.

Lemma unit_weight : ref_time UnitWeightCost = 1000000000 ∧ proof_size UnitWeightCost = 65536.
Proof. unfold UnitWeightCost. by rewrite ref_time_from_parts, proof_size_from_parts. Qed.

Lemma message_weight l :
  Forall (λ i, plain i = true) l →
  Weigher l = if len l <=? 100 then Some (from_parts (1000000000 * len l) (65536 * len l)) else None.
Proof.
  intros Hl. destruct unit_weight as [Ht Hp]. unfold Weigher. rewrite fixed_weight, Ht, Hp by done.
  change MaxInstructions with 100. destruct (Z.leb_spec (len l) 100) as [Hle|Hgt]; [|done].
  by rewrite !(proj2 (Z.leb_le _ u64_MAX)) by (unfold u64_MAX; lia).
Qed.

Lemma stable_price w n l per_second :
  ref_time w = 1000000000 * n → proof_size w = 65536 * n → per_second = (l, 1000, 1000) → 0 < n →
  ∀ h, buy_weight (FixedRateOfFungible per_second) w h =
    if n + 125 * n / 2 <=? held h l then Some (take_out h l (n + 125 * n / 2)) else None.
Proof.
  intros Ht Hp -> Hn h.
  assert (1000 * ref_time w / WEIGHT_REF_TIME_PER_SECOND + 1000 * proof_size w / WEIGHT_PROOF_SIZE_PER_MB = n + 125 * n / 2) as Heq.
  { rewrite Ht, Hp, ref_time_per_second, proof_size_per_mb. f_equal; Z.div_mod_to_equations; lia. }
  rewrite buy_fixed_rate; rewrite Heq; [done|]. Z.div_mod_to_equations. lia.
Qed.

(** C25: the price of a message.  A message of one to a hundred plain instructions is
    weighed, a longer one is not; the trader charges its weight once, in the relay chain's
    currency if the message holds enough of it, else in USDC, else in USDT, and takes
    exactly the price; a message that covers none of the three is refused. *)
Theorem message_priced l h :
  Forall (λ i, plain i = true) l → l ≠ [] →
  (is_Some (Weigher l) ↔ len l ≤ 100) ∧
  ∀ w, Weigher l = Some w → buy_weight Trader w h = pay_first (message_prices (len l)) h.
Proof.
  intros Hl Hne. assert (0 < len l) as Hpos by (destruct l; [done | unfold len; cbn; lia]).
  rewrite message_weight by done. destruct (Z.leb_spec (len l) 100) as [H100|H100]; cycle 1.
  { split; [split; [by intros [] | lia] | done]. }
  split; [done|]. intros w [= <-]. set (w := from_parts _ _).
  assert (ref_time w = 1000000000 * len l ∧ proof_size w = 65536 * len l) as [Ht Hp]
    by by unfold w; rewrite ref_time_from_parts, proof_size_from_parts.
  assert (WeightToFee w = 8 * MICROCENTS * len l) as Hfee.
  { rewrite WeightToFee_eq; rewrite Ht; unfold MICROCENTS, in_width, u64_MAX; [Z.div_mod_to_equations|]; lia. }
  unfold Trader. rewrite !buy_cons, buy_none.
  rewrite buy_components by (rewrite Hfee; unfold MICROCENTS; lia).
  rewrite (stable_price w (len l) UsdcLocation), (stable_price w (len l) UsdtLocation) by done.
  rewrite Hfee. unfold message_prices. cbn [pay_first]. by repeat case_match.
Qed.
End prices.

(** * Routing messages *)

(** [SendXcm]: a router validates a message for a destination, and a later one of a tuple
    is asked when it is [NotApplicable].  [with_topic] gives a message that does not end
    with a topic one of its own. *)
Class Routers {X : Xcm} : Type := {
  Ticket : Type;
  SendError : Type;
  SendError_eq_dec :: EqDecision SendError;
  NotApplicable : SendError;
  SendXcm : Type;
  validate : SendXcm → Location → list Instruction → Ticket + SendError;
  ParentAsUmp : SendXcm;
  XcmpQueue_router : SendXcm;
  router_tuple : list SendXcm → SendXcm;
  with_topic : list Instruction → list Instruction;
  WithUniqueTopic : SendXcm → SendXcm;
}.

Class RoutersLaws `{RO : Routers} : Prop := {
  ump_parent l m : l = (1, []) ↔ validate ParentAsUmp l m ≠ inr NotApplicable;
  xcmp_sibling l m : (∃ id, l = (1, [Parachain id])) ↔ validate XcmpQueue_router l m ≠ inr NotApplicable;
  validate_none l m : validate (router_tuple []) l m = inr NotApplicable;
  validate_cons r rs l m :
    validate (router_tuple (r :: rs)) l m =
      match validate r l m with
      | inr e => if decide (e = NotApplicable) then validate (router_tuple rs) l m else inr e
      | inl t => inl t
      end;
  validate_topic r l m : validate (WithUniqueTopic r) l m = validate r l (with_topic m);
}.

Section router.
Context {X : Xcm} {RO : Routers}.

(** [XcmRouter]. *)
Definition XcmRouter : SendXcm := WithUniqueTopic (router_tuple [ParentAsUmp; XcmpQueue_router]).

(** Messages leave the chain for the relay chain, by the upward queue, and for the
    siblings, by the queue of their channels, always with a topic, and for nobody else. *)
Lemma router_routes {ROL : RoutersLaws} l m :
  validate XcmRouter l m =
    match l with
    | (1, []) => validate ParentAsUmp l (with_topic m)
    | (1, [Parachain _]) => validate XcmpQueue_router l (with_topic m)
    | _ => inr NotApplicable
    end.
Proof.
  unfold XcmRouter. rewrite validate_topic, !validate_cons, validate_none.
  pose proof (ump_parent l (with_topic m)) as Hu. pose proof (xcmp_sibling l (with_topic m)) as Hx.
  destruct (validate ParentAsUmp l (with_topic m)) as [t|e] eqn:Eu.
  { assert (l = (1, [])) as -> by by apply Hu. done. }
  case_decide as He; subst.
  - destruct (validate XcmpQueue_router l (with_topic m)) as [t|e] eqn:Ex.
    { assert (∃ id, l = (1, [Parachain id])) as [id ->] by by apply Hx. done. }
    case_decide as He; subst; [|assert (∃ id, l = (1, [Parachain id])) as [id ->] by (apply Hx; congruence); done].
    by repeat case_match.
  - assert (l = (1, [])) as -> by (apply Hu; congruence). done.
Qed.
End router.

(** * The configurations *)

(** [xcm_executor::Config], as far as it decides what a message may do, and
    [pallet_xcm::Config], as far as it decides what a local account may do. *)
Record ExecutorConfig {X : Xcm} {K : Calls} {O : Origins} {XO : XcmOrigins} {TA : Transactors}
    {W : SpWeights} {B : Barriers} {TR : Traders} {RO : Routers} : Type := mkExecutorConfig {
  cfg_Aliasers : Location → Location → bool;
  cfg_AssetTransactor : TransactAsset;
  cfg_Barrier : ShouldExecute;
  cfg_IsReserve : Asset → Location → bool;
  cfg_IsTeleporter : Asset → Location → bool;
  cfg_MaxAssetsIntoHolding : Z;
  cfg_OriginConverter : ConvertOrigin;
  cfg_SafeCallFilter : RuntimeCall → bool;
  cfg_Trader : WeightTrader;
  cfg_UniversalAliases : Location → Junction → bool;
  cfg_UniversalLocation : list Junction;
  cfg_Weigher : list Instruction → option Weight;
  cfg_XcmSender : SendXcm;
}.

Record PalletXcmConfig {X : Xcm} {O : Origins} {XO : XcmOrigins} {W : SpWeights} {TR : Traders} {RO : Routers} : Type := mkPalletXcmConfig {
  cfg_AdminOrigin : RuntimeOrigin → unit + RuntimeOrigin;
  cfg_ExecuteXcmOrigin : RuntimeOrigin → Location + RuntimeOrigin;
  cfg_MaxLockers : Z;
  cfg_MaxRemoteLockConsumers : Z;
  cfg_SendXcmOrigin : RuntimeOrigin → Location + RuntimeOrigin;
  cfg_SovereignAccountOf : ConvertLocation;
  cfg_pallet_UniversalLocation : list Junction;
  cfg_pallet_Weigher : list Instruction → option Weight;
  cfg_XcmExecuteFilter : Location * list Instruction → bool;
  cfg_XcmReserveTransferFilter : Location * list Asset → bool;
  cfg_XcmRouter : SendXcm;
  cfg_XcmTeleportFilter : Location * list Asset → bool;
  VERSION_DISCOVERY_QUEUE_SIZE : Z;
}.

(** The executor on [Transact], the extrinsics of [pallet_xcm] that filters guard, and
    the conversion of local origins. *)
Inductive xcm_call {X : Xcm} : Type :=
  | execute (message : list Instruction)
  | teleport_assets (assets : list Asset)
  | reserve_transfer_assets (assets : list Asset).

Class XcmPallet {X : Xcm} {K : Calls} {O : Origins} {XO : XcmOrigins} {TA : Transactors}
    {W : SpWeights} {B : Barriers} {TR : Traders} {RO : Routers} : Type := {
  (** The origin with which the call of a [Transact] is dispatched. *)
  dispatch_transact : ExecutorConfig → Location → OriginKind → RuntimeCall → option RuntimeOrigin;
  (** Whether the extrinsic gets past the checks of its origin and of the filters. *)
  accepts : PalletXcmConfig → RuntimeOrigin → xcm_call → bool;
  SignedToAccountId32 : option NetworkId → RuntimeOrigin → Location + RuntimeOrigin;
  EnsureXcmOrigin : (RuntimeOrigin → Location + RuntimeOrigin) → RuntimeOrigin → Location + RuntimeOrigin;
}.

Class XcmPalletLaws `{XP : XcmPallet} : Prop := {
  dispatch_transact_safe c l k call :
    dispatch_transact c l k call = if cfg_SafeCallFilter c call then convert_origin (cfg_OriginConverter c) l k else None;
  accepts_filtered c o call :
    accepts c o call = match cfg_ExecuteXcmOrigin c o with
      | inl l => match call with
        | execute m => cfg_XcmExecuteFilter c (l, m)
        | teleport_assets l' => cfg_XcmTeleportFilter c (l, l')
        | reserve_transfer_assets l' => cfg_XcmReserveTransferFilter c (l, l')
        end
      | inr _ => false
      end;
}.

Section configurations.
Context {X : Xcm} {K : Calls} {O : Origins} {XO : XcmOrigins} {TA : Transactors} {W : SpWeights} {B : Barriers}.
Context {TR : Traders} {RO : Routers} {XP : XcmPallet} {Mx : MatchXcm} {FL : FrameLimits} {FB : FeeLib}.
Context (parachain_id : Z).

(** [Nothing], for each kind of filter. *)
Definition Nothing {A : Type} (_ : A) : bool := false.
Definition NothingPair {A B : Type} (_ : A) (_ : B) : bool := false.

(** [XcmConfig]. *)
Definition XcmConfig : ExecutorConfig := {|
  cfg_Aliasers := NothingPair;
  cfg_AssetTransactor := AssetTransactors;
  cfg_Barrier := Barrier parachain_id;
  cfg_IsReserve := Reserves;
  cfg_IsTeleporter := IsTeleporter;
  cfg_MaxAssetsIntoHolding := MaxAssetsIntoHolding;
  cfg_OriginConverter := XcmOriginToTransactDispatchOrigin;
  cfg_SafeCallFilter := Nothing;
  cfg_Trader := Trader;
  cfg_UniversalAliases := NothingPair;
  cfg_UniversalLocation := UniversalLocation parachain_id;
  cfg_Weigher := Weigher;
  cfg_XcmSender := XcmRouter;
|}.

(** [LocalOriginToLocation], [MaxLockers], [MaxRemoteLockConsumers], and
    [pallet_xcm::Config for Runtime]. *)
Definition LocalOriginToLocation : RuntimeOrigin → Location + RuntimeOrigin := SignedToAccountId32 RelayNetwork.
Definition MaxLockers : Z := 8.
Definition MaxRemoteLockConsumers : Z := 0.
Definition pallet_xcm_Config : PalletXcmConfig := {|
  cfg_AdminOrigin := AdminOrigin;
  cfg_ExecuteXcmOrigin := EnsureXcmOrigin LocalOriginToLocation;
  cfg_MaxLockers := MaxLockers;
  cfg_MaxRemoteLockConsumers := MaxRemoteLockConsumers;
  cfg_SendXcmOrigin := EnsureXcmOrigin LocalOriginToLocation;
  cfg_SovereignAccountOf := LocationToAccountId;
  cfg_pallet_UniversalLocation := UniversalLocation parachain_id;
  cfg_pallet_Weigher := Weigher;
  cfg_XcmExecuteFilter := Nothing;
  cfg_XcmReserveTransferFilter := AssetHubAssets_contains;
  cfg_XcmRouter := XcmRouter;
  cfg_XcmTeleportFilter := Nothing;
  VERSION_DISCOVERY_QUEUE_SIZE := 100;
|}.

(** No call is ever dispatched by a [Transact], so that the origin that changes the
    collators for the relay chain's body is of no use to it. *)
Lemma transact_refused `{XPL : !XcmPalletLaws} l k call : dispatch_transact XcmConfig l k call = None.
Proof. by rewrite dispatch_transact_safe. Qed.

(** Local accounts neither execute messages nor teleport; they transfer reserve assets
    when all of them are payment assets. *)
Lemma local_messages `{XPL : !XcmPalletLaws} o call :
  accepts pallet_xcm_Config o call = true →
  ∃ assets, call = reserve_transfer_assets assets ∧
    ∀ x, x ∈ assets → ∃ pa, convert (asset_id x) = Some (PaymentAssets_id pa).
Proof.
  rewrite accepts_filtered. cbn. destruct (EnsureXcmOrigin LocalOriginToLocation o) as [l|]; [|done].
  destruct call as [m|assets|assets]; [done | done|]. intros Ha. exists assets. split; [done|].
  by apply (asset_hub_transfers (l, assets)).
Qed.
End configurations.

(** * Concrete transactors and traders *)

(** Ledgers as functions; the location of an account is its index. *)
#[local] Existing Instances XcmSampleOrigins SampleXcmOrigins XcmSampleOrigins_laws SampleXcmOrigins_laws.

#[local] Instance SampleTransactors : Transactors (XO := SampleXcmOrigins) := {|
  fungible_amount n := (Some n : option Z);
  convert_location _ l := match l with (0, [GeneralIndex i]) => Some (i : RuntimeGovernance.AccountId) | _ => None end;
  XcmError := bool * bool;
  AssetNotFound := (true, true);
  Unimplemented := (false, false);
  AccountIdConversionFailed := (true, false);
  AssetIdConversionFailed := (false, true);
  Ledgers := list (currency * Z * Z);
  mint_into c a n w := inl ((c, a, n) :: w);
  burn_from c a n w := inl ((c, a, - n) :: w);
  IsConcrete l a := if decide (asset_id a = l) then Some (fun_ a) else None;
  MatchedConvertedConcreteId contains conv a :=
    if contains (asset_id a) then
      match conv (asset_id a) with Some i => inl (i, fun_ a) | None => inr (false, true) end
    else inr (true, true);
  TransactAsset :=
    bool → Asset (X := SampleXcm) → Location (X := SampleXcm) → list (currency * Z * Z) → list (currency * Z * Z) + bool * bool;
  deposit_asset t := t true;
  withdraw_asset t := t false;
  FungibleAdapter m conv in_ a who w :=
    match m a, who with
    | Some n, (0, [GeneralIndex i]) => inl ((Native, i, if in_ : bool then n else - n) :: w)
    | Some _, _ => inr (true, false)
    | None, _ => inr (true, true)
    end;
  FungiblesAdapter m conv in_ a who w :=
    match m a, who with
    | inl (id, n), (0, [GeneralIndex i]) => inl ((Foreign id, i, if in_ : bool then n else - n) :: w)
    | inl _, _ => inr (true, false)
    | inr e, _ => inr e
    end;
  transact_tuple := foldr (λ t r in_ a who w,
    match t in_ a who w with inl w' => inl w' | inr e => if decide (e = (true, true) ∨ e = (false, false)) then r in_ a who w else inr e end)
    (λ _ _ _ _, inr (true, true));
|}.
#[local] Instance SampleTransactors_laws : TransactorsLaws (TA := SampleTransactors).
Proof.
  split; cbn; try done.
  - by intros [?|?].
  - by intros [] c a n w e.
  - intros [] m conv a who w; cbn; destruct (m a); try done; repeat case_match; by simplify_eq.
  - intros [] m conv a who w; cbn; destruct (m a) as [[]|]; try done; repeat case_match; by simplify_eq.
  - by intros [] a who w.
  - by intros [] t ts a who w.
Qed.

Lemma reserves_back_currencies_witness :
  let a : Asset (X := SampleXcm) := mkAsset (X := SampleXcm) UsdcLocation 5 in
  let who : Location (X := SampleXcm) := (0, [GeneralIndex 7]) in
  (transact (TA := SampleTransactors) true AssetTransactors a who [] =
     transact_reference (TA := SampleTransactors) true a who [] ∧
   (∀ c, currency_of (asset_id a) = Some c →
      Reserves (XO := SampleXcmOrigins) a (reserve_of c) = true ∧
      (Reserves (XO := SampleXcmOrigins) a (1, [Parachain 1000]) = true → inside (1, [Parachain 1000]) (reserve_of c))) ∧
   (currency_of (asset_id a) = None →
      (Reserves (XO := SampleXcmOrigins) a (1, [Parachain 1000]) = true ↔ (1, [Parachain 1000]) = asset_id a) ∧
      transact (TA := SampleTransactors) true AssetTransactors a who [] = inr AssetNotFound)) ∧
  transact_reference (TA := SampleTransactors) true a who [] = inl [(Foreign 1337, 7, 5)].
Proof.
  intros a who. split; [|by vm_compute].
  apply (reserves_back_currencies (TA := SampleTransactors) true a who [] (1, [Parachain 1000])).
Defined.

(** Holdings as functions of the asset. *)
Definition pays (n : Z) (l : Location (X := SampleXcm)) (h : Location (X := SampleXcm) → Z) : option (Location (X := SampleXcm) → Z) :=
  if n <=? h l then Some (λ l', h l' - (if decide (l = l') then n else 0)) else None.

#[local] Instance SampleTraders : Traders (X := SampleXcm) (W := SampleWeights) := {|
  plain _ := true;
  FixedWeightBounds u n l :=
    if (len l <=? n) && (u.1 * len l <=? u64_MAX) && (u.2 * len l <=? u64_MAX)
    then Some (u.1 * len l, u.2 * len l) else None;
  Holding := Location (X := SampleXcm) → Z;
  held h := h;
  take_out h l n := λ l', h l' - (if decide (l = l') then n else 0);
  WeightTrader := Z * Z → (Location (X := SampleXcm) → Z) → option (Location (X := SampleXcm) → Z);
  buy_weight t := t;
  UsingComponents f l w := pays (f w) l;
  FixedRateOfFungible rate w := pays (rate.1.2 * w.1 / 1000000000000 + rate.2 * w.2 / 1048576) rate.1.1;
  trader_tuple := foldr (λ t r w h, match t w h with Some h' => Some h' | None => r w h end) (λ _ _, None);
  WEIGHT_PROOF_SIZE_PER_MB := 1048576;
|}.
#[local] Instance SampleTraders_laws : TradersLaws (TR := SampleTraders).
Proof.
  by split.
Qed.

Lemma message_priced_witness :
  let l := replicate 4 (OtherInst (X := SampleXcm) tt) in
  let h : Holding (Traders := SampleTraders) := λ l, if decide (l = UsdtLocation) then 1000 else 5 in
  ((is_Some (Weigher (TR := SampleTraders) l) ↔ len l ≤ 100) ∧
   ∀ w, Weigher (TR := SampleTraders) l = Some w →
     buy_weight (Trader (FB := SampleFees) (TR := SampleTraders)) w h = pay_first (TR := SampleTraders) (message_prices (len l)) h) ∧
  option_map (λ h, h UsdtLocation) (pay_first (TR := SampleTraders) (message_prices (len l)) h) = Some 746.
Proof.
  intros l h. split; [|by vm_compute].
  apply (message_priced (FB := SampleFees) (TR := SampleTraders) l h); [by repeat constructor | done].
Defined.
