(* ===== verification/RuntimePallets.v ===== *)
(** The configurations of the pallets: the [Config for Runtime] of
    [runtime/src/configs/mod.rs] and [runtime/src/configs/governance/mod.rs], with the
    parameters they are given.  A module per pallet has the associated types that choose
    something: a parameter, another pallet of the runtime, an origin, a filter, or the
    module of [runtime/src/weights/] that weighs its calls.  Those that only name a type
    of the runtime itself ([RuntimeCall], [RuntimeEvent], [Balance] and the like) or that
    switch something off ([()]) are left out. *)

From S2P Require Import Prelude RoscaTypes Weights RuntimeConstants RuntimeFilters RuntimeXcm RuntimeGovernance.
From S2P Require Import RuntimePrivileges RuntimeBlocks.
#[local] Open Scope string_scope.
#[local] Open Scope Z_scope.

(** [PalletId], eight bytes. *)
Abbreviation PalletId := string.

(** The remaining parameters.  [Permill] is in parts of a million. *)
Definition ExistentialDeposit : Z := EXISTENTIAL_DEPOSIT.
Definition PotId : PalletId := "PotStake".
Definition ProposalBond : Z := 50000.
Definition Burn : Z := 2000.
Definition TreasuryPalletId : PalletId := "py/trsry".
Definition RoscaPalletId : PalletId := "py/rosca".

(** [VERSION], without the versions of the APIs. *)
Record RuntimeVersion : Type := mkRuntimeVersion {
  spec_name : string;
  impl_name : string;
  authoring_version : Z;
  spec_version : Z;
  impl_version : Z;
  transaction_version : Z;
  state_version : Z;
}.
Definition VERSION : RuntimeVersion := mkRuntimeVersion "template-parachain" "template-parachain" 1 1 0 1 1.

(** [frame_system::Config for Runtime]; the other types are the defaults of [ParaChainDefaultConfig]. *)
Module frame_system.
Section config.
Context {K : Calls} {W : SpWeights} {FL : FrameLimits} {X : Xcm} {O : Origins} {XO : XcmOrigins}.
Record Config : Type := mkConfig {
  BaseCallFilter : RuntimeCall → bool;
  cfg_BlockLength : BlockLength;
  cfg_BlockWeights : BlockWeights;
  DbWeight : RuntimeDbWeight;
  MaxConsumers : Z;
  cfg_SS58Prefix : Z;
  Version : RuntimeVersion;
}.
Definition frame_system_Config : Config := {|
  BaseCallFilter := NormalFilter_contains;
  cfg_BlockLength := RuntimeBlockLength;
  cfg_BlockWeights := RuntimeBlockWeights;
  DbWeight := RocksDbWeight;
  MaxConsumers := 16;
  cfg_SS58Prefix := SS58Prefix;
  Version := VERSION;
|}.
End config.
End frame_system.

(** [pallet_scheduler::Config for Runtime]. *)
Module pallet_scheduler.
Section config.
Context {K : Calls} {W : SpWeights} {FL : FrameLimits} {X : Xcm} {O : Origins} {XO : XcmOrigins}.
Record Config : Type := mkConfig {
  MaxScheduledPerBlock : Z;
  MaximumWeight : Weight;
  Preimages : pallet;
  cfg_ScheduleOrigin : RuntimeOrigin → unit + RuntimeOrigin;
  WeightInfo : string;
}.
Definition pallet_scheduler_Config : Config := {|
  MaxScheduledPerBlock := MaxScheduledRuntimeCallsPerBlock;
  MaximumWeight := MaximumSchedulerWeight;
  Preimages := Preimage;
  cfg_ScheduleOrigin := ScheduleOrigin;
  WeightInfo := "pallet_scheduler";
|}.
End config.
End pallet_scheduler.

(** [pallet_preimage::Config for Runtime]: the [Consideration] is a hold of [Balances] at a linear price. *)
Module pallet_preimage.
Section config.
Context {K : Calls} {W : SpWeights} {FL : FrameLimits} {X : Xcm} {O : Origins} {XO : XcmOrigins}.
Record Config : Type := mkConfig {
  Consideration_currency : pallet;
  Consideration_base : Z;
  Consideration_byte : Z;
  Currency : pallet;
  cfg_ManagerOrigin : RuntimeOrigin → unit + RuntimeOrigin;
  WeightInfo : string;
}.
Definition pallet_preimage_Config : Config := {|
  Consideration_currency := Balances;
  Consideration_base := PreimageBaseDeposit;
  Consideration_byte := PreimageByteDeposit;
  Currency := Balances;
  cfg_ManagerOrigin := ManagerOrigin;
  WeightInfo := "pallet_preimage";
|}.
End config.
End pallet_preimage.

(** [pallet_timestamp::Config for Runtime], by the feature [experimental]. *)
Module pallet_timestamp.
Section config.
Context {K : Calls} {W : SpWeights} {FL : FrameLimits} {X : Xcm} {O : Origins} {XO : XcmOrigins}.
Record Config : Type := mkConfig {
  cfg_MinimumPeriod : bool → Z;
  OnTimestampSet : pallet;
  WeightInfo : string;
}.
Definition pallet_timestamp_Config : Config := {|
  cfg_MinimumPeriod := MinimumPeriod;
  OnTimestampSet := Aura;
  WeightInfo := "pallet_timestamp";
|}.
End config.
End pallet_timestamp.

(** [pallet_authorship::Config for Runtime]: the author is found among the authorities of [FindAuthor]. *)
Module pallet_authorship.
Section config.
Context {K : Calls} {W : SpWeights} {FL : FrameLimits} {X : Xcm} {O : Origins} {XO : XcmOrigins}.
Record Config : Type := mkConfig {
  EventHandler : list pallet;
  FindAuthor : pallet;
}.
Definition pallet_authorship_Config : Config := {|
  EventHandler := [CollatorSelection];
  FindAuthor := Aura;
|}.
End config.
End pallet_authorship.

(** [pallet_proxy::Config for Runtime]. *)
Module pallet_proxy.
Section config.
Context {K : Calls} {W : SpWeights} {FL : FrameLimits} {X : Xcm} {O : Origins} {XO : XcmOrigins}.
Record Config : Type := mkConfig {
  cfg_AnnouncementDepositBase : Z;
  cfg_AnnouncementDepositFactor : Z;
  Currency : pallet;
  cfg_MaxPending : Z;
  cfg_MaxProxies : Z;
  cfg_ProxyDepositBase : Z;
  cfg_ProxyDepositFactor : Z;
  proxy_filter : ProxyType → RuntimeCall → bool;
  WeightInfo : string;
}.
Definition pallet_proxy_Config : Config := {|
  cfg_AnnouncementDepositBase := AnnouncementDepositBase;
  cfg_AnnouncementDepositFactor := AnnouncementDepositFactor;
  Currency := Balances;
  cfg_MaxPending := MaxPending;
  cfg_MaxProxies := MaxProxies;
  cfg_ProxyDepositBase := ProxyDepositBase;
  cfg_ProxyDepositFactor := ProxyDepositFactor;
  proxy_filter := ProxyType_filter;
  WeightInfo := "pallet_proxy";
|}.
End config.
End pallet_proxy.

(** [pallet_balances::Config for Runtime]. *)
Module pallet_balances.
Section config.
Context {K : Calls} {W : SpWeights} {FL : FrameLimits} {X : Xcm} {O : Origins} {XO : XcmOrigins}.
Record Config : Type := mkConfig {
  AccountStore : pallet;
  cfg_ExistentialDeposit : Z;
  cfg_MaxFreezes : Z;
  cfg_MaxLocks : Z;
  cfg_MaxReserves : Z;
  WeightInfo : string;
}.
Definition pallet_balances_Config : Config := {|
  AccountStore := System;
  cfg_ExistentialDeposit := ExistentialDeposit;
  cfg_MaxFreezes := MaxFreezes;
  cfg_MaxLocks := MaxLocks;
  cfg_MaxReserves := MaxReserves;
  WeightInfo := "pallet_balances";
|}.
End config.
End pallet_balances.

(** [pallet_assets::Config for Runtime]; any signed account may create an asset. *)
Module pallet_assets.
Section config.
Context {K : Calls} {W : SpWeights} {FL : FrameLimits} {X : Xcm} {O : Origins} {XO : XcmOrigins}.
Record Config : Type := mkConfig {
  cfg_ApprovalDeposit : Z;
  cfg_AssetAccountDeposit : Z;
  cfg_AssetDeposit : Z;
  Currency : pallet;
  cfg_ForceOrigin : RuntimeOrigin → unit + RuntimeOrigin;
  cfg_MetadataDepositBase : Z;
  cfg_MetadataDepositPerByte : Z;
  cfg_RemoveItemsLimit : Z;
  StringLimit : Z;
  WeightInfo : string;
}.
Definition pallet_assets_Config : Config := {|
  cfg_ApprovalDeposit := ApprovalDeposit;
  cfg_AssetAccountDeposit := AssetAccountDeposit;
  cfg_AssetDeposit := AssetDeposit;
  Currency := Balances;
  cfg_ForceOrigin := ForceOrigin;
  cfg_MetadataDepositBase := MetadataDepositBase;
  cfg_MetadataDepositPerByte := MetadataDepositPerByte;
  cfg_RemoveItemsLimit := RemoveItemsLimit;
  StringLimit := assets_StringLimit;
  WeightInfo := "pallet_assets";
|}.
End config.
End pallet_assets.

(** [pallet_sudo::Config for Runtime]. *)
Module pallet_sudo.
Section config.
Context {K : Calls} {W : SpWeights} {FL : FrameLimits} {X : Xcm} {O : Origins} {XO : XcmOrigins}.
Record Config : Type := mkConfig {
  WeightInfo : string;
}.
Definition pallet_sudo_Config : Config := {|
  WeightInfo := "pallet_sudo";
|}.
End config.
End pallet_sudo.

(** [cumulus_pallet_parachain_system::Config for Runtime]; the downward messages are queued for [RelayOrigin]. *)
Module cumulus_pallet_parachain_system.
Section config.
Context {K : Calls} {W : SpWeights} {FL : FrameLimits} {X : Xcm} {O : Origins} {XO : XcmOrigins}.
Record Config : Type := mkConfig {
  DmpQueue : pallet;
  OutboundXcmpMessageSource : pallet;
  cfg_ReservedDmpWeight : Weight;
  cfg_ReservedXcmpWeight : Weight;
  SelfParaId : pallet;
  WeightInfo : string;
  XcmpMessageHandler : pallet;
}.
Definition cumulus_pallet_parachain_system_Config : Config := {|
  DmpQueue := MessageQueue;
  OutboundXcmpMessageSource := XcmpQueue;
  cfg_ReservedDmpWeight := ReservedDmpWeight;
  cfg_ReservedXcmpWeight := ReservedXcmpWeight;
  SelfParaId := ParachainInfo;
  WeightInfo := "cumulus_pallet_parachain_system";
  XcmpMessageHandler := XcmpQueue;
|}.
End config.
End cumulus_pallet_parachain_system.

(** [pallet_message_queue::Config for Runtime], without the feature [runtime-benchmarks]. *)
Module pallet_message_queue.
Section config.
Context {K : Calls} {W : SpWeights} {FL : FrameLimits} {X : Xcm} {O : Origins} {XO : XcmOrigins}.
Record Config : Type := mkConfig {
  cfg_HeapSize : Z;
  IdleMaxServiceWeight : Weight;
  cfg_MaxStale : Z;
  QueueChangeHandler : pallet;
  QueuePausedQuery : pallet;
  ServiceWeight : Weight;
  WeightInfo : string;
}.
Definition pallet_message_queue_Config : Config := {|
  cfg_HeapSize := HeapSize;
  IdleMaxServiceWeight := MessageQueueServiceWeight;
  cfg_MaxStale := MaxStale;
  QueueChangeHandler := XcmpQueue;
  QueuePausedQuery := XcmpQueue;
  ServiceWeight := MessageQueueServiceWeight;
  WeightInfo := "pallet_message_queue";
|}.
End config.
End pallet_message_queue.

(** [cumulus_pallet_xcmp_queue::Config for Runtime]. *)
Module cumulus_pallet_xcmp_queue.
Section config.
Context {K : Calls} {W : SpWeights} {FL : FrameLimits} {X : Xcm} {O : Origins} {XO : XcmOrigins}.
Record Config : Type := mkConfig {
  ChannelInfo : pallet;
  cfg_ControllerOrigin : RuntimeOrigin → unit + RuntimeOrigin;
  ControllerOriginConverter : ConvertOrigin;
  cfg_MaxInboundSuspended : Z;
  WeightInfo : string;
  cfg_XcmpQueue : pallet;
}.
Definition cumulus_pallet_xcmp_queue_Config : Config := {|
  ChannelInfo := ParachainSystem;
  cfg_ControllerOrigin := ControllerOrigin;
  ControllerOriginConverter := XcmOriginToTransactDispatchOrigin;
  cfg_MaxInboundSuspended := MaxInboundSuspended;
  WeightInfo := "cumulus_pallet_xcmp_queue";
  cfg_XcmpQueue := MessageQueue;
|}.
End config.
End cumulus_pallet_xcmp_queue.

(** [pallet_multisig::Config for Runtime]. *)
Module pallet_multisig.
Section config.
Context {K : Calls} {W : SpWeights} {FL : FrameLimits} {X : Xcm} {O : Origins} {XO : XcmOrigins}.
Record Config : Type := mkConfig {
  Currency : pallet;
  cfg_DepositBase : Z;
  cfg_DepositFactor : Z;
  cfg_MaxSignatories : Z;
  WeightInfo : string;
}.
Definition pallet_multisig_Config : Config := {|
  Currency := Balances;
  cfg_DepositBase := DepositBase;
  cfg_DepositFactor := DepositFactor;
  cfg_MaxSignatories := MaxSignatories;
  WeightInfo := "pallet_multisig";
|}.
End config.
End pallet_multisig.

(** [pallet_session::Config for Runtime]: both the rotation and its estimate are [PeriodicSessions]. *)
Module pallet_session.
Section config.
Context {K : Calls} {W : SpWeights} {FL : FrameLimits} {X : Xcm} {O : Origins} {XO : XcmOrigins}.
Record Config : Type := mkConfig {
  NextSessionRotation : Z * Z;
  SessionManager : pallet;
  ShouldEndSession : Z * Z;
  WeightInfo : string;
}.
Definition pallet_session_Config : Config := {|
  NextSessionRotation := (Period, Offset);
  SessionManager := CollatorSelection;
  ShouldEndSession := (Period, Offset);
  WeightInfo := "pallet_session";
|}.
End config.
End pallet_session.

(** [pallet_aura::Config for Runtime]. *)
Module pallet_aura.
Section config.
Context {K : Calls} {W : SpWeights} {FL : FrameLimits} {X : Xcm} {O : Origins} {XO : XcmOrigins}.
Record Config : Type := mkConfig {
  cfg_AllowMultipleBlocksPerSlot : bool;
  cfg_MaxAuthorities : Z;
  SlotDuration : Z;
}.
Definition pallet_aura_Config : Config := {|
  cfg_AllowMultipleBlocksPerSlot := AllowMultipleBlocksPerSlot;
  cfg_MaxAuthorities := MaxAuthorities;
  SlotDuration := SLOT_DURATION;
|}.
End config.
End pallet_aura.

(** [pallet_collator_selection::Config for Runtime]. *)
Module pallet_collator_selection.
Section config.
Context {K : Calls} {W : SpWeights} {FL : FrameLimits} {X : Xcm} {O : Origins} {XO : XcmOrigins}.
Record Config : Type := mkConfig {
  Currency : pallet;
  KickThreshold : Z;
  cfg_MaxCandidates : Z;
  cfg_MaxInvulnerables : Z;
  cfg_MinEligibleCollators : Z;
  cfg_PotId : PalletId;
  UpdateOrigin : RuntimeOrigin → (unit + Location) + RuntimeOrigin;
  ValidatorRegistration : pallet;
  WeightInfo : string;
}.
Definition pallet_collator_selection_Config : Config := {|
  Currency := Balances;
  KickThreshold := Period;
  cfg_MaxCandidates := MaxCandidates;
  cfg_MaxInvulnerables := MaxInvulnerables;
  cfg_MinEligibleCollators := MinEligibleCollators;
  cfg_PotId := PotId;
  UpdateOrigin := CollatorSelectionUpdateOrigin;
  ValidatorRegistration := Session;
  WeightInfo := "pallet_collator_selection";
|}.
End config.
End pallet_collator_selection.

(** [pallet_utility::Config for Runtime]. *)
Module pallet_utility.
Section config.
Context {K : Calls} {W : SpWeights} {FL : FrameLimits} {X : Xcm} {O : Origins} {XO : XcmOrigins}.
Record Config : Type := mkConfig {
  WeightInfo : string;
}.
Definition pallet_utility_Config : Config := {|
  WeightInfo := "pallet_utility";
|}.
End config.
End pallet_utility.

(** [pallet_treasury::Config for Runtime], without the feature [runtime-benchmarks]. *)
Module pallet_treasury.
Section config.
Context {K : Calls} {W : SpWeights} {FL : FrameLimits} {X : Xcm} {O : Origins} {XO : XcmOrigins}.
Record Config : Type := mkConfig {
  cfg_ApproveOrigin : RuntimeOrigin → (unit + unit) + RuntimeOrigin;
  Currency : pallet;
  cfg_MaxApprovals : Z;
  OnSlash : pallet;
  cfg_PalletId : PalletId;
  PayoutPeriod : Z;
  cfg_ProposalBond : Z;
  cfg_ProposalBondMaximum : option Z;
  cfg_ProposalBondMinimum : Z;
  cfg_RejectOrigin : RuntimeOrigin → (unit + unit) + RuntimeOrigin;
  SpendOrigin : RuntimeOrigin → Z + RuntimeOrigin;
  cfg_SpendPeriod : Z;
  WeightInfo : string;
}.
Definition pallet_treasury_Config : Config := {|
  cfg_ApproveOrigin := ApproveOrigin;
  Currency := Balances;
  cfg_MaxApprovals := MaxApprovals;
  OnSlash := Treasury;
  cfg_PalletId := TreasuryPalletId;
  PayoutPeriod := PayoutSpendPeriod;
  cfg_ProposalBond := ProposalBond;
  cfg_ProposalBondMaximum := Some ProposalBondMaximum;
  cfg_ProposalBondMinimum := ProposalBondMinimum;
  cfg_RejectOrigin := RejectOrigin;
  SpendOrigin := TreasurySpender;
  cfg_SpendPeriod := SpendPeriod;
  WeightInfo := "pallet_treasury";
|}.
End config.
End pallet_treasury.

(** [pallet_rosca::Config for Runtime]. *)
Module pallet_rosca.
Section config.
Context {K : Calls} {W : SpWeights} {FL : FrameLimits} {X : Xcm} {O : Origins} {XO : XcmOrigins}.
Record Config : Type := mkConfig {
  ForeignCurrency : pallet;
  MaxParticipants : Z;
  MaxInvitedParticipants : Z;
  cfg_PalletId : PalletId;
  StringLimit : Z;
}.
Definition pallet_rosca_Config : Config := {|
  ForeignCurrency := Assets;
  MaxParticipants := rosca_MaxParticipants;
  MaxInvitedParticipants := rosca_MaxInvitedParticipants;
  cfg_PalletId := RoscaPalletId;
  StringLimit := rosca_StringLimit;
|}.
End config.
End pallet_rosca.

(** [pallet_conviction_voting::Config for Runtime]. *)
Module pallet_conviction_voting.
Section config.
Context {K : Calls} {W : SpWeights} {FL : FrameLimits} {X : Xcm} {O : Origins} {XO : XcmOrigins}.
Record Config : Type := mkConfig {
  Currency : pallet;
  MaxVotes : Z;
  Polls : pallet;
  cfg_VoteLockingPeriod : Z;
  WeightInfo : string;
}.
Definition pallet_conviction_voting_Config : Config := {|
  Currency := Balances;
  MaxVotes := 512;
  Polls := Referenda;
  cfg_VoteLockingPeriod := VoteLockingPeriod;
  WeightInfo := "pallet_conviction_voting";
|}.
End config.
End pallet_conviction_voting.

(** [pallet_whitelist::Config for Runtime]. *)
Module pallet_whitelist.
Section config.
Context {K : Calls} {W : SpWeights} {FL : FrameLimits} {X : Xcm} {O : Origins} {XO : XcmOrigins}.
Record Config : Type := mkConfig {
  cfg_DispatchWhitelistedOrigin : RuntimeOrigin → unit + RuntimeOrigin;
  Preimages : pallet;
  WeightInfo : string;
  cfg_WhitelistOrigin : RuntimeOrigin → unit + RuntimeOrigin;
}.
Definition pallet_whitelist_Config : Config := {|
  cfg_DispatchWhitelistedOrigin := DispatchWhitelistedOrigin;
  Preimages := Preimage;
  WeightInfo := "pallet_whitelist";
  cfg_WhitelistOrigin := WhitelistOrigin;
|}.
End config.
End pallet_whitelist.

(** [pallet_referenda::Config for Runtime]; any signed account may submit a referendum. *)
Module pallet_referenda.
Section config.
Context {K : Calls} {W : SpWeights} {FL : FrameLimits} {X : Xcm} {O : Origins} {XO : XcmOrigins}.
Record Config : Type := mkConfig {
  cfg_AlarmInterval : Z;
  cfg_CancelOrigin : RuntimeOrigin → unit + RuntimeOrigin;
  Currency : pallet;
  cfg_KillOrigin : RuntimeOrigin → unit + RuntimeOrigin;
  MaxQueued : Z;
  Preimages : pallet;
  cfg_Scheduler : pallet;
  Slash : pallet;
  cfg_SubmissionDeposit : Z;
  Tracks : list (Z * TrackInfo);
  cfg_UndecidingTimeout : Z;
  WeightInfo : string;
}.
Definition pallet_referenda_Config : Config := {|
  cfg_AlarmInterval := AlarmInterval;
  cfg_CancelOrigin := CancelOrigin;
  Currency := Balances;
  cfg_KillOrigin := KillOrigin;
  MaxQueued := 20;
  Preimages := Preimage;
  cfg_Scheduler := Scheduler;
  Slash := Treasury;
  cfg_SubmissionDeposit := SubmissionDeposit;
  Tracks := tracks;
  cfg_UndecidingTimeout := UndecidingTimeout;
  WeightInfo := "pallet_referenda";
|}.
End config.
End pallet_referenda.

(** * Properties *)

(** The crate of a pallet, as [construct_runtime!] names it. *)
Definition crate (p : pallet) : string :=
  match p with
  | System => "frame_system"
  | ParachainSystem => "cumulus_pallet_parachain_system"
  | Timestamp => "pallet_timestamp"
  | ParachainInfo => "parachain_info"
  | Proxy => "pallet_proxy"
  | Utility => "pallet_utility"
  | Multisig => "pallet_multisig"
  | Scheduler => "pallet_scheduler"
  | Preimage => "pallet_preimage"
  | Balances => "pallet_balances"
  | TransactionPayment => "pallet_transaction_payment"
  | Assets => "pallet_assets"
  | Treasury => "pallet_treasury"
  | Sudo => "pallet_sudo"
  | ConvictionVoting => "pallet_conviction_voting"
  | Referenda => "pallet_referenda"
  | RuntimeFilters.Origins => "pallet_custom_origins"
  | Whitelist => "pallet_whitelist"
  | Authorship => "pallet_authorship"
  | CollatorSelection => "pallet_collator_selection"
  | Session => "pallet_session"
  | Aura => "pallet_aura"
  | AuraExt => "cumulus_pallet_aura_ext"
  | XcmpQueue => "cumulus_pallet_xcmp_queue"
  | PolkadotXcm => "pallet_xcm"
  | CumulusXcm => "cumulus_pallet_xcm"
  | MessageQueue => "pallet_message_queue"
  | Rosca => "pallet_rosca"
  end.

Section wiring.
Context {K : Calls} {W : SpWeights} {FL : FrameLimits} {X : Xcm} {O : Origins} {XO : XcmOrigins}.

(** The module of [runtime/src/weights/] that weighs the calls of a pallet. *)
Definition weight_module (p : pallet) : option string :=
  match p with
  | Scheduler => Some (pallet_scheduler.WeightInfo pallet_scheduler.pallet_scheduler_Config)
  | Preimage => Some (pallet_preimage.WeightInfo pallet_preimage.pallet_preimage_Config)
  | Timestamp => Some (pallet_timestamp.WeightInfo pallet_timestamp.pallet_timestamp_Config)
  | Proxy => Some (pallet_proxy.WeightInfo pallet_proxy.pallet_proxy_Config)
  | Balances => Some (pallet_balances.WeightInfo pallet_balances.pallet_balances_Config)
  | Assets => Some (pallet_assets.WeightInfo pallet_assets.pallet_assets_Config)
  | Sudo => Some (pallet_sudo.WeightInfo pallet_sudo.pallet_sudo_Config)
  | ParachainSystem => Some (cumulus_pallet_parachain_system.WeightInfo cumulus_pallet_parachain_system.cumulus_pallet_parachain_system_Config)
  | MessageQueue => Some (pallet_message_queue.WeightInfo pallet_message_queue.pallet_message_queue_Config)
  | XcmpQueue => Some (cumulus_pallet_xcmp_queue.WeightInfo cumulus_pallet_xcmp_queue.cumulus_pallet_xcmp_queue_Config)
  | Multisig => Some (pallet_multisig.WeightInfo pallet_multisig.pallet_multisig_Config)
  | Session => Some (pallet_session.WeightInfo pallet_session.pallet_session_Config)
  | CollatorSelection => Some (pallet_collator_selection.WeightInfo pallet_collator_selection.pallet_collator_selection_Config)
  | Utility => Some (pallet_utility.WeightInfo pallet_utility.pallet_utility_Config)
  | Treasury => Some (pallet_treasury.WeightInfo pallet_treasury.pallet_treasury_Config)
  | ConvictionVoting => Some (pallet_conviction_voting.WeightInfo pallet_conviction_voting.pallet_conviction_voting_Config)
  | Whitelist => Some (pallet_whitelist.WeightInfo pallet_whitelist.pallet_whitelist_Config)
  | Referenda => Some (pallet_referenda.WeightInfo pallet_referenda.pallet_referenda_Config)
  | _ => None
  end.

(** Every pallet is weighed by the module of its own crate. *)
Lemma weight_module_crate p m : weight_module p = Some m → m = crate p.
Proof. by destruct p; intros [= <-]. Qed.

(** Deposits are priced by the storage they stand for: [n] proxies, an announcement of
    [n] calls, a multisig of threshold [n], a preimage or a metadata of [n] bytes each
    cost as much as [deposit] asks for the items and the bytes together. *)
Lemma deposits_price_storage n :
  0 ≤ n ≤ 10000000 →
  let proxy := pallet_proxy.pallet_proxy_Config in
  let multisig := pallet_multisig.pallet_multisig_Config in
  let preimage := pallet_preimage.pallet_preimage_Config in
  let assets := pallet_assets.pallet_assets_Config in
  pallet_proxy.cfg_ProxyDepositBase proxy + n * pallet_proxy.cfg_ProxyDepositFactor proxy = deposit 1 (40 + 33 * n) ∧
  pallet_proxy.cfg_AnnouncementDepositBase proxy + n * pallet_proxy.cfg_AnnouncementDepositFactor proxy
    = deposit 1 (48 + 66 * n) ∧
  pallet_multisig.cfg_DepositBase multisig + n * pallet_multisig.cfg_DepositFactor multisig = deposit 1 (88 + 32 * n) ∧
  pallet_preimage.Consideration_base preimage + n * pallet_preimage.Consideration_byte preimage = deposit 2 (64 + n) ∧
  pallet_assets.cfg_MetadataDepositBase assets + n * pallet_assets.cfg_MetadataDepositPerByte assets = deposit 1 (68 + n).
Proof.
  intros Hn. cbn. unfold ProxyDepositBase, ProxyDepositFactor, AnnouncementDepositBase, AnnouncementDepositFactor,
    DepositBase, DepositFactor, PreimageBaseDeposit, PreimageByteDeposit, MetadataDepositBase, MetadataDepositPerByte.
  rewrite !(λ i b Hi Hb, proj1 (deposit_exact i b Hi Hb)) by (unfold in_width, u32_MAX; lia). lia.
Qed.

(** A session ends every six hours; collators that have not produced a block for a whole
    session are kicked, so the threshold is a multiple of the sessions; and a slot is two
    of the least steps of the clock. *)
Lemma sessions_and_slots :
  let '(period, offset) := pallet_session.ShouldEndSession pallet_session.pallet_session_Config in
  offset < period ∧ period * MILLISECS_PER_BLOCK = 6 * 60 * 60 * 1000 ∧
  pallet_session.NextSessionRotation pallet_session.pallet_session_Config = (period, offset) ∧
  pallet_collator_selection.KickThreshold pallet_collator_selection.pallet_collator_selection_Config = 1 * period ∧
  2 * pallet_timestamp.cfg_MinimumPeriod pallet_timestamp.pallet_timestamp_Config false = pallet_aura.SlotDuration pallet_aura.pallet_aura_Config.
Proof. done. Qed.

(** The collators that can be in office at a time fit among the authorities. *)
Lemma collators_fit :
  let c := pallet_collator_selection.pallet_collator_selection_Config in
  pallet_collator_selection.cfg_MinEligibleCollators c ≤
    pallet_collator_selection.cfg_MaxInvulnerables c + pallet_collator_selection.cfg_MaxCandidates c ≤
    pallet_aura.cfg_MaxAuthorities pallet_aura.pallet_aura_Config.
Proof. done. Qed.

(** The accounts of the treasury, of the collators' pot and of the ROSCAs are derived
    from different identifiers of eight bytes. *)
Lemma pallet_ids :
  let ids := [pallet_treasury.cfg_PalletId pallet_treasury.pallet_treasury_Config;
              pallet_collator_selection.cfg_PotId pallet_collator_selection.pallet_collator_selection_Config;
              pallet_rosca.cfg_PalletId pallet_rosca.pallet_rosca_Config] in
  NoDup ids ∧ Forall (λ i, String.length i = 8%nat) ids.
Proof. split; [by apply (bool_decide_unpack _) | by repeat constructor]. Qed.

(** [pallet_treasury]'s bond of a proposal: the share of its value, at least the minimum
    and then at most the maximum. *)
Context (share : Z → Z → Z) (calculate_bond : pallet_treasury.Config → Z → Z).
Hypothesis bond_clamped : ∀ c value,
  calculate_bond c value =
    let r := Z.max (pallet_treasury.cfg_ProposalBondMinimum c) (share (pallet_treasury.cfg_ProposalBond c) value) in
    match pallet_treasury.cfg_ProposalBondMaximum c with Some m => Z.min r m | None => r end.

(** Since the maximum is below the minimum, every proposal has the same bond, which is
    neither five percent of its value nor the minimum. *)
Lemma proposal_bond value : calculate_bond pallet_treasury.pallet_treasury_Config value = GRAND.
Proof. rewrite bond_clamped. cbn. apply Z.min_r. unfold ProposalBondMinimum, ProposalBondMaximum, GRAND, DOLLARS, CENTS, MILLICENTS. lia. Qed.
End wiring.
