(* ===== verification/RuntimeGenesis.v ===== *)
(** The genesis configurations of [node/src/chain_spec.rs]. *)

From S2P Require Import Prelude RoscaTypes Weights RuntimeConstants RuntimeBlocks.

(** Account and key derivation of [sp_core] and [sp_runtime]: [Pair::from_string] with
    [Pair::public], the conversion of a public key to an account, and the XCM version; and
    the code of the runtime, which is there if it was built. *)
Class Keys : Type := {
  SigningPublic : Type;
  Account : Type;
  Account_eq_dec :: EqDecision Account;
  AuraId : Type;
  sr25519_from_string : string → option SigningPublic;
  aura_from_string : string → option AuraId;
  into_account : SigningPublic → Account;
  XCM_VERSION : Z;
  WasmBinary : Type;
  WASM_BINARY : option WasmBinary;
}.

Section chain_spec.
Context {K : Keys}.

(** [get_from_seed]: [expect] panics on [None]. *)
Definition get_from_seed {Public : Type} (from_string : string → option Public) (seed : string)
    : outcome unit Public :=
  match from_string ("//" +:+ seed)%string with Some p => Ok p | None => Panic end.
Definition get_collator_keys_from_seed (seed : string) : outcome unit AuraId :=
  get_from_seed aura_from_string seed.
Definition get_account_id_from_seed (seed : string) : outcome unit Account :=
  match get_from_seed sr25519_from_string seed with
  | Ok p => Ok (into_account p)
  | Err e => Err e
  | Panic => Panic
  | Diverge => Diverge
  end.

(** [SessionKeys] and [template_session_keys]. *)
Record SessionKeys : Type := mkSessionKeys { aura : AuraId }.
Definition template_session_keys (keys : AuraId) : SessionKeys := mkSessionKeys keys.

(** The genesis patch, one field per entry of the JSON object. *)
Record Genesis : Type := mkGenesis {
  balances : list (Account * Z);
  parachainId : Z;
  collators : list Account;
  candidacyBond : Z;
  session_keys : list (Account * Account * SessionKeys);
  safeXcmVersion : option Z;
  sudo_key : option Account;
  (** (id, owner, is_sufficient, min_balance) *)
  assets : list (Z * Account * bool * Z);
  (** (id, name, symbol, decimals) *)
  metadata : list (Z * string * string * Z);
  (** (id, account_id, amount) *)
  accounts : list (Z * Account * Z);
}.

Definition SAFE_XCM_VERSION : Z := XCM_VERSION.

(** [testnet_genesis]; [1u64 << 60] does not overflow. *)
Definition testnet_genesis (invulnerables : list (Account * AuraId)) (endowed_accounts : list Account)
    (root : Account) (id : Z) : Genesis :=
  {| balances := (λ k, (k, Z.shiftl 1 60)) <$> endowed_accounts;
     parachainId := id;
     collators := fst <$> invulnerables;
     candidacyBond := EXISTENTIAL_DEPOSIT * 16;
     session_keys := (λ '(acc, aura), (acc, acc, template_session_keys aura)) <$> invulnerables;
     safeXcmVersion := Some SAFE_XCM_VERSION;
     sudo_key := Some root;
     assets := [(1984, root, true, 70000); (1337, root, true, 70000)];
     metadata := [(1984, "USDT", "USDT", 6); (1337, "USDC", "USDC", 6)]%string;
     accounts := [(1984, root, 1000000); (1337, root, 1000000)] |}.

(** [ChainType] and [Extensions]. *)
Inductive ChainType : Type := Development | Local.
Record Extensions : Type := mkExtensions { relay_chain : string; para_id : Z }.

(** What is given to the [ChainSpec] builder. *)
Record ChainSpec : Type := mkChainSpec {
  code : WasmBinary;
  extensions : Extensions;
  chain_name : string;
  chain_id : string;
  chain_type : ChainType;
  genesis : Genesis;
  protocol_id : option string;
  chain_properties : list (string * (string + Z));
}.

(** The [vec!] of a call for each of the seeds, and of the collators. *)
Fixpoint from_seeds {A} (f : string → outcome unit A) (seeds : list string) : outcome unit (list A) :=
  match seeds with
  | [] => Ok []
  | seed :: seeds =>
    match f seed, from_seeds f seeds with
    | Ok a, Ok l => Ok (a :: l)
    | _, _ => Panic
    end
  end.
Definition collator (seed : string) : outcome unit (Account * AuraId) :=
  match get_account_id_from_seed seed, get_collator_keys_from_seed seed with
  | Ok a, Ok k => Ok (a, k)
  | _, _ => Panic
  end.

Definition collator_seeds : list string := ["Alice"; "Bob"]%string.
Definition endowed_seeds : list string :=
  ["Alice"; "Bob"; "Charlie"; "Dave"; "Eve"; "Ferdie"; "Alice//stash"; "Bob//stash"; "Charlie//stash";
   "Dave//stash"; "Eve//stash"; "Ferdie//stash"]%string.

(** The genesis both configurations ask for. *)
Definition seeded_genesis : outcome unit Genesis :=
  match from_seeds collator collator_seeds, from_seeds get_account_id_from_seed endowed_seeds,
        get_account_id_from_seed "Alice"%string with
  | Ok cs, Ok es, Ok root => Ok (testnet_genesis cs es root 1000)
  | _, _, _ => Panic
  end.

(** [development_config]: its [properties] are not given to the builder; [expect] panics
    when the runtime was not built. *)
Definition development_config : outcome unit ChainSpec :=
  match WASM_BINARY, seeded_genesis with
  | Some wasm, Ok g =>
    Ok {| code := wasm; extensions := mkExtensions "rococo-local" 1000; chain_name := "Development"; chain_id := "dev";
          chain_type := Development; genesis := g; protocol_id := None; chain_properties := [] |}
  | _, _ => Panic
  end.

(** [local_testnet_config]. *)
Definition local_testnet_config : outcome unit ChainSpec :=
  match WASM_BINARY, seeded_genesis with
  | Some wasm, Ok g =>
    Ok {| code := wasm; extensions := mkExtensions "rococo-local" 1000; chain_name := "Local Testnet";
          chain_id := "local_testnet"; chain_type := Local; genesis := g;
          protocol_id := Some "template-local"%string;
          chain_properties :=
            [("tokenSymbol", inl "UNIT"); ("tokenDecimals", inr 12); ("ss58Format", inr 42)]%string |}
  | _, _ => Panic
  end.

(** * Properties *)

Implicit Types (g : Genesis) (k root : Account).

(** The conditions under which the genesis builders of [pallet_assets] and
    [pallet_balances] accept a configuration. *)
Definition assets_accepted g : Prop :=
  NoDup ((λ x, x.1.1.1) <$> assets g) ∧
  (∀ i k b min, (i, k, b, min) ∈ assets g → 0 < min) ∧
  (∀ i n y d, (i, n, y, d) ∈ metadata g → i ∈ ((λ x, x.1.1.1) <$> assets g) ∧
     Z.of_nat (String.length n) ≤ assets_StringLimit ∧ Z.of_nat (String.length y) ≤ assets_StringLimit) ∧
  (∀ i k n, (i, k, n) ∈ accounts g → ∃ k' b min, (i, k', b, min) ∈ assets g ∧ min ≤ n).
Definition balances_accepted g : Prop :=
  NoDup (fst <$> balances g) ∧ ∀ k n, (k, n) ∈ balances g → EXISTENTIAL_DEPOSIT ≤ n ≤ u128_MAX.

(** The genesis of the test networks is accepted: its assets and its balances meet
    the conditions of the pallets when no account is endowed twice.  The assets are
    exactly the payment assets of the ROSCA pallet, each sufficient, owned by the
    sudo account and held by it; every endowed account can afford the candidacy bond;
    and the session keys are those of the invulnerable collators. *)
Lemma testnet_genesis_accepted cs es root id :
  NoDup es →
  let g := testnet_genesis cs es root id in
  assets_accepted g ∧ balances_accepted g ∧ sudo_key g = Some root ∧
  (∀ i, (∃ min, (i, root, true, min) ∈ assets g) ↔ ∃ a, PaymentAssets_id a = i) ∧
  (∀ k n, (k, n) ∈ balances g → candidacyBond g ≤ n) ∧
  (λ x, x.1.1) <$> session_keys g = collators g.
Proof.
  intros Hes g. split_and!.
  - split_and!.
    + apply (bool_decide_unpack _). by vm_compute.
    + intros i k b min H. cbn in H. by case_elem H.
    + intros i n y d H. cbn in *. rewrite !elem_of_cons. case_elem H; (split; [auto | by vm_compute]).
    + intros i k n H. cbn in *. exists root, true, 70000. rewrite !elem_of_cons. case_elem H; auto with lia.
  - split.
    + cbn. rewrite <- list_fmap_compose. by rewrite list_fmap_id.
    + intros k n (k' & [= -> ->] & _)%list_elem_of_fmap. by vm_compute.
  - done.
  - intros i. split.
    + intros [min H]. cbn in H. case_elem H; [by exists USDT | by exists USDC].
    + intros [[] <-]; exists 70000; cbn; rewrite !elem_of_cons; auto.
  - intros k n (k' & [= -> ->] & _)%list_elem_of_fmap. by vm_compute.
  - cbn. rewrite <- list_fmap_compose. apply list_fmap_ext. by intros ? [].
Qed.

Lemma from_seeds_Ok {A} (f : string → outcome unit A) (h : string → A) seeds :
  (∀ s, s ∈ seeds → f s = Ok (h s)) → from_seeds f seeds = Ok (h <$> seeds).
Proof.
  induction seeds as [|s seeds IH]; intros Hf; [done|]. cbn.
  rewrite Hf, IH by (set_solver). done.
Qed.

(** C34: when the runtime was built and the derivation knows the well-known seeds and gives
    them different accounts, both configurations are built without a panic.  They carry the
    code of the runtime and start from the same genesis, which the assets and balances
    pallets accept: the parachain id is that of the extensions, every collator and the sudo
    account are among the endowed accounts, and the assets are exactly the payment assets of
    the ROSCA pallet.
    When the runtime was not built, both configurations panic. *)
Theorem configs_built (account : string → Account) (key : string → AuraId) :
  (∀ s, s ∈ endowed_seeds → get_account_id_from_seed s = Ok (account s)) →
  (∀ s, s ∈ collator_seeds → get_collator_keys_from_seed s = Ok (key s)) →
  NoDup (account <$> endowed_seeds) →
  match WASM_BINARY with
  | None => development_config = Panic ∧ local_testnet_config = Panic
  | Some wasm =>
    ∃ d l, development_config = Ok d ∧ local_testnet_config = Ok l ∧ code d = wasm ∧ code l = wasm ∧
      genesis d = genesis l ∧ extensions d = extensions l ∧
      para_id (extensions d) = parachainId (genesis d) ∧
      fst <$> balances (genesis d) = account <$> endowed_seeds ∧
      (∀ k, k ∈ collators (genesis d) ∨ sudo_key (genesis d) = Some k →
        (k, 2 ^ 60) ∈ balances (genesis d)) ∧
      assets_accepted (genesis d) ∧ balances_accepted (genesis d) ∧
      (∀ i, i ∈ ((λ x, x.1.1.1) <$> assets (genesis d)) ↔ ∃ a, PaymentAssets_id a = i)
  end.
Proof.
  intros Ha Hk Hnd.
  assert (from_seeds get_account_id_from_seed endowed_seeds = Ok (account <$> endowed_seeds)) as He
    by by apply from_seeds_Ok.
  assert (from_seeds collator collator_seeds = Ok ((λ s, (account s, key s)) <$> collator_seeds)) as Hc.
  { apply from_seeds_Ok. intros s Hs. unfold collator. rewrite Hk, Ha; [done| |done].
    unfold collator_seeds in Hs. case_elem Hs; set_solver. }
  assert (seeded_genesis = Ok (testnet_genesis ((λ s, (account s, key s)) <$> collator_seeds)
            (account <$> endowed_seeds) (account "Alice"%string) 1000)) as Hg.
  { unfold seeded_genesis. rewrite Hc, He, Ha by set_solver. done. }
  unfold development_config, local_testnet_config. rewrite Hg. destruct WASM_BINARY as [wasm|]; [|done].
  eexists _, _. do 4 (split; [reflexivity|]). cbn [genesis extensions].
  destruct (testnet_genesis_accepted ((λ s, (account s, key s)) <$> collator_seeds) _ (account "Alice"%string) 1000 Hnd)
    as (Hassets & Hbalances & _).
  split_and!; [done..| | | done | done |].
  - cbn [balances testnet_genesis]. by rewrite <- list_fmap_compose, list_fmap_id.
  - intros k Hk'. cbn [balances testnet_genesis collators sudo_key] in *.
    apply list_elem_of_fmap. exists k. split; [done|]. apply list_elem_of_fmap.
    destruct Hk' as [(x & -> & (s & -> & Hs)%list_elem_of_fmap)%list_elem_of_fmap|[= <-]].
    + exists s. split; [done|]. unfold collator_seeds in Hs. case_elem Hs; set_solver.
    + exists "Alice"%string. split; [done|]. set_solver.
  - intros i. cbn. split; [intros H; case_elem H; [by exists USDT | by exists USDC]|].
    intros [[] <-]; cbn; rewrite !elem_of_cons; auto.
Qed.
End chain_spec.

(** * A concrete key derivation *)

#[export] Instance SampleKeys : Keys := {|
  SigningPublic := string; Account := string; AuraId := string;
  sr25519_from_string := Some; aura_from_string := Some; into_account := id; XCM_VERSION := 4;
  WasmBinary := unit; WASM_BINARY := Some tt;
|}.

Lemma configs_built_witness :
  ∃ d l : ChainSpec, development_config = Ok d ∧ local_testnet_config = Ok l ∧ code d = tt ∧ code l = tt ∧
    genesis d = genesis l ∧ extensions d = extensions l ∧
    para_id (extensions d) = parachainId (genesis d) ∧
    fst <$> balances (genesis d) = (λ s, "//" +:+ s)%string <$> endowed_seeds ∧
    (∀ k, k ∈ collators (genesis d) ∨ sudo_key (genesis d) = Some k →
      (k, 2 ^ 60) ∈ balances (genesis d)) ∧
    assets_accepted (genesis d) ∧ balances_accepted (genesis d) ∧
    (∀ i, i ∈ ((λ x, x.1.1.1) <$> assets (genesis d)) ↔ ∃ a, PaymentAssets_id a = i).
Proof.
  apply (configs_built (K := SampleKeys) (λ s, "//" +:+ s)%string (λ s, "//" +:+ s)%string); [done | done |].
  apply (bool_decide_unpack _). by vm_compute.
Defined.
