(* ===== verification/RuntimeDeposits.v ===== *)
(** The ROSCA pallet in the runtime: its configuration with the bounds of
    [runtime/src/configs/mod.rs] and a ledger with the minimum balance that the genesis of
    [node/src/chain_spec.rs] gives the payment assets.  On it the deposits of a ROSCA are
    not always covered: a payment that leaves less than the minimum balance in the account
    of the ROSCA takes the rest along. *)

From S2P Require Import Prelude RoscaTypes RoscaRounds RoscaCalls RoscaLogic RoscaFrame.
From S2P Require Import RoscaSample RoscaSchedule RoscaInvariant RoscaPreservation.
From S2P Require Import RoscaMembership RoscaLifecycle RoscaSafety RoscaMoney RoscaScenarios.
From S2P Require Import Weights RuntimeConstants RuntimeGenesis.

(** The minimum balance of the payment assets. *)
Definition deployed_minimum : Z := 70000.

Lemma deployed_minimum_genesis {K : Keys} a cs es root id :
  (PaymentAssets_id a, root, true, deployed_minimum) ∈ assets (testnet_genesis cs es root id).
Proof. cbn. rewrite !elem_of_cons. destruct a; auto. Qed.

(** A transfer with [Expendable] preservation: an account that would keep less than the
    minimum balance is reaped and the dust goes to the recipient, who must end up with the
    minimum balance at least. *)
Inductive LedgerError : Type := NoFunds | BelowMinimum.

Definition reaping_transfer (asset from to amount : Z) (l : gmap (Z * Z) N) : gmap (Z * Z) N + LedgerError :=
  let have := ledger_balance l asset from in
  if have <? amount then inr NoFunds
  else if decide (from = to) then inl l
  else
    let rest := have - amount in
    let debit := if rest <? deployed_minimum then have else amount in
    let got := ledger_balance l asset to + debit in
    if got <? deployed_minimum then inr BelowMinimum
    else inl (<[(asset, to) := Z.to_N got]> (<[(asset, from) := Z.to_N (have - debit)]> l)).

(** The pallet in the runtime, with the accounts and the hash of the sample. *)
Definition Deployed : Config := {|
  AccountId := Z;
  AccountId_le := Z.le;
  MaxParticipants := rosca_MaxParticipants;
  MaxInvitedParticipants := rosca_MaxInvitedParticipants;
  StringLimit := rosca_StringLimit;
  into_sub_account_truncating := λ r, 2 ^ 40 + r;
  Assets := gmap (Z * Z) N;
  TransferError := LedgerError;
  asset_transfer := reaping_transfer;
  asset_balance := ledger_balance;
  asset_minimum_balance := λ _ _, deployed_minimum;
  blake2_128 := blake2_128 (Config := Sample);
  clear_prefix := clear_prefix (Config := Sample);
|}.

Lemma Deployed_laws : ConfigLaws Deployed.
Proof.
  split; try apply _; try done.
  - exact (blake2_128_bytes (T := Sample)).
  - exact (clear_prefix_subseteq (T := Sample)).
  - exact (clear_prefix_all (T := Sample)).
Qed.

(** This ledger satisfies the laws that the backing of the deposits is proved from. *)
Lemma Deployed_ledger : LedgerLaws Deployed.
Proof.
  split; cbn; unfold reaping_transfer.
  - intros ledger asset who. unfold ledger_balance. lia.
  - unfold deployed_minimum. lia.
  - unfold deployed_minimum. lia.
  - intros asset who amount ledger ledger'. destruct (_ <? _); [done|]. rewrite decide_True by done. naive_solver.
  - intros asset asset' from to amount ledger ledger' who. destruct (_ <? _); [done|].
    case_decide; [naive_solver|]. destruct (_ + _ <? _); [done|]. intros [= <-] Hne.
    unfold ledger_balance at 1. by rewrite !lookup_insert_ne by naive_solver.
  - done.
  - unfold rosca_account_id. cbn. intros. lia.
Qed.

(** Accounts 1 to 3 hold a million of the payment asset. *)
Definition deployed_genesis : State (T := Deployed) :=
  mkState (T := Deployed) 0 ∅ ∅ ∅ ∅ ∅ ∅ ∅ ∅ ∅ ∅ ∅ ∅ ∅ ∅ ∅ ∅
    (list_to_map [((1984, 1), 1000000%N); ((1984, 2), 1000000%N); ((1984, 3), 1000000%N)]) 1 1 (λ _, []) [].

(** Accounts 2 and 3 make deposits and miss the first round, for which each owes 100000;
    in the second one account 3 pays. *)
Definition missed_round_scenario : list (action (T := Deployed)) :=
  [Do (T := Deployed) 1 (Call_create_rosca (T := Deployed) false [2; 3] 3 100000 USDT 10 20 (Some 0) [1]);
   Do (T := Deployed) 2 (Call_join_rosca (T := Deployed) 0 None);
   Do (T := Deployed) 3 (Call_join_rosca (T := Deployed) 0 None);
   Do (T := Deployed) 2 (Call_add_to_security_deposit (T := Deployed) 0 150000);
   Do (T := Deployed) 3 (Call_add_to_security_deposit (T := Deployed) 0 60000);
   Do (T := Deployed) 1 (Call_start_rosca (T := Deployed) 0);
   At (T := Deployed) 12;
   Do (T := Deployed) 3 (Call_contribute_to_rosca (T := Deployed) 0)].
Definition after_missed_round : State (T := Deployed) :=
  default deployed_genesis (play (T := Deployed) missed_round_scenario deployed_genesis).

Lemma deployed_genesis_ok : chain_genesis (T := Deployed) deployed_genesis.
Proof. split; [intros r; reflexivity | reflexivity | done]. Qed.

(** The condition of the backing theorem on the minimum balance cannot be dropped: with
    the minimum balance of the genesis, an execution in which nobody signs for the account
    of a ROSCA leads to a deposit of 50000 with nothing in that account to cover it. *)
Lemma deposits_unbacked :
  rtc (owned_step (T := Deployed)) deployed_genesis after_missed_round ∧
  chain_genesis (T := Deployed) deployed_genesis ∧
  security_deposit (T := Deployed) 0 2 after_missed_round = Some 50000 ∧
  asset_balance (Config := Deployed) (Ledger after_missed_round) (PaymentAssets_id USDT)
    (rosca_account_id (T := Deployed) 0) = 0.
Proof.
  pose proof Deployed_laws as HL. split_and!.
  - assert (match play (T := Deployed) missed_round_scenario deployed_genesis with Some _ => true | None => false end = true)
      as Hplays by vm_cast_no_check (eq_refl true).
    unfold after_missed_round. destruct (play (T := Deployed) _ _) as [s|] eqn:Hplay; [|done].
    eapply (play_owned (T := Deployed) ordinary deployed_genesis missed_round_scenario);
      [exact ordinary_account | | | by vm_compute | exact Hplay].
    + apply (Inv_genesis (T := Deployed)), deployed_genesis_ok.
    + vm_compute. repeat split; discriminate.
  - exact deployed_genesis_ok.
  - vm_cast_no_check (eq_refl (Some 50000)).
  - vm_cast_no_check (eq_refl 0).
Qed.
