(* ===== verification/Effects.v ===== *)
(** Programs that call libraries: the result of a call is not known to the program, and
    what it does is the sequence of calls it makes.  A program is a tree whose nodes are
    calls; its runs are the paths of the tree, with the calls and their results as
    trace.  [always] is the weakest precondition over all runs. *)

From S2P Require Import Prelude.

Section effects.
(** The calls, by the type of their result, and the errors the programs return. *)
Context {E : Type → Type} {Error : Type}.

Inductive prog (A : Type) : Type :=
  | Return (a : A)
  | Raise (e : Error)
  | Panics
  | Perform {X : Type} (e : E X) (k : X → prog A).
Arguments Return {A} a.
Arguments Raise {A} e.
Arguments Panics {A}.
Arguments Perform {A X} e k.

Fixpoint prog_bind {A B} (k : A → prog B) (m : prog A) : prog B :=
  match m with
  | Return a => k a
  | Raise e => Raise e
  | Panics => Panics
  | Perform e c => Perform e (λ x, prog_bind k (c x))
  end.
#[global] Instance prog_mret : MRet prog := λ A a, Return a.
#[global] Instance prog_mbind : MBind prog := λ A B k m, prog_bind k m.

(** A call, a call followed by [?], and [?] and [map_err] on a value. *)
Definition call {X} (e : E X) : prog X := Perform e Return.
Definition or_raise {A} (r : A + Error) : prog A := match r with inl a => Return a | inr e => Raise e end.
Definition try_call {A} (e : E (A + Error)) : prog A := Perform e or_raise.
Definition map_err {A F G} (f : F → G) (r : A + F) : A + G :=
  match r with inl a => inl a | inr e => inr (f e) end.
(** [Option::expect]. *)
Definition expect {A} (o : option A) : prog A := match o with Some a => Return a | None => Panics end.

(** * Runs *)

Inductive performed : Type :=
  | Performed {X : Type} (e : E X) (x : X).

Inductive ending (A : Type) : Type :=
  | Finished (a : A)
  | Failed (e : Error)
  | Panicked.
Arguments Finished {A} a.
Arguments Failed {A} e.
Arguments Panicked {A}.

(** [R e x]: a call of [e] may answer [x]. *)
Context (R : ∀ X, E X → X → Prop).

Inductive runs {A} : prog A → list performed → ending A → Prop :=
  | runs_return a : runs (Return a) [] (Finished a)
  | runs_raise e : runs (Raise e) [] (Failed e)
  | runs_panic : runs Panics [] Panicked
  | runs_perform X (e : E X) k x tr o : R X e x → runs (k x) tr o → runs (Perform e k) (Performed e x :: tr) o.

(** After the calls [tr], every run of [m] ends with a trace and an ending in [Q]. *)
Fixpoint always {A} (m : prog A) (tr : list performed) (Q : list performed → ending A → Prop) : Prop :=
  match m with
  | Return a => Q tr (Finished a)
  | Raise e => Q tr (Failed e)
  | Panics => Q tr Panicked
  | Perform e k => ∀ x, R _ e x → always (k x) (tr ++ [Performed e x]) Q
  end.

Lemma always_runs {A} (m : prog A) tr Q :
  always m tr Q ↔ ∀ tr' o, runs m tr' o → Q (tr ++ tr') o.
Proof.
  split.
  - intros Ha tr' o Hr. revert tr Ha. induction Hr as [a|e| |X e k x tr' o Hx Hr IH]; intros tr Ha; cbn in Ha;
      rewrite ?app_nil_r; try done.
    specialize (IH _ (Ha x Hx)). by rewrite <- app_assoc in IH.
  - revert tr. induction m as [a|e| |X e k IH]; intros tr HQ; cbn.
    1-3: specialize (HQ []); rewrite app_nil_r in HQ; apply HQ; constructor.
    intros x Hx. apply IH. intros tr' o Hr. rewrite <- app_assoc. apply HQ. by constructor.
Qed.

(** The specification of a run from the one of the tree. *)
Lemma runs_always {A} (m : prog A) tr o Q : runs m tr o → always m [] Q → Q tr o.
Proof. intros Hr Ha. by apply (proj1 (always_runs m [] Q) Ha). Qed.

Lemma runs_perform_inv {A X} (e : E X) (k : X → prog A) tr o :
  runs (Perform e k) tr o → ∃ x tr', tr = Performed e x :: tr' ∧ R X e x ∧ runs (k x) tr' o.
Proof.
  intros Hr. apply (runs_always _ _ _ (λ tr o, ∃ x tr', tr = Performed e x :: tr' ∧ R X e x ∧ runs (k x) tr' o) Hr).
  intros x Hx. apply always_runs. intros tr' o' Hr'. eauto.
Qed.

(** A fallible call at the beginning fails, or the rest follows. *)
Lemma runs_try_bind {A B} (e : E (A + Error)) (k : A → prog B) tr o :
  runs (try_call e ≫= k) tr o →
  (∃ er, tr = [Performed e (inr er)] ∧ o = Failed er) ∨
  (∃ a tr', tr = Performed e (inl a) :: tr' ∧ runs (k a) tr' o).
Proof.
  intros ([a|er] & tr' & -> & _ & Hr)%runs_perform_inv; cbn in Hr; [by right; eauto|].
  left. exists er. by inversion Hr.
Qed.

(** Sequences: an error or a panic of the first part ends the whole. *)
Definition continue {A B} (k : A → prog B) (Q : list performed → ending B → Prop)
    (tr : list performed) (o : ending A) : Prop :=
  match o with
  | Finished a => always (k a) tr Q
  | Failed e => Q tr (Failed e)
  | Panicked => Q tr Panicked
  end.

Lemma always_bind {A B} (m : prog A) (k : A → prog B) tr Q :
  always m tr (continue k Q) → always (m ≫= k) tr Q.
Proof.
  unfold mbind, prog_mbind. revert tr. induction m as [a|e| |X e c IH]; intros tr Ha; cbn in *; try done.
  intros x Hx. by apply IH, Ha.
Qed.

Lemma always_mono {A} (m : prog A) tr (Q Q' : list performed → ending A → Prop) :
  always m tr Q → (∀ tr o, Q tr o → Q' tr o) → always m tr Q'.
Proof.
  intros Ha HQ. revert tr Ha. induction m as [a|e| |X e k IH]; intros tr Ha; cbn in *; eauto.
Qed.

(** * Calls that are never made *)

(** No run of [m] makes a call that is [bad]. *)
Fixpoint avoids {A} (bad : ∀ X, E X → bool) (m : prog A) : Prop :=
  match m with
  | Perform e k => bad _ e = false ∧ ∀ x, avoids bad (k x)
  | _ => True
  end.
Definition is_bad (bad : ∀ X, E X → bool) (p : performed) : bool := match p with Performed e _ => bad _ e end.

Lemma avoids_bind {A B} (bad : ∀ X, E X → bool) (m : prog A) (k : A → prog B) :
  avoids bad m → (∀ a, avoids bad (k a)) → avoids bad (m ≫= k).
Proof.
  intros Hm Hk. unfold mbind, prog_mbind. induction m as [a|e| |X e c IH]; cbn in *; [done..|].
  destruct Hm as [He Hc]. split; [done|]. intros x. by apply IH.
Qed.
Lemma avoids_or_raise {A} (bad : ∀ X, E X → bool) (r : A + Error) : avoids bad (or_raise r).
Proof. by destruct r. Qed.
Lemma avoids_try_call {A} (bad : ∀ X, E X → bool) (e : E (A + Error)) : bad _ e = false → avoids bad (try_call e).
Proof. intros He. split; [done|]. intros [a|er]; done. Qed.
Lemma avoids_call {X} (bad : ∀ X, E X → bool) (e : E X) : bad _ e = false → avoids bad (call e).
Proof. intros He. by split. Qed.

Lemma avoids_runs {A} (bad : ∀ X, E X → bool) (m : prog A) tr o : avoids bad m → runs m tr o → existsb (is_bad bad) tr = false.
Proof.
  intros Hm Hr. induction Hr as [a|e| |X e k x tr o Hx Hr IH]; [done..|].
  destruct Hm as [He Hk]. cbn. rewrite He. by apply IH.
Qed.

(** The run in which the calls are answered by [h]. *)
Fixpoint interpret {A} (h : ∀ X, E X → X) (m : prog A) : list performed * ending A :=
  match m with
  | Return a => ([], Finished a)
  | Raise e => ([], Failed e)
  | Panics => ([], Panicked)
  | Perform e k => let '(tr, o) := interpret h (k (h _ e)) in (Performed e (h _ e) :: tr, o)
  end.

Lemma interpret_runs {A} (h : ∀ X, E X → X) (m : prog A) :
  (∀ X (e : E X), R X e (h X e)) → runs m (interpret h m).1 (interpret h m).2.
Proof.
  intros HR. induction m as [a|e| |X e k IH]; cbn; [constructor..|].
  specialize (IH (h X e)). destruct (interpret h (k (h X e))) as [tr o]. by constructor.
Qed.
End effects.
Arguments prog E Error A : clear implicits.
Arguments performed E : clear implicits.
Arguments ending Error A : clear implicits.
Arguments Return {E Error A} a.
Arguments Raise {E Error A} e.
Arguments Panics {E Error A}.
Arguments Perform {E Error A X} e k.
Arguments Finished {Error A} a.
Arguments Failed {Error A} e.
Arguments Panicked {Error A}.
Arguments Performed {E X} e x.
Arguments runs {E Error} R {A} m tr o.
Arguments always {E Error} R {A} m tr Q.
Arguments interpret {E Error A} h m.
Arguments interpret_runs {E Error} R {A} h m.

Arguments runs_try_bind {E Error} R {A B} e k tr o.
Arguments runs_perform_inv {E Error} R {A X} e k tr o.
Arguments avoids {E Error A} bad m.
Arguments is_bad {E} bad p.
Arguments avoids_runs {E Error} R {A} bad m tr o.

(** Show that a program avoids a call, one constructor of it at a time. *)
Ltac avoids_check := first [reflexivity | cbn; rewrite Z.eqb_refl; reflexivity].
Ltac avoids_step :=
  lazymatch goal with
  | |- avoids _ (mbind _ _) => apply avoids_bind; [|intros ?]
  | |- avoids _ (call _) => apply avoids_call; avoids_check
  | |- avoids _ (try_call _) => apply avoids_try_call; avoids_check
  | |- avoids _ (or_raise _) => apply avoids_or_raise
  | |- avoids _ (if ?b then _ else _) => destruct b
  | |- avoids _ (match ?x with _ => _ end) => destruct x
  | |- avoids _ (mret _) => exact I
  | |- avoids _ (Return _) => exact I
  | |- avoids _ Panics => exact I
  | |- avoids _ (Raise _) => exact I
  end; cbv beta zeta.

(** Symbolic execution of an [always] goal up to a choice. *)
Ltac always_step :=
  lazymatch goal with
  | |- always _ (mbind _ _) _ _ => apply always_bind
  | |- always _ (call _) _ _ => intros ? ?
  | |- always _ (try_call _) _ _ => intros [?|?] ?
  | |- always _ (mret _) _ _ => idtac
  | |- always _ (if ?b then _ else _) _ _ => destruct b eqn:?
  | |- always _ (match ?x with _ => _ end) _ _ => destruct x eqn:?
  end; cbn [always continue or_raise].
