(* ===== verification/RuntimeBenchmarks.v ===== *)
(** The benchmarks of the runtime: [runtime/src/benchmark.rs] and the implementation of
    [frame_benchmarking::Benchmark] in [runtime/src/apis.rs].  Running a benchmark,
    opening channels and paying are library calls; the programs are those of [Effects]. *)

From S2P Require Import Prelude RoscaTypes Weights RuntimeConstants RuntimeFilters RuntimeXcm RuntimeGovernance.
From S2P Require Import RuntimePrivileges RuntimeBlocks RuntimePallets RuntimeFees RuntimeAssets Effects.
#[local] Open Scope string_scope.
#[local] Open Scope Z_scope.

(** * The library *)

(** [cumulus_primitives_core::ChannelStatus]. *)
Inductive ChannelStatus : Type := Closed | Full | Ready (now ever : Z).

(** What implements [Benchmarking]: a pallet of the runtime, or a benchmarking pallet. *)
Inductive target : Type :=
  | OfPallet (p : pallet)
  | SystemBench
  | SessionBench
  | PalletXcmExtrinsicsBenchmark.

(** [BenchmarkConfig] with the pallet it selects, [BenchmarkBatch], [BenchmarkList],
    [StorageInfo], storage keys, and the types of a [Pay]. *)
Class BenchLib : Type := {
  BenchmarkConfig : Type;
  selected_pallet : BenchmarkConfig → string;
  BenchmarkBatch : Type;
  BenchmarkList : Type;
  StorageInfo : Type;
  TrackedStorageKey : Type;
  Beneficiary : Type;
  AssetKind : Type;
  PaymentId : Type;
  PaymentError : Type;
  PaymentStatus : Type;
}.

Section benchmarks.
Context {L : BenchLib}.

Inductive bench_call : Type → Type :=
  | get_channel_status (para : Z) : bench_call ChannelStatus
  | open_outbound_hrmp_channel_for_benchmarks_or_tests (para : Z) : bench_call unit
  (** [PayOverXcm], from an interior location and with a timeout in blocks. *)
  | xcm_pay (interior timeout : Z) (who : Beneficiary) (kind : AssetKind) (amount : Z) : bench_call (PaymentId + PaymentError)
  | xcm_check_payment (id : PaymentId) : bench_call PaymentStatus
  | xcm_ensure_successful (who : Beneficiary) (kind : AssetKind) (amount : Z) : bench_call unit
  | xcm_ensure_concluded (id : PaymentId) : bench_call unit
  (** [run_benchmark]: the results, none when it is skipped, or an error. *)
  | whitelisted_storage_keys : bench_call (list TrackedStorageKey)
  | run_benchmark (t : target) (config : BenchmarkConfig) (whitelist : list TrackedStorageKey) :
      bench_call (option BenchmarkBatch + string)
  | list_benchmark (name : string) (t : target) (extra : bool) : bench_call BenchmarkList
  | storage_info : bench_call (list StorageInfo)
  (** [ParachainSystem::initialize_for_set_code_benchmark], and [System::assert_last_event]
      of [ValidationFunctionStored]. *)
  | initialize_for_set_code_benchmark (max_code_size : Z) : bench_call unit
  | assert_validation_function_stored : bench_call unit.

Abbreviation bench := (prog bench_call string).

(** * Payments *)

(** The traits [EnsureSuccessful] and [Pay]. *)
Record EnsureSuccessful : Type := { ensure_successful_ : bench unit }.
Record Pay : Type := mkPay {
  pay : Beneficiary → AssetKind → Z → bench (PaymentId + PaymentError);
  check_payment : PaymentId → bench PaymentStatus;
  ensure_successful : Beneficiary → AssetKind → Z → bench unit;
  ensure_concluded : PaymentId → bench unit;
}.

(** [OpenHrmpChannel<I>]. *)
Definition OpenHrmpChannel (I : Z) : EnsureSuccessful := {|
  ensure_successful_ :=
    status ← call (get_channel_status I);
    match status with
    | Closed => call (open_outbound_hrmp_channel_for_benchmarks_or_tests I)
    | _ => mret tt
    end
|}.

(** [PayWithEnsure<O, E>]. *)
Definition PayWithEnsure (O : Pay) (E : EnsureSuccessful) : Pay := {|
  pay who asset_kind amount := pay O who asset_kind amount;
  check_payment id := check_payment O id;
  ensure_successful who asset_kind amount :=
    _ ← ensure_successful_ E;
    ensure_successful O who asset_kind amount;
  ensure_concluded id := ensure_concluded O id;
|}.

(** [TreasuryPaymaster], and the [Paymaster] of [pallet_treasury::Config] by the feature
    [runtime-benchmarks], with [BenchmarkParaId] and [LocationParents]. *)
Definition PayOverXcm (interior timeout : Z) : Pay := {|
  pay who kind amount := call (xcm_pay interior timeout who kind amount);
  check_payment id := call (xcm_check_payment id);
  ensure_successful who kind amount := call (xcm_ensure_successful who kind amount);
  ensure_concluded id := call (xcm_ensure_concluded id);
|}.
Definition TreasuryPaymaster : Pay := PayOverXcm TreasuryInteriorLocation_instance (6 * HOURS).
Definition BenchmarkParaId : Z := 0.
Definition LocationParents : Z := 1.
Definition Paymaster (runtime_benchmarks : bool) : Pay :=
  if runtime_benchmarks then PayWithEnsure TreasuryPaymaster (OpenHrmpChannel BenchmarkParaId) else TreasuryPaymaster.

(** * What the benchmarks are given *)

(** [frame_system_benchmarking::Config for Runtime]; [len() as u32] keeps the low bits. *)
Definition setup_set_code_requirements (code : list Z) : bench unit :=
  _ ← call (initialize_for_set_code_benchmark (len code mod (u32_MAX + 1)));
  mret tt.
Definition verify_set_code : bench unit := call assert_validation_function_stored.

(** [RandomParaId], [ExistentialDepositAsset], [ToParentBaseDeliveryFee] and
    [PriceForParentDelivery]; [Fungible] is that of [xcm::latest]. *)
Definition RandomParaId : Z := 43211234.
Definition ToParentBaseDeliveryFee : Z := saturating_mul u128_MAX CENTS 3.
Definition PriceForParentDelivery `{FeeLib} : FixedU128 → Z → Z :=
  ExponentialPrice ToParentBaseDeliveryFee TransactionByteFee.

Section xcm_config.
Context {X : Xcm} (Fungible : Z → Fungibility).
Definition ExistentialDepositAsset : option Asset := Some (mkAsset RelayLocation (Fungible ExistentialDeposit)).

(** [pallet_xcm::benchmarking::Config for Runtime]. *)
Definition reachable_dest : option Location := Some (1, []).
Definition teleportable_asset_and_dest : option (Asset * Location) := None.
Definition reserve_transferable_asset_and_dest : option (Asset * Location) :=
  Some (mkAsset (1, []) (Fungible ExistentialDeposit), (1, [Parachain RandomParaId])).
Definition set_up_complex_asset_transfer : option (list Asset * Z * Location * bench unit) := None.
Definition get_asset : Asset := mkAsset (1, []) (Fungible ExistentialDeposit).
End xcm_config.

(** * Running benchmarks *)

(** [define_benchmarks!]. *)
Definition benchmarks : list (string * target) :=
  [("frame_system", SystemBench);
   ("pallet_assets", OfPallet RuntimeFilters.Assets);
   ("pallet_balances", OfPallet Balances);
   ("pallet_session", SessionBench);
   ("pallet_timestamp", OfPallet Timestamp);
   ("pallet_message_queue", OfPallet MessageQueue);
   ("pallet_sudo", OfPallet Sudo);
   ("pallet_collator_selection", OfPallet CollatorSelection);
   ("cumulus_pallet_xcmp_queue", OfPallet XcmpQueue);
   ("cumulus_pallet_parachain_system", OfPallet ParachainSystem);
   ("pallet_proxy", OfPallet Proxy);
   ("pallet_utility", OfPallet Utility);
   ("pallet_multisig", OfPallet Multisig);
   ("pallet_xcm", PalletXcmExtrinsicsBenchmark);
   ("pallet_referenda", OfPallet Referenda);
   ("pallet_scheduler", OfPallet Scheduler);
   ("pallet_preimage", OfPallet Preimage);
   ("pallet_treasury", OfPallet Treasury);
   ("pallet_conviction_voting", OfPallet ConvictionVoting);
   ("pallet_whitelist", OfPallet Whitelist)].

(** The macro [add_benchmark!] of the library: what it does to the batches. *)
Context (add_benchmark :
  BenchmarkConfig → list TrackedStorageKey → string * target → list BenchmarkBatch → bench (list BenchmarkBatch)).

(** [add_benchmarks!] and [list_benchmarks!], which [define_benchmarks!] declares. *)
Fixpoint add_benchmarks (bs : list (string * target)) (config : BenchmarkConfig) (whitelist : list TrackedStorageKey)
    (batches : list BenchmarkBatch) : bench (list BenchmarkBatch) :=
  match bs with
  | [] => mret batches
  | b :: bs => batches ← add_benchmark config whitelist b batches; add_benchmarks bs config whitelist batches
  end.
Fixpoint list_benchmarks (bs : list (string * target)) (extra : bool) : bench (list BenchmarkList) :=
  match bs with
  | [] => mret []
  | (name, t) :: bs => x ← call (list_benchmark name t extra); rest ← list_benchmarks bs extra; mret (x :: rest)
  end.

(** [benchmark_metadata]. *)
Definition benchmark_metadata (extra : bool) : bench (list BenchmarkList * list StorageInfo) :=
  list ← list_benchmarks benchmarks extra;
  storage_info ← call storage_info;
  mret (list, storage_info).

(** [dispatch_benchmark]. *)
Definition not_found : string := "Benchmark not found for this pallet.".
Definition dispatch_benchmark (config : BenchmarkConfig) : bench (list BenchmarkBatch) :=
  whitelist ← call whitelisted_storage_keys;
  batches ← add_benchmarks benchmarks config whitelist [];
  match batches with
  | [] => Raise not_found
  | _ => mret batches
  end.

(** * Properties *)

(** [add_benchmark!] runs a benchmark when its name is the selected one and appends the
    results, if there are any; an error ends the run. *)
Class AddBenchmark : Prop := {
  add_benchmark_other config whitelist name t batches :
    name ≠ selected_pallet config → add_benchmark config whitelist (name, t) batches = mret batches;
  add_benchmark_selected config whitelist name t batches :
    name = selected_pallet config →
    add_benchmark config whitelist (name, t) batches =
      r ← try_call (run_benchmark t config whitelist);
      mret match r with Some b => (batches ++ [b])%list | None => batches end;
}.
Context {A : AddBenchmark}.
Context {K : Calls} {W : SpWeights} {FL : FrameLimits} {X : Xcm} {O : Origins} {XO : XcmOrigins}.

(** The benchmark of a name. *)
Fixpoint benchmark_of (bs : list (string * target)) (name : string) : option target :=
  match bs with
  | [] => None
  | (n, t) :: bs => if decide (n = name) then Some t else benchmark_of bs name
  end.

Lemma benchmark_of_None bs name : benchmark_of bs name = None → name ∉ bs.*1.
Proof.
  induction bs as [|[n t] bs IH]; cbn; [by intros _ ?%elem_of_nil|]. case_decide; [done|].
  intros Hin%IH. by apply not_elem_of_cons.
Qed.

Lemma add_benchmarks_unselected bs config whitelist batches :
  selected_pallet config ∉ bs.*1 → add_benchmarks bs config whitelist batches = mret batches.
Proof.
  induction bs as [|[n t] bs IH]; cbn [add_benchmarks fmap list_fmap fst]; [done|].
  intros [Hn Hbs]%not_elem_of_cons. rewrite add_benchmark_other by done. by apply IH.
Qed.

Lemma add_benchmarks_runs (R : ∀ X, bench_call X → X → Prop) bs config whitelist t :
  NoDup bs.*1 → benchmark_of bs (selected_pallet config) = Some t →
  always R (add_benchmarks bs config whitelist []) [] (λ tr o,
    ∃ x, tr = [Performed (run_benchmark t config whitelist) x] ∧
      o = match x with inr e => Failed e | inl r => Finished (option_list r) end).
Proof.
  induction bs as [|[n t'] bs IH]; cbn [add_benchmarks benchmark_of fmap list_fmap fst]; [done|].
  intros [Hn Hnd]%NoDup_cons. case_decide as Heq.
  - intros [= <-]. rewrite add_benchmark_selected by done. do 2 apply always_bind. intros [r|e] _; [|by eexists].
    cbn [always continue or_raise app]. unfold mret, prog_mret. cbn [always continue].
    rewrite add_benchmarks_unselected by (rewrite <- Heq; done). eexists. split; [done|]. by destruct r.
  - intros Ht. rewrite add_benchmark_other by done. by apply IH.
Qed.

(** The calls that [ensure_successful] makes for a payment, given the status of the
    channel: it is opened only when it is closed, and before the payment is prepared. *)
Definition prepared (status : ChannelStatus) (who : Beneficiary) (kind : AssetKind) (amount : Z) :
    list (performed bench_call) :=
  (Performed (get_channel_status BenchmarkParaId) status ::
   match status with
   | Closed => [Performed (open_outbound_hrmp_channel_for_benchmarks_or_tests BenchmarkParaId) tt]
   | _ => []
   end ++ [Performed (xcm_ensure_successful who kind amount) tt])%list.

Lemma ensure_successful_opens (R : ∀ X, bench_call X → X → Prop) who kind amount tr o :
  runs R (ensure_successful (Paymaster true) who kind amount) tr o →
  o = Finished tt ∧ ∃ status, tr = prepared status who kind amount.
Proof.
  intros Hr. pattern tr, o. apply (runs_always _ _ _ _ _ Hr). cbn. intros [| |now ever] _; cbn.
  - intros [] _ [] _. split; [done|]. by exists Closed.
  - intros [] _. split; [done|]. by exists Full.
  - intros [] _. split; [done|]. by exists (Ready now ever).
Qed.
Lemma paymaster_payments b who kind amount id :
  pay (Paymaster b) who kind amount = pay TreasuryPaymaster who kind amount ∧
  check_payment (Paymaster b) id = check_payment TreasuryPaymaster id ∧
  ensure_concluded (Paymaster b) id = ensure_concluded TreasuryPaymaster id.
Proof. by destruct b. Qed.

(** The names are distinct, and every pallet that is weighed by a module has the
    benchmark that generates it. *)
Lemma benchmarks_distinct : NoDup benchmarks.*1.
Proof. by apply (bool_decide_unpack _). Qed.

Definition weighed_by (p : pallet) : target :=
  match p with Session => SessionBench | _ => OfPallet p end.
Lemma weights_benchmarked p m :
  weight_module p = Some m → benchmark_of benchmarks m = Some (weighed_by p).
Proof. by destruct p; intros [= <-]. Qed.

(** C32: running benchmarks.  A request for a name that no benchmark has only reads the
    whitelist and fails with [not_found]; any other request runs the benchmark of that
    name, once and no other, and ends with its error, with [not_found] when it was
    skipped, or with its batch alone.  Every pallet whose weights are generated has the
    benchmark its module of weights is generated from. *)
Theorem dispatch_benchmark_runs (R : ∀ X, bench_call X → X → Prop) config tr o :
  runs R (dispatch_benchmark config) tr o →
  (∃ whitelist,
    match benchmark_of benchmarks (selected_pallet config) with
    | None => tr = [Performed whitelisted_storage_keys whitelist] ∧ o = Failed not_found
    | Some t => ∃ x,
        tr = [Performed whitelisted_storage_keys whitelist; Performed (run_benchmark t config whitelist) x] ∧
        o = match x with
            | inl (Some batch) => Finished [batch]
            | inl None => Failed not_found
            | inr e => Failed e
            end
    end) ∧
  ∀ p m, weight_module p = Some m → benchmark_of benchmarks m = Some (weighed_by p).
Proof.
  intros Hr. split; [|apply weights_benchmarked].
  apply runs_perform_inv in Hr as (whitelist & tr' & -> & _ & Hr). exists whitelist.
  change (runs R (batches ← add_benchmarks benchmarks config whitelist [];
    match batches with [] => Raise not_found | _ => mret batches end) tr' o) in Hr.
  destruct (benchmark_of benchmarks (selected_pallet config)) as [t|] eqn:Ht.
  - pattern tr', o. apply (runs_always _ _ _ _ _ Hr). apply always_bind.
    eapply always_mono; [by apply add_benchmarks_runs; [apply benchmarks_distinct|]|].
    intros tr o' (x & -> & ->). by destruct x as [[b|]|e]; cbn; eexists.
  - rewrite add_benchmarks_unselected in Hr by by apply benchmark_of_None. by inversion Hr.
Qed.

(** The asset of the benchmarks is the native one, in an amount that keeps an account
    alive: the transactors move it for every location that has an account, and the relay
    chain, which the benchmarks reach, is its reserve.  A message to the parent is priced
    like one to a sibling. *)
Lemma benchmark_asset {TA : Transactors} {TL : TransactorsLaws} (Fungible : Z → Fungibility) in_ who acc w :
  (∀ n, fungible_amount (Fungible n) = Some n) → convert_location LocationToAccountId who = Some acc →
  transact in_ AssetTransactors (get_asset Fungible) who w = moved in_ Native acc EXISTENTIAL_DEPOSIT w ∧
  option_map fst (reserve_transferable_asset_and_dest Fungible) = Some (get_asset Fungible) ∧
  ExistentialDepositAsset Fungible = Some (get_asset Fungible) ∧
  reachable_dest = Some (reserve_of Native).
Proof.
  intros HF Hacc. rewrite transactors_reference. unfold transact_reference, currency_of. cbn [asset_id fun_ get_asset].
  rewrite decide_True by done. rewrite HF, Hacc. done.
Qed.
Lemma parent_delivery_price {FB : FeeLib} : PriceForParentDelivery = PriceForSiblingParachainDelivery.
Proof. done. Qed.
End benchmarks.

(** * A concrete run *)

#[local] Instance SampleBench : BenchLib := {|
  BenchmarkConfig := string;
  selected_pallet c := c;
  BenchmarkBatch := string;
  BenchmarkList := unit;
  StorageInfo := unit;
  TrackedStorageKey := unit;
  RuntimeBenchmarks.Beneficiary := unit;
  AssetKind := unit;
  PaymentId := unit;
  PaymentError := unit;
  PaymentStatus := unit;
|}.
Definition sample_add (config : string) (whitelist : list unit) (b : string * target) (batches : list string) :
    prog bench_call string (list string) :=
  if decide (b.1 = config)
  then r ← try_call (run_benchmark (L := SampleBench) b.2 config whitelist);
       mret match r with Some x => (batches ++ [x])%list | None => batches end
  else mret batches.
#[local] Instance sample_add_laws : AddBenchmark (L := SampleBench) sample_add.
Proof. split; intros config whitelist name t batches Hn; unfold sample_add; cbn; by case_decide. Qed.

(** Every benchmark answers with its own name. *)
Definition sample_answer (X : Type) (e : bench_call (L := SampleBench) X) : X :=
  match e with
  | get_channel_status _ => Closed
  | open_outbound_hrmp_channel_for_benchmarks_or_tests _ => tt
  | xcm_pay _ _ _ _ _ => inl tt
  | xcm_check_payment _ => tt
  | xcm_ensure_successful _ _ _ => tt
  | xcm_ensure_concluded _ => tt
  | whitelisted_storage_keys => [tt]
  | run_benchmark _ config _ => inl (Some (config : string))
  | list_benchmark _ _ _ => tt
  | storage_info => []
  | initialize_for_set_code_benchmark _ => tt
  | assert_validation_function_stored => tt
  end.

Lemma dispatch_benchmark_runs_witness :
  let run := interpret sample_answer (dispatch_benchmark (L := SampleBench) sample_add "pallet_session") in
  run.2 = Finished ["pallet_session"%string] ∧
  (∃ whitelist x,
    run.1 = [Performed whitelisted_storage_keys whitelist;
             Performed (run_benchmark (L := SampleBench) SessionBench "pallet_session" whitelist) x]) ∧
  benchmark_of benchmarks "pallet_referenda" = Some (OfPallet Referenda).
Proof.
  intros run.
  destruct (dispatch_benchmark_runs (L := SampleBench) sample_add (K := SampleCalls) (FL := SampleLimits)
    (XO := SampleXcmOrigins) (λ _ _ _, True) "pallet_session" run.1 run.2) as [(whitelist & x & Htr & _) Hm].
  { by apply interpret_runs. }
  split_and!; [by vm_compute | by exists whitelist, x | by apply (Hm Referenda)].
Defined.
