(* ===== verification/RuntimeApis.v ===== *)
(** The runtime APIs, [runtime/src/apis.rs] (the benchmarks are in [RuntimeBenchmarks]),
    and the transactions and the consensus hook of [runtime/src/types.rs].  Executive,
    the pallets and the inherents are library code that the APIs call: an API is a
    program of [Effects] whose calls are those of the library. *)

From S2P Require Import Prelude RoscaTypes Weights RuntimeConstants RuntimeFilters RuntimeXcm RuntimeGovernance.
From S2P Require Import RuntimePrivileges RuntimeBlocks RuntimeFees RuntimePallets Effects.
#[local] Open Scope Z_scope.

(** * The library *)

(** The types of blocks, transactions, sessions and inherents. *)
Class ApiTypes : Type := {
  Block : Type;
  Header : Type;
  Extrinsic : Type;
  Hash : Type;
  AuraId : Type;
  ApiAccountId : Type;
  ApiRuntimeCall : Type;
  Bytes : Type;
  KeyTypeId : Type;
  OpaqueMetadata : Type;
  (** [OpaqueMetadata::new(_.into())]. *)
  RuntimeMetadata : Type;
  OpaqueMetadata_new : RuntimeMetadata → OpaqueMetadata;
  ExtrinsicInclusionMode : Type;
  ApplyExtrinsicResult : Type;
  InherentData : Type;
  CheckInherentsResult : Type;
  TransactionSource : Type;
  TransactionValidity : Type;
  RuntimeDispatchInfo : Type;
  FeeDetails : Type;
  CollationInfo : Type;
  UpgradeCheckSelect : Type;
  TryStateSelect : Type;
  TryRuntimeError : Type;
  BuildError : Type;
}.

(** [FixedVelocityConsensusHook] and its parameters, and the transaction extensions. *)
Record FixedVelocityConsensusHook : Type := mkHook {
  relay_chain_slot_duration_millis : Z;
  velocity : Z;
  capacity : Z;
}.
Inductive SignedExtension : Type :=
  | CheckNonZeroSender | CheckSpecVersion | CheckTxVersion | CheckGenesis | CheckEra | CheckNonce | CheckWeight
  | ChargeTransactionPayment | StorageWeightReclaim.
#[export] Instance SignedExtension_eq_dec : EqDecision SignedExtension.
Proof. solve_decision. Defined.

(** * Types of the runtime *)

(** [ConsensusHook] and [SignedExtra]. *)
Definition ConsensusHook : FixedVelocityConsensusHook :=
  mkHook RELAY_CHAIN_SLOT_DURATION_MILLIS BLOCK_PROCESSING_VELOCITY UNINCLUDED_SEGMENT_CAPACITY.
Definition SignedExtra : list SignedExtension :=
  [CheckNonZeroSender; CheckSpecVersion; CheckTxVersion; CheckGenesis; CheckEra; CheckNonce; CheckWeight;
   ChargeTransactionPayment; StorageWeightReclaim].

(** [native_version], of [runtime/src/lib.rs]; it can author with no other version. *)
Record NativeVersion : Type := mkNativeVersion { native_runtime_version : RuntimeVersion; can_author_with : list Z }.
Definition native_version : NativeVersion := mkNativeVersion VERSION [].

Section apis.
Context {Y : ApiTypes} {W : SpWeights} {FL : FrameLimits} {FB : FeeLib}.

(** The functions of the library behind the APIs. *)
Inductive lib_call : Type → Type :=
  | aura_authorities : lib_call (list AuraId)
  | Executive_execute_block (block : Block) : lib_call unit
  | Executive_initialize_block (header : Header) : lib_call ExtrinsicInclusionMode
  | Executive_apply_extrinsic (extrinsic : Extrinsic) : lib_call ApplyExtrinsicResult
  | Executive_finalize_block : lib_call Header
  | Executive_validate_transaction (source : TransactionSource) (tx : Extrinsic) (block_hash : Hash) :
      lib_call TransactionValidity
  | Executive_offchain_worker (header : Header) : lib_call unit
  | Executive_try_runtime_upgrade (checks : UpgradeCheckSelect) : lib_call (Weight + TryRuntimeError)
  | Executive_try_execute_block (block : Block) (state_root_check signature_check : bool) (select : TryStateSelect) :
      lib_call (Weight + TryRuntimeError)
  | Runtime_metadata : lib_call RuntimeMetadata
  | Runtime_metadata_at_version (version : Z) : lib_call (option OpaqueMetadata)
  | Runtime_metadata_versions : lib_call (list Z)
  | create_extrinsics (data : InherentData) : lib_call (list Extrinsic)
  | check_extrinsics (data : InherentData) (block : Block) : lib_call CheckInherentsResult
  | SessionKeys_generate (seed : option Bytes) : lib_call Bytes
  | SessionKeys_decode_into_raw_public_keys (encoded : Bytes) : lib_call (option (list (Bytes * KeyTypeId)))
  | System_account_nonce (account : ApiAccountId) : lib_call Z
  | TransactionPayment_query_info (uxt : Extrinsic) (len : Z) : lib_call RuntimeDispatchInfo
  | TransactionPayment_query_fee_details (uxt : Extrinsic) (len : Z) : lib_call FeeDetails
  | TransactionPayment_query_call_info (c : ApiRuntimeCall) (len : Z) : lib_call RuntimeDispatchInfo
  | TransactionPayment_query_call_fee_details (c : ApiRuntimeCall) (len : Z) : lib_call FeeDetails
  | ParachainSystem_collect_collation_info (header : Header) : lib_call CollationInfo
  | hook_can_build_upon (hook : FixedVelocityConsensusHook) (included_hash : Hash) (slot : Z) : lib_call bool
  | create_default_config : lib_call Bytes
  | build_config (config : Bytes) : lib_call (unit + BuildError).

Abbreviation api := (prog lib_call Empty_set).

(** [Result::unwrap]. *)
Definition unwrap {A E} (r : A + E) : api A := match r with inl a => mret a | inr _ => Panics end.

(** * The APIs *)

(** [sp_consensus_aura::AuraApi]. *)
Definition AuraApi_slot_duration : api Z := mret SLOT_DURATION.
Definition AuraApi_authorities : api (list AuraId) := call aura_authorities.

(** [sp_api::Core]. *)
Definition Core_version : api RuntimeVersion := mret VERSION.
Definition Core_execute_block (block : Block) : api unit := call (Executive_execute_block block).
Definition Core_initialize_block (header : Header) : api ExtrinsicInclusionMode := call (Executive_initialize_block header).

(** [sp_api::Metadata]. *)
Definition Metadata_metadata : api OpaqueMetadata := m ← call Runtime_metadata; mret (OpaqueMetadata_new m).
Definition Metadata_metadata_at_version (version : Z) : api (option OpaqueMetadata) := call (Runtime_metadata_at_version version).
Definition Metadata_metadata_versions : api (list Z) := call Runtime_metadata_versions.

(** [sp_block_builder::BlockBuilder]. *)
Definition BlockBuilder_apply_extrinsic (extrinsic : Extrinsic) : api ApplyExtrinsicResult := call (Executive_apply_extrinsic extrinsic).
Definition BlockBuilder_finalize_block : api Header := call Executive_finalize_block.
Definition BlockBuilder_inherent_extrinsics (data : InherentData) : api (list Extrinsic) := call (create_extrinsics data).
Definition BlockBuilder_check_inherents (block : Block) (data : InherentData) : api CheckInherentsResult :=
  call (check_extrinsics data block).

(** [TaggedTransactionQueue], [OffchainWorkerApi], [SessionKeys], [AccountNonceApi]. *)
Definition validate_transaction (source : TransactionSource) (tx : Extrinsic) (block_hash : Hash) : api TransactionValidity :=
  call (Executive_validate_transaction source tx block_hash).
Definition offchain_worker (header : Header) : api unit := call (Executive_offchain_worker header).
Definition generate_session_keys (seed : option Bytes) : api Bytes := call (SessionKeys_generate seed).
Definition decode_session_keys (encoded : Bytes) : api (option (list (Bytes * KeyTypeId))) :=
  call (SessionKeys_decode_into_raw_public_keys encoded).
Definition account_nonce (account : ApiAccountId) : api Z := call (System_account_nonce account).

(** [TransactionPaymentApi]. *)
Definition TransactionPaymentApi_query_info (uxt : Extrinsic) (len : Z) : api RuntimeDispatchInfo := call (TransactionPayment_query_info uxt len).
Definition TransactionPaymentApi_query_fee_details (uxt : Extrinsic) (len : Z) : api FeeDetails :=
  call (TransactionPayment_query_fee_details uxt len).
Definition TransactionPaymentApi_query_weight_to_fee (weight : Weight) : api Z := mret (query_weight_to_fee weight).
Definition TransactionPaymentApi_query_length_to_fee (length : Z) : api Z := mret (query_length_to_fee length).

(** [TransactionPaymentCallApi]. *)
Definition TransactionPaymentCallApi_query_call_info (c : ApiRuntimeCall) (len : Z) : api RuntimeDispatchInfo :=
  call (TransactionPayment_query_call_info c len).
Definition TransactionPaymentCallApi_query_call_fee_details (c : ApiRuntimeCall) (len : Z) : api FeeDetails :=
  call (TransactionPayment_query_call_fee_details c len).
Definition TransactionPaymentCallApi_query_weight_to_fee (weight : Weight) : api Z := mret (query_weight_to_fee weight).
Definition TransactionPaymentCallApi_query_length_to_fee (length : Z) : api Z := mret (query_length_to_fee length).

(** [CollectCollationInfo] and [AuraUnincludedSegmentApi]. *)
Definition collect_collation_info (header : Header) : api CollationInfo := call (ParachainSystem_collect_collation_info header).
Definition can_build_upon (included_hash : Hash) (slot : Z) : api bool :=
  call (hook_can_build_upon ConsensusHook included_hash slot).

(** [frame_try_runtime::TryRuntime]. *)
Definition TryRuntime_on_runtime_upgrade (checks : UpgradeCheckSelect) : api (Weight * Weight) :=
  r ← call (Executive_try_runtime_upgrade checks);
  weight ← unwrap r;
  mret (weight, max_block RuntimeBlockWeights).
Definition TryRuntime_execute_block (block : Block) (state_root_check signature_check : bool) (select : TryStateSelect) : api Weight :=
  r ← call (Executive_try_execute_block block state_root_check signature_check select);
  unwrap r.

(** [sp_genesis_builder::GenesisBuilder]. *)
Definition GenesisBuilder_create_default_config : api Bytes := call create_default_config.
Definition GenesisBuilder_build_config (config : Bytes) : api (unit + BuildError) := call (build_config config).

(** * Requests *)

(** A request to the runtime is one of these functions with its arguments. *)
Inductive request : Type → Type :=
  | req_AuraApi_slot_duration : request Z
  | req_AuraApi_authorities : request (list AuraId)
  | req_Core_version : request RuntimeVersion
  | req_Core_execute_block (block : Block) : request unit
  | req_Core_initialize_block (header : Header) : request ExtrinsicInclusionMode
  | req_Metadata_metadata : request OpaqueMetadata
  | req_Metadata_metadata_at_version (version : Z) : request (option OpaqueMetadata)
  | req_Metadata_metadata_versions : request (list Z)
  | req_BlockBuilder_apply_extrinsic (extrinsic : Extrinsic) : request ApplyExtrinsicResult
  | req_BlockBuilder_finalize_block : request Header
  | req_BlockBuilder_inherent_extrinsics (data : InherentData) : request (list Extrinsic)
  | req_BlockBuilder_check_inherents (block : Block) (data : InherentData) : request CheckInherentsResult
  | req_validate_transaction (source : TransactionSource) (tx : Extrinsic) (block_hash : Hash) : request TransactionValidity
  | req_offchain_worker (header : Header) : request unit
  | req_generate_session_keys (seed : option Bytes) : request Bytes
  | req_decode_session_keys (encoded : Bytes) : request (option (list (Bytes * KeyTypeId)))
  | req_account_nonce (account : ApiAccountId) : request Z
  | req_TransactionPaymentApi_query_info (uxt : Extrinsic) (len : Z) : request RuntimeDispatchInfo
  | req_TransactionPaymentApi_query_fee_details (uxt : Extrinsic) (len : Z) : request FeeDetails
  | req_TransactionPaymentApi_query_weight_to_fee (weight : Weight) : request Z
  | req_TransactionPaymentApi_query_length_to_fee (length : Z) : request Z
  | req_TransactionPaymentCallApi_query_call_info (c : ApiRuntimeCall) (len : Z) : request RuntimeDispatchInfo
  | req_TransactionPaymentCallApi_query_call_fee_details (c : ApiRuntimeCall) (len : Z) : request FeeDetails
  | req_TransactionPaymentCallApi_query_weight_to_fee (weight : Weight) : request Z
  | req_TransactionPaymentCallApi_query_length_to_fee (length : Z) : request Z
  | req_collect_collation_info (header : Header) : request CollationInfo
  | req_can_build_upon (included_hash : Hash) (slot : Z) : request bool
  | req_TryRuntime_on_runtime_upgrade (checks : UpgradeCheckSelect) : request (Weight * Weight)
  | req_TryRuntime_execute_block (block : Block) (state_root_check signature_check : bool) (select : TryStateSelect) : request Weight
  | req_GenesisBuilder_create_default_config : request Bytes
  | req_GenesisBuilder_build_config (config : Bytes) : request (unit + BuildError).

Definition handle {A} (r : request A) : api A :=
  match r with
  | req_AuraApi_slot_duration => AuraApi_slot_duration
  | req_AuraApi_authorities => AuraApi_authorities
  | req_Core_version => Core_version
  | req_Core_execute_block block => Core_execute_block block
  | req_Core_initialize_block header => Core_initialize_block header
  | req_Metadata_metadata => Metadata_metadata
  | req_Metadata_metadata_at_version version => Metadata_metadata_at_version version
  | req_Metadata_metadata_versions => Metadata_metadata_versions
  | req_BlockBuilder_apply_extrinsic extrinsic => BlockBuilder_apply_extrinsic extrinsic
  | req_BlockBuilder_finalize_block => BlockBuilder_finalize_block
  | req_BlockBuilder_inherent_extrinsics data => BlockBuilder_inherent_extrinsics data
  | req_BlockBuilder_check_inherents block data => BlockBuilder_check_inherents block data
  | req_validate_transaction source tx block_hash => validate_transaction source tx block_hash
  | req_offchain_worker header => offchain_worker header
  | req_generate_session_keys seed => generate_session_keys seed
  | req_decode_session_keys encoded => decode_session_keys encoded
  | req_account_nonce account => account_nonce account
  | req_TransactionPaymentApi_query_info uxt len => TransactionPaymentApi_query_info uxt len
  | req_TransactionPaymentApi_query_fee_details uxt len => TransactionPaymentApi_query_fee_details uxt len
  | req_TransactionPaymentApi_query_weight_to_fee weight => TransactionPaymentApi_query_weight_to_fee weight
  | req_TransactionPaymentApi_query_length_to_fee length => TransactionPaymentApi_query_length_to_fee length
  | req_TransactionPaymentCallApi_query_call_info c len => TransactionPaymentCallApi_query_call_info c len
  | req_TransactionPaymentCallApi_query_call_fee_details c len => TransactionPaymentCallApi_query_call_fee_details c len
  | req_TransactionPaymentCallApi_query_weight_to_fee weight => TransactionPaymentCallApi_query_weight_to_fee weight
  | req_TransactionPaymentCallApi_query_length_to_fee length => TransactionPaymentCallApi_query_length_to_fee length
  | req_collect_collation_info header => collect_collation_info header
  | req_can_build_upon included_hash slot => can_build_upon included_hash slot
  | req_TryRuntime_on_runtime_upgrade checks => TryRuntime_on_runtime_upgrade checks
  | req_TryRuntime_execute_block block state_root_check signature_check select =>
    TryRuntime_execute_block block state_root_check signature_check select
  | req_GenesisBuilder_create_default_config => GenesisBuilder_create_default_config
  | req_GenesisBuilder_build_config config => GenesisBuilder_build_config config
  end.

(** * Properties *)

(** The functions of the library that change the state of the chain, and the requests
    that are made to change it. *)
Definition writes (X : Type) (e : lib_call X) : bool :=
  match e with
  | Executive_execute_block _ | Executive_initialize_block _ | Executive_apply_extrinsic _ | Executive_finalize_block
  | Executive_try_runtime_upgrade _ | Executive_try_execute_block _ _ _ _ | build_config _ => true
  | _ => false
  end.
Definition executes {A} (r : request A) : bool :=
  match r with
  | req_Core_execute_block _ | req_Core_initialize_block _ | req_BlockBuilder_apply_extrinsic _
  | req_BlockBuilder_finalize_block | req_TryRuntime_on_runtime_upgrade _ | req_TryRuntime_execute_block _ _ _ _
  | req_GenesisBuilder_build_config _ => true
  | _ => false
  end.

(** A dry run of an upgrade or of a block that failed. *)
Definition failed_try (p : performed lib_call) : Prop :=
  match p with
  | Performed e x =>
    match e in lib_call X return X → Prop with
    | Executive_try_runtime_upgrade _ | Executive_try_execute_block _ _ _ _ =>
      λ x, match x with inr _ => True | inl _ => False end
    | _ => λ _, False
    end x
  end.

(** A request makes at most one call of the library.  It changes the state of the chain
    only when it is made for that, and panics exactly when a dry run failed. *)
Lemma request_answered (R : ∀ X, lib_call X → X → Prop) {A} (r : request A) tr o :
  runs R (handle r) tr o →
  (length tr ≤ 1)%nat ∧
  (executes r = false → existsb (is_bad writes) tr = false) ∧
  (o = Panicked ↔ Exists failed_try tr).
Proof.
  intros Hr. pattern tr, o. apply (runs_always _ _ _ _ _ Hr). clear tr o Hr.
  destruct r; cbn; intros; try done.
  all: try (match goal with x : (_ + TryRuntimeError)%type |- _ => destruct x; cbn end).
  all: (split; [lia|]; split; [done|]; rewrite ?Exists_cons, ?Exists_nil; cbn; naive_solver).
Qed.

(** The two APIs for fees agree, and the answers that are constants are those that the
    pallets are configured with. *)
Lemma constant_answers {K : Calls} {X : Xcm} {O : Origins} {XO : XcmOrigins} weight length :
  TransactionPaymentApi_query_weight_to_fee weight = TransactionPaymentCallApi_query_weight_to_fee weight ∧
  TransactionPaymentApi_query_length_to_fee length = TransactionPaymentCallApi_query_length_to_fee length ∧
  AuraApi_slot_duration = mret (pallet_aura.SlotDuration pallet_aura.pallet_aura_Config) ∧
  Core_version = mret (frame_system.Version frame_system.frame_system_Config) ∧
  Core_version = mret (native_runtime_version native_version).
Proof. done. Qed.
End apis.

(** A slot of the chain is as long as one of the relay chain, a block is built in each,
    and blocks are built on while earlier ones wait for their inclusion. *)
Lemma consensus_hook :
  relay_chain_slot_duration_millis ConsensusHook = SLOT_DURATION ∧
  velocity ConsensusHook * MILLISECS_PER_BLOCK = relay_chain_slot_duration_millis ConsensusHook ∧
  1 ≤ velocity ConsensusHook < capacity ConsensusHook.
Proof. done. Qed.

(** The fee is charged after all checks of a transaction, and the storage weight that was
    not used is reclaimed after it. *)
Lemma fee_after_checks :
  NoDup SignedExtra ∧
  ∃ checks, SignedExtra = checks ++ [ChargeTransactionPayment; StorageWeightReclaim] ∧
    ∀ e, e ∈ checks ↔ e ≠ ChargeTransactionPayment ∧ e ≠ StorageWeightReclaim.
Proof.
  split; [by apply (bool_decide_unpack _)|].
  exists [CheckNonZeroSender; CheckSpecVersion; CheckTxVersion; CheckGenesis; CheckEra; CheckNonce; CheckWeight].
  split; [done|]. intros []; rewrite <- (bool_decide_spec (_ ∈ _)); split; try done; naive_solver.
Qed.
