(* ===== verification/NodeService.v ===== *)
(** Starting a node: [node/src/service.rs] and [node/src/rpc.rs].  The client, the
    network, the relay-chain interface and the tasks are library values; the functions
    here create them in a certain order, pass them on, and stop at the first error.
    The programs are those of [Effects]: their traces are the library calls made. *)

From S2P Require Import Prelude Effects.

(** * The library

    The values of the Substrate and Cumulus crates that the service handles, the fields
    it reads of a [Configuration], and the constructors that cannot fail. *)
Class Substrate : Type := {
  Configuration : Type;
  ServiceError : Type;
  (** [sc_service::Configuration]. *)
  TelemetryEndpoints : Type;
  endpoints_is_empty : TelemetryEndpoints → bool;
  telemetry_endpoints : Configuration → option TelemetryEndpoints;
  default_heap_pages : Configuration → option Z;
  WasmMethod : Type;
  wasm_method : Configuration → WasmMethod;
  max_runtime_instances : Configuration → Z;
  runtime_cache_size : Configuration → Z;
  PoolOptions : Type;
  transaction_pool_options : Configuration → PoolOptions;
  is_authority : Configuration → bool;
  Registry : Type;
  prometheus_registry : Configuration → option Registry;
  NetworkConfiguration : Type;
  network_config : Configuration → NetworkConfiguration;
  offchain_worker_enabled : Configuration → bool;
  prepare_node_config : Configuration → Configuration;
  (** [DEFAULT_HEAP_ALLOC_STRATEGY] is one of these. *)
  DynamicStrategy : Type;
  DEFAULT_HEAP_ALLOC_STRATEGY : DynamicStrategy;
  (** The parts of a node. *)
  Client : Type;
  Backend : Type;
  KeystoreContainer : Type;
  TaskManager : Type;
  TransactionPool : Type;
  BlockImport : Type;
  ImportQueue : Type;
  TelemetryWorker : Type;
  TelemetryWorkerHandle : Type;
  Telemetry : Type;
  TelemetryHandle : Type;
  RelayChainInterface : Type;
  RelayChainError : Type;
  CollatorPair : Type;
  Network : Type;
  SystemRpcTx : Type;
  TxHandlerController : Type;
  NetworkStarter : Type;
  SyncService : Type;
  OverseerHandle : Type;
  CollatorOptions : Type;
  HwBench : Type;
  SlotDuration : Type;
  BlockHash : Type;
  BlockData : Type;
  ValidationCode : Type;
  CodeHash : Type;
  RpcModule : Type;
  RpcError : Type;
  DenyUnsafe : Type;
  worker_handle : TelemetryWorker → TelemetryWorkerHandle;
  new_telemetry : TelemetryWorkerHandle → TelemetryEndpoints → Telemetry;
  telemetry_handle : Telemetry → TelemetryHandle;
  block_import_new : Client → Backend → BlockImport;
  code_at : Client → BlockHash → option ValidationCode;
  code_hash : ValidationCode → CodeHash;
  (** [sc_service::Error::Application]. *)
  application_error : RelayChainError → ServiceError;
  (** [SUBSTRATE_REFERENCE_HARDWARE.check_hardware]. *)
  hardware_sufficient : HwBench → bool;
  (** The RPC modules. *)
  rpc_new : RpcModule;
  system_rpc : Client → TransactionPool → DenyUnsafe → RpcModule;
  transaction_payment_rpc : Client → RpcModule;
  rpc_merge : RpcModule → RpcModule → RpcModule + RpcError;
}.

Section service.
Context {S : Substrate}.

(** [HeapAllocStrategy]; its [extra_pages] is a [u32]. *)
Inductive HeapAllocStrategy : Type :=
  | Default (d : DynamicStrategy)
  | Static (extra_pages : Z).

(** The options given to [ParachainExecutor::builder()]. *)
Record Executor : Type := mkExecutor {
  with_execution_method : WasmMethod;
  with_onchain_heap_alloc_strategy : HeapAllocStrategy;
  with_offchain_heap_alloc_strategy : HeapAllocStrategy;
  with_max_runtime_instances : Z;
  with_runtime_cache_size : Z;
}.

(** [DARecoveryProfile]. *)
Inductive DARecoveryProfile : Type := Collator | FullNode.

(** [FullDeps] of [rpc.rs]. *)
Record FullDeps : Type := mkFullDeps {
  deps_client : Client;
  deps_pool : TransactionPool;
  deny_unsafe : DenyUnsafe;
}.

(** [Params] of the lookahead collator, as [start_consensus] fills them in; the clock is
    in milliseconds. *)
Record ConsensusParams : Type := mkConsensusParams {
  cp_block_import : BlockImport;
  cp_client : Client;
  cp_backend : Backend;
  cp_relay_client : RelayChainInterface;
  cp_code_hash_provider : BlockHash → option CodeHash;
  cp_sync_oracle : SyncService;
  cp_keystore : KeystoreContainer;
  cp_collator_key : CollatorPair;
  cp_para_id : Z;
  cp_overseer_handle : OverseerHandle;
  cp_relay_chain_slot_duration : Z;
  cp_announce_block : SyncService;
  cp_transaction_pool : TransactionPool;
  cp_prometheus : option Registry;
  cp_telemetry : option TelemetryHandle;
  authoring_duration : Z;
  reinitialize : bool;
}.

(** The futures that are spawned. *)
Inductive Task : Type :=
  | TelemetryRun (w : TelemetryWorker)
  | OffchainWorkersRun (c : Client) (k : KeystoreContainer) (b : Backend) (p : TransactionPool) (n : Network)
      (is_validator enable_http_requests : bool)
  | HwbenchTelemetry (h : TelemetryHandle) (b : HwBench)
  | AuraRun (p : ConsensusParams).

(** The calls of library functions with an effect, by the type of their result. *)
Inductive service_call : Type → Type :=
  | TelemetryWorker_new (buffer : Z) : service_call (TelemetryWorker + ServiceError)
  | new_full_parts_record_import (c : Configuration) (t : option TelemetryHandle) (e : Executor) (record : bool) :
      service_call ((Client * Backend * KeystoreContainer * TaskManager) + ServiceError)
  | BasicPool_new_full (o : PoolOptions) (is_validator : bool) (r : option Registry) (t : TaskManager) (c : Client) :
      service_call TransactionPool
  | slot_duration (c : Client) : service_call (SlotDuration + ServiceError)
  | fully_verifying_import_queue (c : Client) (b : BlockImport) (d : SlotDuration) (t : TaskManager)
      (r : option Registry) (h : option TelemetryHandle) : service_call ImportQueue
  | spawn (t : TaskManager) (essential : bool) (name : string) (group : option string) (task : Task) :
      service_call unit
  | build_relay_chain_interface (relay para : Configuration) (h : option TelemetryWorkerHandle) (t : TaskManager)
      (o : CollatorOptions) (hw : option HwBench) :
      service_call ((RelayChainInterface * option CollatorPair) + RelayChainError)
  | build_network (c : Configuration) (n : NetworkConfiguration) (cl : Client) (p : TransactionPool) (para_id : Z)
      (t : TaskManager) (r : RelayChainInterface) (q : ImportQueue) (sybil_resistant : bool) :
      service_call ((Network * SystemRpcTx * TxHandlerController * NetworkStarter * SyncService) + ServiceError)
  | spawn_tasks (rpc : DenyUnsafe → RpcModule + RpcError) (cl : Client) (p : TransactionPool) (t : TaskManager)
      (c : Configuration) (k : KeystoreContainer) (b : Backend) (n : Network) (s : SyncService) (tx : SystemRpcTx)
      (h : TxHandlerController) (tel : option Telemetry) : service_call (unit + ServiceError)
  | print_hwbench (h : HwBench) : service_call unit
  | warn_hardware (h : HwBench) : service_call unit
  | overseer_handle (r : RelayChainInterface) : service_call (OverseerHandle + RelayChainError)
  | start_relay_chain_tasks (cl : Client) (announce : SyncService) (para_id : Z) (r : RelayChainInterface)
      (t : TaskManager) (da : DARecoveryProfile) (q : ImportQueue) (relay_chain_slot_duration : Z)
      (recovery : OverseerHandle) (s : SyncService) : service_call (unit + ServiceError)
  | start_network (n : NetworkStarter) : service_call unit.

(** [PartialComponents], the [Service] of this node. *)
Record Service : Type := mkService {
  backend : Backend;
  client : Client;
  import_queue : ImportQueue;
  keystore_container : KeystoreContainer;
  task_manager : TaskManager;
  transaction_pool : TransactionPool;
  other : BlockImport * option Telemetry * option TelemetryWorkerHandle;
}.

Abbreviation service := (prog service_call ServiceError).

(** [rpc::create_full]. *)
Definition create_full (deps : FullDeps) : RpcModule + RpcError :=
  match rpc_merge rpc_new (system_rpc (deps_client deps) (deps_pool deps) (deny_unsafe deps)) with
  | inr e => inr e
  | inl module => rpc_merge module (transaction_payment_rpc (deps_client deps))
  end.

(** [build_import_queue]. *)
Definition build_import_queue (client : Client) (block_import : BlockImport) (config : Configuration)
    (telemetry : option TelemetryHandle) (task_manager : TaskManager) : service ImportQueue :=
  slot_duration ← try_call (slot_duration client);
  call (fully_verifying_import_queue client block_import slot_duration task_manager
          (prometheus_registry config) telemetry).

(** The [telemetry] of [new_partial]: a worker only for endpoints that are not empty. *)
Definition new_telemetry_worker (config : Configuration) : service (option (TelemetryWorker * Telemetry)) :=
  match telemetry_endpoints config with
  | Some endpoints =>
    if endpoints_is_empty endpoints then mret None
    else
      worker ← try_call (TelemetryWorker_new 16);
      let telemetry := new_telemetry (worker_handle worker) endpoints in
      mret (Some (worker, telemetry))
  | None => mret None
  end.

(** [heap_pages]: [h as _] casts a [u64] to the [u32] of [extra_pages]. *)
Definition heap_pages (config : Configuration) : HeapAllocStrategy :=
  match default_heap_pages config with
  | None => Default DEFAULT_HEAP_ALLOC_STRATEGY
  | Some h => Static (h mod 2 ^ 32)
  end.

Definition executor (config : Configuration) : Executor :=
  mkExecutor (wasm_method config) (heap_pages config) (heap_pages config)
    (max_runtime_instances config) (runtime_cache_size config).

(** [new_partial]. *)
Definition new_partial (config : Configuration) : service Service :=
  telemetry ← new_telemetry_worker config;
  parts ← try_call (new_full_parts_record_import config
                      (option_map (λ t, telemetry_handle (snd t)) telemetry) (executor config) true);
  let '(client, backend, keystore_container, task_manager) := parts in
  let telemetry_worker_handle := option_map (λ t, worker_handle (fst t)) telemetry in
  telemetry ← match telemetry with
              | Some (worker, telemetry) =>
                _ ← call (spawn task_manager false "telemetry" None (TelemetryRun worker));
                mret (Some telemetry)
              | None => mret None
              end;
  transaction_pool ← call (BasicPool_new_full (transaction_pool_options config) (is_authority config)
                             (prometheus_registry config) task_manager client);
  let block_import := block_import_new client backend in
  import_queue ← build_import_queue client block_import config (option_map telemetry_handle telemetry) task_manager;
  mret (mkService backend client import_queue keystore_container task_manager transaction_pool
          (block_import, telemetry, telemetry_worker_handle)).

(** [start_consensus]. *)
Definition start_consensus (client : Client) (backend : Backend) (block_import : BlockImport)
    (prometheus_registry : option Registry) (telemetry : option TelemetryHandle) (task_manager : TaskManager)
    (relay_chain_interface : RelayChainInterface) (transaction_pool : TransactionPool) (sync_oracle : SyncService)
    (keystore : KeystoreContainer) (relay_chain_slot_duration para_id : Z) (collator_key : CollatorPair)
    (overseer_handle : OverseerHandle) (announce_block : SyncService) : service unit :=
  let params :=
    mkConsensusParams block_import client backend relay_chain_interface
      (λ block_hash, option_map code_hash (code_at client block_hash))
      sync_oracle keystore collator_key para_id overseer_handle relay_chain_slot_duration
      announce_block transaction_pool prometheus_registry telemetry 1500 false in
  call (spawn task_manager true "aura" None (AuraRun params)).

(** The closure [rpc_builder] of [start_node_impl]. *)
Definition rpc_builder (client : Client) (transaction_pool : TransactionPool) (deny_unsafe : DenyUnsafe)
    : RpcModule + RpcError :=
  create_full (mkFullDeps client transaction_pool deny_unsafe).

(** The [if let Some(hwbench) = hwbench] of [start_node_impl]. *)
Definition report_hwbench (hwbench : option HwBench) (validator : bool) (telemetry : option Telemetry)
    (task_manager : TaskManager) : service unit :=
  match hwbench with
  | None => mret tt
  | Some hwbench =>
    _ ← call (print_hwbench hwbench);
    _ ← (if negb (hardware_sufficient hwbench) && validator then call (warn_hardware hwbench) else mret tt);
    match telemetry with
    | Some telemetry =>
      call (spawn task_manager false "telemetry_hwbench" None
              (HwbenchTelemetry (telemetry_handle telemetry) hwbench))
    | None => mret tt
    end
  end.

(** [start_node_impl]. *)
Definition start_node_impl (parachain_config polkadot_config : Configuration) (collator_options : CollatorOptions)
    (para_id : Z) (hwbench : option HwBench) : service (TaskManager * Client) :=
  let parachain_config := prepare_node_config parachain_config in
  params ← new_partial parachain_config;
  let '(block_import, telemetry, telemetry_worker_handle) := other params in
  let net_config := network_config parachain_config in
  let client := client params in
  let backend := backend params in
  let task_manager := task_manager params in
  relay ← call (build_relay_chain_interface polkadot_config parachain_config telemetry_worker_handle task_manager
                  collator_options hwbench);
  relay ← or_raise (map_err application_error relay);
  let '(relay_chain_interface, collator_key) := relay in
  let validator := is_authority parachain_config in
  let transaction_pool := transaction_pool params in
  network ← try_call (build_network parachain_config net_config client transaction_pool para_id task_manager
                        relay_chain_interface (import_queue params) true);
  let '(network, system_rpc_tx, tx_handler_controller, starter, sync_service) := network in
  _ ← (if offchain_worker_enabled parachain_config then
         call (spawn task_manager false "offchain-workers-runner" (Some "offchain-work")
                 (OffchainWorkersRun client (keystore_container params) backend transaction_pool network
                    (is_authority parachain_config) false))
       else mret tt);
  _ ← try_call (spawn_tasks (rpc_builder client transaction_pool) client transaction_pool task_manager
                  parachain_config (keystore_container params) backend network sync_service system_rpc_tx
                  tx_handler_controller telemetry);
  _ ← report_hwbench hwbench validator telemetry task_manager;
  let relay_chain_slot_duration := 6000 in
  handle ← call (overseer_handle relay_chain_interface);
  handle ← or_raise (map_err application_error handle);
  _ ← try_call (start_relay_chain_tasks client sync_service para_id relay_chain_interface task_manager
                  (if validator then Collator else FullNode) (import_queue params) relay_chain_slot_duration
                  handle sync_service);
  _ ← (if validator then
         key ← expect collator_key;
         start_consensus client backend block_import (prometheus_registry parachain_config)
           (option_map telemetry_handle telemetry) task_manager relay_chain_interface transaction_pool sync_service
           (keystore_container params) relay_chain_slot_duration para_id key handle sync_service
       else mret tt);
  _ ← call (start_network starter);
  mret (task_manager, client).

(** [start_parachain_node]. *)
Definition start_parachain_node (parachain_config polkadot_config : Configuration)
    (collator_options : CollatorOptions) (para_id : Z) (hwbench : option HwBench) : service (TaskManager * Client) :=
  start_node_impl parachain_config polkadot_config collator_options para_id hwbench.

(** * Properties *)

(** The possible answers of the library: nothing is assumed of them. *)
Context (answers : ∀ X, service_call X → X → Prop).

(** The calls that make the node visible or productive. *)
Definition starts_network (p : performed service_call) : bool :=
  match p with Performed (start_network _) _ => true | _ => false end.
Definition spawns (task : string) (p : performed service_call) : bool :=
  match p with Performed (spawn _ _ name _ _) _ => String.eqb name task | _ => false end.
(** The relay-chain interface that came without a collator key. *)
Definition keyless (p : performed service_call) : bool :=
  match p with Performed e x =>
    (match e in service_call X return X → bool with
     | build_relay_chain_interface _ _ _ _ _ _ => λ x, match x with inl (_, None) => true | _ => false end
     | _ => λ _, false
     end) x
  end.
(** A call that answered with an error. *)
Definition failed (p : performed service_call) : Prop :=
  match p with Performed e x =>
    (match e in service_call X return X → Prop with
     | TelemetryWorker_new _ => λ x, ∃ e, x = inr e
     | new_full_parts_record_import _ _ _ _ => λ x, ∃ e, x = inr e
     | slot_duration _ => λ x, ∃ e, x = inr e
     | build_relay_chain_interface _ _ _ _ _ _ => λ x, ∃ e, x = inr e
     | build_network _ _ _ _ _ _ _ _ _ => λ x, ∃ e, x = inr e
     | spawn_tasks _ _ _ _ _ _ _ _ _ _ _ _ => λ x, ∃ e, x = inr e
     | overseer_handle _ => λ x, ∃ e, x = inr e
     | start_relay_chain_tasks _ _ _ _ _ _ _ _ _ _ => λ x, ∃ e, x = inr e
     | _ => λ _, False
     end) x
  end.

(** No call of [tr] has failed or started the network; [none], [aura] and [offchain] tell
    whether the collator key is missing and whether the block author and the offchain
    workers were spawned. *)
Record clean (none aura offchain : bool) (tr : list (performed service_call)) : Prop := {
  clean_key : existsb keyless tr = none;
  clean_failed : Forall (λ p, ¬ failed p) tr;
  clean_network : existsb starts_network tr = false;
  clean_aura : existsb (spawns "aura") tr = aura;
  clean_offchain : existsb (spawns "offchain-workers-runner") tr = offchain;
}.

(** The last call of [tr] is the only one that failed, and the network was not started. *)
Definition aborted (tr : list (performed service_call)) : Prop :=
  ∃ tr' p, tr = tr' ++ [p] ∧ failed p ∧ Forall (λ p, ¬ failed p) tr' ∧ existsb starts_network tr = false.

Definition proceeds {A} (none aura offchain : bool) (tr : list (performed service_call))
    (o : ending ServiceError A) : Prop :=
  match o with
  | Finished _ => clean none aura offchain tr
  | Failed _ => aborted tr
  | Panicked => False
  end.

Lemma clean_nil : clean false false false [].
Proof. by split. Qed.

Lemma clean_snoc none aura offchain none' aura' offchain' tr p :
  clean none aura offchain tr → ¬ failed p → starts_network p = false → none' = none || keyless p →
  aura' = aura || spawns "aura" p → offchain' = offchain || spawns "offchain-workers-runner" p →
  clean none' aura' offchain' (tr ++ [p]).
Proof.
  intros [] Hp Hn -> -> ->. split; rewrite ?existsb_app; cbn; rewrite ?orb_false_r; try congruence; [|by rewrite clean_network0].
  by apply Forall_app_2; [|apply Forall_singleton].
Qed.

(** A call that leaves the flags as they are. *)
Lemma clean_other none aura offchain tr p :
  clean none aura offchain tr → ¬ failed p → starts_network p = false → keyless p = false →
  spawns "aura" p = false → spawns "offchain-workers-runner" p = false → clean none aura offchain (tr ++ [p]).
Proof.
  intros Hc Hf Hn Hk Ha Ho. apply (clean_snoc none aura offchain); rewrite ?Hk, ?Ha, ?Ho, ?orb_false_r; done.
Qed.

Lemma aborted_snoc none aura offchain tr p :
  clean none aura offchain tr → failed p → starts_network p = false → aborted (tr ++ [p]).
Proof.
  intros [] Hp Hn. exists tr, p. split_and!; try done. rewrite existsb_app, clean_network0. cbn. by rewrite Hn.
Qed.

Ltac clean_step :=
  first [ done
        | apply clean_other; [|naive_solver|done..]
        | eapply aborted_snoc; [|naive_solver|done] ].

Lemma new_partial_proceeds config tr :
  clean false false false tr → always answers (new_partial config) tr (proceeds false false false).
Proof.
  intros Hc. unfold new_partial. apply always_bind.
  assert (always answers (new_telemetry_worker config) tr (proceeds false false false)) as Ht.
  { unfold new_telemetry_worker. destruct (telemetry_endpoints config) as [ep|]; [|done].
    destruct (endpoints_is_empty ep); [done|]. always_step. intros [w|e] _; cbn; repeat clean_step. }
  eapply always_mono; [exact Ht|]. clear tr Hc Ht. intros tr [t|e|]; [|done|done]. intros Hc. cbn.
  intros [[[[cl b] k] tm]|e] _; [|cbn; repeat clean_step]. cbn.
  destruct t as [[w t]|]; cbn.
  - intros u _ p _ [d|e] _; cbn; [|repeat clean_step]. intros q _. repeat clean_step.
  - intros p _ [d|e] _; cbn; [|repeat clean_step]. intros q _. repeat clean_step.
Qed.

Lemma report_hwbench_proceeds hwbench validator telemetry tm none aura offchain tr :
  clean none aura offchain tr →
  always answers (report_hwbench hwbench validator telemetry tm) tr (proceeds none aura offchain).
Proof.
  intros Hc. destruct hwbench as [h|]; [|done]. cbn. intros u _.
  destruct (negb (hardware_sufficient h) && validator), telemetry as [t|]; cbn; intros; repeat clean_step.
Qed.

(** A call that may fail: what comes after it starts from a clean trace. *)
Lemma proceeds_bind {A B} (m : service A) (k : A → service B) none aura offchain tr Q :
  always answers m tr (proceeds none aura offchain) →
  (∀ a tr', clean none aura offchain tr' → always answers (k a) tr' Q) →
  (∀ tr' e, aborted tr' → Q tr' (Failed e)) →
  always answers (m ≫= k) tr Q.
Proof.
  intros Hm Hk Hf. apply always_bind. eapply always_mono; [exact Hm|].
  intros tr' [a|e|] Ho; cbn in *; [by apply Hk | by apply Hf | done].
Qed.

(** The end of a successful start: everything went well, an authority has its key, and the
    network comes last. *)
Definition started (aura offchain : bool) (tr : list (performed service_call)) : Prop :=
  ∃ none tr' p, tr = tr' ++ [p] ∧ starts_network p = true ∧ clean none aura offchain tr' ∧
    (aura = true → none = false).

(** A panic: no call failed and the network was not started, but there was no key. *)
Definition start_spec {A} (authority offchain : bool) (tr : list (performed service_call))
    (o : ending ServiceError A) : Prop :=
  match o with
  | Finished _ => started authority offchain tr
  | Failed _ => aborted tr
  | Panicked => authority = true ∧ clean true false offchain tr
  end.

Lemma start_node_impl_spec parachain_config polkadot_config collator_options para_id hwbench :
  let config := prepare_node_config parachain_config in
  always answers (start_node_impl parachain_config polkadot_config collator_options para_id hwbench) []
    (start_spec (is_authority config) (offchain_worker_enabled config)).
Proof.
  intros config. unfold start_node_impl. fold config. cbv zeta.
  eapply proceeds_bind; [apply new_partial_proceeds, clean_nil | | done].
  intros params tr Hc. destruct (other params) as [[bi tel] wh]. cbn.
  intros [[rci key]|e] _; cbn; [|repeat clean_step].
  set (none := match key with None => true | Some _ => false end).
  match goal with |- context [tr ++ [?p]] => assert (clean none false false (tr ++ [p])) as Hc1
    by (eapply (clean_snoc false false false); [exact Hc | naive_solver | done..]) end.
  revert Hc1. generalize (tr ++ [Performed (build_relay_chain_interface polkadot_config config wh (task_manager params)
    collator_options hwbench) (inl (rci, key))]). clear tr Hc. intros tr Hc.
  intros [[[[[net tx] ctl] st] sync]|e] _; cbn; [|repeat clean_step].
  set (off := offchain_worker_enabled config).
  eapply (proceeds_bind _ _ none false off); [| |done].
  { subst off. destruct (offchain_worker_enabled config); cbn; intros; repeat clean_step.
    eapply (clean_snoc none false false); [repeat clean_step | naive_solver | done | by rewrite orb_false_r | done..]. }
  clear tr Hc. intros _ tr Hc. cbn. intros [u|e] _; cbn; [|repeat clean_step].
  eapply (proceeds_bind _ _ none false off); [apply report_hwbench_proceeds; repeat clean_step | | done].
  clear tr Hc. intros _ tr Hc. cbn.
  intros [h|e] _; cbn; [|repeat clean_step]. intros [u'|e] _; cbn; [|repeat clean_step].
  destruct (is_authority config) eqn:Hauth.
  - destruct key as [k|]; subst none; cbn; [|split; [done | repeat clean_step]]. intros v _ w _.
    eexists false, _, _. split_and!; [done | done| |done].
    eapply (clean_snoc false false off); [repeat clean_step | naive_solver | done | done | done |]. by rewrite orb_false_r.
  - cbn. intros w _. eexists none, _, _. split_and!; [done | done | repeat clean_step | done].
Qed.

(** C37: how a node starts, whatever the library answers.  A run of [start_parachain_node]
    that succeeds: no call failed, the block author was spawned exactly when the node is an
    authority, the offchain workers exactly when they are enabled, and the network was
    started once, as the very last step.  A run that returns an error: it stopped at the
    first call that failed, before the network was started.  A run that panics: the node is
    an authority and the relay-chain interface came without a collator key; nothing
    failed and neither the block author nor the network was started. *)
Theorem start_parachain_node_order parachain_config polkadot_config collator_options para_id hwbench tr o :
  runs answers (start_parachain_node parachain_config polkadot_config collator_options para_id hwbench) tr o →
  let config := prepare_node_config parachain_config in
  start_spec (is_authority config) (offchain_worker_enabled config) tr o.
Proof. intros Hrun config. exact (runs_always _ _ _ _ _ Hrun (start_node_impl_spec _ _ _ _ _)). Qed.
End service.

(** * A concrete library *)

(** A node whose configuration is its role and whether its offchain workers are
    enabled; the other values carry no information. *)
#[local] Instance SampleSubstrate : Substrate := {|
  Configuration := bool * bool;
  ServiceError := unit;
  TelemetryEndpoints := unit;
  endpoints_is_empty := λ _, true;
  telemetry_endpoints := λ _, None;
  default_heap_pages := λ _, None;
  WasmMethod := unit;
  wasm_method := λ _, tt;
  max_runtime_instances := λ _, 0;
  runtime_cache_size := λ _, 0;
  PoolOptions := unit;
  transaction_pool_options := λ _, tt;
  is_authority := λ c, c.1;
  Registry := unit;
  prometheus_registry := λ _, None;
  NetworkConfiguration := unit;
  network_config := λ _, tt;
  offchain_worker_enabled := λ c, c.2;
  prepare_node_config := λ c, c;
  DynamicStrategy := unit;
  DEFAULT_HEAP_ALLOC_STRATEGY := tt;
  Client := unit;
  Backend := unit;
  KeystoreContainer := unit;
  TaskManager := unit;
  TransactionPool := unit;
  BlockImport := unit;
  ImportQueue := unit;
  TelemetryWorker := unit;
  TelemetryWorkerHandle := unit;
  Telemetry := unit;
  TelemetryHandle := unit;
  RelayChainInterface := unit;
  RelayChainError := unit;
  CollatorPair := unit;
  Network := unit;
  SystemRpcTx := unit;
  TxHandlerController := unit;
  NetworkStarter := unit;
  SyncService := unit;
  OverseerHandle := unit;
  CollatorOptions := unit;
  HwBench := unit;
  SlotDuration := unit;
  BlockHash := unit;
  BlockData := unit;
  ValidationCode := unit;
  CodeHash := unit;
  RpcModule := unit;
  RpcError := unit;
  DenyUnsafe := unit;
  worker_handle := λ _, tt;
  new_telemetry := λ _ _, tt;
  telemetry_handle := λ _, tt;
  block_import_new := λ _ _, tt;
  code_at := λ _ _, None;
  code_hash := λ _, tt;
  application_error := λ _, tt;
  hardware_sufficient := λ _, true;
  rpc_new := tt;
  system_rpc := λ _ _ _, tt;
  transaction_payment_rpc := λ _, tt;
  rpc_merge := λ _ _, inl tt;
|}.

(** All calls succeed. *)
Definition sample_answer X (e : service_call X) : X :=
  match e in service_call X return X with
  | TelemetryWorker_new _ => inl tt
  | new_full_parts_record_import _ _ _ _ => inl (tt, tt, tt, tt)
  | BasicPool_new_full _ _ _ _ _ => tt
  | slot_duration _ => inl tt
  | fully_verifying_import_queue _ _ _ _ _ _ => tt
  | spawn _ _ _ _ _ => tt
  | build_relay_chain_interface _ _ _ _ _ _ => inl (tt, Some tt)
  | build_network _ _ _ _ _ _ _ _ _ => inl (tt, tt, tt, tt, tt)
  | spawn_tasks _ _ _ _ _ _ _ _ _ _ _ _ => inl tt
  | print_hwbench _ => tt
  | warn_hardware _ => tt
  | overseer_handle _ => inl tt
  | start_relay_chain_tasks _ _ _ _ _ _ _ _ _ _ => inl tt
  | start_network _ => tt
  end.

Lemma start_parachain_node_order_witness :
  let run := interpret sample_answer (start_parachain_node (true, false) (false, false) tt 2000 None) in
  start_spec true false run.1 run.2 ∧ run.2 = Finished (tt, tt).
Proof.
  intros run. split; [|reflexivity].
  apply (start_parachain_node_order (S := SampleSubstrate) (λ _ _ _, True) (true, false) (false, false) tt 2000 None).
  by apply interpret_runs.
Defined.
