(* ===== verification/NodeCommand.v ===== *)
(** The command line of the node: [node/src/cli.rs] and [node/src/command.rs].  What
    [run] does is a program over the calls of the service and of [sc_cli]; parsing, the
    commands of [sc_cli] and the relay chain's command line are library code. *)

From S2P Require Import Prelude RoscaTypes RuntimeGenesis Effects NodeService.

(** * The library *)
Class SubstrateCli {S : Substrate} {K : Keys} : Type := {
  CliError : Type;
  (** [From<sc_service::Error>] and [From<String>]. *)
  service_error : ServiceError → CliError;
  input_error : string → CliError;
  display_error : CliError → string;
  (** [chain_spec::ChainSpec] loaded from a file, with what [get_extension] finds. *)
  JsonSpec : Type;
  json_extension : JsonSpec → option Extensions;
  (** The runner's configuration. *)
  Path : Type;
  join : Path → string → Path;
  config_base_path : Configuration → Path;
  (** A [Box<dyn ChainSpec>] is built in or comes from a file. *)
  config_chain_spec : Configuration → ChainSpec + JsonSpec;
  Database : Type;
  database : Configuration → Database;
  database_path : Database → option Path;
  (** The commands, and [--chain] of [export-genesis-wasm]. *)
  Cmd : Type;
  shared_chain : Cmd → option string;
  (** The relay chain's [RunCmd], and what it answers. *)
  PolkadotRunCmd : Type;
  base_chain_id : PolkadotRunCmd → bool → string + CliError;
  base_base_path : PolkadotRunCmd → option Path + CliError;
  executable_name : string;
  collator_options : Cmd → CollatorOptions;
  normalize : Cmd → Cmd;
}.

Section command.
Context {S : Substrate} {K : Keys} {C : SubstrateCli}.

(** [Extensions::try_get]. *)
Definition try_get (s : ChainSpec + JsonSpec) : option Extensions :=
  match s with
  | inl s => Some (extensions s)
  | inr j => json_extension j
  end.

(** [Subcommand]. *)
Inductive BenchmarkCmd : Type :=
  | Pallet (cmd : Cmd) | Block (cmd : Cmd) | Storage (cmd : Cmd) | Machine (cmd : Cmd) | OtherBenchmark (cmd : Cmd).
Inductive Subcommand : Type :=
  | BuildSpec (cmd : Cmd)
  | CheckBlock (cmd : Cmd)
  | ExportBlocks (cmd : Cmd)
  | ExportState (cmd : Cmd)
  | ImportBlocks (cmd : Cmd)
  | Revert (cmd : Cmd)
  | PurgeChain (cmd : Cmd)
  | ExportGenesisHead (cmd : Cmd)
  | ExportGenesisWasm (cmd : Cmd)
  | Benchmark (cmd : BenchmarkCmd)
  | TryRuntime.

(** [Cli]. *)
Record Cli : Type := mkCli {
  subcommand : option Subcommand;
  cli_run : Cmd;
  no_hardware_benchmarks : bool;
  relay_chain_args : list string;
}.

(** [RelayChainCli]. *)
Record RelayChainCli : Type := mkRelayChainCli {
  base : PolkadotRunCmd;
  relay_chain_id : option string;
  relay_base_path : option Path;
}.

(** * What the commands are given *)
Inductive command_run : Type :=
  | run_build_spec (cmd : Cmd) (spec : ChainSpec + JsonSpec) (n : NetworkConfiguration)
  | run_check_block (cmd : Cmd) (c : Client) (q : ImportQueue)
  | run_export_blocks (cmd : Cmd) (c : Client) (d : Database)
  | run_export_state (cmd : Cmd) (c : Client) (spec : ChainSpec + JsonSpec)
  | run_import_blocks (cmd : Cmd) (c : Client) (q : ImportQueue)
  | run_revert (cmd : Cmd) (c : Client) (b : Backend)
  | run_purge_chain (cmd : Cmd) (para relay : Configuration)
  | run_export_genesis_head (cmd : Cmd) (c : Client)
  | run_export_genesis_wasm (cmd : Cmd) (spec : ChainSpec + JsonSpec)
  | run_benchmark_pallet (cmd : Cmd) (config : Configuration)
  | run_benchmark_block (cmd : Cmd) (c : Client)
  | run_benchmark_storage (cmd : Cmd) (config : Configuration) (c : Client) (b : Backend)
  | run_benchmark_machine (cmd : Cmd) (config : Configuration).

(** The calls of library functions with an effect. *)
Inductive command_call : Type → Type :=
  | OfService {X : Type} (e : service_call X) : command_call X
  | create_runner (cmd : Cmd) : command_call (Configuration + CliError)
  | run_command (r : command_run) : command_call (unit + CliError)
  | from_json_file (path : string) : command_call (JsonSpec + string)
  | create_configuration (cli : RelayChainCli) : command_call (Configuration + CliError)
  | parse_from (args : list string) : command_call PolkadotRunCmd
  | create_dir_all (p : Path) : command_call unit
  | gather_hwbench (p : Path) : command_call HwBench
  | info_parachain_account (para_id : Z) : command_call unit
  | info_collating (yes : bool) : command_call unit
  | run_until_exit (t : TaskManager) : command_call (unit + CliError).

Abbreviation command := (prog command_call CliError).

(** A program of the service: [?] converts its errors. *)
Fixpoint lift {A} (m : prog service_call ServiceError A) : command A :=
  match m with
  | Return a => Return a
  | Raise e => Raise (service_error e)
  | Panics => Panics
  | Perform e k => Perform (OfService e) (λ x, lift (k x))
  end.

(** * [RelayChainCli] *)

(** [RelayChainCli::new]. *)
Definition RelayChainCli_new (para_config : Configuration) (args : list string) : command RelayChainCli :=
  let extension := try_get (config_chain_spec para_config) in
  let chain_id := option_map relay_chain extension in
  let base_path := join (config_base_path para_config) "polkadot" in
  base ← call (parse_from args);
  mret (mkRelayChainCli base chain_id (Some base_path)).

(** [DefaultConfigurationValues for RelayChainCli]. *)
Definition p2p_listen_port : Z := 30334.
Definition rpc_listen_port : Z := 9945.
Definition prometheus_listen_port : Z := 9616.

(** [base_path] and [chain_id] of [CliConfiguration for RelayChainCli]. *)
Definition base_path (self : RelayChainCli) : option Path + CliError :=
  match base_base_path (base self) with
  | inl (Some p) => inl (Some p)
  | inl None => inl (relay_base_path self)
  | inr e => inr e
  end.
Definition chain_id (self : RelayChainCli) (is_dev : bool) : string + CliError :=
  match base_chain_id (base self) is_dev with
  | inl id => inl (if String.eqb id "" then default ""%string (relay_chain_id self) else id)
  | inr e => inr e
  end.

(** * [run] *)

(** [load_spec]; the built-in configurations panic where a key cannot be derived. *)
Definition load_spec (id : string) : command (ChainSpec + JsonSpec) :=
  let built_in (c : outcome unit ChainSpec) :=
    match c with Ok s => mret (inl s) | _ => Panics end in
  if String.eqb id "dev" then built_in development_config
  else if String.eqb id "template-paseo" then built_in local_testnet_config
  else if String.eqb id "" || String.eqb id "local" then built_in local_testnet_config
  else
    json ← call (from_json_file id);
    json ← or_raise (map_err input_error json);
    mret (inr json).

(** [construct_async_run!]. *)
Definition construct_async_run (cmd : Cmd) (code : Service → Configuration → command_run) : command unit :=
  config ← try_call (create_runner cmd);
  components ← lift (new_partial config);
  try_call (run_command (code components config)).

(** The configuration of the relay chain, from the arguments after [--]. *)
Definition relay_configuration (cli : Cli) (config : Configuration) : command Configuration :=
  polkadot_cli ← RelayChainCli_new config (executable_name :: relay_chain_args cli);
  polkadot_config ← call (create_configuration polkadot_cli);
  or_raise (map_err (λ err, input_error ("Relay chain argument error: " +:+ display_error err)) polkadot_config).

(** [hwbench] of the plain command.  The argument of [then_some] is evaluated before it is
    called, so the benchmark runs in either case. *)
Definition hwbench (cli : Cli) (config : Configuration) : command (option HwBench) :=
  gathered ← match database_path (database config) with
             | Some path =>
               _ ← call (create_dir_all path);
               bench ← call (gather_hwbench path);
               mret (Some bench)
             | None => mret None
             end;
  mret (if no_hardware_benchmarks cli then None else gathered).

(** The closure given to [run_node_until_exit], and the plain command: the arm [None] of
    [run]. *)
Definition node_of_config (cli : Cli) (options : CollatorOptions) (config : Configuration) : command TaskManager :=
  hwbench ← hwbench cli config;
  para_id ← or_raise match option_map para_id (try_get (config_chain_spec config)) with
                     | Some id => inl id
                     | None => inr (input_error "Could not find parachain ID in chain-spec.")
                     end;
  polkadot_config ← relay_configuration cli config;
  _ ← call (info_parachain_account para_id);
  _ ← call (info_collating (is_authority config));
  node ← lift (start_parachain_node config polkadot_config options para_id hwbench);
  mret (fst node).
Definition run_node (cli : Cli) : command unit :=
  config ← try_call (create_runner (normalize (cli_run cli)));
  let options := collator_options (cli_run cli) in
  task_manager ← node_of_config cli options config;
  try_call (run_until_exit task_manager).

(** [cfg!(feature = "runtime-benchmarks")]. *)
Context (runtime_benchmarks : bool).

(** The arm [Subcommand::Benchmark] of [run]. *)
Definition run_benchmark (cmd : BenchmarkCmd) (config : Configuration) : command unit :=
  match cmd with
  | Pallet cmd =>
    if runtime_benchmarks then try_call (run_command (run_benchmark_pallet cmd config))
    else Raise (input_error "Benchmarking wasn't enabled when building the node. You can enable it with `--features runtime-benchmarks`.")
  | Block cmd =>
    partials ← lift (new_partial config);
    try_call (run_command (run_benchmark_block cmd (client partials)))
  | Storage cmd =>
    if runtime_benchmarks then
      partials ← lift (new_partial config);
      try_call (run_command (run_benchmark_storage cmd config (client partials) (backend partials)))
    else Raise (input_error "Compile with --features=runtime-benchmarks to enable storage benchmarks.")
  | Machine cmd => try_call (run_command (run_benchmark_machine cmd config))
  | OtherBenchmark _ => Raise (input_error "Benchmarking sub-command unsupported")
  end.

(** The benchmark command as the parameter of a runner. *)
Definition benchmark_cmd (cmd : BenchmarkCmd) : Cmd :=
  match cmd with Pallet c | Block c | Storage c | Machine c | OtherBenchmark c => c end.

(** [run], after [Cli::from_args()]. *)
Definition run (cli : Cli) : command unit :=
  match subcommand cli with
  | Some (BuildSpec cmd) =>
    config ← try_call (create_runner cmd);
    try_call (run_command (run_build_spec cmd (config_chain_spec config) (network_config config)))
  | Some (CheckBlock cmd) =>
    construct_async_run cmd (λ components _, run_check_block cmd (client components) (import_queue components))
  | Some (ExportBlocks cmd) =>
    construct_async_run cmd (λ components config, run_export_blocks cmd (client components) (database config))
  | Some (ExportState cmd) =>
    construct_async_run cmd (λ components config, run_export_state cmd (client components) (config_chain_spec config))
  | Some (ImportBlocks cmd) =>
    construct_async_run cmd (λ components _, run_import_blocks cmd (client components) (import_queue components))
  | Some (Revert cmd) =>
    construct_async_run cmd (λ components _, run_revert cmd (client components) (backend components))
  | Some (PurgeChain cmd) =>
    config ← try_call (create_runner cmd);
    polkadot_config ← relay_configuration cli config;
    try_call (run_command (run_purge_chain cmd config polkadot_config))
  | Some (ExportGenesisHead cmd) =>
    config ← try_call (create_runner cmd);
    partials ← lift (new_partial config);
    try_call (run_command (run_export_genesis_head cmd (client partials)))
  | Some (ExportGenesisWasm cmd) =>
    _ ← try_call (create_runner cmd);
    spec ← load_spec (default ""%string (shared_chain cmd));
    try_call (run_command (run_export_genesis_wasm cmd spec))
  | Some (Benchmark cmd) =>
    config ← try_call (create_runner (benchmark_cmd cmd));
    run_benchmark cmd config
  | Some TryRuntime => Raise (input_error "The `try-runtime` subcommand has been migrated to a standalone CLI (https://github.com/paritytech/try-runtime-cli). It is no longer being maintained here and will be removed entirely some time after January 2024. Please remove this subcommand from your runtime and use the standalone CLI.")
  | None => run_node cli
  end.

(** * Properties *)

(** The calls that make a node part of the network: starting it and authoring blocks. *)
Definition joins_network X (e : command_call X) : bool :=
  match e with
  | OfService (start_network _) => true
  | OfService (spawn _ _ name _ _) => String.eqb name "aura"
  | _ => false
  end.

Lemma avoids_lift {A} (bad : ∀ X, command_call X → bool) (m : prog service_call ServiceError A) :
  avoids (λ X e, bad X (OfService e)) m → avoids bad (lift m).
Proof. induction m as [a|e| |X e k IH]; cbn; [done..|]. intros [He Hk]. split; [done|]. auto. Qed.

Lemma new_partial_offline config : avoids joins_network (lift (new_partial config)).
Proof.
  apply avoids_lift. unfold new_partial, new_telemetry_worker, build_import_queue.
  repeat avoids_step.
Qed.

Lemma relay_configuration_offline cli config : avoids joins_network (relay_configuration cli config).
Proof. unfold relay_configuration, RelayChainCli_new. repeat avoids_step. Qed.

Lemma load_spec_offline id : avoids joins_network (load_spec id).
Proof. unfold load_spec. repeat avoids_step. Qed.

Lemma async_run_offline cmd code : avoids joins_network (construct_async_run cmd code).
Proof. unfold construct_async_run. repeat first [apply new_partial_offline | avoids_step]. Qed.

Lemma subcommand_offline cli cmd : subcommand cli = Some cmd → avoids joins_network (run cli).
Proof.
  unfold run, run_benchmark. intros ->. destruct cmd;
    repeat first [apply new_partial_offline | apply relay_configuration_offline | apply load_spec_offline
                 | apply async_run_offline | avoids_step].
Qed.

(** A call for a parachain other than [id]. *)
Definition other_para (id : Z) X (e : command_call X) : bool :=
  match e with
  | OfService (build_network _ _ _ _ para _ _ _ _) => negb (para =? id)
  | OfService (start_relay_chain_tasks _ _ para _ _ _ _ _ _ _) => negb (para =? id)
  | OfService (spawn _ _ _ _ (AuraRun params)) => negb (cp_para_id params =? id)
  | _ => false
  end.

Lemma start_node_para parachain_config polkadot_config options id hw :
  avoids (other_para id) (lift (start_parachain_node parachain_config polkadot_config options id hw)).
Proof.
  apply avoids_lift. unfold start_parachain_node, start_node_impl, new_partial, new_telemetry_worker,
    build_import_queue, report_hwbench, expect, start_consensus. repeat avoids_step.
Qed.

Lemma run_node_joins R cli tr o :
  runs R (run_node cli) tr o →
  existsb (is_bad joins_network) tr = false ∨
  ∃ config ext tr', tr = Performed (create_runner (normalize (cli_run cli))) (inl config) :: tr' ∧
    try_get (config_chain_spec config) = Some ext ∧ existsb (is_bad (other_para (para_id ext))) tr' = false.
Proof.
  intros [(er & -> & _)|(config & tr' & -> & Hr)]%runs_try_bind; [by left|].
  destruct (try_get (config_chain_spec config)) as [ext|] eqn:Hext.
  - right. exists config, ext, tr'. split_and!; [done | done|]. refine (avoids_runs R _ _ _ _ _ Hr).
    apply avoids_bind; [|intros tm; avoids_step]. unfold node_of_config. rewrite Hext.
    apply avoids_bind; [unfold hwbench; repeat avoids_step|]. intros hw. cbn [option_map or_raise mbind prog_mbind prog_bind].
    apply avoids_bind; [unfold relay_configuration, RelayChainCli_new; repeat avoids_step|].
    intros relay. repeat first [apply start_node_para | avoids_step].
  - left. cbn. refine (avoids_runs R _ _ _ _ _ Hr). unfold node_of_config. rewrite Hext.
    apply avoids_bind; [|intros tm; avoids_step].
    apply avoids_bind; [unfold hwbench; repeat avoids_step | done].
Qed.

(** The hardware benchmark runs whenever the database has a path, also when it was
    disabled: the flag only discards its result. *)
Lemma hwbench_gathered R cli config path tr o :
  database_path (database config) = Some path → runs R (hwbench cli config) tr o →
  ∃ bench, tr = [Performed (create_dir_all path) tt; Performed (gather_hwbench path) bench] ∧
    o = Finished (if no_hardware_benchmarks cli then None else Some bench).
Proof.
  unfold hwbench. intros -> ([] & tr1 & -> & _ & (bench & tr2 & -> & _ & Hr)%runs_perform_inv)%runs_perform_inv.
  exists bench. by inversion Hr.
Qed.

(** The chain of the relay node: the one named on its command line, else the one of the
    parachain's specification; its base path likewise. *)
Lemma relay_chain_defaults R config args tr o :
  runs R (RelayChainCli_new config args) tr o →
  ∃ cmd, o = Finished (mkRelayChainCli cmd (option_map relay_chain (try_get (config_chain_spec config)))
                         (Some (join (config_base_path config) "polkadot"))) ∧
    ∀ self is_dev id, o = Finished self → base_chain_id cmd is_dev = inl id →
      chain_id self is_dev = inl (if String.eqb id "" then
        match try_get (config_chain_spec config) with Some ext => relay_chain ext | None => ""%string end else id).
Proof.
  intros (cmd & tr' & -> & _ & Hr)%runs_perform_inv. exists cmd. assert (o = Finished (mkRelayChainCli cmd
    (option_map relay_chain (try_get (config_chain_spec config))) (Some (join (config_base_path config) "polkadot"))))
    as -> by by inversion Hr.
  split; [done|]. intros self is_dev id [= <-] Hid. unfold chain_id. cbn. rewrite Hid.
  by destruct (try_get (config_chain_spec config)).
Qed.

(** C31: who joins the network.  In a run of the node's [main], the network is started and
    blocks are authored only by the plain command, without a subcommand, and only when
    the chain specification of its configuration names a parachain; the network, the
    relay-chain tasks and the block author are then all given the id of this parachain.
    This holds whatever the library calls answer. *)
Theorem run_joins_network R cli tr o :
  runs R (run cli) tr o →
  existsb (is_bad joins_network) tr = false ∨
  subcommand cli = None ∧
  ∃ config ext tr', tr = Performed (create_runner (normalize (cli_run cli))) (inl config) :: tr' ∧
    try_get (config_chain_spec config) = Some ext ∧ existsb (is_bad (other_para (para_id ext))) tr' = false.
Proof.
  intros Hr. destruct (subcommand cli) as [cmd|] eqn:Hcmd.
  - left. refine (avoids_runs R _ _ _ _ _ Hr). by eapply subcommand_offline.
  - unfold run in Hr. rewrite Hcmd in Hr. apply run_node_joins in Hr as [?|Hr]; [by left | right; eauto].
Qed.
End command.

(** * A concrete command line *)

#[local] Existing Instance SampleSubstrate.
#[local] Instance SampleCli : SubstrateCli (S := SampleSubstrate) (K := SampleKeys) := {|
  CliError := string;
  service_error _ := "service"%string;
  input_error s := s;
  display_error s := s;
  JsonSpec := option Extensions;
  json_extension e := e;
  Path := string;
  join p s := (p +:+ "/" +:+ s)%string;
  config_base_path _ := "/data"%string;
  config_chain_spec _ := inr (Some (mkExtensions "rococo-local" 1000));
  Database := unit;
  database _ := tt;
  database_path _ := None;
  Cmd := unit;
  shared_chain _ := None;
  PolkadotRunCmd := unit;
  base_chain_id _ _ := inl ""%string;
  base_base_path _ := inl None;
  executable_name := "node"%string;
  collator_options _ := tt;
  normalize c := c;
|}.

Definition sample_command_answer X (e : command_call (C := SampleCli) X) : X :=
  match e in command_call X return X with
  | OfService e => sample_answer _ e
  | create_runner _ => inl (true, false)
  | run_command _ => inl tt
  | from_json_file _ => inl None
  | create_configuration _ => inl (false, false)
  | parse_from _ => tt
  | create_dir_all _ => tt
  | gather_hwbench _ => tt
  | info_parachain_account _ => tt
  | info_collating _ => tt
  | run_until_exit _ => inl tt
  end.

Lemma run_joins_network_witness :
  let cli := mkCli (C := SampleCli) None tt true [] in
  let r := interpret sample_command_answer (run (C := SampleCli) false cli) in
  (existsb (is_bad joins_network) r.1 = false ∨
   subcommand cli = None ∧
   ∃ config ext tr', r.1 = Performed (create_runner (normalize (cli_run cli))) (inl config) :: tr' ∧
     try_get (config_chain_spec config) = Some ext ∧ existsb (is_bad (other_para (para_id ext))) tr' = false) ∧
  existsb (is_bad joins_network) r.1 = true ∧ r.2 = Finished tt.
Proof.
  intros cli r. split; [|split; by vm_compute].
  apply (run_joins_network (C := SampleCli) false (λ _ _ _, True) cli r.1 r.2). by apply interpret_runs.
Defined.
