(* ===== verification/NodeCli.v ===== *)
(** The interfaces that the node's command lines implement, [node/src/command.rs]:
    [SubstrateCli] for both command lines and [CliConfiguration] for the relay chain's.
    The latter decorates the relay chain's own command, which is library code. *)

From S2P Require Import Prelude RoscaTypes RuntimeGenesis Effects NodeService NodeCommand.
#[local] Open Scope string_scope.

(** * The library *)

(** What a configuration is made of. *)
Class ConfigurationTypes : Type := {
  SharedParams : Type;
  ImportParams : Type;
  NetworkParams : Type;
  KeystoreParams : Type;
  SocketAddr : Type;
  PrometheusConfig : Type;
  Role : Type;
  TransactionPoolOptions : Type;
  RpcMethods : Type;
  TelemetryEndpoints : Type;
  LoggerHook : Type;
}.

Section cli.
Context {S : Substrate} {K : Keys} {C : SubstrateCli} {Y : ConfigurationTypes}.
#[local] Abbreviation Result A := (A + CliError)%type.
#[local] Abbreviation command := (prog command_call CliError).

(** [CliConfiguration] as the source overrides it.  [init] panics with [None]. *)
Record CliConfiguration : Type := mkCliConfiguration {
  shared_params : SharedParams;
  import_params : option ImportParams;
  network_params : option NetworkParams;
  keystore_params : option KeystoreParams;
  cfg_base_path : Result (option Path);
  rpc_addr : Z → Result (option SocketAddr);
  prometheus_config : Z → ChainSpec + JsonSpec → Result (option PrometheusConfig);
  init : string → string → LoggerHook → Configuration → option (Result unit);
  cfg_chain_id : bool → Result string;
  role : bool → Result Role;
  transaction_pool : bool → Result TransactionPoolOptions;
  trie_cache_maximum_size : Result (option Z);
  rpc_methods : Result RpcMethods;
  rpc_max_connections : Result Z;
  rpc_cors : bool → Result (option (list string));
  default_heap_pages : Result (option Z);
  force_authoring : Result bool;
  disable_grandpa : Result bool;
  max_runtime_instances : Result (option Z);
  announce_block : Result bool;
  telemetry_endpoints : ChainSpec + JsonSpec → Result (option TelemetryEndpoints);
  node_name : Result string;
}.

(** The [RunCmd] of the relay chain as a configuration, of which [NodeCommand] names the
    chain and the base path of its shared parameters. *)
Class RelayRunCmd : Type := {
  base_base : PolkadotRunCmd → CliConfiguration;
  base_base_chain_id cmd is_dev : cfg_chain_id (base_base cmd) is_dev = base_chain_id cmd is_dev;
}.
Context {RC : RelayRunCmd}.

(** [CliConfiguration for RelayChainCli]. *)
Definition RelayChainCli_configuration (self : RelayChainCli) : CliConfiguration := {|
  shared_params := shared_params (base_base (base self));
  import_params := import_params (base_base (base self));
  network_params := network_params (base_base (base self));
  keystore_params := keystore_params (base_base (base self));
  cfg_base_path := base_path self;
  rpc_addr default_listen_port := rpc_addr (base_base (base self)) default_listen_port;
  prometheus_config default_listen_port chain_spec :=
    prometheus_config (base_base (base self)) default_listen_port chain_spec;
  init _ _ _ _ := None;
  cfg_chain_id is_dev := chain_id self is_dev;
  role is_dev := role (base_base (base self)) is_dev;
  transaction_pool is_dev := transaction_pool (base_base (base self)) is_dev;
  trie_cache_maximum_size := trie_cache_maximum_size (base_base (base self));
  rpc_methods := rpc_methods (base_base (base self));
  rpc_max_connections := rpc_max_connections (base_base (base self));
  rpc_cors is_dev := rpc_cors (base_base (base self)) is_dev;
  default_heap_pages := default_heap_pages (base_base (base self));
  force_authoring := force_authoring (base_base (base self));
  disable_grandpa := disable_grandpa (base_base (base self));
  max_runtime_instances := max_runtime_instances (base_base (base self));
  announce_block := announce_block (base_base (base self));
  telemetry_endpoints chain_spec := telemetry_endpoints (base_base (base self)) chain_spec;
  node_name := node_name (base_base (base self));
|}.

(** * [SubstrateCli] *)

(** [env!] of the build, the name of the executable, and [load_spec] of the relay chain's
    own command line. *)
Context (SUBSTRATE_CLI_IMPL_VERSION CARGO_PKG_AUTHORS : string).
Context (polkadot_load_spec : string → string → command (ChainSpec + JsonSpec)).

Record CliInfo : Type := mkCliInfo {
  impl_name : string;
  impl_version : string;
  description : string;
  author : string;
  support_url : string;
  copyright_start_year : Z;
  info_load_spec : string → command (ChainSpec + JsonSpec);
}.

Definition newline : string := String (Ascii.ascii_of_nat 10) EmptyString.
Definition Cli_info : CliInfo := {|
  impl_name := "Parachain Collator Template";
  impl_version := SUBSTRATE_CLI_IMPL_VERSION;
  description :=
    "Parachain Collator Template" +:+ newline +:+ newline +:+
    "The command-line arguments provided first will be " +:+
    "passed to the parachain node, while the arguments provided after -- will be passed " +:+
    "to the relay chain node." +:+ newline +:+ newline +:+
    executable_name +:+ " <parachain-args> -- <relay-chain-args>";
  author := CARGO_PKG_AUTHORS;
  support_url := "https://github.com/paritytech/polkadot-sdk/issues/new";
  copyright_start_year := 2020;
  info_load_spec id := load_spec id;
|}.
Definition RelayChainCli_info : CliInfo := {|
  impl_name := "Parachain Collator Template";
  impl_version := SUBSTRATE_CLI_IMPL_VERSION;
  description :=
    "Parachain Collator Template" +:+ newline +:+ newline +:+
    "The command-line arguments provided first will be " +:+
    "passed to the parachain node, while the arguments provided after -- will be passed " +:+
    "to the relay chain node." +:+ newline +:+ newline +:+
    executable_name +:+ " <parachain-args> -- <relay-chain-args>";
  author := CARGO_PKG_AUTHORS;
  support_url := "https://github.com/paritytech/polkadot-sdk/issues/new";
  copyright_start_year := 2020;
  info_load_spec id := polkadot_load_spec executable_name id;
|}.

(** * Properties *)

(** The relay node of a parachain node that was given no options of its own: its chain is
    that of the parachain's specification and its files are in a directory of the
    parachain's; what it is given on the command line takes precedence, and an error of
    the command line is passed on. *)
Lemma relay_configuration_defaults R config args tr o :
  runs R (RelayChainCli_new config args) tr o →
  ∃ self, o = Finished self ∧
    let c := RelayChainCli_configuration self in
    (∀ is_dev, cfg_chain_id c is_dev =
      match cfg_chain_id (base_base (base self)) is_dev with
      | inl "" => inl match try_get (config_chain_spec config) with Some ext => relay_chain ext | None => "" end
      | r => r
      end) ∧
    cfg_base_path c =
      match base_base_path (base self) with
      | inl None => inl (Some (join (config_base_path config) "polkadot"))
      | r => r
      end.
Proof.
  intros (cmd & tr' & -> & _ & Hr)%runs_perform_inv.
  exists (mkRelayChainCli cmd (option_map relay_chain (try_get (config_chain_spec config)))
    (Some (join (config_base_path config) "polkadot"))). split; [by inversion Hr|].
  cbn. split.
  - intros is_dev. rewrite base_base_chain_id. unfold chain_id. cbn.
    destruct (base_chain_id cmd is_dev) as [[|a s]|e]; [|done..]. by destruct (try_get (config_chain_spec config)).
  - unfold base_path. cbn. by destruct (base_base_path cmd) as [[p|]|e].
Qed.

(** A built-in name loads a chain specification without reading a file, whose relay chain
    and parachain are those of the genesis configurations. *)
Lemma built_in_specs (R : ∀ X, command_call X → X → Prop) id tr o :
  id ∈ ["dev"; "template-paseo"; ""; "local"] → runs R (info_load_spec Cli_info id) tr o →
  tr = [] ∧ (o = Panicked ∨ ∃ s, o = Finished (inl s) ∧
    (development_config = Ok s ∨ local_testnet_config = Ok s)).
Proof.
  intros Hid Hr. cbn in Hr. unfold load_spec in Hr. rewrite !elem_of_cons in Hid.
  destruct Hid as [->|[->|[->|[->|[]%not_elem_of_nil]]]]; cbn in Hr; repeat case_match; inversion Hr; subst; eauto 8.
Qed.
End cli.
