(* ===== verification/Fuzzer.v ===== *)
(** The fuzzer of the runtime: [template-fuzzer/src/main.rs].  One iteration decodes a
    sequence of calls, executes them in blocks and checks the state in the end; the
    runtime it drives, the externalities and the clock are library calls. *)

From S2P Require Import Prelude RoscaTypes Weights RuntimeConstants Effects.

(** * The runtime under test *)
Class FuzzedRuntime {W : SpWeights} : Type := {
  RuntimeCall : Type;
  FuzzAccount : Type;
  (** [\[i; 32\].into()]. *)
  account_of_byte : Z → FuzzAccount;
  Header : Type;
  HeaderHash : Type;
  default_hash : HeaderHash;
  header_hash : Header → HeaderHash;
  (** [substrate_runtime_fuzzer]. *)
  INITIAL_TIMESTAMP : Z;
  MAX_TIME_FOR_BLOCK : Z;
}.

Section fuzzer.
Context {W : SpWeights} {F : FuzzedRuntime}.

(** [endowed_accounts]. *)
Definition endowed_accounts : list FuzzAccount := account_of_byte <$> [0; 1; 2; 3; 4].

(** The genesis of the fuzzed chain: every endowed account holds [1 << 60]. *)
Record FuzzGenesis : Type := mkFuzzGenesis {
  fuzz_balances : list (FuzzAccount * Z);
  fuzz_session_keys : list (FuzzAccount * FuzzAccount * Z);
  fuzz_invulnerables : list FuzzAccount;
  fuzz_candidacy_bond : Z;
  fuzz_desired_candidates : Z;
  fuzz_sudo : option FuzzAccount;
}.
(** The authority keys are those of the byte they are made of. *)
Definition initial_authorities : list (FuzzAccount * Z) := [(account_of_byte 0, 0)].
Definition genesis_storage : FuzzGenesis :=
  {| fuzz_balances := (λ k, (k, Z.shiftl 1 60)) <$> endowed_accounts;
     fuzz_session_keys := (λ x, (fst x, fst x, snd x)) <$> initial_authorities;
     fuzz_invulnerables := fst <$> initial_authorities;
     fuzz_candidacy_bond := Z.shiftl 1 57;
     fuzz_desired_candidates := 1;
     fuzz_sudo := Some (account_of_byte 0) |}.

(** The header a block is initialized with: the only digest is the slot of Aura. *)
Record NewHeader : Type := mkNewHeader {
  number : Z;
  parent_hash : HeaderHash;
  aura_slot : option Z;
}.

(** [ParachainInherentData], as it is filled in. *)
Record ValidationData : Type := mkValidationData {
  parent_head : Header + NewHeader;
  para_id : Z;
  relay_slot : Z;
  relay_parent_number : Z;
  max_pov_size : Z;
}.

(** What is read of a [frame_system::AccountInfo]. *)
Record AccountInfo : Type := mkAccountInfo {
  consumers : Z;
  providers : Z;
  free : Z;
  reserved : Z;
  frozen : Z;
}.

(** The calls of library functions; a boolean answers whether a result was [Ok]. *)
Inductive fuzz_call : Type → Type :=
  | externalities_new (g : FuzzGenesis) : fuzz_call unit
  | finalize_block : fuzz_call Header
  | initialize_block (h : NewHeader) : fuzz_call unit
  | set_timestamp (now : Z) : fuzz_call bool
  | set_validation_data (d : ValidationData) : fuzz_call bool
  | dispatch_weight (c : RuntimeCall) : fuzz_call Weight
  | dispatch_call (who : FuzzAccount) (c : RuntimeCall) : fuzz_call unit
  | instant_elapsed : fuzz_call Z
  | try_state (block : Z) : fuzz_call bool
  | all_accounts : fuzz_call (list (FuzzAccount * AccountInfo))
  | locks (who : FuzzAccount) : fuzz_call (list Z)
  | holds (who : FuzzAccount) : fuzz_call (list Z)
  | total_issuance : fuzz_call Z
  | integrity_test : fuzz_call unit.

(** The harness panics, it returns no errors. *)
Abbreviation fuzz := (prog fuzz_call Empty_set).

(** [assert!] and [unwrap], and sums of [u32] and of [u128] with overflow checks. *)
Definition assert (b : bool) : fuzz unit := if b then mret tt else Panics.
Definition u32_add (a b : Z) : fuzz Z := if a + b <=? u32_MAX then mret (a + b) else Panics.

Definition balance_add (a b : Z) : fuzz Z := if a + b <=? u128_MAX then mret (a + b) else Panics.
(** A [Duration] in nanoseconds: a sum whose seconds do not fit a [u64] panics. *)
Definition as_secs (d : Z) : Z := d / 1000000000.
Definition duration_add (a b : Z) : fuzz Z := if as_secs (a + b) <=? u64_MAX then mret (a + b) else Panics.

Fixpoint balance_sum (acc : Z) (l : list Z) : fuzz Z :=
  match l with [] => mret acc | x :: l => acc ← balance_add acc x; balance_sum acc l end.

(** [max_weight]. *)
Definition max_weight : Weight := from_parts (WEIGHT_REF_TIME_PER_SECOND * 2) 0.

(** The timestamp of a block. *)
Definition timestamp_of (block : Z) : Z := INITIAL_TIMESTAMP + block * SLOT_DURATION.

(** The closure [start_block]. *)
Definition start_block (block lapse : Z) : fuzz unit :=
  next_block ← u32_add block lapse;
  let current_timestamp := timestamp_of next_block in
  let pre_digest := if current_timestamp =? INITIAL_TIMESTAMP then None else Some (current_timestamp / SLOT_DURATION) in
  prev_header ← (if next_block =? 1 then mret None else h ← call finalize_block; mret (Some h));
  number ← u32_add next_block 1;
  let parent_header := mkNewHeader number (default default_hash (option_map header_hash prev_header)) pre_digest in
  _ ← call (initialize_block parent_header);
  ok ← call (set_timestamp current_timestamp);
  _ ← assert ok;
  let parent_head := match prev_header with Some h => inl h | None => inr parent_header end in
  ok ← call (set_validation_data
               (mkValidationData parent_head 100 (2 * current_timestamp / SLOT_DURATION) next_block 1000));
  assert ok.

(** The state of the loop over the extrinsics. *)
Record LoopState : Type := mkLoopState {
  current_block : Z;
  current_weight : Weight;
  elapsed : Z;
}.

(** One iteration of [for (maybe_lapse, origin, extrinsic) in extrinsics]. *)
Definition run_extrinsic (s : LoopState) (x : option Z * Z * RuntimeCall) : fuzz LoopState :=
  let '(maybe_lapse, origin, extrinsic) := x in
  s ← match maybe_lapse with
      | Some lapse =>
        _ ← start_block (current_block s) lapse;
        block ← u32_add (current_block s) lapse;
        mret (mkLoopState block (from_parts 0 0) 0)
      | None => mret s
      end;
  call_weight ← call (dispatch_weight extrinsic);
  let weight := weight_add (current_weight s) call_weight in
  if ref_time max_weight <=? ref_time weight then mret (mkLoopState (current_block s) weight (elapsed s))
  else
    origin_account ← expect (endowed_accounts !! Z.to_nat (origin mod len endowed_accounts));
    _ ← call (dispatch_call origin_account extrinsic);
    time ← call instant_elapsed;
    time ← duration_add (elapsed s) time;
    mret (mkLoopState (current_block s) weight time).

Fixpoint run_extrinsics (s : LoopState) (xs : list (option Z * Z * RuntimeCall)) : fuzz LoopState :=
  match xs with
  | [] => mret s
  | x :: xs => s ← run_extrinsic s x; run_extrinsics s xs
  end.

(** The loop over the accounts in the end, with the sums [counted_free] and
    [counted_reserved]. *)
Fixpoint check_accounts (accounts : list (FuzzAccount * AccountInfo)) (counted_free counted_reserved : Z)
    : fuzz (Z * Z) :=
  match accounts with
  | [] => mret (counted_free, counted_reserved)
  | (who, info) :: accounts =>
    _ ← assert (negb ((0 <? consumers info) && (providers info =? 0)));
    counted_free ← balance_add counted_free (free info);
    counted_reserved ← balance_add counted_reserved (reserved info);
    locked ← call (locks who);
    _ ← assert (foldr Z.max 0 locked =? frozen info);
    held ← call (holds who);
    sum_holds ← balance_sum 0 held;
    _ ← assert (sum_holds <=? reserved info);
    check_accounts accounts counted_free counted_reserved
  end.

(** [ziggy::fuzz!], after [extract_extrinsics]. *)
Definition fuzz_one (extrinsics : list (option Z * Z * RuntimeCall)) : fuzz unit :=
  match extrinsics with
  | [] => mret tt
  | _ =>
    _ ← call (externalities_new genesis_storage);
    _ ← start_block 1 0;
    s ← run_extrinsics (mkLoopState 1 (from_parts 0 0) 0) extrinsics;
    _ ← assert (as_secs (elapsed s) <=? MAX_TIME_FOR_BLOCK);
    _ ← call finalize_block;
    ok ← call (try_state (current_block s));
    _ ← assert ok;
    accounts ← call all_accounts;
    counted ← check_accounts accounts 0 0;
    issuance ← call total_issuance;
    counted_issuance ← balance_add (fst counted) (snd counted);
    _ ← assert (issuance <=? counted_issuance);
    call integrity_test
  end.

(** * Properties *)

Context {L : SpWeightsLaws W}.

(** A weight has a [u64] of reference time. *)
Definition fuzz_answers X (e : fuzz_call X) : X → Prop :=
  match e in fuzz_call X return X → Prop with
  | dispatch_weight _ => λ w, in_width u64_MAX (ref_time w)
  | _ => λ _, True
  end.

(** The rule of the harness on a trace: [acc] is the reference time of all calls weighed
    in the current block, [due] the call that has to be dispatched next. *)
Fixpoint obeys (acc : Z) (due : option RuntimeCall) (tr : list (performed fuzz_call)) : Prop :=
  match tr with
  | [] => due = None
  | Performed e x :: tr =>
    (match e in fuzz_call X return X → Prop with
     | initialize_block _ => λ _, due = None ∧ obeys 0 None tr
     | dispatch_weight c => λ w, due = None ∧
         obeys (acc + ref_time w) (if acc + ref_time w <? ref_time max_weight then Some c else None) tr
     | dispatch_call who c => λ _, due = Some c ∧ who ∈ endowed_accounts ∧ obeys acc None tr
     | _ => λ _, due = None ∧ obeys acc None tr
     end) x
  end.

(** The timestamps that were set. *)
Definition timestamp (p : performed fuzz_call) : option Z :=
  match p with Performed (set_timestamp now) _ => Some now | _ => None end.
Definition timestamps (tr : list (performed fuzz_call)) : list Z := omap timestamp tr.

(** The order of the timestamps: with [strict], two blocks never have the same. *)
Context (strict : bool).
Definition increasing (a b : Z) : Prop := if strict then a < b else a ≤ b.

(** After [tr] the rule is kept with [acc] and [due], and the timestamps have grown to at
    most that of [block]. *)
Record follows (acc : Z) (due : option RuntimeCall) (block : Z) (tr : list (performed fuzz_call)) : Prop := {
  follows_rule rest : obeys acc due rest → obeys 0 None (tr ++ rest);
  follows_sorted : StronglySorted increasing (timestamps tr);
  follows_last : Forall (λ t, t ≤ timestamp_of block) (timestamps tr);
}.

Lemma follows_nil : follows 0 None 0 [].
Proof. split; [done | constructor | constructor]. Qed.

Lemma follows_snoc acc due acc' due' block tr p :
  follows acc due block tr → timestamp p = None →
  (∀ rest, obeys acc' due' rest → obeys acc due (p :: rest)) → follows acc' due' block (tr ++ [p]).
Proof.
  intros [Hr Hs Hl] Hp Hstep. unfold timestamps. split; unfold timestamps; rewrite ?omap_app; cbn; rewrite ?Hp, ?app_nil_r; try done.
  intros rest Hrest. rewrite <- app_assoc. apply Hr, Hstep, Hrest.
Qed.

Lemma follows_time acc block block' tr ok :
  follows acc None block tr → increasing block block' →
  follows acc None block' (tr ++ [Performed (set_timestamp (timestamp_of block')) ok]).
Proof.
  intros [Hr Hs Hl] Hb.
  assert (increasing (timestamp_of block) (timestamp_of block') ∧ timestamp_of block ≤ timestamp_of block') as [Ht Hle]
    by (unfold increasing, timestamp_of, SLOT_DURATION, MILLISECS_PER_BLOCK in *; destruct strict; lia).
  split; unfold timestamps; rewrite ?omap_app; cbn.
  - intros rest Hrest. rewrite <- app_assoc. by apply Hr.
  - apply StronglySorted_app_2; [|done | repeat constructor]. intros x y Hx ->%list_elem_of_singleton.
    pose proof (proj1 (Forall_forall _ _) Hl x Hx) as Hxle. cbn in Hxle. unfold increasing in *. destruct strict; lia.
  - apply Forall_app_2; [|by apply Forall_singleton]. eapply Forall_impl; [exact Hl|]. cbn. lia.
Qed.

(** A call that the rule does not speak of. *)
Lemma follows_other acc block tr p :
  follows acc None block tr → timestamp p = None →
  (∀ rest, obeys acc None rest → obeys acc None (p :: rest)) → follows acc None block (tr ++ [p]).
Proof. intros. by eapply follows_snoc. Qed.

(** What is claimed of a trace, wherever the run ends. *)
Definition valid (tr : list (performed fuzz_call)) : Prop := obeys 0 None tr ∧ StronglySorted increasing (timestamps tr).

Lemma follows_valid acc block tr : follows acc None block tr → valid tr.
Proof. intros [Hr Hs _]. split; [|done]. specialize (Hr [] eq_refl). by rewrite app_nil_r in Hr. Qed.

(** A run that either ends with a value in [P] or has panicked, with a valid trace. *)
Definition goes_on {A} (P : A → list (performed fuzz_call) → Prop) (tr : list (performed fuzz_call))
    (o : ending Empty_set A) : Prop :=
  match o with Finished a => P a tr | _ => valid tr end.

Lemma goes_on_bind {A B} (m : fuzz A) (k : A → fuzz B) P Q tr :
  always fuzz_answers m tr (goes_on P) → (∀ a tr', P a tr' → always fuzz_answers (k a) tr' (goes_on Q)) →
  always fuzz_answers (m ≫= k) tr (goes_on Q).
Proof.
  intros Hm Hk. apply always_bind. eapply always_mono; [exact Hm|]. intros tr' [a|[]|] Ho; [by apply Hk | done].
Qed.

(** The steps of the harness that make no call. *)
Lemma assert_goes_on b P tr : P tt tr → valid tr → always fuzz_answers (assert b) tr (goes_on P).
Proof. by destruct b. Qed.
Lemma u32_add_goes_on a b P tr : P (a + b) tr → valid tr → always fuzz_answers (u32_add a b) tr (goes_on P).
Proof. unfold u32_add. by destruct (_ <=? _). Qed.
Lemma balance_add_goes_on a b (P : Z → list (performed fuzz_call) → Prop) tr :
  (∀ x, P x tr) → valid tr → always fuzz_answers (balance_add a b) tr (goes_on P).
Proof. unfold balance_add. destruct (_ <=? _); cbn; auto. Qed.

Ltac quiet := apply follows_other; [|done|done].

Lemma start_block_follows acc block0 block lapse tr :
  follows acc None block0 tr → increasing block0 (block + lapse) →
  always fuzz_answers (start_block block lapse) tr (goes_on (λ _, follows 0 None (block + lapse))).
Proof.
  intros Hf Hb. unfold start_block.
  apply (goes_on_bind _ _ (λ n tr', n = block + lapse ∧ tr' = tr)); [by apply u32_add_goes_on; [|eapply follows_valid]|].
  intros next tr' [-> ->]. cbv zeta.
  apply (goes_on_bind _ _ (λ _, follows acc None block0)).
  { destruct (_ =? _); [done|]. intros h _. cbn. by quiet. }
  clear tr Hf. intros prev tr Hf.
  apply (goes_on_bind _ _ (λ _, follows acc None block0)); [by apply u32_add_goes_on; [|eapply follows_valid]|].
  clear tr Hf. intros n tr Hf. cbn. intros u _ ok _.
  assert (∀ x y, follows 0 None (block + lapse) ((tr ++ [Performed (initialize_block x) u]) ++
    [Performed (set_timestamp (timestamp_of (block + lapse))) y])) as Hf'.
  { intros x y. apply (follows_time 0 block0); [|done]. by eapply follows_snoc. }
  destruct ok; cbn; [|by eapply follows_valid]. intros [] _; cbn; [by quiet | eapply follows_valid; by quiet].
Qed.

(** The state of the loop and the trace. *)
Definition loop_ok (s : LoopState) (tr : list (performed fuzz_call)) : Prop :=
  ∃ acc, 0 ≤ acc ∧ ref_time (current_weight s) = Z.min acc u64_MAX ∧ follows acc None (current_block s) tr.

Lemma endowed_lookup origin :
  ∃ who, endowed_accounts !! Z.to_nat (origin mod len endowed_accounts) = Some who ∧ who ∈ endowed_accounts.
Proof.
  assert (0 ≤ origin mod 5 < 5) as Hm by (apply Z.mod_pos_bound; lia).
  destruct (lookup_lt_is_Some_2 endowed_accounts (Z.to_nat (origin mod len endowed_accounts))) as [who Hw].
  { unfold endowed_accounts, len in *. rewrite length_fmap. cbn. cbn in Hm. lia. }
  exists who. split; [done|]. by eapply list_elem_of_lookup_2.
Qed.

Lemma max_weight_time : ref_time max_weight = 2000000000000.
Proof. unfold max_weight. by rewrite ref_time_from_parts, ref_time_per_second. Qed.

(** The part of an iteration after the block was chosen. *)
Lemma run_call_ok s origin extrinsic tr :
  loop_ok s tr → always fuzz_answers (run_extrinsic s (None, origin, extrinsic)) tr (goes_on loop_ok).
Proof.
  intros (acc & Hacc & Hw & Hf). unfold run_extrinsic, mbind, prog_mbind, call, mret, prog_mret.
  cbn [prog_bind always]. intros w Hwidth. cbn in Hwidth. unfold in_width in Hwidth.
  assert (ref_time (weight_add (current_weight s) w) = Z.min (acc + ref_time w) u64_MAX) as Hsum.
  { rewrite ref_time_add, Hw. unfold saturating_add. lia. }
  pose proof max_weight_time as Hmax. assert (2000000000000 ≤ u64_MAX) by done.
  destruct (Z.leb_spec (ref_time max_weight) (ref_time (weight_add (current_weight s) w))) as [Hle|Hlt].
  - exists (acc + ref_time w). split_and!; [lia | done|]. eapply follows_snoc; [done | done|].
    intros rest Hrest. cbn. split; [done|]. by rewrite (proj2 (Z.ltb_ge _ _)) by lia.
  - destruct (endowed_lookup origin) as (who & Hwho & Hin). rewrite Hwho. cbn [expect prog_bind always]. intros u _ time _.
    match goal with |- always _ _ ?tr' _ => assert (follows (acc + ref_time w) None (current_block s) tr') as Hf' end.
    { quiet. apply (follows_snoc (acc + ref_time w) (Some extrinsic)); [|done | done].
      eapply follows_snoc; [done | done|]. intros rest Hrest. cbn. split; [done|].
      by rewrite (proj2 (Z.ltb_lt _ _)) by lia. }
    unfold duration_add. destruct (_ <=? _); cbn; [|by eapply follows_valid].
    exists (acc + ref_time w). split_and!; [lia | done | exact Hf'].
Qed.

Definition lapses (xs : list (option Z * Z * RuntimeCall)) : list Z := omap (λ x, fst (fst x)) xs.

Lemma run_extrinsics_ok xs s tr :
  Forall (increasing 0) (lapses xs) → loop_ok s tr → always fuzz_answers (run_extrinsics s xs) tr (goes_on loop_ok).
Proof.
  revert s tr. induction xs as [|[[lapse origin] extrinsic] xs IH]; intros s tr Hl Hs; [done|].
  cbn [run_extrinsics]. assert (Forall (increasing 0) (lapses xs)) as Hl'.
  { unfold lapses in Hl. cbn in Hl. destruct lapse; [by apply Forall_cons in Hl as [_ ?] | done]. }
  eapply goes_on_bind; [|intros; by apply IH]. destruct lapse as [lapse|]; [|by apply run_call_ok].
  apply Forall_cons in Hl as [Hpos _]. cbn in Hpos.
  change (run_extrinsic s (Some lapse, origin, extrinsic)) with
    ((_ ← start_block (current_block s) lapse; block ← u32_add (current_block s) lapse;
      mret (mkLoopState block (from_parts 0 0) 0)) ≫= λ s, run_extrinsic s (None, origin, extrinsic)).
  apply (goes_on_bind _ _ loop_ok); [|intros; by apply run_call_ok].
  destruct Hs as (acc & _ & _ & Hf).
  eapply goes_on_bind; [eapply start_block_follows; [exact Hf | unfold increasing in *; destruct strict; lia]|]. cbn. intros _ tr' Hf'.
  apply (goes_on_bind _ _ (λ n tr'', n = current_block s + lapse ∧ tr'' = tr')).
  { by apply u32_add_goes_on; [|eapply follows_valid]. }
  intros n tr'' [-> ->]. exists 0. cbn [current_weight current_block]. by rewrite ref_time_from_parts.
Qed.

(** A program without a call that the rule speaks of. *)
Definition ruled X (e : fuzz_call X) : bool :=
  match e with initialize_block _ | dispatch_weight _ | dispatch_call _ _ | set_timestamp _ => true | _ => false end.

Lemma follows_unruled {A} (m : fuzz A) acc block tr :
  avoids ruled m → follows acc None block tr → always fuzz_answers m tr (goes_on (λ _, follows acc None block)).
Proof.
  revert tr. induction m as [a|[]| |X e k IH]; intros tr Hm Hf; cbn; [done | by eapply follows_valid|].
  destruct Hm as [He Hm]. intros x _. apply IH; [done|]. destruct e; try done; by quiet.
Qed.

Lemma balance_sum_unruled x l : avoids ruled (balance_sum x l).
Proof. revert x. induction l as [|y l IH]; intros x; cbn; [done|]. unfold balance_add. apply avoids_bind; [by avoids_step|auto]. Qed.

Lemma check_accounts_unruled accounts x y : avoids ruled (check_accounts accounts x y).
Proof.
  revert x y. induction accounts as [|[who info] accounts IH]; intros x y; cbn [check_accounts]; [done|].
  unfold assert, balance_add. repeat first [apply balance_sum_unruled | apply IH | avoids_step].
Qed.

Lemma fuzz_one_valid extrinsics tr o :
  Forall (increasing 0) (lapses extrinsics) → runs fuzz_answers (fuzz_one extrinsics) tr o → valid tr.
Proof.
  intros Hl Hr.
  enough (always fuzz_answers (fuzz_one extrinsics) [] (goes_on (λ _, valid))) as Ha.
  { apply (runs_always fuzz_answers) with (Q := goes_on (λ _, valid)) in Hr; [|done]. by destruct o as [|[]|]. }
  destruct extrinsics as [|x xs]; [split; [done | constructor]|]. unfold fuzz_one.
  apply (goes_on_bind _ _ (λ _, follows 0 None 0)); [intros u _; apply (follows_other 0 0 []); [apply follows_nil | done | done]|].
  intros _ tr1 Hf.
  eapply goes_on_bind; [eapply (start_block_follows 0 0 1 0); [done | unfold increasing; destruct strict; lia]|].
  clear tr1 Hf. cbn beta. intros _ tr1 Hf.
  apply (goes_on_bind _ _ loop_ok).
  { apply run_extrinsics_ok; [done|]. exists 0. cbn [current_weight current_block]. by rewrite ref_time_from_parts. }
  clear tr1 Hf. intros s tr1 (acc & _ & _ & Hf). eapply always_mono; [eapply follows_unruled; [|exact Hf]|].
  - unfold assert, balance_add. repeat first [apply check_accounts_unruled | avoids_step].
  - intros tr2 [u|[]|] Ho; [by eapply follows_valid | done].
Qed.
End fuzzer.

Section blocks.
Context {W : SpWeights} {F : FuzzedRuntime} {L : SpWeightsLaws W}.

(** C38: how the fuzzer fills blocks.  In every run on a sequence of calls, whether it ends
    or panics: a call is dispatched, right after it was weighed and for one of the endowed
    accounts, if and only if the calls weighed in this block so far, itself included, take
    less than two seconds of reference time; a new block starts from zero.  The timestamps
    of the blocks never decrease, and increase strictly when all lapses are positive; a
    lapse of zero repeats the timestamp. *)
Theorem fuzz_blocks_within_weight extrinsics tr o :
  Forall (in_width u32_MAX) (lapses extrinsics) → runs fuzz_answers (fuzz_one extrinsics) tr o →
  obeys 0 None tr ∧ StronglySorted Z.le (timestamps tr) ∧
  (Forall (λ n, 0 < n) (lapses extrinsics) → StronglySorted Z.lt (timestamps tr)) ∧
  ref_time max_weight = 2 * WEIGHT_REF_TIME_PER_SECOND.
Proof.
  intros Hl Hr. split_and!.
  - apply (fuzz_one_valid false extrinsics tr o); [|done]. eapply Forall_impl; [exact Hl|]. by intros n [? _].
  - apply (fuzz_one_valid false extrinsics tr o); [|done]. eapply Forall_impl; [exact Hl|]. by intros n [? _].
  - intros Hpos. by apply (fuzz_one_valid true extrinsics tr o).
  - unfold max_weight. rewrite ref_time_from_parts. lia.
Qed.
End blocks.

(** * A concrete runtime *)

#[local] Instance SampleFuzzed : FuzzedRuntime (W := SampleWeights) := {|
  RuntimeCall := Z;
  FuzzAccount := Z;
  account_of_byte b := b;
  Header := unit;
  HeaderHash := unit;
  default_hash := tt;
  header_hash _ := tt;
  INITIAL_TIMESTAMP := 1700000000000;
  MAX_TIME_FOR_BLOCK := 6;
|}.

(** A call is its own weight in reference time; all checks succeed. *)
Definition sample_fuzz_answer X (e : fuzz_call (F := SampleFuzzed) X) : X :=
  match e in fuzz_call X return X with
  | externalities_new _ => tt
  | finalize_block => tt
  | initialize_block _ => tt
  | set_timestamp _ => true
  | set_validation_data _ => true
  | dispatch_weight c => (Z.max 0 (Z.min c u64_MAX), 0)
  | dispatch_call _ _ => tt
  | instant_elapsed => 1
  | try_state _ => true
  | all_accounts => []
  | locks _ => []
  | holds _ => []
  | total_issuance => 0
  | integrity_test => tt
  end.

(** The run on a sequence in which a block is started with the lapse [n]. *)
Definition sample_run (n : Z) :=
  interpret sample_fuzz_answer
    (fuzz_one ([(None, 7, 1500000000000); (None, 2, 600000000000); (Some n, 4, 600000000000)]
       : list (option Z * Z * RuntimeCall (FuzzedRuntime := SampleFuzzed)))).

Lemma fuzz_blocks_within_weight_witness :
  let r := sample_run 3 in
  (obeys 0 None r.1 ∧ StronglySorted Z.le (timestamps r.1) ∧
   (Forall (λ n, 0 < n) [3] → StronglySorted Z.lt (timestamps r.1)) ∧
   ref_time max_weight = 2 * WEIGHT_REF_TIME_PER_SECOND (SpWeights := SampleWeights)) ∧ r.2 = Finished tt.
Proof.
  intros r. split; [|by vm_compute].
  apply (fuzz_blocks_within_weight (F := SampleFuzzed) [(None, 7, 1500000000000); (None, 2, 600000000000);
    (Some 3, 4, 600000000000)] r.1 r.2); [by repeat constructor|].
  apply interpret_runs. intros X e. destruct e; cbn; try exact I. unfold in_width, u64_MAX. lia.
Defined.

(** The strict order needs positive lapses: a lapse of zero sets the same timestamp again. *)
Lemma zero_lapse_repeats : ∃ t, timestamps (sample_run 0).1 = [t; t].
Proof. eexists. vm_compute. reflexivity. Qed.
